(* ===== verification/_CoqProject ===== *)
-Q . S2P
Prelude.v
Machine.v
CString.v
Bitmap.v
Print.v
Screen.v
Interrupt.v
KList.v
Paging.v
State.v
Sched.v
Timer.v
Sync.v
LockSystem.v
Pool.v
Palloc.v
Vmap.v
Arena.v
Heap.v
Malloc.v
MemInit.v
Loader.v
Console.v
Messages.v
PageDir.v
Elf.v
Syscall.v
Tss.v
Entry.v
Thread.v
Process.v
Ioqueue.v
Keyboard.v
Ide.v
Client.v
Main.v
Start.v
