(* ===== verification/Prelude.v ===== *)
(** * chuj-elephant-os: a verification library

    The repository is a small 32-bit x86 kernel in C and assembly: boot stages, interrupts, a preemptive
    scheduler with locks, paging with two page pools, a byte allocator, a keyboard driver, system calls
    and the first user processes.  This library translates its code (paths below are relative to
    src/source/) into executable definitions and proves what the code promises, and where it does not
    keep a promise, what it does instead.

    ** How code is translated

    A C function is a value of [M S A]: a function of the state [S] that returns a result and a new
    state ([Ret]), or stops: [Panic f n] is a failed [ASSERT] or a [PANIC] at line [n] of function
    [f] (debug.c spins for ever there), [Fault a] an access to memory that is not there, [Halt] a
    deliberate endless loop of a handler, [Timeout] a loop whose bound [fuel] ran out.  Sequencing
    is [let*] and [;;;], a loop is [iter fuel body locals].  Unsigned arithmetic wraps by [u8], [u16],
    [u32]; signed values are read by [s8], [s32].  A loop over a count has the count plus one as its
    fuel, so it cannot time out; loops that end at a terminator, and loops that wait for another
    thread, take [fuel] as an argument and their theorems say how much is enough.  Assembly is
    translated with a register as a local of the code that uses it.

    Layers of state: [Machine.machine] (linear memory by byte, flags, port writes, screen),
    [Paging.paging] (the physical memory page tables live in, and [cr3]), [State.kernel] (these two
    and the C objects of thread/, kernel/memory.c and device/ as records), [Keyboard.kb] (a kernel with
    the keyboard driver and the interrupt tables), [Start.os] (these with the system call table and the
    processor's table registers), [LockSystem.system] (a kernel and the control point of every thread),
    [Messages.world] (that and the console call every thread is in).
    A component's code runs on its own layer and is lifted by [zoom] ([on_mach], [on_pg], [on_krn],
    [on_dev], [in_kernel]).

    ** Files

    Foundations:
    - Prelude: the monad, its total-correctness triple [wp], widths, shared lemmas and tactics.
    - Machine: byte memory, words, ports.
    - CString (lib/string.c), Bitmap (lib/kernel/bitmap.c), Print (lib/kernel/print.c), KList
      (lib/kernel/list.c): the libraries, on byte memory.
    - Screen (lib/kernel/print_asm.S): [sys_putchar] on video memory and cursor registers, against a
      terminal.
    - Interrupt (kernel/interrupt.c): interrupt flag, IDT, exceptions, PIC.
    - Paging (kernel/memory.c): page table pointers, translation, mapping and unmapping of an entry,
      against the two-level walk of the processor.
    - State (thread/thread.h, thread/sync.h, kernel/memory.h, device/ioqueue.h): the kernel's data.

    Threads:
    - Sched (thread/thread.c, thread/switch.S, the address space switch of userprog/process.c and
      userprog/tss.c): the scheduler.  Timer (device/timer.c): the clock.
    - Sync (thread/sync.c): semaphores and locks as one thread sees them; LockSystem: the same code
      cut into the steps at which interrupts can come, as a transition system of all threads.
    - Thread (thread/thread.c): creation of threads and the main thread.

    Memory (kernel/memory.c):
    - Pool: the pools of frames and virtual pages, and their invariant [mem_ok]; Palloc: [palloc] and
      [pfree]; Vmap: [VirtualAddrMapping].
    - Arena: the byte allocator's code; Heap: its invariant [heap_ok]; Malloc: [sys_malloc] and
      [sys_free]; MemInit: [VmemInit].
    - Client: what a program that uses the allocator holds, against the interface [Allocator], which
      [sys_malloc] and the system calls implement.

    Boot and interrupts:
    - Loader ([SetupPage]) and Elf ([KernelInit]) of boot/loader.S.
    - Entry (kernel/kernel.S): the stack frame of an interrupt, in and out.

    Processes and system calls:
    - PageDir ([CreatPDE]) and Process of userprog/process.c; Tss (userprog/tss.c).
    - Console (device/console.c): printing under the console's lock, as one thread sees it; Messages: the
      same functions in the system of LockSystem.  Syscall (lib/user/, kernel/kernel.S).

    Devices and programs:
    - Ioqueue (device/ioqueue.c) and Keyboard (device/keyboard.c): the input path.  Ide (device/ide.c).
    - Main (kernel/main.c): the threads and programs the kernel runs.
    - Start (kernel/init.c, kernel/debug.c, [_start] of kernel/main.c): the whole system's start.

    KList proves once that the pointer code of list.c implements the operations on sequences
    ([seq_op]); the thread lists are used as sequences through [on_list], the allocator's free lists as
    pointers in memory.  A thread that is switched away in the middle of a function comes back in the
    state the parameter [others] gives; LockSystem is where the other threads are modelled.

    ** What the theorems show

    - Start: from the state the loader leaves, [_start] reaches its endless loop with two processes and
      the keyboard thread ready, interrupts on and every component's invariant established, for each
      memory size the bounds theorem allows.  [SetupPage] makes the address space this relies on, when
      the memory it does not clear is clear; [KernelInit] loads the segments of an ELF file.
    - Locks: whatever the interleaving of lock calls and clock interrupts, no two threads are inside
      one lock, no assertion fails except for the missing idle thread, no wake-up is lost; nested
      calls restore the state.
    - Scheduling: [ScheduleThread] and the clock handler keep the invariant of the run queue, every
      ready thread runs within one round, a thread is preempted one tick after its slice is used up (it
      runs [priority + 1] ticks per round).  A new thread or process has the frame of its first switch,
      which starts it at its function with the right stack.
    - Interrupts and system calls: the interrupted code goes on with every register as it was, except
      after the exceptions with an error code, which their entries do not expect; a system
      call only sets eax; the four stubs do what the kernel's functions promise.
    - Memory: the page allocator keeps frames, page tables and mapped pages apart, and gives back what
      it took; the byte allocator returns zeroed blocks that overlap no block in use, of all sizes, and
      takes them back, with the last block of a page the page; a new page directory shares the kernel's half and nothing else.  The programs of
      main.c never fail for lack of anything but pages, and leave the heap as they found it.
    - Input and output: the ring buffer is a bounded queue; the text typed is the text read, and what
      [KeyboardOutput] shows; a reader that sleeps makes the next key press panic; messages printed
      under the console's lock come out whole; the screen is a terminal that a backspace in its first
      cell breaks.
    - Libraries: the list code refines sequences, the string functions and the number printing meet
      their specifications, a bitmap search is a first fit that always ends.
    - Set-up: the IDT, the interrupt controllers, the timer, the segments and the disk channels receive
      the values the code computes, right or wrong.

    ** Bounds and fuel

    [VmemInit] is treated for 2 MB to 2040 MB of memory, [_start] from 2.8 MB on while the bitmaps end below the
    main thread's PCB.  Searching a bitmap, clearing and copying take as much fuel as there are bytes;
    [sys_malloc] needs 255 rounds, the most blocks in a page; waiting loops need one round more when the
    condition they wait for holds at the start.

    ** Not modelled

    - boot/mbr.S and the rest of boot/loader.S: BIOS calls in real mode, disk reads, mode switches.
    - lib/stdio.c: three macros that nothing uses.  device/ide.c is modelled although the build leaves
      it out; what it needs and the repository does not have is a parameter.
    - The translation look-aside buffer is a trace of [invlpg] operands only.
    - [ram] is one linear memory.  The page tables of each process are kept apart, but the bytes of user
      pages are not switched with the address space: theorems about a process speak of its own run.
    - Interrupts inside a function that does not wait for a lock: LockSystem has them for the lock code,
      Messages between the characters of a message, [Main.run_events] for key presses between two rounds of [KeyboardOutput]; elsewhere a function
      runs undisturbed.
    - Characters go to the trace [tty]; Screen says what the screen makes of them. *)
From stdpp Require Import base list gmap strings.
From Stdlib Require Export ZArith Lia ZifyBool ZifyNat.

#[global] Open Scope Z_scope.
#[export] Set Warnings "-clear-no-such-hyp".

(** ** Machine-width integers

    The kernel is compiled with [gcc -m32]: [int] and pointers are 32 bits, [char] is signed. *)

Definition u8 (z : Z) : Z := z mod 2 ^ 8.
Definition u16 (z : Z) : Z := z mod 2 ^ 16.
Definition u32 (z : Z) : Z := z mod 2 ^ 32.

(** [sN z] reads the low bits of [z] as a two's complement number. *)
Definition s8 (z : Z) : Z := if u8 z <? 2 ^ 7 then u8 z else u8 z - 2 ^ 8.
Definition s32 (z : Z) : Z := if u32 z <? 2 ^ 31 then u32 z else u32 z - 2 ^ 32.

(** [C] booleans: [0] is false, everything else is true. *)
Definition c_bool (b : bool) : Z := if b then 1 else 0.
Definition is_true_c (z : Z) : bool := negb (z =? 0).

(** ** Outcomes

    A failed [ASSERT] (and [PANIC]) calls [PanicSpin], which never returns: [Panic] records the
    function and line it is called from.  [Fault a] is an access to an address that holds no
    memory, [Halt] a deliberate [while(1)] of a handler, [Timeout] an exhausted loop bound. *)
Inductive outcome (A : Type) : Type :=
| Ret (a : A)
| Panic (func : string) (line : Z)
| Fault (addr : Z)
| Halt
| Timeout.
Arguments Ret {A} a.
Arguments Panic {A} func line.
Arguments Fault {A} addr.
Arguments Halt {A}.
Arguments Timeout {A}.

(** ** A state and error monad *)
Definition M (S A : Type) : Type := S -> outcome (A * S).

Definition ret {S A} (a : A) : M S A := fun s => Ret (a, s).

Definition bind {S A B} (m : M S A) (k : A -> M S B) : M S B := fun s =>
  match m s with
  | Ret (a, s') => k a s'
  | Panic f l => Panic f l
  | Fault a => Fault a
  | Halt => Halt
  | Timeout => Timeout
  end.

Definition get {S} : M S S := fun s => Ret (s, s).
Definition put {S} (s : S) : M S unit := fun _ => Ret (tt, s).
Definition modify {S} (f : S -> S) : M S unit := fun s => Ret (tt, f s).
Definition panic {S A} (func : string) (line : Z) : M S A := fun _ => Panic func line.
Definition fault {S A} (addr : Z) : M S A := fun _ => Fault addr.

(** [ASSERT(cond)] at line [line] of function [func]. *)
Definition ASSERT {S} (cond : bool) (func : string) (line : Z) : M S unit :=
  if cond then ret tt else panic func line.

Declare Scope kernel_scope.
Delimit Scope kernel_scope with kernel.
Notation "'let*' x ':=' m 'in' k" := (bind m (fun x => k))
  (at level 10, x pattern, m at level 100, k at level 200) : kernel_scope.
Notation "m1 ';;;' m2" := (bind m1 (fun _ => m2))
  (at level 100, right associativity) : kernel_scope.
#[global] Open Scope kernel_scope.

(** [iter fuel body l]: a loop whose local variables are [l]; the body either asks for another
    round ([inl]) or leaves the loop ([inr]). *)
Fixpoint iter {S L R} (fuel : nat) (body : L -> M S (L + R)) (l : L) : M S R :=
  match fuel with
  | O => fun _ => Timeout
  | Datatypes.S fuel' =>
      let* x := body l in
      match x with
      | inl l' => iter fuel' body l'
      | inr r => ret r
      end
  end.

(** [zoom get set m] runs [m] on a part of a larger state. *)
Definition zoom {S T A} (g : S -> T) (p : T -> S -> S) (m : M T A) : M S A := fun s =>
  match m (g s) with
  | Ret (a, t) => Ret (a, p t s)
  | Panic f l => Panic f l
  | Fault a => Fault a
  | Halt => Halt
  | Timeout => Timeout
  end.

(** ** Total-correctness triples *)
Definition wp {S A} (m : M S A) (Q : A -> S -> Prop) (s : S) : Prop :=
  match m s with
  | Ret (a, s') => Q a s'
  | _ => False
  end.

Section wp_rules.
  Context {S : Type}.

Lemma wp_ret {A} (a : A) (Q : A -> S -> Prop) s : Q a s -> wp (ret a) Q s.
Proof. done. Qed.

Lemma wp_bind {A B} (m : M S A) (k : A -> M S B) Q s :
  wp m (fun a => wp (k a) Q) s -> wp (bind m k) Q s.
Proof. unfold wp, bind. destruct (m s) as [[a s']| | | |]; done. Qed.

Lemma wp_mono {A} (m : M S A) (P Q : A -> S -> Prop) s :
  wp m P s -> (forall a s', P a s' -> Q a s') -> wp m Q s.
Proof. unfold wp. destruct (m s) as [[a s']| | | |]; auto. Qed.

Lemma wp_elim {A} (m : M S A) Q s :
  wp m Q s -> exists a s', m s = Ret (a, s') /\ Q a s'.
Proof. unfold wp. destruct (m s) as [[a s']| | | |]; try done. eauto. Qed.

Lemma wp_exists (m : M S unit) (P : S -> Prop) s :
  wp m (fun _ s' => P s') s -> exists s', m s = Ret (tt, s') /\ P s'.
Proof. unfold wp. destruct (m s) as [[[] s']| | | |]; try done. eauto. Qed.

Lemma wp_intro {A} (m : M S A) (Q : A -> S -> Prop) s a s' :
  m s = Ret (a, s') -> Q a s' -> wp m Q s.
Proof. unfold wp. intros ->. done. Qed.

Lemma wp_zoom {T A} (g : S -> T) (p : T -> S -> S) (m : M T A) (Q : A -> S -> Prop) s :
  wp m (fun a t => Q a (p t s)) (g s) -> wp (zoom g p m) Q s.
Proof. unfold wp, zoom. destruct (m (g s)) as [[a t]| | | |]; done. Qed.

Lemma wp_ASSERT (c : bool) f l (Q : unit -> S -> Prop) s :
  c = true -> Q tt s -> wp (ASSERT c f l) Q s.
Proof. intros ->. done. Qed.

(** The loop rule: an invariant and a measure below the fuel. *)
Lemma wp_iter {L R} (I : L -> S -> Prop) (mu : L -> nat) (body : L -> M S (L + R))
    (Q : R -> S -> Prop) :
  (forall l s, I l s ->
     wp (body l) (fun x s' =>
       match x with inl l' => I l' s' /\ (mu l' < mu l)%nat | inr r => Q r s' end) s) ->
  forall fuel l s, I l s -> (mu l < fuel)%nat -> wp (iter fuel body l) Q s.
Proof.
  intros Hbody fuel. induction fuel as [|fuel IH]; intros l s HI Hmu; [lia|].
  cbn [iter]. apply wp_bind. eapply wp_mono; [by apply Hbody|].
  intros [l'|r] s'; cbn beta iota; [|by intros].
  intros [HI' Hlt]. apply IH; [done|lia].
Qed.

Lemma bind_Ret {A B} (m : M S A) (k : A -> M S B) s a s' :
  m s = Ret (a, s') -> bind m k s = k a s'.
Proof. unfold bind. by intros ->. Qed.

Lemma bind_Panic {A B} (m : M S A) (k : A -> M S B) s f l :
  m s = Panic f l -> bind m k s = Panic f l.
Proof. unfold bind. by intros ->. Qed.

Lemma bind_assoc {A B C} (m : M S A) (k : A -> M S B) (j : B -> M S C) s :
  bind (bind m k) j s = bind m (fun a => bind (k a) j) s.
Proof. unfold bind. destruct (m s) as [[a s']| | | |]; done. Qed.

Lemma bind_ext {A B} (m : M S A) (k k' : A -> M S B) s :
  (forall a s', k a s' = k' a s') -> bind m k s = bind m k' s.
Proof. intros H. unfold bind. by destruct (m s) as [[a s']| | | |]. Qed.

Lemma iter_S {L R} fuel (body : L -> M S (L + R)) l s x s' :
  body l s = Ret (x, s') ->
  iter (Datatypes.S fuel) body l s =
    match x with inl l' => iter fuel body l' s' | inr r => Ret (r, s') end.
Proof. intros H. cbn [iter]. rewrite (bind_Ret _ _ _ _ _ H). by destruct x. Qed.

Lemma ASSERT_true (c : bool) f l (s : S) : c = true -> ASSERT c f l s = Ret (tt, s).
Proof. by intros ->. Qed.

Lemma ASSERT_false (c : bool) f l (s : S) : c = false -> ASSERT c f l s = Panic f l.
Proof. by intros ->. Qed.

End wp_rules.

(** ** Arithmetic *)
Lemma u8_range z : 0 <= u8 z < 256.
Proof. apply Z.mod_pos_bound. lia. Qed.

Lemma u32_range z : 0 <= u32 z < 2 ^ 32.
Proof. apply Z.mod_pos_bound. lia. Qed.

Lemma u8_id z : 0 <= z < 256 -> u8 z = z.
Proof. intros. unfold u8. apply Z.mod_small. lia. Qed.

Lemma u16_id z : 0 <= z < 2 ^ 16 -> u16 z = z.
Proof. intros. unfold u16. apply Z.mod_small. lia. Qed.

Lemma u32_id z : 0 <= z < 2 ^ 32 -> u32 z = z.
Proof. intros. unfold u32. apply Z.mod_small. lia. Qed.

Lemma s32_id z : - 2 ^ 31 <= z < 2 ^ 31 -> s32 z = z.
Proof.
  intros H. unfold s32, u32.
  destruct (decide (0 <= z)).
  - rewrite Z.mod_small by lia. destruct (Z.ltb_spec z (2 ^ 31)); lia.
  - replace (z mod 2 ^ 32) with (z + 2 ^ 32).
    + destruct (Z.ltb_spec (z + 2 ^ 32) (2 ^ 31)); lia.
    + symmetry. rewrite <- (Z_mod_plus_full z 1). apply Z.mod_small. lia.
Qed.

Lemma u32_s32 z : u32 (s32 z) = u32 z.
Proof.
  unfold s32. destruct (u32 z <? 2 ^ 31).
  - unfold u32. apply Z.mod_mod. lia.
  - unfold u32. rewrite Zminus_mod, Z_mod_same_full, Z.sub_0_r, !Z.mod_mod by lia. done.
Qed.

Lemma u32_u32 z : u32 (u32 z) = u32 z.
Proof. apply Z.mod_mod. lia. Qed.

Lemma s8_inj a b : 0 <= a < 256 -> 0 <= b < 256 -> s8 a = s8 b -> a = b.
Proof.
  intros Ha Hb. unfold s8. rewrite !u8_id by lia.
  destruct (Z.ltb_spec a (2^7)), (Z.ltb_spec b (2^7)); lia.
Qed.

Create HintDb kernel.
#[export] Hint Resolve u8_range u32_range : kernel.

(** Solve side conditions on widths: normalise [u32] of an in-range value, then [lia]. *)
Ltac width := rewrite ?u32_id, ?u8_id, ?u16_id by lia; try lia.

(** ** Lists *)
Lemma lookup_Z_app_l {A} (l k : list A) i :
  0 <= i < Z.of_nat (length l) -> (l ++ k) !! Z.to_nat i = l !! Z.to_nat i.
Proof. intros. apply lookup_app_l. lia. Qed.

(** Filters that keep all, that keep nothing, that keep the same. *)
Lemma filter_all {A} (P : A -> Prop) `{!forall x, Decision (P x)} (l : list A) :
  (forall x, x ∈ l -> P x) -> filter P l = l.
Proof.
  induction l as [|x l IH]; [done|]. intros Hl. rewrite filter_cons_True by (apply Hl; left).
  f_equal. apply IH. intros y Hy. apply Hl. by right.
Qed.

Lemma filter_none {A} (P : A -> Prop) `{!forall x, Decision (P x)} (l : list A) :
  (forall x, x ∈ l -> ~ P x) -> filter P l = [].
Proof.
  induction l as [|x l IH]; [done|]. intros Hl. rewrite filter_cons_False by (apply Hl; left).
  apply IH. intros y Hy. apply Hl. by right.
Qed.

Lemma filter_on {A} (P Q : A -> Prop) `{!forall x, Decision (P x), !forall x, Decision (Q x)} (l : list A) :
  (forall x, x ∈ l -> P x <-> Q x) -> filter P l = filter Q l.
Proof.
  induction l as [|x l IH]; intros Hl; [done|]. rewrite !filter_cons. rewrite IH by (intros y Hy; apply Hl; by right).
  specialize (Hl x ltac:(left)). destruct (decide (P x)), (decide (Q x)); tauto.
Qed.

(** A list of witnesses. *)
Lemma choose_list {A} n (P : nat -> A -> Prop) : (forall i, (i < n)%nat -> exists x, P i x) ->
  exists l, length l = n /\ forall i x, l !! i = Some x -> P i x.
Proof.
  induction n as [|n IH]; intros H; [by exists []|].
  destruct IH as (l & Hl & HP); [intros i Hi; apply H; lia|]. destruct (H n) as [x Hx]; [lia|].
  exists (l ++ [x]). split; [rewrite length_app, Hl; cbn; lia|]. intros i y Hy.
  apply lookup_app_Some in Hy as [Hy|[Hge Hy]]; [by apply HP|].
  apply list_lookup_singleton_Some in Hy as [Hi <-]. replace i with n by lia. done.
Qed.

Lemma forall_below (n : nat) (P : Z -> bool) :
  forallb (fun k => P (Z.of_nat k)) (seq 0 n) = true ->
  forall i, 0 <= i < Z.of_nat n -> P i = true.
Proof.
  rewrite forallb_forall. intros H i Hi. specialize (H (Z.to_nat i)).
  rewrite Z2Nat.id in H by lia. apply H, in_seq. lia.
Qed.

(** Closed comparisons of integers, by evaluation. *)
Ltac zdec := repeat split; vm_compute; congruence.

(** Weaken a [Forall] over integers with [lia]. *)
Ltac forall_lia H :=
  let x := fresh in let Hx := fresh in
  eapply Forall_impl; [exact H|]; intros x Hx; cbv beta in Hx |- *; lia.
