(* ===== verification/Machine.v ===== *)
(** * Byte memory and the part of the CPU the kernel's C code sees

    The kernel runs in a flat 32-bit address space.  [ram] maps the address of every accessible
    byte to its value; an access to an address without a byte is a [Fault] (the page fault handler
    of the kernel never returns).  [int] and pointer fields are four bytes, little endian.
    [eflags] is the CPU flags register, [outs] the trace of port writes and [tty] the characters
    handed to [sys_putchar] (lib/kernel/print_asm.S), both newest first. *)
From stdpp Require Import base list gmap strings.
From S2P Require Import Prelude.

Record machine := Machine {
  ram : gmap Z Z;
  eflags : Z;
  outs : list (Z * Z);
  tty : list Z
}.

Definition set_ram (m : gmap Z Z) (s : machine) : machine := Machine m (eflags s) (outs s) (tty s).
Definition set_eflags (e : Z) (s : machine) : machine := Machine (ram s) e (outs s) (tty s).
Definition set_outs (o : list (Z * Z)) (s : machine) : machine := Machine (ram s) (eflags s) o (tty s).
Definition set_tty (t : list Z) (s : machine) : machine := Machine (ram s) (eflags s) (outs s) t.

(** ** Words in byte memory *)
Definition word (m : gmap Z Z) (a : Z) : option Z :=
  match m !! a, m !! (a + 1), m !! (a + 2), m !! (a + 3) with
  | Some b0, Some b1, Some b2, Some b3 => Some (b0 + 2 ^ 8 * b1 + 2 ^ 16 * b2 + 2 ^ 24 * b3)
  | _, _, _, _ => None
  end.

Definition setw (m : gmap Z Z) (a v : Z) : gmap Z Z :=
  <[a := u8 v]> (<[a + 1 := u8 (v / 2 ^ 8)]>
    (<[a + 2 := u8 (v / 2 ^ 16)]> (<[a + 3 := u8 (v / 2 ^ 24)]> m))).

(** ** Loads and stores *)
Definition ld8 (a : Z) : M machine Z := fun s =>
  match ram s !! a with Some b => Ret (b, s) | None => Fault a end.

Definition st8 (a v : Z) : M machine unit := fun s =>
  match ram s !! a with
  | Some _ => Ret (tt, set_ram (<[a := u8 v]> (ram s)) s)
  | None => Fault a
  end.

Definition ld32 (a : Z) : M machine Z := fun s =>
  match word (ram s) a with Some v => Ret (v, s) | None => Fault a end.

Definition st32 (a v : Z) : M machine unit := fun s =>
  match word (ram s) a with
  | Some _ => Ret (tt, set_ram (setw (ram s) a v) s)
  | None => Fault a
  end.

(** [outb port data] (kernel/io.h). *)
Definition outb (port data : Z) : M machine unit := fun s =>
  Ret (tt, set_outs ((u16 port, u8 data) :: outs s) s).

(** ** Regions of memory *)
Definition readable (m : gmap Z Z) (p n : Z) : Prop := forall a, p <= a < p + n -> is_Some (m !! a).

(** [bytes_at m p l]: the bytes [l] lie at [p]. *)
Definition bytes_at (m : gmap Z Z) (p : Z) (l : list Z) : Prop :=
  forall i b, l !! i = Some b -> m !! (p + Z.of_nat i) = Some b.

Fixpoint write_bytes (m : gmap Z Z) (p : Z) (l : list Z) : gmap Z Z :=
  match l with
  | [] => m
  | b :: l' => write_bytes (<[p := b]> m) (p + 1) l'
  end.

(** Every byte of memory is a byte. *)
Definition ram_ok (m : gmap Z Z) : Prop := map_Forall (fun _ b => 0 <= b < 256) m.

(** Two memories agree outside a set of addresses. *)
Definition same_outside (P : Z -> Prop) (m m' : gmap Z Z) : Prop :=
  forall a, ~ P a -> m' !! a = m !! a.

(** ** Lemmas *)
Lemma set_ram_id s : set_ram (ram s) s = s.
Proof. by destruct s. Qed.

Lemma set_ram_set_ram m m' s : set_ram m (set_ram m' s) = set_ram m s.
Proof. done. Qed.

Lemma ram_set_ram m s : ram (set_ram m s) = m.
Proof. done. Qed.

Lemma word_eq (m m' : gmap Z Z) a :
  (forall i, 0 <= i < 4 -> m' !! (a + i) = m !! (a + i)) -> word m' a = word m a.
Proof.
  intros H. unfold word.
  assert (m' !! a = m !! a) as -> by (specialize (H 0); rewrite !Z.add_0_r in H; apply H; lia).
  by rewrite (H 1), (H 2), (H 3) by lia.
Qed.

Lemma word_readable m a : is_Some (word m a) <-> readable m a 4.
Proof.
  unfold word, readable. split.
  - intros [v Hv] b Hb.
    destruct (m !! a) eqn:H0, (m !! (a + 1)) eqn:H1, (m !! (a + 2)) eqn:H2,
      (m !! (a + 3)) eqn:H3; try done.
    assert (b = a \/ b = a + 1 \/ b = a + 2 \/ b = a + 3) as [->|[->|[->| ->]]] by lia; eauto.
  - intros H.
    destruct (H a) as [? ->]; [lia|]. destruct (H (a + 1)) as [? ->]; [lia|].
    destruct (H (a + 2)) as [? ->]; [lia|]. destruct (H (a + 3)) as [? ->]; [lia|]. eauto.
Qed.

Lemma setw_lookup_out m a v b : (b < a \/ a + 4 <= b) -> setw m a v !! b = m !! b.
Proof. intros. unfold setw. rewrite !lookup_insert_ne by lia. done. Qed.

Lemma setw_is_Some m a v b : is_Some (m !! b) -> is_Some (setw m a v !! b).
Proof.
  intros H. unfold setw. repeat (rewrite lookup_insert; case_decide; [eauto|]). done.
Qed.

Lemma word_setw_ne m a v b : (b + 4 <= a \/ a + 4 <= b) -> word (setw m a v) b = word m b.
Proof. intros. apply word_eq. intros. apply setw_lookup_out. lia. Qed.

Lemma bytes_of_word v :
  0 <= v < 2 ^ 32 ->
  u8 v + 2 ^ 8 * u8 (v / 2 ^ 8) + 2 ^ 16 * u8 (v / 2 ^ 16) + 2 ^ 24 * u8 (v / 2 ^ 24) = v.
Proof.
  intros Hv. unfold u8. change (2 ^ 8) with 256.
  change (2 ^ 16) with (256 * 256). change (2 ^ 24) with (256 * 256 * 256).
  rewrite <- !Z.div_div by lia. change (2 ^ 32) with 4294967296 in Hv.
  pose proof (Z.div_mod v 256). pose proof (Z.div_mod (v / 256) 256).
  pose proof (Z.div_mod (v / 256 / 256) 256).
  rewrite (Z.mod_small (v / 256 / 256 / 256)); [lia|].
  split; [repeat apply Z.div_pos; lia|]. repeat (apply Z.div_lt_upper_bound; [lia|]). lia.
Qed.

Lemma word_setw_eq m a v : 0 <= v < 2 ^ 32 -> word (setw m a v) a = Some v.
Proof.
  intros Hv. unfold word, setw.
  rewrite lookup_insert_eq, !(lookup_insert_ne _ a (a + _)) by lia.
  rewrite lookup_insert_eq, !(lookup_insert_ne _ (a + 1) (a + _)) by lia.
  rewrite lookup_insert_eq, !(lookup_insert_ne _ (a + 2) (a + _)) by lia.
  rewrite lookup_insert_eq. by rewrite bytes_of_word.
Qed.

Lemma setw_readable m a v p n : readable m p n -> readable (setw m a v) p n.
Proof. intros H b Hb. apply setw_is_Some, H, Hb. Qed.

Lemma is_word_setw m a v b : is_Some (word m b) -> is_Some (word (setw m a v) b).
Proof. rewrite !word_readable. apply setw_readable. Qed.

Lemma ram_ok_insert m a b : ram_ok m -> 0 <= b < 256 -> ram_ok (<[a := b]> m).
Proof. intros. by apply map_Forall_insert_2. Qed.

Lemma ram_ok_setw m a v : ram_ok m -> ram_ok (setw m a v).
Proof. intros. unfold setw. repeat apply ram_ok_insert; auto using u8_range. Qed.

Lemma write_bytes_lookup_out m p l a :
  (a < p \/ p + Z.of_nat (length l) <= a) -> write_bytes m p l !! a = m !! a.
Proof.
  revert m p. induction l as [|b l IH]; intros m p H; cbn in *; [done|].
  rewrite IH by lia. apply lookup_insert_ne. lia.
Qed.

Lemma write_bytes_lookup_in m p l i b :
  l !! i = Some b -> write_bytes m p l !! (p + Z.of_nat i) = Some b.
Proof.
  revert m p i. induction l as [|c l IH]; intros m p i H; cbn in *; [done|].
  destruct i as [|i]; cbn in H; simplify_eq.
  - rewrite write_bytes_lookup_out by lia. rewrite Z.add_0_r. apply lookup_insert_eq.
  - replace (p + Z.of_nat (S i)) with (p + 1 + Z.of_nat i) by lia. by apply IH.
Qed.

Lemma write_bytes_at m p l : bytes_at (write_bytes m p l) p l.
Proof. intros i b. apply write_bytes_lookup_in. Qed.

Lemma write_bytes_readable m p l q n : readable m q n -> readable (write_bytes m p l) q n.
Proof.
  revert m p. induction l as [|b l IH]; intros m p H; cbn; [done|].
  apply IH. intros a Ha. rewrite lookup_insert. case_decide; eauto.
Qed.

Lemma write_bytes_app m p l k :
  write_bytes m p (l ++ k) = write_bytes (write_bytes m p l) (p + Z.of_nat (length l)) k.
Proof.
  revert m p. induction l as [|b l IH]; intros m p; cbn; [by rewrite Z.add_0_r|].
  rewrite IH. f_equal. lia.
Qed.

Lemma write_bytes_ok m p l :
  ram_ok m -> Forall (fun b => 0 <= b < 256) l -> ram_ok (write_bytes m p l).
Proof.
  revert m p. induction l as [|b l IH]; intros m p Hm Hl; cbn; [done|].
  inversion Hl; subst. apply IH; [|done]. by apply ram_ok_insert.
Qed.

Lemma write_bytes_stored m p l : Forall (fun b => 0 <= b < 256) l ->
  (ram_ok m -> ram_ok (write_bytes m p l)) /\ forall a, is_Some (m !! a) -> is_Some (write_bytes m p l !! a).
Proof.
  intros Hl. split; [intros; by apply write_bytes_ok|]. intros a Ha.
  apply (write_bytes_readable m p l a 1); [|lia]. intros b Hb. by replace b with a by lia.
Qed.

Lemma bytes_at_cons m p b l :
  bytes_at m p (b :: l) <-> m !! p = Some b /\ bytes_at m (p + 1) l.
Proof.
  unfold bytes_at. split.
  - intros H. split; [rewrite <- (H 0%nat b); [f_equal; lia|done]|].
    intros i c Hc. rewrite <- (H (S i) c) by done. f_equal. lia.
  - intros [H0 H] [|i] c Hc; cbn in Hc; simplify_eq.
    + by rewrite Z.add_0_r.
    + rewrite <- (H i c) by done. f_equal. lia.
Qed.

Lemma bytes_at_app m p l k :
  bytes_at m p (l ++ k) <-> bytes_at m p l /\ bytes_at m (p + Z.of_nat (length l)) k.
Proof.
  revert p. induction l as [|b l IH]; intros p; cbn.
  - rewrite Z.add_0_r. split; [|tauto]. intros; split; [|done]. by intros ? ?.
  - rewrite !bytes_at_cons, IH. replace (p + Z.of_nat (S (length l))) with (p + 1 + Z.of_nat (length l)) by lia.
    tauto.
Qed.

Lemma bytes_at_readable m p l : bytes_at m p l -> readable m p (Z.of_nat (length l)).
Proof.
  intros H a Ha. destruct (lookup_lt_is_Some_2 l (Z.to_nat (a - p))) as [b Hb]; [lia|].
  exists b. rewrite <- (H _ _ Hb). f_equal. lia.
Qed.

Lemma readable_le m p n q k : readable m p n -> p <= q -> q + k <= p + n -> readable m q k.
Proof. intros H ?? a Ha. apply H. lia. Qed.

Lemma ld8_ok s a b : ram s !! a = Some b -> ld8 a s = Ret (b, s).
Proof. unfold ld8. by intros ->. Qed.

Lemma st8_ok s a v :
  is_Some (ram s !! a) -> st8 a v s = Ret (tt, set_ram (<[a := u8 v]> (ram s)) s).
Proof. unfold st8. by intros [? ->]. Qed.

Lemma ld32_ok s a v : word (ram s) a = Some v -> ld32 a s = Ret (v, s).
Proof. unfold ld32. by intros ->. Qed.

Lemma st32_ok s a v :
  is_Some (word (ram s) a) -> st32 a v s = Ret (tt, set_ram (setw (ram s) a v) s).
Proof. unfold st32. by intros [? ->]. Qed.

(** [m'] came from [m] by stores: bytes stay bytes, and no byte goes away. *)
Definition stored (m m' : gmap Z Z) : Prop :=
  (ram_ok m -> ram_ok m') /\ forall a, is_Some (m !! a) -> is_Some (m' !! a).

Lemma stored_refl m : stored m m.
Proof. by split. Qed.

Lemma stored_trans m1 m2 m3 : stored m1 m2 -> stored m2 m3 -> stored m1 m3.
Proof. intros [A1 A2] [B1 B2]. split; auto. Qed.

Lemma stored_setw m a v : stored m (setw m a v).
Proof. split; [apply ram_ok_setw|intros b; apply setw_is_Some]. Qed.

Lemma stored_readable m m' p n : stored m m' -> readable m p n -> readable m' p n.
Proof. intros [_ H] Hr a Ha. apply H, Hr, Ha. Qed.

#[export] Hint Resolve is_word_setw setw_is_Some setw_readable ram_ok_setw : kernel.

Lemma write_bytes_region m p l : readable (write_bytes m p l) p (Z.of_nat (length l)).
Proof. apply bytes_at_readable, write_bytes_at. Qed.

Lemma ram_ok_empty : ram_ok ∅.
Proof. apply map_Forall_empty. Qed.
