(* ===== verification/CString.v ===== *)
(** * lib/string.c: the memory and string functions

    [char] is signed: [s8] reads a loaded byte as the code compares it.  The functions whose loop
    runs to a terminator take the loop bound [fuel]; the theorems say how much is enough. *)
From stdpp Require Import base list gmap strings.
From S2P Require Import Prelude Machine.

Definition memset_body (value : Z) '((dst_, size) : Z * Z) : M machine (Z * Z + unit) :=
  if size =? 0 then ret (inr tt)
  else st8 dst_ value ;;; ret (inl (u32 (dst_ + 1), u32 (size - 1))).

Definition memset (dst value size : Z) : M machine unit :=
  ASSERT (negb (dst =? 0)) "memset" 7 ;;;
  iter (S (Z.to_nat size)) (memset_body value) (dst, size).

Definition memcpy_body '((dst_, src_, size) : Z * Z * Z) : M machine (Z * Z * Z + unit) :=
  if size =? 0 then ret (inr tt)
  else
    let* b := ld8 src_ in
    st8 dst_ b ;;;
    ret (inl (u32 (dst_ + 1), u32 (src_ + 1), u32 (size - 1))).

Definition memcpy (dst src size : Z) : M machine unit :=
  ASSERT (negb (dst =? 0) && negb (src =? 0)) "memcpy" 19 ;;;
  iter (S (Z.to_nat size)) memcpy_body (dst, src, size).

Definition memcmp_body '((a_, b_, size) : Z * Z * Z) : M machine (Z * Z * Z + Z) :=
  if size =? 0 then ret (inr 0)
  else
    let* x := ld8 a_ in
    let* y := ld8 b_ in
    if negb (s8 x =? s8 y) then ret (inr (if s8 y <? s8 x then 1 else -1))
    else ret (inl (u32 (a_ + 1), u32 (b_ + 1), u32 (size - 1))).

Definition memcmp (a b size : Z) : M machine Z :=
  ASSERT (negb (a =? 0) && negb (b =? 0)) "memcmp" 30 ;;;
  iter (S (Z.to_nat size)) memcmp_body (a, b, size).

(** [while ( *dst++ = *src++ );], shared by [strcpy] and [strcat]. *)
Definition copy_body '((dst, src) : Z * Z) : M machine (Z * Z + unit) :=
  let* b := ld8 src in
  st8 dst b ;;;
  if b =? 0 then ret (inr tt) else ret (inl (u32 (dst + 1), u32 (src + 1))).

Definition strcpy (fuel : nat) (dst src : Z) : M machine Z :=
  ASSERT (negb (dst =? 0) && negb (src =? 0)) "strcpy" 47 ;;;
  iter fuel copy_body (dst, src) ;;;
  ret dst.

(** [while ( *str++ );], shared by [strlen] and [strcat]: the pointer after the terminator. *)
Definition skip_body (str : Z) : M machine (Z + Z) :=
  let* b := ld8 str in
  if b =? 0 then ret (inr (u32 (str + 1))) else ret (inl (u32 (str + 1))).

Definition strlen (fuel : nat) (str : Z) : M machine Z :=
  ASSERT (negb (str =? 0)) "strlen" 55 ;;;
  let* stop := iter fuel skip_body str in
  ret (u32 (stop - str - 1)).

Definition strcmp_body '((a_, b_) : Z * Z) : M machine (Z * Z + Z) :=
  let* x := ld8 a_ in
  let* go := (if negb (x =? 0) then ret true else let* y := ld8 b_ in ret (negb (y =? 0))) in
  if go then
    let* x := ld8 a_ in
    let* y := ld8 b_ in
    if negb (s8 x =? s8 y) then ret (inr (if s8 y <? s8 x then 1 else -1))
    else ret (inl (u32 (a_ + 1), u32 (b_ + 1)))
  else ret (inr 0).

Definition strcmp (fuel : nat) (a b : Z) : M machine Z :=
  ASSERT (negb (a =? 0) && negb (b =? 0)) "strcmp" 63 ;;;
  iter fuel strcmp_body (a, b).

Definition strchr_body (ch str : Z) : M machine (Z + Z) :=
  let* b := ld8 str in
  if b =? 0 then ret (inr 0)
  else if s8 b =? ch then ret (inr str)
  else ret (inl (u32 (str + 1))).

Definition strchr (fuel : nat) (str ch : Z) : M machine Z :=
  ASSERT (negb (str =? 0)) "strchr" 80 ;;;
  iter fuel (strchr_body (u8 ch)) str.

(** The loop of [strrchr] carries [last_found] too, and leaves at the first match. *)
Definition strrchr_body (ch : Z) '((str, last_found) : Z * Z) : M machine (Z * Z + Z) :=
  let* b := ld8 str in
  if b =? 0 then ret (inr last_found)
  else if s8 b =? ch then ret (inr str)
  else ret (inl (u32 (str + 1), last_found)).

Definition strrchr (fuel : nat) (str ch : Z) : M machine Z :=
  ASSERT (negb (str =? 0)) "strrchr" 94 ;;;
  iter fuel (strrchr_body (u8 ch)) (str, 0).

Definition strcat (fuel : nat) (dst src : Z) : M machine Z :=
  ASSERT (negb (dst =? 0) && negb (src =? 0)) "strcat" 109 ;;;
  let* str := iter fuel skip_body dst in
  iter fuel copy_body (u32 (str - 1), src) ;;;
  ret dst.

(** ** What the functions mean *)

(** A NUL-terminated string at [p] with the characters [l]. *)
Definition cstring (m : gmap Z Z) (p : Z) (l : list Z) : Prop :=
  bytes_at m p (l ++ [0]) /\ Forall (fun b => 0 < b < 256) l /\ 0 < p /\
  p + Z.of_nat (length l) < 2 ^ 32.

(** The three-way comparison of two byte sequences, as signed characters. *)
Fixpoint byte_cmp (l k : list Z) : Z :=
  match l, k with
  | x :: l', y :: k' =>
      if s8 x =? s8 y then byte_cmp l' k' else if s8 y <? s8 x then 1 else -1
  | _, _ => 0
  end.

(** The address of the first element of [l] (lying at [p]) that equals [ch], or NULL. *)
Definition first_match (ch p : Z) (l : list Z) : Z :=
  match list_find (fun b => s8 b = ch) l with
  | Some (i, _) => p + Z.of_nat i
  | None => 0
  end.

(** ** Proofs *)

Lemma negb_eqb_true x y : x <> y -> negb (x =? y) = true.
Proof. intros. by destruct (Z.eqb_spec x y). Qed.

Lemma nonnull2 x y : 0 < x -> 0 < y -> negb (x =? 0) && negb (y =? 0) = true.
Proof. intros. by rewrite !negb_eqb_true by lia. Qed.

Lemma u32_pred n : 0 < n < 2 ^ 32 -> u32 (n - 1) = n - 1.
Proof. intros. apply u32_id. lia. Qed.

Lemma memset_loop v n : forall s p,
  0 <= p -> p + Z.of_nat n <= 2 ^ 32 -> readable (ram s) p (Z.of_nat n) ->
  (Z.of_nat n < 2 ^ 32) ->
  iter (S n) (memset_body v) (p, Z.of_nat n) s =
    Ret (tt, set_ram (write_bytes (ram s) p (replicate n (u8 v))) s).
Proof.
  induction n as [|n IH]; intros s p Hp Hlim Hr Hn.
  - cbn. by rewrite set_ram_id.
  - erewrite iter_S with (x := inl (u32 (p + 1), u32 (Z.of_nat (S n) - 1))); cycle 1.
    { unfold memset_body. replace (Z.of_nat (S n) =? 0) with false by lia.
      erewrite bind_Ret; [reflexivity|]. apply st8_ok, Hr. lia. }
    cbn iota. rewrite u32_pred by lia. replace (Z.of_nat (S n) - 1) with (Z.of_nat n) by lia.
    destruct n as [|n'].
    + cbn. done.
    + rewrite u32_id by lia. rewrite IH; [done|lia|lia| |lia].
      intros a Ha. cbn. rewrite lookup_insert. case_decide; [eauto|]. apply Hr. lia.
Qed.

Lemma memcpy_loop n : forall s dst src l,
  length l = n -> 0 <= dst -> dst + Z.of_nat n <= 2 ^ 32 -> 0 <= src -> src + Z.of_nat n <= 2 ^ 32 ->
  Z.of_nat n < 2 ^ 32 -> readable (ram s) dst (Z.of_nat n) -> bytes_at (ram s) src l ->
  Forall (fun b => 0 <= b < 256) l -> dst <= src \/ src + Z.of_nat n <= dst ->
  iter (S n) memcpy_body (dst, src, Z.of_nat n) s = Ret (tt, set_ram (write_bytes (ram s) dst l) s).
Proof.
  induction n as [|n IH]; intros s dst src l Hl Hd0 Hd Hs0 Hs Hn Hr Hb Hok Hov.
  - destruct l; [|done]. cbn. by rewrite set_ram_id.
  - destruct l as [|b l]; [done|]. injection Hl as Hl.
    apply bytes_at_cons in Hb as [Hb0 Hb]. inversion Hok as [|?? Hb8 Hok']; subst.
    erewrite iter_S with (x := inl (u32 (dst + 1), u32 (src + 1), u32 (Z.of_nat (S _) - 1))); cycle 1.
    { unfold memcpy_body. replace (Z.of_nat (S (length l)) =? 0) with false by lia.
      erewrite bind_Ret; [|by apply ld8_ok].
      erewrite bind_Ret; [reflexivity|]. apply st8_ok, Hr. lia. }
    cbn iota. rewrite u32_pred by lia.
    replace (Z.of_nat (S (length l)) - 1) with (Z.of_nat (length l)) by lia.
    rewrite u8_id by done. destruct l as [|b' l].
    + done.
    + cbn [length] in *. rewrite !u32_id by lia.
      rewrite (IH _ _ _ (b' :: l)); [done|done|lia..| |  |done|lia].
      * intros a Ha. cbn. rewrite lookup_insert. case_decide; [eauto|]. apply Hr. lia.
      * intros i c Hi. pose proof (lookup_lt_Some _ _ _ Hi). cbn [length] in *.
        cbn. rewrite lookup_insert_ne by lia. by apply Hb.
Qed.

Lemma memcmp_loop n : forall s a b l k,
  length l = n -> length k = n -> 0 <= a -> a + Z.of_nat n < 2 ^ 32 -> 0 <= b -> b + Z.of_nat n < 2 ^ 32 ->
  bytes_at (ram s) a l -> bytes_at (ram s) b k ->
  iter (S n) memcmp_body (a, b, Z.of_nat n) s = Ret (byte_cmp l k, s).
Proof.
  induction n as [|n IH]; intros s a b l k Hl Hk Ha0 Ha Hb0 Hb Hal Hbk.
  - by destruct l, k.
  - destruct l as [|x l], k as [|y k]; try done. injection Hl as Hl. injection Hk as Hk.
    apply bytes_at_cons in Hal as [Hx Hal]. apply bytes_at_cons in Hbk as [Hy Hbk].
    erewrite iter_S; cycle 1.
    { unfold memcmp_body. replace (Z.of_nat (S n) =? 0) with false by lia.
      erewrite bind_Ret; [|by apply ld8_ok]. erewrite bind_Ret; [|by apply ld8_ok].
      instantiate (1 := s).
      instantiate (1 := if s8 x =? s8 y then _ else _). by destruct (s8 x =? s8 y). }
    cbn [byte_cmp]. destruct (s8 x =? s8 y); [|done].
    rewrite u32_pred, !u32_id by lia.
    replace (Z.of_nat (S n) - 1) with (Z.of_nat n) by lia. apply IH; (done || lia).
Qed.

Lemma skip_loop l : forall fuel s p,
  bytes_at (ram s) p (l ++ [0]) -> Forall (fun b => 0 < b < 256) l ->
  0 <= p -> p + Z.of_nat (length l) < 2 ^ 32 -> (length l < fuel)%nat ->
  iter fuel skip_body p s = Ret (u32 (p + Z.of_nat (length l) + 1), s).
Proof.
  induction l as [|x l IH]; intros fuel s p Hb Hnz Hp Hlim Hf;
    (destruct fuel as [|fuel]; [cbn in Hf; lia|]); cbn [app] in Hb;
    apply bytes_at_cons in Hb as [Hx Hb].
  - cbn [iter]. unfold skip_body. rewrite bind_assoc, (bind_Ret _ _ _ _ _ (ld8_ok _ _ _ Hx)).
    cbn. by rewrite Z.add_0_r.
  - inversion Hnz as [|?? Hx0 Hnz']; subst. cbn [length] in *.
    erewrite iter_S with (x := inl (u32 (p + 1))); cycle 1.
    { unfold skip_body. rewrite (bind_Ret _ _ _ _ _ (ld8_ok _ _ _ Hx)).
      by replace (x =? 0) with false by lia. }
    cbn iota. rewrite (u32_id (p + 1)) by lia. rewrite IH by (done || lia). do 3 f_equal. lia.
Qed.

Lemma copy_loop l : forall fuel s dst src,
  bytes_at (ram s) src (l ++ [0]) -> Forall (fun b => 0 < b < 256) l ->
  0 <= src -> src + Z.of_nat (length l) < 2 ^ 32 ->
  0 <= dst -> dst + Z.of_nat (length l) < 2 ^ 32 ->
  readable (ram s) dst (Z.of_nat (length l) + 1) ->
  dst <= src \/ src + Z.of_nat (length l) < dst -> (length l < fuel)%nat ->
  iter fuel copy_body (dst, src) s = Ret (tt, set_ram (write_bytes (ram s) dst (l ++ [0])) s).
Proof.
  induction l as [|x l IH]; intros fuel s dst src Hb Hnz Hs Hsl Hd Hdl Hr Hov Hf;
    (destruct fuel as [|fuel]; [cbn in Hf; lia|]); cbn [app length] in *;
    apply bytes_at_cons in Hb as [Hx Hb].
  - erewrite iter_S with (x := inr tt); [reflexivity|].
    unfold copy_body. rewrite (bind_Ret _ _ _ _ _ (ld8_ok _ _ _ Hx)).
    erewrite bind_Ret; [|apply st8_ok, Hr; lia]. done.
  - inversion Hnz as [|?? Hx0 Hnz']; subst.
    erewrite iter_S with (x := inl (u32 (dst + 1), u32 (src + 1))); cycle 1.
    { unfold copy_body. rewrite (bind_Ret _ _ _ _ _ (ld8_ok _ _ _ Hx)).
      erewrite bind_Ret; [|apply st8_ok, Hr; lia]. by replace (x =? 0) with false by lia. }
    cbn iota. rewrite !u32_id, u8_id by lia. rewrite IH; [done| |done|lia..| |lia|lia].
    + intros i c Hi. pose proof (lookup_lt_Some _ _ _ Hi) as Hlt. rewrite length_app in Hlt.
      cbn in *. rewrite lookup_insert_ne by lia. by apply Hb.
    + intros a Ha. cbn. rewrite lookup_insert. case_decide; [eauto|]. apply Hr. lia.
Qed.

Lemma s8_zero x : 0 <= x < 256 -> s8 x = 0 -> x = 0.
Proof. intros Hx H. by apply s8_inj. Qed.

Lemma strcmp_loop l : forall k fuel s a b,
  bytes_at (ram s) a (l ++ [0]) -> bytes_at (ram s) b (k ++ [0]) ->
  Forall (fun b => 0 < b < 256) l -> Forall (fun b => 0 < b < 256) k ->
  0 <= a -> a + Z.of_nat (length l) < 2 ^ 32 -> 0 <= b -> b + Z.of_nat (length k) < 2 ^ 32 ->
  (length l < fuel)%nat ->
  iter fuel strcmp_body (a, b) s = Ret (byte_cmp (l ++ [0]) (k ++ [0]), s).
Proof.
  assert (s8 0 = 0) as H0 by done.
  induction l as [|x l IH]; intros k fuel s a b Ha Hb Hl Hk Ha0 Hal Hb0 Hbl Hf;
    (destruct fuel as [|fuel]; [cbn in Hf; lia|]); cbn [app length] in *;
    apply bytes_at_cons in Ha as [Hx Ha].
  - destruct k as [|y k]; cbn [app] in *; apply bytes_at_cons in Hb as [Hy Hb].
    + erewrite iter_S with (x := inr 0); [done|]. unfold strcmp_body.
      rewrite (bind_Ret _ _ _ _ _ (ld8_ok _ _ _ Hx)). cbn [Z.eqb negb].
      rewrite bind_assoc, (bind_Ret _ _ _ _ _ (ld8_ok _ _ _ Hy)). done.
    + inversion Hk as [|?? Hy0 Hk']; subst.
      assert ((s8 0 =? s8 y) = false) as E.
      { apply Z.eqb_neq. rewrite H0. intros E. symmetry in E. apply s8_zero in E; lia. }
      cbn [byte_cmp]. rewrite E.
      erewrite iter_S with (x := inr _); [reflexivity|]. unfold strcmp_body.
      rewrite (bind_Ret _ _ _ _ _ (ld8_ok _ _ _ Hx)). cbn [Z.eqb negb].
      rewrite bind_assoc, (bind_Ret _ _ _ _ _ (ld8_ok _ _ _ Hy)).
      replace (y =? 0) with false by lia. cbn [negb].
      rewrite (bind_Ret _ _ s true s) by done.
      rewrite (bind_Ret _ _ _ _ _ (ld8_ok _ _ _ Hx)), (bind_Ret _ _ _ _ _ (ld8_ok _ _ _ Hy)).
      by rewrite E.
  - inversion Hl as [|?? Hx0 Hl']; subst.
    assert (exists y, ram s !! b = Some y /\ head (k ++ [0]) = Some y) as (y & Hy & Hyk).
    { destruct k as [|y k]; cbn [app] in *; apply bytes_at_cons in Hb as [Hy _]; eauto. }
    assert (strcmp_body (a, b) s =
      Ret (if negb (s8 x =? s8 y) then inr (if s8 y <? s8 x then 1 else -1)
           else inl (u32 (a + 1), u32 (b + 1)), s)) as Hbody.
    { unfold strcmp_body. rewrite (bind_Ret _ _ _ _ _ (ld8_ok _ _ _ Hx)).
      replace (x =? 0) with false by lia. cbn [negb].
      rewrite (bind_Ret _ _ s true s) by done.
      rewrite (bind_Ret _ _ _ _ _ (ld8_ok _ _ _ Hx)), (bind_Ret _ _ _ _ _ (ld8_ok _ _ _ Hy)).
      by destruct (s8 x =? s8 y). }
    erewrite iter_S by exact Hbody.
    destruct k as [|y' k]; cbn [app head] in *; injection Hyk as <-.
    + assert ((s8 x =? s8 0) = false) as E.
      { apply Z.eqb_neq. rewrite H0. intros E. apply s8_zero in E; lia. }
      cbn [byte_cmp]. rewrite E. done.
    + cbn [byte_cmp]. destruct (s8 x =? s8 y') eqn:E; cbn [negb]; [|done].
      inversion Hk as [|?? Hy0 Hk']; subst. apply bytes_at_cons in Hb as [_ Hb].
      cbn [length] in *. rewrite !u32_id by lia. apply IH; (done || lia).
Qed.

Lemma first_match_cons ch p x l :
  p <> 0 -> first_match ch p (x :: l) =
  if s8 x =? ch then p else first_match ch (p + 1) l.
Proof.
  intros Hp. unfold first_match. cbn [list_find]. case_decide as H.
  - rewrite (proj2 (Z.eqb_eq _ _) H). lia.
  - rewrite (proj2 (Z.eqb_neq _ _) H).
    destruct (list_find _ l) as [[i y]|]; cbn; lia.
Qed.

Lemma strchr_loop ch l : forall fuel s p,
  bytes_at (ram s) p (l ++ [0]) -> Forall (fun b => 0 < b < 256) l ->
  0 < p -> p + Z.of_nat (length l) < 2 ^ 32 -> (length l < fuel)%nat ->
  iter fuel (strchr_body ch) p s = Ret (first_match ch p l, s).
Proof.
  induction l as [|x l IH]; intros fuel s p Hb Hnz Hp Hlim Hf;
    (destruct fuel as [|fuel]; [cbn in Hf; lia|]); cbn [app length] in *;
    apply bytes_at_cons in Hb as [Hx Hb].
  - erewrite iter_S with (x := inr 0); [done|].
    unfold strchr_body. by rewrite (bind_Ret _ _ _ _ _ (ld8_ok _ _ _ Hx)).
  - inversion Hnz as [|?? Hx0 Hnz']; subst. rewrite first_match_cons by lia.
    erewrite iter_S; cycle 1.
    { unfold strchr_body. rewrite (bind_Ret _ _ _ _ _ (ld8_ok _ _ _ Hx)).
      replace (x =? 0) with false by lia. instantiate (1 := s).
      instantiate (1 := if s8 x =? ch then _ else _). by destruct (s8 x =? ch). }
    destruct (s8 x =? ch); [done|]. rewrite u32_id by lia. apply IH; (done || lia).
Qed.

Lemma strrchr_loop ch fuel : forall s p,
  iter fuel (strrchr_body ch) (p, 0) s = iter fuel (strchr_body ch) p s.
Proof.
  induction fuel as [|fuel IH]; intros s p; [done|]. cbn [iter].
  unfold strrchr_body at 1, strchr_body at 1, bind, ld8.
  destruct (ram s !! p) as [b|]; [|done].
  destruct (b =? 0); [done|]. destruct (s8 b =? ch); [done|]. cbn. apply IH.
Qed.

Lemma byte_cmp_zero l : forall k,
  Forall (fun b => 0 < b < 256) l -> Forall (fun b => 0 < b < 256) k ->
  byte_cmp (l ++ [0]) (k ++ [0]) = 0 <-> l = k.
Proof.
  assert (forall x, 0 < x < 256 -> s8 x <> s8 0) as Hx0.
  { intros x Hx E. apply s8_inj in E; lia. }
  induction l as [|x l IH]; intros [|y k] Hl Hk; cbn [app byte_cmp].
  - by rewrite Z.eqb_refl.
  - inversion Hk; subst. rewrite (proj2 (Z.eqb_neq _ _)) by (symmetry; eauto).
    destruct (_ <? _); split; done.
  - inversion Hl; subst. rewrite (proj2 (Z.eqb_neq _ _)) by eauto.
    destruct (_ <? _); split; done.
  - inversion Hl; inversion Hk; subst. destruct (Z.eqb_spec (s8 x) (s8 y)) as [E|E].
    + apply s8_inj in E; [subst|lia..]. rewrite IH by done. split; congruence.
    + destruct (_ <? _); split; try done; congruence.
Qed.

Lemma cstring_write m p l :
  Forall (fun b => 0 < b < 256) l -> 0 < p -> p + Z.of_nat (length l) < 2 ^ 32 ->
  cstring (write_bytes m p (l ++ [0])) p l.
Proof. intros. split_and!; try done. apply write_bytes_at. Qed.

Lemma bytes_at_write_disjoint m p q l k :
  bytes_at m p l ->
  (p + Z.of_nat (length l) <= q \/ q + Z.of_nat (length k) <= p) ->
  bytes_at (write_bytes m q k) p l.
Proof.
  intros H Hd i b Hi. pose proof (lookup_lt_Some _ _ _ Hi).
  rewrite write_bytes_lookup_out by lia. by apply H.
Qed.

Lemma cstring_write_disjoint m p q l k :
  cstring m p l ->
  (p + Z.of_nat (length l) < q \/ q + Z.of_nat (length k) <= p) ->
  cstring (write_bytes m q k) p l.
Proof.
  intros (Hb & Hl & Hp & Hlim) Hd. split_and!; try done.
  apply bytes_at_write_disjoint; [done|]. rewrite length_app. cbn. lia.
Qed.

Lemma strlen_correct s p l fuel :
  cstring (ram s) p l -> (length l < fuel)%nat ->
  strlen fuel p s = Ret (Z.of_nat (length l), s).
Proof.
  intros (Hb & Hl & Hp & Hlim) Hf. unfold strlen.
  rewrite (bind_Ret _ _ s tt s) by (apply ASSERT_true, negb_eqb_true; lia).
  rewrite (bind_Ret _ _ _ _ _ (skip_loop l fuel s p Hb Hl ltac:(lia) Hlim Hf)).
  unfold ret. do 2 f_equal.
  replace (u32 _ - p - 1) with (u32 (p + Z.of_nat (length l) + 1) - (p + 1)) by lia.
  unfold u32. rewrite Zminus_mod_idemp_l, Z.mod_small by lia. lia.
Qed.

Lemma strchr_correct s p l ch fuel :
  cstring (ram s) p l -> (length l < fuel)%nat ->
  strchr fuel p ch s = Ret (first_match (u8 ch) p l, s).
Proof.
  intros (Hb & Hl & Hp & Hlim) Hf. unfold strchr.
  rewrite (bind_Ret _ _ s tt s) by (apply ASSERT_true, negb_eqb_true; lia).
  by apply strchr_loop.
Qed.

(** [memset] on an accessible region stores the byte [value] in exactly the [size] bytes from
    [dst], terminates, and leaves every other byte and the rest of the machine unchanged. *)
Theorem memset_correct s dst value size :
  0 < dst -> 0 <= size < 2 ^ 32 -> dst + size <= 2 ^ 32 -> readable (ram s) dst size ->
  exists m, memset dst value size s = Ret (tt, set_ram m s) /\
    (forall a, dst <= a < dst + size -> m !! a = Some (u8 value)) /\
    same_outside (fun a => dst <= a < dst + size) (ram s) m.
Proof.
  intros Hd Hs Hlim Hr. exists (write_bytes (ram s) dst (replicate (Z.to_nat size) (u8 value))).
  split_and!.
  - unfold memset. rewrite (bind_Ret _ _ s tt s) by (apply ASSERT_true, negb_eqb_true; lia).
    pose proof (memset_loop value (Z.to_nat size) s dst) as H.
    rewrite !Z2Nat.id in H by lia. apply H; (done || lia).
  - intros a Ha. replace a with (dst + Z.of_nat (Z.to_nat (a - dst))) by lia.
    apply write_bytes_lookup_in, lookup_replicate_2. lia.
  - intros a Ha. apply write_bytes_lookup_out. rewrite length_replicate. lia.
Qed.

(** [memcpy] copies the [length l] bytes at [src] to [dst] and changes nothing else, also when
    the regions overlap with [dst] below [src] (it copies forwards); it always terminates. *)
Theorem memcpy_correct s dst src l :
  0 < dst -> 0 < src -> Z.of_nat (length l) < 2 ^ 32 ->
  dst + Z.of_nat (length l) <= 2 ^ 32 -> src + Z.of_nat (length l) <= 2 ^ 32 ->
  Forall (fun b => 0 <= b < 256) l -> bytes_at (ram s) src l ->
  readable (ram s) dst (Z.of_nat (length l)) ->
  dst <= src \/ src + Z.of_nat (length l) <= dst ->
  exists m, memcpy dst src (Z.of_nat (length l)) s = Ret (tt, set_ram m s) /\
    bytes_at m dst l /\
    same_outside (fun a => dst <= a < dst + Z.of_nat (length l)) (ram s) m.
Proof.
  intros Hd Hs Hn Hdl Hsl Hok Hb Hr Hov. exists (write_bytes (ram s) dst l). split_and!.
  - unfold memcpy. rewrite (bind_Ret _ _ s tt s) by (apply ASSERT_true, nonnull2; lia).
    rewrite Nat2Z.id. apply memcpy_loop; (done || lia).
  - apply write_bytes_at.
  - intros a Ha. apply write_bytes_lookup_out. lia.
Qed.

(** [memcmp] compares two regions of [length l] bytes as signed characters: it returns 0
    exactly when the regions hold the same bytes. *)
Theorem memcmp_correct s a b l k :
  0 < a -> 0 < b -> length k = length l ->
  a + Z.of_nat (length l) < 2 ^ 32 -> b + Z.of_nat (length l) < 2 ^ 32 ->
  Forall (fun b => 0 <= b < 256) l -> Forall (fun b => 0 <= b < 256) k ->
  bytes_at (ram s) a l -> bytes_at (ram s) b k ->
  memcmp a b (Z.of_nat (length l)) s = Ret (byte_cmp l k, s) /\
  (byte_cmp l k = 0 <-> l = k).
Proof.
  intros Ha Hb Hlk Hal Hbl Hl8 Hk8 Hla Hkb. split.
  - unfold memcmp. rewrite (bind_Ret _ _ s tt s) by (apply ASSERT_true, nonnull2; lia).
    rewrite Nat2Z.id. apply memcmp_loop; (done || lia).
  - clear -Hlk Hl8 Hk8. revert k Hlk Hl8 Hk8. induction l as [|x l IH]; intros [|y k] Hlk Hl8 Hk8;
      try done. injection Hlk as Hlk. inversion Hl8; inversion Hk8; subst. cbn [byte_cmp].
    destruct (Z.eqb_spec (s8 x) (s8 y)) as [E|E].
    + apply s8_inj in E; [subst|lia..]. rewrite IH by done. split; congruence.
    + destruct (_ <? _); split; try done; congruence.
Qed.

(** after [strcpy dst src] of a string [l] into a disjoint buffer, [dst] holds [l], [strlen dst]
    is its length, [strcmp dst src] is 0, and only the [length l + 1] bytes at [dst] changed. *)
Theorem strcpy_roundtrip s dst src l fuel :
  cstring (ram s) src l -> 0 < dst -> dst + Z.of_nat (length l) < 2 ^ 32 ->
  readable (ram s) dst (Z.of_nat (length l) + 1) ->
  src + Z.of_nat (length l) < dst \/ dst + Z.of_nat (length l) < src ->
  (length l < fuel)%nat ->
  exists s', strcpy fuel dst src s = Ret (dst, s') /\
    strlen fuel dst s' = Ret (Z.of_nat (length l), s') /\
    strcmp fuel dst src s' = Ret (0, s') /\
    cstring (ram s') dst l /\
    same_outside (fun a => dst <= a <= dst + Z.of_nat (length l)) (ram s) (ram s').
Proof.
  intros Hc Hd Hdl Hr Hov Hf. pose proof Hc as (Hb & Hl & Hs & Hsl).
  set (s' := set_ram (write_bytes (ram s) dst (l ++ [0])) s). exists s'.
  assert (cstring (ram s') dst l) as Hd' by by apply cstring_write.
  assert (cstring (ram s') src l) as Hs'.
  { apply cstring_write_disjoint; [done|]. rewrite length_app. cbn. lia. }
  split_and!; [| by apply strlen_correct| |done|].
  - unfold strcpy. rewrite (bind_Ret _ _ s tt s) by (apply ASSERT_true, nonnull2; lia).
    rewrite (bind_Ret _ _ s tt s'); [done|]. apply copy_loop; (done || lia).
  - unfold strcmp. rewrite (bind_Ret _ _ s' tt s') by (apply ASSERT_true, nonnull2; lia).
    destruct Hd' as (? & _), Hs' as (? & _). rewrite (strcmp_loop l l) by (done || lia).
    do 2 f_equal. by apply byte_cmp_zero.
  - intros a Ha. apply write_bytes_lookup_out. rewrite length_app. cbn. lia.
Qed.

(** [strcmp] of two strings terminates within the length of the first, leaves memory alone,
    and returns 0 exactly when the strings are equal, otherwise 1 or -1 by the first difference
    of signed characters. *)
Theorem strcmp_correct s a b l k fuel :
  cstring (ram s) a l -> cstring (ram s) b k -> (length l < fuel)%nat ->
  exists r, strcmp fuel a b s = Ret (r, s) /\ r = byte_cmp (l ++ [0]) (k ++ [0]) /\
    (r = 0 <-> l = k).
Proof.
  intros (Ha & Hl & Ha0 & Hal) (Hb & Hk & Hb0 & Hbl) Hf.
  exists (byte_cmp (l ++ [0]) (k ++ [0])). split_and!; [|done|by apply byte_cmp_zero].
  unfold strcmp. rewrite (bind_Ret _ _ s tt s) by (apply ASSERT_true, nonnull2; lia).
  apply strcmp_loop; (done || lia).
Qed.

(** [strcat dst src] turns the string [l] at [dst] into [l ++ k], where [k] is the string at
    [src], and changes only the [length k + 1] bytes after [l]. *)
Theorem strcat_correct s dst src l k fuel :
  cstring (ram s) dst l -> cstring (ram s) src k ->
  dst + Z.of_nat (length l) + Z.of_nat (length k) < 2 ^ 32 ->
  readable (ram s) (dst + Z.of_nat (length l)) (Z.of_nat (length k) + 1) ->
  src + Z.of_nat (length k) < dst \/ dst + Z.of_nat (length l) + Z.of_nat (length k) < src ->
  (length l < fuel)%nat -> (length k < fuel)%nat ->
  exists s', strcat fuel dst src s = Ret (dst, s') /\ cstring (ram s') dst (l ++ k) /\
    same_outside (fun a => dst + Z.of_nat (length l) <= a <=
                           dst + Z.of_nat (length l) + Z.of_nat (length k)) (ram s) (ram s').
Proof.
  intros (Hd & Hl & Hd0 & Hdl) (Hs & Hk & Hs0 & Hsl) Hlim Hr Hov Hfl Hfk.
  set (e := dst + Z.of_nat (length l)) in *.
  exists (set_ram (write_bytes (ram s) e (k ++ [0])) s). split_and!.
  - unfold strcat. rewrite (bind_Ret _ _ s tt s) by (apply ASSERT_true, nonnull2; lia).
    rewrite (bind_Ret _ _ _ _ _ (skip_loop l fuel s dst Hd Hl ltac:(lia) Hdl Hfl)).
    assert (u32 (u32 (dst + Z.of_nat (length l) + 1) - 1) = e) as ->.
    { fold e. unfold u32. rewrite Zminus_mod_idemp_l, Z.mod_small by lia. lia. }
    erewrite bind_Ret; [reflexivity|]. apply copy_loop; (done || lia).
  - split_and!; [|by apply Forall_app|lia|rewrite length_app; lia].
    rewrite <- app_assoc. apply bytes_at_app. split; [|apply write_bytes_at].
    apply bytes_at_app in Hd as [Hd _]. apply bytes_at_write_disjoint; [done|].
    rewrite length_app. cbn. lia.
  - intros a Ha. apply write_bytes_lookup_out. rewrite length_app. cbn. lia.
Qed.

(** [strrchr] does not look for the last occurrence: on every memory it behaves exactly like
    [strchr], so it returns the FIRST occurrence of the character. *)
Theorem strrchr_finds_first s str ch fuel :
  str <> 0 -> strrchr fuel str ch s = strchr fuel str ch s.
Proof.
  intros Hs. unfold strrchr, strchr.
  rewrite !(bind_Ret _ _ s tt s) by (by apply ASSERT_true, negb_eqb_true).
  apply strrchr_loop.
Qed.

(** ** Witnesses *)

(** "aba" at 100, "ab" at 200 and a buffer of eight bytes at 300. *)
Definition demo_ram : gmap Z Z :=
  write_bytes (write_bytes (write_bytes ∅ 100 [97; 98; 97; 0; 7; 7; 7; 7]) 200 [97; 98; 0])
    300 (replicate 8 7).
Definition demo : machine := Machine demo_ram 512 [] [].

Ltac demo_readable :=
  intros a Ha; unfold demo, demo_ram; cbn [ram];
  repeat (rewrite lookup_insert; case_decide; [eauto|]); cbn in *; lia.

Lemma demo_cstring_aba : cstring (ram demo) 100 [97; 98; 97].
Proof.
  split_and!; [|repeat constructor; lia|lia|cbn; lia].
  intros [|[|[|[|]]]] b Hb; cbn in Hb; simplify_eq; reflexivity.
Defined.

Lemma demo_cstring_ab : cstring (ram demo) 200 [97; 98].
Proof.
  split_and!; [|repeat constructor; lia|lia|cbn; lia].
  intros [|[|[|]]] b Hb; cbn in Hb; simplify_eq; reflexivity.
Defined.

Lemma demo_buffer n : n <= 8 -> readable (ram demo) 300 n.
Proof.
  intros Hn a Ha.
  assert (a = 300 \/ a = 301 \/ a = 302 \/ a = 303 \/ a = 304 \/ a = 305 \/ a = 306 \/ a = 307)
    as [->|[->|[->|[->|[->|[->|[->| ->]]]]]]] by lia; eexists; reflexivity.
Qed.

Lemma memset_correct_witness :
  exists m, memset 300 5 4 demo = Ret (tt, set_ram m demo) /\ m !! 303 = Some 5 /\ m !! 304 = Some 7.
Proof.
  destruct (memset_correct demo 300 5 4) as (m & H1 & H2 & H3);
    [lia|lia|lia|by apply demo_buffer|].
  exists m. split_and!; [done|apply H2; lia|]. rewrite H3 by lia. reflexivity.
Defined.

Lemma memcpy_correct_witness :
  exists m, memcpy 300 100 3 demo = Ret (tt, set_ram m demo) /\ bytes_at m 300 [97; 98; 97].
Proof.
  destruct (memcpy_correct demo 300 100 [97; 98; 97]) as (m & H1 & H2 & H3);
    [lia|lia|cbn; lia|cbn; lia|cbn; lia|repeat constructor; lia
    |apply (bytes_at_app _ _ _ [0]), demo_cstring_aba|by apply demo_buffer|cbn; lia|].
  exists m. split; [exact H1|done].
Defined.

Lemma memcmp_correct_witness : memcmp 100 200 3 demo = Ret (1, demo).
Proof.
  exact (proj1 (memcmp_correct demo 100 200 [97; 98; 97] [97; 98; 0] ltac:(lia) ltac:(lia)
    eq_refl ltac:(cbn; lia) ltac:(cbn; lia) ltac:(repeat constructor; lia)
    ltac:(repeat constructor; lia)
    (proj1 (proj1 (bytes_at_app _ _ _ [0]) (proj1 demo_cstring_aba))) (proj1 demo_cstring_ab))).
Defined.

Lemma strcpy_roundtrip_witness :
  exists s', strcpy 10 300 100 demo = Ret (300, s') /\ strlen 10 300 s' = Ret (3, s').
Proof.
  destruct (strcpy_roundtrip demo 300 100 [97; 98; 97] 10) as (s' & H1 & H2 & _);
    [exact demo_cstring_aba|lia|cbn; lia|by apply demo_buffer|cbn; lia|cbn; lia|].
  exists s'. split; [exact H1|exact H2].
Defined.

Lemma strcmp_correct_witness : exists r, strcmp 10 100 200 demo = Ret (r, demo) /\ r <> 0.
Proof.
  destruct (strcmp_correct demo 100 200 [97; 98; 97] [97; 98] 10) as (r & H1 & _ & H2);
    [exact demo_cstring_aba|exact demo_cstring_ab|cbn; lia|].
  exists r. split; [exact H1|]. intros E. apply H2 in E. discriminate E.
Defined.

Lemma strcat_correct_witness :
  exists s', strcat 10 100 200 demo = Ret (100, s') /\ cstring (ram s') 100 [97; 98; 97; 97; 98].
Proof.
  destruct (strcat_correct demo 100 200 [97; 98; 97] [97; 98] 10) as (s' & H1 & H2 & _);
    [exact demo_cstring_aba|exact demo_cstring_ab|cbn; lia| |cbn; lia|cbn; lia|cbn; lia|].
  - intros a Ha. cbn in Ha.
    assert (a = 103 \/ a = 104 \/ a = 105) as [->|[->| ->]] by lia; eexists; reflexivity.
  - exists s'. split; [exact H1|exact H2].
Defined.

Lemma strrchr_finds_first_witness : strrchr 10 100 97 demo = Ret (100, demo).
Proof. rewrite (strrchr_finds_first demo 100 97 10); [reflexivity|lia]. Defined.
