(* ===== verification/Bitmap.v ===== *)
(** * lib/kernel/bitmap.c: bitmaps over byte memory

    A [struct bitmap] is a length in bytes and a pointer; the bits live in memory, so a read past
    the last byte sees whatever lies behind the bitmap. *)
From stdpp Require Import base list gmap strings.
From S2P Require Import Prelude Machine CString.

Record bitmap := Bitmap { bitmap_bytes_len : Z; bits : Z }.

Definition BITMAP_MASK : Z := 1.

Definition BitmapInit (btmp : bitmap) : M machine unit :=
  memset (bits btmp) 0 (bitmap_bytes_len btmp).

Definition BitmapTestBit (btmp : bitmap) (bit_idx : Z) : M machine Z :=
  let byte_idx := bit_idx / 8 in
  let bit_order := bit_idx mod 8 in
  let* b := ld8 (u32 (bits btmp + byte_idx)) in
  ret (Z.land b (Z.shiftl BITMAP_MASK bit_order)).

(** [while (btmp->bits[byte_idx] == 0xFF && byte_idx < btmp->bitmap_bytes_len) byte_idx++;] *)
Definition scan_byte_body (btmp : bitmap) (byte_idx : Z) : M machine (Z + Z) :=
  let* b := ld8 (u32 (bits btmp + byte_idx)) in
  if (b =? 0xFF) && (byte_idx <? bitmap_bytes_len btmp)
  then ret (inl (u32 (byte_idx + 1))) else ret (inr byte_idx).

(** [while ((uint8_t)(BITMAP_MASK << bit_idx) & btmp->bits[byte_idx]) ++bit_idx;] *)
Definition scan_bit_body (btmp : bitmap) (byte_idx bit_idx : Z) : M machine (Z + Z) :=
  let* b := ld8 (u32 (bits btmp + byte_idx)) in
  if negb (Z.land (u8 (Z.shiftl BITMAP_MASK bit_idx)) b =? 0)
  then ret (inl (u32 (bit_idx + 1))) else ret (inr bit_idx).

(** The loop [while (bits_left-- > 0)] over [next_bit] and [avl_bits_count]. *)
Definition scan_run_body (btmp : bitmap) (cnt : Z) '((bits_left, next_bit, avl_bits_count) : Z * Z * Z)
    : M machine (Z * Z * Z + Z) :=
  if bits_left =? 0 then ret (inr (-1))
  else
    let* t := BitmapTestBit btmp next_bit in
    let avl_bits_count := if t =? 0 then u32 (avl_bits_count + 1) else 0 in
    if avl_bits_count =? cnt then ret (inr (s32 (u32 (next_bit - cnt + 1))))
    else ret (inl (u32 (bits_left - 1), u32 (next_bit + 1), avl_bits_count)).

Definition BitmapScan (btmp : bitmap) (cnt : Z) : M machine Z :=
  let* byte_idx := iter (S (Z.to_nat (bitmap_bytes_len btmp))) (scan_byte_body btmp) 0 in
  ASSERT (byte_idx <? bitmap_bytes_len btmp) "BitmapScan" 28 ;;;
  if byte_idx >=? bitmap_bytes_len btmp then ret (-1)
  else
    let* bit_idx := iter 9 (scan_bit_body btmp byte_idx) 0 in
    let bit_idx_start := s32 (byte_idx * 8 + bit_idx) in
    if cnt =? 1 then ret bit_idx_start
    else
      let bits_left := u32 (bitmap_bytes_len btmp * 8 - bit_idx_start) in
      let next_bit := u32 (bit_idx_start + 1) in
      iter (S (Z.to_nat bits_left)) (scan_run_body btmp cnt) (bits_left, next_bit, 1).

Definition BitmapSetBit (btmp : bitmap) (bit_idx value : Z) : M machine unit :=
  let value := s8 value in
  ASSERT ((value =? 0) || (value =? 1)) "BitmapSetBit" 72 ;;;
  let byte_idx := bit_idx / 8 in
  let bit_order := bit_idx mod 8 in
  let a := u32 (bits btmp + byte_idx) in
  let* b := ld8 a in
  if negb (value =? 0) then st8 a (Z.lor b (Z.shiftl BITMAP_MASK bit_order))
  else st8 a (Z.land b (Z.lnot (Z.shiftl BITMAP_MASK bit_order))).

(** ** What a bitmap stands for *)

(** Bit [i] counted from the first byte; a missing byte reads as set. *)
Definition bit (m : gmap Z Z) (btmp : bitmap) (i : Z) : bool :=
  match m !! (bits btmp + i / 8) with Some b => Z.testbit b (i mod 8) | None => true end.

(** The bitmap is in memory, together with the one byte behind it. *)
Definition bitmap_ok (m : gmap Z Z) (btmp : bitmap) : Prop :=
  ram_ok m /\ 0 < bits btmp /\ 0 <= bitmap_bytes_len btmp /\
  8 * bitmap_bytes_len btmp + 8 < 2 ^ 31 /\ bits btmp + bitmap_bytes_len btmp < 2 ^ 32 /\
  readable m (bits btmp) (bitmap_bytes_len btmp + 1).

Definition nbits (btmp : bitmap) : Z := 8 * bitmap_bytes_len btmp.

(** [cnt] clear bits starting at [r]. *)
Definition free_run (m : gmap Z Z) (btmp : bitmap) (r cnt : Z) : Prop :=
  forall i, r <= i < r + cnt -> bit m btmp i = false.

(** ** Bits and bytes *)

Lemma land_pow2 x o : 0 <= o -> Z.land x (2 ^ o) = if Z.testbit x o then 2 ^ o else 0.
Proof.
  intros Ho. apply Z.bits_inj'. intros n Hn. rewrite Z.land_spec, Z.pow2_bits_eqb by lia.
  destruct (Z.eqb_spec o n) as [->|Hne].
  - rewrite andb_true_r. destruct (Z.testbit x n); [by rewrite Z.pow2_bits_true|by rewrite Z.bits_0].
  - rewrite andb_false_r. destruct (Z.testbit x o); [by rewrite Z.pow2_bits_false|by rewrite Z.bits_0].
Qed.

Lemma land_pow2_eqb x o : 0 <= o -> (Z.land x (2 ^ o) =? 0) = negb (Z.testbit x o).
Proof. intros. rewrite land_pow2 by lia. destruct (Z.testbit x o); cbn; lia. Qed.

Lemma byte_high_bits x o : 0 <= x < 256 -> 8 <= o -> Z.testbit x o = false.
Proof.
  intros Hx Ho. rewrite <- (Z.mod_small x (2 ^ 8)) by lia. apply Z.mod_pow2_bits_high. lia.
Qed.

Lemma byte_full x : 0 <= x < 256 -> (forall o, 0 <= o < 8 -> Z.testbit x o = true) -> x = 255.
Proof.
  intros Hx H. apply Z.bits_inj'. intros n Hn. destruct (decide (n < 8)).
  - rewrite H by lia. symmetry. change 255 with (Z.ones 8). by rewrite Z.ones_spec_low by lia.
  - rewrite !byte_high_bits by lia. done.
Qed.

Lemma byte_range x : (forall o, 8 <= o -> Z.testbit x o = false) -> 0 <= x -> x < 256.
Proof.
  intros H Hx. destruct (decide (x < 256)); [done|]. exfalso.
  assert (8 <= Z.log2 x) by (apply Z.log2_le_pow2; lia).
  specialize (H (Z.log2 x) ltac:(lia)). rewrite Z.bit_log2 in H by lia. done.
Qed.

Lemma byte_clear_bit x :
  0 <= x < 256 -> x <> 255 -> exists o, 0 <= o < 8 /\ Z.testbit x o = false.
Proof.
  intros Hx Hne.
  destruct (decide (Exists (fun o => Z.testbit x o = false) [0; 1; 2; 3; 4; 5; 6; 7])) as [H|H].
  - apply Exists_exists in H as (o & Ho & Hb). exists o. split; [|done].
    repeat (apply elem_of_cons in Ho as [->|Ho]; [lia|]). by apply not_elem_of_nil in Ho.
  - exfalso. apply Hne, byte_full; [done|]. intros o Ho.
    destruct (Z.testbit x o) eqn:E; [done|]. exfalso. apply H, Exists_exists. exists o.
    split; [|done]. rewrite !elem_of_cons. lia.
Qed.

Lemma lor_byte x o : 0 <= x < 256 -> 0 <= o < 8 -> 0 <= Z.lor x (2 ^ o) < 256.
Proof.
  intros Hx Ho. assert (0 <= Z.lor x (2 ^ o)) by (apply Z.lor_nonneg; lia).
  split; [done|]. apply byte_range; [|done]. intros n Hn.
  rewrite Z.lor_spec, Z.pow2_bits_false, byte_high_bits by lia. done.
Qed.

Lemma land_byte x y : 0 <= x < 256 -> 0 <= Z.land x y < 256.
Proof.
  intros Hx. assert (0 <= Z.land x y) by (apply Z.land_nonneg; lia).
  split; [done|]. apply byte_range; [|done]. intros n Hn.
  by rewrite Z.land_spec, byte_high_bits by lia.
Qed.

Lemma bit_split i : i = 8 * (i / 8) + i mod 8 /\ 0 <= i mod 8 < 8.
Proof. split; [apply Z.div_mod; lia|apply Z.mod_pos_bound; lia]. Qed.

Lemma bitmap_byte m btmp k :
  bitmap_ok m btmp -> 0 <= k <= bitmap_bytes_len btmp ->
  exists x, m !! (bits btmp + k) = Some x /\ 0 <= x < 256.
Proof.
  intros (Hok & _ & _ & _ & _ & Hr) Hk. destruct (Hr (bits btmp + k)) as [x Hx]; [lia|].
  exists x. split; [done|]. apply (Hok _ _ Hx).
Qed.

Lemma bitmap_addr m btmp k :
  bitmap_ok m btmp -> 0 <= k <= bitmap_bytes_len btmp -> u32 (bits btmp + k) = bits btmp + k.
Proof. intros (? & ? & ? & ? & ? & ?) ?. apply u32_id. lia. Qed.

Lemma bit_byte m btmp k x o :
  m !! (bits btmp + k) = Some x -> 0 <= o < 8 -> bit m btmp (8 * k + o) = Z.testbit x o.
Proof.
  intros Hx Ho. unfold bit. rewrite (Z.mul_comm 8), Z.div_add_l, Z.div_small, Z.add_0_r by lia.
  rewrite Hx. f_equal. rewrite Z.add_comm, Z.mod_add by lia. by apply Z.mod_small.
Qed.

(** ** Test and set *)

Lemma BitmapTestBit_ok s btmp i :
  bitmap_ok (ram s) btmp -> 0 <= i < nbits btmp + 8 ->
  exists t, BitmapTestBit btmp i s = Ret (t, s) /\ (t =? 0) = negb (bit (ram s) btmp i).
Proof.
  intros Hok Hi. unfold nbits in Hi. destruct (bit_split i) as [Hs Ho].
  destruct (bitmap_byte _ _ (i / 8) Hok) as (x & Hx & Hx8); [lia|].
  eexists. split.
  - unfold BitmapTestBit. rewrite (bitmap_addr _ _ _ Hok) by lia.
    rewrite (bind_Ret _ _ _ _ _ (ld8_ok _ _ _ Hx)). done.
  - rewrite Z.shiftl_1_l, land_pow2_eqb by lia. f_equal. unfold bit. by rewrite Hx.
Qed.

Lemma bit_insert m btmp i x b :
  0 <= i -> m !! (bits btmp + i / 8) = Some x ->
  (forall o, 0 <= o < 8 -> Z.testbit b o = if o =? i mod 8 then Z.testbit b (i mod 8) else Z.testbit x o) ->
  forall j, bit (<[bits btmp + i / 8 := b]> m) btmp j =
    if j =? i then Z.testbit b (i mod 8) else bit m btmp j.
Proof.
  intros Hi Hx Hb j. unfold bit. rewrite lookup_insert.
  destruct (bit_split i) as [Hsi Hoi], (bit_split j) as [Hsj Hoj].
  destruct (Z.eqb_spec j i) as [->|Hne]; case_decide as Hd; try done.
  assert (j / 8 = i / 8) as E by lia. rewrite E, Hx, Hb by lia.
  destruct (Z.eqb_spec (j mod 8) (i mod 8)); [lia|done].
Qed.

Lemma BitmapSetBit_ok s btmp i v :
  bitmap_ok (ram s) btmp -> 0 <= i < nbits btmp + 8 -> v = 0 \/ v = 1 ->
  exists m, BitmapSetBit btmp i v s = Ret (tt, set_ram m s) /\ bitmap_ok m btmp /\
    (forall j, bit m btmp j = if j =? i then v =? 1 else bit (ram s) btmp j) /\
    same_outside (fun a => a = bits btmp + i / 8) (ram s) m.
Proof.
  intros Hok Hi Hv. unfold nbits in Hi. destruct (bit_split i) as [Hsi Hoi].
  destruct (bitmap_byte _ _ (i / 8) Hok) as (x & Hx & Hx8); [lia|].
  set (b := if v =? 1 then Z.lor x (2 ^ (i mod 8)) else Z.land x (Z.lnot (2 ^ (i mod 8)))).
  assert (0 <= b < 256) as Hb8.
  { unfold b. destruct (v =? 1); [by apply lor_byte|by apply land_byte]. }
  exists (<[bits btmp + i / 8 := b]> (ram s)). split_and!.
  - unfold BitmapSetBit. rewrite (bind_Ret _ _ s tt s) by (apply ASSERT_true; destruct Hv as [->| ->]; done).
    rewrite (bitmap_addr _ _ _ Hok), (bind_Ret _ _ _ _ _ (ld8_ok _ _ _ Hx)) by lia.
    rewrite !Z.shiftl_1_l. unfold b in *.
    destruct Hv as [->| ->]; [change (s8 0) with 0|change (s8 1) with 1];
      cbn [Z.eqb negb Pos.eqb] in *; rewrite st8_ok by (rewrite Hx; eauto); by rewrite u8_id by done.
  - destruct Hok as (H1 & H2 & H3 & H4 & H5 & H6). split_and!; try done.
    + by apply ram_ok_insert.
    + intros a Ha. rewrite lookup_insert. case_decide; eauto.
  - intros j. rewrite (bit_insert _ _ _ x) by (try done; try lia; intros o Ho; unfold b;
      destruct (v =? 1); rewrite ?Z.lor_spec, ?Z.land_spec, ?Z.lnot_spec, !Z.pow2_bits_eqb by lia;
      rewrite ?Z.eqb_refl; destruct (Z.eqb_spec (i mod 8) o); destruct (Z.eqb_spec o (i mod 8)); try lia;
      subst; cbn; rewrite ?orb_true_r, ?orb_false_r, ?andb_true_r, ?andb_false_r; done).
    destruct (j =? i); [|done]. unfold b.
    destruct (v =? 1); rewrite ?Z.lor_spec, ?Z.land_spec, ?Z.lnot_spec, Z.pow2_bits_eqb by lia;
      rewrite Z.eqb_refl; cbn; [apply orb_true_r|apply andb_false_r].
  - intros a Ha. apply lookup_insert_ne. congruence.
Qed.

(** on a bitmap in memory, [BitmapSetBit i v] with [v] 0 or 1 gives bit [i] the value [v] and
    keeps every other bit, every byte outside the bit's own byte and the memory's shape; any
    other [v] panics. *)
Theorem BitmapSetBit_correct s btmp i v :
  bitmap_ok (ram s) btmp -> 0 <= i < nbits btmp + 8 ->
  (v = 0 \/ v = 1 ->
    exists m, BitmapSetBit btmp i v s = Ret (tt, set_ram m s) /\ bitmap_ok m btmp /\
      (forall j, bit m btmp j = if j =? i then v =? 1 else bit (ram s) btmp j) /\
      same_outside (fun a => a = bits btmp + i / 8) (ram s) m) /\
  (s8 v <> 0 -> s8 v <> 1 -> BitmapSetBit btmp i v s = Panic "BitmapSetBit" 72).
Proof.
  intros Hok Hi. split; [by apply BitmapSetBit_ok|]. intros H0 H1. unfold BitmapSetBit.
  erewrite bind_Panic; [done|]. apply ASSERT_false. lia.
Qed.

(** [BitmapInit] clears every bit of the bitmap and touches nothing outside its bytes. *)
Lemma BitmapInit_ok s btmp :
  bitmap_ok (ram s) btmp ->
  exists m, BitmapInit btmp s = Ret (tt, set_ram m s) /\ bitmap_ok m btmp /\
    (forall i, 0 <= i < nbits btmp -> bit m btmp i = false) /\
    same_outside (fun a => bits btmp <= a < bits btmp + bitmap_bytes_len btmp) (ram s) m.
Proof.
  intros Hok. pose proof Hok as (Hram & Hp & Hl & Hlim & Hend & Hr).
  set (n := Z.to_nat (bitmap_bytes_len btmp)).
  exists (write_bytes (ram s) (bits btmp) (replicate n (u8 0))). split_and!.
  - unfold BitmapInit, memset.
    rewrite (bind_Ret _ _ s tt s) by (apply ASSERT_true, negb_eqb_true; lia).
    pose proof (memset_loop 0 n s (bits btmp)) as H.
    unfold n in *. rewrite Z2Nat.id in H by lia. apply H; [lia|lia| |lia].
    eapply readable_le; [done|lia|lia].
  - split_and!; try done; [|by apply write_bytes_readable].
    apply write_bytes_ok; [done|]. apply Forall_replicate. apply u8_range.
  - intros i Hi. unfold nbits in Hi. destruct (bit_split i) as [Hs Ho]. unfold bit.
    replace (bits btmp + i / 8) with (bits btmp + Z.of_nat (Z.to_nat (i / 8))) by lia.
    rewrite (write_bytes_lookup_in _ _ _ _ 0); [apply Z.bits_0|].
    apply lookup_replicate_2. lia.
  - intros a Ha. apply write_bytes_lookup_out. rewrite length_replicate. lia.
Qed.

(** ** The scan *)

Section scan.
  Context (s : machine) (btmp : bitmap) (Hok : bitmap_ok (ram s) btmp).
  #[local] Abbreviation m := (ram s).
  #[local] Abbreviation len := (bitmap_bytes_len btmp).

Lemma len_bounds : 0 <= len /\ 8 * len + 8 < 2 ^ 31.
Proof. destruct Hok as (_ & _ & ? & ? & _). lia. Qed.

Lemma scan_bytes :
  wp (iter (S (Z.to_nat len)) (scan_byte_body btmp) 0) (fun k s' => s' = s /\ 0 <= k <= len /\
    (forall i, 0 <= i < 8 * k -> bit m btmp i = true) /\
    (k < len -> exists x, m !! (bits btmp + k) = Some x /\ 0 <= x < 256 /\ x <> 255)) s.
Proof.
  pose proof len_bounds as [Hl Hl'].
  apply (wp_iter (fun k s' => s' = s /\ 0 <= k <= len /\
    (forall i, 0 <= i < 8 * k -> bit m btmp i = true)) (fun k => Z.to_nat (len - k))); [|split_and!; [done|lia|lia|intros; lia]|lia].
  intros k s' (-> & Hk & Hset).
  destruct (bitmap_byte _ _ k Hok Hk) as (x & Hx & Hx8).
  unfold scan_byte_body. rewrite (bitmap_addr _ _ _ Hok) by lia.
  apply wp_bind. eapply wp_intro; [by apply ld8_ok|].
  destruct (Z.eqb_spec x 255) as [->|Hne]; cbn [andb].
  - destruct (Z.ltb_spec k len); apply wp_ret; [|split_and!; (done || lia)].
    rewrite u32_id by lia. split_and!; [done|lia|lia| |lia].
    intros i Hi. destruct (decide (i < 8 * k)); [by apply Hset; lia|].
    replace i with (8 * k + (i - 8 * k)) by lia. rewrite (bit_byte _ _ _ _ _ Hx) by lia.
    change 255 with (Z.ones 8). apply Z.ones_spec_low. lia.
  - apply wp_ret. split_and!; [done|lia|lia|done|]. intros. eauto.
Qed.

Lemma scan_bits k x :
  0 <= k < len -> m !! (bits btmp + k) = Some x -> 0 <= x < 256 -> x <> 255 ->
  wp (iter 9 (scan_bit_body btmp k) 0) (fun o s' => s' = s /\ 0 <= o < 8 /\
    bit m btmp (8 * k + o) = false /\ forall i, 8 * k <= i < 8 * k + o -> bit m btmp i = true) s.
Proof.
  intros Hk Hx Hx8 Hne. destruct (byte_clear_bit x Hx8 Hne) as (j & Hj & Hjx).
  pose proof len_bounds as [Hl Hl'].
  apply (wp_iter (fun o s' => s' = s /\ 0 <= o <= j /\
    forall i, 8 * k <= i < 8 * k + o -> bit m btmp i = true) (fun o => Z.to_nat (j - o)));
    [|split_and!; [done|lia|lia|intros; lia]|lia].
  intros o s' (-> & Ho & Hset). unfold scan_bit_body.
  rewrite (bitmap_addr _ _ _ Hok) by lia. apply wp_bind. eapply wp_intro; [by apply ld8_ok|].
  unfold BITMAP_MASK. rewrite Z.shiftl_1_l, u8_id, Z.land_comm, land_pow2_eqb, negb_involutive; [|lia|].
  2:{ pose proof (Z.pow_lt_mono_r 2 o 8). lia. }
  destruct (Z.testbit x o) eqn:E; apply wp_ret.
  - rewrite u32_id by lia. assert (o <> j) by congruence. split_and!; [done|lia|lia| |lia].
    intros i Hi. destruct (decide (i < 8 * k + o)); [by apply Hset; lia|].
    replace i with (8 * k + o) by lia. by rewrite (bit_byte _ _ _ _ _ Hx) by lia.
  - split_and!; [done|lia|lia| |done]. by rewrite (bit_byte _ _ _ _ _ Hx) by lia.
Qed.

(** The state of the run counter before bit [n] is examined: the last [k] bits before [n] are
    clear, they are preceded by a set bit, and no run of [cnt] clear bits ends at or before [n]. *)
Definition run_inv (cnt n k : Z) : Prop :=
  0 <= k < cnt /\ k <= n /\ free_run m btmp (n - k) k /\
  (0 < n - k -> bit m btmp (n - k - 1) = true) /\
  (forall r, 0 <= r -> r + cnt <= n -> ~ free_run m btmp r cnt).

Lemma run_inv_clear cnt n k :
  run_inv cnt n k -> bit m btmp n = false -> k + 1 < cnt -> run_inv cnt (n + 1) (k + 1).
Proof.
  intros (Hk & Hkn & Hrun & Hset & Hno) Hb Hlt. split_and!; [lia|lia|lia| | |].
  - intros i Hi. destruct (decide (i = n)) as [->|]; [done|]. apply Hrun. lia.
  - intros Hpos. replace (n + 1 - (k + 1) - 1) with (n - k - 1) by lia. apply Hset. lia.
  - intros r Hr Hle Hf. destruct (decide (r + cnt <= n)); [by eapply Hno|].
    assert (bit m btmp (n - k - 1) = true) as E by (apply Hset; lia).
    rewrite Hf in E by lia. done.
Qed.

Lemma run_inv_set cnt n k :
  0 < cnt -> run_inv cnt n k -> bit m btmp n = true -> run_inv cnt (n + 1) 0.
Proof.
  intros Hc (Hk & Hkn & Hrun & Hset & Hno) Hb. split_and!; [lia|lia|lia| | |].
  - intros i Hi. lia.
  - intros _. by replace (n + 1 - 0 - 1) with n by lia.
  - intros r Hr Hle Hf. destruct (decide (r + cnt <= n)); [by eapply Hno|].
    rewrite Hf in Hb by lia. done.
Qed.

Lemma run_inv_found cnt n k :
  run_inv cnt n k -> bit m btmp n = false -> k + 1 = cnt ->
  0 <= n - cnt + 1 /\ free_run m btmp (n - cnt + 1) cnt /\
  (forall r, 0 <= r < n - cnt + 1 -> ~ free_run m btmp r cnt).
Proof.
  intros (Hk & Hkn & Hrun & Hset & Hno) Hb Heq. split_and!; [lia| |].
  - intros i Hi. destruct (decide (i = n)) as [->|]; [done|]. apply Hrun. lia.
  - intros r Hr. apply Hno; lia.
Qed.

Definition scan_result (cnt r : Z) : Prop :=
  (0 <= r /\ r + cnt <= nbits btmp + 1 /\ free_run m btmp r cnt /\
     forall r', 0 <= r' < r -> ~ free_run m btmp r' cnt) \/
  (r = -1 /\ forall r', 0 <= r' -> r' + cnt <= nbits btmp + 1 -> ~ free_run m btmp r' cnt).

Lemma scan_runs cnt f :
  2 <= cnt < 2 ^ 31 -> 0 <= f < nbits btmp -> bit m btmp f = false ->
  (forall i, 0 <= i < f -> bit m btmp i = true) ->
  wp (iter (S (Z.to_nat (nbits btmp - f))) (scan_run_body btmp cnt) (nbits btmp - f, f + 1, 1))
    (fun r s' => s' = s /\ scan_result cnt r) s.
Proof.
  intros Hc Hf Hbf Hset. pose proof len_bounds as [Hl Hl']. unfold nbits in *.
  apply (wp_iter (fun '(rem, n, k) s' => s' = s /\ 0 <= rem /\ n = 8 * len + 1 - rem /\ f < n /\
    run_inv cnt n k) (fun '(rem, _, _) => Z.to_nat rem)); [| |lia].
  - intros [[rem n] k] s' (-> & Hleft & Hn & Hfn & Hinv). unfold scan_run_body.
    destruct (Z.eqb_spec rem 0) as [->|Hne].
    { apply wp_ret. split; [done|]. right. split; [done|]. intros r Hr Hle.
      destruct Hinv as (_ & _ & _ & _ & Hno). apply Hno; unfold nbits in *; lia. }
    apply wp_bind. destruct (BitmapTestBit_ok s btmp n Hok) as (t & Ht & Htb); [unfold nbits; lia|].
    eapply wp_intro; [exact Ht|]. cbn beta. rewrite Htb.
    pose proof Hinv as (Hk & Hkn & _).
    destruct (bit (ram s) btmp n) eqn:Hb; cbn [negb].
    + replace (0 =? cnt) with false by lia. apply wp_ret. rewrite !u32_id by lia.
      split_and!; [done|lia|lia|lia| |lia]. apply (run_inv_set cnt n k); (done || lia).
    + rewrite (u32_id (k + 1)) by lia. destruct (Z.eqb_spec (k + 1) cnt) as [Heq|Hneq].
      * destruct (run_inv_found cnt n k Hinv Hb Heq) as (H1 & H2 & H3). apply wp_ret.
        rewrite u32_id, s32_id by lia. split; [done|]. left.
        split_and!; [lia|unfold nbits; lia|done|done].
      * apply wp_ret. rewrite !u32_id by lia. split_and!; [done|lia|lia|lia| |lia].
        apply run_inv_clear; (done || lia).
  - split_and!; [done|lia|lia|lia|]. split_and!; [lia|lia|lia| | |].
    + intros i Hi. by replace i with f by lia.
    + intros H. apply Hset. lia.
    + intros r Hr Hle Hfree. assert (r < f) by lia.
      specialize (Hfree r ltac:(lia)). rewrite Hset in Hfree by lia. done.
Qed.

Lemma scan_first_clear :
  (exists i, 0 <= i < nbits btmp /\ bit m btmp i = false) ->
  exists f, 0 <= f < nbits btmp /\ bit m btmp f = false /\
    (forall i, 0 <= i < f -> bit m btmp i = true) /\
    (forall cnt, BitmapScan btmp cnt s =
      if cnt =? 1 then Ret (f, s)
      else iter (S (Z.to_nat (nbits btmp - f))) (scan_run_body btmp cnt) (nbits btmp - f, f + 1, 1) s).
Proof.
  intros (i & Hi & Hbi). pose proof len_bounds as [Hl Hl'].
  destruct (wp_elim _ _ _ scan_bytes) as (k & s' & Hk & -> & Hk0 & Hset & Hx).
  assert (k < len) as Hkl.
  { destruct (decide (k < len)); [done|]. rewrite Hset in Hbi by (unfold nbits in *; lia). done. }
  destruct (Hx Hkl) as (x & Hxk & Hx8 & Hne).
  destruct (wp_elim _ _ _ (scan_bits k x ltac:(lia) Hxk Hx8 Hne)) as (o & s' & Ho & -> & Ho8 & Hb & Hset').
  exists (8 * k + o). unfold nbits in *. split_and!; [lia|lia|done| |].
  - intros j Hj. destruct (decide (j < 8 * k)); [apply Hset|apply Hset']; lia.
  - intros cnt. unfold BitmapScan. rewrite (bind_Ret _ _ _ _ _ Hk).
    rewrite (bind_Ret _ _ s tt s) by (apply ASSERT_true; lia).
    replace (k >=? len) with false by lia. rewrite (bind_Ret _ _ _ _ _ Ho).
    rewrite s32_id by lia. replace (k * 8 + o) with (8 * k + o) by lia.
    replace (len * 8) with (8 * len) by lia. rewrite !u32_id by lia. by destruct (cnt =? 1).
Qed.

End scan.

Lemma BitmapScan_first_fit s btmp cnt :
  bitmap_ok (ram s) btmp -> 1 <= cnt < 2 ^ 31 ->
  (exists i, 0 <= i < nbits btmp /\ bit (ram s) btmp i = false) ->
  exists r, BitmapScan btmp cnt s = Ret (r, s) /\ scan_result s btmp cnt r /\
    (cnt = 1 -> 0 <= r < nbits btmp).
Proof.
  intros Hok Hc Hex. destruct (scan_first_clear s btmp Hok Hex) as (f & Hf & Hb & Hset & Hscan).
  rewrite Hscan. destruct (Z.eqb_spec cnt 1) as [->|Hne].
  - exists f. split_and!; [done| |done]. left. split_and!; [lia|lia| |].
    + intros i Hi. by replace i with f by lia.
    + intros r Hr Hfree. specialize (Hfree r ltac:(lia)). rewrite Hset in Hfree by lia. done.
  - destruct (wp_elim _ _ _ (scan_runs s btmp Hok cnt f ltac:(lia) Hf Hb Hset)) as (r & s' & Hr & -> & Hres).
    exists r. split_and!; [done|done|lia].
Qed.

(** A request that fits into the bitmap is found inside it. *)
Lemma BitmapScan_fits s btmp cnt r0 :
  bitmap_ok (ram s) btmp -> 1 <= cnt -> 0 <= r0 -> r0 + cnt <= nbits btmp ->
  free_run (ram s) btmp r0 cnt ->
  exists r, BitmapScan btmp cnt s = Ret (r, s) /\ 0 <= r <= r0 /\ free_run (ram s) btmp r cnt /\
    (forall r', 0 <= r' < r -> ~ free_run (ram s) btmp r' cnt).
Proof.
  intros Hok Hc Hr0 Hle Hrun. pose proof (len_bounds s btmp Hok). unfold nbits in Hle.
  destruct (BitmapScan_first_fit s btmp cnt Hok) as (r & Hr & Hres & _); [lia| |].
  { exists r0. split; [unfold nbits; lia|]. apply Hrun. lia. }
  exists r. split; [done|]. destruct Hres as [(H0 & H1 & H2 & H3)|[_ H3]].
  - split_and!; try done. destruct (decide (r <= r0)); [done|]. exfalso. apply (H3 r0); [lia|done].
  - exfalso. apply (H3 r0); [done|unfold nbits; lia|done].
Qed.

(** [BitmapScan btmp cnt] on a bitmap with a clear bit terminates without changing memory and is
    a first-fit search: it returns the lowest start of [cnt] consecutive clear bits, or -1 if
    there is none.  For [cnt >= 2] the bits it looks at include the one bit behind the bitmap, so
    the range it returns may end at bit [8 * len], one past the last. *)
Theorem BitmapScan_correct s btmp cnt :
  bitmap_ok (ram s) btmp -> 1 <= cnt < 2 ^ 31 ->
  (exists i, 0 <= i < nbits btmp /\ bit (ram s) btmp i = false) ->
  exists r, BitmapScan btmp cnt s = Ret (r, s) /\ scan_result s btmp cnt r /\
    (cnt = 1 -> 0 <= r < nbits btmp).
Proof. apply BitmapScan_first_fit. Qed.

Lemma BitmapScan_full s btmp cnt :
  bitmap_ok (ram s) btmp -> (forall i, 0 <= i < nbits btmp -> bit (ram s) btmp i = true) ->
  BitmapScan btmp cnt s = Panic "BitmapScan" 28.
Proof.
  intros Hok Hall. destruct (wp_elim _ _ _ (scan_bytes s btmp Hok)) as (k & s' & Hk & -> & Hk0 & Hset & Hx).
  assert (k = bitmap_bytes_len btmp) as ->.
  { destruct (decide (k < bitmap_bytes_len btmp)) as [Hlt|]; [|lia]. exfalso.
    destruct (Hx Hlt) as (x & Hxk & Hx8 & Hne). destruct (byte_clear_bit x Hx8 Hne) as (o & Ho & Hb).
    rewrite <- (bit_byte _ _ _ _ _ Hxk Ho), Hall in Hb by (unfold nbits; lia). done. }
  unfold BitmapScan. rewrite (bind_Ret _ _ _ _ _ Hk). apply bind_Panic, ASSERT_false. lia.
Qed.

(** on a bitmap without a clear bit [BitmapScan] does not return -1: its own [ASSERT] panics,
    whatever the requested count. *)
Theorem BitmapScan_full_panics s btmp cnt :
  bitmap_ok (ram s) btmp -> (forall i, 0 <= i < nbits btmp -> bit (ram s) btmp i = true) ->
  BitmapScan btmp cnt s = Panic "BitmapScan" 28.
Proof. apply BitmapScan_full. Qed.

(** A bitmap has a clear bit or is full. *)
Lemma bitmap_cases m btmp :
  {exists i, 0 <= i < nbits btmp /\ bit m btmp i = false} + {forall i, 0 <= i < nbits btmp -> bit m btmp i = true}.
Proof.
  destruct (decide (Exists (fun i => bit m btmp i = false) (seqZ 0 (nbits btmp)))) as [Hex|Hno].
  - left. apply Exists_exists in Hex as (i & Hi & Hb). apply elem_of_seqZ in Hi. exists i. split; [lia|done].
  - right. intros i Hi. destruct (bit m btmp i) eqn:Hb; [done|]. exfalso. apply Hno, Exists_exists.
    exists i. split; [apply elem_of_seqZ; lia|done].
Qed.

(** C38: [BitmapScan] terminates on every bitmap in memory, for every count an [int] can hold: it
    returns an index of the bitmap or -1, with memory unchanged, exactly when some bit is clear, and
    stops at its assertion of line 28 exactly when all are set.  No loop of it runs out of its bound
    and none reads outside the bitmap and the byte behind it. *)
Theorem BitmapScan_total s btmp cnt :
  bitmap_ok (ram s) btmp -> 1 <= cnt < 2 ^ 31 ->
  ((exists r, BitmapScan btmp cnt s = Ret (r, s) /\ -1 <= r < nbits btmp) <->
     exists i, 0 <= i < nbits btmp /\ bit (ram s) btmp i = false) /\
  (BitmapScan btmp cnt s = Panic "BitmapScan" 28 <-> forall i, 0 <= i < nbits btmp -> bit (ram s) btmp i = true) /\
  ((exists r, BitmapScan btmp cnt s = Ret (r, s)) \/ BitmapScan btmp cnt s = Panic "BitmapScan" 28).
Proof.
  intros Hok Hc. destruct (bitmap_cases (ram s) btmp) as [Hex|Hall].
  - destruct (BitmapScan_first_fit s btmp cnt Hok Hc Hex) as (r & Hr & Hres & H1). rewrite Hr.
    split_and!; [|split; [done|]|eauto].
    + split; [done|intros _]. exists r. split; [done|]. destruct Hex as (i & Hi & _).
      destruct (decide (cnt = 1)) as [Hc1|]; [specialize (H1 Hc1)|]; destruct Hres as [(? & ? & _)|[-> _]]; lia.
    + intros Hall. destruct Hex as (i & Hi & Hb). by rewrite Hall in Hb.
  - pose proof (BitmapScan_full s btmp cnt Hok Hall) as Hp. rewrite Hp. split_and!; [|done|by right].
    split; [by intros (r & ? & _)|]. intros (i & Hi & Hb). by rewrite Hall in Hb.
Qed.

(** the off-by-one of the run search: when the last bit is the only clear bit of the bitmap and
    the bit behind the bitmap happens to be clear, a request for two bits succeeds with a range
    whose second bit does not belong to the bitmap. *)
Theorem BitmapScan_overruns s btmp :
  bitmap_ok (ram s) btmp -> 0 < bitmap_bytes_len btmp ->
  (forall i, 0 <= i < nbits btmp - 1 -> bit (ram s) btmp i = true) ->
  bit (ram s) btmp (nbits btmp - 1) = false -> bit (ram s) btmp (nbits btmp) = false ->
  BitmapScan btmp 2 s = Ret (nbits btmp - 1, s).
Proof.
  intros Hok Hpos Hall Hlast Hbehind.
  destruct (scan_first_clear s btmp Hok) as (f & Hf & Hbf & Hset & ->).
  { exists (nbits btmp - 1). split; [unfold nbits; lia|done]. }
  destruct (wp_elim _ _ _ (scan_runs s btmp Hok 2 f ltac:(lia) Hf Hbf Hset)) as (r & s' & Hr & -> & Hres).
  change (2 =? 1) with false. cbn iota. rewrite Hr. do 2 f_equal.
  destruct Hres as [(H0 & H1 & Hfree & _)|(-> & Hno)].
  - destruct (decide (r = nbits btmp - 1)); [done|].
    specialize (Hfree r ltac:(lia)). rewrite Hall in Hfree by lia. done.
  - exfalso. apply (Hno (nbits btmp - 1)); [unfold nbits; lia|lia|].
    intros i Hi. assert (i = nbits btmp - 1 \/ i = nbits btmp) as [->| ->] by lia; done.
Qed.

(** ** Witnesses *)

(** Two bytes of bitmap at 100, one byte behind it. *)
Definition demo_bitmap : bitmap := Bitmap 2 100.
Definition demo_bits (b0 b1 b2 : Z) : machine := Machine (write_bytes ∅ 100 [b0; b1; b2]) 512 [] [].

Lemma demo_bitmap_ok b0 b1 b2 :
  0 <= b0 < 256 -> 0 <= b1 < 256 -> 0 <= b2 < 256 -> bitmap_ok (ram (demo_bits b0 b1 b2)) demo_bitmap.
Proof.
  intros. split_and!; [|cbn; lia..|].
  - apply write_bytes_ok; [apply ram_ok_empty|]. by rewrite !Forall_cons, Forall_nil.
  - apply (write_bytes_region ∅ 100 [b0; b1; b2]).
Qed.

Lemma BitmapSetBit_correct_witness :
  exists m, BitmapSetBit demo_bitmap 9 1 (demo_bits 255 0 0) = Ret (tt, set_ram m (demo_bits 255 0 0)) /\
    bit m demo_bitmap 9 = true /\ bit m demo_bitmap 10 = false.
Proof.
  destruct (proj1 (BitmapSetBit_correct (demo_bits 255 0 0) demo_bitmap 9 1
    (demo_bitmap_ok 255 0 0 ltac:(lia) ltac:(lia) ltac:(lia)) ltac:(zdec)) ltac:(lia))
    as (m & H1 & _ & H2 & _).
  exists m. split_and!; [exact H1|by rewrite H2|by rewrite H2].
Defined.

Lemma BitmapScan_correct_witness :
  exists r, BitmapScan demo_bitmap 3 (demo_bits 0xF7 0xE2 0) = Ret (r, demo_bits 0xF7 0xE2 0) /\
    scan_result (demo_bits 0xF7 0xE2 0) demo_bitmap 3 r.
Proof.
  destruct (BitmapScan_correct (demo_bits 0xF7 0xE2 0) demo_bitmap 3
    (demo_bitmap_ok 0xF7 0xE2 0 ltac:(lia) ltac:(lia) ltac:(lia)) ltac:(lia)) as (r & H1 & H2 & _).
  - exists 3. split; [zdec|reflexivity].
  - exists r. split; [exact H1|exact H2].
Defined.

Example BitmapScan_finds : BitmapScan demo_bitmap 3 (demo_bits 0xF7 0xE2 0) = Ret (10, demo_bits 0xF7 0xE2 0).
Proof. reflexivity. Qed.

Lemma BitmapScan_full_panics_witness :
  BitmapScan demo_bitmap 1 (demo_bits 255 255 0) = Panic "BitmapScan" 28.
Proof.
  apply (BitmapScan_full_panics (demo_bits 255 255 0) demo_bitmap 1
    (demo_bitmap_ok 255 255 0 ltac:(lia) ltac:(lia) ltac:(lia))).
  apply (forall_below 16). reflexivity.
Defined.

Lemma BitmapScan_total_witness :
  (exists r, BitmapScan demo_bitmap 2 (demo_bits 0xFF 0xE2 0) = Ret (r, demo_bits 0xFF 0xE2 0)) \/
  BitmapScan demo_bitmap 2 (demo_bits 0xFF 0xE2 0) = Panic "BitmapScan" 28.
Proof.
  apply (BitmapScan_total (demo_bits 0xFF 0xE2 0) demo_bitmap 2); [apply demo_bitmap_ok|]; lia.
Defined.

Lemma BitmapScan_overruns_witness :
  BitmapScan demo_bitmap 2 (demo_bits 255 127 0) = Ret (15, demo_bits 255 127 0).
Proof.
  apply (BitmapScan_overruns (demo_bits 255 127 0) demo_bitmap
    (demo_bitmap_ok 255 127 0 ltac:(lia) ltac:(lia) ltac:(lia))); [zdec| |reflexivity|reflexivity].
  apply (forall_below 15). reflexivity.
Defined.
