(* ===== verification/Print.v ===== *)
(** * lib/kernel/print.c: decimal and hexadecimal output

    Characters go to [sys_putchar]; the model records them in the machine's [tty] (newest first).
    The local arrays [str_num] are lists of their declared length; a write past the end faults. *)
From stdpp Require Import base list gmap strings.
From S2P Require Import Prelude Machine.

Definition sys_putchar (char_asci : Z) : M machine unit :=
  modify (fun s => set_tty (u8 char_asci :: tty s) s).

(** [sys_putstr] on the bytes of a string: up to the first 0, counting the characters. *)
Fixpoint sys_putstr_bytes (l : list Z) : M machine Z :=
  match l with
  | [] => fault 0
  | b :: l' =>
      if u8 b =? 0 then ret 0
      else
        sys_putchar b ;;;
        let* n := sys_putstr_bytes l' in
        ret (u32 (n + 1))
  end.

(** A string literal. *)
Fixpoint literal (str : string) : list Z :=
  match str with
  | EmptyString => [0]
  | String c str' => Z.of_N (Strings.Ascii.N_of_ascii c) :: literal str'
  end.
Definition sys_putstr (str : string) : M machine Z := sys_putstr_bytes (literal str).

(** A literal that ends in a newline. *)
Fixpoint literal_nl (str : string) : list Z :=
  match str with
  | EmptyString => [10; 0]
  | String c str' => Z.of_N (Strings.Ascii.N_of_ascii c) :: literal_nl str'
  end.
Definition sys_putline (str : string) : M machine Z := sys_putstr_bytes (literal_nl str).

(** [buf[i] = v] on a local array. *)
Definition set_at (i v : Z) (buf : list Z) : M machine (list Z) :=
  if (0 <=? i) && (i <? Z.of_nat (length buf)) then ret (<[Z.to_nat i := u8 v]> buf) else fault i.
Definition get_at (i : Z) (buf : list Z) : M machine Z :=
  match buf !! Z.to_nat i with Some v => ret v | None => fault i end.

(** [for (int i = 0; i < cnt/2; i++)]: the in-place reversal both functions end with. *)
Definition reverse_body (cnt : Z) '((i, buf) : Z * list Z) : M machine (Z * list Z + list Z) :=
  if i <? Z.quot cnt 2 then
    let* t := get_at i buf in
    let* x := get_at (cnt - i - 1) buf in
    let* buf := set_at i x buf in
    let* buf := set_at (cnt - i - 1) t buf in
    ret (inl (i + 1, buf))
  else ret (inr buf).

Definition reverse_buf (cnt : Z) (buf : list Z) : M machine (list Z) :=
  iter 16 (reverse_body cnt) (0, buf).

(** The [do .. while (num)] loop of [sys_putint]; [%] and [/] truncate towards zero. *)
Definition putint_body '((num, cnt, buf) : Z * Z * list Z) : M machine (Z * Z * list Z + Z * list Z) :=
  let* buf := set_at cnt (Z.rem num 10 + 48) buf in
  let num := Z.quot num 10 in
  if num =? 0 then ret (inr (cnt + 1, buf)) else ret (inl (num, cnt + 1, buf)).

Definition sys_putint (num : Z) : M machine Z :=
  let neg_flag := num <? 0 in
  let num := if neg_flag then s32 (- num) else num in
  let* (cnt, buf) := iter 16 putint_body (num, 0, replicate 16 0) in
  let* (cnt, buf) :=
    (if neg_flag then let* buf := set_at cnt 45 buf in ret (cnt + 1, buf) else ret (cnt, buf)) in
  let* buf := set_at cnt 0 buf in
  let* buf := reverse_buf cnt buf in
  sys_putstr_bytes buf.

Definition puthex_body '((num, cnt, buf) : Z * Z * list Z) : M machine (Z * Z * list Z + Z * list Z) :=
  if num =? 0 then ret (inr (cnt, buf))
  else
    let* buf := set_at cnt (num mod 16) buf in
    let* d := get_at cnt buf in
    let* buf := set_at cnt (if s8 d >? 9 then d + (65 - 10) else d + 48) buf in
    ret (inl (num / 16, cnt + 1, buf)).

Definition sys_puthex (num : Z) : M machine Z :=
  if num =? 0 then sys_putchar 48 ;;; ret 1
  else
    let* (cnt, buf) := iter 12 puthex_body (num, 0, replicate 12 0) in
    let* buf := set_at cnt 0 buf in
    let* buf := reverse_buf cnt buf in
    sys_putstr_bytes buf.

(** ** Numerals *)

(** The digits of [n] in base [b], least significant first; one digit for 0. *)
Fixpoint le_digits (fuel : nat) (b n : Z) : list Z :=
  match fuel with
  | O => []
  | S fuel' => n mod b :: (if n / b =? 0 then [] else le_digits fuel' b (n / b))
  end.

(** The value of a numeral whose most significant digit comes first. *)
Definition digit_char (d : Z) : Z := if d <=? 9 then d + 48 else d + 55.
Definition char_digit (c : Z) : Z := if c <=? 57 then c - 48 else c - 55.
Definition numeral_value (b : Z) (l : list Z) : Z := foldl (fun acc c => acc * b + char_digit c) 0 l.

(** What a reader makes of the printed characters. *)
Definition parse_int (l : list Z) : Z :=
  match l with 45 :: l' => - numeral_value 10 l' | _ => numeral_value 10 l end.

(** ** Proofs *)

Lemma set_at_ok i v buf s :
  (i < length buf)%nat -> set_at (Z.of_nat i) v buf s = Ret (<[i := u8 v]> buf, s).
Proof.
  intros H. unfold set_at. replace ((0 <=? Z.of_nat i) && _) with true by lia. by rewrite Nat2Z.id.
Qed.

Lemma get_at_ok i v buf s : buf !! i = Some v -> get_at (Z.of_nat i) buf s = Ret (v, s).
Proof. intros H. unfold get_at. by rewrite Nat2Z.id, H. Qed.

(** The in-place reversal, position by position. *)
Lemma reverse_buf_ok cnt buf s :
  (cnt <= length buf)%nat -> (cnt < 30)%nat -> Forall (fun b => 0 <= b < 256) buf ->
  reverse_buf (Z.of_nat cnt) buf s = Ret (reverse (take cnt buf) ++ drop cnt buf, s).
Proof.
  intros Hc H30 Hok.
  set (swapped := fun (i j : nat) => if decide (j < i \/ cnt <= i + j)%nat then buf !! (cnt - 1 - j)%nat else buf !! j).
  assert (wp (reverse_buf (Z.of_nat cnt) buf)
    (fun b s' => s' = s /\ b = reverse (take cnt buf) ++ drop cnt buf) s) as (b & s' & Hb & -> & ->)%wp_elim.
  2: done.
  apply (wp_iter (fun '(i, b) s' => s' = s /\ 0 <= i <= Z.of_nat (cnt / 2) /\ length b = length buf /\
      (forall j, (j < cnt)%nat -> b !! j = swapped (Z.to_nat i) j) /\
      (forall j, (cnt <= j)%nat -> b !! j = buf !! j))
    (fun '(i, _) => cnt / 2 - Z.to_nat i)%nat); [| |cbn beta iota; lia].
  - intros [i b] s' (-> & Hi & Hlen & Hin & Hout). unfold reverse_body.
    rewrite Z.quot_div_nonneg by lia.
    destruct (Z.ltb_spec i (Z.of_nat cnt / 2)) as [Hlt|Hge].
    + assert (exists n, i = Z.of_nat n) as [n ->] by (exists (Z.to_nat i); lia). rewrite Nat2Z.id in *.
      replace (Z.of_nat cnt - Z.of_nat n - 1) with (Z.of_nat (cnt - 1 - n)) by lia.
      destruct (lookup_lt_is_Some_2 buf n) as [x Hx]; [lia|].
      destruct (lookup_lt_is_Some_2 buf (cnt - 1 - n)) as [y Hy]; [lia|].
      assert (b !! n = Some x) as Hbx.
      { rewrite Hin by lia. unfold swapped. rewrite decide_False by lia. done. }
      assert (b !! (cnt - 1 - n)%nat = Some y) as Hby.
      { rewrite Hin by lia. unfold swapped. rewrite decide_False by lia. done. }
      apply wp_bind. eapply wp_intro; [by apply get_at_ok|].
      apply wp_bind. eapply wp_intro; [by apply get_at_ok|].
      apply wp_bind. eapply wp_intro; [by apply set_at_ok; lia|].
      apply wp_bind. eapply wp_intro; [by apply set_at_ok; rewrite length_insert; lia|].
      apply wp_ret. rewrite !u8_id by (eapply (Forall_lookup_1 _ _ _ _ Hok); eassumption).
      split_and!; [done|lia|lia|by rewrite !length_insert| | |lia].
      * intros j Hj. rewrite !list_lookup_insert, !length_insert.
        replace (Z.to_nat (Z.of_nat n + 1)) with (S n) by lia.
        unfold swapped. repeat case_decide; try lia; subst;
          rewrite ?Hin by lia; unfold swapped; repeat case_decide; try lia; try congruence.
        all: destruct_and?; subst j; rewrite ?Hx, ?Hy; try done.
        all: by replace (cnt - 1 - (cnt - 1 - n))%nat with n by lia.
      * intros j Hj. rewrite !list_lookup_insert_ne by lia. by apply Hout.
    + apply wp_ret. split; [done|]. apply list_eq. intros j.
      destruct (decide (j < cnt)%nat).
      * rewrite Hin, lookup_app_l by (rewrite ?length_reverse, ?length_take; lia).
        rewrite reverse_lookup by (rewrite length_take; lia).
        rewrite length_take, lookup_take_lt by lia. unfold swapped. case_decide; f_equal; lia.
      * rewrite Hout, lookup_app_r, length_reverse, length_take, lookup_drop by
          (rewrite ?length_reverse, ?length_take; lia). f_equal. lia.
  - split_and!; [done|lia|lia|done| |done]. intros j Hj. unfold swapped. by rewrite decide_False by lia.
Qed.

Lemma putstr_ok l : forall tl s,
  Forall (fun b => 0 < b < 256) l -> Z.of_nat (length l) < 2 ^ 32 ->
  sys_putstr_bytes (l ++ 0 :: tl) s = Ret (Z.of_nat (length l), set_tty (reverse l ++ tty s) s).
Proof.
  induction l as [|c l IH]; intros tl s Hl Hlen; [by destruct s|].
  apply Forall_cons in Hl as [Hc Hl]. cbn [app sys_putstr_bytes length] in *.
  rewrite u8_id by lia. replace (c =? 0) with false by lia.
  erewrite bind_Ret; [|reflexivity]. erewrite bind_Ret; [|apply IH; (done || lia)].
  unfold ret. rewrite u32_id, reverse_cons by lia. cbn. rewrite u8_id, <- app_assoc by lia.
  do 2 f_equal. lia.
Qed.

Lemma le_digits_spec k b : forall n,
  2 <= b -> 0 <= n < b ^ Z.of_nat k -> (0 < k)%nat ->
  Forall (fun d => 0 <= d < b) (le_digits k b n) /\
  (0 < length (le_digits k b n) <= k)%nat.
Proof.
  induction k as [|k IH]; intros n Hb Hn Hk; [lia|]. cbn [le_digits].
  pose proof (Z.mod_pos_bound n b ltac:(lia)).
  destruct (Z.eqb_spec (n / b) 0) as [E|E]; cbn [length].
  - split; [by rewrite Forall_singleton|lia].
  - rewrite Nat2Z.inj_succ, Z.pow_succ_r in Hn by lia.
    assert (n / b < b ^ Z.of_nat k) by (apply Z.div_lt_upper_bound; lia).
    assert (0 <= n / b) by (apply Z.div_pos; lia).
    destruct k as [|k']; [cbn in *; lia|].
    destruct (IH (n / b)) as [IH1 IH2]; [done|done|lia|]. split; [by constructor|lia].
Qed.

Lemma char_digit_char d : 0 <= d < 16 -> char_digit (digit_char d) = d.
Proof. intros. unfold char_digit, digit_char. repeat case_match; lia. Qed.

Lemma digit_char_range d : 0 <= d < 16 -> 48 <= digit_char d < 71.
Proof. intros. unfold digit_char. case_match; lia. Qed.

Lemma numeral_snoc b l c : numeral_value b (l ++ [c]) = numeral_value b l * b + char_digit c.
Proof. unfold numeral_value. by rewrite foldl_app. Qed.

(** Printing the digits of [n] and reading them back gives [n]. *)
Lemma numeral_le_digits k b : forall n,
  2 <= b <= 16 -> 0 <= n < b ^ Z.of_nat k -> (0 < k)%nat ->
  numeral_value b (reverse (map digit_char (le_digits k b n))) = n.
Proof.
  induction k as [|k IH]; intros n Hb Hn Hk; [lia|]. cbn [le_digits].
  pose proof (Z.mod_pos_bound n b ltac:(lia)). pose proof (Z.div_mod n b ltac:(lia)).
  cbn [map]. rewrite reverse_cons, numeral_snoc, char_digit_char by lia.
  destruct (Z.eqb_spec (n / b) 0) as [E|E].
  - cbn. lia.
  - rewrite Nat2Z.inj_succ, Z.pow_succ_r in Hn by lia.
    assert (n / b < b ^ Z.of_nat k) by (apply Z.div_lt_upper_bound; lia).
    assert (0 <= n / b) by (apply Z.div_pos; lia).
    destruct k as [|k']; [cbn in *; lia|]. rewrite IH by lia. lia.
Qed.

Lemma set_at_split pre r rest v s :
  set_at (Z.of_nat (length pre)) v (pre ++ r :: rest) s = Ret ((pre ++ [u8 v]) ++ rest, s).
Proof.
  rewrite set_at_ok by (rewrite length_app; cbn; lia).
  rewrite insert_app_r_alt, Nat.sub_diag by lia. cbn. by rewrite <- app_assoc.
Qed.

Lemma putint_loop j k : forall n pre rest s,
  0 <= n < 10 ^ Z.of_nat k -> (0 < k <= length rest)%nat ->
  iter (k + j) putint_body (n, Z.of_nat (length pre), pre ++ rest) s =
  let ds := map digit_char (le_digits k 10 n) in
  Ret ((Z.of_nat (length pre + length ds), pre ++ ds ++ drop (length ds) rest), s).
Proof.
  induction k as [|k IH]; intros n pre rest s Hn Hk; [lia|].
  destruct rest as [|r rest]; [cbn in Hk; lia|]. cbn [length] in *.
  pose proof (Z.mod_pos_bound n 10 ltac:(lia)).
  assert (n / 10 < 10 ^ Z.of_nat k).
  { rewrite Nat2Z.inj_succ, Z.pow_succ_r in Hn by lia. apply Z.div_lt_upper_bound; lia. }
  assert (0 <= n / 10) by (apply Z.div_pos; lia).
  assert (u8 (Z.rem n 10 + 48) = digit_char (n mod 10)) as Hd.
  { rewrite Z.rem_mod_nonneg by lia. unfold digit_char.
    replace (n mod 10 <=? 9) with true by lia. apply u8_id. lia. }
  cbn [le_digits]. cbn [Nat.add]. erewrite iter_S.
  2:{ unfold putint_body. rewrite (bind_Ret _ _ _ _ _ (set_at_split _ _ _ _ _)), Hd.
      rewrite Z.quot_div_nonneg by lia. instantiate (1 := s).
      instantiate (1 := if n / 10 =? 0 then _ else _). by destruct (n / 10 =? 0). }
  cbn [map]. destruct (Z.eqb_spec (n / 10) 0) as [E|E].
  - cbn [length map drop]. rewrite <- app_assoc. cbn. do 3 f_equal. lia.
  - replace (Z.of_nat (length pre) + 1) with (Z.of_nat (length (pre ++ [digit_char (n mod 10)])))
      by (rewrite length_app; cbn; lia).
    destruct k as [|k']; [cbn in *; lia|]. rewrite IH by lia. cbv zeta.
    rewrite length_app. cbn [length drop]. rewrite <- !app_assoc. cbn [app]. do 3 f_equal. lia.
Qed.

Lemma puthex_loop j k : forall n pre rest s,
  0 < n < 16 ^ Z.of_nat k -> (k <= length rest)%nat ->
  iter (S k + j) puthex_body (n, Z.of_nat (length pre), pre ++ rest) s =
  let ds := map digit_char (le_digits k 16 n) in
  Ret ((Z.of_nat (length pre + length ds), pre ++ ds ++ drop (length ds) rest), s).
Proof.
  induction k as [|k IH]; intros n pre rest s Hn Hk; [cbn in Hn; lia|].
  destruct rest as [|r rest]; [cbn in Hk; lia|]. cbn [length] in *.
  pose proof (Z.mod_pos_bound n 16 ltac:(lia)).
  assert (n / 16 < 16 ^ Z.of_nat k).
  { rewrite Nat2Z.inj_succ, Z.pow_succ_r in Hn by lia. apply Z.div_lt_upper_bound; lia. }
  assert (0 <= n / 16) by (apply Z.div_pos; lia).
  cbn [le_digits]. cbn [Nat.add]. rewrite iter_S with (s' := s)
    (x := inl (n / 16, Z.of_nat (length pre) + 1, (pre ++ [digit_char (n mod 16)]) ++ rest)).
  2:{ unfold puthex_body. replace (n =? 0) with false by lia.
      rewrite (bind_Ret _ _ _ _ _ (set_at_split _ _ _ _ _)), (u8_id (n mod 16)) by lia.
      erewrite bind_Ret; [|apply get_at_ok; by rewrite <- app_assoc, lookup_app_r, Nat.sub_diag by lia].
      rewrite <- app_assoc. cbn [app].
      rewrite (bind_Ret _ _ _ _ _ (set_at_split _ _ _ _ _)).
      assert (s8 (n mod 16) = n mod 16) as ->.
      { unfold s8. rewrite u8_id by lia. by replace (_ <? _) with true by lia. }
      unfold ret, digit_char. do 4 f_equal.
      destruct (Z.gtb_spec (n mod 16) 9), (Z.leb_spec (n mod 16) 9); try lia;
        rewrite u8_id by lia; do 4 f_equal; lia. }
  cbn [map]. destruct (Z.eqb_spec (n / 16) 0) as [E|E].
  - rewrite E. cbn [Nat.add]. rewrite iter_S with (s' := s)
      (x := inr (Z.of_nat (length pre) + 1, (pre ++ [digit_char (n mod 16)]) ++ rest)) by done.
    cbn [length map drop]. rewrite <- app_assoc. cbn. do 3 f_equal. lia.
  - replace (Z.of_nat (length pre) + 1) with (Z.of_nat (length (pre ++ [digit_char (n mod 16)])))
      by (rewrite length_app; cbn; lia).
    change (S (k + j)) with (S k + j)%nat. rewrite IH by lia. cbv zeta.
    rewrite length_app. cbn [length drop]. rewrite <- !app_assoc. cbn [app]. do 3 f_equal. lia.
Qed.

(** Terminating, reversing and printing a buffer that starts with the characters [ds]. *)
Lemma finish_ok ds r rest s :
  Forall (fun b => 0 < b < 256) ds -> (length ds < 30)%nat -> Forall (fun b => 0 <= b < 256) (r :: rest) ->
  (let* buf := set_at (Z.of_nat (length ds)) 0 (ds ++ r :: rest) in
   let* buf := reverse_buf (Z.of_nat (length ds)) buf in
   sys_putstr_bytes buf) s =
  Ret (Z.of_nat (length ds), set_tty (ds ++ tty s) s).
Proof.
  intros Hds H30 Hrest. apply Forall_cons in Hrest as [_ Hrest].
  rewrite (bind_Ret _ _ _ _ _ (set_at_split _ _ _ _ _)), <- app_assoc.
  change ([u8 0] ++ rest) with (0 :: rest).
  assert (Forall (fun b => 0 <= b < 256) (ds ++ 0 :: rest)) as Hok.
  { apply Forall_app; split; [forall_lia Hds|].
    constructor; [lia|done]. }
  rewrite (bind_Ret _ _ _ _ _ (reverse_buf_ok (length ds) (ds ++ 0 :: rest) s ltac:(rewrite length_app; lia) H30 Hok)).
  rewrite take_app_length, drop_app_length, putstr_ok, reverse_involutive, length_reverse;
    [done|by apply Forall_reverse|rewrite length_reverse; lia].
Qed.

Lemma parse_int_digits l : Forall (fun b => 48 <= b < 71) l -> parse_int l = numeral_value 10 l.
Proof.
  intros H. destruct l as [|c l]; [done|]. apply Forall_cons in H as [Hc _].
  unfold parse_int. repeat case_match; try done. lia.
Qed.

Lemma zeros_ok k : Forall (fun b => 0 <= b < 256) (0 :: replicate k 0).
Proof. change (0 :: replicate k 0) with (replicate (S k) 0). apply Forall_replicate. lia. Qed.

Lemma digits_room (ds : list Z) n :
  (length ds + 2 <= n)%nat -> exists k, drop (length ds) (replicate n 0) = 0 :: 0 :: replicate k 0.
Proof.
  intros H. assert (exists k, n - length ds = S (S k))%nat as [k Hk] by (exists (n - length ds - 2)%nat; lia).
  exists k. by rewrite drop_replicate, Hk.
Qed.

Lemma sys_putint_ok num :
  - 2 ^ 31 < num < 2 ^ 31 ->
  exists out, (forall s, sys_putint num s = Ret (Z.of_nat (length out), set_tty (reverse out ++ tty s) s)) /\
    parse_int out = num.
Proof.
  intros Hnum. set (n := Z.abs num).
  assert (0 <= n < 10 ^ Z.of_nat 10) as Hn by (change (10 ^ Z.of_nat 10) with 10000000000; lia).
  set (ds := map digit_char (le_digits 10 10 n)).
  destruct (le_digits_spec 10 10 n ltac:(lia) Hn ltac:(lia)) as [Hd16 Hlen].
  assert (0 < length ds <= 10)%nat as Hds by (unfold ds; rewrite length_map; lia).
  assert (Forall (fun b => 48 <= b < 71) ds) as Hdc.
  { unfold ds. apply Forall_map. eapply Forall_impl; [exact Hd16|].
    cbn. intros. apply digit_char_range. lia. }
  set (neg := num <? 0).
  exists ((if neg then [45] else []) ++ reverse ds).
  assert (parse_int ((if neg then [45] else []) ++ reverse ds) = num) as Hparse.
  { pose proof (numeral_le_digits 10 10 n ltac:(lia) Hn ltac:(lia)) as Hv. fold ds in Hv.
    unfold neg. destruct (Z.ltb_spec num 0).
    - change (- numeral_value 10 (reverse ds) = num). lia.
    - cbn [app]. rewrite parse_int_digits by by apply Forall_reverse. lia. }
  split; [intros s|done].
  assert ((if neg then s32 (- num) else num) = n) as E.
  { unfold neg. destruct (Z.ltb_spec num 0); [rewrite s32_id by lia|]; lia. }
  unfold sys_putint. fold neg. rewrite E.
  destruct (digits_room ds 16) as [k Hk]; [lia|].
  rewrite (bind_Ret _ _ _ _ _ (putint_loop 6 10 n [] (replicate 16 0) s Hn ltac:(cbn; lia))).
  fold ds. cbv zeta. cbn [app length Nat.add]. rewrite Hk. clearbody ds. unfold neg. destruct (num <? 0).
  - rewrite (bind_Ret _ _ s (Z.of_nat (length (ds ++ [45])), (ds ++ [45]) ++ 0 :: replicate k 0) s).
    2:{ rewrite (bind_Ret _ _ _ _ _ (set_at_split _ _ _ _ _)). unfold ret.
        change (u8 45) with 45. do 3 f_equal. rewrite length_app. cbn. lia. }
    rewrite finish_ok; [|by apply Forall_app; split;
      [forall_lia Hdc|constructor; [lia|done]]
      |rewrite length_app; cbn; lia|apply zeros_ok].
    rewrite reverse_app, reverse_involutive, !length_app, length_reverse. cbn. do 2 f_equal. lia.
  - rewrite (bind_Ret _ _ s (Z.of_nat (length ds), ds ++ 0 :: 0 :: replicate k 0) s) by done.
    rewrite finish_ok; [|forall_lia Hdc
      |lia|apply (zeros_ok (S k))].
    cbn [app]. by rewrite reverse_involutive, length_reverse.
Qed.

(** C40: for every [int] but the smallest, [sys_putint] terminates, prints characters that read back as
    the number, and returns how many it printed. *)
Theorem sys_putint_roundtrip num s :
  - 2 ^ 31 < num < 2 ^ 31 ->
  exists out, sys_putint num s = Ret (Z.of_nat (length out), set_tty (reverse out ++ tty s) s) /\
    parse_int out = num.
Proof. intros Hnum. destruct (sys_putint_ok num Hnum) as (out & Hrun & Hp). exists out. split; [apply Hrun|exact Hp]. Qed.

Lemma sys_puthex_ok num s :
  0 <= num < 2 ^ 32 ->
  exists out, sys_puthex num s = Ret (Z.of_nat (length out), set_tty (reverse out ++ tty s) s) /\
    numeral_value 16 out = num /\ (length out <= 8)%nat.
Proof.
  intros Hnum. unfold sys_puthex. destruct (Z.eqb_spec num 0) as [->|Hne].
  { exists [48]. split_and!; [reflexivity|reflexivity|cbn; lia]. }
  assert (0 < num < 16 ^ Z.of_nat 8) as Hn by (change (16 ^ Z.of_nat 8) with (2 ^ 32); lia).
  destruct (le_digits_spec 8 16 num ltac:(lia) ltac:(lia) ltac:(lia)) as [Hd16 Hlen].
  pose proof (numeral_le_digits 8 16 num ltac:(lia) ltac:(lia) ltac:(lia)) as Hv.
  rewrite (bind_Ret _ _ _ _ _ (puthex_loop 3 8 num [] (replicate 12 0) s Hn ltac:(cbn; lia))).
  assert (Forall (fun b => 48 <= b < 71) (map digit_char (le_digits 8 16 num))) as Hdc.
  { apply Forall_map. eapply Forall_impl; [exact Hd16|]. cbn. intros. by apply digit_char_range. }
  assert (0 < length (map digit_char (le_digits 8 16 num)) <= 8)%nat as Hds by by rewrite length_map.
  revert Hv Hdc Hds. generalize (map digit_char (le_digits 8 16 num)) as ds. intros ds Hv Hdc Hds.
  exists (reverse ds). split_and!; [|done|rewrite length_reverse; lia].
  destruct (digits_room ds 12) as [k Hk]; [lia|].
  cbv zeta. cbn [app length Nat.add]. rewrite Hk, finish_ok;
    [|forall_lia Hdc|lia|apply (zeros_ok (S k))].
  by rewrite reverse_involutive, length_reverse.
Qed.

(** [sys_puthex] terminates on every 32-bit value, prints at most eight characters that read back
    as the value in base 16, and returns how many it printed. *)
Theorem sys_puthex_roundtrip num s :
  0 <= num < 2 ^ 32 ->
  exists out, sys_puthex num s = Ret (Z.of_nat (length out), set_tty (reverse out ++ tty s) s) /\
    numeral_value 16 out = num /\ (length out <= 8)%nat.
Proof. apply sys_puthex_ok. Qed.

(** the smallest [int] is not printed as a number: its negation overflows to itself, the
    remainders are negative, and the digits come out as punctuation. *)
Theorem sys_putint_min s :
  exists out, sys_putint (- 2 ^ 31) s = Ret (11, set_tty (reverse out ++ tty s) s) /\
    out = [45; 46; 47; 44; 41; 44; 40; 45; 42; 44; 40] /\
    Forall (fun c => ~ 48 <= c <= 57) out.
Proof.
  exists [45; 46; 47; 44; 41; 44; 40; 45; 42; 44; 40]. split_and!; [reflexivity|done|].
  repeat constructor; lia.
Qed.

(** ** Witnesses *)
Definition demo_tty : machine := Machine ∅ 0 [] [].

Lemma sys_putint_roundtrip_witness :
  exists out, sys_putint (-305) demo_tty = Ret (Z.of_nat (length out), set_tty (reverse out ++ []) demo_tty) /\
    parse_int out = -305.
Proof. exact (sys_putint_roundtrip (-305) demo_tty ltac:(lia)). Defined.

Lemma sys_puthex_roundtrip_witness :
  exists out, sys_puthex 0xC0DE demo_tty = Ret (Z.of_nat (length out), set_tty (reverse out ++ []) demo_tty) /\
    numeral_value 16 out = 0xC0DE /\ (length out <= 8)%nat.
Proof. exact (sys_puthex_roundtrip 0xC0DE demo_tty ltac:(lia)). Defined.

Example puthex_C0DE : sys_puthex 0xC0DE demo_tty = Ret (4, set_tty [69; 68; 48; 67] demo_tty).
Proof. reflexivity. Qed.
