(* ===== verification/Screen.v ===== *)
(** * lib/kernel/print_asm.S: characters on the text screen

    [sys_putchar] as the assembly has it, on the video memory behind the segment gs and the cursor
    registers of the display controller, against a terminal of 25 rows of 80 cells.  The other files
    keep the characters handed to [sys_putchar] in [tty]: the screen shows [foldl put t (reverse tty)]. *)
From stdpp Require Import base list gmap strings.
From S2P Require Import Prelude Machine.

(** ** The machine *)

(** The controller's registers: the index written to port 0x3D4 selects what port 0x3D5 reaches; 0x0E
    and 0x0F are the high and low byte of the cursor. *)
Record vga := Vga { cpu : machine; index : Z; high : Z; low : Z }.
Definition set_cpu (m : machine) (s : vga) : vga := Vga m (index s) (high s) (low s).
Definition on_cpu {A} : M machine A -> M vga A := zoom cpu set_cpu.

Definition out_3D4 (v : Z) : M vga unit := modify (fun s => Vga (cpu s) (u8 v) (high s) (low s)).
Definition out_3D5 (v : Z) : M vga unit := modify (fun s =>
  if index s =? 0x0E then Vga (cpu s) (index s) (u8 v) (low s)
  else if index s =? 0x0F then Vga (cpu s) (index s) (high s) (u8 v) else s).
Definition in_3D5 : M vga Z := fun s =>
  Ret (if index s =? 0x0E then high s else if index s =? 0x0F then low s else 0, s).

(** The segment of SELECTOR_VIDEO (boot/loader.S, moved up by 3 GB): 8 pages from 0xC00B8000 on.  An
    offset behind its limit is a protection fault. *)
Definition VIDEO : Z := 0xC00B8000.
Definition VIDEO_LIMIT : Z := 0x8000.

Definition gs_st8 (off v : Z) : M vga unit :=
  if off <? VIDEO_LIMIT then on_cpu (st8 (VIDEO + off) v) else fault (VIDEO + off).
Definition gs_st16 (off v : Z) : M vga unit :=
  if off + 1 <? VIDEO_LIMIT then on_cpu (st8 (VIDEO + off) v ;;; st8 (VIDEO + off + 1) (v / 2 ^ 8))
  else fault (VIDEO + off).

(** [cmp bx,2000] and [jl]: signed. *)
Definition below_2000 (bx : Z) : bool := (if bx <? 2 ^ 15 then bx else bx - 2 ^ 16) <? 2000.

(** ** [sys_putchar] *)

Definition get_cursor : M vga Z :=
  out_3D4 0x0E ;;;
  let* ah := in_3D5 in
  out_3D4 0x0F ;;;
  let* al := in_3D5 in
  ret (256 * ah + al).

Definition set_cursor (bx : Z) : M vga unit :=
  out_3D4 0x0E ;;;
  out_3D5 (Z.shiftr bx 8) ;;;
  out_3D4 0x0F ;;;
  out_3D5 bx.

(** [rep movsd] *)
Definition movsd_body '((ecx, esi, edi) : Z * Z * Z) : M vga (Z * Z * Z + unit) :=
  if ecx =? 0 then ret (inr tt)
  else
    let* v := on_cpu (ld32 esi) in
    on_cpu (st32 edi v) ;;;
    ret (inl (u32 (ecx - 1), u32 (esi + 4), u32 (edi + 4))).

Definition clear_body '((ecx, ebx) : Z * Z) : M vga (Z * Z + unit) :=
  gs_st16 ebx 0x0720 ;;;
  let ebx := u32 (ebx + 2) in
  let ecx := u32 (ecx - 1) in
  ret (if ecx =? 0 then inr tt else inl (ecx, ebx)).

Definition roll_one_line : M vga unit :=
  iter (S 960) movsd_body (960, 0xC00B80A0, 0xC00B8000) ;;;
  iter 80 clear_body (80, 3840).

(** From the label LineFeed on.  The remainder is that of [ax], which still holds the cursor position
    that was read at the start. *)
Definition line_feed (ax bx : Z) : M vga unit :=
  let dx := ax mod 80 in
  let bx := u16 (bx - dx) in
  let bx := u16 (bx + 80) in
  if below_2000 bx then set_cursor bx
  else
    roll_one_line ;;;
    set_cursor 1920.

Definition sys_putchar (char_asci : Z) : M vga unit :=
  let* ax := get_cursor in
  let bx := ax in
  let cl := u8 char_asci in
  if cl =? 0x0d then line_feed ax bx
  else if cl =? 0x0a then line_feed ax bx
  else if cl =? 0x08 then
    let bx := u16 (bx - 1) in
    let bx := u16 (2 * bx) in
    gs_st8 bx 0x20 ;;;
    let bx := u16 (bx + 1) in
    gs_st8 bx 0x07 ;;;
    set_cursor (Z.shiftr bx 1)
  else
    let bx := u16 (2 * bx) in
    gs_st8 bx cl ;;;
    let bx := u16 (bx + 1) in
    gs_st8 bx 0x07 ;;;
    let bx := u16 (bx + 1) in
    let bx := Z.shiftr bx 1 in
    if below_2000 bx then set_cursor bx else line_feed ax bx.

Fixpoint putchars (l : list Z) : M vga unit :=
  match l with
  | [] => ret tt
  | c :: l' => sys_putchar c ;;; putchars l'
  end.

(** ** The terminal *)

(** 2000 cells of a character and its colours, row by row, and the cell of the cursor. *)
Record term := Term { cells : list Z; pos : Z }.

Definition blank_row : list Z := concat (replicate 80 [0x20; 0x07]).
Definition write_cell (i c : Z) (l : list Z) : list Z :=
  <[Z.to_nat (2 * i + 1) := 0x07]> (<[Z.to_nat (2 * i) := c]> l).

Definition newline (t : term) : term :=
  let p := (pos t / 80 + 1) * 80 in
  if p <? 2000 then Term (cells t) p else Term (drop 160 (cells t) ++ blank_row) 1920.

Definition put (t : term) (c : Z) : term :=
  if (c =? 13) || (c =? 10) then newline t
  else if c =? 8 then Term (write_cell (pos t - 1) 0x20 (cells t)) (pos t - 1)
  else
    let t' := Term (write_cell (pos t) c (cells t)) (pos t) in
    if pos t + 1 <? 2000 then Term (cells t') (pos t + 1) else newline t'.

(** No backspace in the first cell. *)
Fixpoint stays_on (t : term) (l : list Z) : bool :=
  match l with
  | [] => true
  | c :: l' => negb ((c =? 8) && (pos t =? 0)) && stays_on (put t c) l'
  end.

(** The screen shows the terminal. *)
Record shows (s : vga) (t : term) : Prop := Shows {
  sh_ram : ram_ok (ram (cpu s));
  sh_len : length (cells t) = 4000%nat;
  sh_cells : bytes_at (ram (cpu s)) VIDEO (cells t);
  sh_pos : 0 <= pos t < 2000;
  sh_cursor : 256 * high s + low s = pos t;
  sh_bytes : 0 <= high s < 256 /\ 0 <= low s < 256
}.

(** Only the screen is written. *)
Definition screen_only (s s' : vga) : Prop :=
  same_outside (fun a => VIDEO <= a < VIDEO + 4000) (ram (cpu s)) (ram (cpu s')) /\
  cpu s' = set_ram (ram (cpu s')) (cpu s).

(** ** Lemmas *)

Lemma set_cpu_twice m m' s : set_cpu m (set_cpu m' s) = set_cpu m s.
Proof. done. Qed.

Lemma get_cursor_ok s : get_cursor s = Ret (256 * high s + low s, Vga (cpu s) 0x0F (high s) (low s)).
Proof. done. Qed.

Lemma set_cursor_ok bx s : 0 <= bx < 2 ^ 16 -> set_cursor bx s = Ret (tt, Vga (cpu s) 0x0F (bx / 256) (bx mod 256)).
Proof.
  intros Hbx. unfold set_cursor, out_3D4, out_3D5, bind, modify. rewrite Z.shiftr_div_pow2 by lia.
  change (2 ^ 8) with 256. rewrite (u8_id (bx / 256)); [done|]. Z.to_euclidean_division_equations; lia.
Qed.

Lemma gs_st8_ok off v s : 0 <= off < 4000 -> is_Some (ram (cpu s) !! (VIDEO + off)) ->
  gs_st8 off v s = Ret (tt, set_cpu (set_ram (<[VIDEO + off := u8 v]> (ram (cpu s))) (cpu s)) s).
Proof.
  intros Hoff Hr. unfold gs_st8, VIDEO_LIMIT. replace (off <? 0x8000) with true by lia.
  unfold on_cpu, zoom. by rewrite st8_ok.
Qed.

Lemma bytes_at_insert m p l i v : bytes_at m p l -> 0 <= i < Z.of_nat (length l) ->
  bytes_at (<[p + i := v]> m) p (<[Z.to_nat i := v]> l).
Proof.
  intros Hb Hi j b Hj. destruct (decide (Z.of_nat j = i)) as [<-|Hne].
  - rewrite lookup_insert_eq. rewrite Nat2Z.id, list_lookup_insert_eq in Hj by lia. done.
  - rewrite lookup_insert_ne by lia. apply Hb. by rewrite list_lookup_insert_ne in Hj by lia.
Qed.

(** A word stored behind its load copies four bytes. *)
Lemma setw_copy m m' a b v : ram_ok m -> word m b = Some v -> forall i, 0 <= i < 4 -> setw m' a v !! (a + i) = m !! (b + i).
Proof.
  intros Hm Hv i Hi. unfold word in Hv.
  destruct (m !! b) as [b0|] eqn:H0, (m !! (b + 1)) as [b1|] eqn:H1, (m !! (b + 2)) as [b2|] eqn:H2,
    (m !! (b + 3)) as [b3|] eqn:H3; try done.
  pose proof (Hm _ _ H0) as R0. pose proof (Hm _ _ H1) as R1. pose proof (Hm _ _ H2) as R2. pose proof (Hm _ _ H3) as R3.
  cbv beta in *. injection Hv as <-. unfold setw, u8. change (2 ^ 8) with 256. change (2 ^ 16) with 65536. change (2 ^ 24) with 16777216.
  assert (i = 0 \/ i = 1 \/ i = 2 \/ i = 3) as [->|[->|[->| ->]]] by lia;
    rewrite ?Z.add_0_r; repeat first [rewrite lookup_insert_eq|rewrite lookup_insert_ne by lia];
    rewrite ?H0, ?H1, ?H2, ?H3; f_equal; clear -R0 R1 R2 R3; Z.to_euclidean_division_equations; lia.
Qed.

(** The memory after [k] rounds of the two loops. *)
Definition moved (k : Z) (m m' : gmap Z Z) : Prop :=
  ram_ok m' /\ forall a, m' !! a = if decide (VIDEO <= a < VIDEO + 4 * k) then m !! (a + 160) else m !! a.
Definition blanked (k : Z) (m m' : gmap Z Z) : Prop :=
  ram_ok m' /\ forall a, m' !! a = if decide (VIDEO + 3840 <= a < VIDEO + 3840 + 2 * k)
    then Some (if (a - VIDEO) mod 2 =? 0 then 0x20 else 0x07) else m !! a.

Lemma moved_next k m m' v : moved k m m' -> ram_ok m -> 0 <= k -> word m (VIDEO + 4 * k + 160) = Some v ->
  moved (k + 1) m (setw m' (VIDEO + 4 * k) v).
Proof.
  intros [Hok Hm] Hr Hk Hv. split; [by apply ram_ok_setw|]. intros a.
  destruct (decide (VIDEO + 4 * k <= a < VIDEO + 4 * (k + 1))) as [H|H].
  - rewrite decide_True by lia. replace a with (VIDEO + 4 * k + (a - (VIDEO + 4 * k))) at 1 by lia.
    rewrite (setw_copy m _ _ _ _ Hr Hv) by lia. f_equal. lia.
  - rewrite setw_lookup_out by lia. rewrite Hm. repeat case_decide; (done || lia).
Qed.

Lemma movsd_loop s : ram_ok (ram (cpu s)) -> readable (ram (cpu s)) VIDEO 4000 ->
  exists m, iter (S 960) movsd_body (960, 0xC00B80A0, 0xC00B8000) s = Ret (tt, set_cpu (set_ram m (cpu s)) s) /\
    moved 960 (ram (cpu s)) m.
Proof.
  intros Hok Hr.
  assert (wp (iter (S 960) movsd_body (960, 0xC00B80A0, 0xC00B8000))
    (fun _ s' => exists m, s' = set_cpu (set_ram m (cpu s)) s /\ moved 960 (ram (cpu s)) m) s)
    as ([] & s' & Hrun & m & -> & Hm)%wp_elim; [|by exists m].
  apply (wp_iter (fun '(ecx, esi, edi) s' => 0 <= ecx <= 960 /\ esi = VIDEO + 4 * (960 - ecx) + 160 /\
    edi = VIDEO + 4 * (960 - ecx) /\ exists m, s' = set_cpu (set_ram m (cpu s)) s /\ moved (960 - ecx) (ram (cpu s)) m)
    (fun '(ecx, _, _) => Z.to_nat ecx)); [| |lia].
  - intros [[ecx esi] edi] s' (H1 & -> & -> & m & -> & Hm). cbn [movsd_body].
    destruct (Z.eqb_spec ecx 0) as [->|Hne]; [by exists m|].
    assert (is_Some (word (ram (cpu s)) (VIDEO + 4 * (960 - ecx) + 160))) as [v Hv]
      by (apply word_readable; intros a Ha; apply Hr; lia).
    assert (word m (VIDEO + 4 * (960 - ecx) + 160) = Some v) as Hv'.
    { rewrite <- Hv. apply word_eq. intros i Hi. destruct Hm as [_ Hm]. rewrite Hm. by rewrite decide_False by lia. }
    assert (is_Some (word m (VIDEO + 4 * (960 - ecx)))) as Hw.
    { apply word_readable. intros a Ha. destruct Hm as [_ Hm]. rewrite Hm. case_decide; apply Hr; lia. }
    apply wp_bind. apply wp_zoom. eapply wp_intro; [by apply ld32_ok|].
    apply wp_bind. apply wp_zoom. eapply wp_intro; [by apply st32_ok|].
    apply wp_ret. rewrite !u32_id by (unfold VIDEO; lia). split; [|lia]. split; [lia|]. split; [lia|]. split; [lia|].
    eexists. split; [reflexivity|]. replace (960 - (ecx - 1)) with (960 - ecx + 1) by lia. apply moved_next; [done|done|lia|done].
  - split_and!; [lia|lia|done|done|]. exists (ram (cpu s)). split; [by destruct s as [[]]|]. split; [done|].
    intros a. by rewrite decide_False by lia.
Qed.

Lemma blanked_next k m m' : blanked k m m' -> 0 <= k ->
  blanked (k + 1) m (<[VIDEO + (3840 + 2 * k) + 1 := 0x07]> (<[VIDEO + (3840 + 2 * k) := 0x20]> m')).
Proof.
  intros [Hok Hm] Hk. split; [apply ram_ok_insert; [apply ram_ok_insert; [done|lia]|lia]|]. intros a.
  rewrite !lookup_insert. case_decide as E1; [|case_decide as E2].
  - rewrite decide_True by lia. subst a. replace (VIDEO + (3840 + 2 * k) + 1 - VIDEO) with (1 + (1920 + k) * 2) by lia.
    by rewrite Z_mod_plus_full.
  - rewrite decide_True by lia. subst a. replace (VIDEO + (3840 + 2 * k) - VIDEO) with (0 + (1920 + k) * 2) by lia.
    by rewrite Z_mod_plus_full.
  - rewrite Hm. repeat case_decide; (done || lia).
Qed.

Lemma clear_loop_ok s : ram_ok (ram (cpu s)) -> readable (ram (cpu s)) VIDEO 4000 ->
  exists m, iter 80 clear_body (80, 3840) s = Ret (tt, set_cpu (set_ram m (cpu s)) s) /\ blanked 80 (ram (cpu s)) m.
Proof.
  intros Hok Hr.
  assert (wp (iter 80 clear_body (80, 3840))
    (fun _ s' => exists m, s' = set_cpu (set_ram m (cpu s)) s /\ blanked 80 (ram (cpu s)) m) s)
    as ([] & s' & Hrun & m & -> & Hm)%wp_elim; [|by exists m].
  apply (wp_iter (fun '(ecx, ebx) s' => 1 <= ecx <= 80 /\ ebx = 3840 + 2 * (80 - ecx) /\
    exists m, s' = set_cpu (set_ram m (cpu s)) s /\ blanked (80 - ecx) (ram (cpu s)) m)
    (fun '(ecx, _) => (Z.to_nat ecx - 1)%nat)); [| |lia].
  - intros [ecx ebx] s' (H1 & -> & m & -> & Hm). cbn [clear_body].
    assert (forall a, VIDEO <= a < VIDEO + 4000 -> is_Some (m !! a)) as Hs.
    { intros a Ha. destruct Hm as [_ Hm]. rewrite Hm. case_decide; [eauto|by apply Hr]. }
    apply wp_bind. unfold gs_st16, VIDEO_LIMIT. replace (_ <? 0x8000) with true by lia.
    apply wp_zoom. apply wp_bind. eapply wp_intro; [apply st8_ok, Hs; lia|].
    eapply wp_intro; [apply st8_ok; rewrite ram_set_ram, lookup_insert; case_decide; [eauto|apply Hs; lia]|].
    apply wp_ret. rewrite !u32_id by lia. change (u8 0x0720) with 0x20. change (u8 (0x0720 / 2 ^ 8)) with 0x07.
    pose proof (blanked_next _ _ _ Hm ltac:(lia)) as Hm'.
    destruct (Z.eqb_spec (ecx - 1) 0) as [E|E]; cbn.
    + eexists. split; [reflexivity|]. by replace 80 with (80 - ecx + 1) at 1 by lia.
    + split; [|lia]. split; [lia|]. split; [lia|]. eexists. split; [reflexivity|].
      by replace (80 - (ecx - 1)) with (80 - ecx + 1) by lia.
  - split_and!; [lia|lia|done|]. exists (ram (cpu s)). split; [by destruct s as [[]]|]. split; [done|].
    intros a. by rewrite decide_False by lia.
Qed.

Lemma blank_row_lookup i b : blank_row !! i = Some b -> b = if Z.of_nat i mod 2 =? 0 then 0x20 else 0x07.
Proof.
  intros Hi. pose proof (lookup_lt_Some _ _ _ Hi) as Hlt. change (length blank_row) with 160%nat in Hlt.
  assert (forallb (fun k => bool_decide (blank_row !! k = Some (if Z.of_nat k mod 2 =? 0 then 0x20 else 0x07))) (seq 0 160) = true)
    as Hall by (vm_compute; reflexivity).
  rewrite forallb_forall in Hall. specialize (Hall i ltac:(apply in_seq; lia)). apply bool_decide_eq_true in Hall. congruence.
Qed.

Lemma rolled_cells m m1 m2 l : bytes_at m VIDEO l -> length l = 4000%nat -> moved 960 m m1 -> blanked 80 m1 m2 ->
  bytes_at m2 VIDEO (drop 160 l ++ blank_row).
Proof.
  intros Hb Hl [_ H1] [_ H2] i b Hi. rewrite H2. apply lookup_app_Some in Hi as [Hi|[Hge Hi]].
  - rewrite lookup_drop in Hi. pose proof (lookup_lt_Some _ _ _ Hi). rewrite decide_False by lia.
    rewrite H1, decide_True by lia. rewrite <- (Hb _ _ Hi). f_equal. lia.
  - rewrite length_drop, Hl in Hi, Hge. pose proof (lookup_lt_Some _ _ _ Hi) as Hlt. change (length blank_row) with 160%nat in Hlt.
    rewrite decide_True by lia. rewrite (blank_row_lookup _ _ Hi). do 2 f_equal.
    replace (VIDEO + Z.of_nat i - VIDEO) with (Z.of_nat (i - (4000 - 160)) + 1920 * 2) by lia. by rewrite Z_mod_plus_full.
Qed.

Lemma roll_ok s l : ram_ok (ram (cpu s)) -> bytes_at (ram (cpu s)) VIDEO l -> length l = 4000%nat ->
  exists m, roll_one_line s = Ret (tt, set_cpu (set_ram m (cpu s)) s) /\ ram_ok m /\
    bytes_at m VIDEO (drop 160 l ++ blank_row) /\ same_outside (fun a => VIDEO <= a < VIDEO + 4000) (ram (cpu s)) m.
Proof.
  intros Hok Hb Hl. assert (readable (ram (cpu s)) VIDEO 4000) as Hr.
  { pose proof (bytes_at_readable _ _ _ Hb) as H. by rewrite Hl in H. }
  destruct (movsd_loop s Hok Hr) as (m1 & Hrun1 & Hm1).
  destruct (clear_loop_ok (set_cpu (set_ram m1 (cpu s)) s)) as (m2 & Hrun2 & Hm2).
  { apply Hm1. }
  { intros a Ha. destruct Hm1 as [_ Hm1]. change (is_Some (m1 !! a)). rewrite Hm1. case_decide; apply Hr; lia. }
  change (ram (cpu (set_cpu (set_ram m1 (cpu s)) s))) with m1 in Hm2. exists m2. split_and!.
  - unfold roll_one_line. rewrite (bind_Ret _ _ _ _ _ Hrun1). exact Hrun2.
  - apply Hm2.
  - exact (rolled_cells _ m1 m2 l Hb Hl Hm1 Hm2).
  - intros a Ha. destruct Hm1 as [_ Hm1], Hm2 as [_ Hm2]. rewrite Hm2, decide_False by lia. by rewrite Hm1, decide_False by lia.
Qed.

Lemma below_2000_spec bx : 0 <= bx < 2 ^ 15 -> below_2000 bx = (bx <? 2000).
Proof. intros H. unfold below_2000. by replace (bx <? 2 ^ 15) with true by lia. Qed.

(** The state after the cursor is set. *)
Lemma shows_at m s l p : ram_ok m -> length l = 4000%nat -> bytes_at m VIDEO l -> 0 <= p < 2000 ->
  shows (Vga (set_ram m (cpu s)) 0x0F (p / 256) (p mod 256)) (Term l p).
Proof.
  intros. constructor; cbn; [done|done|done|done| |]; Z.to_euclidean_division_equations; lia.
Qed.

(** A line feed at [p], where [bx] is [p], or [p + 1] at the end of the screen. *)
Lemma line_feed_ok s l p bx : ram_ok (ram (cpu s)) -> bytes_at (ram (cpu s)) VIDEO l -> length l = 4000%nat ->
  0 <= p < 2000 -> bx = p \/ p = 1999 /\ bx = 2000 ->
  exists s', line_feed p bx s = Ret (tt, s') /\ shows s' (newline (Term l p)) /\ screen_only s s'.
Proof.
  intros Hok Hb Hl Hp Hbx. unfold line_feed, newline. cbn [pos cells].
  assert (u16 (u16 (bx - p mod 80) + 80) = if p =? bx then (p / 80 + 1) * 80 else 2001) as ->.
  { destruct Hbx as [->|[-> ->]]; [|done]. rewrite Z.eqb_refl.
    assert (p - p mod 80 = 80 * (p / 80) /\ 0 <= p / 80 <= 24) as [-> ?] by (Z.to_euclidean_division_equations; lia).
    rewrite (u16_id (80 * _)) by lia. rewrite u16_id; lia. }
  assert (0 <= p / 80 <= 24) as Hrow by (Z.to_euclidean_division_equations; lia).
  rewrite below_2000_spec by (case_match; lia).
  assert ((if p =? bx then (p / 80 + 1) * 80 else 2001) <? 2000 = ((p / 80 + 1) * 80 <? 2000)) as ->.
  { destruct Hbx as [->|[-> ->]]; [by rewrite Z.eqb_refl|done]. }
  destruct (Z.ltb_spec ((p / 80 + 1) * 80) 2000) as [Hlt|Hge].
  - replace (p =? bx) with true by (destruct Hbx as [->|[-> ->]]; [lia|by vm_compute in Hlt]).
    rewrite set_cursor_ok by lia. eexists. split; [reflexivity|]. split; [|by split; [intros ?|]; destruct s as [[]]].
    pose proof (shows_at _ s l ((p / 80 + 1) * 80) Hok Hl Hb ltac:(lia)) as H. by rewrite set_ram_id in H.
  - destruct (roll_ok s l Hok Hb Hl) as (m & Hrun & Hm & Hb' & Hs). rewrite (bind_Ret _ _ _ _ _ Hrun), set_cursor_ok by lia.
    eexists. split; [reflexivity|]. split; [|by split].
    apply (shows_at m s _ 1920); [done| |done|lia]. rewrite length_app, length_drop, Hl. reflexivity.
Qed.

(** A character into a cell. *)
Lemma cell_ok {B} s l i c (f : M vga B) : ram_ok (ram (cpu s)) -> bytes_at (ram (cpu s)) VIDEO l -> length l = 4000%nat ->
  0 <= i < 2000 -> 0 <= c < 256 ->
  exists s', (gs_st8 (2 * i) c ;;; gs_st8 (2 * i + 1) 0x07 ;;; f) s = f s' /\ ram_ok (ram (cpu s')) /\
    bytes_at (ram (cpu s')) VIDEO (write_cell i c l) /\ length (write_cell i c l) = 4000%nat /\ screen_only s s'.
Proof.
  intros Hok Hb Hl Hi Hc.
  assert (forall a, VIDEO <= a < VIDEO + 4000 -> is_Some (ram (cpu s) !! a)) as Hr.
  { intros a Ha. apply (bytes_at_readable _ _ _ Hb). by rewrite Hl. }
  rewrite (bind_Ret _ _ _ _ _ (gs_st8_ok (2 * i) c s ltac:(lia) (Hr (VIDEO + 2 * i) ltac:(lia)))).
  set (s1 := set_cpu _ s).
  assert (is_Some (ram (cpu s1) !! (VIDEO + (2 * i + 1)))) as Hr1.
  { change (ram (cpu s1)) with (<[VIDEO + 2 * i := u8 c]> (ram (cpu s))). rewrite lookup_insert_ne by lia. apply Hr. lia. }
  rewrite (bind_Ret _ _ _ _ _ (gs_st8_ok (2 * i + 1) 0x07 s1 ltac:(lia) Hr1)). eexists. split; [reflexivity|].
  change (u8 7) with 7. unfold s1. rewrite (u8_id c) by done. cbn [cpu set_cpu]. rewrite ram_set_ram.
  assert (bytes_at (<[VIDEO + 2 * i := c]> (ram (cpu s))) VIDEO (<[Z.to_nat (2 * i) := c]> l)) as Hb1
    by (apply bytes_at_insert; [done|lia]).
  split_and!.
  - apply ram_ok_insert; [|lia]. by apply ram_ok_insert.
  - apply bytes_at_insert; [done|]. rewrite length_insert. lia.
  - unfold write_cell. by rewrite !length_insert.
  - split; [|done]. intros a Ha. cbn [cpu set_cpu] in *. rewrite !ram_set_ram. by rewrite !lookup_insert_ne by lia.
Qed.

Lemma screen_only_trans s1 s2 s3 : screen_only s1 s2 -> screen_only s2 s3 -> screen_only s1 s3.
Proof.
  intros [A1 A2] [B1 B2]. split; [intros a Ha; rewrite B1 by done; by apply A1|]. rewrite B2 at 1. by rewrite A2.
Qed.

Lemma sys_putchar_ok s t c : shows s t -> 0 <= c < 256 -> ~ (c = 8 /\ pos t = 0) ->
  exists s', sys_putchar c s = Ret (tt, s') /\ shows s' (put t c) /\ screen_only s s'.
Proof.
  intros [Hok Hl Hb Hp Hcur Hbytes] Hc Hhome. unfold sys_putchar. rewrite (bind_Ret _ _ _ _ _ (get_cursor_ok s)), Hcur.
  set (s0 := Vga (cpu s) 0x0F (high s) (low s)). cbv zeta. rewrite (u8_id c) by done. unfold put.
  assert (screen_only s s0) as H0 by (split; [by intros ?|by destruct s as [[]]]).
  destruct t as [l p]. cbn [pos cells] in *.
  assert (exists s', line_feed p p s0 = Ret (tt, s') /\ shows s' (newline (Term l p)) /\ screen_only s s') as Hlf.
  { destruct (line_feed_ok s0 l p p) as (s' & H1 & H2 & H3); [done..|by left|]. exists s'. split; [done|].
    split; [done|]. exact (screen_only_trans _ _ _ H0 H3). }
  destruct (Z.eqb_spec c 13) as [->|H13]; [exact Hlf|]. destruct (Z.eqb_spec c 10) as [->|H10]; [exact Hlf|].
  cbn [orb]. destruct (Z.eqb_spec c 8) as [->|H8].
  - assert (0 < p) as Hpos by (destruct (decide (p = 0)); [by destruct Hhome|lia]).
    rewrite (u16_id (p - 1)), (u16_id (2 * (p - 1))), (u16_id (2 * (p - 1) + 1)) by lia.
    destruct (cell_ok s0 l (p - 1) 0x20 (set_cursor (Z.shiftr (2 * (p - 1) + 1) 1)) Hok Hb Hl ltac:(lia) ltac:(lia))
      as (s1 & Hrun & Hok1 & Hb1 & Hl1 & Hs1).
    rewrite Hrun, Z.shiftr_div_pow2 by lia. replace ((2 * (p - 1) + 1) / 2 ^ 1) with (p - 1) by (Z.to_euclidean_division_equations; lia).
    rewrite set_cursor_ok by lia. eexists. split; [reflexivity|].
    pose proof (shows_at _ s1 _ (p - 1) Hok1 Hl1 Hb1 ltac:(lia)) as H. rewrite set_ram_id in H. split; [exact H|].
    eapply screen_only_trans; [exact H0|]. exact Hs1.
  - rewrite (u16_id (2 * p)), (u16_id (2 * p + 1)), (u16_id (2 * p + 1 + 1)) by lia.
    rewrite Z.shiftr_div_pow2 by lia. replace ((2 * p + 1 + 1) / 2 ^ 1) with (p + 1) by (Z.to_euclidean_division_equations; lia).
    rewrite below_2000_spec by lia.
    destruct (cell_ok s0 l p c (if p + 1 <? 2000 then set_cursor (p + 1) else line_feed p (p + 1)) Hok Hb Hl ltac:(lia) Hc)
      as (s1 & Hrun & Hok1 & Hb1 & Hl1 & Hs1).
    rewrite Hrun. destruct (Z.ltb_spec (p + 1) 2000) as [Hlt|Hge].
    + rewrite set_cursor_ok by lia. eexists. split; [reflexivity|].
      pose proof (shows_at _ s1 _ (p + 1) Hok1 Hl1 Hb1 ltac:(lia)) as H. rewrite set_ram_id in H. split; [exact H|].
      eapply screen_only_trans; [exact H0|]. exact Hs1.
    + destruct (line_feed_ok s1 (write_cell p c l) p (p + 1)) as (s' & H1 & H2 & H3); [done..|right; lia|].
      exists s'. split; [exact H1|]. split; [exact H2|]. eapply screen_only_trans; [exact H0|].
      exact (screen_only_trans _ _ _ Hs1 H3).
Qed.

(** Backspace in the first cell: the offset wraps around to 0xFFFE, behind the limit of the segment. *)
Lemma backspace_home s t : shows s t -> pos t = 0 -> sys_putchar 8 s = Fault (VIDEO + 0xFFFE).
Proof.
  intros [_ _ _ _ Hcur _] Hp. unfold sys_putchar. rewrite (bind_Ret _ _ _ _ _ (get_cursor_ok s)), Hcur, Hp. reflexivity.
Qed.

(** C14: a text on the screen.  As long as no backspace comes in the first cell, printing the text returns
    with the screen of the terminal that was given the same characters (line breaks, wrapping, scrolling
    and backspace as [put] has them), and nothing but the screen and the cursor has changed; a
    backspace in the first cell is a protection fault. *)
Theorem screen_terminal l s t : shows s t -> Forall (fun c => 0 <= c < 256) l ->
  if stays_on t l
  then exists s', putchars l s = Ret (tt, s') /\ shows s' (foldl put t l) /\ screen_only s s'
  else putchars l s = Fault (VIDEO + 0xFFFE).
Proof.
  revert s t. induction l as [|c l IH]; intros s t Hs Hl; cbn [stays_on putchars foldl].
  - exists s. split; [done|]. split; [done|]. split; [by intros ?|]. by destruct s as [[]].
  - apply Forall_cons in Hl as [Hc Hl]. destruct (decide (c = 8 /\ pos t = 0)) as [[-> Hp]|Hhome].
    + rewrite Hp. cbn [Z.eqb negb andb]. unfold bind. by rewrite (backspace_home s t Hs Hp).
    + assert ((c =? 8) && (pos t =? 0) = false) as -> by lia. cbn [negb andb].
      destruct (sys_putchar_ok s t c Hs Hc Hhome) as (s1 & Hrun & Hs1 & Ho). specialize (IH s1 (put t c) Hs1 Hl).
      rewrite (bind_Ret _ _ _ _ _ Hrun). destruct (stays_on (put t c) l); [|exact IH].
      destruct IH as (s' & H1 & H2 & H3). exists s'. split; [exact H1|]. split; [exact H2|].
      exact (screen_only_trans _ _ _ Ho H3).
Qed.

(** ** Example: an empty screen *)
Definition empty_cells : list Z := concat (replicate 25 blank_row).
Definition empty_term : term := Term empty_cells 0.
Definition empty_vga : vga := Vga (Machine (write_bytes ∅ VIDEO empty_cells) 2 [] []) 0 0 0.

Lemma empty_shows : shows empty_vga empty_term.
Proof.
  assert (length empty_cells = 4000%nat) as Hl by (vm_compute; reflexivity).
  constructor; cbn [empty_vga empty_term cpu ram cells pos high low].
  - apply write_bytes_ok; [apply ram_ok_empty|]. apply Forall_forall. intros b Hb.
    assert (forallb (fun b => (0 <=? b) && (b <? 256)) empty_cells = true) as Hall by (vm_compute; reflexivity).
    rewrite forallb_forall in Hall. apply list_elem_of_In in Hb. apply Hall in Hb. lia.
  - exact Hl.
  - apply write_bytes_at.
  - lia.
  - lia.
  - lia.
Qed.

(** A text that wraps, scrolls and has a backspace. *)
Definition demo_line : list Z := replicate 81 65 ++ [10; 8] ++ replicate 24 13 ++ [66].

Lemma screen_terminal_witness :
  (exists s', putchars demo_line empty_vga = Ret (tt, s') /\ 256 * high s' + low s' = 1921) /\
  putchars [65; 8; 8] empty_vga = Fault (VIDEO + 0xFFFE).
Proof.
  split.
  - pose proof (screen_terminal demo_line empty_vga empty_term empty_shows) as H.
    replace (stays_on empty_term demo_line) with true in H by (vm_compute; reflexivity).
    destruct H as (s' & H1 & H2 & _).
    + unfold demo_line. repeat (apply Forall_app; split); try (apply Forall_replicate; lia); repeat constructor; lia.
    + exists s'. split; [exact H1|]. rewrite (sh_cursor _ _ H2). vm_compute. reflexivity.
  - pose proof (screen_terminal [65; 8; 8] empty_vga empty_term empty_shows) as H.
    replace (stays_on empty_term [65; 8; 8]) with false in H by (vm_compute; reflexivity).
    apply H. repeat constructor; lia.
Defined.
