(* ===== verification/Interrupt.v ===== *)
(** * kernel/interrupt.c: the interrupt flag, the IDT and the 8259A

    [GetIntStatus] .. [SetIntStatus] work on [eflags].  The tables the file owns (the IDT, the C
    handler table [idt_table] and the names) are in [int_tables]; a handler is its address. *)
From stdpp Require Import base list gmap strings.
From S2P Require Import Prelude Machine Print.

(** ** The interrupt flag *)
Inductive int_status := INT_OFF | INT_ON.

#[export] Instance int_status_eq_dec : EqDecision int_status.
Proof. solve_decision. Defined.

Definition EFLAGS_IF : Z := 0x200.

Definition if_flag (e : Z) : int_status := if Z.land e EFLAGS_IF =? 0 then INT_OFF else INT_ON.

Definition GetIntStatus : M machine int_status := fun s => Ret (if_flag (eflags s), s).

(** The instructions [sti] and [cli]. *)
Definition sti : M machine unit := modify (fun s => set_eflags (Z.lor (eflags s) EFLAGS_IF) s).
Definition cli : M machine unit := modify (fun s => set_eflags (Z.ldiff (eflags s) EFLAGS_IF) s).

Definition EnableInt : M machine int_status :=
  let* st := GetIntStatus in
  match st with
  | INT_ON => ret INT_ON
  | INT_OFF => sti ;;; ret INT_OFF
  end.

Definition DisableInt : M machine int_status :=
  let* st := GetIntStatus in
  match st with
  | INT_ON => cli ;;; ret INT_ON
  | INT_OFF => ret INT_OFF
  end.

Definition SetIntStatus (status : int_status) : M machine int_status :=
  match status with INT_ON => EnableInt | INT_OFF => DisableInt end.

(** ** The interrupt descriptor table *)
Record INT_gate_desc := Gate {
  function_offset_low_word : Z;
  selector : Z;
  dword_count : Z;
  attribute : Z;
  function_offset_high_word : Z
}.

Definition IDT_DESC_SUM : Z := 0x81.
Definition SELECTOR_K_CODE : Z := Z.shiftl 1 3 + Z.shiftl 0 2 + 0.
Definition IDT_DESC_P : Z := 1.
Definition IDT_DESC_DPL0 : Z := 0.
Definition IDT_DESC_DPL3 : Z := 3.
Definition IDT_DESC_32_TYPE : Z := 0xE.
Definition IDT_DESC_ATTRIBUTE_DPL0 : Z := Z.shiftl IDT_DESC_P 7 + Z.shiftl IDT_DESC_DPL0 5 + IDT_DESC_32_TYPE.
Definition IDT_DESC_ATTRIBUTE_DPL3 : Z := Z.shiftl IDT_DESC_P 7 + Z.shiftl IDT_DESC_DPL3 5 + IDT_DESC_32_TYPE.

Definition MakeIdtDesc (attribute function : Z) : INT_gate_desc :=
  Gate (u16 (Z.land function 0x0000FFFF)) SELECTOR_K_CODE 0 (u8 attribute)
    (u16 (Z.shiftr (Z.land function 0xFFFF0000) 16)).

Record int_tables := IntTables {
  IDT : list INT_gate_desc;
  idt_table : list Z;
  interrupt_name : list string
}.

(** The state of the file: the machine and its tables. *)
Record intr := Intr { cpu : machine; tables : int_tables }.
Definition on_cpu {A} : M machine A -> M intr A := zoom cpu (fun m s => Intr m (tables s)).
Definition set_IDT (i : Z) (g : INT_gate_desc) (s : intr) : intr :=
  Intr (cpu s) (IntTables (<[Z.to_nat i := g]> (IDT (tables s))) (idt_table (tables s))
                          (interrupt_name (tables s))).
Definition set_handler (i f : Z) (s : intr) : intr :=
  Intr (cpu s) (IntTables (IDT (tables s)) (<[Z.to_nat i := f]> (idt_table (tables s)))
                          (interrupt_name (tables s))).
Definition set_name (i : Z) (n : string) (s : intr) : intr :=
  Intr (cpu s) (IntTables (IDT (tables s)) (idt_table (tables s))
                          (<[Z.to_nat i := n]> (interrupt_name (tables s)))).

(** [idt_table] has [IDT_DESC_SUM] entries; a larger vector writes past it. *)
Definition RegisterHandler (int_vector_num function : Z) : M intr unit :=
  if u8 int_vector_num <? IDT_DESC_SUM then modify (set_handler (u8 int_vector_num) function)
  else fault int_vector_num.

(** The gates for all vectors, read from [interrupt_entry_table] (kernel/kernel.S, at the address
    [entry_table]), and the system call gate. *)
Definition IdtDescInit (entry_table syscall_handler : Z) : M intr unit :=
  on_cpu (sys_putstr "    idt_desc_init..") ;;;
  iter (S (Z.to_nat IDT_DESC_SUM)) (fun i =>
    if i <? IDT_DESC_SUM then
      let* entry := on_cpu (ld32 (u32 (entry_table + 4 * i))) in
      modify (set_IDT i (MakeIdtDesc IDT_DESC_ATTRIBUTE_DPL0 entry)) ;;;
      ret (inl (i + 1))
    else ret (inr tt)) 0 ;;;
  ASSERT (IDT_DESC_SUM >? 0x80) "IdtDescInit" 137 ;;;
  modify (set_IDT 0x80 (MakeIdtDesc IDT_DESC_ATTRIBUTE_DPL3 syscall_handler)) ;;;
  on_cpu (sys_putline " done") ;;;
  ret tt.

Definition exception_names : list (Z * string) :=
  [(0, "#DE Divide Error"); (1, "#DB Debug Exception"); (2, "NMI Interrupt");
   (3, "#BP Breakpoint Exception"); (4, "#OF Overflow Exception");
   (5, "#BR BOUND Range Exceeded Exception"); (6, "#UD Invalid Opcode Exception");
   (7, "#NM Device Not Available Exception"); (8, "#DF Double Fault Exception");
   (9, "Coprocessor Segment Overrun"); (10, "#TS Invalid TSS Exception");
   (11, "#NP Segment Not Present"); (12, "#SS Stack Fault Exception");
   (13, "#GP General Protection Exception"); (14, "#PF Page-Fault Exception");
   (16, "#MF x87 FPU Floating-Point Error"); (17, "#AC Alignment Check Exception");
   (18, "#MC Machine-Check Exception"); (19, "#XF SIMD Floating-Point Exception")]%string.

(** [ExceptionInit] makes [GeneralIntHandler] (at address [general]) the handler of every vector. *)
Definition ExceptionInit (general : Z) : M intr unit :=
  on_cpu (sys_putstr "    exception init..") ;;;
  iter (S (Z.to_nat IDT_DESC_SUM)) (fun i =>
    if i <? IDT_DESC_SUM then
      modify (set_handler i general) ;;;
      modify (set_name i "unkown") ;;;
      ret (inl (i + 1))
    else ret (inr tt)) 0 ;;;
  modify (fun s => foldl (fun s '(i, n) => set_name i n s) s exception_names) ;;;
  on_cpu (sys_putline " done") ;;;
  ret tt.

(** [sys_setcursor] (lib/kernel/print_asm.S) takes the position from the register [si], whatever
    argument was pushed. *)
Definition sys_setcursor (si : Z) : M machine unit :=
  outb 0x3D4 0x0E ;;;
  outb 0x3D5 (Z.shiftr (u16 si) 8) ;;;
  outb 0x3D4 0x0F ;;;
  outb 0x3D5 (u16 si).

(** [si] is the register's value when the handler calls [sys_setcursor(0)]. *)
Definition GeneralIntHandler (si int_vertor_number : Z) : M intr unit :=
  on_cpu DisableInt ;;;
  on_cpu (sys_setcursor si) ;;;
  if (int_vertor_number =? 0x27) || (int_vertor_number =? 0x2F) then ret tt
  else
    on_cpu (sys_putstr "int vector: ") ;;;
    on_cpu (sys_putint int_vertor_number) ;;;
    on_cpu (sys_putchar 32) ;;;
    (if int_vertor_number <=? 19 then
       let* s := get in
       match interrupt_name (tables s) !! Z.to_nat int_vertor_number with
       | Some n => on_cpu (sys_putstr n)
       | None => fault int_vertor_number
       end
     else ret 0) ;;;
    on_cpu (sys_putchar 10) ;;;
    (fun _ => Halt).

Definition PIC_MASTER_CTRL : Z := 0x20.
Definition PIC_MASTER_DATA : Z := 0x21.
Definition PIC_SLAVE_CTRL : Z := 0xa0.
Definition PIC_SLAVE_DATA : Z := 0xa1.

(** The initialisation words and the interrupt masks of the two chips. *)
Definition pic_program : M machine unit :=
  outb PIC_MASTER_CTRL 0x11 ;;; outb PIC_MASTER_DATA 0x20 ;;;
  outb PIC_MASTER_DATA 0x04 ;;; outb PIC_MASTER_DATA 0x01 ;;;
  outb PIC_SLAVE_CTRL 0x11 ;;; outb PIC_SLAVE_DATA 0x28 ;;;
  outb PIC_SLAVE_DATA 0x02 ;;; outb PIC_SLAVE_DATA 0x01 ;;;
  outb PIC_MASTER_DATA 0xF8 ;;; outb PIC_SLAVE_DATA 0xBF.

Definition PicInit : M intr unit :=
  on_cpu (sys_putstr "    pic_init..") ;;;
  on_cpu pic_program ;;;
  on_cpu (sys_putline " done") ;;;
  ret tt.

(** The 48-bit operand of [lidt]/[lgdt] the code builds: the shift is a 32-bit one. *)
Definition table_operand (limit base : Z) : Z := Z.lor limit (u32 (Z.shiftl (u32 base) 16)).

(** [IdtInit]: the operand it hands to [lidt] is the result ([IDT_addr] is the table's address). *)
Definition IdtInit (entry_table syscall_handler general IDT_addr : Z) : M intr Z :=
  on_cpu (sys_putline "setting up IDT..") ;;;
  IdtDescInit entry_table syscall_handler ;;;
  ExceptionInit general ;;;
  PicInit ;;;
  on_cpu (sys_putline " done") ;;;
  ret (table_operand (IDT_DESC_SUM * 8 - 1) IDT_addr).

(** ** What the hardware makes of these values *)

(** The processor's reading of a gate. *)
Definition gate_target (g : INT_gate_desc) : Z :=
  function_offset_low_word g + 2 ^ 16 * function_offset_high_word g.
Definition gate_dpl (g : INT_gate_desc) : Z := Z.land (Z.shiftr (attribute g) 5) 3.
Definition gate_present (g : INT_gate_desc) : bool := Z.testbit (attribute g) 7.

(** The processor's reading of a table operand. *)
Definition operand_limit (o : Z) : Z := Z.land o 0xFFFF.
Definition operand_base (o : Z) : Z := u32 (Z.shiftr o 16).

(** The data port writes of an 8259A in order: ICW2, ICW3, ICW4, then the mask. *)
Definition port_writes (p : Z) (s : machine) : list Z :=
  map snd (filter (fun w => w.1 = p) (reverse (outs s))).
Definition pic_vector (s : machine) (irq : Z) : option Z :=
  if irq <? 8 then (fun b => b + irq) <$> port_writes PIC_MASTER_DATA s !! 0%nat
  else (fun b => b + (irq - 8)) <$> port_writes PIC_SLAVE_DATA s !! 0%nat.
Definition pic_enabled (s : machine) (irq : Z) : option bool :=
  if irq <? 8 then (fun b => negb (Z.testbit b irq)) <$> port_writes PIC_MASTER_DATA s !! 3%nat
  else (fun b => negb (Z.testbit b (irq - 8))) <$> port_writes PIC_SLAVE_DATA s !! 3%nat.

(** ** Proofs *)

Lemma if_flag_sti e : if_flag (Z.lor e EFLAGS_IF) = INT_ON.
Proof.
  unfold if_flag, EFLAGS_IF. change 0x200 with (2 ^ 9).
  rewrite Z.land_lor_distr_l, Z.land_diag.
  destruct (Z.eqb_spec (Z.lor (Z.land e (2 ^ 9)) (2 ^ 9)) 0) as [E|]; [|done].
  apply Z.lor_eq_0_iff in E. lia.
Qed.

Lemma if_flag_cli e : if_flag (Z.ldiff e EFLAGS_IF) = INT_OFF.
Proof.
  unfold if_flag. assert (Z.land (Z.ldiff e EFLAGS_IF) EFLAGS_IF = 0) as ->; [|done].
  apply Z.bits_inj'. intros n Hn. rewrite Z.land_spec, Z.ldiff_spec, Z.bits_0.
  destruct (Z.testbit e n), (Z.testbit EFLAGS_IF n); done.
Qed.

Lemma if_flag_bit e : if_flag e = if Z.testbit e 9 then INT_ON else INT_OFF.
Proof.
  unfold if_flag, EFLAGS_IF. change 0x200 with (2 ^ 9).
  destruct (Z.eqb_spec (Z.land e (2 ^ 9)) 0) as [E|E].
  - apply (f_equal (fun z => Z.testbit z 9)) in E. rewrite Z.land_spec, Z.bits_0 in E.
    by rewrite andb_true_r in E; rewrite E.
  - destruct (Z.testbit e 9) eqn:B; [done|]. exfalso. apply E. apply Z.bits_inj'. intros n Hn.
    rewrite Z.land_spec, Z.pow2_bits_eqb, Z.bits_0 by lia.
    destruct (Z.eqb_spec 9 n) as [<-|]; [by rewrite B|by rewrite andb_false_r].
Qed.

Lemma cli_off e : if_flag e = INT_OFF -> Z.ldiff e EFLAGS_IF = e.
Proof.
  rewrite if_flag_bit. destruct (Z.testbit e 9) eqn:B; [done|]. intros _.
  apply Z.bits_inj'. intros n Hn. unfold EFLAGS_IF. change 0x200 with (2 ^ 9).
  rewrite Z.ldiff_spec, Z.pow2_bits_eqb by lia.
  destruct (Z.eqb_spec 9 n) as [<-|]; [by rewrite B|by rewrite andb_true_r].
Qed.

Lemma sti_cli_on e : if_flag e = INT_ON -> Z.lor (Z.ldiff e EFLAGS_IF) EFLAGS_IF = e.
Proof.
  rewrite if_flag_bit. destruct (Z.testbit e 9) eqn:B; [|done]. intros _.
  apply Z.bits_inj'. intros n Hn. unfold EFLAGS_IF. change 0x200 with (2 ^ 9).
  rewrite Z.lor_spec, Z.ldiff_spec, Z.pow2_bits_eqb by lia.
  destruct (Z.eqb_spec 9 n) as [<-|]; [by rewrite B|]. by rewrite andb_true_r, orb_false_r.
Qed.

(** [cli] on the flags word, as [DisableInt] leaves it. *)
Definition masked (s : machine) : machine := set_eflags (Z.ldiff (eflags s) EFLAGS_IF) s.

Lemma DisableInt_ok s : DisableInt s = Ret (if_flag (eflags s), masked s).
Proof.
  unfold DisableInt, GetIntStatus, bind. destruct (if_flag (eflags s)) eqn:E; [|done].
  unfold ret, masked. rewrite cli_off by done. by destruct s.
Qed.

(** Restoring what [DisableInt] found puts the flags word back. *)
Lemma SetIntStatus_ok e s :
  eflags s = Z.ldiff e EFLAGS_IF ->
  exists old, SetIntStatus (if_flag e) s = Ret (old, set_eflags e s).
Proof.
  intros He. pose proof (if_flag_cli e) as Hoff.
  destruct (if_flag e) eqn:E; cbn [SetIntStatus]; exists INT_OFF.
  - unfold DisableInt, GetIntStatus, bind. rewrite He, Hoff. cbn iota. unfold ret.
    rewrite cli_off in He by done. rewrite <- He. by destruct s.
  - unfold EnableInt, GetIntStatus, bind. rewrite He, Hoff. cbn iota. unfold sti, modify, ret.
    by rewrite He, sti_cli_on.
Qed.

Lemma gate_target_make a f : 0 <= f < 2 ^ 32 -> gate_target (MakeIdtDesc a f) = f.
Proof.
  intros Hf. unfold gate_target, MakeIdtDesc. cbn [function_offset_low_word function_offset_high_word].
  rewrite Z.shiftr_land. change (Z.shiftr 0xFFFF0000 16) with (Z.ones 16). change 0xFFFF with (Z.ones 16).
  rewrite !Z.land_ones, Z.shiftr_div_pow2 by lia. unfold u16. rewrite !Z.mod_mod by lia.
  rewrite (Z.mod_small (f / 2 ^ 16)) by (split; [apply Z.div_pos; lia|apply Z.div_lt_upper_bound; lia]).
  pose proof (Z.div_mod f (2 ^ 16)). lia.
Qed.

(** the bracket [old = DisableInt(); ...; SetIntStatus(old)] that guards the kernel's critical
    sections: inside, interrupts are off; at the end the flags word is exactly what it was, so
    brackets nest; and nothing else of the machine is touched. *)
Theorem interrupt_bracket s :
  exists old s1, DisableInt s = Ret (old, s1) /\ if_flag (eflags s1) = INT_OFF /\
    s1 = set_eflags (eflags s1) s /\
    forall s2, eflags s2 = eflags s1 ->
      exists r, SetIntStatus old s2 = Ret (r, set_eflags (eflags s) s2).
Proof.
  exists (if_flag (eflags s)), (masked s). split_and!; [apply DisableInt_ok|apply if_flag_cli|done|].
  intros s2 Hs2. by apply SetIntStatus_ok.
Qed.

Lemma on_cpu_ok {A} (m : M machine A) s a c :
  m (cpu s) = Ret (a, c) -> on_cpu m s = Ret (a, Intr c (tables s)).
Proof. intros H. unfold on_cpu, zoom. by rewrite H. Qed.

Lemma wp_on_cpu {A} (m : M machine A) (Q : A -> intr -> Prop) s :
  wp m (fun a c => Q a (Intr c (tables s))) (cpu s) -> wp (on_cpu m) Q s.
Proof. unfold wp, on_cpu, zoom. destruct (m (cpu s)) as [[? ?]| | | |]; done. Qed.

(** Printing a literal only adds to the terminal. *)
Definition tty_only (s s' : machine) : Prop := ram s' = ram s /\ eflags s' = eflags s /\ outs s' = outs s.

Lemma putstr_bytes_tty l : forall s, last l = Some 0 ->
  wp (sys_putstr_bytes l) (fun _ s' => tty_only s s') s.
Proof.
  induction l as [|b l IH]; intros s Hl; [done|]. cbn [sys_putstr_bytes].
  destruct (Z.eqb_spec (u8 b) 0) as [E|E]; [done|].
  apply wp_bind. cbn. apply wp_bind. eapply wp_mono; [apply IH|].
  - destruct l; [|done]. cbn in Hl. injection Hl as ->. by destruct E.
  - intros n s' (H1 & H2 & H3). done.
Qed.

Lemma literal_last str : last (literal str) = Some 0.
Proof. induction str as [|c str IH]; [done|]. cbn. by destruct (literal str). Qed.

Lemma literal_nl_last str : last (literal_nl str) = Some 0.
Proof. induction str as [|c str IH]; [done|]. cbn. by destruct (literal_nl str). Qed.

Lemma wp_print (m : M machine Z) (Q : Z -> intr -> Prop) s :
  (forall c, wp m (fun _ c' => tty_only c c') c) ->
  (forall n c, tty_only (cpu s) c -> Q n (Intr c (tables s))) -> wp (on_cpu m) Q s.
Proof. intros Hm HQ. apply wp_on_cpu. eapply wp_mono; [apply Hm|]. intros n c Hc. by apply HQ. Qed.

Lemma putstr_tty str c : wp (sys_putstr str) (fun _ c' => tty_only c c') c.
Proof. apply putstr_bytes_tty, literal_last. Qed.

Lemma putline_tty str c : wp (sys_putline str) (fun _ c' => tty_only c c') c.
Proof. apply putstr_bytes_tty, literal_nl_last. Qed.

(** The gate of vector [i] in the IDT of [T]: present, in the kernel's code segment. *)
Definition gate_to (T : int_tables) (i target dpl : Z) : Prop :=
  exists g, IDT T !! Z.to_nat i = Some g /\ gate_present g = true /\ selector g = SELECTOR_K_CODE /\
    gate_target g = target /\ gate_dpl g = dpl.

(** The words of [interrupt_entry_table]. *)
Definition entry_stubs (m : gmap Z Z) (entry_table : Z) (e : Z -> Z) : Prop :=
  forall i, 0 <= i < IDT_DESC_SUM -> word m (u32 (entry_table + 4 * i)) = Some (e i) /\ 0 <= e i < 2 ^ 32.

Lemma IdtDescInit_ok s entry_table syscall_handler e :
  length (IDT (tables s)) = Z.to_nat IDT_DESC_SUM -> 0 <= syscall_handler < 2 ^ 32 ->
  entry_stubs (ram (cpu s)) entry_table e ->
  wp (IdtDescInit entry_table syscall_handler) (fun _ s' => tty_only (cpu s) (cpu s') /\
    idt_table (tables s') = idt_table (tables s) /\ interrupt_name (tables s') = interrupt_name (tables s) /\
    forall i, 0 <= i < IDT_DESC_SUM -> gate_to (tables s') i (if i =? 0x80 then syscall_handler else e i)
      (if i =? 0x80 then 3 else 0)) s.
Proof.
  intros Hlen Hsys Hent. unfold IdtDescInit.
  apply wp_bind, wp_print; [apply putstr_tty|]. intros _ c1 H1.
  apply wp_bind.
  apply (wp_iter (fun i s' => tty_only (cpu s) (cpu s') /\ 0 <= i <= IDT_DESC_SUM /\
    idt_table (tables s') = idt_table (tables s) /\ interrupt_name (tables s') = interrupt_name (tables s) /\
    length (IDT (tables s')) = Z.to_nat IDT_DESC_SUM /\
    forall j, 0 <= j < i -> IDT (tables s') !! Z.to_nat j = Some (MakeIdtDesc IDT_DESC_ATTRIBUTE_DPL0 (e j)))
    (fun i => Z.to_nat (IDT_DESC_SUM - i))).
  - intros i s' (Ht & Hi & T1 & T2 & Hl & Hg). unfold IDT_DESC_SUM in *.
    destruct (Z.ltb_spec i 0x81) as [Hlt|Hge].
    + destruct (Hent i ltac:(unfold IDT_DESC_SUM; lia)) as [Hw He].
      apply wp_bind. eapply wp_intro; [apply on_cpu_ok, ld32_ok; by rewrite (proj1 Ht)|].
      apply wp_bind. cbn [wp modify]. apply wp_ret. cbn [cpu tables IDT idt_table interrupt_name set_IDT].
      split_and!; [done|lia|lia|done|done|by rewrite length_insert| |lia].
      intros j Hj. rewrite list_lookup_insert. case_decide; [|apply Hg; lia].
      by replace j with i by lia.
    + apply wp_ret. apply wp_bind, wp_ASSERT; [done|]. apply wp_bind. cbn [wp modify].
      apply wp_bind, wp_print; [apply putline_tty|]. intros _ c2 (R1 & R2 & R3). apply wp_ret.
      cbn [cpu tables IDT set_IDT] in *. destruct Ht as (Q1 & Q2 & Q3).
      split_and!; [split_and!; congruence|done|done|]. intros j Hj. unfold gate_to. cbn [tables IDT set_IDT].
      destruct (Z.eqb_spec j 0x80) as [->|Hne].
      * eexists. rewrite list_lookup_insert_eq by lia. split_and!; try done.
        by apply gate_target_make.
      * eexists. rewrite list_lookup_insert_ne, Hg by lia. split_and!; try done.
        apply gate_target_make. apply Hent. unfold IDT_DESC_SUM. lia.
  - unfold IDT_DESC_SUM. split_and!; [apply H1..|lia|lia|done|done|done|intros; lia].
  - unfold IDT_DESC_SUM. lia.
Qed.

(** after [IdtDescInit] every vector's gate is present and leads to the entry stub that
    [interrupt_entry_table] lists for it, at privilege level 0, except vector 0x80: it leads to
    [syscall_handler] and is the only gate user code may call. *)
Theorem IdtDescInit_correct s entry_table syscall_handler (e : Z -> Z) :
  length (IDT (tables s)) = Z.to_nat IDT_DESC_SUM -> 0 <= syscall_handler < 2 ^ 32 ->
  (forall i, 0 <= i < IDT_DESC_SUM ->
    word (ram (cpu s)) (u32 (entry_table + 4 * i)) = Some (e i) /\ 0 <= e i < 2 ^ 32) ->
  exists s', IdtDescInit entry_table syscall_handler s = Ret (tt, s') /\
    forall i, 0 <= i < IDT_DESC_SUM -> exists g, IDT (tables s') !! Z.to_nat i = Some g /\
      gate_present g = true /\ selector g = SELECTOR_K_CODE /\
      gate_target g = (if i =? 0x80 then syscall_handler else e i) /\
      gate_dpl g = (if i =? 0x80 then 3 else 0).
Proof.
  intros Hlen Hsys Hent.
  destruct (wp_elim _ _ _ (IdtDescInit_ok s entry_table syscall_handler e Hlen Hsys Hent)) as ([] & s' & Hrun & _ & _ & _ & Hg).
  exists s'. split; [exact Hrun|exact Hg].
Qed.

Lemma wp_set_names l (Q : unit -> intr -> Prop) : forall s,
  (forall s', cpu s' = cpu s -> IDT (tables s') = IDT (tables s) -> idt_table (tables s') = idt_table (tables s) -> Q tt s') ->
  wp (modify (fun s => foldl (fun s '(i, n) => set_name i n s) s l)) Q s.
Proof.
  induction l as [|[i n] l IH]; intros s HQ; [by apply HQ|]. apply (IH (set_name i n s)). intros s' H1 H2 H3. by apply HQ.
Qed.

Lemma ExceptionInit_ok general s : length (idt_table (tables s)) = Z.to_nat IDT_DESC_SUM ->
  wp (ExceptionInit general) (fun _ s' => tty_only (cpu s) (cpu s') /\ IDT (tables s') = IDT (tables s) /\
    idt_table (tables s') = replicate (Z.to_nat IDT_DESC_SUM) general) s.
Proof.
  intros Hlen. unfold ExceptionInit.
  apply wp_bind, wp_print; [apply putstr_tty|]. intros _ c1 H1.
  apply wp_bind.
  apply (wp_iter (fun i s' => tty_only (cpu s) (cpu s') /\ 0 <= i <= IDT_DESC_SUM /\
    IDT (tables s') = IDT (tables s) /\ length (idt_table (tables s')) = Z.to_nat IDT_DESC_SUM /\
    forall j, 0 <= j < i -> idt_table (tables s') !! Z.to_nat j = Some general) (fun i => Z.to_nat (IDT_DESC_SUM - i))).
  - intros i s' (Ht & Hi & T1 & Hl & Hg). unfold IDT_DESC_SUM in *. destruct (Z.ltb_spec i 0x81) as [Hlt|Hge].
    + apply wp_bind. cbn [wp modify]. apply wp_bind. cbn [wp modify]. apply wp_ret.
      cbn [cpu tables IDT idt_table set_name set_handler].
      split_and!; [done|lia|lia|done|by rewrite length_insert| |lia].
      intros j Hj. rewrite list_lookup_insert. case_decide; [done|apply Hg; lia].
    + apply wp_ret. apply wp_bind, wp_set_names. intros s2 E1 E2 E3.
      apply wp_bind, wp_print; [apply putline_tty|]. rewrite E1. intros _ c2 (R1 & R2 & R3). apply wp_ret. cbn [cpu tables].
      rewrite E2, E3. destruct Ht as (Q1 & Q2 & Q3). split_and!; [split_and!; congruence|done|]. apply list_eq. intros k.
      destruct (decide (k < 129)%nat) as [Hk|Hk].
      * rewrite lookup_replicate_2 by lia. rewrite <- (Hg (Z.of_nat k)) by lia. by rewrite Nat2Z.id.
      * rewrite !lookup_ge_None_2; [done|rewrite length_replicate; lia|lia].
  - unfold IDT_DESC_SUM. split_and!; [apply H1..|lia|lia|done|done|intros; lia].
  - unfold IDT_DESC_SUM. lia.
Qed.

Definition pic_trace : list (Z * Z) :=
  [(0xa1, 0xBF); (0x21, 0xF8); (0xa1, 0x01); (0xa1, 0x02); (0xa1, 0x28); (0xa0, 0x11);
   (0x21, 0x01); (0x21, 0x04); (0x21, 0x20); (0x20, 0x11)].

Lemma pic_program_ok c : pic_program c = Ret (tt, set_outs (pic_trace ++ outs c) c).
Proof. reflexivity. Qed.

Lemma PicInit_ok s : wp PicInit (fun _ s' => ram (cpu s') = ram (cpu s) /\ eflags (cpu s') = eflags (cpu s) /\
  outs (cpu s') = pic_trace ++ outs (cpu s) /\ tables s' = tables s) s.
Proof.
  unfold PicInit. apply wp_bind, wp_print; [apply putstr_tty|]. intros _ c1 (R1 & E1 & O1).
  apply wp_bind, wp_on_cpu. eapply wp_intro; [apply pic_program_ok|].
  apply wp_bind, wp_print; [apply putline_tty|]. intros _ c2 (R2 & E2 & O2). apply wp_ret.
  cbn [cpu outs set_outs ram eflags tables] in *. split_and!; congruence.
Qed.

Lemma IdtInit_ok s entry_table syscall_handler general IDT_addr e :
  length (IDT (tables s)) = Z.to_nat IDT_DESC_SUM -> length (idt_table (tables s)) = Z.to_nat IDT_DESC_SUM ->
  0 <= syscall_handler < 2 ^ 32 -> entry_stubs (ram (cpu s)) entry_table e ->
  wp (IdtInit entry_table syscall_handler general IDT_addr) (fun r s' =>
    r = table_operand (IDT_DESC_SUM * 8 - 1) IDT_addr /\ ram (cpu s') = ram (cpu s) /\ eflags (cpu s') = eflags (cpu s) /\
    outs (cpu s') = pic_trace ++ outs (cpu s) /\
    idt_table (tables s') = replicate (Z.to_nat IDT_DESC_SUM) general /\
    forall i, 0 <= i < IDT_DESC_SUM -> gate_to (tables s') i (if i =? 0x80 then syscall_handler else e i)
      (if i =? 0x80 then 3 else 0)) s.
Proof.
  intros L1 L2 Hsys Hent. unfold IdtInit.
  apply wp_bind, wp_print; [apply putline_tty|]. intros _ c1 (R1 & F1 & O1).
  apply wp_bind. eapply wp_mono; [apply (IdtDescInit_ok _ _ _ e); [exact L1|exact Hsys|cbn [cpu]; by rewrite R1]|].
  intros _ s2 ((R2 & F2 & O2) & T2 & _ & G2).
  apply wp_bind. eapply wp_mono; [apply ExceptionInit_ok; by rewrite T2|]. intros _ s3 ((R3 & F3 & O3) & I3 & T3).
  apply wp_bind. eapply wp_mono; [apply PicInit_ok|]. intros _ s4 (R4 & F4 & O4 & T4).
  apply wp_bind, wp_print; [apply putline_tty|]. intros _ c5 (R5 & F5 & O5). apply wp_ret. cbn [cpu tables] in *.
  split_and!; [done|congruence|congruence|congruence|congruence|].
  intros i Hi. destruct (G2 i Hi) as (g & Hg & Hrest). exists g. rewrite T4, I3. done.
Qed.

(** [PicInit] programs the 8259A pair so that IRQ [n] raises vector [0x20 + n] and exactly the
    clock (0), the keyboard (1), the cascade (2) and the primary disk (14) are enabled. *)
Theorem PicInit_correct s :
  outs (cpu s) = [] ->
  exists s', PicInit s = Ret (tt, s') /\ forall irq, 0 <= irq < 16 ->
    pic_vector (cpu s') irq = Some (0x20 + irq) /\
    pic_enabled (cpu s') irq = Some ((irq =? 0) || (irq =? 1) || (irq =? 2) || (irq =? 14)).
Proof.
  intros Houts. unfold PicInit.
  apply wp_exists.
  apply wp_bind, wp_print; [apply putstr_tty|]. intros _ c1 (_ & _ & Ho1). rewrite Houts in Ho1.
  apply wp_bind, wp_on_cpu. eapply wp_intro; [apply pic_program_ok|].
  apply wp_bind, wp_print; [apply putline_tty|]. intros _ c2 (_ & _ & Ho2). apply wp_ret.
  cbn [cpu outs set_outs] in *. rewrite Ho1, app_nil_r in Ho2.
  intros irq Hirq. unfold pic_vector, pic_enabled, port_writes. cbn [cpu]. rewrite Ho2.
  assert (exists n, irq = Z.of_nat n /\ (n < 16)%nat) as (n & -> & Hn) by (exists (Z.to_nat irq); lia).
  do 16 (destruct n as [|n]; [split; reflexivity|]). lia.
Qed.

Lemma lor_disjoint a b n : 0 <= n -> 0 <= a < 2 ^ n -> Z.lor a (b * 2 ^ n) = a + b * 2 ^ n.
Proof.
  intros Hn Ha. rewrite <- Z.shiftl_mul_pow2 by lia. rewrite <- Z.lxor_lor, <- Z.add_nocarry_lxor; [done|..].
  all: apply Z.bits_inj'; intros k Hk; rewrite Z.land_spec, Z.bits_0.
  all: destruct (decide (k < n)); [rewrite Z.shiftl_spec_low by lia; by rewrite andb_false_r|].
  all: rewrite <- (Z.mod_small a (2 ^ n)) by lia; by rewrite Z.mod_pow2_bits_high by lia.
Qed.

(** The operands handed to [lidt] and [lgdt] are computed with a 32-bit shift: the table's limit
    survives, but of its address only the low 16 bits do, so the loaded base is the table's
    address exactly when the address is below 64 KiB (it never is: the kernel is linked above
    0xC0000000). *)
Theorem table_operand_truncates limit base :
  0 <= limit < 2 ^ 16 -> 0 <= base < 2 ^ 32 ->
  operand_limit (table_operand limit base) = limit /\
  operand_base (table_operand limit base) = base mod 2 ^ 16 /\
  (operand_base (table_operand limit base) = base <-> base < 2 ^ 16).
Proof.
  intros Hl Hb.
  assert (table_operand limit base = limit + 2 ^ 16 * (base mod 2 ^ 16)) as E.
  { unfold table_operand, u32. rewrite (Z.mod_small base) by lia.
    rewrite Z.shiftl_mul_pow2 by lia.
    replace (base * 2 ^ 16 mod 2 ^ 32) with (base mod 2 ^ 16 * 2 ^ 16)
      by (change (2 ^ 32) with (2 ^ 16 * 2 ^ 16); rewrite Z.mul_mod_distr_r; lia).
    rewrite lor_disjoint by lia. lia. }
  assert (operand_base (table_operand limit base) = base mod 2 ^ 16) as Hbase.
  { rewrite E. unfold operand_base. rewrite Z.shiftr_div_pow2 by lia.
    rewrite (Z.mul_comm (2 ^ 16)), Z.div_add, Z.div_small by lia.
    apply u32_id. pose proof (Z.mod_pos_bound base (2 ^ 16)). lia. }
  split_and!.
  - rewrite E. unfold operand_limit. change 0xFFFF with (Z.ones 16). rewrite Z.land_ones by lia.
    rewrite (Z.mul_comm (2 ^ 16)), Z.mod_add by lia. apply Z.mod_small. lia.
  - done.
  - rewrite Hbase. split; intros H.
    + pose proof (Z.mod_pos_bound base (2 ^ 16)). lia.
    + apply Z.mod_small. lia.
Qed.

(** ** Witnesses *)
Definition demo_tables : int_tables :=
  IntTables (replicate 129 (Gate 0 0 0 0 0)) (replicate 129 0) (replicate 129 ""%string).

(** An entry table of 129 words at 4096: the stub of vector [i] is at [i]. *)
Definition demo_entries : list Z := flat_map (fun i => [Z.of_nat i; 0; 0; 0]) (seq 0 129).
Definition demo_intr : intr := Intr (Machine (write_bytes ∅ 4096 demo_entries) 0x202 [] []) demo_tables.

Lemma IdtDescInit_correct_witness :
  exists s', IdtDescInit 4096 0xC0001700 demo_intr = Ret (tt, s') /\
    exists g, IDT (tables s') !! 128%nat = Some g /\ gate_target g = 0xC0001700 /\ gate_dpl g = 3.
Proof.
  destruct (IdtDescInit_correct demo_intr 4096 0xC0001700 (fun i => i)) as (s' & H1 & H2).
  - reflexivity.
  - lia.
  - intros i Hi. split; [|unfold IDT_DESC_SUM in Hi; lia].
    assert (exists n, i = Z.of_nat n /\ (n < 129)%nat) as (n & -> & Hn)
      by (exists (Z.to_nat i); unfold IDT_DESC_SUM in Hi; lia).
    do 129 (destruct n as [|n]; [reflexivity|]). lia.
  - exists s'. split; [exact H1|]. destruct (H2 0x80 ltac:(zdec)) as (g & Hg & _ & _ & Ht & Hd).
    exists g. split_and!; [exact Hg|exact Ht|exact Hd].
Defined.

Lemma PicInit_correct_witness :
  exists s', PicInit demo_intr = Ret (tt, s') /\ pic_vector (cpu s') 14 = Some 0x2E.
Proof.
  destruct (PicInit_correct demo_intr) as (s' & H1 & H2); [reflexivity|].
  exists s'. split; [exact H1|]. exact (proj1 (H2 14 ltac:(lia))).
Defined.

Lemma table_operand_truncates_witness :
  operand_base (table_operand 1031 0xC0008A40) = 0x8A40.
Proof. exact (proj1 (proj2 (table_operand_truncates 1031 0xC0008A40 ltac:(lia) ltac:(lia)))). Defined.
