(* ===== verification/KList.v ===== *)
(** * lib/kernel/list.c: the intrusive doubly linked list

    A [struct list_elem] is two pointers, [prev] at offset 0 and [next] at offset 4; a [struct list]
    is two of them, [head] at offset 0 and [tail] at offset 8.  The functions run on byte memory,
    inside the interrupt bracket where the code has one; [dll] says which sequence of node addresses
    a list in memory holds, and [list_refines] that every function implements the operation on
    sequences the rest of the development uses. *)
From stdpp Require Import base list gmap strings.
From S2P Require Import Prelude Machine Print Interrupt.

(** Addresses of the fields. *)
Definition prev_of (p : Z) : Z := p.
Definition next_of (p : Z) : Z := u32 (p + 4).
Definition head_of (l : Z) : Z := l.
Definition tail_of (l : Z) : Z := u32 (l + 8).

(** [elem2entry(struct_type, member, elem_ptr)] for a member at [offset]. *)
Definition elem2entry (offset elem_ptr : Z) : Z := u32 (elem_ptr - offset).

Definition list_init (list : Z) : M machine unit :=
  st32 (prev_of (head_of list)) 0 ;;;
  st32 (next_of (head_of list)) (tail_of list) ;;;
  st32 (prev_of (tail_of list)) (head_of list) ;;;
  st32 (next_of (tail_of list)) 0.

Definition list_insert_before (before elem : Z) : M machine unit :=
  let* old_status := DisableInt in
  ASSERT (negb (elem =? 0)) "list_insert_before" 24 ;;;
  let* before_prev := ld32 (prev_of before) in
  st32 (next_of before_prev) elem ;;;
  let* before_prev := ld32 (prev_of before) in
  st32 (prev_of elem) before_prev ;;;
  st32 (next_of elem) before ;;;
  st32 (prev_of before) elem ;;;
  let* _ := SetIntStatus old_status in
  ret tt.

Definition list_push (plist elem : Z) : M machine unit :=
  let* first := ld32 (next_of (head_of plist)) in
  list_insert_before first elem.

Definition list_append (plist elem : Z) : M machine unit :=
  list_insert_before (tail_of plist) elem.

Definition list_remove (pelem : Z) : M machine unit :=
  let* old_status := DisableInt in
  let* p := ld32 (prev_of pelem) in
  let* n := ld32 (next_of pelem) in
  st32 (next_of p) n ;;;
  let* n := ld32 (next_of pelem) in
  let* p := ld32 (prev_of pelem) in
  st32 (prev_of n) p ;;;
  let* _ := SetIntStatus old_status in
  ret tt.

Definition list_pop (plist : Z) : M machine Z :=
  let* elem := ld32 (next_of (head_of plist)) in
  list_remove elem ;;;
  ret elem.

Definition elem_find_body (plist obj_elem elem : Z) : M machine (Z + Z) :=
  if elem =? tail_of plist then ret (inr 0)
  else
    ASSERT (negb (elem =? 0)) "elem_find" 77 ;;;
    if elem =? obj_elem then ret (inr 1)
    else let* n := ld32 (next_of elem) in ret (inl n).

Definition elem_find (fuel : nat) (plist obj_elem : Z) : M machine Z :=
  let* elem := ld32 (next_of (head_of plist)) in
  iter fuel (elem_find_body plist obj_elem) elem.

Definition list_empty (plist : Z) : M machine Z :=
  let* first := ld32 (next_of (head_of plist)) in
  ret (c_bool (first =? tail_of plist)).

Definition traversal_body (plist : Z) (func : Z -> Z -> M machine Z) (arg elem : Z) : M machine (Z + Z) :=
  if elem =? tail_of plist then ret (inr 0)
  else
    let* hit := func elem arg in
    if is_true_c hit then ret (inr elem)
    else let* n := ld32 (next_of elem) in ret (inl n).

Definition list_traversal (fuel : nat) (plist : Z) (func : Z -> Z -> M machine Z) (arg : Z) : M machine Z :=
  let* elem := ld32 (next_of (head_of plist)) in
  let* empty := list_empty plist in
  if is_true_c empty then ret 0
  else iter fuel (traversal_body plist func arg) elem.

Definition list_len_body (plist : Z) '((elem, length) : Z * Z) : M machine (Z * Z + Z) :=
  if elem =? tail_of plist then ret (inr length)
  else
    let* n := ld32 (next_of elem) in
    ret (inl (n, u32 (length + 1))).

Definition list_len (fuel : nat) (plist : Z) : M machine Z :=
  let* elem := ld32 (next_of (head_of plist)) in
  iter fuel (list_len_body plist) (elem, 0).

(** ** The sequence a list holds *)

Definition link (m : gmap Z Z) (p q : Z) : Prop := word m (p + 4) = Some q /\ word m q = Some p.

Fixpoint chain (m : gmap Z Z) (ns : list Z) : Prop :=
  match ns with
  | p :: (q :: _) as r => link m p q /\ chain m r
  | _ => True
  end.

(** Two nodes do not overlap. *)
Definition apart (a b : Z) : Prop := a + 8 <= b \/ b + 8 <= a.

Fixpoint separate (ns : list Z) : Prop :=
  match ns with
  | [] => True
  | a :: r => Forall (apart a) r /\ separate r
  end.

Definition node_ok (m : gmap Z Z) (n : Z) : Prop := 0 < n /\ n + 8 < 2 ^ 32 /\ readable m n 8.

(** All nodes of the list at [l] with the elements [xs], sentinels included. *)
Definition nodes (l : Z) (xs : list Z) : list Z := l :: xs ++ [l + 8].

Definition dll (m : gmap Z Z) (l : Z) (xs : list Z) : Prop :=
  chain m (nodes l xs) /\ separate (nodes l xs) /\ Forall (node_ok m) (nodes l xs) /\
  word m l = Some 0 /\ word m (l + 12) = Some 0.

(** A node that can be added to the list. *)
Definition fresh_node (m : gmap Z Z) (l : Z) (xs : list Z) (e : Z) : Prop :=
  node_ok m e /\ Forall (apart e) (nodes l xs).

(** The bytes of some nodes. *)
Definition in_nodes (ns : list Z) (a : Z) : Prop := exists n, n ∈ ns /\ n <= a < n + 8.

(** ** Operations on sequences *)
Inductive list_op := Push (e : Z) | Append (e : Z) | Pop | Remove (e : Z) | Find (e : Z) | Len | Empty.

(** The result and the new sequence; [None] where the C function must not be called. *)
Definition seq_op (xs : list Z) (op : list_op) : option (list Z * Z) :=
  match op with
  | Push e => Some (e :: xs, 0)
  | Append e => Some (xs ++ [e], 0)
  | Pop => match xs with x :: xs' => Some (xs', x) | [] => None end
  | Remove e => if bool_decide (e ∈ xs) then Some (filter (fun x => x <> e) xs, 0) else None
  | Find e => Some (xs, c_bool (bool_decide (e ∈ xs)))
  | Len => Some (xs, u32 (Z.of_nat (length xs)))
  | Empty => Some (xs, c_bool (bool_decide (xs = [])))
  end.

(** The C function for an operation. *)
Definition run_op (fuel : nat) (l : Z) (op : list_op) : M machine Z :=
  match op with
  | Push e => list_push l e ;;; ret 0
  | Append e => list_append l e ;;; ret 0
  | Pop => list_pop l
  | Remove e => list_remove e ;;; ret 0
  | Find e => elem_find fuel l e
  | Len => list_len fuel l
  | Empty => list_empty l
  end.

Definition op_ok (m : gmap Z Z) (l : Z) (xs : list Z) (op : list_op) : Prop :=
  match op with
  | Push e | Append e => fresh_node m l xs e
  | _ => True
  end.

(** The nodes an operation may write. *)
Definition op_nodes (l : Z) (xs : list Z) (op : list_op) : list Z :=
  match op with
  | Push e | Append e => e :: nodes l xs
  | _ => nodes l xs
  end.

(** ** Chains *)

Lemma apart_sym a b : apart a b -> apart b a.
Proof. unfold apart. lia. Qed.

Lemma separate_app A B :
  separate (A ++ B) <-> separate A /\ separate B /\ forall a b, a ∈ A -> b ∈ B -> apart a b.
Proof.
  induction A as [|x A IH]; cbn.
  - split; [|tauto]. intros. split_and!; try done. intros a b Ha. by apply not_elem_of_nil in Ha.
  - rewrite IH, Forall_app, !Forall_forall. split.
    + intros ((H1 & H2) & H3 & H4 & H5). split_and!; try done.
      intros a b [->|Ha]%elem_of_cons Hb; eauto.
    + intros ((H1 & H2) & H3 & H4). split_and!; try done.
      * intros b Hb. apply H4; [left|done].
      * intros a b Ha Hb. apply H4; [by right|done].
Qed.

Lemma chain_app m A p B : chain m (A ++ p :: B) <-> chain m (A ++ [p]) /\ chain m (p :: B).
Proof.
  induction A as [|x A IH]; [cbn; tauto|].
  destruct A as [|y A]; cbn [app chain] in *; [tauto|]. rewrite IH. tauto.
Qed.

Lemma chain_suffix_frame m m' B : forall q,
  chain m (q :: B) -> (forall n, n ∈ q :: B -> word m' (n + 4) = word m (n + 4)) ->
  (forall n, n ∈ B -> word m' n = word m n) -> chain m' (q :: B).
Proof.
  induction B as [|x B IH]; intros q Hc Hn Hp; [done|].
  destruct Hc as [[H1 H2] Hc]. split.
  - split; [rewrite Hn by left; done|rewrite Hp by left; done].
  - apply IH; [done| |]; intros n Hin; [apply Hn|apply Hp]; by right.
Qed.

Lemma chain_prefix_frame m m' A : forall p,
  chain m (A ++ [p]) -> (forall n, n ∈ A -> word m' (n + 4) = word m (n + 4)) ->
  (forall n, n ∈ A ++ [p] -> word m' n = word m n) -> chain m' (A ++ [p]).
Proof.
  induction A as [|x A IH]; intros p Hc Hn Hp; [done|].
  destruct A as [|y A]; cbn [app chain] in *.
  - destruct Hc as [[H1 H2] _]. split; [|done]. split.
    + rewrite Hn by left. done.
    + rewrite Hp by (right; left). done.
  - destruct Hc as [[H1 H2] Hc]. split.
    + split; [rewrite Hn by left; done|rewrite Hp by (right; left); done].
    + apply IH; [done| |]; intros n Hin; [apply Hn|apply Hp]; by right.
Qed.

(** Linking [e] between the neighbours [p] and [q]; unlinking the node between them. *)
Definition insert_mem (m : gmap Z Z) (p e q : Z) : gmap Z Z :=
  setw (setw (setw (setw m (p + 4) e) e p) (e + 4) q) q e.
Definition unlink_mem (m : gmap Z Z) (p q : Z) : gmap Z Z := setw (setw m (p + 4) q) q p.

Lemma stored_unlink_mem m p q : stored m (unlink_mem m p q).
Proof. eapply stored_trans; apply stored_setw. Qed.

Lemma stored_insert_mem m p e q : stored m (insert_mem m p e q).
Proof. unfold insert_mem. do 3 (eapply stored_trans; [|apply stored_setw]). apply stored_setw. Qed.

Ltac words := repeat (rewrite word_setw_ne by (unfold apart in *; lia)).

Lemma chain_insert m A p e q B :
  chain m (A ++ p :: q :: B) -> separate (A ++ p :: q :: B) ->
  Forall (apart e) (A ++ p :: q :: B) ->
  0 <= p < 2 ^ 32 -> 0 <= e < 2 ^ 32 -> 0 <= q < 2 ^ 32 ->
  chain (insert_mem m p e q) (A ++ p :: e :: q :: B).
Proof.
  intros Hc Hs He Hp32 He32 Hq32.
  apply chain_app in Hc as [Hc1 Hc2]. cbn [chain] in Hc2. destruct Hc2 as [_ Hc2].
  apply separate_app in Hs as (_ & Hs & HA). cbn [separate] in Hs.
  destruct Hs as (HpB & HqB & _). rewrite Forall_forall in He, HpB, HqB.
  assert (apart p q) as Hpq by (apply HpB; left).
  assert (apart e p) as Hep by (apply He, elem_of_app; right; left).
  assert (apart e q) as Heq by (apply He, elem_of_app; right; right; left).
  apply chain_app. split; [|cbn [chain]; split_and!].
  - apply (chain_prefix_frame m); [done| |].
    + intros n Hn. assert (apart n p) by (apply HA; [done|left]).
      assert (apart n q) by (apply HA; [done|right; left]).
      assert (apart e n) by (apply He, elem_of_app; by left). unfold insert_mem. words. done.
    + intros n Hn. assert (apart e n) by
        (apply He, elem_of_app; apply elem_of_app in Hn as [Hn|Hn%list_elem_of_singleton];
         [by left|subst; right; left]).
      assert (apart n q) by (apply elem_of_app in Hn as [Hn|Hn%list_elem_of_singleton];
        [apply HA; [done|right; left]|by subst]).
      assert (n = p \/ apart n p) as [->|] by (apply elem_of_app in Hn as [Hn|Hn%list_elem_of_singleton];
        [right; apply HA; [done|left]|by left]); unfold insert_mem; words; done.
  - split; unfold insert_mem.
    + words. by rewrite word_setw_eq.
    + words. by rewrite word_setw_eq.
  - split; unfold insert_mem.
    + words. by rewrite word_setw_eq.
    + by rewrite word_setw_eq.
  - apply (chain_suffix_frame m); [done| |].
    + intros n [->|Hn]%elem_of_cons; unfold insert_mem; [words; done|].
      assert (apart p n) by (apply HpB; by right). assert (apart q n) by by apply HqB.
      assert (apart e n) by (apply He, elem_of_app; right; right; by right). words. done.
    + intros n Hn. assert (apart p n) by (apply HpB; by right). assert (apart q n) by by apply HqB.
      assert (apart e n) by (apply He, elem_of_app; right; right; by right).
      unfold insert_mem. words. done.
Qed.

Lemma chain_unlink m A p e q B :
  chain m (A ++ p :: e :: q :: B) -> separate (A ++ p :: e :: q :: B) ->
  0 <= p < 2 ^ 32 -> 0 <= q < 2 ^ 32 ->
  chain (unlink_mem m p q) (A ++ p :: q :: B).
Proof.
  intros Hc Hs Hp32 Hq32.
  apply chain_app in Hc as [Hc1 Hc2]. cbn [chain] in Hc2. destruct Hc2 as (_ & _ & Hc2).
  apply separate_app in Hs as (_ & Hs & HA). cbn [separate] in Hs.
  destruct Hs as (HpB & HeB & HqB & _). rewrite Forall_forall in HpB, HeB, HqB.
  assert (apart p q) as Hpq by (apply HpB; right; left).
  apply chain_app. split; [|cbn [chain]; split].
  - apply (chain_prefix_frame m); [done| |].
    + intros n Hn. assert (apart n p) by (apply HA; [done|left]).
      assert (apart n q) by (apply HA; [done|right; right; left]). unfold unlink_mem. words. done.
    + intros n Hn. assert (apart n q) by (apply elem_of_app in Hn as [Hn|Hn%list_elem_of_singleton];
        [apply HA; [done|right; right; left]|by subst]).
      assert (n = p \/ apart n p) as [->|] by (apply elem_of_app in Hn as [Hn|Hn%list_elem_of_singleton];
        [right; apply HA; [done|left]|by left]); unfold unlink_mem; words; done.
  - split; unfold unlink_mem; [words|]; by rewrite word_setw_eq.
  - apply (chain_suffix_frame m); [done| |].
    + intros n [->|Hn]%elem_of_cons; unfold unlink_mem; [words; done|].
      assert (apart p n) by (apply HpB; right; by right). assert (apart q n) by by apply HqB.
      words. done.
    + intros n Hn. assert (apart p n) by (apply HpB; right; by right).
      assert (apart q n) by by apply HqB. unfold unlink_mem. words. done.
Qed.

(** ** The functions on memory *)

Lemma node_words m n : node_ok m n -> is_Some (word m n) /\ is_Some (word m (n + 4)).
Proof.
  intros (_ & _ & Hr). split; apply word_readable; eapply readable_le; (done || lia).
Qed.

Lemma node_ok_setw m a v n : node_ok m n -> node_ok (setw m a v) n.
Proof. intros (? & ? & ?). split_and!; [done|done|by apply setw_readable]. Qed.

Lemma next_of_node m n : node_ok m n -> next_of n = n + 4.
Proof. intros (? & ? & _). apply u32_id. lia. Qed.

Lemma restore_masked m s : set_eflags (eflags s) (set_ram m (masked s)) = set_ram m s.
Proof. by destruct s. Qed.

Lemma chain_link m A p q B : chain m (A ++ p :: q :: B) -> link m p q.
Proof. intros [_ Hc]%chain_app. apply Hc. Qed.

Lemma list_insert_before_ok s A p e q B :
  chain (ram s) (A ++ p :: q :: B) -> separate (A ++ p :: q :: B) ->
  Forall (node_ok (ram s)) (A ++ p :: q :: B) ->
  node_ok (ram s) e -> Forall (apart e) (A ++ p :: q :: B) ->
  list_insert_before q e s = Ret (tt, set_ram (insert_mem (ram s) p e q) s).
Proof.
  intros Hc Hs Hok He Hae.
  pose proof (chain_link _ _ _ _ _ Hc) as [Hpn Hqp].
  apply separate_app in Hs as (_ & [Hpq _] & _). rewrite Forall_forall in Hpq, Hae, Hok.
  assert (apart p q) as Hapq by (apply Hpq; left).
  assert (apart e p) as Hep by (apply Hae, elem_of_app; right; left).
  assert (apart e q) as Heq by (apply Hae, elem_of_app; right; right; left).
  assert (node_ok (ram s) p) as Hp by (apply Hok, elem_of_app; right; left).
  assert (node_ok (ram s) q) as Hq by (apply Hok, elem_of_app; right; right; left).
  pose proof (node_words _ _ Hp) as [_ Hwp]. pose proof (node_words _ _ Hq) as [Hwq _].
  pose proof (node_words _ _ He) as [Hwe Hwe4].
  unfold list_insert_before, prev_of. rewrite (bind_Ret _ _ _ _ _ (DisableInt_ok s)).
  rewrite (bind_Ret _ _ _ tt (masked s)) by (apply ASSERT_true; destruct He; lia).
  rewrite (bind_Ret _ _ _ p (masked s)) by by apply ld32_ok.
  rewrite (next_of_node _ _ Hp), (next_of_node _ _ He).
  erewrite bind_Ret; [|by apply st32_ok].
  erewrite bind_Ret; [|apply ld32_ok; cbn [ram set_ram masked set_eflags]; words; exact Hqp].
  erewrite bind_Ret; [|apply st32_ok; by apply is_word_setw].
  erewrite bind_Ret; [|apply st32_ok; by repeat apply is_word_setw].
  erewrite bind_Ret; [|apply st32_ok; by repeat apply is_word_setw].
  destruct (SetIntStatus_ok (eflags s) (set_ram (insert_mem (ram s) p e q) (masked s)) eq_refl)
    as [old Hold].
  erewrite bind_Ret; [|exact Hold]. by rewrite restore_masked.
Qed.

Lemma list_remove_ok s A p e q B :
  chain (ram s) (A ++ p :: e :: q :: B) -> separate (A ++ p :: e :: q :: B) ->
  Forall (node_ok (ram s)) (A ++ p :: e :: q :: B) ->
  list_remove e s = Ret (tt, set_ram (unlink_mem (ram s) p q) s).
Proof.
  intros Hc Hs Hok.
  pose proof (chain_link _ _ _ _ _ Hc) as [Hpn Hep].
  assert (link (ram s) e q) as [Hen Hqe].
  { apply (chain_link _ (A ++ [p]) _ _ B). by rewrite <- app_assoc. }
  apply separate_app in Hs as (_ & (Hpq & Heq & _) & _). rewrite Forall_forall in Hpq, Heq, Hok.
  assert (apart p e) as Hape by (apply Hpq; left).
  assert (node_ok (ram s) p) as Hp by (apply Hok, elem_of_app; right; left).
  assert (node_ok (ram s) e) as He by (apply Hok, elem_of_app; right; right; left).
  assert (node_ok (ram s) q) as Hq by (apply Hok, elem_of_app; do 3 right; left).
  pose proof (node_words _ _ Hp) as [_ Hwp]. pose proof (node_words _ _ Hq) as [Hwq _].
  unfold list_remove, prev_of. rewrite (bind_Ret _ _ _ _ _ (DisableInt_ok s)).
  rewrite (next_of_node _ _ He).
  rewrite (bind_Ret _ _ _ p (masked s)) by by apply ld32_ok.
  rewrite (bind_Ret _ _ _ q (masked s)) by by apply ld32_ok.
  rewrite (next_of_node _ _ Hp).
  erewrite bind_Ret; [|by apply st32_ok].
  erewrite bind_Ret; [|apply ld32_ok; cbn [ram set_ram masked set_eflags]; words; exact Hen].
  erewrite bind_Ret; [|apply ld32_ok; cbn [ram set_ram masked set_eflags]; words; exact Hep].
  erewrite bind_Ret; [|apply st32_ok; by apply is_word_setw].
  destruct (SetIntStatus_ok (eflags s) (set_ram (unlink_mem (ram s) p q) (masked s)) eq_refl)
    as [old Hold].
  erewrite bind_Ret; [|exact Hold]. by rewrite restore_masked.
Qed.

(** ** Lists as wholes *)

Lemma nodes_app l xs ys : nodes l (xs ++ ys) = (l :: xs) ++ ys ++ [l + 8].
Proof. unfold nodes. by rewrite <- app_assoc. Qed.

Lemma separate_NoDup ns : separate ns -> NoDup ns.
Proof.
  induction ns as [|a ns IH]; [constructor|]. intros [Ha Hs]. constructor; [|by apply IH].
  intros Hin. rewrite Forall_forall in Ha. specialize (Ha _ Hin). unfold apart in Ha. lia.
Qed.

Lemma dll_node m l xs n : dll m l xs -> n ∈ nodes l xs -> node_ok m n.
Proof. intros (_ & _ & Hok & _). by rewrite Forall_forall in Hok; apply Hok. Qed.

Lemma dll_list m l xs : dll m l xs -> 0 < l /\ l + 16 < 2 ^ 32 /\ tail_of l = l + 8.
Proof.
  intros Hd. destruct (dll_node _ _ _ l Hd) as (? & ? & _); [left|].
  destruct (dll_node _ _ _ (l + 8) Hd) as (? & ? & _).
  { right. apply elem_of_app. right. left. }
  split_and!; [done|lia|]. apply u32_id. lia.
Qed.

(** A store outside the two sentinel words keeps them. *)
Lemma insert_mem_out m p e q a :
  ~ in_nodes [e; p; q] a -> insert_mem m p e q !! a = m !! a.
Proof.
  intros H. assert (forall n, n ∈ [e; p; q] -> a < n \/ n + 8 <= a) as Ha.
  { intros n Hn. destruct (decide (a < n \/ n + 8 <= a)); [done|].
    exfalso. apply H. exists n. split; [done|lia]. }
  pose proof (Ha e ltac:(left)). pose proof (Ha p ltac:(right; left)).
  pose proof (Ha q ltac:(right; right; left)).
  unfold insert_mem. rewrite !setw_lookup_out by lia. done.
Qed.

Lemma unlink_mem_out m p q a : ~ in_nodes [p; q] a -> unlink_mem m p q !! a = m !! a.
Proof.
  intros H. assert (forall n, n ∈ [p; q] -> a < n \/ n + 8 <= a) as Ha.
  { intros n Hn. destruct (decide (a < n \/ n + 8 <= a)); [done|].
    exfalso. apply H. exists n. split; [done|lia]. }
  pose proof (Ha p ltac:(left)). pose proof (Ha q ltac:(right; left)).
  unfold unlink_mem. rewrite !setw_lookup_out by lia. done.
Qed.

Lemma in_nodes_mono ns ns' a : (forall n, n ∈ ns -> n ∈ ns') -> in_nodes ns a -> in_nodes ns' a.
Proof. intros H (n & Hn & Ha). exists n. auto. Qed.

(** Inserting between two neighbours of a list, wherever they are. *)
Lemma dll_insert s l xs ys p q A B e :
  dll (ram s) l (xs ++ ys) -> fresh_node (ram s) l (xs ++ ys) e ->
  l :: xs = A ++ [p] -> ys ++ [l + 8] = q :: B ->
  let m' := insert_mem (ram s) p e q in
  list_insert_before q e s = Ret (tt, set_ram m' s) /\ dll m' l (xs ++ e :: ys) /\
  same_outside (in_nodes (e :: nodes l (xs ++ ys))) (ram s) m'.
Proof.
  intros (Hc & Hs & Hok & Hh & Ht) (He & Hae) HA HB m'.
  assert (nodes l (xs ++ ys) = A ++ p :: q :: B) as E.
  { rewrite nodes_app, HB, HA, <- app_assoc. done. }
  assert (nodes l (xs ++ e :: ys) = A ++ p :: e :: q :: B) as E'.
  { rewrite nodes_app. cbn [app]. rewrite HB.
    change (l :: xs ++ e :: q :: B) with ((l :: xs) ++ e :: q :: B). by rewrite HA, <- app_assoc. }
  assert (l = p \/ apart l p) as Hlp.
  { destruct A as [|a A]; cbn in HA; injection HA as -> HA; [by left|right].
    destruct Hs as [Hl _]. rewrite Forall_forall in Hl. apply Hl, elem_of_app. left.
    apply elem_of_app. left. rewrite HA. apply elem_of_app. right. left. }
  assert (apart l q) as Hlq.
  { destruct Hs as [Hl _]. rewrite Forall_forall in Hl. apply Hl. rewrite <- app_assoc, HB.
    apply elem_of_app. right. left. }
  assert (apart p (l + 8) /\ (q = l + 8 \/ apart q (l + 8))) as [Hpt Hqt].
  { rewrite nodes_app, separate_app in Hs. destruct Hs as (_ & Hys & Hall). split.
    - apply Hall; [rewrite HA|]; apply elem_of_app; right; left.
    - destruct ys as [|y ys]; cbn in HB; injection HB as -> HB; [by left|right].
      destruct Hys as [Hy _]. rewrite Forall_forall in Hy. apply Hy, elem_of_app. right. left. }
  rewrite E in Hc, Hs, Hok, Hae. rewrite Forall_forall in Hok, Hae.
  assert (forall n, n ∈ [e; p; q] -> n ∈ e :: A ++ p :: q :: B) as Hsub.
  { intros n Hn. apply elem_of_cons in Hn as [->|Hn]; [left|]. right. apply elem_of_app. right.
    apply elem_of_cons in Hn as [->|Hn]; [left|]. right.
    apply elem_of_cons in Hn as [->|Hn]; [left|]. by apply not_elem_of_nil in Hn. }
  assert (l ∈ A ++ p :: q :: B) as Hl by (rewrite <- E; left).
  assert (l + 8 ∈ A ++ p :: q :: B) as Hl8.
  { rewrite <- E. right. apply elem_of_app. right. left. }
  split_and!.
  - apply (list_insert_before_ok s A p e q B); try done; by apply Forall_forall.
  - assert (node_ok (ram s) p) as (? & ? & _) by (apply Hok, elem_of_app; right; left).
    assert (node_ok (ram s) q) as (? & ? & _) by (apply Hok, elem_of_app; right; right; left).
    pose proof He as (? & ? & _).
    unfold dll. rewrite E'. split_and!.
    + apply chain_insert; try lia; try done. by apply Forall_forall.
    + apply separate_app in Hs as (HsA & Hs & HAB). cbn [separate] in Hs.
      destruct Hs as (Hp & Hq & HsB). rewrite Forall_forall in Hp, Hq.
      apply separate_app. split_and!; [done| |].
      * cbn [separate]. split_and!; try (by apply Forall_forall); try done.
        -- apply Forall_forall. intros n [->|Hn]%elem_of_cons; [|by apply Hp].
           apply apart_sym, Hae, elem_of_app. right. left.
        -- apply Forall_forall. intros n Hn. apply Hae, elem_of_app. right. by right.
      * intros a b Ha [->|Hb]%elem_of_cons; [apply HAB; [done|left]|].
        apply elem_of_cons in Hb as [->|Hb]; [|apply HAB; [done|by right]].
        apply apart_sym, Hae, elem_of_app. by left.
    + apply Forall_forall. intros n Hn.
      assert (node_ok (ram s) n) as Hn'.
      { apply elem_of_app in Hn as [Hn|Hn]; [apply Hok, elem_of_app; by left|].
        apply elem_of_cons in Hn as [->|Hn]; [apply Hok, elem_of_app; right; left|].
        apply elem_of_cons in Hn as [->|Hn]; [done|]. apply Hok, elem_of_app. right. by right. }
      unfold m', insert_mem. by repeat apply node_ok_setw.
    + assert (apart e l) by by apply Hae. unfold m', insert_mem.
      destruct Hlp as [<-|]; words; done.
    + assert (apart e (l + 8)) by by apply Hae. unfold m', insert_mem.
      destruct Hqt as [->|]; words; done.
  - rewrite E. intros a Ha. apply insert_mem_out. intros Hin. by apply Ha, (in_nodes_mono [e; p; q]).
Qed.

(** Unlinking an element of a list. *)
Lemma dll_unlink s l xs e ys p q A B :
  dll (ram s) l (xs ++ e :: ys) -> l :: xs = A ++ [p] -> ys ++ [l + 8] = q :: B ->
  let m' := unlink_mem (ram s) p q in
  list_remove e s = Ret (tt, set_ram m' s) /\ dll m' l (xs ++ ys) /\
  same_outside (in_nodes (nodes l (xs ++ e :: ys))) (ram s) m'.
Proof.
  intros (Hc & Hs & Hok & Hh & Ht) HA HB m'.
  assert (nodes l (xs ++ ys) = A ++ p :: q :: B) as E'.
  { rewrite nodes_app, HB, HA, <- app_assoc. done. }
  assert (nodes l (xs ++ e :: ys) = A ++ p :: e :: q :: B) as E.
  { rewrite nodes_app. cbn [app]. rewrite HB.
    change (l :: xs ++ e :: q :: B) with ((l :: xs) ++ e :: q :: B). by rewrite HA, <- app_assoc. }
  assert (l = p \/ apart l p) as Hlp.
  { destruct A as [|a A]; cbn in HA; injection HA as -> HA; [by left|right].
    destruct Hs as [Hl _]. rewrite Forall_forall in Hl. apply Hl, elem_of_app. left.
    apply elem_of_app. left. rewrite HA. apply elem_of_app. right. left. }
  assert (apart l q) as Hlq.
  { destruct Hs as [Hl _]. rewrite Forall_forall in Hl. apply Hl.
    rewrite <- app_assoc. cbn [app]. rewrite HB. apply elem_of_app. right. right. left. }
  assert (apart p (l + 8) /\ (q = l + 8 \/ apart q (l + 8))) as [Hpt Hqt].
  { rewrite nodes_app, separate_app in Hs. destruct Hs as (_ & [_ Hys] & Hall). split.
    - apply Hall; [rewrite HA; apply elem_of_app; right; left|apply elem_of_app; right; left].
    - destruct ys as [|y ys]; cbn in HB; injection HB as -> HB; [by left|right].
      destruct Hys as [Hy _]. rewrite Forall_forall in Hy. apply Hy, elem_of_app. right. left. }
  rewrite E in Hc, Hs, Hok. pose proof Hok as Hok'. rewrite Forall_forall in Hok'.
  split_and!.
  - by apply (list_remove_ok s A p e q B).
  - assert (node_ok (ram s) p) as (? & ? & _) by (apply Hok', elem_of_app; right; left).
    assert (node_ok (ram s) q) as (? & ? & _) by (apply Hok', elem_of_app; do 3 right; left).
    unfold dll. rewrite E'. split_and!.
    + by apply (chain_unlink _ A p e q B); try lia.
    + apply separate_app in Hs as (HsA & (Hp & _ & Hqs) & HAB).
      apply separate_app. split_and!; [done|split; [by inversion Hp|done]|].
      intros a b Ha [->|Hb]%elem_of_cons; apply HAB; try done; [left|do 2 right; done].
    + apply Forall_forall. intros n Hn. unfold m', unlink_mem. apply node_ok_setw, node_ok_setw, Hok'.
      apply elem_of_app in Hn as [Hn|Hn]; apply elem_of_app; [by left|right].
      apply elem_of_cons in Hn as [->|Hn]; [left|by do 2 right].
    + unfold m', unlink_mem. destruct Hlp as [<-|]; words; done.
    + unfold m', unlink_mem. destruct Hqt as [->|]; words; done.
  - rewrite E. intros a Ha. apply unlink_mem_out. intros Hin. apply Ha.
    apply (in_nodes_mono [p; q]); [|done]. intros n Hn. apply elem_of_app. right.
    apply elem_of_cons in Hn as [->|Hn]; [left|]. do 2 right.
    apply elem_of_cons in Hn as [->|Hn]; [left|]. by apply not_elem_of_nil in Hn.
Qed.

(** The node after the sentinel or element in front of [rest]. *)
Definition first_of (l : Z) (rest : list Z) : Z := match rest with [] => l + 8 | x :: _ => x end.

Lemma first_of_cons l rest : exists B, rest ++ [l + 8] = first_of l rest :: B.
Proof. destruct rest; eexists; reflexivity. Qed.

Lemma dll_first m l xs : dll m l xs -> word m (l + 4) = Some (first_of l xs).
Proof.
  intros (Hc & _). destruct (first_of_cons l xs) as [B HB]. unfold nodes in Hc. rewrite HB in Hc.
  by apply (chain_link _ []) in Hc as [? _].
Qed.

Lemma dll_next m l xs x ys : dll m l (xs ++ x :: ys) -> word m (x + 4) = Some (first_of l ys).
Proof.
  intros (Hc & _). destruct (first_of_cons l ys) as [B HB]. rewrite nodes_app in Hc.
  cbn [app] in Hc. rewrite HB in Hc. by apply (chain_link _ (l :: xs)) in Hc as [? _].
Qed.

Lemma dll_elem m l xs x : dll m l xs -> x ∈ xs -> node_ok m x /\ x <> l + 8 /\ x <> 0.
Proof.
  intros Hd Hx. assert (node_ok m x) as Hok.
  { eapply dll_node; [done|]. right. apply elem_of_app. by left. }
  split_and!; [done| |destruct Hok; lia]. intros ->.
  destruct Hd as (_ & [_ Hs] & _). apply separate_app in Hs as (_ & _ & Hs).
  specialize (Hs (l + 8) (l + 8) Hx ltac:(left)). unfold apart in Hs. lia.
Qed.

Lemma list_first_ok s l xs : dll (ram s) l xs ->
  ld32 (next_of (head_of l)) s = Ret (first_of l xs, s).
Proof.
  intros Hd. unfold head_of. rewrite (next_of_node (ram s)) by (eapply dll_node; [done|left]).
  apply ld32_ok. by apply dll_first.
Qed.

Lemma elem_find_loop s l obj rest : forall fuel done,
  dll (ram s) l (done ++ rest) -> (length rest < fuel)%nat ->
  iter fuel (elem_find_body l obj) (first_of l rest) s = Ret (c_bool (bool_decide (obj ∈ rest)), s).
Proof.
  induction rest as [|x rest IH]; intros [|fuel] dn Hd Hf; cbn in Hf; try lia;
    pose proof (dll_list _ _ _ Hd) as (_ & _ & Ht).
  - erewrite iter_S with (x := inr 0); [reflexivity|]. unfold elem_find_body. cbn [first_of].
    by rewrite Ht, Z.eqb_refl.
  - destruct (dll_elem _ _ _ x Hd) as (Hok & Hx & Hx0); [apply elem_of_app; right; left|].
    cbn [first_of]. assert (elem_find_body l obj x s =
      Ret (if x =? obj then inr 1 else inl (first_of l rest), s)) as Hb.
    { unfold elem_find_body. rewrite Ht. replace (x =? l + 8) with false by lia.
      rewrite (bind_Ret _ _ s tt s) by (apply ASSERT_true; lia).
      destruct (x =? obj); [done|]. rewrite (next_of_node _ _ Hok).
      by rewrite (bind_Ret _ _ _ _ _ (ld32_ok _ _ _ (dll_next _ _ _ _ _ Hd))). }
    erewrite iter_S by exact Hb. destruct (Z.eqb_spec x obj) as [->|Hne].
    + rewrite bool_decide_true by left. done.
    + rewrite (IH _ (dn ++ [x])) by (rewrite <- ?app_assoc; (done || lia)).
      do 3 f_equal. apply bool_decide_ext. rewrite elem_of_cons. naive_solver.
Qed.

Lemma elem_find_ok s l obj xs fuel :
  dll (ram s) l xs -> (length xs < fuel)%nat ->
  elem_find fuel l obj s = Ret (c_bool (bool_decide (obj ∈ xs)), s).
Proof.
  intros Hd Hf. unfold elem_find. rewrite (bind_Ret _ _ _ _ _ (list_first_ok _ _ _ Hd)).
  by apply (elem_find_loop s l obj xs fuel []).
Qed.

Lemma list_len_loop s l rest : forall fuel done k,
  dll (ram s) l (done ++ rest) -> (length rest < fuel)%nat ->
  iter fuel (list_len_body l) (first_of l rest, u32 k) s = Ret (u32 (k + Z.of_nat (length rest)), s).
Proof.
  induction rest as [|x rest IH]; intros [|fuel] dn k Hd Hf; cbn in Hf; try lia;
    pose proof (dll_list _ _ _ Hd) as (_ & _ & Ht).
  - erewrite iter_S with (x := inr (u32 k)); [cbn; by rewrite Z.add_0_r|].
    unfold list_len_body. cbn [first_of]. by rewrite Ht, Z.eqb_refl.
  - destruct (dll_elem _ _ _ x Hd) as (Hok & Hx & Hx0); [apply elem_of_app; right; left|].
    cbn [first_of]. erewrite iter_S with (x := inl (first_of l rest, u32 (k + 1))).
    + rewrite (IH _ (dn ++ [x])) by (rewrite <- ?app_assoc; (done || lia)).
      do 3 f_equal. cbn [length]. lia.
    + unfold list_len_body. rewrite Ht. replace (x =? l + 8) with false by lia.
      rewrite (next_of_node _ _ Hok), (bind_Ret _ _ _ _ _ (ld32_ok _ _ _ (dll_next _ _ _ _ _ Hd))).
      unfold ret. do 4 f_equal. unfold u32. by rewrite Zplus_mod_idemp_l.
Qed.

Lemma list_len_ok s l xs fuel :
  dll (ram s) l xs -> (length xs < fuel)%nat ->
  list_len fuel l s = Ret (u32 (Z.of_nat (length xs)), s).
Proof.
  intros Hd Hf. unfold list_len. rewrite (bind_Ret _ _ _ _ _ (list_first_ok _ _ _ Hd)).
  exact (list_len_loop s l xs fuel [] 0 Hd Hf).
Qed.

Lemma list_empty_ok s l xs :
  dll (ram s) l xs -> list_empty l s = Ret (c_bool (bool_decide (xs = [])), s).
Proof.
  intros Hd. unfold list_empty. rewrite (bind_Ret _ _ _ _ _ (list_first_ok _ _ _ Hd)).
  pose proof (dll_list _ _ _ Hd) as (_ & _ & ->). unfold ret. do 3 f_equal.
  destruct xs as [|x xs]; cbn [first_of]; [by rewrite Z.eqb_refl|].
  destruct (dll_elem _ _ _ x Hd) as (_ & Hx & _); [left|].
  rewrite bool_decide_false by done. lia.
Qed.

Lemma list_append_ok s l xs e :
  dll (ram s) l xs -> fresh_node (ram s) l xs e ->
  exists m', list_append l e s = Ret (tt, set_ram m' s) /\ dll m' l (xs ++ [e]) /\
    same_outside (in_nodes (e :: nodes l xs)) (ram s) m' /\ stored (ram s) m'.
Proof.
  intros Hd Hf. destruct (exists_last (l := l :: xs)) as (A & p & HA); [done|].
  eexists. unfold list_append. pose proof (dll_list _ _ _ Hd) as (_ & _ & ->).
  pose proof (dll_insert s l xs [] p (l + 8) A [] e) as H. rewrite !app_nil_r in H.
  destruct (H Hd Hf HA eq_refl) as (H1 & H2 & H3). split_and!; [exact H1|exact H2|exact H3|apply stored_insert_mem].
Qed.

Lemma list_push_ok s l xs e :
  dll (ram s) l xs -> fresh_node (ram s) l xs e ->
  exists m', list_push l e s = Ret (tt, set_ram m' s) /\ dll m' l (e :: xs) /\
    same_outside (in_nodes (e :: nodes l xs)) (ram s) m' /\ stored (ram s) m'.
Proof.
  intros Hd Hf. destruct (first_of_cons l xs) as [B HB].
  eexists. unfold list_push. rewrite (bind_Ret _ _ _ _ _ (list_first_ok _ _ _ Hd)).
  destruct (dll_insert s l [] xs l (first_of l xs) [] B e Hd Hf eq_refl HB) as (H1 & H2 & H3).
  split_and!; [exact H1|exact H2|exact H3|apply stored_insert_mem].
Qed.

Lemma list_remove_elem s l xs e ys :
  dll (ram s) l (xs ++ e :: ys) ->
  exists m', list_remove e s = Ret (tt, set_ram m' s) /\ dll m' l (xs ++ ys) /\
    same_outside (in_nodes (nodes l (xs ++ e :: ys))) (ram s) m' /\ stored (ram s) m'.
Proof.
  intros Hd. destruct (exists_last (l := l :: xs)) as (A & p & HA); [done|].
  destruct (first_of_cons l ys) as [B HB]. eexists.
  destruct (dll_unlink s l xs e ys p (first_of l ys) A B Hd HA HB) as (H1 & H2 & H3).
  split_and!; [exact H1|exact H2|exact H3|apply stored_unlink_mem].
Qed.

Lemma filter_ne_id (e : Z) (xs : list Z) : e ∉ xs -> filter (fun x => x <> e) xs = xs.
Proof. intros H. apply filter_all. congruence. Qed.

Lemma dll_NoDup m l xs : dll m l xs -> NoDup xs.
Proof.
  intros (_ & Hs & _). apply separate_NoDup in Hs. apply NoDup_cons in Hs as [_ Hs].
  by apply NoDup_app in Hs as [? _].
Qed.

Lemma list_remove_in s l xs e : dll (ram s) l xs -> e ∈ xs ->
  exists m', list_remove e s = Ret (tt, set_ram m' s) /\ dll m' l (filter (fun x => x <> e) xs) /\
    same_outside (in_nodes (nodes l xs)) (ram s) m' /\ stored (ram s) m'.
Proof.
  intros Hd Hin. pose proof (dll_NoDup _ _ _ Hd) as Hnd. apply list_elem_of_split in Hin as (l1 & l2 & ->).
  destruct (list_remove_elem s l l1 e l2 Hd) as (m' & H1 & H2 & H3 & H4). exists m'. split_and!; [done| |done|done].
  apply NoDup_app in Hnd as (_ & Hn1 & Hn2). apply NoDup_cons in Hn2 as [Hn2 _].
  rewrite filter_app, filter_cons_False by (intros H; by apply H).
  rewrite !filter_ne_id; [done|done|]. intros Hin. apply (Hn1 _ Hin). left.
Qed.

Lemma list_pop_ok s l x xs : dll (ram s) l (x :: xs) ->
  exists m', list_pop l s = Ret (x, set_ram m' s) /\ dll m' l xs /\
    same_outside (in_nodes (nodes l (x :: xs))) (ram s) m' /\ stored (ram s) m'.
Proof.
  intros Hd. destruct (list_remove_elem s l [] x xs Hd) as (m' & H1 & H2 & H3).
  exists m'. unfold list_pop. rewrite (bind_Ret _ _ _ _ _ (list_first_ok _ _ _ Hd)).
  cbn [first_of]. by rewrite (bind_Ret _ _ _ _ _ H1).
Qed.

(** A list is kept by what does not touch its nodes. *)
Lemma word_same (m m' : gmap Z Z) a : (forall b, a <= b < a + 4 -> m' !! b = m !! b) -> word m' a = word m a.
Proof. intros H. apply word_eq. intros i Hi. apply H. lia. Qed.

Lemma in_nodes_cons x ns a : in_nodes (x :: ns) a <-> x <= a < x + 8 \/ in_nodes ns a.
Proof.
  unfold in_nodes. split.
  - intros (n & Hn & Ha). apply elem_of_cons in Hn as [->|Hn]; [by left|right; eauto].
  - intros [Ha|(n & Hn & Ha)]; [exists x; split; [left|done]|exists n; split; [by right|done]].
Qed.

Lemma chain_same m m' ns : (forall a, in_nodes ns a -> m' !! a = m !! a) -> chain m ns -> chain m' ns.
Proof.
  induction ns as [|p ns IH]; [done|]. intros Hs. destruct ns as [|q ns]; [done|].
  intros [[H1 H2] Hc]. split.
  - split; [rewrite <- H1|rewrite <- H2]; apply word_same; intros b Hb; apply Hs.
    + apply in_nodes_cons. left. lia.
    + apply in_nodes_cons. right. apply in_nodes_cons. left. lia.
  - apply IH; [|done]. intros a Ha. apply Hs. apply in_nodes_cons. by right.
Qed.

Lemma dll_same m m' l xs : dll m l xs -> (forall a, in_nodes (nodes l xs) a -> m' !! a = m !! a) -> dll m' l xs.
Proof.
  intros (Hc & Hs & Hok & H0 & H1) Hsame.
  assert (forall a, l <= a < l + 8 \/ l + 8 <= a < l + 16 -> m' !! a = m !! a) as Hst.
  { intros a Ha. apply Hsame. destruct Ha.
    - exists l. split; [left|lia].
    - exists (l + 8). split; [right; apply elem_of_app; right; left|lia]. }
  split_and!; [by eapply chain_same|done| | |].
  - rewrite Forall_forall in Hok |- *. intros n Hn. destruct (Hok n Hn) as (A & B & C). split_and!; [done|done|].
    intros a Ha. rewrite Hsame by (exists n; done). by apply C.
  - rewrite <- H0. apply word_same. intros b Hb. apply Hst. lia.
  - rewrite <- H1. apply word_same. intros b Hb. apply Hst. lia.
Qed.

(** C39: refinement of sequences: every function of list.c, run on a list in memory that holds the
    sequence [xs], terminates, returns what the operation on sequences returns, leaves a
    well-formed list holding the new sequence, restores the interrupt flag, and writes only the
    nodes of the list (and the node it links in). *)
Theorem list_refines s l xs op xs' r fuel :
  dll (ram s) l xs -> op_ok (ram s) l xs op -> (length xs < fuel)%nat ->
  seq_op xs op = Some (xs', r) ->
  exists m', run_op fuel l op s = Ret (r, set_ram m' s) /\ dll m' l xs' /\
    same_outside (in_nodes (op_nodes l xs op)) (ram s) m'.
Proof.
  intros Hd Hop Hf Hseq. destruct op; cbn [seq_op run_op op_nodes op_ok] in *.
  - injection Hseq as <- <-. destruct (list_push_ok _ _ _ _ Hd Hop) as (m' & H1 & H2 & H3 & _).
    exists m'. by rewrite (bind_Ret _ _ _ _ _ H1).
  - injection Hseq as <- <-. destruct (list_append_ok _ _ _ _ Hd Hop) as (m' & H1 & H2 & H3 & _).
    exists m'. by rewrite (bind_Ret _ _ _ _ _ H1).
  - destruct xs as [|x xs]; [done|]. injection Hseq as <- <-. destruct (list_pop_ok s l x xs Hd) as (m' & H1 & H2 & H3 & _).
    by exists m'.
  - case_bool_decide as Hin; [|done]. injection Hseq as <- <-.
    destruct (list_remove_in s l xs e Hd Hin) as (m' & H1 & H2 & H3 & _).
    exists m'. by rewrite (bind_Ret _ _ _ _ _ H1).
  - injection Hseq as <- <-. exists (ram s). rewrite set_ram_id.
    split_and!; [by apply elem_find_ok|done|by intros ? ?].
  - injection Hseq as <- <-. exists (ram s). rewrite set_ram_id.
    split_and!; [by apply list_len_ok|done|by intros ? ?].
  - injection Hseq as <- <-. exists (ram s). rewrite set_ram_id.
    split_and!; [by apply list_empty_ok|done|by intros ? ?].
Qed.

(** ** Making and traversing a list *)

Definition init_mem (m : gmap Z Z) (l : Z) : gmap Z Z :=
  setw (setw (setw (setw m l 0) (l + 4) (l + 8)) (l + 8) l) (l + 12) 0.

Lemma list_init_ok s l :
  0 < l -> l + 16 < 2 ^ 32 -> readable (ram s) l 16 ->
  exists m', list_init l s = Ret (tt, set_ram m' s) /\ dll m' l [] /\
    same_outside (fun a => l <= a < l + 16) (ram s) m' /\ stored (ram s) m'.
Proof.
  intros Hl Hl2 Hr. exists (init_mem (ram s) l).
  assert (is_Some (word (ram s) l) /\ is_Some (word (ram s) (l + 4)) /\
          is_Some (word (ram s) (l + 8)) /\ is_Some (word (ram s) (l + 12))) as (H0 & H4 & H8 & H12)
    by (split_and!; apply word_readable; eapply readable_le; (done || lia)).
  unfold list_init, next_of, prev_of, head_of, tail_of.
  rewrite !(u32_id (l + 8)), (u32_id (l + 4)), (u32_id (l + 8 + 4)) by lia.
  replace (l + 8 + 4) with (l + 12) by lia. split_and!.
  - erewrite bind_Ret; [|by apply st32_ok].
    erewrite bind_Ret; [|apply st32_ok; cbn [ram set_ram]; by apply is_word_setw].
    erewrite bind_Ret; [|apply st32_ok; cbn [ram set_ram]; by repeat apply is_word_setw].
    rewrite st32_ok; [done|]. cbn [ram set_ram]. by repeat apply is_word_setw.
  - unfold dll, nodes, link, init_mem. cbn [app chain separate]. unfold link. split_and!; try done.
    + rewrite !word_setw_ne by lia. apply word_setw_eq. lia.
    + rewrite word_setw_ne by lia. apply word_setw_eq. lia.
    + constructor; [|constructor]. left. lia.
    + repeat constructor; try lia;
        do 4 apply setw_readable; (eapply readable_le; [exact Hr|lia|lia]).
    + rewrite !word_setw_ne by lia. apply word_setw_eq. lia.
    + apply word_setw_eq. lia.
  - intros a Ha. unfold init_mem. by rewrite !setw_lookup_out by lia.
  - unfold init_mem. do 3 (eapply stored_trans; [|apply stored_setw]). apply stored_setw.
Qed.

(** [list_init] turns any sixteen bytes of memory into a well-formed empty list and writes
    nothing else. *)
Theorem list_init_correct s l :
  0 < l -> l + 16 < 2 ^ 32 -> readable (ram s) l 16 ->
  exists m', list_init l s = Ret (tt, set_ram m' s) /\ dll m' l [] /\
    same_outside (fun a => l <= a < l + 16) (ram s) m'.
Proof.
  intros Hl Hl2 Hr. destruct (list_init_ok s l Hl Hl2 Hr) as (m' & H1 & H2 & H3 & _). by exists m'.
Qed.

(** The first element of a sequence on which a pure test is not zero; 0 is "none". *)
Fixpoint first_hit (f : Z -> Z) (xs : list Z) : Z :=
  match xs with [] => 0 | x :: r => if is_true_c (f x) then x else first_hit f r end.

Lemma traversal_loop s l (func : Z -> Z -> M machine Z) arg f rest : forall fuel seen,
  (forall x, func x arg s = Ret (f x, s)) ->
  dll (ram s) l (seen ++ rest) -> (length rest < fuel)%nat ->
  iter fuel (traversal_body l func arg) (first_of l rest) s = Ret (first_hit f rest, s).
Proof.
  induction rest as [|x rest IH]; intros [|fuel] seen Hf Hd Hlt; cbn in Hlt; try lia;
    pose proof (dll_list _ _ _ Hd) as (_ & _ & Ht).
  - erewrite iter_S with (x := inr 0); [reflexivity|]. unfold traversal_body. cbn [first_of].
    by rewrite Ht, Z.eqb_refl.
  - destruct (dll_elem _ _ _ x Hd) as (Hok & Hx & Hx0); [apply elem_of_app; right; left|].
    cbn [first_of first_hit].
    assert (traversal_body l func arg x s =
      Ret (if is_true_c (f x) then inr x else inl (first_of l rest), s)) as Hb.
    { unfold traversal_body. rewrite Ht. replace (x =? l + 8) with false by lia.
      rewrite (bind_Ret _ _ _ _ _ (Hf x)). destruct (is_true_c (f x)); [done|].
      rewrite (next_of_node _ _ Hok).
      by rewrite (bind_Ret _ _ _ _ _ (ld32_ok _ _ _ (dll_next _ _ _ _ _ Hd))). }
    erewrite iter_S by exact Hb. destruct (is_true_c (f x)); [done|].
    by rewrite (IH _ (seen ++ [x])) by (rewrite <- ?app_assoc; (done || lia)).
Qed.

(** [list_traversal] with a callback that only reads returns the first element the callback
    accepts (NULL when there is none) and terminates within one round per element. *)
Theorem list_traversal_correct s l xs (func : Z -> Z -> M machine Z) arg f fuel :
  dll (ram s) l xs -> (forall x, func x arg s = Ret (f x, s)) -> (length xs < fuel)%nat ->
  list_traversal fuel l func arg s = Ret (first_hit f xs, s).
Proof.
  intros Hd Hf Hlt. unfold list_traversal.
  rewrite (bind_Ret _ _ _ _ _ (list_first_ok _ _ _ Hd)).
  rewrite (bind_Ret _ _ _ _ _ (list_empty_ok _ _ _ Hd)).
  destruct xs as [|x xs]; [done|]. rewrite bool_decide_false by done. cbn [is_true_c c_bool Z.eqb negb].
  by apply (traversal_loop s l func arg f (x :: xs) fuel []).
Qed.

(** ** Examples *)
Section examples.

(** A machine with 64 bytes of memory at 4096 and an empty list in its first sixteen bytes. *)
Definition list_demo : machine :=
  Machine (init_mem (write_bytes ∅ 4096 (repeat 0 64)) 4096) 514 [] [].

Definition list_demo2 : machine :=
  Machine (insert_mem (ram list_demo) 4096 4120 4104) 514 [] [].

Lemma demo_readable : readable (write_bytes ∅ 4096 (repeat 0 64)) 4096 64.
Proof. exact (write_bytes_region _ _ (repeat 0 64)). Qed.

Lemma list_demo_dll : dll (ram list_demo) 4096 [].
Proof.
  unfold list_demo, dll, nodes. cbn [ram app chain separate]. split_and!; try done.
  - constructor; [|constructor]. left. lia.
  - repeat constructor; try lia; unfold init_mem; do 4 apply setw_readable;
      (eapply readable_le; [exact demo_readable|lia|lia]).
Qed.

Lemma list_demo_fresh : fresh_node (ram list_demo) 4096 [] 4120.
Proof.
  split.
  - split_and!; try lia. unfold list_demo, init_mem. cbn [ram]. do 4 apply setw_readable.
    eapply readable_le; [exact demo_readable|lia|lia].
  - repeat constructor; unfold apart; lia.
Qed.

Lemma list_demo2_dll : dll (ram list_demo2) 4096 [4120].
Proof.
  eapply (dll_insert list_demo 4096 [] [] 4096 4104 [] [] 4120);
    [exact list_demo_dll|exact list_demo_fresh|reflexivity|reflexivity].
Qed.

Lemma list_init_correct_witness :
  exists m', list_init 4096 (Machine (write_bytes ∅ 4096 (repeat 0 64)) 514 [] []) =
    Ret (tt, Machine m' 514 [] []) /\ dll m' 4096 [].
Proof.
  destruct (list_init_correct (Machine (write_bytes ∅ 4096 (repeat 0 64)) 514 [] []) 4096)
    as (m' & H & Hd & _); [lia|lia| |].
  - eapply readable_le; [exact demo_readable|lia|lia].
  - by exists m'.
Defined.

Lemma list_refines_witness :
  exists m', run_op 5 4096 (Append 4120) list_demo = Ret (0, set_ram m' list_demo) /\
    dll m' 4096 [4120].
Proof.
  destruct (list_refines list_demo 4096 [] (Append 4120) [4120] 0 5) as (m' & H & Hd & _).
  - exact list_demo_dll.
  - exact list_demo_fresh.
  - cbn. lia.
  - reflexivity.
  - by exists m'.
Defined.

Lemma list_traversal_correct_witness :
  list_traversal 5 4096 (fun x _ => ret (c_bool (x =? 4120))) 0 list_demo2 = Ret (4120, list_demo2).
Proof.
  rewrite (list_traversal_correct list_demo2 4096 [4120] _ 0 (fun x => c_bool (x =? 4120)) 5).
  - reflexivity.
  - exact list_demo2_dll.
  - done.
  - cbn. lia.
Defined.

End examples.
