(* ===== verification/Paging.v ===== *)
(** * kernel/memory.c: page table pointers, and the translation the MMU makes of them

    [paging] is physical memory as far as page tables live in it, [cr3], and the linear addresses
    [invlpg] was executed for.  [translate] is the two-level walk of the processor; the loads and
    stores of this file go through it, as the code's own accesses to the window at 0xFFC00000 do:
    the last entry of every page directory of this kernel points back to the directory. *)
From stdpp Require Import base list gmap strings.
From S2P Require Import Prelude Machine.

Definition PAGE_SIZE : Z := 4096.
Definition PAGE_P_1 : Z := 1.
Definition PAGE_P_0 : Z := 0.
Definition PAGE_RW_RW : Z := 2.
Definition PAGE_US_U : Z := 4.

Definition PTE_IDX (addr : Z) : Z := Z.shiftr (Z.land addr 0x003FF000) 12.
Definition PDE_IDX (addr : Z) : Z := Z.shiftr (Z.land addr 0xFFC00000) 22.

Definition GetPTEPointer (vaddr : Z) : Z :=
  u32 (0xFFC00000 + Z.shiftr (Z.land vaddr 0xFFC00000) 10 + PTE_IDX vaddr * 4).
Definition GetPDEPointer (vaddr : Z) : Z := u32 (0xFFFFF000 + PDE_IDX vaddr * 4).

Record paging := Paging {
  phys : gmap Z Z;
  cr3 : Z;
  invlpgs : list Z
}.

Definition set_phys (m : gmap Z Z) (pg : paging) : paging := Paging m (cr3 pg) (invlpgs pg).
Definition set_cr3 (c : Z) (pg : paging) : paging := Paging (phys pg) c (invlpgs pg).

(** ** The processor's walk *)
Definition frame_of (e : Z) : Z := Z.land e 0xFFFFF000.
Definition is_present (e : Z) : bool := Z.testbit e 0.

(** The entry of the page directory and of the page table for a linear address. *)
Definition pde_at (m : gmap Z Z) (dir i : Z) : option Z := word m (dir + 4 * i).

Definition table_of (m : gmap Z Z) (dir va : Z) : option Z :=
  match word m (dir + 4 * (va / 2 ^ 22)) with
  | Some e => if is_present e then Some (frame_of e) else None
  | None => None
  end.

Definition walk (m : gmap Z Z) (dir va : Z) : option Z :=
  match table_of m dir va with
  | Some t =>
      match word m (t + 4 * (va / 2 ^ 12 mod 2 ^ 10)) with
      | Some e => if is_present e then Some (frame_of e + va mod 2 ^ 12) else None
      | None => None
      end
  | None => None
  end.

Definition translate (pg : paging) (va : Z) : option Z := walk (phys pg) (frame_of (cr3 pg)) va.

(** Loads and stores at linear addresses. *)
Definition vld32 (va : Z) : M paging Z := fun pg =>
  match translate pg va with
  | Some pa => match word (phys pg) pa with Some v => Ret (v, pg) | None => Fault va end
  | None => Fault va
  end.

Definition vst32 (va v : Z) : M paging unit := fun pg =>
  match translate pg va with
  | Some pa =>
      match word (phys pg) pa with
      | Some _ => Ret (tt, set_phys (setw (phys pg) pa v) pg)
      | None => Fault va
      end
  | None => Fault va
  end.

Definition vst8 (va v : Z) : M paging unit := fun pg =>
  match translate pg va with
  | Some pa =>
      match phys pg !! pa with
      | Some _ => Ret (tt, set_phys (<[pa := u8 v]> (phys pg)) pg)
      | None => Fault va
      end
  | None => Fault va
  end.

(** [memset] (lib/string.c) on memory behind the MMU. *)
Definition vmemset_body (value : Z) '((dst_, size) : Z * Z) : M paging (Z * Z + unit) :=
  if size =? 0 then ret (inr tt)
  else vst8 dst_ value ;;; ret (inl (u32 (dst_ + 1), u32 (size - 1))).

Definition vmemset (dst value size : Z) : M paging unit :=
  ASSERT (negb (dst =? 0)) "memset" 7 ;;;
  iter (S (Z.to_nat size)) (vmemset_body value) (dst, size).

Definition VirtualAddrToPhysicAddr (vaddr : Z) : M paging Z :=
  let* e := vld32 (GetPTEPointer vaddr) in
  ret (u32 (Z.land e 0xFFFFF000 + Z.land vaddr 0x00000FFF)).

(** [invlpg] with the memory operand at [a]. *)
Definition invlpg (a : Z) : M paging unit :=
  modify (fun pg => Paging (phys pg) (cr3 pg) (a :: invlpgs pg)).

(** [PageUnmapping]; the operand of [invlpg] is the parameter itself, which lies at [&v_addr] on the
    stack. *)
Definition PageUnmapping (addr_of_v_addr v_addr : Z) : M paging unit :=
  let pte := GetPTEPointer v_addr in
  let* e := vld32 pte in
  vst32 pte (Z.land e PAGE_P_0) ;;;
  invlpg addr_of_v_addr.

(** ** Page directories of this kernel *)

(** The directory at [dir] maps itself through its last entry, and the tables it refers to are
    other pages of physical memory. *)
Definition dir_ok (m : gmap Z Z) (dir : Z) : Prop :=
  ram_ok m /\ 0 < dir /\ dir + 4096 <= 2 ^ 32 /\ dir mod 4096 = 0 /\ readable m dir 4096 /\
  (exists e, pde_at m dir 1023 = Some e /\ is_present e = true /\ frame_of e = dir) /\
  (forall i e, 0 <= i < 1023 -> pde_at m dir i = Some e -> is_present e = true ->
     frame_of e <> dir /\ 0 < frame_of e /\ readable m (frame_of e) 4096).

Definition pg_ok (pg : paging) : Prop := dir_ok (phys pg) (frame_of (cr3 pg)).

(** ** Arithmetic of addresses *)

Lemma land_high n k x : 0 <= n -> 0 <= k -> 0 <= x < 2 ^ (n + k) ->
  Z.land x (2 ^ (n + k) - 2 ^ n) = x - x mod 2 ^ n.
Proof.
  intros Hn Hk Hx.
  replace (2 ^ (n + k) - 2 ^ n) with (Z.shiftl (Z.ones k) n).
  2:{ rewrite Z.shiftl_mul_pow2, Z.ones_equiv, Z.pow_add_r by lia. lia. }
  replace (x - x mod 2 ^ n) with (Z.shiftl (Z.shiftr x n) n).
  2:{ rewrite Z.shiftl_mul_pow2, Z.shiftr_div_pow2 by lia.
      pose proof (Z.div_mod x (2 ^ n) ltac:(lia)). lia. }
  apply Z.bits_inj'. intros i Hi. rewrite Z.land_spec, !Z.shiftl_spec by lia.
  destruct (Z.ltb_spec i n).
  { rewrite !(Z.testbit_neg_r _ (i - n)) by lia. apply andb_false_r. }
  rewrite Z.shiftr_spec by lia. replace (i - n + n) with i by lia.
  destruct (Z.ltb_spec i (n + k)).
  - rewrite Z.ones_spec_low by lia. apply andb_true_r.
  - rewrite <- (Z.mod_small x (2 ^ (n + k))), Z.mod_pow2_bits_high by lia. done.
Qed.

Lemma frame_of_eq e : 0 <= e < 2 ^ 32 -> frame_of e = e - e mod 4096.
Proof. intros. apply (land_high 12 20); lia. Qed.

Lemma page_land p f : p mod 4096 = 0 -> 0 <= f < 4096 -> Z.land p f = 0.
Proof.
  intros Hm Hf. apply Z.bits_inj'. intros i Hi. rewrite Z.land_spec, Z.bits_0.
  destruct (Z.ltb_spec i 12).
  - replace (Z.testbit p i) with false; [done|]. symmetry.
    rewrite <- (Z.mod_pow2_bits_low p 12) by lia. change (2 ^ 12) with 4096.
    rewrite Hm. apply Z.bits_0.
  - rewrite <- (Z.mod_small f (2 ^ 12)), (Z.mod_pow2_bits_high f) by lia. apply andb_false_r.
Qed.

Lemma page_lor p f : p mod 4096 = 0 -> 0 <= f < 4096 -> Z.lor p f = p + f.
Proof.
  intros Hm Hf. pose proof (page_land p f Hm Hf) as E.
  rewrite <- Z.lxor_lor, <- Z.add_nocarry_lxor by done. done.
Qed.

Lemma page_add_mod p f : p mod 4096 = 0 -> 0 <= f < 4096 -> (p + f) mod 4096 = f.
Proof. intros Hm Hf. by rewrite Z.add_mod, Hm, Z.add_0_l, Z.mod_mod, Z.mod_small by lia. Qed.

Lemma page_end p : 0 <= p < 2 ^ 32 -> p mod 4096 = 0 -> p + 4096 <= 2 ^ 32.
Proof. intros. pose proof (Z.div_mod p 4096). lia. Qed.

(** An entry made of a page address and low flag bits. *)
Lemma frame_of_or p f : 0 <= p < 2 ^ 32 -> p mod 4096 = 0 -> 0 <= f < 4096 ->
  frame_of (Z.lor p f) = p.
Proof.
  intros Hp Hm Hf. pose proof (page_end p Hp Hm). rewrite page_lor, frame_of_eq by (done || lia).
  rewrite page_add_mod by done. lia.
Qed.

Lemma is_present_or p f : p mod 4096 = 0 -> 0 <= f < 4096 -> is_present (Z.lor p f) = Z.testbit f 0.
Proof.
  intros Hm Hf. unfold is_present. rewrite Z.lor_spec.
  replace (Z.testbit p 0) with false; [done|]. symmetry.
  rewrite <- (Z.mod_pow2_bits_low p 12) by lia. change (2 ^ 12) with 4096. rewrite Hm. apply Z.bits_0.
Qed.

Lemma frame_of_page e : 0 <= e < 2 ^ 32 ->
  frame_of e mod 4096 = 0 /\ 0 <= frame_of e < 2 ^ 32.
Proof.
  intros He. rewrite frame_of_eq by lia. split; [|pose proof (Z.mod_pos_bound e 4096); lia].
  rewrite Zminus_mod, Z.mod_mod, Z.sub_diag by lia. done.
Qed.

Lemma PDE_IDX_eq va : 0 <= va < 2 ^ 32 -> PDE_IDX va = va / 2 ^ 22.
Proof.
  intros Hva. unfold PDE_IDX. rewrite (land_high 22 10) by lia.
  rewrite Z.shiftr_div_pow2 by lia. rewrite Z.mod_eq by lia.
  replace (va - (va - 2 ^ 22 * (va / 2 ^ 22))) with ((va / 2 ^ 22) * 2 ^ 22) by lia.
  apply Z.div_mul. lia.
Qed.

Lemma PTE_IDX_eq va : 0 <= va < 2 ^ 32 -> PTE_IDX va = va / 2 ^ 12 mod 2 ^ 10.
Proof.
  intros Hva. unfold PTE_IDX. rewrite Z.shiftr_land, Z.shiftr_div_pow2 by lia.
  change (Z.shiftr 0x003FF000 12) with (Z.ones 10). by rewrite Z.land_ones by lia.
Qed.

Lemma pde_idx_range va : 0 <= va < 2 ^ 32 -> 0 <= va / 2 ^ 22 < 1024.
Proof. intros. split; [apply Z.div_pos; lia|apply Z.div_lt_upper_bound; lia]. Qed.

Lemma pde_idx_low va : 0 <= va < 1023 * 2 ^ 22 -> 0 <= va / 2 ^ 22 < 1023.
Proof. intros. split; [apply Z.div_pos; lia|apply Z.div_lt_upper_bound; lia]. Qed.

Lemma pte_idx_range va : 0 <= va / 2 ^ 12 mod 2 ^ 10 < 1024.
Proof. apply Z.mod_pos_bound. lia. Qed.

(** The window: the linear address of an entry, taken apart again. *)
Lemma GetPDEPointer_eq va : 0 <= va < 2 ^ 32 ->
  GetPDEPointer va = 1023 * 2 ^ 22 + 1023 * 2 ^ 12 + 4 * (va / 2 ^ 22).
Proof.
  intros Hva. pose proof (pde_idx_range va Hva). unfold GetPDEPointer.
  rewrite PDE_IDX_eq, u32_id by lia. lia.
Qed.

Lemma GetPTEPointer_eq va : 0 <= va < 2 ^ 32 ->
  GetPTEPointer va = 1023 * 2 ^ 22 + (va / 2 ^ 22) * 2 ^ 12 + 4 * (va / 2 ^ 12 mod 2 ^ 10).
Proof.
  intros Hva. pose proof (pde_idx_range va Hva). pose proof (pte_idx_range va).
  unfold GetPTEPointer. rewrite (land_high 22 10), Z.shiftr_div_pow2 by lia.
  rewrite Z.mod_eq by lia.
  replace (va - (va - 2 ^ 22 * (va / 2 ^ 22))) with ((va / 2 ^ 22) * 2 ^ 12 * 2 ^ 10) by lia.
  rewrite Z.div_mul, PTE_IDX_eq, u32_id by lia. lia.
Qed.

(** Splitting a linear address into its three parts. *)
Lemma linear_parts a b c :
  0 <= b < 1024 -> 0 <= c < 4096 ->
  (a * 2 ^ 22 + b * 2 ^ 12 + c) / 2 ^ 22 = a /\
  (a * 2 ^ 22 + b * 2 ^ 12 + c) / 2 ^ 12 mod 2 ^ 10 = b /\
  (a * 2 ^ 22 + b * 2 ^ 12 + c) mod 2 ^ 12 = c.
Proof.
  intros Hb Hc. split_and!.
  - symmetry. apply Z.div_unique with (b * 2 ^ 12 + c); lia.
  - replace ((a * 2 ^ 22 + b * 2 ^ 12 + c) / 2 ^ 12) with (a * 2 ^ 10 + b).
    + symmetry. apply Z.mod_unique with a; lia.
    + apply Z.div_unique with c; lia.
  - symmetry. apply Z.mod_unique with (a * 2 ^ 10 + b); lia.
Qed.

(** ** The window onto the page tables *)

Lemma word_range m a e : ram_ok m -> word m a = Some e -> 0 <= e < 2 ^ 32.
Proof.
  unfold ram_ok, word. rewrite map_Forall_lookup. intros Hm.
  destruct (m !! a) eqn:H0, (m !! (a + 1)) eqn:H1, (m !! (a + 2)) eqn:H2, (m !! (a + 3)) eqn:H3; try done.
  intros [= <-]. apply Hm in H0, H1, H2, H3. lia.
Qed.

(** A directory whose last entry points back to it shows the table of entry [i] in the [i]-th page
    of the window. *)
Lemma window_walk m dir i e0 e c :
  word m (dir + 4 * 1023) = Some e0 -> is_present e0 = true -> frame_of e0 = dir ->
  word m (dir + 4 * i) = Some e -> is_present e = true -> 0 <= i < 1024 -> 0 <= c < 4096 ->
  walk m dir (1023 * 2 ^ 22 + i * 2 ^ 12 + c) = Some (frame_of e + c).
Proof.
  intros H0 P0 F0 He Pe Hi Hc. destruct (linear_parts 1023 i c) as (E1 & E2 & E3); [lia|lia|].
  unfold walk, table_of. by rewrite E1, E2, E3, H0, P0, F0, He, Pe.
Qed.

Lemma GetPDEPointer_walk m dir va e0 :
  word m (dir + 4 * 1023) = Some e0 -> is_present e0 = true -> frame_of e0 = dir ->
  0 <= va < 2 ^ 32 -> walk m dir (GetPDEPointer va) = Some (dir + 4 * (va / 2 ^ 22)).
Proof.
  intros H0 P0 F0 Hva. pose proof (pde_idx_range va Hva). rewrite GetPDEPointer_eq by done.
  by rewrite (window_walk m dir 1023 e0 e0), F0 by (done || lia).
Qed.

Lemma GetPTEPointer_walk m dir va e0 t :
  word m (dir + 4 * 1023) = Some e0 -> is_present e0 = true -> frame_of e0 = dir ->
  0 <= va < 2 ^ 32 -> table_of m dir va = Some t ->
  walk m dir (GetPTEPointer va) = Some (t + 4 * (va / 2 ^ 12 mod 2 ^ 10)).
Proof.
  intros H0 P0 F0 Hva Ht. pose proof (pde_idx_range va Hva). pose proof (pte_idx_range va).
  rewrite GetPTEPointer_eq by done. unfold table_of in Ht.
  destruct (word m (dir + 4 * (va / 2 ^ 22))) as [e|] eqn:He; [|done].
  destruct (is_present e) eqn:Pe; [|done]. injection Ht as <-.
  by apply (window_walk m dir _ e0 e); [..|lia].
Qed.

Lemma vld32_ok pg va pa v :
  translate pg va = Some pa -> word (phys pg) pa = Some v -> vld32 va pg = Ret (v, pg).
Proof. unfold vld32. by intros -> ->. Qed.

Lemma vst32_ok pg va pa v :
  translate pg va = Some pa -> is_Some (word (phys pg) pa) ->
  vst32 va v pg = Ret (tt, set_phys (setw (phys pg) pa v) pg).
Proof. unfold vst32. by intros -> [? ->]. Qed.

(** The table a linear address below the window is mapped by. *)
Lemma table_of_ok m dir va t :
  dir_ok m dir -> 0 <= va < 1023 * 2 ^ 22 -> table_of m dir va = Some t ->
  t <> dir /\ 0 < t /\ t mod 4096 = 0 /\ t + 4096 <= 2 ^ 32 /\ readable m t 4096.
Proof.
  intros (Hm & _ & _ & _ & _ & _ & Ht) Hva. unfold table_of.
  destruct (word m (dir + 4 * (va / 2 ^ 22))) as [e|] eqn:He; [|done].
  destruct (is_present e) eqn:Pe; [|done]. intros [= <-].
  destruct (Ht (va / 2 ^ 22) e (pde_idx_low va Hva) He Pe) as (? & ? & ?).
  destruct (frame_of_page e) as [Hp Hr]; [by eapply word_range|].
  split_and!; try done. by apply page_end.
Qed.

(** Pages are equal or disjoint. *)
Lemma pages_apart p q : p mod 4096 = 0 -> q mod 4096 = 0 -> p <> q -> p + 4096 <= q \/ q + 4096 <= p.
Proof. intros Hp Hq Hne. pose proof (Z.div_mod p 4096). pose proof (Z.div_mod q 4096). lia. Qed.

(** A store into a table leaves the directory alone ... *)
Lemma setw_table_of m dir t j v va :
  dir mod 4096 = 0 -> t mod 4096 = 0 -> t <> dir -> 0 <= j < 1024 -> 0 <= va < 2 ^ 32 ->
  table_of (setw m (t + 4 * j) v) dir va = table_of m dir va.
Proof.
  intros Hd Ht Hne Hj Hva. pose proof (pde_idx_range va Hva).
  destruct (pages_apart t dir Ht Hd Hne); unfold table_of; by rewrite word_setw_ne by lia.
Qed.

(** ... and changes the translation of exactly the addresses that use the entry. *)
Lemma walk_set_pte m dir t j v va :
  dir_ok m dir -> t mod 4096 = 0 -> t <> dir -> 0 <= j < 1024 -> 0 <= v < 2 ^ 32 ->
  0 <= va < 1023 * 2 ^ 22 ->
  walk (setw m (t + 4 * j) v) dir va =
    if bool_decide (table_of m dir va = Some t /\ va / 2 ^ 12 mod 2 ^ 10 = j)
    then (if is_present v then Some (frame_of v + va mod 2 ^ 12) else None)
    else walk m dir va.
Proof.
  intros Hok Ht Hne Hj Hv Hva. pose proof (pte_idx_range va).
  assert (dir mod 4096 = 0) as Hd by apply Hok.
  unfold walk. rewrite setw_table_of by (done || lia).
  destruct (table_of m dir va) as [t'|] eqn:Ht'; [|by rewrite bool_decide_false by naive_solver].
  destruct (table_of_ok _ _ _ _ Hok Hva Ht') as (_ & _ & Ht'p & _).
  case_bool_decide as Hc.
  - destruct Hc as [[= ->] ->]. by rewrite word_setw_eq.
  - assert (t' + 4 * (va / 2 ^ 12 mod 2 ^ 10) + 4 <= t + 4 * j \/
            t + 4 * j + 4 <= t' + 4 * (va / 2 ^ 12 mod 2 ^ 10)).
    { destruct (decide (t' = t)) as [->|Hne'].
      - assert (va / 2 ^ 12 mod 2 ^ 10 <> j) by naive_solver. lia.
      - destruct (pages_apart t' t Ht'p Ht Hne'); lia. }
    by rewrite word_setw_ne by lia.
Qed.

Lemma pde_at_set_pte m dir t j v i :
  dir mod 4096 = 0 -> t mod 4096 = 0 -> t <> dir -> 0 <= j < 1024 -> 0 <= i < 1024 ->
  pde_at (setw m (t + 4 * j) v) dir i = pde_at m dir i.
Proof.
  intros Hd Ht Hne Hj Hi. destruct (pages_apart t dir Ht Hd Hne); unfold pde_at; by rewrite word_setw_ne by lia.
Qed.

Lemma dir_ok_set_pte m dir t j v :
  dir_ok m dir -> t mod 4096 = 0 -> t <> dir -> 0 <= j < 1024 ->
  dir_ok (setw m (t + 4 * j) v) dir.
Proof.
  intros (Hm & H0 & Hd & Hp & Hr & Hself & Ht) Htp Hne Hj.
  assert (forall i, 0 <= i < 1024 -> pde_at (setw m (t + 4 * j) v) dir i = pde_at m dir i) as E.
  { intros i Hi. by apply pde_at_set_pte. }
  split_and!; try done.
  - by apply ram_ok_setw.
  - by apply setw_readable.
  - by rewrite E by lia.
  - intros i e Hi. rewrite E by lia. intros He Pe. destruct (Ht i e Hi He Pe) as (? & ? & ?).
    split_and!; try done. by apply setw_readable.
Qed.

(** ** Storing entries through the window *)

(** The value [PageMapping] stores into an entry for the page at [p]. *)
Definition entry_value (p : Z) : Z := Z.lor (Z.lor (Z.lor p PAGE_P_1) PAGE_US_U) PAGE_RW_RW.

(** The branch of [PageMapping] for an address whose directory entry is missing: hook in the empty
    page at [pte_physic_addr] as its table, then store the entry. *)
Definition map_new_table (pde_addr pte_addr pte_physic_addr entry : Z) : M paging unit :=
  vst32 pde_addr (entry_value pte_physic_addr) ;;;
  vmemset (Z.land pte_addr 0xFFFFF000) 0 PAGE_SIZE ;;;
  vst32 pte_addr entry.

(** A page that is neither the directory nor one of its tables. *)
Definition frame_fresh (m : gmap Z Z) (dir f : Z) : Prop :=
  f mod 4096 = 0 /\ 0 < f /\ f + 4096 <= 2 ^ 32 /\ readable m f 4096 /\ f <> dir /\
  forall i e, 0 <= i < 1023 -> pde_at m dir i = Some e -> is_present e = true -> frame_of e <> f.

Lemma entry_value_eq p : p mod 4096 = 0 -> entry_value p = Z.lor p 7.
Proof. intros. unfold entry_value. by rewrite <- !Z.lor_assoc. Qed.

Lemma entry_value_ok p : 0 <= p < 2 ^ 32 -> p mod 4096 = 0 ->
  frame_of (entry_value p) = p /\ is_present (entry_value p) = true /\ 0 <= entry_value p < 2 ^ 32.
Proof.
  intros Hp Hm. pose proof (page_end p Hp Hm). rewrite entry_value_eq by done. split_and!.
  - by apply frame_of_or.
  - by rewrite is_present_or.
  - rewrite page_lor by done. lia.
  - rewrite page_lor by done. lia.
Qed.

Lemma word_write_bytes_out m p l a :
  a + 4 <= p \/ p + Z.of_nat (length l) <= a -> word (write_bytes m p l) a = word m a.
Proof. intros H. apply word_eq. intros i Hi. apply write_bytes_lookup_out. lia. Qed.

Lemma vmemset_loop v n : forall m c dst pa iv,
  (forall k, (k < n)%nat -> walk (write_bytes m pa (replicate k (u8 v))) (frame_of c) (dst + Z.of_nat k) =
     Some (pa + Z.of_nat k)) ->
  readable m pa (Z.of_nat n) -> 0 <= dst -> dst + Z.of_nat n < 2 ^ 32 ->
  iter (S n) (vmemset_body v) (dst, Z.of_nat n) (Paging m c iv) =
    Ret (tt, Paging (write_bytes m pa (replicate n (u8 v))) c iv).
Proof.
  induction n as [|n IH]; intros m c dst pa iv Hw Hr Hd Hlim; [done|].
  erewrite iter_S with (x := inl (dst + 1, Z.of_nat n)).
  - cbn [replicate write_bytes]. apply IH; [| |lia|lia].
    + intros k Hk. specialize (Hw (S k) ltac:(lia)). cbn [replicate write_bytes] in Hw.
      replace (dst + 1 + Z.of_nat k) with (dst + Z.of_nat (S k)) by lia. rewrite Hw. f_equal. lia.
    + intros a Ha. rewrite lookup_insert. case_decide; [eauto|]. apply Hr. lia.
  - unfold vmemset_body. replace (Z.of_nat (S n) =? 0) with false by lia.
    specialize (Hw 0%nat ltac:(lia)). cbn [replicate write_bytes] in Hw.
    rewrite !Z.add_0_r in Hw. destruct (Hr pa) as [x Hx]; [lia|].
    unfold bind, vst8, translate. cbn [phys cr3]. rewrite Hw, Hx. unfold ret.
    rewrite !u32_id by lia. unfold set_phys. cbn [cr3 invlpgs]. do 4 f_equal. lia.
Qed.

Lemma readable_word m p n a : readable m p n -> p <= a -> a + 4 <= p + n -> is_Some (word m a).
Proof. intros. apply word_readable. by eapply readable_le. Qed.

(** The size of a page as a natural number, kept folded. *)
Definition page_n : nat := Z.to_nat PAGE_SIZE.

Lemma page_n_Z : Z.of_nat page_n = 4096.
Proof. reflexivity. Qed.

#[global] Opaque page_n.

Lemma zeros_lookup m p n a : p <= a < p + Z.of_nat n -> write_bytes m p (replicate n 0) !! a = Some 0.
Proof.
  intros Ha. replace a with (p + Z.of_nat (Z.to_nat (a - p))) by lia.
  apply write_bytes_lookup_in, lookup_replicate_2. lia.
Qed.

Lemma zeros_word m p n a : p <= a -> a + 4 <= p + Z.of_nat n ->
  word (write_bytes m p (replicate n 0)) a = Some 0.
Proof. intros. unfold word. by rewrite !zeros_lookup by lia. Qed.

Section new_table.
  Context (m : gmap Z Z) (dir i f : Z).
  Hypothesis Hok : dir_ok m dir.
  Hypothesis Hi : 0 <= i < 1023.
  Hypothesis Hf : frame_fresh m dir f.

Let m1 := setw m (dir + 4 * i) (entry_value f).
Let m2 := write_bytes m1 f (replicate page_n (u8 0)).

Lemma new_frame : frame_of (entry_value f) = f /\ is_present (entry_value f) = true /\
  0 <= entry_value f < 2 ^ 32.
Proof. destruct Hf as (Hp & H0 & Hl & _). apply entry_value_ok; [lia|done]. Qed.

(** The directory entries while the new table is being cleared. *)
Lemma new_table_pde k j : (k <= page_n)%nat -> 0 <= j < 1024 ->
  word (write_bytes m1 f (replicate k (u8 0))) (dir + 4 * j) =
    if j =? i then Some (entry_value f) else word m (dir + 4 * j).
Proof.
  intros Hk Hj. destruct Hf as (Hp & H0 & Hl & Hr & Hne & _). pose proof page_n_Z.
  assert (dir mod 4096 = 0) as Hd by apply Hok.
  rewrite word_write_bytes_out.
  2:{ rewrite length_replicate. destruct (pages_apart f dir Hp Hd Hne); lia. }
  unfold m1. destruct (Z.eqb_spec j i) as [->|Hji].
  - apply word_setw_eq, new_frame.
  - apply word_setw_ne. lia.
Qed.

Lemma new_table_window k c : (k <= page_n)%nat -> 0 <= c < 4096 ->
  walk (write_bytes m1 f (replicate k (u8 0))) dir (1023 * 2 ^ 22 + i * 2 ^ 12 + c) = Some (f + c).
Proof.
  intros Hk Hc. pose proof page_n_Z. destruct Hok as (_ & _ & _ & _ & _ & (e0 & H0 & P0 & F0) & _).
  destruct new_frame as (Ef & Pf & _).
  rewrite (window_walk _ dir i e0 (entry_value f)); rewrite ?new_table_pde by lia; try done.
  - by rewrite Ef.
  - by replace (1023 =? i) with false by lia.
  - by rewrite Z.eqb_refl.
  - lia.
Qed.

Lemma new_table_table_of va : 0 <= va < 1023 * 2 ^ 22 ->
  table_of m2 dir va = if va / 2 ^ 22 =? i then Some f else table_of m dir va.
Proof.
  intros Hva. pose proof (pde_idx_range va ltac:(lia)). unfold table_of, m2.
  rewrite new_table_pde by lia. destruct (va / 2 ^ 22 =? i); [|done].
  destruct new_frame as (-> & -> & _). done.
Qed.

Lemma new_table_dir_ok : dir_ok m2 dir.
Proof.
  destruct Hok as (Hm & H0 & Hl & Hd & Hr & (e0 & He0 & P0 & F0) & Ht).
  destruct Hf as (Hfp & Hf0 & Hfl & Hfr & Hfne & Hfresh). destruct new_frame as (Ef & Pf & Rf).
  assert (forall p, readable m p 4096 -> readable m2 p 4096) as Hmono.
  { intros p Hp. by apply write_bytes_readable, setw_readable. }
  split; [|split; [|split; [|split; [|split; [|split]]]]].
  - apply write_bytes_ok; [by apply ram_ok_setw|]. apply Forall_replicate, u8_range.
  - exact H0.
  - exact Hl.
  - exact Hd.
  - by apply Hmono.
  - exists e0. split; [|by split]. unfold pde_at, m2. rewrite new_table_pde by lia.
    by replace (1023 =? i) with false by lia.
  - intros j e Hj. unfold pde_at, m2. rewrite new_table_pde by lia.
    destruct (Z.eqb_spec j i) as [->|].
    + intros [= <-] _. rewrite Ef. split; [done|]. split; [done|]. by apply Hmono.
    + intros He Pe. destruct (Ht j e Hj He Pe) as (? & ? & ?).
      split; [done|]. split; [done|]. by apply Hmono.
Qed.

Lemma new_table_walk va : 0 <= va < 1023 * 2 ^ 22 ->
  walk m2 dir va = if va / 2 ^ 22 =? i then None else walk m dir va.
Proof.
  intros Hva. pose proof (pte_idx_range va) as Hj. pose proof page_n_Z. unfold walk. rewrite new_table_table_of by done.
  destruct Hf as (Hfp & Hf0 & Hfl & Hfr & Hfne & Hfresh).
  destruct (Z.eqb_spec (va / 2 ^ 22) i) as [Hvi|Hvi].
  - assert (word m2 (f + 4 * (va / 2 ^ 12 mod 2 ^ 10)) = Some 0) as ->.
    { apply zeros_word; lia. }
    done.
  - destruct (table_of m dir va) as [t|] eqn:Ht; [|done].
    destruct (table_of_ok _ _ _ _ Hok Hva Ht) as (Hne & _ & Htp & _).
    assert (t <> f) as Htf.
    { unfold table_of in Ht. destruct (word m _) as [e|] eqn:He; [|done].
      destruct (is_present e) eqn:Pe; [|done]. injection Ht as <-.
      by apply (Hfresh (va / 2 ^ 22)); [apply pde_idx_low|..]. }
    assert (dir mod 4096 = 0) as Hd by apply Hok.
    assert (word m2 (t + 4 * (va / 2 ^ 12 mod 2 ^ 10)) = word m (t + 4 * (va / 2 ^ 12 mod 2 ^ 10))) as ->.
    { generalize dependent (va / 2 ^ 12 mod 2 ^ 10). intros j Hj. clear Hva Ht Hvi Hfresh.
      unfold m2, m1. rewrite word_write_bytes_out.
      2:{ rewrite length_replicate. destruct (pages_apart t f Htp Hfp Htf); lia. }
      apply word_setw_ne. destruct (pages_apart t dir Htp Hd Hne); lia. }
    done.
Qed.

End new_table.

(** The state of translation after a new entry: [p] at the page of [v], everything else as before. *)
Definition maps_page (m' m : gmap Z Z) (dir v p : Z) : Prop :=
  forall va, 0 <= va < 1023 * 2 ^ 22 ->
    walk m' dir va =
      if bool_decide (va / 2 ^ 12 mod 2 ^ 10 = v / 2 ^ 12 mod 2 ^ 10 /\
                      table_of m' dir va = table_of m' dir v)
      then Some (p + va mod 2 ^ 12) else walk m dir va.

(** What [PageMapping] makes of the page tables: [p] mapped at [v], and at most one new table, at
    [f], in the directory. *)
Record mapped (m m' : gmap Z Z) (dir v p f : Z) : Prop := Mapped {
  mp_ok : dir_ok m' dir;
  mp_maps : maps_page m' m dir v p;
  mp_read : forall q n, readable m q n -> readable m' q n;
  mp_pde : forall j e, 0 <= j < 1023 -> pde_at m' dir j = Some e -> is_present e = true ->
    pde_at m dir j = Some e \/ (frame_of e = f /\ j = v / 2 ^ 22);
  mp_keep : forall j e, 0 <= j < 1023 -> pde_at m dir j = Some e -> is_present e = true ->
    pde_at m' dir j = Some e;
  mp_same : same_outside (fun a => dir <= a < dir + 4096 \/ f <= a < f + 4096 \/
    exists t, table_of m dir v = Some t /\ t <= a < t + 4096) m m';
  mp_pdes : is_Some (table_of m dir v) -> forall j, 0 <= j < 1024 -> pde_at m' dir j = pde_at m dir j
}.

Lemma pte_page va : 0 <= va < 2 ^ 32 ->
  Z.land (GetPTEPointer va) 0xFFFFF000 = 1023 * 2 ^ 22 + (va / 2 ^ 22) * 2 ^ 12.
Proof.
  intros Hva. pose proof (pde_idx_range va Hva). pose proof (pte_idx_range va).
  change (Z.land (GetPTEPointer va) 0xFFFFF000) with (frame_of (GetPTEPointer va)).
  rewrite GetPTEPointer_eq, frame_of_eq by lia.
  replace (1023 * 2 ^ 22 + va / 2 ^ 22 * 2 ^ 12 + 4 * (va / 2 ^ 12 mod 2 ^ 10)) with
    ((1023 * 2 ^ 10 + va / 2 ^ 22) * 4096 + 4 * (va / 2 ^ 12 mod 2 ^ 10)) by lia.
  rewrite page_add_mod by (rewrite ?Z.mod_mul; lia). lia.
Qed.

(** Storing an entry into an existing table. *)
Lemma map_existing pg v w t :
  pg_ok pg -> 0 <= v < 1023 * 2 ^ 22 -> table_of (phys pg) (frame_of (cr3 pg)) v = Some t ->
  vst32 (GetPTEPointer v) w pg =
    Ret (tt, set_phys (setw (phys pg) (t + 4 * (v / 2 ^ 12 mod 2 ^ 10)) w) pg).
Proof.
  intros Hok Hv Ht. pose proof (pte_idx_range v).
  pose proof Hok as (Hm & H0 & Hl & Hd & Hr & (e0 & He0 & P0 & F0) & Hts).
  destruct (table_of_ok _ _ _ _ Hok Hv Ht) as (Hne & Ht0 & Htp & Htl & Htr).
  apply vst32_ok; [|apply (readable_word _ t 4096); (done || lia)].
  apply (GetPTEPointer_walk _ _ _ e0); (done || lia).
Qed.

Lemma map_existing_maps m dir v p t :
  dir_ok m dir -> 0 <= v < 1023 * 2 ^ 22 -> table_of m dir v = Some t ->
  0 <= p < 2 ^ 32 -> p mod 4096 = 0 ->
  let m' := setw m (t + 4 * (v / 2 ^ 12 mod 2 ^ 10)) (entry_value p) in
  forall f, mapped m m' dir v p f.
Proof.
  intros Hok Hv Ht Hp Hpp m'. pose proof (pte_idx_range v).
  destruct (table_of_ok _ _ _ _ Hok Hv Ht) as (Hne & Ht0 & Htp & Htl & Htr).
  destruct (entry_value_ok p Hp Hpp) as (Ep & Pp & Rp).
  assert (dir mod 4096 = 0) as Hd by apply Hok.
  intros f. constructor.
  - by apply dir_ok_set_pte.
  - intros va Hva. unfold m'.
    rewrite walk_set_pte, !setw_table_of, Ht, Ep, Pp by (done || lia).
    repeat case_bool_decide; naive_solver.
  - intros q n. apply setw_readable.
  - intros j e Hj. unfold m'. rewrite pde_at_set_pte by (done || lia). by left.
  - intros j e Hj. unfold m'. by rewrite pde_at_set_pte by (done || lia).
  - intros a Ha. unfold m'. apply setw_lookup_out.
    destruct (decide (t <= a < t + 4096)); [|lia]. exfalso. apply Ha. right. right. eauto.
  - intros _ j Hj. unfold m'. by rewrite pde_at_set_pte by (done || lia).
Qed.

Lemma window_steps (m1 : gmap Z Z) dir f w (v : Z) :
  (forall k c, (k <= page_n)%nat -> 0 <= c < 4096 ->
     walk (write_bytes m1 f (replicate k v)) dir (w + c) = Some (f + c)) ->
  forall k, (k < page_n)%nat ->
    walk (write_bytes m1 f (replicate k v)) dir (w + Z.of_nat k) = Some (f + Z.of_nat k).
Proof. intros H k Hk. pose proof page_n_Z. apply H; lia. Qed.

Lemma map_new_table_ok pg v p f e :
  pg_ok pg -> 0 <= v < 1023 * 2 ^ 22 -> 0 <= p < 2 ^ 32 -> p mod 4096 = 0 ->
  frame_fresh (phys pg) (frame_of (cr3 pg)) f ->
  pde_at (phys pg) (frame_of (cr3 pg)) (v / 2 ^ 22) = Some e -> is_present e = false ->
  exists m', map_new_table (GetPDEPointer v) (GetPTEPointer v) f (entry_value p) pg =
      Ret (tt, set_phys m' pg) /\ mapped (phys pg) m' (frame_of (cr3 pg)) v p f.
Proof.
  intros Hok Hv Hp Hpp Hf He Pe. unfold pg_ok in Hok. set (dir := frame_of (cr3 pg)) in *.
  set (m := phys pg) in *. set (i := v / 2 ^ 22) in *. set (j := v / 2 ^ 12 mod 2 ^ 10).
  pose proof (pde_idx_low v Hv) as Hi. fold i in Hi.
  pose proof (pte_idx_range v) as Hj. fold j in Hj.
  set (m1 := setw m (dir + 4 * i) (entry_value f)).
  set (m2 := write_bytes m1 f (replicate page_n (u8 0))).
  pose proof (new_table_dir_ok m dir i f Hok Hi Hf) as Hok2. fold m1 m2 in Hok2.
  pose proof (new_table_walk m dir i f Hok Hi Hf) as Hw2. fold m1 m2 in Hw2.
  pose proof (new_table_table_of m dir i f Hok Hi Hf v Hv) as Ht2. fold m1 m2 i in Ht2.
  rewrite Z.eqb_refl in Ht2.
  pose proof (map_existing_maps m2 dir v p f Hok2 Hv Ht2 Hp Hpp f) as [Hok3 Hw3 Hr3 Hp3 Hk3 Hs3 _].
  fold j in Hok3, Hw3, Hr3, Hp3, Hk3, Hs3.
  pose proof Hok as (Hm & H0 & Hl & Hd & Hr & (e0 & He0 & P0 & F0) & Hts).
  pose proof (vmemset_loop 0 page_n m1 (cr3 pg) (1023 * 2 ^ 22 + i * 2 ^ 12) f (invlpgs pg)) as Hset.
  rewrite page_n_Z in Hset. pose proof page_n_Z.
  pose proof (new_table_window m dir i f Hok Hi Hf) as Hwin. fold m1 in Hwin.
  pose proof Hf as (Hfp & Hf0 & Hfl & Hfr & Hfne & _).
  assert (0 <= 1023 * 2 ^ 22 + i * 2 ^ 12 < 2 ^ 32 - 4096) as [Hb1 Hb2] by (clear -Hi; clearbody i; lia).
  specialize (Hset (window_steps _ _ _ _ _ Hwin) (setw_readable _ _ _ _ _ Hfr) Hb1
    ltac:(clear -Hb2; lia)). fold m2 in Hset.
  eexists. split; [|constructor; [exact Hok3| | | | | |]].
  - assert (translate pg (GetPDEPointer v) = Some (dir + 4 * i)) as Hpde.
    { apply (GetPDEPointer_walk _ _ v e0); [exact He0|exact P0|exact F0|lia]. }
    assert (is_Some (word m (dir + 4 * i))) as Hw by (unfold pde_at in He; rewrite He; eauto).
    unfold map_new_table. rewrite (bind_Ret _ _ _ _ _ (vst32_ok _ _ _ _ Hpde Hw)). fold m1.
    rewrite (bind_Ret _ _ _ tt (Paging m2 (cr3 pg) (invlpgs pg))).
    2:{ unfold vmemset. rewrite pte_page by lia. fold i.
        rewrite (bind_Ret _ _ _ tt (set_phys m1 pg)) by (apply ASSERT_true; lia).
        change PAGE_SIZE with 4096. change (Z.to_nat 4096) with page_n. exact Hset. }
    exact (map_existing (Paging m2 (cr3 pg) (invlpgs pg)) v (entry_value p) f Hok2 Hv Ht2).
  - intros va Hva. rewrite Hw3 by done. case_bool_decide as Hc; [done|].
    rewrite Hw2 by done. fold i in Hw2. destruct (Z.eqb_spec (va / 2 ^ 22) i) as [Hvi|]; [|done].
    unfold walk, table_of. rewrite Hvi.
    unfold pde_at in He. by rewrite He, Pe.
  - intros q n Hq. by apply Hr3, write_bytes_readable, setw_readable.
  - intros k e' Hk He' Pe'. destruct (Hp3 k e' Hk He' Pe') as [H1|H1]; [|by right].
    pose proof (new_table_pde m dir i f Hok Hi Hf page_n k ltac:(done) ltac:(lia)) as E.
    unfold pde_at in H1. fold m1 in E. fold m2 in E. rewrite E in H1.
    destruct (Z.eqb_spec k i) as [->|]; [|by left]. right. injection H1 as <-.
    pose proof (new_frame m dir i f Hi Hf) as (Ef & _). split; [exact Ef|reflexivity].
  - intros k e' Hk He' Pe'. apply (Hk3 k e' Hk); [|exact Pe'].
    pose proof (new_table_pde m dir i f Hok Hi Hf page_n k ltac:(done) ltac:(lia)) as E.
    fold m1 in E. fold m2 in E. unfold pde_at. rewrite E. destruct (Z.eqb_spec k i) as [->|]; [|exact He'].
    exfalso. clear -He He' Pe Pe'. congruence.
  - intros a Ha. rewrite Hs3.
    + unfold m2. rewrite write_bytes_lookup_out by (rewrite length_replicate; pose proof page_n_Z as Hpn; clear -Ha Hpn; lia).
      apply setw_lookup_out. clear -Ha Hi. clearbody i. lia.
    + intros [Hc|[Hc|(t & Ht & Hc)]]; apply Ha; [by left|by right; left|].
      rewrite Ht2 in Ht. injection Ht as <-. by right; left.
  - intros [t Ht]. exfalso. unfold table_of in Ht. unfold pde_at in He. fold i in Ht. rewrite He, Pe in Ht. done.
Qed.

(** ** Reading and clearing entries through the window *)

Lemma GetPTEPointer_translate pg va t :
  pg_ok pg -> 0 <= va < 1023 * 2 ^ 22 -> table_of (phys pg) (frame_of (cr3 pg)) va = Some t ->
  translate pg (GetPTEPointer va) = Some (t + 4 * (va / 2 ^ 12 mod 2 ^ 10)).
Proof.
  intros Hok Hva Ht. pose proof Hok as (_ & _ & _ & _ & _ & (e0 & He0 & P0 & F0) & _).
  apply (GetPTEPointer_walk _ _ _ e0); (done || lia).
Qed.

Lemma pte_word pg va t :
  pg_ok pg -> 0 <= va < 1023 * 2 ^ 22 -> table_of (phys pg) (frame_of (cr3 pg)) va = Some t ->
  exists e, word (phys pg) (t + 4 * (va / 2 ^ 12 mod 2 ^ 10)) = Some e /\ 0 <= e < 2 ^ 32.
Proof.
  intros Hok Hva Ht. pose proof (pte_idx_range va).
  destruct (table_of_ok _ _ _ _ Hok Hva Ht) as (_ & _ & _ & _ & Hr).
  destruct (readable_word _ _ _ (t + 4 * (va / 2 ^ 12 mod 2 ^ 10)) Hr) as [e He]; [lia|lia|].
  exists e. split; [done|]. eapply word_range; [|done]. apply Hok.
Qed.

(** Without a table, the window has no page for the entry. *)
Lemma GetPTEPointer_unmapped pg va :
  pg_ok pg -> 0 <= va < 1023 * 2 ^ 22 -> table_of (phys pg) (frame_of (cr3 pg)) va = None ->
  translate pg (GetPTEPointer va) = None.
Proof.
  intros Hok Hva Ht. pose proof Hok as (_ & _ & _ & _ & _ & (e0 & He0 & P0 & F0) & _).
  pose proof (pde_idx_range va ltac:(lia)). pose proof (pte_idx_range va).
  rewrite GetPTEPointer_eq by lia.
  destruct (linear_parts 1023 (va / 2 ^ 22) (4 * (va / 2 ^ 12 mod 2 ^ 10))) as (E1 & E2 & E3); [lia|lia|].
  unfold translate, walk, table_of, pde_at in *. rewrite E1, E2, He0, P0, F0.
  destruct (word (phys pg) (frame_of (cr3 pg) + 4 * (va / 2 ^ 22))) as [e|]; [|done].
  by destruct (is_present e).
Qed.

Lemma low12 va : 0 <= va -> Z.land va 0xFFF = va mod 2 ^ 12.
Proof. intros. change 0xFFF with (Z.ones 12). apply Z.land_ones. lia. Qed.

Lemma VirtualAddrToPhysicAddr_mapped pg va t :
  pg_ok pg -> 0 <= va < 1023 * 2 ^ 22 -> table_of (phys pg) (frame_of (cr3 pg)) va = Some t ->
  exists e, word (phys pg) (t + 4 * (va / 2 ^ 12 mod 2 ^ 10)) = Some e /\
    VirtualAddrToPhysicAddr va pg = Ret (frame_of e + va mod 2 ^ 12, pg).
Proof.
  intros Hok Hva Ht. destruct (pte_word pg va t Hok Hva Ht) as (e & He & Re). exists e. split; [done|].
  unfold VirtualAddrToPhysicAddr.
  rewrite (bind_Ret _ _ _ _ _ (vld32_ok _ _ _ _ (GetPTEPointer_translate _ _ _ Hok Hva Ht) He)).
  fold (frame_of e). rewrite low12 by lia. destruct (frame_of_page e Re) as [Hp Hr].
  pose proof (page_end _ Hr Hp). pose proof (Z.mod_pos_bound va (2 ^ 12)).
  by rewrite u32_id by lia.
Qed.

(** A mapped address has the translation of the processor. *)
Lemma VirtualAddrToPhysicAddr_ok pg va pa :
  pg_ok pg -> 0 <= va < 1023 * 2 ^ 22 -> translate pg va = Some pa ->
  VirtualAddrToPhysicAddr va pg = Ret (pa, pg).
Proof.
  intros Hok Hva Hpa. unfold translate, walk in Hpa.
  destruct (table_of (phys pg) (frame_of (cr3 pg)) va) as [t|] eqn:Ht; [|done].
  destruct (VirtualAddrToPhysicAddr_mapped pg va t Hok Hva Ht) as (e & He & ->).
  rewrite He in Hpa. destruct (is_present e); [|done]. by injection Hpa as <-.
Qed.

(** [VirtualAddrToPhysicAddr] computes the address the MMU uses for every mapped address.  For
    an address whose table exists but whose entry is not present it still returns the stale frame
    bits, without an error; without a table the access to the window faults. *)
Theorem VirtualAddrToPhysicAddr_correct pg va :
  pg_ok pg -> 0 <= va < 1023 * 2 ^ 22 ->
  match table_of (phys pg) (frame_of (cr3 pg)) va with
  | None => VirtualAddrToPhysicAddr va pg = Fault (GetPTEPointer va)
  | Some t => exists e, word (phys pg) (t + 4 * (va / 2 ^ 12 mod 2 ^ 10)) = Some e /\
      VirtualAddrToPhysicAddr va pg = Ret (frame_of e + va mod 2 ^ 12, pg) /\
      (forall pa, translate pg va = Some pa -> VirtualAddrToPhysicAddr va pg = Ret (pa, pg))
  end.
Proof.
  intros Hok Hva. destruct (table_of (phys pg) (frame_of (cr3 pg)) va) as [t|] eqn:Ht.
  - destruct (VirtualAddrToPhysicAddr_mapped pg va t Hok Hva Ht) as (e & He & Hres).
    exists e. split_and!; [done|done|]. intros pa. by apply VirtualAddrToPhysicAddr_ok.
  - unfold VirtualAddrToPhysicAddr, vld32, bind. by rewrite GetPTEPointer_unmapped.
Qed.

(** The state after [PageUnmapping]. *)
Definition unmapped_paging (pg : paging) (v t arg : Z) : paging :=
  Paging (setw (phys pg) (t + 4 * (v / 2 ^ 12 mod 2 ^ 10)) 0) (cr3 pg) (arg :: invlpgs pg).

Lemma PageUnmapping_run pg v t arg :
  pg_ok pg -> 0 <= v < 1023 * 2 ^ 22 -> table_of (phys pg) (frame_of (cr3 pg)) v = Some t ->
  PageUnmapping arg v pg = Ret (tt, unmapped_paging pg v t arg).
Proof.
  intros Hok Hv Ht. destruct (pte_word pg v t Hok Hv Ht) as (e & He & Re). unfold PageUnmapping.
  rewrite (bind_Ret _ _ _ _ _ (vld32_ok _ _ _ _ (GetPTEPointer_translate _ _ _ Hok Hv Ht) He)).
  unfold PAGE_P_0. rewrite Z.land_0_r.
  by rewrite (bind_Ret _ _ _ _ _ (map_existing _ _ 0 _ Hok Hv Ht)).
Qed.

Lemma unmapped_translate pg v t arg va :
  pg_ok pg -> 0 <= v < 1023 * 2 ^ 22 -> table_of (phys pg) (frame_of (cr3 pg)) v = Some t ->
  0 <= va < 1023 * 2 ^ 22 ->
  translate (unmapped_paging pg v t arg) va =
    if bool_decide (table_of (phys pg) (frame_of (cr3 pg)) va = Some t /\
                    va / 2 ^ 12 mod 2 ^ 10 = v / 2 ^ 12 mod 2 ^ 10)
    then None else translate pg va.
Proof.
  intros Hok Hv Ht Hva. pose proof (pte_idx_range v).
  destruct (table_of_ok _ _ _ _ Hok Hv Ht) as (Hne & Ht0 & Htp & Htl & Htr).
  unfold translate at 1, unmapped_paging. cbn [phys cr3]. by rewrite walk_set_pte by (done || lia).
Qed.

Lemma unmapped_pg_ok pg v t arg :
  pg_ok pg -> 0 <= v < 1023 * 2 ^ 22 -> table_of (phys pg) (frame_of (cr3 pg)) v = Some t ->
  pg_ok (unmapped_paging pg v t arg).
Proof.
  intros Hok Hv Ht. pose proof (pte_idx_range v).
  destruct (table_of_ok _ _ _ _ Hok Hv Ht) as (Hne & Ht0 & Htp & Htl & Htr).
  unfold pg_ok. cbn [unmapped_paging phys cr3]. by apply dir_ok_set_pte.
Qed.

(** [PageUnmapping] of an address with a page table removes the translation of that page (and of
    every alias that shares the table entry), keeps every other translation below the window, and
    keeps the directory well formed.  The one [invlpg] it executes is for the page of its own
    parameter on the stack. *)
Theorem PageUnmapping_correct pg v t arg :
  pg_ok pg -> 0 <= v < 1023 * 2 ^ 22 -> table_of (phys pg) (frame_of (cr3 pg)) v = Some t ->
  exists pg', PageUnmapping arg v pg = Ret (tt, pg') /\ pg_ok pg' /\ cr3 pg' = cr3 pg /\
    invlpgs pg' = arg :: invlpgs pg /\ translate pg' v = None /\
    forall va, 0 <= va < 1023 * 2 ^ 22 ->
      translate pg' va =
        if bool_decide (table_of (phys pg) (frame_of (cr3 pg)) va = Some t /\
                        va / 2 ^ 12 mod 2 ^ 10 = v / 2 ^ 12 mod 2 ^ 10)
        then None else translate pg va.
Proof.
  intros Hok Hv Ht. exists (unmapped_paging pg v t arg). split_and!; try done.
  - by apply PageUnmapping_run.
  - by apply unmapped_pg_ok.
  - rewrite unmapped_translate by done. by rewrite bool_decide_true.
  - intros va Hva. by rewrite unmapped_translate.
Qed.

(** ** A small address space for the examples *)

(** A directory at 0x100000 whose entry 768 is the table at 0x101000 and which maps itself. *)
Definition demo_phys : gmap Z Z :=
  setw (setw (setw (write_bytes ∅ 0x100000 (replicate (3 * page_n) 0))
    (0x100000 + 4 * 1023) 0x100007) (0x100000 + 4 * 768) 0x101007) (0x101000 + 4 * 5) 0x9007.
Definition demo_paging : paging := Paging demo_phys 0x100000 [].

Lemma zero_ram_ok n p : ram_ok (write_bytes ∅ p (replicate n 0)).
Proof. apply write_bytes_ok; [apply ram_ok_empty|]. apply Forall_replicate. lia. Qed.

Lemma demo_pde i : 0 <= i < 1024 ->
  pde_at demo_phys 0x100000 i =
    Some (if i =? 1023 then 0x100007 else if i =? 768 then 0x101007 else 0).
Proof.
  intros Hi. pose proof page_n_Z. unfold pde_at, demo_phys. rewrite word_setw_ne by lia.
  destruct (Z.eqb_spec i 1023) as [->|]; [|destruct (Z.eqb_spec i 768) as [->|]].
  - rewrite word_setw_ne by lia. by rewrite word_setw_eq by lia.
  - by rewrite word_setw_eq by lia.
  - rewrite !word_setw_ne by lia. apply zeros_word; lia.
Qed.

Lemma demo_region p : 0x100000 <= p -> p + 4096 <= 0x103000 -> readable demo_phys p 4096.
Proof.
  intros H1 H2 a Ha. pose proof page_n_Z. do 3 apply setw_is_Some. rewrite zeros_lookup by lia. eauto.
Qed.

Lemma demo_pg_ok : pg_ok demo_paging.
Proof.
  unfold pg_ok, demo_paging. cbn [phys cr3]. change (frame_of 0x100000) with 0x100000.
  split; [|split; [|split; [|split; [|split; [|split]]]]]; try lia; try reflexivity.
  - do 3 apply ram_ok_setw. apply zero_ram_ok.
  - by apply demo_region.
  - exists 0x100007. rewrite demo_pde by lia. done.
  - intros i e Hi. rewrite demo_pde by lia. replace (i =? 1023) with false by lia.
    destruct (i =? 768); intros [= <-]; [|done]. intros _.
    change (frame_of 0x101007) with 0x101000. split; [done|]. split; [done|]. by apply demo_region.
Qed.

Lemma demo_table va : va / 2 ^ 22 = 768 -> table_of demo_phys 0x100000 va = Some 0x101000.
Proof.
  intros E. unfold table_of. rewrite E. pose proof (demo_pde 768 ltac:(lia)) as H.
  unfold pde_at in H. rewrite H. done.
Qed.

Lemma VirtualAddrToPhysicAddr_correct_witness :
  VirtualAddrToPhysicAddr 0xC0005123 demo_paging = Ret (0x9123, demo_paging).
Proof.
  pose proof (VirtualAddrToPhysicAddr_correct demo_paging 0xC0005123 demo_pg_ok ltac:(lia)) as H.
  change (frame_of (cr3 demo_paging)) with 0x100000 in H. cbn [phys demo_paging] in H.
  rewrite demo_table in H by done. destruct H as (e & He & Hr & _).
  unfold demo_phys in He. change (0x101000 + 4 * (0xC0005123 / 2 ^ 12 mod 2 ^ 10)) with (0x101000 + 4 * 5) in He.
  rewrite word_setw_eq in He by zdec. injection He as <-. exact Hr.
Defined.

Lemma PageUnmapping_correct_witness :
  exists pg', PageUnmapping 0xC0100FF0 0xC0005000 demo_paging = Ret (tt, pg') /\
    translate pg' 0xC0005000 = None.
Proof.
  destruct (PageUnmapping_correct demo_paging 0xC0005000 0x101000 0xC0100FF0 demo_pg_ok ltac:(lia)
    (demo_table 0xC0005000 eq_refl)) as (pg' & H & _ & _ & _ & Ht & _).
  exists pg'. split; [exact H|exact Ht].
Defined.
