(* ===== verification/State.v ===== *)
(** * The state of the kernel

    The data the thread, synchronisation, memory and device code shares: thread control blocks
    (thread/thread.h), locks and semaphores (thread/sync.h), memory pools (kernel/memory.c,
    memory.h) and the keyboard buffer (device/ioqueue.h).  Lists of threads hold the addresses of
    the [general_tag] or [all_list_tag] members; the operations on them are the operations on
    sequences that [KList.list_refines] proves of list.c. *)
From stdpp Require Import base list gmap strings.
From S2P Require Import Prelude Machine Bitmap Print Interrupt KList Paging.

Inductive task_status :=
  TASK_RUNNING | TASK_READY | TASK_BLOCKD | TASK_WAITING | TASK_HANGING | TASK_DIED.

#[global] Instance task_status_eq_dec : EqDecision task_status.
Proof. solve_decision. Defined.

#[global] Instance int_status_eq_dec : EqDecision int_status.
Proof. solve_decision. Defined.

Record virtual_addr := VirtualAddr { vaddr_bitmap : bitmap; vaddr_start : Z }.

(** [PCB] without its list elements, which the lists below stand for, and without
    [user_arena_descs], which is byte memory. *)
Record PCB := Pcb {
  self_kernel_stack : Z;
  pid : Z;
  status : task_status;
  priority : Z;
  name : list Z;
  cpu_ticks_left : Z;
  cpu_ticks_elapsed : Z;
  PDE_addr : Z;
  userprog_vaddr : virtual_addr;
  canary : Z
}.

Definition set_stack (v : Z) (p : PCB) : PCB :=
  Pcb v (pid p) (status p) (priority p) (name p) (cpu_ticks_left p) (cpu_ticks_elapsed p)
    (PDE_addr p) (userprog_vaddr p) (canary p).
Definition set_status (v : task_status) (p : PCB) : PCB :=
  Pcb (self_kernel_stack p) (pid p) v (priority p) (name p) (cpu_ticks_left p) (cpu_ticks_elapsed p)
    (PDE_addr p) (userprog_vaddr p) (canary p).
Definition set_ticks_left (v : Z) (p : PCB) : PCB :=
  Pcb (self_kernel_stack p) (pid p) (status p) (priority p) (name p) v (cpu_ticks_elapsed p)
    (PDE_addr p) (userprog_vaddr p) (canary p).
Definition set_ticks_elapsed (v : Z) (p : PCB) : PCB :=
  Pcb (self_kernel_stack p) (pid p) (status p) (priority p) (name p) (cpu_ticks_left p) v
    (PDE_addr p) (userprog_vaddr p) (canary p).
Definition set_PDE (v : Z) (p : PCB) : PCB :=
  Pcb (self_kernel_stack p) (pid p) (status p) (priority p) (name p) (cpu_ticks_left p)
    (cpu_ticks_elapsed p) v (userprog_vaddr p) (canary p).
Definition set_uservaddr (v : virtual_addr) (p : PCB) : PCB :=
  Pcb (self_kernel_stack p) (pid p) (status p) (priority p) (name p) (cpu_ticks_left p)
    (cpu_ticks_elapsed p) (PDE_addr p) v (canary p).

Definition set_pid (v : Z) (p : PCB) : PCB :=
  Pcb (self_kernel_stack p) v (status p) (priority p) (name p) (cpu_ticks_left p) (cpu_ticks_elapsed p)
    (PDE_addr p) (userprog_vaddr p) (canary p).
Definition set_priority (v : Z) (p : PCB) : PCB :=
  Pcb (self_kernel_stack p) (pid p) (status p) v (name p) (cpu_ticks_left p) (cpu_ticks_elapsed p)
    (PDE_addr p) (userprog_vaddr p) (canary p).
Definition set_name (v : list Z) (p : PCB) : PCB :=
  Pcb (self_kernel_stack p) (pid p) (status p) (priority p) v (cpu_ticks_left p) (cpu_ticks_elapsed p)
    (PDE_addr p) (userprog_vaddr p) (canary p).
Definition set_canary (v : Z) (p : PCB) : PCB :=
  Pcb (self_kernel_stack p) (pid p) (status p) (priority p) (name p) (cpu_ticks_left p) (cpu_ticks_elapsed p)
    (PDE_addr p) (userprog_vaddr p) v.

(** Offsets of the list elements in a PCB. *)
Definition general_tag (p : Z) : Z := u32 (p + 32).
Definition all_list_tag (p : Z) : Z := u32 (p + 40).
Definition pcb_of_general_tag (tag : Z) : Z := elem2entry 32 tag.

Definition STACK_CANARY : Z := 0x32512332.

Record semaphore := Semaphore { value : Z; waiting_thread_list : list Z }.
Record lock := Lock { holder : Z; sema : semaphore; holder_repeat_request_sum : Z }.

(** The locks of the program. *)
Inductive lock_id := pid_lock | kernel_pool_lock | user_pool_lock | console_lock | keyboard_lock.

#[global] Instance lock_id_eq_dec : EqDecision lock_id.
Proof. solve_decision. Defined.

Definition lock_nat (l : lock_id) : nat :=
  match l with pid_lock => 0 | kernel_pool_lock => 1 | user_pool_lock => 2 | console_lock => 3
             | keyboard_lock => 4 end.
Definition nat_lock (n : nat) : option lock_id :=
  match n with 0 => Some pid_lock | 1 => Some kernel_pool_lock | 2 => Some user_pool_lock
             | 3 => Some console_lock | 4 => Some keyboard_lock | _ => None end%nat.

#[global] Instance lock_id_countable : Countable lock_id.
Proof. apply (inj_countable lock_nat nat_lock). by intros []. Defined.

Record memory_pool := MemoryPool {
  pool_bitmap : bitmap;
  physic_addr_start : Z;
  pool_size : Z
}.

Record pools := Pools {
  kernel_memory_pool : memory_pool;
  user_memory_pool : memory_pool;
  kernel_vaddr : virtual_addr
}.

Record ioqueue := Ioqueue {
  sleeping_producer : Z;
  sleeping_consumer : Z;
  buf : list Z;
  head : Z;
  tail : Z
}.

(** [esp] is the stack pointer of the running thread, [esp0] the field of the TSS. *)
Record kernel := Kernel {
  mach : machine;
  pg : paging;
  pcbs : gmap Z PCB;
  ready_thread_list : list Z;
  all_thread_list : list Z;
  esp : Z;
  esp0 : Z;
  main_thread : Z;
  next_pid : Z;
  ticks : Z;
  locks : gmap lock_id lock;
  mem : pools;
  keyboard_IO_buf : ioqueue
}.

Definition set_mach (v : machine) (s : kernel) : kernel :=
  Kernel v (pg s) (pcbs s) (ready_thread_list s) (all_thread_list s) (esp s) (esp0 s)
    (main_thread s) (next_pid s) (ticks s) (locks s) (mem s) (keyboard_IO_buf s).
Definition set_pg (v : paging) (s : kernel) : kernel :=
  Kernel (mach s) v (pcbs s) (ready_thread_list s) (all_thread_list s) (esp s) (esp0 s)
    (main_thread s) (next_pid s) (ticks s) (locks s) (mem s) (keyboard_IO_buf s).
Definition set_pcbs (v : gmap Z PCB) (s : kernel) : kernel :=
  Kernel (mach s) (pg s) v (ready_thread_list s) (all_thread_list s) (esp s) (esp0 s)
    (main_thread s) (next_pid s) (ticks s) (locks s) (mem s) (keyboard_IO_buf s).
Definition set_ready (v : list Z) (s : kernel) : kernel :=
  Kernel (mach s) (pg s) (pcbs s) v (all_thread_list s) (esp s) (esp0 s)
    (main_thread s) (next_pid s) (ticks s) (locks s) (mem s) (keyboard_IO_buf s).
Definition set_all (v : list Z) (s : kernel) : kernel :=
  Kernel (mach s) (pg s) (pcbs s) (ready_thread_list s) v (esp s) (esp0 s)
    (main_thread s) (next_pid s) (ticks s) (locks s) (mem s) (keyboard_IO_buf s).
Definition set_esp (v : Z) (s : kernel) : kernel :=
  Kernel (mach s) (pg s) (pcbs s) (ready_thread_list s) (all_thread_list s) v (esp0 s)
    (main_thread s) (next_pid s) (ticks s) (locks s) (mem s) (keyboard_IO_buf s).
Definition set_esp0 (v : Z) (s : kernel) : kernel :=
  Kernel (mach s) (pg s) (pcbs s) (ready_thread_list s) (all_thread_list s) (esp s) v
    (main_thread s) (next_pid s) (ticks s) (locks s) (mem s) (keyboard_IO_buf s).
Definition set_main (v : Z) (s : kernel) : kernel :=
  Kernel (mach s) (pg s) (pcbs s) (ready_thread_list s) (all_thread_list s) (esp s) (esp0 s)
    v (next_pid s) (ticks s) (locks s) (mem s) (keyboard_IO_buf s).
Definition set_next_pid (v : Z) (s : kernel) : kernel :=
  Kernel (mach s) (pg s) (pcbs s) (ready_thread_list s) (all_thread_list s) (esp s) (esp0 s)
    (main_thread s) v (ticks s) (locks s) (mem s) (keyboard_IO_buf s).
Definition set_ticks (v : Z) (s : kernel) : kernel :=
  Kernel (mach s) (pg s) (pcbs s) (ready_thread_list s) (all_thread_list s) (esp s) (esp0 s)
    (main_thread s) (next_pid s) v (locks s) (mem s) (keyboard_IO_buf s).
Definition set_locks (v : gmap lock_id lock) (s : kernel) : kernel :=
  Kernel (mach s) (pg s) (pcbs s) (ready_thread_list s) (all_thread_list s) (esp s) (esp0 s)
    (main_thread s) (next_pid s) (ticks s) v (mem s) (keyboard_IO_buf s).
Definition set_mem (v : pools) (s : kernel) : kernel :=
  Kernel (mach s) (pg s) (pcbs s) (ready_thread_list s) (all_thread_list s) (esp s) (esp0 s)
    (main_thread s) (next_pid s) (ticks s) (locks s) v (keyboard_IO_buf s).
Definition set_ioq (v : ioqueue) (s : kernel) : kernel :=
  Kernel (mach s) (pg s) (pcbs s) (ready_thread_list s) (all_thread_list s) (esp s) (esp0 s)
    (main_thread s) (next_pid s) (ticks s) (locks s) (mem s) v.

(** Code that runs on one part of the state. *)
Definition on_mach {A} : M machine A -> M kernel A := zoom mach set_mach.
Definition on_pg {A} : M paging A -> M kernel A := zoom pg set_pg.

(** What one thread does not see: [others s] is the state in which a thread that was switched away in
    state [s] gets the CPU back; [noise pa] is the byte at physical address [pa] when its page is
    given out; [arg_slot s] is the stack address of the parameter of [PageUnmapping]. *)
Class Env := { others : kernel -> kernel; noise : Z -> Z; arg_slot : kernel -> Z }.

Definition get_pcb (p : Z) : M kernel PCB := fun s =>
  match pcbs s !! p with Some c => Ret (c, s) | None => Fault p end.
Definition upd_pcb (p : Z) (f : PCB -> PCB) : M kernel unit := fun s =>
  match pcbs s !! p with
  | Some c => Ret (tt, set_pcbs (<[p := f c]> (pcbs s)) s)
  | None => Fault p
  end.

(** A call of list.c on one of the lists of threads. *)
Definition on_list (g : kernel -> list Z) (p : list Z -> kernel -> kernel) (op : list_op) : M kernel Z :=
  fun s => match seq_op (g s) op with Some (xs, r) => Ret (r, p xs s) | None => Fault 0 end.
Definition on_ready : list_op -> M kernel Z := on_list ready_thread_list set_ready.
Definition on_all : list_op -> M kernel Z := on_list all_thread_list set_all.

Lemma on_mach_ok {A} (m : M machine A) s a c :
  m (mach s) = Ret (a, c) -> on_mach m s = Ret (a, set_mach c s).
Proof. intros H. unfold on_mach, zoom. by rewrite H. Qed.

Lemma on_pg_ok {A} (m : M paging A) s a c :
  m (pg s) = Ret (a, c) -> on_pg m s = Ret (a, set_pg c s).
Proof. intros H. unfold on_pg, zoom. by rewrite H. Qed.

Lemma get_pcb_ok s p c : pcbs s !! p = Some c -> get_pcb p s = Ret (c, s).
Proof. unfold get_pcb. by intros ->. Qed.

Lemma upd_pcb_ok s p f c : pcbs s !! p = Some c ->
  upd_pcb p f s = Ret (tt, set_pcbs (<[p := f c]> (pcbs s)) s).
Proof. unfold upd_pcb. by intros ->. Qed.

Lemma set_mach_id s : set_mach (mach s) s = s.
Proof. by destruct s. Qed.

Lemma set_pg_id s : set_pg (pg s) s = s.
Proof. by destruct s. Qed.

(** Code that only reads. *)
Lemma on_mach_get {A} (m : M machine A) s a : m (mach s) = Ret (a, mach s) -> on_mach m s = Ret (a, s).
Proof. intros H. by rewrite (on_mach_ok _ _ _ _ H), set_mach_id. Qed.

Lemma on_pg_get {A} (m : M paging A) s a : m (pg s) = Ret (a, pg s) -> on_pg m s = Ret (a, s).
Proof. intros H. by rewrite (on_pg_ok _ _ _ _ H), set_pg_id. Qed.
