(* ===== verification/Sched.v ===== *)
(** * thread/thread.c: the scheduler

    [ScheduleThread], [BlockThread] and [UnblockThread] with the context switch of
    thread/switch.S, the address space switch of userprog/process.c and [UpdateTssEsp] of
    userprog/tss.c.  A thread that is switched away continues in the state [others] describes. *)
From stdpp Require Import base list gmap strings.
From S2P Require Import Prelude Machine Print Interrupt KList Paging State.

Definition GetCurrentThreadPCB : M kernel Z := fun s => Ret (Z.land (esp s) 0xFFFFF000, s).

(** [switch_to]: the return address and four registers go to the stack before [esp] is stored, and
    come from the stack of the next thread. *)
Definition switch_to (current_thread next_thread : Z) : M kernel unit :=
  let* s := get in
  upd_pcb current_thread (set_stack (u32 (esp s - 20))) ;;;
  let* n := get_pcb next_thread in
  modify (set_esp (u32 (self_kernel_stack n + 20))).

Definition UpdateTssEsp (pthread : Z) : M kernel unit := modify (set_esp0 (u32 (pthread + PAGE_SIZE))).

Definition ActivePDE (pthread : Z) : M kernel unit :=
  let* c := get_pcb pthread in
  let* PDE_physic_addr :=
    (if negb (PDE_addr c =? 0) then on_pg (VirtualAddrToPhysicAddr (PDE_addr c)) else ret 0x100000) in
  modify (fun s => set_pg (set_cr3 PDE_physic_addr (pg s)) s).

Definition ActiveProcess (pthread : Z) : M kernel unit :=
  ASSERT (negb (pthread =? 0)) "ActiveProcess" 110 ;;;
  ActivePDE pthread ;;;
  let* c := get_pcb pthread in
  if negb (PDE_addr c =? 0) then UpdateTssEsp pthread else ret tt.

Definition ScheduleThread : M kernel unit :=
  let* st := on_mach GetIntStatus in
  ASSERT (bool_decide (st = INT_OFF)) "ScheduleThread" 49 ;;;
  let* current_thread := GetCurrentThreadPCB in
  let* c := get_pcb current_thread in
  (if bool_decide (status c = TASK_RUNNING) then
     let* found := on_ready (Find (general_tag current_thread)) in
     ASSERT (negb (is_true_c found)) "ScheduleThread" 54 ;;;
     on_ready (Append (general_tag current_thread)) ;;;
     upd_pcb current_thread (fun c => set_ticks_left (priority c) c) ;;;
     upd_pcb current_thread (set_status TASK_READY)
   else ret tt) ;;;
  let* empty := on_ready Empty in
  ASSERT (negb (is_true_c empty)) "ScheduleThread" 65 ;;;
  let* thread_tag := on_ready Pop in
  let next_thread := pcb_of_general_tag thread_tag in
  upd_pcb next_thread (set_status TASK_RUNNING) ;;;
  ActiveProcess next_thread ;;;
  switch_to current_thread next_thread.

(** [BlockThread] up to the switch, and the rest of it when the thread runs again. *)
Definition BlockThread_switch (stat : task_status) : M kernel int_status :=
  ASSERT (bool_decide (stat = TASK_BLOCKD) || bool_decide (stat = TASK_WAITING) ||
          bool_decide (stat = TASK_HANGING)) "BlockThread" 147 ;;;
  let* old_int_statu := on_mach DisableInt in
  let* current_thread := GetCurrentThreadPCB in
  upd_pcb current_thread (set_status stat) ;;;
  ScheduleThread ;;;
  ret old_int_statu.

Definition BlockThread `{Env} (stat : task_status) : M kernel unit :=
  let* old_int_statu := BlockThread_switch stat in
  modify others ;;;
  let* _ := on_mach (SetIntStatus old_int_statu) in
  ret tt.

Definition UnblockThread (pthread : Z) : M kernel unit :=
  let* old_int_statu := on_mach DisableInt in
  let* c := get_pcb pthread in
  ASSERT (bool_decide (status c = TASK_BLOCKD) || bool_decide (status c = TASK_HANGING) ||
          bool_decide (status c = TASK_WAITING)) "UnblockThread" 160 ;;;
  (if negb (bool_decide (status c = TASK_READY)) then
     let* found := on_ready (Find (general_tag pthread)) in
     ASSERT (negb (is_true_c found)) "UnblockThread" 165 ;;;
     let* found := on_ready (Find (general_tag pthread)) in
     (if is_true_c found then
        on_mach (sys_putstr_bytes (10 :: literal "try to unblock thread, PCB address: 0x")) ;;;
        on_mach (sys_puthex pthread) ;;;
        panic "UnblockThread" 170
      else ret tt) ;;;
     on_ready (Push (general_tag pthread)) ;;;
     upd_pcb pthread (set_status TASK_READY)
   else ret tt) ;;;
  let* _ := on_mach (SetIntStatus old_int_statu) in
  ret tt.

(** ** The scheduler's invariant *)

Definition cur (s : kernel) : Z := Z.land (esp s) 0xFFFFF000.

(** A PCB lies at the bottom of a page, its kernel stack above it. *)
Definition thread_page (p : Z) : Prop := 0 < p /\ p + 4096 < 2 ^ 32 /\ p mod 4096 = 0.

(** [dirs p] is the physical page directory of the thread at [p]: every directory in use maps the
    pages of all directories alike, so that [ActivePDE] finds them whatever [cr3] is. *)
Definition spaces_ok (dirs : Z -> Z) (s : kernel) : Prop :=
  forall p c, pcbs s !! p = Some c ->
    (PDE_addr c = 0 -> dirs p = 0x100000) /\
    (PDE_addr c <> 0 -> forall q, is_Some (pcbs s !! q) ->
       VirtualAddrToPhysicAddr (PDE_addr c) (set_cr3 (dirs q) (pg s)) =
         Ret (dirs p, set_cr3 (dirs q) (pg s))).

(** The state of the threads while the current one has status [st]. *)
Record sched_ok (dirs : Z -> Z) (st : task_status) (s : kernel) : Prop := {
  so_cur : exists c, pcbs s !! cur s = Some c /\ status c = st;
  so_page : forall p c, pcbs s !! p = Some c -> thread_page p /\ canary c = STACK_CANARY;
  so_nodup : NoDup (ready_thread_list s);
  so_ready : forall tag, tag ∈ ready_thread_list s <->
    exists p c, pcbs s !! p = Some c /\ tag = general_tag p /\ status c = TASK_READY;
  so_running : forall p c, pcbs s !! p = Some c -> status c = TASK_RUNNING -> p = cur s;
  so_esp : 0 <= esp s < 2 ^ 32;
  so_stack : forall p c, pcbs s !! p = Some c -> p <> cur s ->
    Z.land (u32 (self_kernel_stack c + 20)) 0xFFFFF000 = p;
  so_spaces : spaces_ok dirs s;
  so_cr3 : cr3 (pg s) = dirs (cur s);
  so_esp0 : forall c, pcbs s !! cur s = Some c -> PDE_addr c <> 0 -> esp0 s = cur s + 4096
}.

(** What a switch leaves alone. *)
Record switch_frame (s s' : kernel) : Prop := {
  sf_mach : mach s' = mach s;
  sf_phys : phys (pg s') = phys (pg s);
  sf_all : all_thread_list s' = all_thread_list s;
  sf_main : main_thread s' = main_thread s;
  sf_pid : next_pid s' = next_pid s;
  sf_ticks : ticks s' = ticks s;
  sf_locks : locks s' = locks s;
  sf_mem : mem s' = mem s;
  sf_ioq : keyboard_IO_buf s' = keyboard_IO_buf s
}.

Lemma general_tag_eq p : thread_page p -> general_tag p = p + 32.
Proof. intros (? & ? & ?). apply u32_id. lia. Qed.

Lemma pcb_of_general_tag_eq p : thread_page p -> pcb_of_general_tag (general_tag p) = p.
Proof.
  intros Hp. rewrite general_tag_eq by done. destruct Hp as (? & ? & ?).
  unfold pcb_of_general_tag, elem2entry. rewrite u32_id; lia.
Qed.

Lemma general_tag_inj p q : thread_page p -> thread_page q -> general_tag p = general_tag q -> p = q.
Proof. intros Hp Hq E. rewrite !general_tag_eq in E by done. lia. Qed.

Lemma on_ready_ok s op xs r :
  seq_op (ready_thread_list s) op = Some (xs, r) -> on_ready op s = Ret (r, set_ready xs s).
Proof. unfold on_ready, on_list. by intros ->. Qed.

Lemma set_ready_id s : set_ready (ready_thread_list s) s = s.
Proof. by destruct s. Qed.

Lemma find_ready s tag :
  on_ready (Find tag) s = Ret (c_bool (bool_decide (tag ∈ ready_thread_list s)), s).
Proof. unfold on_ready, on_list. cbn [seq_op]. by rewrite set_ready_id. Qed.

Lemma empty_ready s :
  on_ready Empty s = Ret (c_bool (bool_decide (ready_thread_list s = [])), s).
Proof. unfold on_ready, on_list. cbn [seq_op]. by rewrite set_ready_id. Qed.

Lemma GetIntStatus_kernel s : on_mach GetIntStatus s = Ret (if_flag (eflags (mach s)), s).
Proof. unfold on_mach, zoom, GetIntStatus. by rewrite set_mach_id. Qed.

Lemma cur_not_ready dirs st s : sched_ok dirs st s -> st <> TASK_READY ->
  general_tag (cur s) ∉ ready_thread_list s.
Proof.
  intros [[c [Hc Hst]] Hp _ Hr _ _ _ _ _ _] Hne Hin. apply Hr in Hin as (p & c' & Hc' & E & Hs).
  apply general_tag_inj in E; [|eapply Hp; eauto..]. subst p. congruence.
Qed.

(** ** The three steps of [ScheduleThread] *)

(** Putting the running thread back into the queue. *)
Definition requeued (s : kernel) (c : PCB) : kernel :=
  set_pcbs (<[cur s := set_status TASK_READY (set_ticks_left (priority c) c)]> (pcbs s))
    (set_ready (ready_thread_list s ++ [general_tag (cur s)]) s).

Lemma requeued_stack s c p c' : pcbs s !! cur s = Some c -> pcbs (requeued s c) !! p = Some c' ->
  exists c0, pcbs s !! p = Some c0 /\ canary c' = canary c0 /\ PDE_addr c' = PDE_addr c0 /\
    self_kernel_stack c' = self_kernel_stack c0 /\
    status c' = (if decide (p = cur s) then TASK_READY else status c0).
Proof.
  intros Hc. cbn [requeued pcbs set_pcbs]. rewrite lookup_insert.
  destruct (decide (cur s = p)) as [<-|].
  - intros [= <-]. exists c. by rewrite decide_True.
  - intros H. exists c'. rewrite decide_False by done. done.
Qed.

Lemma requeued_ok dirs s c :
  sched_ok dirs TASK_RUNNING s -> pcbs s !! cur s = Some c ->
  sched_ok dirs TASK_READY (requeued s c).
Proof.
  intros Hok Hc. pose proof (cur_not_ready _ _ _ Hok) as Hnr.
  destruct Hok as [[c1 [Hc1 Hst]] Hp Hnd Hr Hrun Hesp Hstk Hsp Hcr Hes0].
  assert (c1 = c) as -> by congruence.
  assert (cur (requeued s c) = cur s) as Ecur by done.
  constructor; rewrite ?Ecur.
  - exists (set_status TASK_READY (set_ticks_left (priority c) c)). cbn. by rewrite lookup_insert_eq.
  - intros p c' H. destruct (requeued_stack _ _ _ _ Hc H) as (c0 & H0 & -> & _). by apply Hp.
  - apply NoDup_app. split_and!; [done| |apply NoDup_singleton].
    intros x Hx ->%list_elem_of_singleton. by apply Hnr.
  - intros tag. cbn [requeued ready_thread_list set_ready set_pcbs]. rewrite elem_of_app, Hr. split.
    + intros [(p & c' & H' & -> & Hs')| ->%list_elem_of_singleton].
      * exists p, c'. split; [|done]. cbn. rewrite lookup_insert_ne; [done|]. intros <-. congruence.
      * eexists _, _. split; [cbn; apply lookup_insert_eq|]. done.
    + intros (p & c' & H' & -> & Hs'). destruct (requeued_stack _ _ _ _ Hc H') as (c0 & H0 & _ & _ & _ & E).
      destruct (decide (p = cur s)) as [->|]; [right; by left|]. left. exists p, c0. by rewrite <- E.
  - intros p c' H' Hs'. destruct (requeued_stack _ _ _ _ Hc H') as (c0 & H0 & _ & _ & _ & E).
    destruct (decide (p = cur s)); [done|]. apply (Hrun p c0); congruence.
  - done.
  - intros p c' H' Hne. destruct (requeued_stack _ _ _ _ Hc H') as (c0 & H0 & _ & _ & -> & _). by apply (Hstk p).
  - intros p c' H'. destruct (requeued_stack _ _ _ _ Hc H') as (c0 & H0 & _ & E & _).
    rewrite E. destruct (Hsp p c0 H0) as [H1 H2]. split; [done|]. intros Hne q [c2 Hq].
    destruct (requeued_stack _ _ _ _ Hc Hq) as (c3 & H3 & _). apply H2; eauto.
  - done.
  - intros c' H' Hne. destruct (requeued_stack _ _ _ _ Hc H') as (c0 & H0 & _ & E & _).
    apply (Hes0 c0); congruence.
Qed.

Definition activated (n d : Z) (c : PCB) (s : kernel) : kernel :=
  let s1 := set_pg (set_cr3 d (pg s)) s in
  if PDE_addr c =? 0 then s1 else set_esp0 (u32 (n + PAGE_SIZE)) s1.

Lemma ActiveProcess_ok s n c d :
  pcbs s !! n = Some c -> n <> 0 -> (PDE_addr c = 0 -> d = 0x100000) ->
  (PDE_addr c <> 0 -> VirtualAddrToPhysicAddr (PDE_addr c) (pg s) = Ret (d, pg s)) ->
  ActiveProcess n s = Ret (tt, activated n d c s).
Proof.
  intros Hc Hn H0 H1. unfold ActiveProcess, ActivePDE, activated.
  rewrite (bind_Ret _ _ s tt s) by (apply ASSERT_true; lia).
  rewrite bind_assoc, (bind_Ret _ _ _ _ _ (get_pcb_ok _ _ _ Hc)).
  destruct (Z.eqb_spec (PDE_addr c) 0) as [E|E]; cbn [negb]; rewrite bind_assoc.
  - rewrite <- (H0 E). unfold bind, ret, modify, get_pcb. cbn [pcbs set_pg]. by rewrite Hc, E.
  - rewrite (bind_Ret _ _ s d s) by (rewrite (on_pg_ok _ _ _ _ (H1 E)); by rewrite set_pg_id).
    unfold bind, modify, get_pcb. cbn [pcbs set_pg]. rewrite Hc.
    by replace (PDE_addr c =? 0) with false by lia.
Qed.

Lemma activated_fields n d c s :
  pcbs (activated n d c s) = pcbs s /\ ready_thread_list (activated n d c s) = ready_thread_list s /\
  esp (activated n d c s) = esp s /\ pg (activated n d c s) = set_cr3 d (pg s) /\
  switch_frame s (activated n d c s) /\
  (PDE_addr c <> 0 -> esp0 (activated n d c s) = u32 (n + PAGE_SIZE)).
Proof. unfold activated. destruct (Z.eqb_spec (PDE_addr c) 0); done. Qed.

(** The PCB of [p] after the switch from the current thread to [n]. *)
Definition switched (s : kernel) (n p : Z) (c : PCB) : PCB :=
  let c := if decide (p = n) then set_status TASK_RUNNING c else c in
  if decide (p = cur s) then set_stack (u32 (esp s - 20)) c else c.

Lemma switched_static s n p c :
  canary (switched s n p c) = canary c /\ PDE_addr (switched s n p c) = PDE_addr c /\
  priority (switched s n p c) = priority c /\
  cpu_ticks_left (switched s n p c) = cpu_ticks_left c /\
  status (switched s n p c) = (if decide (p = n) then TASK_RUNNING else status c) /\
  (p <> cur s -> self_kernel_stack (switched s n p c) = self_kernel_stack c) /\
  (p = cur s -> self_kernel_stack (switched s n p c) = u32 (esp s - 20)).
Proof. unfold switched. repeat case_decide; done. Qed.

Lemma switch_to_ok s n cc cn :
  pcbs s !! cur s = Some cc -> pcbs s !! n = Some cn ->
  switch_to (cur s) n s =
    Ret (tt, set_esp (u32 (self_kernel_stack (if decide (n = cur s)
                 then set_stack (u32 (esp s - 20)) cn else cn) + 20))
               (set_pcbs (<[cur s := set_stack (u32 (esp s - 20)) cc]> (pcbs s)) s)).
Proof.
  intros Hc Hn. unfold switch_to, bind, get. rewrite (upd_pcb_ok _ _ _ _ Hc).
  unfold get_pcb. cbn [pcbs set_pcbs]. rewrite lookup_insert.
  destruct (decide (cur s = n)) as [<-|].
  - rewrite decide_True by done. assert (cn = cc) as -> by congruence. done.
  - rewrite decide_False by done. by rewrite Hn.
Qed.

Lemma saved_esp e : 0 <= e < 2 ^ 32 -> u32 (u32 (e - 20) + 20) = e.
Proof.
  intros He. unfold u32. rewrite Zplus_mod_idemp_l. replace (e - 20 + 20) with e by lia.
  apply Z.mod_small. lia.
Qed.

(** Running the first thread of the queue. *)
Definition dispatch (current_thread : Z) : M kernel unit :=
  let* thread_tag := on_ready Pop in
  let next_thread := pcb_of_general_tag thread_tag in
  upd_pcb next_thread (set_status TASK_RUNNING) ;;;
  ActiveProcess next_thread ;;;
  switch_to current_thread next_thread.

Lemma switched_inv s s' n p c' :
  (forall p, pcbs s' !! p = switched s n p <$> pcbs s !! p) ->
  pcbs s' !! p = Some c' -> exists c, pcbs s !! p = Some c /\ c' = switched s n p c.
Proof. intros Hpcbs H. rewrite Hpcbs in H. destruct (pcbs s !! p) as [c|]; [|done]. injection H as <-. eauto. Qed.

Lemma switched_status s n p c :
  status (switched s n p c) = if decide (p = n) then TASK_RUNNING else status c.
Proof. apply switched_static. Qed.

(** The queue after its first thread has been taken out and set running. *)
Lemma switched_ready dirs st s s' n rest :
  sched_ok dirs st s -> ready_thread_list s = general_tag n :: rest -> thread_page n ->
  (forall p, pcbs s' !! p = switched s n p <$> pcbs s !! p) ->
  forall tag, tag ∈ rest <->
    exists p c, pcbs s' !! p = Some c /\ tag = general_tag p /\ status c = TASK_READY.
Proof.
  intros [_ Hp Hnd Hr _ _ _ _ _ _] Erl Hpn Hpcbs tag.
  rewrite Erl in Hnd. apply NoDup_cons in Hnd as [Hnin _]. split.
  - intros Hin. destruct (proj1 (Hr tag)) as (p & c & H0 & -> & Hs0); [rewrite Erl; by right|].
    exists p, (switched s n p c). rewrite Hpcbs, H0, switched_status, decide_False by (by intros ->).
    done.
  - intros (p & c' & H & -> & Hs'). destruct (switched_inv _ _ _ _ _ Hpcbs H) as (c & H0 & ->).
    rewrite switched_status in Hs'. destruct (decide (p = n)); [done|].
    assert (general_tag p ∈ ready_thread_list s) as Hin by (apply Hr; eauto).
    rewrite Erl in Hin. apply elem_of_cons in Hin as [Heq|]; [|done].
    apply general_tag_inj in Heq; [done|by eapply Hp|done].
Qed.

Lemma switched_ok dirs st s s' n cn rest :
  sched_ok dirs st s -> st <> TASK_RUNNING -> ready_thread_list s = general_tag n :: rest ->
  pcbs s !! n = Some cn -> (forall p, pcbs s' !! p = switched s n p <$> pcbs s !! p) ->
  cur s' = n -> 0 <= esp s' < 2 ^ 32 -> ready_thread_list s' = rest ->
  pg s' = set_cr3 (dirs n) (pg s) -> (PDE_addr cn <> 0 -> esp0 s' = n + 4096) ->
  sched_ok dirs TASK_RUNNING s'.
Proof.
  intros Hok Hne Erl Hn Hpcbs Ecur Hesp' Erl' Epg Hes.
  pose proof Hok as [[cc [Hc Hst]] Hp Hnd Hr Hrun Hesp Hstk Hsp Hcr Hes0].
  constructor; rewrite ?Ecur.
  - exists (switched s n n cn). rewrite Hpcbs, Hn. split; [done|]. by rewrite switched_status, decide_True.
  - intros p c' H. destruct (switched_inv _ _ _ _ _ Hpcbs H) as (c & H0 & ->).
    destruct (switched_static s n p c) as (-> & _). by apply Hp.
  - rewrite Erl'. rewrite Erl in Hnd. by apply NoDup_cons in Hnd as [_ ?].
  - rewrite Erl'. apply (switched_ready dirs st s s' n rest); try done. by eapply Hp.
  - intros p c' H Hs'. destruct (switched_inv _ _ _ _ _ Hpcbs H) as (c & H0 & ->).
    rewrite switched_status in Hs'. destruct (decide (p = n)); [done|]. exfalso. apply Hne.
    assert (p = cur s) as -> by (by apply (Hrun p c)). congruence.
  - done.
  - intros p c' H Hpn'. destruct (switched_inv _ _ _ _ _ Hpcbs H) as (c & H0 & ->).
    destruct (switched_static s n p c) as (_ & _ & _ & _ & _ & E1 & E2).
    destruct (decide (p = cur s)) as [->|Hpc]; [rewrite E2, saved_esp by done; done|].
    rewrite E1 by done. by apply (Hstk p c).
  - intros p c' H. destruct (switched_inv _ _ _ _ _ Hpcbs H) as (c & H0 & ->).
    destruct (switched_static s n p c) as (_ & -> & _). destruct (Hsp p c H0) as [H1 H2].
    split; [done|]. intros E q [cq Hq]. destruct (switched_inv _ _ _ _ _ Hpcbs Hq) as (c2 & H3 & _).
    rewrite Epg. apply (H2 E q). eauto.
  - by rewrite Epg.
  - intros c' H. destruct (switched_inv _ _ _ _ _ Hpcbs H) as (c & H0 & ->).
    destruct (switched_static s n n c) as (_ & -> & _). intros E. apply Hes. congruence.
Qed.

Lemma dispatch_ok dirs st s tag rest :
  sched_ok dirs st s -> st <> TASK_RUNNING -> ready_thread_list s = tag :: rest ->
  exists s', dispatch (cur s) s = Ret (tt, s') /\ sched_ok dirs TASK_RUNNING s' /\
    tag = general_tag (cur s') /\ ready_thread_list s' = rest /\ switch_frame s s' /\
    forall p, pcbs s' !! p = switched s (cur s') p <$> pcbs s !! p.
Proof.
  intros Hok Hne Erl. pose proof Hok as [[cc [Hc Hst]] Hp Hnd Hr Hrun Hesp Hstk Hsp Hcr Hes0].
  destruct (proj1 (Hr tag)) as (n & cn & Hn & -> & Hsn); [rewrite Erl; left|].
  destruct (Hp n cn Hn) as [Hpn _]. destruct (Hsp n cn Hn) as [Hd0 Hd1].
  set (s1 := set_pcbs (<[n := set_status TASK_RUNNING cn]> (pcbs s)) (set_ready rest s)).
  set (s2 := activated n (dirs n) (set_status TASK_RUNNING cn) s1).
  destruct (activated_fields n (dirs n) (set_status TASK_RUNNING cn) s1) as (F1 & F2 & F3 & F4 & F5 & F6).
  fold s2 in F1, F2, F3, F4, F5, F6.
  assert (cur s2 = cur s) as Ecur2 by (unfold cur; by rewrite F3).
  assert (pcbs s2 !! n = Some (set_status TASK_RUNNING cn)) as Hn2 by (rewrite F1; apply lookup_insert_eq).
  set (cc2 := if decide (n = cur s) then set_status TASK_RUNNING cc else cc).
  assert (pcbs s2 !! cur s2 = Some cc2) as Hc2.
  { rewrite F1, Ecur2. cbn [s1 pcbs set_pcbs]. rewrite lookup_insert. unfold cc2.
    case_decide as E; [|done]. rewrite <- E in Hc. congruence. }
  pose proof (switch_to_ok s2 n cc2 _ Hc2 Hn2) as Hsw. rewrite Ecur2, F3 in Hsw.
  change (esp s1) with (esp s) in Hsw.
  match type of Hsw with _ = Ret (tt, ?x) => set (s3 := x) in Hsw end.
  assert (dispatch (cur s) s = Ret (tt, s3)) as Hrun3.
  { unfold dispatch. rewrite (bind_Ret _ _ _ (general_tag n) (set_ready rest s))
      by (apply on_ready_ok; by rewrite Erl).
    rewrite pcb_of_general_tag_eq by done.
    rewrite (bind_Ret _ _ _ _ _ (upd_pcb_ok (set_ready rest s) n _ cn Hn)). fold s1.
    rewrite (bind_Ret _ _ s1 tt s2); [exact Hsw|].
    apply ActiveProcess_ok; [apply lookup_insert_eq|destruct Hpn; lia|done|].
    intros E. specialize (Hd1 E (cur s) (mk_is_Some _ _ Hc)). rewrite <- Hcr in Hd1.
    change (pg s1) with (pg s). by destruct (pg s). }
  assert (cur s3 = n) as Ecur3.
  { unfold cur at 1. cbn [s3 esp set_esp]. destruct (decide (n = cur s)) as [E|E].
    - cbn [self_kernel_stack set_stack]. rewrite saved_esp by done. by rewrite E.
    - by apply (Hstk n cn). }
  assert (forall p, pcbs s3 !! p = switched s n p <$> pcbs s !! p) as Hpcbs.
  { intros p. cbn [s3 pcbs set_esp set_pcbs]. rewrite F1. unfold switched, cc2.
    cbn [s1 pcbs set_pcbs]. rewrite !lookup_insert.
    destruct (decide (cur s = p)) as [<-|Hcp].
    - rewrite Hc. cbn [fmap option_fmap option_map]. rewrite (decide_True (P := cur s = cur s)) by done.
      repeat case_decide; congruence.
    - destruct (decide (n = p)) as [<-|Hnp].
      + rewrite Hn. cbn [fmap option_fmap option_map]. rewrite decide_False by congruence.
        by rewrite decide_True by done.
      + destruct (pcbs s !! p); cbn [fmap option_fmap option_map]; [|done].
        by rewrite !decide_False by congruence. }
  assert (ready_thread_list s3 = rest) as Erl3 by (cbn; by rewrite F2).
  exists s3. rewrite Ecur3. split_and!; try done.
  - apply (switched_ok dirs st s s3 n cn rest); try done; [apply u32_range|].
    intros E. change (esp0 s3) with (esp0 s2). rewrite F6 by done. destruct Hpn as (? & ? & _).
    apply u32_id. unfold PAGE_SIZE. lia.
  - destruct F5. by constructor.
Qed.

(** ** [ScheduleThread] *)

(** The queue the next thread is taken from. *)
Definition run_queue (s : kernel) (st : task_status) : list Z :=
  if decide (st = TASK_RUNNING) then ready_thread_list s ++ [general_tag (cur s)] else ready_thread_list s.

(** The PCB of [p] after [ScheduleThread] switched from [s] to [n]. *)
Definition scheduled (s : kernel) (n p : Z) (c : PCB) : PCB :=
  let c := if decide (p = cur s /\ status c = TASK_RUNNING)
           then set_status TASK_READY (set_ticks_left (priority c) c) else c in
  switched s n p c.

Lemma schedule_ok dirs st s tag rest :
  sched_ok dirs st s -> st <> TASK_READY -> if_flag (eflags (mach s)) = INT_OFF ->
  run_queue s st = tag :: rest ->
  exists s', ScheduleThread s = Ret (tt, s') /\ sched_ok dirs TASK_RUNNING s' /\
    tag = general_tag (cur s') /\ ready_thread_list s' = rest /\ switch_frame s s' /\
    forall p, pcbs s' !! p = scheduled s (cur s') p <$> pcbs s !! p.
Proof.
  intros Hok Hst Hif Hq. pose proof (cur_not_ready _ _ _ Hok Hst) as Hnr.
  pose proof (so_cur _ _ _ Hok) as (c & Hc & Hcs).
  unfold ScheduleThread. rewrite (bind_Ret _ _ _ _ _ (GetIntStatus_kernel s)), Hif.
  rewrite (bind_Ret _ _ s tt s) by by apply ASSERT_true, bool_decide_true.
  rewrite (bind_Ret _ _ s (cur s) s) by done. rewrite (bind_Ret _ _ _ _ _ (get_pcb_ok _ _ _ Hc)).
  unfold run_queue in Hq. rewrite Hcs. destruct (decide (st = TASK_RUNNING)) as [->|Hnrun].
  - rewrite bool_decide_true by done.
    destruct (dispatch_ok dirs TASK_READY (requeued s c) tag rest) as (s' & Hd & H1 & H2 & H3 & H4 & H5);
      [by apply requeued_ok|done|done|].
    exists s'. change (cur (requeued s c)) with (cur s) in Hd. split_and!; try done.
    + rewrite bind_assoc, (bind_Ret _ _ _ _ _ (find_ready _ _)), bool_decide_false by done.
      rewrite bind_assoc, (bind_Ret _ _ s tt s) by done.
      rewrite bind_assoc, (bind_Ret _ _ s 0 _ (on_ready_ok s (Append _) _ _ eq_refl)).
      rewrite bind_assoc, (bind_Ret _ _ _ _ _ (upd_pcb_ok (set_ready _ s) (cur s) _ c Hc)).
      rewrite (bind_Ret _ _ _ tt (requeued s c)).
      2:{ rewrite (upd_pcb_ok _ _ _ (set_ticks_left (priority c) c)) by apply lookup_insert_eq.
          cbn [pcbs set_pcbs]. rewrite insert_insert_eq. done. }
      rewrite (bind_Ret _ _ _ _ _ (empty_ready _)).
      rewrite bool_decide_false by (cbn; by destruct (ready_thread_list s)).
      rewrite (bind_Ret _ _ _ tt (requeued s c)) by done. exact Hd.
    + destruct H4. by constructor.
    + intros p. rewrite H5. cbn [requeued pcbs set_pcbs]. rewrite lookup_insert. unfold scheduled.
      destruct (decide (cur s = p)) as [<-|Hne].
      * rewrite Hc. cbn [fmap option_fmap option_map]. by rewrite decide_True.
      * destruct (pcbs s !! p); cbn [fmap option_fmap option_map]; [|done].
        by rewrite decide_False by (intros [? _]; congruence).
  - rewrite bool_decide_false by done. rewrite (bind_Ret _ _ s tt s) by done.
    rewrite (bind_Ret _ _ _ _ _ (empty_ready _)), bool_decide_false by (by rewrite Hq).
    rewrite (bind_Ret _ _ _ tt s) by done.
    destruct (dispatch_ok dirs st s tag rest Hok Hnrun Hq) as (s' & Hd & H1 & H2 & H3 & H4 & H5).
    exists s'. split_and!; try done.
    intros p. rewrite H5. destruct (pcbs s !! p) as [c'|] eqn:Hp; [|done].
    cbn [fmap option_fmap option_map]. unfold scheduled. rewrite decide_False; [done|].
    intros [-> Hr]. congruence.
Qed.

(** C5: [ScheduleThread], called with interrupts off, appends a running thread to the queue and
    refills its time slice, then runs the first thread of the queue: it becomes the current
    thread (the one whose stack [esp] is in), its address space and [esp0] are loaded, and the
    invariant of the scheduler holds again.  A blocked thread is not queued; when no thread is
    ready the assertion of line 65 fails; with interrupts on the one of line 49 does. *)
Theorem ScheduleThread_correct dirs st s :
  sched_ok dirs st s -> st <> TASK_READY ->
  if decide (if_flag (eflags (mach s)) = INT_OFF) then
    match run_queue s st with
    | [] => ScheduleThread s = Panic "ScheduleThread" 65
    | tag :: rest => exists s', ScheduleThread s = Ret (tt, s') /\ sched_ok dirs TASK_RUNNING s' /\
        tag = general_tag (cur s') /\ ready_thread_list s' = rest /\ switch_frame s s' /\
        forall p, pcbs s' !! p = scheduled s (cur s') p <$> pcbs s !! p
    end
  else ScheduleThread s = Panic "ScheduleThread" 49.
Proof.
  intros Hok Hst. destruct (decide _) as [Hif|Hif].
  - destruct (run_queue s st) as [|tag rest] eqn:Hq; [|by apply (schedule_ok dirs st)].
    unfold run_queue in Hq. pose proof (so_cur _ _ _ Hok) as (c & Hc & Hcs).
    destruct (decide (st = TASK_RUNNING)); [by destruct (ready_thread_list s)|].
    unfold ScheduleThread. rewrite (bind_Ret _ _ _ _ _ (GetIntStatus_kernel s)), Hif.
    rewrite (bind_Ret _ _ s tt s) by by apply ASSERT_true, bool_decide_true.
    rewrite (bind_Ret _ _ s (cur s) s), (bind_Ret _ _ _ _ _ (get_pcb_ok _ _ _ Hc)) by done.
    rewrite bool_decide_false, (bind_Ret _ _ s tt s) by (done || congruence).
    rewrite (bind_Ret _ _ _ _ _ (empty_ready _)), Hq. by apply bind_Panic.
  - unfold ScheduleThread. rewrite (bind_Ret _ _ _ _ _ (GetIntStatus_kernel s)).
    apply bind_Panic, ASSERT_false. by apply bool_decide_false.
Qed.

(** Calling [m] several times. *)
Fixpoint repeat_m {S} (n : nat) (m : M S unit) : M S unit :=
  match n with O => ret tt | Datatypes.S n' => m ;;; repeat_m n' m end.

(** C6: round robin: in a system whose running thread is only ever switched away by [ScheduleThread],
    the thread at place [i] of the queue (the current thread at its end) gets the CPU at the
    [i + 1]-th call, so every ready thread runs within one round. *)
Theorem round_robin dirs i : forall s tag,
  sched_ok dirs TASK_RUNNING s -> if_flag (eflags (mach s)) = INT_OFF ->
  (ready_thread_list s ++ [general_tag (cur s)]) !! i = Some tag ->
  exists s', repeat_m (S i) ScheduleThread s = Ret (tt, s') /\ sched_ok dirs TASK_RUNNING s' /\
    general_tag (cur s') = tag.
Proof.
  induction i as [|i IH]; intros s tag Hok Hif Hi.
  - destruct (ready_thread_list s ++ [general_tag (cur s)]) as [|t rest] eqn:Hq; [done|].
    injection Hi as ->. destruct (schedule_ok dirs TASK_RUNNING s tag rest) as (s' & H1 & H2 & H3 & _); try done.
    exists s'. split; [|done]. cbn [repeat_m]. by rewrite (bind_Ret _ _ _ _ _ H1).
  - destruct (ready_thread_list s ++ [general_tag (cur s)]) as [|t rest] eqn:Hq; [done|].
    destruct (schedule_ok dirs TASK_RUNNING s t rest) as (s1 & H1 & H2 & H3 & H4 & H5 & _); try done.
    destruct (IH s1 tag) as (s' & H6 & H7); [done|by destruct H5 as [-> _]| |].
    + rewrite H4. by apply lookup_app_l_Some.
    + exists s'. split; [|done]. cbn [repeat_m]. by rewrite (bind_Ret _ _ _ _ _ H1).
Qed.

(** ** Blocking and unblocking *)

Lemma sched_ok_mach dirs st s m : sched_ok dirs st s -> sched_ok dirs st (set_mach m s).
Proof. intros []. by constructor. Qed.

(** Giving the current thread a status that is neither ready nor running. *)
Lemma sched_ok_block dirs s c stat :
  sched_ok dirs TASK_RUNNING s -> pcbs s !! cur s = Some c ->
  stat <> TASK_READY -> stat <> TASK_RUNNING ->
  sched_ok dirs stat (set_pcbs (<[cur s := set_status stat c]> (pcbs s)) s).
Proof.
  intros [[c1 [Hc1 Hst]] Hp Hnd Hr Hrun Hesp Hstk Hsp Hcr Hes0] Hc Hs1 Hs2.
  assert (c1 = c) as -> by congruence.
  set (s' := set_pcbs _ s). assert (cur s' = cur s) as Ecur by done.
  assert (forall p c', pcbs s' !! p = Some c' -> exists c0, pcbs s !! p = Some c0 /\
    c' = if decide (p = cur s) then set_status stat c0 else c0) as Hinv.
  { intros p c'. cbn [s' pcbs set_pcbs]. rewrite lookup_insert. intros H.
    destruct (decide (cur s = p)) as [<-|]; [|exists c'; by rewrite decide_False by congruence].
    injection H as <-. exists c. by rewrite decide_True by done. }
  constructor; rewrite ?Ecur; try done.
  - eexists. split; [apply lookup_insert_eq|done].
  - intros p c' H. destruct (Hinv p c' H) as (c0 & H0 & ->). case_decide; by apply (Hp p c0).
  - intros tag. change (ready_thread_list s') with (ready_thread_list s). rewrite Hr. split.
    + intros (p & c0 & H0 & -> & E). exists p, c0. split; [|done]. cbn [s' pcbs set_pcbs].
      rewrite lookup_insert_ne; [done|]. intros <-. congruence.
    + intros (p & c' & H & -> & E). destruct (Hinv p c' H) as (c0 & H0 & ->).
      case_decide; [done|]. eauto.
  - intros p c' H E. destruct (Hinv p c' H) as (c0 & H0 & ->). case_decide; [done|]. by apply (Hrun p c0).
  - intros p c' H Hne. destruct (Hinv p c' H) as (c0 & H0 & ->). rewrite decide_False by done.
    by apply (Hstk p).
  - intros p c' H. destruct (Hinv p c' H) as (c0 & H0 & ->). destruct (Hsp p c0 H0) as [H1 H2].
    split; [by case_decide|]. intros E q [cq Hq]. destruct (Hinv q cq Hq) as (c2 & H3 & _).
    case_decide; apply H2; eauto.
  - intros c' H. destruct (Hinv _ c' H) as (c0 & H0 & ->). rewrite decide_True by done. exact (Hes0 c0 H0).
Qed.

(** [BlockThread] up to the switch. *)
Lemma BlockThread_switch_ok dirs s stat c tag rest :
  sched_ok dirs TASK_RUNNING s -> pcbs s !! cur s = Some c ->
  stat = TASK_BLOCKD \/ stat = TASK_WAITING \/ stat = TASK_HANGING ->
  ready_thread_list s = tag :: rest ->
  exists s', BlockThread_switch stat s = Ret (if_flag (eflags (mach s)), s') /\
    sched_ok dirs TASK_RUNNING s' /\ tag = general_tag (cur s') /\ ready_thread_list s' = rest /\
    switch_frame (set_mach (masked (mach s)) s) s' /\
    forall p, pcbs s' !! p =
      switched s (cur s') p <$> (if decide (p = cur s) then Some (set_status stat c) else pcbs s !! p).
Proof.
  intros Hok Hc Hstat Hq. set (s0 := set_mach (masked (mach s)) s).
  set (s1 := set_pcbs (<[cur s := set_status stat c]> (pcbs s)) s0).
  assert (stat <> TASK_READY /\ stat <> TASK_RUNNING) as [Hn1 Hn2] by (destruct Hstat as [->|[->| ->]]; done).
  pose proof (sched_ok_block dirs s0 c stat (sched_ok_mach _ _ _ _ Hok) Hc Hn1 Hn2) as Hok1.
  destruct (schedule_ok dirs stat s1 tag rest Hok1) as (s' & H1 & H2 & H3 & H4 & H5 & H6); try done.
  { cbn. apply if_flag_cli. }
  { unfold run_queue. by rewrite decide_False. }
  exists s'. split; [|split_and!]; try done.
  - unfold BlockThread_switch. rewrite (bind_Ret _ _ s tt s).
    2:{ apply ASSERT_true. destruct Hstat as [->|[->| ->]]; done. }
    rewrite (bind_Ret _ _ _ _ s0 (on_mach_ok _ _ _ _ (DisableInt_ok (mach s)))).
    rewrite (bind_Ret _ _ s0 (cur s) s0) by done.
    rewrite (bind_Ret _ _ _ _ s1 (upd_pcb_ok s0 (cur s) _ c Hc)).
    by rewrite (bind_Ret _ _ _ _ _ H1).
  - destruct H5. by constructor.
  - intros p. rewrite H6. cbn [s1 pcbs set_pcbs]. rewrite lookup_insert. unfold scheduled.
    destruct (decide (cur s = p)) as [<-|Hne].
    + rewrite decide_True by done. cbn [fmap option_fmap option_map]. rewrite decide_False; [done|].
      intros [_ E]. cbn in E. done.
    + rewrite decide_False by done. destruct (pcbs s !! p); [|done].
      cbn [fmap option_fmap option_map]. rewrite decide_False; [done|]. intros [E _]. done.
Qed.

Definition blocked (st : task_status) : Prop :=
  st = TASK_BLOCKD \/ st = TASK_WAITING \/ st = TASK_HANGING.

#[global] Instance blocked_dec st : Decision (blocked st).
Proof. unfold blocked. apply _. Defined.

Definition unblocked (p : Z) (c : PCB) (s : kernel) : kernel :=
  set_pcbs (<[p := set_status TASK_READY c]> (pcbs s)) (set_ready (general_tag p :: ready_thread_list s) s).

Lemma restore_mach s : set_mach (set_eflags (eflags (mach s)) (masked (mach s))) s = s.
Proof. destruct s as [m]. by destruct m. Qed.

Lemma UnblockThread_eq dirs st s p c :
  sched_ok dirs st s -> pcbs s !! p = Some c -> blocked (status c) ->
  UnblockThread p s = Ret (tt, unblocked p c s).
Proof.
  intros [_ Hp Hnd Hr _ _ _ _ _ _] Hc Hb. set (s0 := set_mach (masked (mach s)) s).
  assert (general_tag p ∉ ready_thread_list s) as Hnin.
  { intros Hin. apply Hr in Hin as (q & cq & Hq & E & Es). apply general_tag_inj in E; [|by eapply Hp..].
    subst q. assert (cq = c) as -> by congruence. rewrite Es in Hb. by destruct Hb as [|[|]]. }
  unfold UnblockThread. rewrite (bind_Ret _ _ _ _ s0 (on_mach_ok _ _ _ _ (DisableInt_ok (mach s)))).
  rewrite (bind_Ret _ _ s0 c s0) by by apply get_pcb_ok.
  rewrite (bind_Ret _ _ s0 tt s0).
  2:{ apply ASSERT_true. destruct Hb as [->|[->| ->]]; done. }
  rewrite bool_decide_false by (intros E; rewrite E in Hb; by destruct Hb as [|[|]]). cbn [negb].
  rewrite !bind_assoc, (bind_Ret _ _ _ _ _ (find_ready _ _)), bool_decide_false by done.
  rewrite !bind_assoc, (bind_Ret _ _ s0 tt s0) by done.
  rewrite !bind_assoc, (bind_Ret _ _ _ _ _ (find_ready _ _)), bool_decide_false by done.
  cbn [c_bool is_true_c Z.eqb negb]. rewrite !bind_assoc, (bind_Ret _ _ s0 tt s0) by done.
  rewrite !bind_assoc, (bind_Ret _ _ s0 0 (set_ready (general_tag p :: ready_thread_list s) s0)) by done.
  rewrite (bind_Ret _ _ _ tt (unblocked p c s0)) by by rewrite (upd_pcb_ok _ _ _ c).
  destruct (SetIntStatus_ok (eflags (mach s)) (masked (mach s)) eq_refl) as [old Hold].
  rewrite (bind_Ret _ _ _ _ _ (on_mach_ok _ (unblocked p c s0) _ _ Hold)).
  unfold ret. do 2 f_equal. unfold s0. destruct s as [m]. by destruct m.
Qed.

Lemma unblocked_ok dirs st s p c :
  sched_ok dirs st s -> pcbs s !! p = Some c -> blocked (status c) -> p <> cur s ->
  sched_ok dirs st (unblocked p c s).
Proof.
  intros [[c1 [Hc1 Hst]] Hp Hnd Hr Hrun Hesp Hstk Hsp Hcr Hes0] Hc Hb Hne.
  assert (forall q c', pcbs (unblocked p c s) !! q = Some c' -> exists c0, pcbs s !! q = Some c0 /\
    c' = if decide (q = p) then set_status TASK_READY c0 else c0) as Hinv.
  { intros q c'. cbn [unblocked pcbs set_pcbs]. rewrite lookup_insert. intros H.
    destruct (decide (p = q)) as [<-|]; [|exists c'; by rewrite decide_False by congruence].
    injection H as <-. exists c. by rewrite decide_True by done. }
  assert (general_tag p ∉ ready_thread_list s) as Hnin.
  { intros Hin. apply Hr in Hin as (q & cq & Hq & E & Es). apply general_tag_inj in E; [|by eapply Hp..].
    subst q. assert (cq = c) as -> by congruence. rewrite Es in Hb. by destruct Hb as [|[|]]. }
  constructor; change (cur (unblocked p c s)) with (cur s); try done.
  - exists c1. split; [|done]. cbn [unblocked pcbs set_pcbs]. by rewrite lookup_insert_ne.
  - intros q c' H. destruct (Hinv q c' H) as (c0 & H0 & ->). case_decide; by apply (Hp q c0).
  - cbn. by constructor.
  - intros tag. cbn [unblocked ready_thread_list set_ready set_pcbs]. rewrite elem_of_cons, Hr. split.
    + intros [->|(q & c0 & H0 & -> & E)].
      * exists p, (set_status TASK_READY c). split; [apply lookup_insert_eq|done].
      * exists q, c0. split; [|done]. cbn [unblocked pcbs set_pcbs]. rewrite lookup_insert_ne; [done|].
        intros <-. assert (c0 = c) as -> by congruence. rewrite E in Hb. by destruct Hb as [|[|]].
    + intros (q & c' & H & -> & E). destruct (Hinv q c' H) as (c0 & H0 & ->).
      destruct (decide (q = p)) as [->|]; [by left|]. right. eauto.
  - intros q c' H E. destruct (Hinv q c' H) as (c0 & H0 & ->). case_decide; [done|]. by apply (Hrun q c0).
  - intros q c' H Hq. destruct (Hinv q c' H) as (c0 & H0 & ->). case_decide; by apply (Hstk q c0).
  - intros q c' H. destruct (Hinv q c' H) as (c0 & H0 & ->). destruct (Hsp q c0 H0) as [H1 H2].
    split; [by case_decide|]. intros E r [cr Hrr]. destruct (Hinv r cr Hrr) as (c2 & H3 & _).
    case_decide; apply H2; eauto.
  - intros c' H. destruct (Hinv _ c' H) as (c0 & H0 & ->). rewrite decide_False by done. exact (Hes0 c0 H0).
Qed.

(** [UnblockThread] puts a blocked, waiting or hanging thread at the front of the queue and makes
    it ready, once: a thread in any other state makes the assertion of line 160 fail, so no thread
    is ever queued twice.  The interrupt flag is as before. *)
Theorem UnblockThread_correct dirs s p c :
  sched_ok dirs TASK_RUNNING s -> pcbs s !! p = Some c ->
  if decide (blocked (status c)) then
    UnblockThread p s = Ret (tt, unblocked p c s) /\ sched_ok dirs TASK_RUNNING (unblocked p c s)
  else UnblockThread p s = Panic "UnblockThread" 160.
Proof.
  intros Hok Hc. destruct (decide _) as [Hb|Hb].
  - split; [by eapply UnblockThread_eq|]. apply unblocked_ok; try done.
    pose proof (so_cur _ _ _ Hok) as (c1 & Hc1 & E). intros ->.
    assert (c1 = c) as -> by congruence. rewrite E in Hb. by destruct Hb as [|[|]].
  - unfold UnblockThread. rewrite (bind_Ret _ _ _ _ _ (on_mach_ok _ _ _ _ (DisableInt_ok (mach s)))).
    rewrite (bind_Ret _ _ _ c (set_mach (masked (mach s)) s)) by by apply get_pcb_ok.
    apply bind_Panic, ASSERT_false. unfold blocked in Hb.
    apply not_true_is_false. intros E. apply Hb.
    rewrite !orb_true_iff, !bool_decide_eq_true in E. tauto.
Qed.

(** ** Examples: three kernel threads, the first running, the second ready, the third blocked *)

Definition demo_pcb (p : Z) (st : task_status) : PCB :=
  Pcb (p + 3664) 1 st 31 [] 31 0 0 (VirtualAddr (Bitmap.Bitmap 0 0) 0) STACK_CANARY.

Definition demo_threads : gmap Z PCB :=
  <[0xC0120000 := demo_pcb 0xC0120000 TASK_RUNNING]>
    (<[0xC0130000 := demo_pcb 0xC0130000 TASK_READY]>
      (<[0xC0140000 := demo_pcb 0xC0140000 TASK_BLOCKD]> ∅)).

Definition demo_pools : pools :=
  Pools (MemoryPool (Bitmap.Bitmap 0 0) 0 0) (MemoryPool (Bitmap.Bitmap 0 0) 0 0)
    (VirtualAddr (Bitmap.Bitmap 0 0) 0).

(** Interrupts are off: the flags word is 2. *)
Definition demo_kernel : kernel :=
  Kernel (Machine ∅ 2 [] []) (Paging ∅ 0x100000 []) demo_threads [0xC0130020]
    [0xC0120028; 0xC0130028; 0xC0140028] 0xC0120F00 0 0xC0120000 3 0 ∅ demo_pools
    (Ioqueue 0 0 [] 0 0).

Definition demo_dirs (_ : Z) : Z := 0x100000.

Lemma demo_threads_inv p c : demo_threads !! p = Some c ->
  (p = 0xC0120000 /\ c = demo_pcb 0xC0120000 TASK_RUNNING) \/
  (p = 0xC0130000 /\ c = demo_pcb 0xC0130000 TASK_READY) \/
  (p = 0xC0140000 /\ c = demo_pcb 0xC0140000 TASK_BLOCKD).
Proof.
  unfold demo_threads. rewrite !lookup_insert. repeat case_decide; try (intros [= <-]; subst; tauto).
Qed.

Ltac demo_thread H := apply demo_threads_inv in H as [[-> ->]|[[-> ->]|[-> ->]]].

Lemma demo_kernel_ok : sched_ok demo_dirs TASK_RUNNING demo_kernel.
Proof.
  constructor; change (cur demo_kernel) with 0xC0120000; cbn [demo_kernel pcbs ready_thread_list esp].
  - exists (demo_pcb 0xC0120000 TASK_RUNNING). split; [apply lookup_insert_eq|done].
  - intros p c H. demo_thread H; (split; [zdec|done]).
  - apply NoDup_singleton.
  - intros tag. rewrite list_elem_of_singleton. split.
    + intros ->. exists 0xC0130000, (demo_pcb 0xC0130000 TASK_READY). split; [|done].
      reflexivity.
    + intros (p & c & H & -> & E). by demo_thread H.
  - intros p c H E. by demo_thread H.
  - lia.
  - intros p c H Hne. by demo_thread H.
  - intros p c H. split; [done|]. intros E. by demo_thread H.
  - done.
  - intros c H E. exfalso. apply E. by apply demo_threads_inv in H as [[_ ->]|[[_ ->]|[_ ->]]].
Qed.

Lemma ScheduleThread_correct_witness :
  exists s', ScheduleThread demo_kernel = Ret (tt, s') /\ sched_ok demo_dirs TASK_RUNNING s' /\
    general_tag (cur s') = 0xC0130020 /\ ready_thread_list s' = [0xC0120020].
Proof.
  pose proof (ScheduleThread_correct demo_dirs TASK_RUNNING demo_kernel demo_kernel_ok
    ltac:(discriminate)) as H.
  rewrite decide_True in H by reflexivity.
  destruct H as (s' & H1 & H2 & H3 & H4 & _). exists s'. by split_and!.
Defined.

Lemma round_robin_witness :
  exists s', repeat_m 2 ScheduleThread demo_kernel = Ret (tt, s') /\
    sched_ok demo_dirs TASK_RUNNING s' /\ general_tag (cur s') = 0xC0120020.
Proof.
  apply (round_robin demo_dirs 1 demo_kernel 0xC0120020 demo_kernel_ok); reflexivity.
Defined.

Lemma UnblockThread_correct_witness :
  UnblockThread 0xC0140000 demo_kernel =
    Ret (tt, unblocked 0xC0140000 (demo_pcb 0xC0140000 TASK_BLOCKD) demo_kernel).
Proof.
  pose proof (UnblockThread_correct demo_dirs demo_kernel 0xC0140000
    (demo_pcb 0xC0140000 TASK_BLOCKD) demo_kernel_ok eq_refl) as H.
  rewrite decide_True in H by (by left). exact (proj1 H).
Defined.
