(* ===== verification/Timer.v ===== *)
(** * device/timer.c: the clock interrupt and the set-up of the interval timer

    [IntTimerHandler] runs on the kernel state, [FrequencySet] and [TimerInit] on the machine with
    the interrupt tables.  [pit_write] is the counter behind port 0x40 as its manual describes it,
    for the theorem on the frequency the code ends up with. *)
From stdpp Require Import base list gmap strings.
From S2P Require Import Prelude Machine Print Interrupt KList Paging State Sched.

Definition IRQ0_FREQUENCY : Z := 100.
Definition PULSE_FREQUENCY : Z := 1193180.
Definition COUNTER0_VALUE : Z := PULSE_FREQUENCY / IRQ0_FREQUENCY.
Definition COUNTER0_PORT : Z := 0x40.
Definition COUNTER0_NUM : Z := 0.
Definition COUNTER0_MODE : Z := 2.
Definition READ_WRITE_LATCH : Z := 3.
Definition PIT_CONTROL_PORT : Z := 0x43.

(** All five parameters are [uint8_t]. *)
Definition FrequencySet (counter_port counter_num rwl counter_mode counter_value : Z) : M machine unit :=
  let counter_value := u8 counter_value in
  outb counter_port (Z.lor (Z.lor (Z.shiftl counter_num 6) (Z.shiftl rwl 4)) (Z.shiftl counter_mode 1)) ;;;
  outb counter_port counter_value ;;;
  outb counter_port (Z.shiftr counter_value 8).

Definition TimerInit (handler : Z) : M intr unit :=
  on_cpu (sys_putstr "timer init..") ;;;
  on_cpu (FrequencySet COUNTER0_PORT COUNTER0_NUM READ_WRITE_LATCH COUNTER0_MODE COUNTER0_VALUE) ;;;
  RegisterHandler 0x20 handler ;;;
  on_cpu (sys_putline " done") ;;;
  ret tt.

Definition IntTimerHandler : M kernel unit :=
  let* current_thread := GetCurrentThreadPCB in
  let* c := get_pcb current_thread in
  ASSERT (canary c =? STACK_CANARY) "IntTimerHandler" 41 ;;;
  upd_pcb current_thread (fun c => set_ticks_elapsed (u8 (cpu_ticks_elapsed c + 1)) c) ;;;
  modify (fun s => set_ticks (u32 (ticks s + 1)) s) ;;;
  let* c := get_pcb current_thread in
  if cpu_ticks_left c =? 0 then ScheduleThread
  else upd_pcb current_thread (fun c => set_ticks_left (u8 (cpu_ticks_left c - 1)) c).

(** ** Time slices *)

(** Changing fields of a PCB the scheduler does not depend on. *)
Lemma sched_ok_upd dirs st s p c c' :
  sched_ok dirs st s -> pcbs s !! p = Some c ->
  status c' = status c -> canary c' = canary c -> PDE_addr c' = PDE_addr c ->
  self_kernel_stack c' = self_kernel_stack c ->
  sched_ok dirs st (set_pcbs (<[p := c']> (pcbs s)) s).
Proof.
  intros [[c1 [Hc1 Hst]] Hp Hnd Hr Hrun Hesp Hstk Hsp Hcr Hes0] Hc E1 E2 E3 E4.
  set (s' := set_pcbs _ s). assert (cur s' = cur s) as Ecur by done.
  assert (forall q d', pcbs s' !! q = Some d' -> exists d, pcbs s !! q = Some d /\
    status d' = status d /\ canary d' = canary d /\ PDE_addr d' = PDE_addr d /\
    self_kernel_stack d' = self_kernel_stack d) as Hinv.
  { intros q d'. cbn [s' pcbs set_pcbs]. rewrite lookup_insert. case_decide; [|eauto 10].
    intros [= <-]. subst. eauto 10. }
  assert (forall q d, pcbs s !! q = Some d -> exists d', pcbs s' !! q = Some d' /\
    status d' = status d) as Hinv'.
  { intros q d Hq. cbn [s' pcbs set_pcbs]. rewrite lookup_insert. case_decide; [|eauto].
    subst. exists c'. split; [done|]. congruence. }
  constructor; rewrite ?Ecur; try done.
  - destruct (Hinv' _ _ Hc1) as (d' & Hd & E). exists d'. split; [done|congruence].
  - intros q d' H. destruct (Hinv q d' H) as (d & Hd & F1 & F2 & F3 & F4).
    destruct (Hp q d Hd). split; [done|congruence].
  - intros tag. change (ready_thread_list s') with (ready_thread_list s). rewrite Hr. split.
    + intros (q & d & Hd & -> & E). destruct (Hinv' q d Hd) as (d' & Hd' & E').
      exists q, d'. split_and!; [done|done|congruence].
    + intros (q & d' & H & -> & E). destruct (Hinv q d' H) as (d & Hd & F1 & _).
      exists q, d. split_and!; [done|done|congruence].
  - intros q d' H E. destruct (Hinv q d' H) as (d & Hd & F1 & _). apply (Hrun q d); congruence.
  - intros q d' H Hne. destruct (Hinv q d' H) as (d & Hd & _ & _ & _ & ->). by apply (Hstk q d).
  - intros q d' H. destruct (Hinv q d' H) as (d & Hd & _ & _ & -> & _). destruct (Hsp q d Hd) as [H1 H2].
    split; [done|]. intros E r [cr Hcr']. destruct (Hinv r cr Hcr') as (d2 & H3 & _). apply H2; eauto.
  - intros d' H. destruct (Hinv _ d' H) as (d & Hd & _ & _ & -> & _). exact (Hes0 d Hd).
Qed.

(** The bookkeeping of one tick. *)
Definition ticked (s : kernel) (c : PCB) : kernel :=
  set_ticks (u32 (ticks s + 1))
    (set_pcbs (<[cur s := set_ticks_elapsed (u8 (cpu_ticks_elapsed c + 1)) c]> (pcbs s)) s).

Lemma ticked_ok dirs s c :
  sched_ok dirs TASK_RUNNING s -> pcbs s !! cur s = Some c -> sched_ok dirs TASK_RUNNING (ticked s c).
Proof.
  intros Hok Hc. pose proof (sched_ok_upd dirs _ s (cur s) c
    (set_ticks_elapsed (u8 (cpu_ticks_elapsed c + 1)) c) Hok Hc eq_refl eq_refl eq_refl eq_refl) as H.
  destruct H. by constructor.
Qed.

Lemma tick_eq dirs s c :
  sched_ok dirs TASK_RUNNING s -> pcbs s !! cur s = Some c ->
  IntTimerHandler s =
    if cpu_ticks_left c =? 0 then ScheduleThread (ticked s c)
    else upd_pcb (cur s) (fun c => set_ticks_left (u8 (cpu_ticks_left c - 1)) c) (ticked s c).
Proof.
  intros Hok Hc. destruct (so_page _ _ _ Hok _ _ Hc) as [_ Hcan].
  unfold IntTimerHandler. rewrite (bind_Ret _ _ s (cur s) s) by done.
  rewrite (bind_Ret _ _ _ _ _ (get_pcb_ok _ _ _ Hc)).
  rewrite (bind_Ret _ _ s tt s) by (apply ASSERT_true; by rewrite Hcan).
  rewrite (bind_Ret _ _ _ _ _ (upd_pcb_ok _ _ _ _ Hc)).
  rewrite (bind_Ret _ _ _ tt (ticked s c)) by done.
  rewrite (bind_Ret _ _ _ (set_ticks_elapsed (u8 (cpu_ticks_elapsed c + 1)) c) (ticked s c))
    by (apply get_pcb_ok; cbn; apply lookup_insert_eq).
  cbn [cpu_ticks_left set_ticks_elapsed]. by destruct (cpu_ticks_left c =? 0).
Qed.

(** [c'] is the PCB [c] of a thread that ran [k] ticks more and was then given a full slice. *)
Definition charged (k : Z) (c c' : PCB) : Prop :=
  cpu_ticks_elapsed c' = u8 (cpu_ticks_elapsed c + k) /\ cpu_ticks_left c' = priority c /\
  priority c' = priority c.

Lemma preempted_ok dirs s c tag rest :
  sched_ok dirs TASK_RUNNING s -> if_flag (eflags (mach s)) = INT_OFF ->
  pcbs s !! cur s = Some c -> cpu_ticks_left c = 0 ->
  ready_thread_list s ++ [general_tag (cur s)] = tag :: rest ->
  exists s', IntTimerHandler s = Ret (tt, s') /\ sched_ok dirs TASK_RUNNING s' /\
    general_tag (cur s') = tag /\ ready_thread_list s' = rest /\
    exists c' : PCB, pcbs s' !! cur s = Some c' /\ charged 1 c c'.
Proof.
  intros Hok Hif Hc Hn Hq. pose proof (ticked_ok dirs s c Hok Hc) as Hok1.
  pose proof (tick_eq dirs s c Hok Hc) as Ht. rewrite Hn in Ht. cbn [Z.eqb] in Ht.
  destruct (schedule_ok dirs TASK_RUNNING (ticked s c) tag rest) as (s' & H1 & H2 & H3 & H4 & _ & Hp); try done.
  exists s'. split_and!; [by rewrite Ht|done|done|done|].
  specialize (Hp (cur s)). cbn [ticked pcbs set_pcbs set_ticks] in Hp. rewrite lookup_insert_eq in Hp.
  eexists. split; [exact Hp|]. destruct (so_cur _ _ _ Hok) as (d & Hd & Hst).
  assert (d = c) as -> by congruence. unfold scheduled.
  rewrite decide_True by (by split). unfold charged, switched. cbn [ticked cur set_pcbs set_ticks].
  rewrite decide_True by done. by destruct (decide _).
Qed.

(** C7: preemption, one tick later than thread.h says: with interrupts off (as in the handler), the
    clock handler tests [cpu_ticks_left] for zero before it counts it down, so a thread with [n]
    ticks left is still the running one after [n] ticks, and it is tick [n + 1] that runs the
    thread at the head of the queue.  The preempted thread has been charged for [n + 1] ticks and
    its slice is [priority] again: it runs [priority + 1] ticks per round, where thread.h:67 calls
    [priority] the number of ticks it runs per round. *)
Theorem time_slice dirs n : forall s c tag rest,
  sched_ok dirs TASK_RUNNING s -> if_flag (eflags (mach s)) = INT_OFF ->
  pcbs s !! cur s = Some c -> cpu_ticks_left c = Z.of_nat n -> Z.of_nat n < 256 ->
  ready_thread_list s ++ [general_tag (cur s)] = tag :: rest ->
  exists s', repeat_m (S n) IntTimerHandler s = Ret (tt, s') /\ sched_ok dirs TASK_RUNNING s' /\
    general_tag (cur s') = tag /\ ready_thread_list s' = rest /\
    (forall k, (k <= n)%nat -> exists sk, repeat_m k IntTimerHandler s = Ret (tt, sk) /\ cur sk = cur s) /\
    exists c' : PCB, pcbs s' !! cur s = Some c' /\ charged (Z.of_nat n + 1) c c'.
Proof.
  induction n as [|n IH]; intros s c tag rest Hok Hif Hc Hn Hlim Hq;
    pose proof (tick_eq dirs s c Hok Hc) as Ht; pose proof (ticked_ok dirs s c Hok Hc) as Hok1.
  - destruct (preempted_ok dirs s c tag rest Hok Hif Hc Hn Hq) as (s' & H1 & H2 & H3 & H4 & H5).
    exists s'. split_and!; try done.
    + cbn [repeat_m]. by rewrite (bind_Ret _ _ s tt s') by done.
    + intros k Hk. assert (k = 0)%nat as -> by lia. by exists s.
  - rewrite Hn in Ht. replace (Z.of_nat (S n) =? 0) with false in Ht by lia.
    set (c1 := set_ticks_elapsed (u8 (cpu_ticks_elapsed c + 1)) c) in *.
    set (c2 := set_ticks_left (u8 (cpu_ticks_left c1 - 1)) c1).
    set (s1 := set_pcbs (<[cur s := c2]> (pcbs (ticked s c))) (ticked s c)).
    assert (pcbs (ticked s c) !! cur s = Some c1) as Hc1 by apply lookup_insert_eq.
    assert (IntTimerHandler s = Ret (tt, s1)) as Hs1 by (rewrite Ht;
      exact (upd_pcb_ok (ticked s c) (cur s) (fun c => set_ticks_left (u8 (cpu_ticks_left c - 1)) c) c1 Hc1)).
    destruct (IH s1 c2 tag rest) as (s' & H1 & H2 & H3 & H4 & H5 & c' & Hc' & E1 & E2 & E3); try done.
    + by apply (sched_ok_upd dirs _ (ticked s c) (cur s) c1).
    + apply lookup_insert_eq.
    + cbn [c2 c1 cpu_ticks_left set_ticks_left set_ticks_elapsed]. rewrite Hn, u8_id; lia.
    + lia.
    + exists s'. split_and!; try done.
      * change (repeat_m (S (S n)) IntTimerHandler) with (IntTimerHandler ;;; repeat_m (S n) IntTimerHandler).
        by rewrite (bind_Ret _ _ _ _ _ Hs1).
      * intros [|k] Hk; [by exists s|]. destruct (H5 k ltac:(lia)) as (sk & Hk1 & Hk2).
        exists sk. split; [|done]. cbn [repeat_m]. by rewrite (bind_Ret _ _ _ _ _ Hs1).
      * exists c'. split; [done|]. split_and!; [|done|done]. rewrite E1.
        cbn [c2 c1 cpu_ticks_elapsed set_ticks_left set_ticks_elapsed]. unfold u8.
        rewrite Zplus_mod_idemp_l. f_equal. lia.
Qed.

(** ** The interval timer *)

(** Counter 0 of the 8253: the access mode (3: low byte, then high byte), the low byte waiting for
    its high byte, and the reload value.  A control word for counter 0 goes to port 0x43. *)
Record pit := Pit { access : Z; pending : option Z; reload : option Z }.

Definition pit_write (p : pit) '((port, v) : Z * Z) : pit :=
  if port =? 0x43 then
    (if Z.shiftr v 6 =? 0 then Pit (Z.land (Z.shiftr v 4) 3) None None else p)
  else if port =? 0x40 then
    match pending p with
    | None => Pit (access p) (Some v) (reload p)
    | Some lo => Pit (access p) None (Some (v * 256 + lo))
    end
  else p.

(** The counter after the port writes recorded in a trace (newest first). *)
Definition pit_after (p : pit) (trace : list (Z * Z)) : pit := foldl pit_write p (rev trace).

Definition timer_trace : list (Z * Z) := [(0x40, 0); (0x40, 0x9B); (0x40, 0x34)].

Lemma TimerInit_ok s handler : wp (TimerInit handler) (fun _ s' =>
  ram (cpu s') = ram (cpu s) /\ eflags (cpu s') = eflags (cpu s) /\ outs (cpu s') = timer_trace ++ outs (cpu s) /\
  tables s' = tables (set_handler 0x20 handler s)) s.
Proof.
  unfold TimerInit. apply wp_bind, wp_print; [apply putstr_tty|]. intros _ c1 (R1 & F1 & O1).
  apply wp_bind, wp_on_cpu. apply (wp_intro _ _ _ tt (set_outs (timer_trace ++ outs c1) c1)); [reflexivity|].
  apply wp_bind. apply (wp_intro _ _ _ tt (set_handler 0x20 handler
    (Intr (set_outs (timer_trace ++ outs c1) c1) (tables s)))); [reflexivity|].
  apply wp_bind, wp_print; [apply putline_tty|]. intros _ c2 (R2 & F2 & O2). apply wp_ret.
  cbn [cpu tables set_handler outs set_outs ram eflags] in *. split_and!; [congruence|congruence|congruence|done].
Qed.

(** [TimerInit] does not set the 100 Hz it means to: the control word goes to the counter's port
    0x40 instead of [PIT_CONTROL_PORT], the value 11931 is cut to its low byte by the [uint8_t]
    parameter, and its high byte is always written as 0.  On a counter in the low-byte/high-byte
    mode the reload value becomes 0x9B34 (30 Hz) with a stray low byte 0 pending. *)
Theorem TimerInit_frequency s handler :
  (129 <= length (idt_table (tables s)))%nat ->
  exists s', TimerInit handler s = Ret (tt, s') /\
    outs (cpu s') = [(0x40, 0); (0x40, 0x9B); (0x40, 0x34)] ++ outs (cpu s) /\
    idt_table (tables s') !! 0x20%nat = Some handler /\
    (forall r, pit_after (Pit 3 None r) [(0x40, 0); (0x40, 0x9B); (0x40, 0x34)] =
       Pit 3 (Some 0) (Some 0x9B34)) /\
    PULSE_FREQUENCY / 0x9B34 = 30 /\ PULSE_FREQUENCY / COUNTER0_VALUE = IRQ0_FREQUENCY.
Proof.
  intros Hlen. destruct (wp_elim _ _ _ (TimerInit_ok s handler)) as ([] & s' & Hrun & _ & _ & Ho & Ht).
  exists s'. split_and!; try reflexivity; [exact Hrun|exact Ho|].
  rewrite Ht. cbn [tables idt_table set_handler]. apply list_lookup_insert_eq. lia.
Qed.

(** ** Examples *)

Lemma time_slice_witness :
  priority (demo_pcb 0xC0120000 TASK_RUNNING) = 31 /\
  exists s' c', repeat_m 32 IntTimerHandler demo_kernel = Ret (tt, s') /\ general_tag (cur s') = 0xC0130020 /\
    pcbs s' !! 0xC0120000 = Some c' /\ cpu_ticks_elapsed c' = 32.
Proof.
  split; [reflexivity|].
  destruct (time_slice demo_dirs 31 demo_kernel (demo_pcb 0xC0120000 TASK_RUNNING) 0xC0130020
    [0xC0120020] demo_kernel_ok) as (s' & H & _ & H2 & _ & _ & c' & H3 & H4 & _); try reflexivity.
  exists s', c'. split; [exact H|]. split; [exact H2|]. split; [exact H3|exact H4].
Defined.

Lemma TimerInit_frequency_witness :
  exists s', TimerInit 0xC0001500 (Intr (Machine ∅ 2 [] []) (IntTables [] (repeat 0 129) [])) = Ret (tt, s') /\ outs (cpu s') = [(0x40, 0); (0x40, 0x9B); (0x40, 0x34)].
Proof.
  destruct (TimerInit_frequency (Intr (Machine ∅ 2 [] []) (IntTables [] (repeat 0 129) [])) 0xC0001500)
    as (s' & H & Ho & _); [cbn; lia|].
  exists s'. split; [exact H|exact Ho].
Defined.
