(* ===== verification/Sync.v ===== *)
(** * thread/sync.c: semaphores and locks

    The functions are modelled twice from the same pieces: as one thread sees them
    ([SemaphoreDown], [sys_lock_lock], ...; while it is switched away the state becomes what
    [others] says), and in LockSystem.v as steps of a system of threads. *)
From stdpp Require Import base list gmap strings.
From S2P Require Import Prelude Machine Print Interrupt KList Paging State Sched.

Definition get_lock (l : lock_id) : M kernel lock := fun s =>
  match locks s !! l with Some k => Ret (k, s) | None => Fault 0 end.
Definition upd_lock (l : lock_id) (f : lock -> lock) : M kernel unit := fun s =>
  match locks s !! l with
  | Some k => Ret (tt, set_locks (<[l := f k]> (locks s)) s)
  | None => Fault 0
  end.

Definition set_holder (p : Z) (k : lock) : lock := Lock p (sema k) (holder_repeat_request_sum k).
Definition set_sum (n : Z) (k : lock) : lock := Lock (holder k) (sema k) (u32 n).
Definition set_value (v : Z) (k : lock) : lock :=
  Lock (holder k) (Semaphore (u8 v) (waiting_thread_list (sema k))) (holder_repeat_request_sum k).
Definition set_waiting (w : list Z) (k : lock) : lock :=
  Lock (holder k) (Semaphore (value (sema k)) w) (holder_repeat_request_sum k).

(** A call of list.c on the waiting list of the semaphore of lock [l]. *)
Definition on_waiting (l : lock_id) (op : list_op) : M kernel Z :=
  let* k := get_lock l in
  match seq_op (waiting_thread_list (sema k)) op with
  | Some (xs, r) => upd_lock l (set_waiting xs) ;;; ret r
  | None => fault 0
  end.

Definition SemaphoreInit (l : lock_id) (v : Z) : M kernel unit :=
  upd_lock l (fun k => set_waiting [] (set_value v k)).

(** The lock's memory is there, with any contents, before it is initialised. *)
Definition LockInit (l : lock_id) : M kernel unit :=
  upd_lock l (set_holder 0) ;;;
  upd_lock l (set_sum 0) ;;;
  SemaphoreInit l 1.

(** The body of the [while] loop of [SemaphoreDown] up to the call of [BlockThread]. *)
Definition down_enqueue (l : lock_id) (current_thread : Z) : M kernel unit :=
  let* found := on_waiting l (Find (general_tag current_thread)) in
  ASSERT (negb (is_true_c found)) "SemaphoreDown" 29 ;;;
  let* found := on_waiting l (Find (general_tag current_thread)) in
  (if is_true_c found then panic "SemaphoreDown" 32 else ret tt) ;;;
  on_waiting l (Append (general_tag current_thread)) ;;;
  ret tt.

(** The end of [SemaphoreDown]. *)
Definition down_take (l : lock_id) (old_int_statu : int_status) : M kernel unit :=
  upd_lock l (fun k => set_value (value (sema k) - 1) k) ;;;
  let* _ := on_mach (SetIntStatus old_int_statu) in
  ret tt.

Definition SemaphoreUp (l : lock_id) : M kernel unit :=
  let* old_int_statu := on_mach DisableInt in
  let* empty := on_waiting l Empty in
  (if negb (is_true_c empty) then
     let* tag := on_waiting l Pop in
     let thread_blocked := pcb_of_general_tag tag in
     UnblockThread thread_blocked
   else ret tt) ;;;
  upd_lock l (fun k => set_value (value (sema k) + 1) k) ;;;
  let* _ := on_mach (SetIntStatus old_int_statu) in
  ret tt.

Section thread_view.
  Context `{Env}.

Definition down_body (l : lock_id) (current_thread : Z) (_ : unit) : M kernel (unit + unit) :=
  let* k := get_lock l in
  if value (sema k) =? 0 then
    down_enqueue l current_thread ;;;
    BlockThread TASK_BLOCKD ;;;
    ret (inl tt)
  else ret (inr tt).

Definition SemaphoreDown (fuel : nat) (l : lock_id) : M kernel unit :=
  let* old_int_statu := on_mach DisableInt in
  let* current_thread := GetCurrentThreadPCB in
  iter fuel (down_body l current_thread) tt ;;;
  down_take l old_int_statu.

Definition sys_lock_lock (fuel : nat) (l : lock_id) : M kernel unit :=
  let* k := get_lock l in
  let* current_thread := GetCurrentThreadPCB in
  if negb (holder k =? current_thread) then
    SemaphoreDown fuel l ;;;
    let* current_thread := GetCurrentThreadPCB in
    upd_lock l (set_holder current_thread) ;;;
    let* k := get_lock l in
    ASSERT (holder_repeat_request_sum k =? 0) "sys_lock_lock" 60 ;;;
    upd_lock l (set_sum 1)
  else upd_lock l (fun k => set_sum (holder_repeat_request_sum k + 1) k).

Definition sys_lock_unlock (l : lock_id) : M kernel unit :=
  let* k := get_lock l in
  let* current_thread := GetCurrentThreadPCB in
  ASSERT (holder k =? current_thread) "sys_lock_unlock" 71 ;;;
  if holder_repeat_request_sum k >? 1 then
    upd_lock l (fun k => set_sum (holder_repeat_request_sum k - 1) k)
  else
    ASSERT (holder_repeat_request_sum k =? 1) "sys_lock_unlock" 77 ;;;
    upd_lock l (set_sum 0) ;;;
    upd_lock l (set_holder 0) ;;;
    SemaphoreUp l.

End thread_view.

(** ** Uncontended locks *)

(** The lock is free, or held by the thread [p] [n] times. *)
Definition free_lock : lock := Lock 0 (Semaphore 1 []) 0.
Definition held_lock (p n : Z) : lock := Lock p (Semaphore 0 []) n.

Lemma get_lock_ok s l k : locks s !! l = Some k -> get_lock l s = Ret (k, s).
Proof. unfold get_lock. by intros ->. Qed.

Lemma upd_lock_ok s l f k : locks s !! l = Some k ->
  upd_lock l f s = Ret (tt, set_locks (<[l := f k]> (locks s)) s).
Proof. unfold upd_lock. by intros ->. Qed.

Lemma restore_kernel s m :
  m = masked (mach s) -> exists old, on_mach (SetIntStatus (if_flag (eflags (mach s)))) (set_mach m s) = Ret (old, s).
Proof.
  intros ->. destruct (SetIntStatus_ok (eflags (mach s)) (masked (mach s)) eq_refl) as [old Hold].
  exists old. rewrite (on_mach_ok _ (set_mach (masked (mach s)) s) _ _ Hold).
  do 2 f_equal. destruct s as [m]. by destruct m.
Qed.

Definition with_lock (l : lock_id) (k : lock) (s : kernel) : kernel := set_locks (<[l := k]> (locks s)) s.

Lemma with_lock_twice l k k' s : with_lock l k (with_lock l k' s) = with_lock l k s.
Proof. unfold with_lock. cbn [locks set_locks]. by rewrite insert_insert_eq. Qed.

Lemma with_lock_lookup l k s : locks (with_lock l k s) !! l = Some k.
Proof. apply lookup_insert_eq. Qed.

Lemma with_lock_id l k s : locks s !! l = Some k -> with_lock l k s = s.
Proof. intros H. unfold with_lock. rewrite insert_id by done. by destruct s. Qed.

Lemma LockInit_ok l s : is_Some (locks s !! l) -> LockInit l s = Ret (tt, with_lock l free_lock s).
Proof.
  intros [k Hk]. unfold LockInit, SemaphoreInit.
  rewrite (bind_Ret _ _ _ _ _ (upd_lock_ok _ _ _ _ Hk)). fold (with_lock l (set_holder 0 k) s).
  rewrite (bind_Ret _ _ _ _ _ (upd_lock_ok _ _ _ _ (with_lock_lookup _ _ _))).
  rewrite (upd_lock_ok _ _ _ (set_sum 0 (set_holder 0 k))) by apply lookup_insert_eq.
  do 2 f_equal. unfold with_lock. cbn [locks set_locks]. by rewrite !insert_insert_eq.
Qed.

Section uncontended.
  Context `{Env}.

Lemma lock_free_ok fuel l s :
  locks s !! l = Some free_lock -> cur s <> 0 ->
  sys_lock_lock (S fuel) l s = Ret (tt, with_lock l (held_lock (cur s) 1) s).
Proof.
  intros Hl Hc. unfold sys_lock_lock. rewrite (bind_Ret _ _ _ _ _ (get_lock_ok _ _ _ Hl)).
  rewrite (bind_Ret _ _ s (cur s) s) by done. cbn [holder free_lock].
  replace (0 =? cur s) with false by lia. cbn [negb].
  rewrite (bind_Ret _ _ s tt (with_lock l (Lock 0 (Semaphore 0 []) 0) s)).
  - rewrite (bind_Ret _ _ _ (cur s) (with_lock l (Lock 0 (Semaphore 0 []) 0) s)) by done.
    rewrite (bind_Ret _ _ _ _ _ (upd_lock_ok _ _ _ _ (with_lock_lookup _ _ _))).
    fold (with_lock l (set_holder (cur s) (Lock 0 (Semaphore 0 []) 0)) (with_lock l (Lock 0 (Semaphore 0 []) 0) s)).
    rewrite with_lock_twice, (bind_Ret _ _ _ _ _ (get_lock_ok _ _ _ (with_lock_lookup _ _ _))).
    rewrite (bind_Ret _ _ _ tt (with_lock l (set_holder (cur s) (Lock 0 (Semaphore 0 []) 0)) s)) by done.
    rewrite (upd_lock_ok _ _ _ _ (with_lock_lookup _ _ _)). fold (with_lock l (set_sum 1 (set_holder (cur s) (Lock 0 (Semaphore 0 []) 0)))
      (with_lock l (set_holder (cur s) (Lock 0 (Semaphore 0 []) 0)) s)).
    by rewrite with_lock_twice.
  - unfold SemaphoreDown. rewrite (bind_Ret _ _ _ _ _ (on_mach_ok _ _ _ _ (DisableInt_ok (mach s)))).
    set (s0 := set_mach (masked (mach s)) s).
    rewrite (bind_Ret _ _ s0 (cur s) s0) by done. rewrite (bind_Ret _ _ s0 tt s0).
    2:{ erewrite iter_S with (x := inr tt); [done|]. unfold down_body.
        by rewrite (bind_Ret _ _ s0 _ _ (get_lock_ok s0 _ _ Hl)). }
    unfold down_take. rewrite (bind_Ret _ _ s0 _ _ (upd_lock_ok s0 _ _ _ Hl)).
    destruct (restore_kernel (with_lock l (Lock 0 (Semaphore 0 []) 0) s) _ eq_refl) as [old Hold].
    by rewrite (bind_Ret _ _ _ _ _ Hold).
Qed.

Lemma lock_held_ok fuel l s n :
  locks s !! l = Some (held_lock (cur s) n) -> 0 <= n -> n + 1 < 2 ^ 32 ->
  sys_lock_lock fuel l s = Ret (tt, with_lock l (held_lock (cur s) (n + 1)) s).
Proof.
  intros Hl Hn Hlim. unfold sys_lock_lock. rewrite (bind_Ret _ _ _ _ _ (get_lock_ok _ _ _ Hl)).
  rewrite (bind_Ret _ _ s (cur s) s) by done. cbn [holder held_lock]. rewrite Z.eqb_refl. cbn [negb].
  rewrite (upd_lock_ok _ _ _ _ Hl). unfold set_sum. cbn. by rewrite u32_id by lia.
Qed.

Lemma unlock_nested_ok l s n :
  locks s !! l = Some (held_lock (cur s) n) -> 1 < n < 2 ^ 32 ->
  sys_lock_unlock l s = Ret (tt, with_lock l (held_lock (cur s) (n - 1)) s).
Proof.
  intros Hl Hn. unfold sys_lock_unlock. rewrite (bind_Ret _ _ _ _ _ (get_lock_ok _ _ _ Hl)).
  rewrite (bind_Ret _ _ s (cur s) s) by done. cbn [holder held_lock holder_repeat_request_sum].
  rewrite (bind_Ret _ _ s tt s) by (apply ASSERT_true; lia).
  replace (n >? 1) with true by lia. rewrite (upd_lock_ok _ _ _ _ Hl).
  unfold set_sum. cbn. by rewrite u32_id by lia.
Qed.

Lemma unlock_last_ok l s :
  locks s !! l = Some (held_lock (cur s) 1) ->
  sys_lock_unlock l s = Ret (tt, with_lock l free_lock s).
Proof.
  intros Hl. unfold sys_lock_unlock. rewrite (bind_Ret _ _ _ _ _ (get_lock_ok _ _ _ Hl)).
  rewrite (bind_Ret _ _ s (cur s) s) by done. cbn [holder held_lock holder_repeat_request_sum].
  rewrite (bind_Ret _ _ s tt s) by (apply ASSERT_true; lia).
  change (1 >? 1) with false. cbn iota. rewrite (bind_Ret _ _ s tt s) by done.
  rewrite (bind_Ret _ _ _ _ _ (upd_lock_ok _ _ _ _ Hl)).
  fold (with_lock l (set_sum 0 (held_lock (cur s) 1)) s).
  rewrite (bind_Ret _ _ _ _ _ (upd_lock_ok _ _ _ _ (with_lock_lookup _ _ _))).
  fold (with_lock l (set_holder 0 (set_sum 0 (held_lock (cur s) 1))) (with_lock l (set_sum 0 (held_lock (cur s) 1)) s)).
  rewrite with_lock_twice. set (k := set_holder 0 _). set (s1 := with_lock l k s).
  unfold SemaphoreUp. rewrite (bind_Ret _ _ _ _ _ (on_mach_ok _ _ _ _ (DisableInt_ok (mach s1)))).
  set (s2 := set_mach (masked (mach s1)) s1).
  assert (on_waiting l Empty s2 = Ret (1, s2)) as Hw.
  { unfold on_waiting. rewrite (bind_Ret _ _ s2 k s2) by (apply get_lock_ok; apply with_lock_lookup).
    cbn [seq_op k sema set_holder set_sum held_lock waiting_thread_list].
    rewrite (bind_Ret _ _ s2 _ _ (upd_lock_ok s2 l _ k (with_lock_lookup _ _ _))).
    unfold ret. do 2 f_equal. exact (with_lock_id l k s2 (with_lock_lookup _ _ _)). }
  rewrite (bind_Ret _ _ _ _ _ Hw). cbn [is_true_c Z.eqb negb]. rewrite (bind_Ret _ _ s2 tt s2) by done.
  rewrite (bind_Ret _ _ s2 _ _ (upd_lock_ok s2 l _ k (with_lock_lookup _ _ _))).
  destruct (restore_kernel (with_lock l free_lock s) _ eq_refl) as [old Hold].
  erewrite bind_Ret; [done|].
  etransitivity; [|exact Hold]. f_equal. unfold s2, s1, with_lock. cbn [locks set_locks set_mach].
  by rewrite insert_insert_eq.
Qed.

Lemma relock_ok fuel l s n : forall k,
  0 <= k -> k + Z.of_nat n < 2 ^ 32 ->
  repeat_m n (sys_lock_lock fuel l) (with_lock l (held_lock (cur s) k) s) =
    Ret (tt, with_lock l (held_lock (cur s) (k + Z.of_nat n)) s).
Proof.
  induction n as [|n IH]; intros k Hk Hlim; [by rewrite Z.add_0_r|].
  cbn [repeat_m]. rewrite (bind_Ret _ _ _ tt (with_lock l (held_lock (cur s) (k + 1)) s)).
  - rewrite IH by lia. do 4 f_equal. lia.
  - pose proof (lock_held_ok fuel l (with_lock l (held_lock (cur s) k) s) k) as H1.
    change (cur (with_lock l (held_lock (cur s) k) s)) with (cur s) in H1.
    rewrite H1, with_lock_twice by (apply with_lock_lookup || lia). done.
Qed.

Lemma unlocks_ok l s n k : (k <= n)%nat -> Z.of_nat n + 1 < 2 ^ 32 ->
  repeat_m k (sys_lock_unlock l) (with_lock l (held_lock (cur s) (Z.of_nat (S n))) s) =
    Ret (tt, with_lock l (held_lock (cur s) (Z.of_nat (S n - k))) s).
Proof.
  revert n. induction k as [|k IH]; intros n Hk Hn; [done|]. destruct n as [|n]; [lia|].
  cbn [repeat_m]. rewrite (bind_Ret _ _ _ tt (with_lock l (held_lock (cur s) (Z.of_nat (S n))) s)).
  - rewrite IH by lia. done.
  - pose proof (unlock_nested_ok l (with_lock l (held_lock (cur s) (Z.of_nat (S (S n)))) s)
      (Z.of_nat (S (S n)))) as H1.
    change (cur (with_lock l (held_lock (cur s) (Z.of_nat (S (S n)))) s)) with (cur s) in H1.
    rewrite H1, with_lock_twice by (apply with_lock_lookup || lia). do 4 f_equal. lia.
Qed.

Lemma repeat_m_last {T} n (m : M T unit) s s1 s2 :
  repeat_m n m s = Ret (tt, s1) -> m s1 = Ret (tt, s2) -> repeat_m (S n) m s = Ret (tt, s2).
Proof.
  revert s. induction n as [|n IH]; intros s H1 H2.
  - cbn in H1. injection H1 as <-. cbn [repeat_m]. by rewrite (bind_Ret _ _ _ _ _ H2).
  - change (repeat_m (S (S n)) m) with (m ;;; repeat_m (S n) m). cbn [repeat_m] in H1.
    unfold bind at 1 in H1. unfold bind at 1. destruct (m s) as [[[] s0]| | | |]; try done. by apply IH.
Qed.

(** C8: a lock nobody waits for: the first [sys_lock_lock] of a thread takes it and every further one
    only counts; [sys_lock_unlock] takes back one call at a time, and the last one frees the lock;
    the interrupt flag and the rest of the state come back as they were. *)
Theorem lock_nesting fuel l s n :
  locks s !! l = Some free_lock -> cur s <> 0 -> Z.of_nat n + 1 < 2 ^ 32 ->
  exists s1, repeat_m (S n) (sys_lock_lock (S fuel) l) s = Ret (tt, s1) /\
    s1 = with_lock l (held_lock (cur s) (Z.of_nat (S n))) s /\
    (forall k, (k <= n)%nat -> repeat_m k (sys_lock_unlock l) s1 =
       Ret (tt, with_lock l (held_lock (cur s) (Z.of_nat (S n - k))) s)) /\
    repeat_m (S n) (sys_lock_unlock l) s1 = Ret (tt, s).
Proof.
  intros Hl Hc Hn. eexists. split_and!; [|reflexivity| |].
  - cbn [repeat_m]. rewrite (bind_Ret _ _ _ _ _ (lock_free_ok fuel l s Hl Hc)).
    rewrite relock_ok by lia. do 4 f_equal. lia.
  - intros k Hk. by apply unlocks_ok.
  - eapply repeat_m_last; [by apply (unlocks_ok l s n n)|].
    replace (Z.of_nat (S n - n)) with 1 by lia.
    pose proof (unlock_last_ok l (with_lock l (held_lock (cur s) 1) s) (with_lock_lookup _ _ _)) as H1.
    rewrite H1, with_lock_twice, with_lock_id by done. done.
Qed.

End uncontended.

(** ** Examples *)
Definition demo_locks : gmap lock_id lock := <[console_lock := free_lock]> ∅.
Definition demo_env : Env := {| others := fun s => s; noise := fun _ => 0; arg_slot := esp |}.

Lemma lock_nesting_witness :
  exists s1, repeat_m 3 (sys_lock_lock (H := demo_env) 1 console_lock) (set_locks demo_locks demo_kernel) =
      Ret (tt, s1) /\
    repeat_m 3 (sys_lock_unlock console_lock) s1 = Ret (tt, set_locks demo_locks demo_kernel).
Proof.
  destruct (lock_nesting (H := demo_env) 0 console_lock (set_locks demo_locks demo_kernel) 2)
    as (s1 & H1 & _ & _ & H2); [reflexivity|discriminate|lia|].
  exists s1. split; [exact H1|exact H2].
Defined.
