(* ===== verification/LockSystem.v ===== *)
(** * thread/sync.c as a system of threads

    The lock functions of sync.c cut into the statements between which a clock interrupt can come.
    A thread is a program point; a system is the kernel state with the program points of all
    threads.  [lock_inv] is the invariant of one lock, [sys_inv] that of the system;
    the theorems at the end say that every interleaving of lock calls and preemptions keeps it. *)
From stdpp Require Import base list gmap strings.
From S2P Require Import Prelude Machine Print Interrupt KList Paging State Sched Timer Sync.

(** ** The protocol of one lock *)

(** What a thread is doing with a given lock; the numbers are lines of sync.c. *)
Inductive role :=
| Out | Trying | Waiting | Woken | Got | R60 | R61 | R65
| U72 | U74 | U77 | U78 | U79 | U80.

#[global] Instance role_eq_dec : EqDecision role.
Proof. solve_decision. Defined.

Definition upd (r : Z -> role) (t : Z) (x : role) : Z -> role := fun u => if decide (u = t) then x else r u.

Lemma upd_eq r t x : upd r t x t = x.
Proof. unfold upd. by rewrite decide_True. Qed.

Lemma upd_ne r t x u : u <> t -> upd r t x u = r u.
Proof. unfold upd. intros. by rewrite decide_False. Qed.

(** Program points at which the thread is the holder, and at which it is not. *)
Definition holding (x : role) : bool :=
  match x with R60 | R61 | R65 | U72 | U74 | U77 | U78 | U79 => true | _ => false end.
Definition not_holding (x : role) : bool :=
  match x with Trying | Waiting | Woken | Got | U80 => true | _ => false end.

(** The thread has got past the semaphore without being the holder. *)
Definition passing (x : role) : bool := match x with Got | U80 => true | _ => false end.

(** The count of nested calls at a holder's program point. *)
Definition sum_ok (x : role) (n : Z) : Prop :=
  match x with
  | R60 | R61 | U79 => n = 0
  | U77 | U78 => n = 1
  | U74 => 1 < n < 2 ^ 32
  | R65 => 1 <= n < 2 ^ 32 - 1
  | _ => 1 <= n < 2 ^ 32
  end.

Record lock_inv (D : Z -> Prop) (k : lock) (r : Z -> role) : Prop := {
  li_nodup : NoDup (waiting_thread_list (sema k));
  li_waiting : forall tag, tag ∈ waiting_thread_list (sema k) <->
    exists t, D t /\ tag = general_tag t /\ r t = Waiting;
  li_value : value (sema k) = 0 \/ value (sema k) = 1;
  li_free : value (sema k) = 1 -> holder k = 0 /\ forall t, D t -> passing (r t) = false;
  li_owner : value (sema k) = 0 -> exists o, D o /\ (holder k = o \/ passing (r o) = true);
  li_unique : forall t u, D t -> D u -> (holder k = t \/ passing (r t) = true) ->
    (holder k = u \/ passing (r u) = true) -> t = u;
  li_holder : holder k = 0 \/ D (holder k);
  li_in : forall t, D t -> holding (r t) = true -> holder k = t;
  li_out : forall t, D t -> not_holding (r t) = true -> holder k <> t;
  li_free_sum : holder k = 0 -> holder_repeat_request_sum k = 0;
  li_sum : forall t, D t -> holder k = t -> sum_ok (r t) (holder_repeat_request_sum k);
  li_wake : value (sema k) = 1 -> waiting_thread_list (sema k) <> [] -> exists t, D t /\ r t = Woken
}.

Section protocol.
  Context (D : Z -> Prop).
  Hypothesis HD : forall t, D t -> thread_page t.

Lemma D_nonzero t : D t -> t <> 0.
Proof. intros Ht. destruct (HD t Ht). lia. Qed.

(** A step that changes neither the semaphore nor the holder, nor whether the thread is passing,
    waiting or woken. *)
Lemma inv_move k r t x n :
  lock_inv D k r -> D t -> passing x = passing (r t) -> r t <> Waiting -> x <> Waiting ->
  (r t = Woken -> x = Woken) ->
  (holding x = true -> holder k = t) -> (not_holding x = true -> holder k <> t) ->
  (holder k = t -> sum_ok x n) -> (holder k <> t -> n = holder_repeat_request_sum k) ->
  lock_inv D (Lock (holder k) (sema k) n) (upd r t x).
Proof.
  intros [I1 I2 I3 I4 I5 I6 I7 I8 I9 I10 I11 I12] Ht Hp Hw Hx Hwk H1 H2 H3 H4.
  assert (forall u, passing (upd r t x u) = passing (r u)) as Ep.
  { intros u. unfold upd. by case_decide; subst. }
  constructor; cbn [holder sema holder_repeat_request_sum]; try done.
  - intros tag. rewrite I2. split; intros (u & Hu & -> & E); exists u; (split_and!; [done|done|]);
      unfold upd in *; case_decide; congruence.
  - intros Hv. destruct (I4 Hv) as [E1 E2]. split; [done|]. intros u Hu. rewrite Ep. by apply E2.
  - intros Hv. destruct (I5 Hv) as (o & Ho & E). exists o. by rewrite Ep.
  - intros u v Hu Hv. rewrite !Ep. by apply I6.
  - intros u Hu. unfold upd. case_decide; [subst; auto|by apply I8].
  - intros u Hu. unfold upd. case_decide; [subst; auto|by apply I9].
  - intros E. rewrite H4; [by apply I10|]. rewrite E. intros <-. by apply (D_nonzero 0).
  - intros u Hu E. unfold upd. case_decide as Ed; [apply H3; by subst|]. rewrite H4 by congruence.
    by apply I11.
  - intros Hv Hne. destruct (I12 Hv Hne) as (u & Hu & E). exists u. split; [done|].
    unfold upd. case_decide; subst; auto.
Qed.

Lemma inv_acquire k r t :
  lock_inv D k r -> D t -> r t = Trying \/ r t = Woken -> value (sema k) <> 0 ->
  lock_inv D (set_value (value (sema k) - 1) k) (upd r t Got).
Proof.
  intros [I1 I2 I3 I4 I5 I6 I7 I8 I9 I10 I11 I12] Ht Hr Hv.
  assert (value (sema k) = 1) as E1 by lia. destruct (I4 E1) as [Hh Hp].
  assert (t <> 0) as Ht0 by by apply D_nonzero.
  constructor; cbn [set_value holder sema value waiting_thread_list holder_repeat_request_sum];
    rewrite ?E1; try done.
  - intros tag. rewrite I2. split; intros (u & Hu & -> & E); exists u; (split_and!; [done|done|]);
      unfold upd in *; case_decide; destruct Hr; congruence.
  - by left.
  - intros _. exists t. split; [done|]. right. by rewrite upd_eq.
  - intros u v Hu Hv'. unfold upd. rewrite Hh.
    assert (u <> 0 /\ v <> 0) as [? ?] by (split; by apply D_nonzero).
    pose proof (Hp u Hu). pose proof (Hp v Hv'). repeat case_decide; intros [?|?] [?|?]; congruence.
  - intros u Hu. unfold upd. case_decide; [done|by apply I8].
  - intros u Hu. unfold upd. case_decide; [intros _; congruence|by apply I9].
  - intros u Hu E. assert (u <> 0) by by apply D_nonzero. congruence.
Qed.

Lemma inv_block k r t :
  lock_inv D k r -> D t -> r t = Trying \/ r t = Woken -> value (sema k) = 0 ->
  lock_inv D (set_waiting (waiting_thread_list (sema k) ++ [general_tag t]) k) (upd r t Waiting).
Proof.
  intros [I1 I2 I3 I4 I5 I6 I7 I8 I9 I10 I11 I12] Ht Hr Hv.
  assert (holder k <> t) as Hht by (apply I9; [done|]; by destruct Hr as [->| ->]).
  assert (forall u, passing (upd r t Waiting u) = passing (r u)) as Ep.
  { intros u. unfold upd. case_decide; subst; [by destruct Hr as [->| ->]|done]. }
  assert (general_tag t ∉ waiting_thread_list (sema k)) as Hnin.
  { rewrite I2. intros (u & Hu & E & Hw). apply general_tag_inj in E; [|by apply HD..].
    subst u. destruct Hr; congruence. }
  constructor; cbn [set_waiting holder sema value waiting_thread_list holder_repeat_request_sum]; try done.
  - apply NoDup_app. split_and!; [done| |apply NoDup_singleton].
    by intros y Hy ->%list_elem_of_singleton.
  - intros tag. rewrite elem_of_app, list_elem_of_singleton, I2. split.
    + intros [(u & Hu & -> & E)| ->].
      * exists u. split_and!; [done|done|]. unfold upd. case_decide; [done|done].
      * exists t. by rewrite upd_eq.
    + intros (u & Hu & -> & E). unfold upd in E. case_decide; [right; by subst|left; eauto].
  - intros E. congruence.
  - intros _. destruct (I5 Hv) as (o & Ho & E). exists o. by rewrite Ep.
  - intros u v Hu Hv'. rewrite !Ep. by apply I6.
  - intros u Hu. unfold upd. case_decide; [done|by apply I8].
  - intros u Hu. unfold upd. case_decide; [by subst|by apply I9].
  - intros u Hu E. unfold upd. case_decide; [congruence|]. by apply I11.
  - intros E. congruence.
Qed.

Lemma inv_hold k r t :
  lock_inv D k r -> D t -> r t = Got -> lock_inv D (set_holder t k) (upd r t R60).
Proof.
  intros [I1 I2 I3 I4 I5 I6 I7 I8 I9 I10 I11 I12] Ht Hr.
  assert (passing (r t) = true) as Hpt by by rewrite Hr.
  assert (value (sema k) = 0) as Hv.
  { destruct I3 as [|E]; [done|]. destruct (I4 E) as [_ Hp]. rewrite Hp in Hpt by done. done. }
  assert (forall u, D u -> u <> t -> passing (r u) = false) as Hun.
  { intros u Hu Hne. apply not_true_is_false. intros E. apply Hne. apply I6; auto. }
  assert (holder k = 0) as Hh0.
  { destruct I7 as [|Hd]; [done|]. exfalso. apply (I9 t Ht); [by rewrite Hr|]. apply I6; auto. }
  constructor; cbn [set_holder holder sema holder_repeat_request_sum]; try done.
  - intros tag. rewrite I2. split; intros (u & Hu & -> & E); exists u; (split_and!; [done|done|]);
      unfold upd in *; case_decide; congruence.
  - intros E. congruence.
  - intros _. exists t. auto.
  - assert (forall u, D u -> t = u \/ passing (upd r t R60 u) = true -> u = t) as H.
    { intros u Hu [->|Hp]; [done|]. destruct (decide (u = t)) as [|Hne]; [done|].
      rewrite upd_ne, (Hun u Hu Hne) in Hp by done. done. }
    intros u v Hu Hv' H1 H2. by rewrite (H u), (H v).
  - by right.
  - intros u Hu. unfold upd. case_decide; [by subst|]. intros E. apply I8 in E; [|done].
    pose proof (D_nonzero u Hu). congruence.
  - intros u Hu. unfold upd. case_decide; [done|]. intros _ E. congruence.
  - intros E. exfalso. by apply (D_nonzero t).
  - intros u Hu <-. rewrite upd_eq. by apply I10.
  - intros E. congruence.
Qed.

Lemma inv_release k r t :
  lock_inv D k r -> D t -> r t = U79 -> lock_inv D (set_holder 0 k) (upd r t U80).
Proof.
  intros [I1 I2 I3 I4 I5 I6 I7 I8 I9 I10 I11 I12] Ht Hr.
  assert (holder k = t) as Hh by (apply I8; [done|by rewrite Hr]).
  assert (value (sema k) = 0) as Hv.
  { destruct I3 as [|E]; [done|]. destruct (I4 E) as [E0 _]. exfalso. apply (D_nonzero t Ht). congruence. }
  assert (forall u, D u -> u <> t -> passing (r u) = false) as Hun.
  { intros u Hu Hne. apply not_true_is_false. intros E. apply Hne. apply I6; auto. }
  pose proof (I11 t Ht Hh) as Hs. rewrite Hr in Hs. cbn in Hs.
  constructor; cbn [set_holder holder sema holder_repeat_request_sum]; try done.
  - intros tag. rewrite I2. split; intros (u & Hu & -> & E); exists u; (split_and!; [done|done|]);
      unfold upd in *; case_decide; congruence.
  - intros E. congruence.
  - intros _. exists t. split; [done|]. right. by rewrite upd_eq.
  - assert (forall u, D u -> 0 = u \/ passing (upd r t U80 u) = true -> u = t) as H.
    { intros u Hu [E|Hp]; [by pose proof (D_nonzero u Hu)|]. destruct (decide (u = t)) as [|Hne]; [done|].
      rewrite upd_ne, (Hun u Hu Hne) in Hp by done. done. }
    intros u v Hu Hv' H1 H2. by rewrite (H u), (H v).
  - by left.
  - intros u Hu. unfold upd. case_decide; [done|]. intros E. apply I8 in E; [|done]. congruence.
  - intros u Hu _. pose proof (D_nonzero u Hu). congruence.
  - intros u Hu E. pose proof (D_nonzero u Hu). congruence.
  - intros E. congruence.
Qed.

(** [SemaphoreUp]: with nobody waiting, and with a thread to wake. *)
Lemma inv_up k r t :
  lock_inv D k r -> D t -> r t = U80 -> waiting_thread_list (sema k) = [] ->
  lock_inv D (set_value (value (sema k) + 1) k) (upd r t Out).
Proof.
  intros [I1 I2 I3 I4 I5 I6 I7 I8 I9 I10 I11 I12] Ht Hr Hw.
  assert (passing (r t) = true) as Hpt by by rewrite Hr.
  assert (value (sema k) = 0) as Hv.
  { destruct I3 as [|E]; [done|]. destruct (I4 E) as [_ Hp]. rewrite Hp in Hpt by done. done. }
  assert (forall u, D u -> u <> t -> passing (r u) = false) as Hun.
  { intros u Hu Hne. apply not_true_is_false. intros E. apply Hne. apply I6; auto. }
  assert (holder k = 0) as Hh0.
  { destruct I7 as [|Hd]; [done|]. exfalso. apply (I9 t Ht); [by rewrite Hr|]. apply I6; auto. }
  constructor; cbn [set_value holder sema value waiting_thread_list holder_repeat_request_sum];
    rewrite ?Hv; try done.
  - intros tag. rewrite I2. split; intros (u & Hu & -> & E); exists u; (split_and!; [done|done|]);
      unfold upd in *; case_decide; congruence.
  - by right.
  - intros _. split; [done|]. intros u Hu. unfold upd. case_decide; [done|]. by apply Hun.
  - intros u v Hu Hv' H. exfalso. rewrite Hh0 in H. pose proof (D_nonzero u Hu).
    destruct H as [|Hp]; [congruence|]. unfold upd in Hp. case_decide; [done|]. by rewrite Hun in Hp.
  - intros u Hu. unfold upd. case_decide; [done|by apply I8].
  - intros u Hu. unfold upd. case_decide; [done|by apply I9].
  - intros u Hu E. pose proof (D_nonzero u Hu). congruence.
Qed.

Lemma inv_up_wake k r t w rest :
  lock_inv D k r -> D t -> D w -> r t = U80 -> r w = Waiting ->
  waiting_thread_list (sema k) = general_tag w :: rest ->
  lock_inv D (set_value (value (sema k) + 1) (set_waiting rest k)) (upd (upd r w Woken) t Out).
Proof.
  intros [I1 I2 I3 I4 I5 I6 I7 I8 I9 I10 I11 I12] Ht Hdw Hr Hrw Hw.
  assert (w <> t) as Hwt by congruence.
  assert (passing (r t) = true) as Hpt by by rewrite Hr.
  assert (value (sema k) = 0) as Hv.
  { destruct I3 as [|E]; [done|]. destruct (I4 E) as [_ Hp]. rewrite Hp in Hpt by done. done. }
  assert (forall u, D u -> u <> t -> passing (r u) = false) as Hun.
  { intros u Hu Hne. apply not_true_is_false. intros E. apply Hne. apply I6; auto. }
  assert (holder k = 0) as Hh0.
  { destruct I7 as [|Hd]; [done|]. exfalso. apply (I9 t Ht); [by rewrite Hr|]. apply I6; auto. }
  assert (forall u, D u -> passing (upd (upd r w Woken) t Out u) = false) as Hp0.
  { intros u Hu. unfold upd. repeat case_decide; try done. by apply Hun. }
  rewrite Hw in I1, I2. apply NoDup_cons in I1 as [Hnin I1].
  constructor; cbn [set_value set_waiting holder sema value waiting_thread_list holder_repeat_request_sum];
    rewrite ?Hv; try done.
  - intros tag. split.
    + intros Hin. destruct (proj1 (I2 tag) ltac:(by right)) as (u & Hu & -> & E).
      assert (u <> w) by (intros ->; done). assert (u <> t) by congruence.
      exists u. by rewrite !upd_ne.
    + intros (u & Hu & -> & E). unfold upd in E. case_decide; [done|]. case_decide; [done|].
      assert (general_tag u ∈ general_tag w :: rest) as Hin by (apply I2; eauto).
      apply elem_of_cons in Hin as [Heq|]; [|done].
      apply general_tag_inj in Heq; [done|by apply HD..].
  - by right.
  - intros u v Hu Hv'. rewrite Hh0, !Hp0 by done.
    pose proof (D_nonzero u Hu). intros [?|?] _; congruence.
  - intros u Hu. unfold upd. repeat case_decide; [done|done|by apply I8].
  - intros u Hu. unfold upd. repeat case_decide; [done|subst; intros _; pose proof (D_nonzero w Hu); congruence|by apply I9].
  - intros u Hu E. pose proof (D_nonzero u Hu). congruence.
  - intros _ _. exists w. split; [done|]. rewrite upd_ne by done. by rewrite upd_eq.
Qed.

End protocol.

Lemma lock_inv_ext (D D' : Z -> Prop) k r r' :
  (forall t, D t <-> D' t) -> (forall t, D t -> r t = r' t) -> lock_inv D k r -> lock_inv D' k r'.
Proof.
  intros HDD Hr [I1 I2 I3 I4 I5 I6 I7 I8 I9 I10 I11 I12].
  constructor; try done.
  - intros tag. rewrite I2. split; intros (t & Ht & -> & E); exists t; (split_and!; [by apply HDD|done|]).
    + by rewrite <- Hr.
    + rewrite Hr by (by apply HDD). done.
  - intros Hv. destruct (I4 Hv) as [? Hp]. split; [done|]. intros t Ht. rewrite <- Hr by (by apply HDD).
    apply Hp. by apply HDD.
  - intros Hv. destruct (I5 Hv) as (o & Ho & E). exists o. rewrite <- Hr by done. split; [by apply HDD|done].
  - intros t u Ht Hu. apply HDD in Ht, Hu. rewrite <- !Hr by done. by apply I6.
  - destruct I7; [by left|right; by apply HDD].
  - intros t Ht. apply HDD in Ht. rewrite <- Hr by done. by apply I8.
  - intros t Ht. apply HDD in Ht. rewrite <- Hr by done. by apply I9.
  - intros t Ht. apply HDD in Ht. rewrite <- Hr by done. by apply I11.
  - intros Hv Hne. destruct (I12 Hv Hne) as (t & Ht & E). exists t. rewrite <- Hr by done.
    split; [by apply HDD|done].
Qed.

(** ** Programs of threads *)

(** Where a thread is; [InDown] is inside the [BlockThread] of [SemaphoreDown], with the interrupt
    statuses the two functions have saved. *)
Inductive pc :=
| Client
| Lock58 (l : lock_id) | InDown (l : lock_id) (old inner : int_status)
| Lock59 (l : lock_id) | Lock60 (l : lock_id) | Lock61 (l : lock_id) | Lock65 (l : lock_id)
| Unlock72 (l : lock_id) | Unlock74 (l : lock_id) | Unlock77 (l : lock_id) | Unlock78 (l : lock_id)
| Unlock79 (l : lock_id) | Unlock80 (l : lock_id).

(** [irq] is the flags word a thread that was interrupted by the clock gets back with [iret]. *)
Record thread_ctl := Ctl { irq : option Z; at_pc : pc }.

(** [inside t l] counts the calls of [sys_lock_lock] on [l] that have returned to [t] minus the
    calls of [sys_lock_unlock] it has made: it is no part of the program. *)
Record system := System {
  kern : kernel;
  ctl : Z -> thread_ctl;
  inside : Z -> lock_id -> Z
}.

(** The loop test of [SemaphoreDown] and what follows it. *)
Definition down_test (l : lock_id) (t : Z) (old : int_status) : M kernel pc :=
  let* k := get_lock l in
  if value (sema k) =? 0 then
    down_enqueue l t ;;;
    let* inner := BlockThread_switch TASK_BLOCKD in
    ret (InDown l old inner)
  else
    down_take l old ;;;
    ret (Lock59 l).

(** The statement at a program point. *)
Definition run_pc (p : pc) : M kernel pc :=
  let* t := GetCurrentThreadPCB in
  match p with
  | Client => ret Client
  | Lock58 l => let* old := on_mach DisableInt in down_test l t old
  | InDown l old inner => let* _ := on_mach (SetIntStatus inner) in down_test l t old
  | Lock59 l => upd_lock l (set_holder t) ;;; ret (Lock60 l)
  | Lock60 l =>
      let* k := get_lock l in
      ASSERT (holder_repeat_request_sum k =? 0) "sys_lock_lock" 60 ;;;
      ret (Lock61 l)
  | Lock61 l => upd_lock l (set_sum 1) ;;; ret Client
  | Lock65 l => upd_lock l (fun k => set_sum (holder_repeat_request_sum k + 1) k) ;;; ret Client
  | Unlock72 l =>
      let* k := get_lock l in
      ret (if holder_repeat_request_sum k >? 1 then Unlock74 l else Unlock77 l)
  | Unlock74 l => upd_lock l (fun k => set_sum (holder_repeat_request_sum k - 1) k) ;;; ret Client
  | Unlock77 l =>
      let* k := get_lock l in
      ASSERT (holder_repeat_request_sum k =? 1) "sys_lock_unlock" 77 ;;;
      ret (Unlock78 l)
  | Unlock78 l => upd_lock l (set_sum 0) ;;; ret (Unlock79 l)
  | Unlock79 l => upd_lock l (set_holder 0) ;;; ret (Unlock80 l)
  | Unlock80 l => SemaphoreUp l ;;; ret Client
  end.

(** The program point after a call, line 56 of [sys_lock_lock] and line 71 of [sys_lock_unlock]. *)
Definition call_lock (l : lock_id) : M kernel pc :=
  let* k := get_lock l in
  let* t := GetCurrentThreadPCB in
  ret (if negb (holder k =? t) then Lock58 l else Lock65 l).
Definition call_unlock (l : lock_id) : M kernel pc :=
  let* k := get_lock l in
  let* t := GetCurrentThreadPCB in
  ASSERT (holder k =? t) "sys_lock_unlock" 71 ;;;
  ret (Unlock72 l).

(** The clock interrupt: the processor clears the interrupt flag, the handler runs (and may switch),
    the flags word waits for [iret]. *)
Definition clock_interrupt : M kernel Z :=
  let* s := get in
  on_mach cli ;;;
  IntTimerHandler ;;;
  ret (eflags (mach s)).

Inductive event := EvRun | EvClock | EvLock (l : lock_id) | EvUnlock (l : lock_id) | EvEnable | EvDisable.

Definition set_ctl (t : Z) (c : thread_ctl) (y : system) : system :=
  System (kern y) (fun u => if decide (u = t) then c else ctl y u) (inside y).
Definition add_inside (t : Z) (l : lock_id) (n : Z) (y : system) : system :=
  System (kern y) (ctl y)
    (fun u m => if decide (u = t /\ m = l) then inside y u m + n else inside y u m).

Definition in_kernel {A} : M kernel A -> M system A :=
  zoom kern (fun k y => System k (ctl y) (inside y)).

(** The lock whose section the thread enters when it leaves the program point for [Client]. *)
Definition entering (p : pc) : option lock_id :=
  match p with Lock61 l | Lock65 l => Some l | _ => None end.

Definition exec (e : event) : M system unit :=
  let* y := get in
  let t := cur (kern y) in
  let c := ctl y t in
  match e with
  | EvRun =>
      match irq c with
      | Some e =>
          in_kernel (on_mach (modify (set_eflags e))) ;;;
          modify (set_ctl t (Ctl None (at_pc c)))
      | None =>
          let* p := in_kernel (run_pc (at_pc c)) in
          modify (set_ctl t (Ctl None p)) ;;;
          match entering (at_pc c) with
          | Some l => modify (add_inside t l 1)
          | None => ret tt
          end
      end
  | EvClock =>
      let* e := in_kernel clock_interrupt in
      modify (set_ctl t (Ctl (Some e) (at_pc c)))
  | EvLock l =>
      let* p := in_kernel (call_lock l) in
      modify (set_ctl t (Ctl None p))
  | EvUnlock l =>
      let* p := in_kernel (call_unlock l) in
      modify (set_ctl t (Ctl None p)) ;;;
      modify (add_inside t l (-1))
  | EvEnable => let* _ := in_kernel (on_mach EnableInt) in ret tt
  | EvDisable => let* _ := in_kernel (on_mach DisableInt) in ret tt
  end.

(** When an event can happen: the current thread runs its statement; the clock needs the interrupt
    flag; and the code outside sync.c calls the functions at any time, but unlocks only what it
    holds and never nests 2^32 calls. *)
Definition enabled (e : event) (y : system) : Prop :=
  let t := cur (kern y) in
  let c := ctl y t in
  match e with
  | EvRun => irq c <> None \/ at_pc c <> Client
  | EvClock => irq c = None /\ if_flag (eflags (mach (kern y))) = INT_ON
  | EvLock l => irq c = None /\ at_pc c = Client /\ exists k, locks (kern y) !! l = Some k /\
      (holder k = t -> holder_repeat_request_sum k < 2 ^ 32 - 1)
  | EvUnlock l => irq c = None /\ at_pc c = Client /\ exists k, locks (kern y) !! l = Some k /\ holder k = t
  | EvEnable | EvDisable => irq c = None /\ at_pc c = Client
  end.

(** States reached from [y] by a sequence of events. *)
Inductive reaches (y : system) : system -> Prop :=
| reaches_refl : reaches y y
| reaches_step y1 e y2 : reaches y y1 -> enabled e y1 -> exec e y1 = Ret (tt, y2) -> reaches y y2.

(** ** The invariant of the system *)

Definition pc_lock (p : pc) : option lock_id :=
  match p with
  | Client => None
  | Lock58 l | InDown l _ _ | Lock59 l | Lock60 l | Lock61 l | Lock65 l | Unlock72 l | Unlock74 l
  | Unlock77 l | Unlock78 l | Unlock79 l | Unlock80 l => Some l
  end.

Definition pc_role (p : pc) (blocked : bool) : role :=
  match p with
  | Client => Out
  | Lock58 _ => Trying
  | InDown _ _ _ => if blocked then Waiting else Woken
  | Lock59 _ => Got | Lock60 _ => R60 | Lock61 _ => R61 | Lock65 _ => R65
  | Unlock72 _ => U72 | Unlock74 _ => U74 | Unlock77 _ => U77 | Unlock78 _ => U78
  | Unlock79 _ => U79 | Unlock80 _ => U80
  end.

Definition is_blocked (s : kernel) (t : Z) : bool :=
  match pcbs s !! t with Some c => bool_decide (status c = TASK_BLOCKD) | None => false end.

(** The role of thread [t] with respect to lock [l]. *)
Definition role_of (s : kernel) (c : Z -> thread_ctl) (l : lock_id) (t : Z) : role :=
  if decide (pc_lock (at_pc (c t)) = Some l) then pc_role (at_pc (c t)) (is_blocked s t) else Out.

(** The number of sections a thread is inside of, from the lock and the thread's role. *)
Definition sections (k : lock) (t : Z) (x : role) : Z :=
  if holder k =? t then
    match x with
    | R60 | R61 | U79 => 0
    | U72 | U74 | U77 | U78 => holder_repeat_request_sum k - 1
    | _ => holder_repeat_request_sum k
    end
  else 0.

Definition thread_of (s : kernel) (t : Z) : Prop := is_Some (pcbs s !! t).

Record sys_inv (dirs : Z -> Z) (y : system) : Prop := {
  si_sched : sched_ok dirs TASK_RUNNING (kern y);
  si_status : forall t c, pcbs (kern y) !! t = Some c ->
    status c = TASK_RUNNING \/ status c = TASK_READY \/ status c = TASK_BLOCKD;
  si_blocked : forall t, is_blocked (kern y) t = true ->
    exists l old inner, at_pc (ctl y t) = InDown l old inner;
  si_lock : forall t l, thread_of (kern y) t -> pc_lock (at_pc (ctl y t)) = Some l ->
    is_Some (locks (kern y) !! l);
  si_inner : forall t l old inner, at_pc (ctl y t) = InDown l old inner -> inner = INT_OFF /\ irq (ctl y t) = None;
  si_if : if_flag (eflags (mach (kern y))) = INT_ON ->
    irq (ctl y (cur (kern y))) = None /\
    forall l old inner, at_pc (ctl y (cur (kern y))) <> InDown l old inner;
  si_locks : forall l k, locks (kern y) !! l = Some k ->
    lock_inv (thread_of (kern y)) k (role_of (kern y) (ctl y) l);
  si_inside : forall t l k, thread_of (kern y) t -> locks (kern y) !! l = Some k ->
    inside y t l = sections k t (role_of (kern y) (ctl y) l t)
}.

(** ** Steps that only touch one lock and the program point of the current thread *)

Section steps.
  Context (dirs : Z -> Z).

Lemma inv_D y t : sys_inv dirs y -> thread_of (kern y) t -> thread_page t.
Proof. intros Hy [c Hc]. by destruct (so_page _ _ _ (si_sched _ _ Hy) _ _ Hc). Qed.

Lemma cur_thread y : sys_inv dirs y -> thread_of (kern y) (cur (kern y)).
Proof. intros Hy. destruct (so_cur _ _ _ (si_sched _ _ Hy)) as (c & Hc & _). by exists c. Qed.

Lemma cur_not_blocked y : sys_inv dirs y -> is_blocked (kern y) (cur (kern y)) = false.
Proof.
  intros Hy. destruct (so_cur _ _ _ (si_sched _ _ Hy)) as (c & Hc & E).
  unfold is_blocked. rewrite Hc, E. by apply bool_decide_false.
Qed.

Definition in_down (p : pc) : bool := match p with InDown _ _ _ => true | _ => false end.

(** The system after the current thread replaced lock [l] by [k'] and went to [p']. *)
Definition moved (y : system) (l : lock_id) (k' : lock) (m : machine) (p' : pc)
    (ins : Z -> lock_id -> Z) : system :=
  set_ctl (cur (kern y)) (Ctl None p') (System (set_mach m (with_lock l k' (kern y))) (ctl y) ins).

Lemma role_of_moved s c t p' l' u :
  role_of s (fun v => if decide (v = t) then Ctl None p' else c v) l' u =
    if decide (u = t) then (if decide (pc_lock p' = Some l') then pc_role p' (is_blocked s t) else Out)
    else role_of s c l' u.
Proof. unfold role_of. destruct (decide (u = t)) as [->|]; done. Qed.

Lemma moved_inv y l k k' m p' ins n :
  sys_inv dirs y -> locks (kern y) !! l = Some k ->
  (forall u m, ins u m = if decide (u = cur (kern y) /\ m = l) then inside y u m + n else inside y u m) ->
  let t := cur (kern y) in
  (forall l', pc_lock (at_pc (ctl y t)) = Some l' -> l' = l) ->
  (forall l', pc_lock p' = Some l' -> l' = l) -> in_down p' = false ->
  lock_inv (thread_of (kern y)) k' (upd (role_of (kern y) (ctl y) l) t (pc_role p' false)) ->
  sections k' t (pc_role p' false) = inside y t l + n ->
  (forall u x, thread_of (kern y) u -> u <> t -> sections k' u x = sections k u x) ->
  sys_inv dirs (moved y l k' m p' ins).
Proof.
  intros Hy Hk Hins t Hp Hp' Hnd Hinv Hsec Hsec'.
  pose proof (cur_not_blocked y Hy) as Hnb. fold t in Hnb.
  pose proof Hy as [I1 I2 I3 I4 I5 I6 I7 I8].
  assert (forall u, thread_of (kern y) u -> role_of (kern y) (ctl (moved y l k' m p' ins)) l u =
    upd (role_of (kern y) (ctl y) l) t (pc_role p' false) u) as Hrole.
  { intros u Hu. unfold moved. cbn [ctl set_ctl]. rewrite role_of_moved. fold t. unfold upd.
    destruct (decide (u = t)) as [->|]; [|done]. rewrite Hnb.
    destruct (decide (pc_lock p' = Some l)) as [|Hne]; [done|].
    destruct p'; cbn in *; try done; exfalso; apply Hne; f_equal; by apply Hp'. }
  assert (forall l' u, l' <> l -> role_of (kern y) (ctl (moved y l k' m p' ins)) l' u =
    role_of (kern y) (ctl y) l' u) as Hother.
  { intros l' u Hne. unfold moved. cbn [ctl set_ctl]. rewrite role_of_moved. fold t.
    destruct (decide (u = t)) as [->|]; [|done].
    rewrite decide_False by (intros E; apply Hp' in E; congruence).
    unfold role_of. rewrite decide_False; [done|]. intros E. apply Hp in E. congruence. }
  constructor.
  - destruct I1. by constructor.
  - done.
  - intros u Hu. unfold moved. cbn [ctl set_ctl]. fold t.
    destruct (decide (u = t)) as [->|]; [|by apply I3].
    change (is_blocked (kern y) t = true) in Hu. congruence.
  - intros u l' Hu. unfold moved. cbn [kern ctl set_ctl]. fold t. intros E.
    cbn [locks set_mach with_lock set_locks]. apply lookup_insert_is_Some'.
    destruct (decide (u = t)) as [->|]; [left; symmetry; by apply Hp'|right; by apply (I4 u)].
  - intros u l' old inner. unfold moved. cbn [ctl set_ctl]. fold t.
    destruct (decide (u = t)) as [->|]; [|apply I5]. intros E. cbn in E. by rewrite E in Hnd.
  - intros _. unfold moved. cbn [kern ctl set_ctl].
    change (cur (set_mach m (with_lock l k' (kern y)))) with t. rewrite decide_True by done.
    split; [done|]. intros l' old inner E. cbn in E. by rewrite E in Hnd.
  - intros l' k0. unfold moved at 1. cbn [kern set_ctl locks set_mach with_lock set_locks].
    rewrite lookup_insert. destruct (decide (l = l')) as [<-|Hne]; [intros [= <-]|intros Hk0].
    + eapply lock_inv_ext; [done| |exact Hinv]. intros u Hu. symmetry. by apply Hrole.
    + eapply lock_inv_ext; [done| |by apply I7]. intros u Hu. symmetry. by apply Hother.
  - intros u l' k0 Hu Hk0.
    change (role_of (kern (moved y l k' m p' ins))) with (role_of (kern y)).
    change (inside (moved y l k' m p' ins) u l') with (ins u l'). rewrite Hins. fold t.
    change (locks (kern (moved y l k' m p' ins))) with (<[l := k']> (locks (kern y))) in Hk0.
    rewrite lookup_insert in Hk0. destruct (decide (l = l')) as [<-|Hne].
    + injection Hk0 as <-. rewrite Hrole by done. unfold upd. destruct (decide (u = t)) as [->|Hut].
      * rewrite decide_True by done. by rewrite Hsec.
      * rewrite decide_False by naive_solver. rewrite Hsec' by done. by apply I8.
    + rewrite Hother by done. rewrite decide_False by naive_solver. by apply I8.
Qed.

Definition progress (y : system) (e : event) : Prop :=
  exists y', exec e y = Ret (tt, y') /\ sys_inv dirs y'.

Lemma set_mach_with_lock y l k : set_mach (mach (kern y)) (with_lock l k (kern y)) = with_lock l k (kern y).
Proof. by destruct (kern y). Qed.

(** A statement that changes one lock makes progress. *)
Lemma progress_moved y l k k' m p' :
  let t := cur (kern y) in
  let p := at_pc (ctl y t) in
  let n := match entering p with Some _ => 1 | None => 0 end in
  sys_inv dirs y -> irq (ctl y t) = None -> locks (kern y) !! l = Some k ->
  run_pc p (kern y) = Ret (p', set_mach m (with_lock l k' (kern y))) ->
  pc_lock p = Some l -> (forall l', pc_lock p' = Some l' -> l' = l) -> in_down p' = false ->
  lock_inv (thread_of (kern y)) k' (upd (role_of (kern y) (ctl y) l) t (pc_role p' false)) ->
  sections k' t (pc_role p' false) = inside y t l + n ->
  (forall u x, thread_of (kern y) u -> u <> t -> sections k' u x = sections k u x) ->
  progress y EvRun.
Proof.
  intros t p n Hy Hirq Hk Hrun Hp Hp' Hnd Hinv Hsec Hsec'.
  set (ins := match entering p with Some _ => inside (add_inside t l 1 y) | None => inside y end).
  exists (moved y l k' m p' ins). split.
  - unfold exec. rewrite (bind_Ret _ _ y y y) by done. fold t. rewrite Hirq. fold p.
    rewrite (bind_Ret _ _ y p' (System (set_mach m (with_lock l k' (kern y))) (ctl y) (inside y)))
      by (unfold in_kernel, zoom; by rewrite Hrun).
    unfold ins, moved. rewrite (bind_Ret _ _ _ tt (set_ctl t (Ctl None p')
      (System (set_mach m (with_lock l k' (kern y))) (ctl y) (inside y)))) by done.
    destruct (entering p) as [l0|] eqn:E; [|done].
    assert (l0 = l) as -> by (destruct p; cbn in E, Hp; congruence). done.
  - apply (moved_inv y l k k' m p' ins n); try done.
    + intros u l'. unfold ins, n. destruct (entering p); [done|].
      case_decide as E; [destruct E; subst; by rewrite Z.add_0_r|done].
    + intros l' E. fold t p in E. congruence.
Qed.

(** Facts about the current thread's lock. *)
Lemma at_lock y l :
  let t := cur (kern y) in
  sys_inv dirs y -> pc_lock (at_pc (ctl y t)) = Some l ->
  exists k, locks (kern y) !! l = Some k /\ lock_inv (thread_of (kern y)) k (role_of (kern y) (ctl y) l) /\
    role_of (kern y) (ctl y) l t = pc_role (at_pc (ctl y t)) false /\
    inside y t l = sections k t (pc_role (at_pc (ctl y t)) false).
Proof.
  intros t Hy Hp. destruct (si_lock _ _ Hy t l (cur_thread y Hy) Hp) as [k Hk].
  assert (role_of (kern y) (ctl y) l t = pc_role (at_pc (ctl y t)) false) as Hr.
  { unfold role_of. rewrite decide_True by done. unfold t. by rewrite cur_not_blocked. }
  exists k. split_and!; [done|by apply (si_locks _ _ Hy)|done|].
  rewrite (si_inside _ _ Hy t l k (cur_thread y Hy) Hk). by rewrite Hr.
Qed.

Lemma get_pc l s k (f : lock -> pc) : locks s !! l = Some k ->
  (let* k := get_lock l in ret (f k)) s = Ret (f k, set_mach (mach s) (with_lock l k s)).
Proof.
  intros Hk. rewrite (bind_Ret _ _ _ _ _ (get_lock_ok _ _ _ Hk)).
  rewrite with_lock_id by done. by rewrite set_mach_id.
Qed.

Lemma upd_pc l s k f (p : pc) : locks s !! l = Some k ->
  (upd_lock l f ;;; ret p) s = Ret (p, set_mach (mach s) (with_lock l (f k) s)).
Proof. intros Hk. rewrite (bind_Ret _ _ _ _ _ (upd_lock_ok _ _ _ _ Hk)). by destruct s. Qed.

Lemma assert_pc l s k (c : lock -> bool) f n (p : pc) : locks s !! l = Some k -> c k = true ->
  (let* k := get_lock l in ASSERT (c k) f n ;;; ret p) s = Ret (p, set_mach (mach s) (with_lock l k s)).
Proof.
  intros Hk Hc. rewrite (bind_Ret _ _ _ _ _ (get_lock_ok _ _ _ Hk)).
  rewrite (bind_Ret _ _ s tt s) by by apply ASSERT_true.
  rewrite with_lock_id by done. by rewrite set_mach_id.
Qed.

Lemma run_pc_eq p s : run_pc p s =
  (match p with
  | Client => ret Client
  | Lock58 l => let* old := on_mach DisableInt in down_test l (cur s) old
  | InDown l old inner => let* _ := on_mach (SetIntStatus inner) in down_test l (cur s) old
  | Lock59 l => upd_lock l (set_holder (cur s)) ;;; ret (Lock60 l)
  | Lock60 l =>
      let* k := get_lock l in
      ASSERT (holder_repeat_request_sum k =? 0) "sys_lock_lock" 60 ;;;
      ret (Lock61 l)
  | Lock61 l => upd_lock l (set_sum 1) ;;; ret Client
  | Lock65 l => upd_lock l (fun k => set_sum (holder_repeat_request_sum k + 1) k) ;;; ret Client
  | Unlock72 l =>
      let* k := get_lock l in
      ret (if holder_repeat_request_sum k >? 1 then Unlock74 l else Unlock77 l)
  | Unlock74 l => upd_lock l (fun k => set_sum (holder_repeat_request_sum k - 1) k) ;;; ret Client
  | Unlock77 l =>
      let* k := get_lock l in
      ASSERT (holder_repeat_request_sum k =? 1) "sys_lock_unlock" 77 ;;;
      ret (Unlock78 l)
  | Unlock78 l => upd_lock l (set_sum 0) ;;; ret (Unlock79 l)
  | Unlock79 l => upd_lock l (set_holder 0) ;;; ret (Unlock80 l)
  | Unlock80 l => SemaphoreUp l ;;; ret Client
  end) s.
Proof. reflexivity. Qed.

(** A step of the holder that only changes the count. *)
Lemma progress_count y l p' n :
  let t := cur (kern y) in
  let p := at_pc (ctl y t) in
  sys_inv dirs y -> irq (ctl y t) = None -> pc_lock p = Some l ->
  holding (pc_role p false) = true -> pc_lock p' = Some l \/ pc_lock p' = None ->
  holding (pc_role p' false) = true \/ p' = Client ->
  (forall k, locks (kern y) !! l = Some k -> holder k = t ->
     sum_ok (pc_role p false) (holder_repeat_request_sum k) ->
     sum_ok (pc_role p' false) (n k) /\
     run_pc p (kern y) = Ret (p', set_mach (mach (kern y)) (with_lock l (Lock (holder k) (sema k) (n k)) (kern y))) /\
     sections (Lock t (sema k) (n k)) t (pc_role p' false) =
       sections (Lock t (sema k) (holder_repeat_request_sum k)) t (pc_role p false) +
         match entering p with Some _ => 1 | None => 0 end) ->
  progress y EvRun.
Proof.
  intros t p Hy Hirq Hp Hh Hp' Hh' Hstep.
  destruct (at_lock y l Hy Hp) as (k & Hk & Hinv & Hr & Hin). fold t in Hr, Hin. fold p in Hr, Hin.
  pose proof (cur_thread y Hy) as Ht. fold t in Ht.
  assert (holder k = t) as Hkt by (apply (li_in _ _ _ Hinv); [done|by rewrite Hr]).
  pose proof (li_sum _ _ _ Hinv t Ht Hkt) as Hsum. rewrite Hr in Hsum.
  destruct (Hstep k Hk Hkt Hsum) as (Hsum' & Hrun & Hsec).
  assert (pc_role p' false <> Waiting /\ pc_role p' false <> Woken /\ passing (pc_role p' false) = false /\
    not_holding (pc_role p' false) = false) as (N1 & N2 & N3 & N4).
  { destruct Hh' as [H| ->]; [|done]. by destruct (pc_role p' false). }
  apply (progress_moved y l k (Lock (holder k) (sema k) (n k)) (mach (kern y)) p'); fold t p; try done.
  - intros l' E. destruct Hp'; congruence.
  - by destruct p'.
  - apply inv_move; rewrite ?Hr, ?N3; try done.
    + intros u Hu. by apply (inv_D y u).
    + by destruct (pc_role p false).
    + intros E. by rewrite E in Hh.
    + intros E. by rewrite E in Hh.
    + by rewrite N4.
  - fold t. fold p. rewrite Hin. rewrite <- Hkt in Hsec at 1. rewrite Hsec. f_equal.
    unfold sections. cbn [holder holder_repeat_request_sum]. by rewrite Hkt, !Z.eqb_refl.
  - intros u x Hu Hne. unfold sections. cbn [holder]. rewrite Hkt. by replace (t =? u) with false by lia.
Qed.

(** The statements of a holder. *)
Lemma progress_holder y l :
  let p := at_pc (ctl y (cur (kern y))) in
  sys_inv dirs y -> irq (ctl y (cur (kern y))) = None ->
  p = Lock60 l \/ p = Lock61 l \/ p = Lock65 l \/ p = Unlock72 l \/ p = Unlock74 l \/
    p = Unlock77 l \/ p = Unlock78 l ->
  progress y EvRun.
Proof.
  intros p Hy Hirq Hp.
  assert (forall n, sum_ok Out n -> u32 n = n) as Hu by (intros n Hn; cbn in Hn; by rewrite u32_id by lia).
  destruct Hp as [E|[E|[E|[E|[E|[E|E]]]]]]; unfold p in E.
  - apply (progress_count y l (Lock61 l) holder_repeat_request_sum); rewrite ?E; auto.
    intros k Hk Hh Hs. cbn in Hs. split_and!; [done| |by rewrite Z.add_0_r].
    rewrite run_pc_eq. rewrite (assert_pc l _ k (fun k => holder_repeat_request_sum k =? 0)); [|done|lia].
    by destruct k.
  - apply (progress_count y l Client (fun _ => 1)); rewrite ?E; auto.
    intros k Hk Hh Hs. cbn in Hs. split_and!; [cbn; lia| |].
    + rewrite run_pc_eq. by rewrite (upd_pc l _ k).
    + unfold sections. cbn. by rewrite Z.eqb_refl.
  - apply (progress_count y l Client (fun k => u32 (holder_repeat_request_sum k + 1))); rewrite ?E; auto.
    intros k Hk Hh Hs. cbn in Hs. split_and!.
    + cbn. rewrite u32_id by lia. lia.
    + rewrite run_pc_eq. by rewrite (upd_pc l _ k).
    + unfold sections. cbn. rewrite Z.eqb_refl, u32_id by lia. done.
  - apply (progress_count y l (if holder_repeat_request_sum (default free_lock (locks (kern y) !! l)) >? 1
                               then Unlock74 l else Unlock77 l) holder_repeat_request_sum);
      rewrite ?E; auto; try (by destruct (_ >? 1); auto).
    intros k Hk Hh Hs. cbn in Hs. rewrite Hk. cbn [default id]. split_and!.
    + destruct (holder_repeat_request_sum k >? 1) eqn:G; cbn; lia.
    + rewrite run_pc_eq, (get_pc l _ k (fun k => if holder_repeat_request_sum k >? 1 then Unlock74 l
        else Unlock77 l)) by done. by destruct k.
    + unfold sections. cbn [holder entering]. rewrite Z.eqb_refl. by destruct (_ >? 1); cbn; lia.
  - apply (progress_count y l Client (fun k => u32 (holder_repeat_request_sum k - 1))); rewrite ?E; auto.
    intros k Hk Hh Hs. cbn in Hs. split_and!.
    + cbn. rewrite u32_id by lia. lia.
    + rewrite run_pc_eq. by rewrite (upd_pc l _ k).
    + unfold sections. cbn. rewrite Z.eqb_refl, u32_id by lia. lia.
  - apply (progress_count y l (Unlock78 l) holder_repeat_request_sum); rewrite ?E; auto.
    intros k Hk Hh Hs. cbn in Hs. split_and!; [done| |by rewrite Z.add_0_r].
    rewrite run_pc_eq. rewrite (assert_pc l _ k (fun k => holder_repeat_request_sum k =? 1)); [|done|lia].
    by destruct k.
  - apply (progress_count y l (Unlock79 l) (fun _ => 0)); rewrite ?E; auto.
    intros k Hk Hh Hs. cbn in Hs. split_and!; [done| |].
    + rewrite run_pc_eq. by rewrite (upd_pc l _ k).
    + unfold sections. cbn. rewrite Z.eqb_refl. lia.
Qed.

(** Becoming the holder, and giving the lock up. *)
Lemma progress_hold y l :
  sys_inv dirs y -> irq (ctl y (cur (kern y))) = None -> at_pc (ctl y (cur (kern y))) = Lock59 l ->
  progress y EvRun.
Proof.
  intros Hy Hirq E. destruct (at_lock y l Hy) as (k & Hk & Hinv & Hr & Hin); [by rewrite E|].
  rewrite E in Hr, Hin. cbn [pc_role] in Hr, Hin. pose proof (cur_thread y Hy) as Ht.
  set (t := cur (kern y)) in *.
  assert (holder k = 0) as Hh0.
  { destruct (li_holder _ _ _ Hinv) as [|Hd]; [done|]. exfalso.
    apply (li_out _ _ _ Hinv t Ht); [by rewrite Hr|]. apply (li_unique _ _ _ Hinv); auto.
    right. by rewrite Hr. }
  assert (0 <> t) as Ht0 by (destruct (inv_D y t Hy Ht); lia).
  apply (progress_moved y l k (set_holder t k) (mach (kern y)) (Lock60 l)); fold t; rewrite ?E; try done.
  - rewrite run_pc_eq. by rewrite (upd_pc l _ k).
  - intros l' [= <-]. done.
  - apply inv_hold; try done. intros u Hu. by apply (inv_D y u).
  - rewrite Hin. unfold sections. cbn [set_holder holder]. rewrite Z.eqb_refl, Hh0.
    by replace (0 =? t) with false by lia.
  - intros u x Hu Hne. unfold sections. cbn [set_holder holder]. rewrite Hh0.
    assert (0 <> u) by (destruct (inv_D y u Hy Hu); lia).
    by replace (t =? u) with false by lia; replace (0 =? u) with false by lia.
Qed.

Lemma progress_release y l :
  sys_inv dirs y -> irq (ctl y (cur (kern y))) = None -> at_pc (ctl y (cur (kern y))) = Unlock79 l ->
  progress y EvRun.
Proof.
  intros Hy Hirq E. destruct (at_lock y l Hy) as (k & Hk & Hinv & Hr & Hin); [by rewrite E|].
  rewrite E in Hr, Hin. cbn [pc_role] in Hr, Hin. pose proof (cur_thread y Hy) as Ht.
  set (t := cur (kern y)) in *.
  assert (holder k = t) as Hh by (apply (li_in _ _ _ Hinv); [done|by rewrite Hr]).
  assert (0 <> t) as Ht0 by (destruct (inv_D y t Hy Ht); lia).
  apply (progress_moved y l k (set_holder 0 k) (mach (kern y)) (Unlock80 l)); fold t; rewrite ?E; try done.
  - rewrite run_pc_eq. by rewrite (upd_pc l _ k).
  - intros l' [= <-]. done.
  - apply inv_release; try done. intros u Hu. by apply (inv_D y u).
  - rewrite Hin. unfold sections. cbn [set_holder holder]. rewrite Hh, Z.eqb_refl.
    by replace (0 =? t) with false by lia.
  - intros u x Hu Hne. unfold sections. cbn [set_holder holder]. rewrite Hh.
    assert (0 <> u) by (destruct (inv_D y u Hy Hu); lia).
    by replace (t =? u) with false by lia; replace (0 =? u) with false by lia.
Qed.

(** *** SemaphoreUp *)

Lemma sched_ok_lock st s l k : sched_ok dirs st s -> sched_ok dirs st (with_lock l k s).
Proof. intros []. by constructor. Qed.

Lemma on_waiting_ok s l k op xs r :
  locks s !! l = Some k -> seq_op (waiting_thread_list (sema k)) op = Some (xs, r) ->
  on_waiting l op s = Ret (r, with_lock l (set_waiting xs k) s).
Proof.
  intros Hk Hop. unfold on_waiting. rewrite (bind_Ret _ _ _ _ _ (get_lock_ok _ _ _ Hk)), Hop.
  by rewrite (bind_Ret _ _ _ _ _ (upd_lock_ok _ _ _ _ Hk)).
Qed.

Lemma set_waiting_id k : set_waiting (waiting_thread_list (sema k)) k = k.
Proof. by destruct k as [? [] ?]. Qed.

Lemma waiting_read s l k op r :
  locks s !! l = Some k -> seq_op (waiting_thread_list (sema k)) op = Some (waiting_thread_list (sema k), r) ->
  on_waiting l op s = Ret (r, s).
Proof.
  intros Hk Hop. rewrite (on_waiting_ok _ _ _ _ _ _ Hk Hop), set_waiting_id. by rewrite with_lock_id.
Qed.

Lemma SemaphoreUp_free s l k :
  locks s !! l = Some k -> waiting_thread_list (sema k) = [] ->
  SemaphoreUp l s = Ret (tt, with_lock l (set_value (value (sema k) + 1) k) s).
Proof.
  intros Hk Hw. unfold SemaphoreUp. rewrite (bind_Ret _ _ _ _ _ (on_mach_ok _ _ _ _ (DisableInt_ok (mach s)))).
  set (s0 := set_mach (masked (mach s)) s).
  rewrite (bind_Ret _ _ s0 1 s0) by (apply (waiting_read _ _ k); [done|]; cbn; by rewrite Hw).
  rewrite (bind_Ret _ _ s0 tt s0) by done.
  rewrite (bind_Ret _ _ _ _ _ (upd_lock_ok s0 l _ k Hk)).
  destruct (restore_kernel (with_lock l (set_value (value (sema k) + 1) k) s) _ eq_refl) as [old Hold].
  by rewrite (bind_Ret _ _ _ _ _ Hold).
Qed.

Lemma SemaphoreUp_wake st s l k w cw rest :
  sched_ok dirs st s -> locks s !! l = Some k ->
  waiting_thread_list (sema k) = general_tag w :: rest -> thread_page w ->
  pcbs s !! w = Some cw -> status cw = TASK_BLOCKD ->
  SemaphoreUp l s =
    Ret (tt, unblocked w cw (with_lock l (set_value (value (sema k) + 1) (set_waiting rest k)) s)).
Proof.
  intros Hok Hk Hw Hpw Hcw Hb. unfold SemaphoreUp.
  rewrite (bind_Ret _ _ _ _ _ (on_mach_ok _ _ _ _ (DisableInt_ok (mach s)))).
  set (s0 := set_mach (masked (mach s)) s).
  rewrite (bind_Ret _ _ s0 0 s0).
  2:{ apply (waiting_read _ _ k); [done|]. cbn. rewrite bool_decide_false by (by rewrite Hw). done. }
  cbn [is_true_c Z.eqb negb].
  set (s1 := with_lock l (set_waiting rest k) s0).
  assert (UnblockThread w s1 = Ret (tt, unblocked w cw s1)) as Hun.
  { apply (UnblockThread_eq dirs st); [|done|by left]. by apply sched_ok_lock, sched_ok_mach. }
  rewrite (bind_Ret _ _ s0 tt (unblocked w cw s1)).
  2:{ rewrite (bind_Ret _ _ s0 (general_tag w) s1) by (apply on_waiting_ok; [done|]; by rewrite Hw).
      by rewrite pcb_of_general_tag_eq. }
  rewrite (bind_Ret _ _ _ _ _ (upd_lock_ok (unblocked w cw s1) l _ (set_waiting rest k) (with_lock_lookup _ _ _))).
  destruct (restore_kernel (unblocked w cw (with_lock l (set_value (value (sema k) + 1) (set_waiting rest k)) s))
    _ eq_refl) as [old Hold].
  erewrite bind_Ret; [done|]. etransitivity; [|exact Hold]. f_equal.
  unfold unblocked, s1, s0, with_lock.
  cbn [locks set_locks set_mach set_pcbs set_ready pcbs ready_thread_list sema set_waiting value].
  by rewrite insert_insert_eq.
Qed.

Lemma progress_up_free y l k :
  sys_inv dirs y -> irq (ctl y (cur (kern y))) = None -> at_pc (ctl y (cur (kern y))) = Unlock80 l ->
  locks (kern y) !! l = Some k -> waiting_thread_list (sema k) = [] -> progress y EvRun.
Proof.
  intros Hy Hirq E Hk Hw. destruct (at_lock y l Hy) as (k0 & Hk0 & Hinv & Hr & Hin); [by rewrite E|].
  assert (k0 = k) as -> by congruence.
  rewrite E in Hr, Hin. cbn [pc_role] in Hr, Hin. pose proof (cur_thread y Hy) as Ht.
  set (t := cur (kern y)) in *.
  assert (holder k <> t) as Hh by (apply (li_out _ _ _ Hinv t Ht); by rewrite Hr).
  apply (progress_moved y l k (set_value (value (sema k) + 1) k) (mach (kern y)) Client); fold t; rewrite ?E; try done.
  - rewrite run_pc_eq. rewrite (bind_Ret _ _ _ _ _ (SemaphoreUp_free _ _ _ Hk Hw)). by rewrite set_mach_with_lock.
  - apply inv_up; try done. intros u Hu. by apply (inv_D y u).
  - rewrite Hin. unfold sections. cbn [set_value holder]. by replace (holder k =? t) with false by lia.
Qed.

(** The roles when a waiting thread is made ready. *)
Lemma is_blocked_unblocked s w cw u :
  is_blocked (unblocked w cw s) u = if decide (u = w) then false else is_blocked s u.
Proof.
  unfold is_blocked, unblocked. cbn [pcbs set_pcbs]. rewrite lookup_insert.
  destruct (decide (w = u)) as [<-|]; [by rewrite decide_True|by rewrite decide_False].
Qed.

Lemma thread_of_unblocked s w cw u : is_Some (pcbs s !! w) ->
  thread_of (unblocked w cw s) u <-> thread_of s u.
Proof.
  intros Hw. unfold thread_of, unblocked. cbn [pcbs set_pcbs]. rewrite lookup_insert_is_Some.
  split; [intros [<-|[? ?]]; done|]. intros Hu. destruct (decide (w = u)); auto.
Qed.

Lemma progress_up_wake y l k tag rest :
  sys_inv dirs y -> irq (ctl y (cur (kern y))) = None -> at_pc (ctl y (cur (kern y))) = Unlock80 l ->
  locks (kern y) !! l = Some k -> waiting_thread_list (sema k) = tag :: rest -> progress y EvRun.
Proof.
  intros Hy Hirq E Hk Hw. destruct (at_lock y l Hy) as (k0 & Hk0 & Hinv & Hr & Hin); [by rewrite E|].
  assert (k0 = k) as -> by congruence.
  rewrite E in Hr, Hin. cbn [pc_role] in Hr, Hin. pose proof (cur_thread y Hy) as Ht.
  set (t := cur (kern y)) in *.
  destruct (proj1 (li_waiting _ _ _ Hinv tag)) as (w & Hdw & -> & Hrw); [rewrite Hw; left|].
  assert (at_pc (ctl y w) <> Client /\ is_blocked (kern y) w = true /\ pc_lock (at_pc (ctl y w)) = Some l /\ in_down (at_pc (ctl y w)) = true) as (_ & Hbw & Hpw & Hdn).
  { unfold role_of in Hrw. case_decide as Ep; [|done]. rewrite Ep.
    destruct (at_pc (ctl y w)); try done. cbn in Hrw. by destruct (is_blocked (kern y) w). }
  assert (w <> t) as Hwt by (intros ->; by rewrite cur_not_blocked in Hbw).
  destruct Hdw as [cw Hcw]. assert (status cw = TASK_BLOCKD) as Hst.
  { unfold is_blocked in Hbw. rewrite Hcw in Hbw. by apply bool_decide_eq_true in Hbw. }
  set (k' := set_value (value (sema k) + 1) (set_waiting rest k)).
  set (s' := unblocked w cw (with_lock l k' (kern y))).
  assert (holder k <> t) as Hh by (apply (li_out _ _ _ Hinv t Ht); by rewrite Hr).
  assert (inv_up_wake_concl : lock_inv (thread_of (kern y)) k'
    (upd (upd (role_of (kern y) (ctl y) l) w Woken) t Out)).
  { apply inv_up_wake; try done; [|by exists cw]. intros u Hu. by apply (inv_D y u). }
  assert (forall l' u, role_of s' (ctl (set_ctl t (Ctl None Client) y)) l' u =
    if decide (l' = l) then upd (upd (role_of (kern y) (ctl y) l) w Woken) t Out u
    else role_of (kern y) (ctl y) l' u) as Hroles.
  { intros l' u. cbn [ctl set_ctl]. unfold role_of, upd, s'. rewrite is_blocked_unblocked.
    change (is_blocked (with_lock l k' (kern y)) u) with (is_blocked (kern y) u).
    destruct (decide (u = t)) as [->|Hut].
    - cbn [at_pc pc_lock]. rewrite decide_False by done. case_decide; [done|].
      fold t. rewrite E. cbn [pc_lock]. by rewrite decide_False by congruence.
    - destruct (decide (u = w)) as [->|].
      + rewrite Hpw. destruct (decide (l' = l)) as [->|].
        * rewrite decide_True by done. by destruct (at_pc (ctl y w)).
        * by rewrite !decide_False by congruence.
      + by destruct (decide (l' = l)) as [->|]. }
  exists (System s' (ctl (set_ctl t (Ctl None Client) y)) (inside y)). split.
  - unfold exec. rewrite (bind_Ret _ _ y y y) by done. fold t. rewrite Hirq, E.
    rewrite (bind_Ret _ _ y Client (System s' (ctl y) (inside y))); [done|].
    unfold in_kernel, zoom. rewrite run_pc_eq. by rewrite (bind_Ret _ _ _ _ _
      (SemaphoreUp_wake _ _ _ _ _ _ _ (si_sched _ _ Hy) Hk Hw (inv_D y w Hy (mk_is_Some _ _ Hcw)) Hcw Hst)).
  - pose proof Hy as [I1 I2 I3 I4 I5 I6 I7 I8].
    assert (forall u, thread_of s' u <-> thread_of (kern y) u) as HD.
    { intros u. apply (thread_of_unblocked (with_lock l k' (kern y))). by exists cw. }
    constructor; cbn [kern inside].
    + apply unblocked_ok; [by apply sched_ok_lock|done|by left|done].
    + intros u c. unfold s', unblocked. cbn [pcbs set_pcbs]. rewrite lookup_insert.
      case_decide; [intros [= <-]; auto|apply I2].
    + intros u. unfold s'. rewrite is_blocked_unblocked. cbn [ctl set_ctl].
      destruct (decide (u = w)); [done|]. destruct (decide (u = t)) as [->|]; [|apply I3].
      change (is_blocked (kern y) t = true -> exists l0 old inner, Client = InDown l0 old inner).
      intros Hb. unfold t in Hb. by rewrite cur_not_blocked in Hb.
    + intros u l' Hu. apply HD in Hu. cbn [ctl set_ctl]. destruct (decide (u = t)); [done|].
      intros Ep. cbn [s' unblocked locks set_pcbs set_ready with_lock set_locks].
      apply lookup_insert_is_Some'. right. by apply (I4 u).
    + intros u l' old inner. cbn [ctl set_ctl]. destruct (decide (u = t)); [done|apply I5].
    + intros _. change (cur s') with t. cbn [ctl set_ctl]. rewrite decide_True by done. done.
    + intros l' k1. cbn [s' unblocked locks set_pcbs set_ready with_lock set_locks]. rewrite lookup_insert.
      destruct (decide (l = l')) as [<-|]; [intros [= <-]|intros Hk1].
      * eapply lock_inv_ext; [|intros u Hu|exact inv_up_wake_concl]; [intros u; symmetry; apply HD|].
        rewrite Hroles. by rewrite decide_True.
      * eapply lock_inv_ext; [|intros u Hu|by apply I7]; [intros u; symmetry; apply HD|].
        rewrite Hroles. by rewrite decide_False.
    + intros u l' k1 Hu. apply HD in Hu.
      cbn [s' unblocked locks set_pcbs set_ready with_lock set_locks]. fold s'. rewrite lookup_insert.
      destruct (decide (l = l')) as [<-|]; [intros [= <-]|intros Hk1].
      * rewrite Hroles, decide_True by done. rewrite (I8 u l k Hu Hk). unfold sections.
        cbn [k' set_value set_waiting holder]. destruct (Z.eqb_spec (holder k) u) as [Hhu|]; [|done].
        assert (u <> t) by congruence. rewrite upd_ne by done.
        destruct (decide (u = w)) as [->|]; [|by rewrite upd_ne].
        exfalso. apply (li_out _ _ _ Hinv w Hu); [by rewrite Hrw|done].
      * rewrite Hroles, decide_False by done. by apply I8.
Qed.

(** *** SemaphoreDown *)

Lemma SetIntStatus_total st m : exists r m', SetIntStatus st m = Ret (r, m').
Proof.
  destruct st; cbn [SetIntStatus].
  - exists (if_flag (eflags m)), (masked m). apply DisableInt_ok.
  - unfold EnableInt, GetIntStatus, bind. destruct (if_flag (eflags m)); eexists _, _; reflexivity.
Qed.

Lemma down_take_ok l old s k : locks s !! l = Some k ->
  exists m, down_take l old s = Ret (tt, set_mach m (with_lock l (set_value (value (sema k) - 1) k) s)).
Proof.
  intros Hk. destruct (SetIntStatus_total old (mach s)) as (r & m & Hm). exists m.
  unfold down_take. rewrite (bind_Ret _ _ _ _ _ (upd_lock_ok _ _ _ _ Hk)).
  by rewrite (bind_Ret _ _ _ _ _ (on_mach_ok _ (with_lock l (set_value (value (sema k) - 1) k) s) _ _ Hm)).
Qed.

(** Both program points reach the loop test with interrupts off. *)
Lemma down_entry y l old :
  let p := at_pc (ctl y (cur (kern y))) in
  sys_inv dirs y ->
  p = Lock58 l \/ (exists inner, p = InDown l old inner) ->
  exists old', run_pc p (kern y) =
    down_test l (cur (kern y)) old' (set_mach (masked (mach (kern y))) (kern y)).
Proof.
  intros p Hy [E|[inner E]]; unfold p in *; rewrite E, run_pc_eq.
  - exists (if_flag (eflags (mach (kern y)))).
    by rewrite (bind_Ret _ _ _ _ _ (on_mach_ok _ _ _ _ (DisableInt_ok (mach (kern y))))).
  - destruct (si_inner _ _ Hy _ _ _ _ E) as [-> _]. exists old. cbn [SetIntStatus].
    by rewrite (bind_Ret _ _ _ _ _ (on_mach_ok _ _ _ _ (DisableInt_ok (mach (kern y))))).
Qed.

Lemma progress_acquire y l k old :
  let p := at_pc (ctl y (cur (kern y))) in
  sys_inv dirs y -> irq (ctl y (cur (kern y))) = None ->
  p = Lock58 l \/ (exists inner, p = InDown l old inner) ->
  locks (kern y) !! l = Some k -> value (sema k) <> 0 -> progress y EvRun.
Proof.
  intros p Hy Hirq Hp Hk Hv. unfold p in *.
  assert (pc_lock (at_pc (ctl y (cur (kern y)))) = Some l /\
    entering (at_pc (ctl y (cur (kern y)))) = None /\
    (pc_role (at_pc (ctl y (cur (kern y)))) false = Trying \/
     pc_role (at_pc (ctl y (cur (kern y)))) false = Woken)) as (Hpl & Hen & Hro).
  { destruct Hp as [->|[inner ->]]; auto. }
  destruct (at_lock y l Hy Hpl) as (k0 & Hk0 & Hinv & Hr & Hin). assert (k0 = k) as -> by congruence.
  pose proof (cur_thread y Hy) as Ht. set (t := cur (kern y)) in *. rewrite <- Hr in Hro.
  destruct (down_entry y l old Hy Hp) as (old' & Hrun). fold t in Hrun.
  set (s0 := set_mach (masked (mach (kern y))) (kern y)) in *.
  destruct (down_take_ok l old' s0 k Hk) as (m & Hm).
  assert (holder k <> t) as Hh.
  { apply (li_out _ _ _ Hinv t Ht). by destruct Hro as [->| ->]. }
  apply (progress_moved y l k (set_value (value (sema k) - 1) k) m (Lock59 l)); fold t; try done.
  - rewrite Hrun. unfold down_test. rewrite (bind_Ret _ _ s0 k s0) by by apply get_lock_ok.
    replace (value (sema k) =? 0) with false by lia. by rewrite (bind_Ret _ _ _ _ _ Hm).
  - intros l' [= <-]. done.
  - apply inv_acquire; try done. intros u Hu. by apply (inv_D y u).
  - rewrite Hin, Hen. unfold sections. cbn [set_value holder]. by replace (holder k =? t) with false by lia.
Qed.

(** Blocking: the state after the switch. *)
Lemma down_block_ok s l k c tag rest :
  sched_ok dirs TASK_RUNNING s -> locks s !! l = Some k -> value (sema k) = 0 ->
  general_tag (cur s) ∉ waiting_thread_list (sema k) -> pcbs s !! cur s = Some c ->
  ready_thread_list s = tag :: rest -> forall old,
  exists s', down_test l (cur s) old (set_mach (masked (mach s)) s) = Ret (InDown l old INT_OFF, s') /\
    sched_ok dirs TASK_RUNNING s' /\ tag = general_tag (cur s') /\
    if_flag (eflags (mach s')) = INT_OFF /\
    locks s' = <[l := set_waiting (waiting_thread_list (sema k) ++ [general_tag (cur s)]) k]> (locks s) /\
    forall p, pcbs s' !! p =
      switched s (cur s') p <$> (if decide (p = cur s) then Some (set_status TASK_BLOCKD c) else pcbs s !! p).
Proof.
  intros Hok Hk Hv Hnin Hc Hq old. set (s0 := set_mach (masked (mach s)) s).
  set (k' := set_waiting (waiting_thread_list (sema k) ++ [general_tag (cur s)]) k).
  set (s1 := with_lock l k' s0).
  assert (sched_ok dirs TASK_RUNNING s1) as Hok1 by (by apply sched_ok_lock, sched_ok_mach).
  destruct (BlockThread_switch_ok dirs s1 TASK_BLOCKD c tag rest Hok1) as (s' & H1 & H2 & H3 & H4 & H5 & H6);
    [done|by left|done|].
  exists s'. split_and!; try done.
  - unfold down_test. rewrite (bind_Ret _ _ s0 k s0) by by apply get_lock_ok.
    rewrite Hv, Z.eqb_refl. rewrite (bind_Ret _ _ s0 tt s1).
    2:{ unfold down_enqueue.
        assert (on_waiting l (Find (general_tag (cur s))) s0 = Ret (0, s0)) as Hf.
        { apply (waiting_read _ _ k); [done|]. cbn [seq_op]. by rewrite bool_decide_false. }
        rewrite (bind_Ret _ _ _ _ _ Hf), (bind_Ret _ _ s0 tt s0) by done.
        rewrite (bind_Ret _ _ _ _ _ Hf), (bind_Ret _ _ s0 tt s0) by done.
        by rewrite (bind_Ret _ _ s0 0 s1) by by apply on_waiting_ok. }
    rewrite (bind_Ret _ _ _ _ _ H1). change (mach s1) with (masked (mach s)).
    assert (if_flag (eflags (masked (mach s))) = INT_OFF) as -> by apply if_flag_cli. done.
  - rewrite (sf_mach _ _ H5). cbn. apply if_flag_cli.
  - by rewrite (sf_locks _ _ H5).
Qed.

Lemma down_block_stuck s l k c :
  sched_ok dirs TASK_RUNNING s -> locks s !! l = Some k -> value (sema k) = 0 ->
  general_tag (cur s) ∉ waiting_thread_list (sema k) -> pcbs s !! cur s = Some c ->
  ready_thread_list s = [] -> forall old,
  down_test l (cur s) old (set_mach (masked (mach s)) s) = Panic "ScheduleThread" 65.
Proof.
  intros Hok Hk Hv Hnin Hc Hq old. set (s0 := set_mach (masked (mach s)) s).
  set (k' := set_waiting (waiting_thread_list (sema k) ++ [general_tag (cur s)]) k).
  set (s1 := with_lock l k' s0).
  unfold down_test. rewrite (bind_Ret _ _ s0 k s0) by by apply get_lock_ok.
  rewrite Hv, Z.eqb_refl. rewrite (bind_Ret _ _ s0 tt s1).
  2:{ unfold down_enqueue.
      assert (on_waiting l (Find (general_tag (cur s))) s0 = Ret (0, s0)) as Hf.
      { apply (waiting_read _ _ k); [done|]. cbn [seq_op]. by rewrite bool_decide_false. }
      rewrite (bind_Ret _ _ _ _ _ Hf), (bind_Ret _ _ s0 tt s0) by done.
      rewrite (bind_Ret _ _ _ _ _ Hf), (bind_Ret _ _ s0 tt s0) by done.
      by rewrite (bind_Ret _ _ s0 0 s1) by by apply on_waiting_ok. }
  apply bind_Panic. unfold BlockThread_switch. rewrite (bind_Ret _ _ s1 tt s1) by done.
  set (s2 := set_mach (masked (mach s1)) s1).
  rewrite (bind_Ret _ _ _ _ s2 (on_mach_ok _ _ _ _ (DisableInt_ok (mach s1)))).
  rewrite (bind_Ret _ _ s2 (cur s) s2) by done.
  set (s3 := set_pcbs (<[cur s := set_status TASK_BLOCKD c]> (pcbs s2)) s2).
  rewrite (bind_Ret _ _ _ _ s3 (upd_pcb_ok s2 (cur s) _ c Hc)). apply bind_Panic.
  unfold ScheduleThread. rewrite (bind_Ret _ _ _ _ _ (GetIntStatus_kernel s3)).
  rewrite (bind_Ret _ _ s3 tt s3) by (apply ASSERT_true, bool_decide_true; apply if_flag_cli).
  rewrite (bind_Ret _ _ s3 (cur s) s3) by done.
  rewrite (bind_Ret _ _ s3 (set_status TASK_BLOCKD c) s3) by (apply get_pcb_ok, lookup_insert_eq).
  rewrite (bind_Ret _ _ s3 tt s3) by done.
  rewrite (bind_Ret _ _ _ _ _ (empty_ready _)). change (ready_thread_list s3) with (ready_thread_list s).
  rewrite Hq. by apply bind_Panic.
Qed.

(** The first thread of the queue is ready, so it is not the current one and not blocked. *)
Lemma first_ready y n rest :
  sys_inv dirs y -> thread_page n -> ready_thread_list (kern y) = general_tag n :: rest ->
  n <> cur (kern y) /\ is_blocked (kern y) n = false.
Proof.
  intros Hy Hn Hq. pose proof (si_sched _ _ Hy) as Hok.
  destruct (proj1 (so_ready _ _ _ Hok (general_tag n))) as (p & c & Hp & Et & Hs); [rewrite Hq; left|].
  destruct (so_page _ _ _ Hok p c Hp) as [Hpp _].
  apply general_tag_inj in Et; [|done..]. subst p. split.
  - intros ->. destruct (so_cur _ _ _ Hok) as (c1 & Hc1 & Hs1). congruence.
  - unfold is_blocked. rewrite Hp, Hs. by apply bool_decide_false.
Qed.

Lemma progress_block y l k old tag rest :
  let p := at_pc (ctl y (cur (kern y))) in
  sys_inv dirs y -> irq (ctl y (cur (kern y))) = None ->
  p = Lock58 l \/ (exists inner, p = InDown l old inner) ->
  locks (kern y) !! l = Some k -> value (sema k) = 0 ->
  ready_thread_list (kern y) = tag :: rest -> progress y EvRun.
Proof.
  intros p Hy Hirq Hp Hk Hv Hq. unfold p in *.
  assert (pc_lock (at_pc (ctl y (cur (kern y)))) = Some l /\
    entering (at_pc (ctl y (cur (kern y)))) = None /\
    (pc_role (at_pc (ctl y (cur (kern y)))) false = Trying \/
     pc_role (at_pc (ctl y (cur (kern y)))) false = Woken)) as (Hpl & Hen & Hro).
  { destruct Hp as [->|[inner ->]]; auto. }
  destruct (at_lock y l Hy Hpl) as (k0 & Hk0 & Hinv & Hr & Hin). assert (k0 = k) as -> by congruence.
  pose proof (cur_thread y Hy) as Ht. pose proof Ht as [c Hc].
  destruct (down_entry y l old Hy Hp) as (old' & Hrun).
  set (t := cur (kern y)) in *. rewrite <- Hr in Hro.
  assert (forall u, thread_of (kern y) u -> thread_page u) as Hpages by (intros u; apply (inv_D y u Hy)).
  assert (general_tag t ∉ waiting_thread_list (sema k)) as Hnin.
  { rewrite (li_waiting _ _ _ Hinv). intros (u & Hu & Et & Hw). apply general_tag_inj in Et; [|by apply Hpages..].
    subst u. destruct Hro; congruence. }
  destruct (down_block_ok (kern y) l k c tag rest (si_sched _ _ Hy) Hk Hv Hnin Hc Hq old')
    as (s' & H1 & H2 & -> & H4 & H5 & H6).
  set (n := cur s') in *.
  assert (thread_page n) as Hnp.
  { destruct (so_cur _ _ _ H2) as (cn & Hcn & _). by destruct (so_page _ _ _ H2 _ _ Hcn). }
  destruct (first_ready y n rest Hy Hnp Hq) as [Hnt Hnb]. fold t in Hnt.
  assert (forall u, thread_of s' u <-> thread_of (kern y) u) as HD.
  { intros u. unfold thread_of. rewrite H6, fmap_is_Some. case_decide; [subst|done]. by split; eauto. }
  assert (forall u, is_blocked s' u = if decide (u = t) then true else is_blocked (kern y) u) as Hbl.
  { intros u. unfold is_blocked. rewrite H6. fold t. destruct (decide (u = t)) as [->|Hut].
    - cbn [fmap option_fmap option_map]. rewrite switched_status, decide_False by congruence. done.
    - destruct (pcbs (kern y) !! u) as [cu|] eqn:Hu; [|done]. cbn [fmap option_fmap option_map].
      rewrite switched_status. destruct (decide (u = n)) as [->|]; [|done].
      unfold is_blocked in Hnb. by rewrite Hu in Hnb. }
  set (ctl' := ctl (set_ctl t (Ctl None (InDown l old' INT_OFF)) y)).
  assert (forall l' u, role_of s' ctl' l' u =
    if decide (l' = l) then upd (role_of (kern y) (ctl y) l) t Waiting u else role_of (kern y) (ctl y) l' u) as Hroles.
  { intros l' u. unfold ctl'. cbn [ctl set_ctl]. unfold role_of, upd. rewrite Hbl.
    destruct (decide (u = t)) as [->|Hut].
    - cbn [at_pc pc_lock]. rewrite Hpl. destruct (decide (l' = l)) as [->|]; [by rewrite decide_True|].
      by rewrite !decide_False by congruence.
    - by destruct (decide (l' = l)) as [->|]. }
  exists (System s' ctl' (inside y)). split.
  - unfold exec. rewrite (bind_Ret _ _ y y y) by done. fold t. rewrite Hirq.
    rewrite (bind_Ret _ _ y (InDown l old' INT_OFF) (System s' (ctl y) (inside y))).
    2:{ unfold in_kernel, zoom. fold t in Hrun, H1. by rewrite Hrun, H1. }
    by rewrite Hen.
  - pose proof Hy as [I1 I2 I3 I4 I5 I6 I7 I8].
    constructor; cbn [kern inside]; rewrite ?H5; try done.
    + intros u cu. rewrite H6. fold t. destruct (decide (u = t)) as [->|].
      * intros [= <-]. rewrite switched_status. case_decide; auto.
      * intros Hu. destruct (pcbs (kern y) !! u) as [c0|] eqn:H0; [|done]. injection Hu as <-.
        rewrite switched_status. case_decide; [auto|]. by apply (I2 u).
    + intros u. rewrite Hbl. unfold ctl'. cbn [ctl set_ctl]. case_decide; [eauto|apply I3].
    + intros u l' Hu. apply HD in Hu. unfold ctl'. cbn [ctl set_ctl]. intros E.
      apply lookup_insert_is_Some'. case_decide; [left; cbn in E; congruence|right; by apply (I4 u)].
    + intros u l' o i. unfold ctl'. cbn [ctl set_ctl]. case_decide; [by intros [= _ _ <-]|apply I5].
    + intros E. congruence.
    + intros l' k1. rewrite lookup_insert. destruct (decide (l = l')) as [<-|]; [intros [= <-]|intros Hk1].
      * eapply lock_inv_ext; [intros u; symmetry; apply HD| |apply (inv_block _ Hpages k _ t Hinv Ht Hro Hv)].
        intros u Hu. rewrite Hroles. by rewrite decide_True.
      * eapply lock_inv_ext; [intros u; symmetry; apply HD| |by apply I7].
        intros u Hu. rewrite Hroles. by rewrite decide_False.
    + intros u l' k1 Hu. apply HD in Hu. rewrite lookup_insert, Hroles.
      destruct (decide (l = l')) as [<-|]; [intros [= <-]|intros Hk1].
      * rewrite decide_True by done. rewrite (I8 u l k Hu Hk). unfold sections. cbn [set_waiting holder].
        destruct (Z.eqb_spec (holder k) u) as [Hhu|]; [|done].
        assert (u <> t). { intros ->. apply (li_out _ _ _ Hinv t Ht); [by destruct Hro as [->| ->]|done]. }
        by rewrite upd_ne.
      * rewrite decide_False by done. by apply I8.
Qed.

(** *** The clock *)

(** A switch keeps who is blocked. *)
Definition same_blocking (s s' : kernel) : Prop := forall u,
  match pcbs s' !! u, pcbs s !! u with
  | Some c', Some c => status c' = status c \/
      ((status c' = TASK_RUNNING \/ status c' = TASK_READY) /\ status c <> TASK_BLOCKD)
  | None, None => True
  | _, _ => False
  end.

Lemma same_blocking_blocked s s' u : same_blocking s s' -> is_blocked s' u = is_blocked s u.
Proof.
  intros H. specialize (H u). unfold is_blocked.
  destruct (pcbs s' !! u) as [c'|], (pcbs s !! u) as [c|]; try done.
  apply bool_decide_ext. destruct H as [->|[[->| ->] H]]; done.
Qed.

Lemma same_blocking_thread s s' u : same_blocking s s' -> thread_of s' u <-> thread_of s u.
Proof.
  intros H. specialize (H u). unfold thread_of.
  destruct (pcbs s' !! u), (pcbs s !! u); try done; by split; eauto.
Qed.

Lemma ScheduleThread_blocking s s' tag rest :
  sched_ok dirs TASK_RUNNING s -> run_queue s TASK_RUNNING = tag :: rest ->
  tag = general_tag (cur s') -> thread_page (cur s') ->
  (forall p, pcbs s' !! p = scheduled s (cur s') p <$> pcbs s !! p) -> same_blocking s s'.
Proof.
  intros Hok Hq -> Hnp Hpcbs u. rewrite Hpcbs. destruct (pcbs s !! u) as [c|] eqn:Hu; [|done].
  cbn [fmap option_fmap option_map]. unfold scheduled. rewrite switched_status.
  destruct (decide (u = cur s')) as [->|Hne].
  - right. split; [by left|]. intros Hb.
    assert (general_tag (cur s') ∈ run_queue s TASK_RUNNING) as Hin by (rewrite Hq; left).
    unfold run_queue in Hin. rewrite decide_True in Hin by done.
    apply elem_of_app in Hin as [Hin|Hin%list_elem_of_singleton].
    + apply (so_ready _ _ _ Hok) in Hin as (p & cp & Hp & Et & Es).
      destruct (so_page _ _ _ Hok p cp Hp) as [Hpp _]. apply general_tag_inj in Et; [|done..]. subst p.
      congruence.
    + destruct (so_cur _ _ _ Hok) as (cc & Hcc & Es). destruct (so_page _ _ _ Hok _ _ Hcc) as [Hpp _].
      apply general_tag_inj in Hin; [|done..]. rewrite Hin in Hu. congruence.
  - case_decide as Hd; [|by left]. destruct Hd as [_ Hr]. right. split; [by right|]. congruence.
Qed.

Lemma clock_ok s :
  sched_ok dirs TASK_RUNNING s ->
  exists s', clock_interrupt s = Ret (eflags (mach s), s') /\ sched_ok dirs TASK_RUNNING s' /\
    locks s' = locks s /\ if_flag (eflags (mach s')) = INT_OFF /\ same_blocking s s'.
Proof.
  intros Hok. set (s1 := set_mach (masked (mach s)) s).
  assert (sched_ok dirs TASK_RUNNING s1) as Hok1 by by apply sched_ok_mach.
  destruct (so_cur _ _ _ Hok1) as (c & Hc & Hs).
  assert (forall s', IntTimerHandler s1 = Ret (tt, s') -> clock_interrupt s = Ret (eflags (mach s), s')) as Hclk.
  { intros s' H. unfold clock_interrupt. rewrite (bind_Ret _ _ s s s) by done.
    rewrite (bind_Ret _ _ s tt s1) by done. by rewrite (bind_Ret _ _ _ _ _ H). }
  pose proof (tick_eq dirs s1 c Hok1 Hc) as Ht. pose proof (ticked_ok dirs s1 c Hok1 Hc) as Hok2.
  set (c1 := set_ticks_elapsed (u8 (cpu_ticks_elapsed c + 1)) c).
  assert (pcbs (ticked s1 c) !! cur s1 = Some c1) as Hc1 by apply lookup_insert_eq.
  assert (same_blocking s (ticked s1 c)) as Hb2.
  { intros u. unfold ticked. cbn [pcbs set_ticks set_pcbs]. rewrite lookup_insert.
    change (pcbs s1) with (pcbs s) in *. case_decide as E; [rewrite <- E; rewrite Hc; by left|].
    destruct (pcbs s !! u); [by left|done]. }
  destruct (cpu_ticks_left c =? 0).
  - assert (exists tag rest, run_queue (ticked s1 c) TASK_RUNNING = tag :: rest) as (tag & rest & Hq).
    { unfold run_queue. rewrite decide_True by done. destruct (ready_thread_list (ticked s1 c)); eauto. }
    destruct (schedule_ok dirs TASK_RUNNING (ticked s1 c) tag rest Hok2) as (s' & H1 & H2 & H3 & _ & H5 & H6);
      [done|apply if_flag_cli|done|].
    exists s'. split_and!; try done.
    + apply Hclk. by rewrite Ht.
    + by rewrite (sf_locks _ _ H5).
    + rewrite (sf_mach _ _ H5). apply if_flag_cli.
    + assert (thread_page (cur s')) as Hnp.
      { destruct (so_cur _ _ _ H2) as (cn & Hcn & _). by destruct (so_page _ _ _ H2 _ _ Hcn). }
      pose proof (ScheduleThread_blocking _ s' _ _ Hok2 Hq H3 Hnp H6) as Hb3.
      intros u. specialize (Hb2 u). specialize (Hb3 u).
      destruct (pcbs s' !! u), (pcbs (ticked s1 c) !! u), (pcbs s !! u); try done.
      destruct Hb2 as [E2|[E2 E2']], Hb3 as [E3|[E3 E3']]; rewrite ?E2, ?E3 in *; auto.
  - set (f := fun c => set_ticks_left (u8 (cpu_ticks_left c - 1)) c) in *.
    pose proof (upd_pcb_ok (ticked s1 c) (cur s1) f c1 Hc1) as Hu. rewrite Hu in Ht.
    eexists. split_and!; [by apply Hclk|..].
    + by apply (sched_ok_upd dirs _ (ticked s1 c) (cur s1) c1).
    + done.
    + apply if_flag_cli.
    + intros u. specialize (Hb2 u). cbn [pcbs set_pcbs]. rewrite lookup_insert.
      case_decide as E; [|done]. subst u. by rewrite Hc1 in Hb2.
Qed.

(** The invariant only looks at the kernel through its lists, locks and blocked threads. *)
Lemma sys_inv_kernel y s' ct :
  sys_inv dirs y -> sched_ok dirs TASK_RUNNING s' -> locks s' = locks (kern y) ->
  same_blocking (kern y) s' -> (forall u, at_pc (ct u) = at_pc (ctl y u)) ->
  (forall u l o i, at_pc (ct u) = InDown l o i -> irq (ct u) = None) ->
  (if_flag (eflags (mach s')) = INT_ON -> irq (ct (cur s')) = None /\
     forall l o i, at_pc (ct (cur s')) <> InDown l o i) ->
  sys_inv dirs (System s' ct (inside y)).
Proof.
  intros [I1 I2 I3 I4 I5 I6 I7 I8] Hok Hl Hb Hpc Hirq Hif.
  assert (forall l u, role_of s' ct l u = role_of (kern y) (ctl y) l u) as Hr.
  { intros l u. unfold role_of. by rewrite Hpc, (same_blocking_blocked _ _ _ Hb). }
  assert (forall u, thread_of (kern y) u <-> thread_of s' u) as HD.
  { intros u. symmetry. by apply same_blocking_thread. }
  constructor; cbn [kern ctl inside]; rewrite ?Hl; try done.
  - intros u c' Hu. specialize (Hb u). rewrite Hu in Hb.
    destruct (pcbs (kern y) !! u) as [c|] eqn:Hc; [|done].
    destruct Hb as [->|[[->| ->] _]]; auto. by apply (I2 u).
  - intros u. rewrite (same_blocking_blocked _ _ _ Hb), Hpc. apply I3.
  - intros u l Hu. rewrite Hpc. apply I4. by apply HD.
  - intros u l o i E. split; [|by eapply Hirq]. rewrite Hpc in E. by destruct (I5 _ _ _ _ E).
  - intros l k Hk. eapply lock_inv_ext; [exact HD|intros u _; symmetry; apply Hr|by apply I7].
  - intros u l k Hu Hk. rewrite Hr. apply I8; [by apply HD|done].
Qed.

Lemma same_blocking_refl s : same_blocking s s.
Proof. intros u. destruct (pcbs s !! u); [by left|done]. Qed.

Lemma progress_clock y : sys_inv dirs y -> enabled EvClock y -> progress y EvClock.
Proof.
  intros Hy [Hirq Hif]. destruct (clock_ok (kern y) (si_sched _ _ Hy)) as (s' & H1 & H2 & H3 & H4 & H5).
  set (t := cur (kern y)) in *.
  set (ct := ctl (set_ctl t (Ctl (Some (eflags (mach (kern y)))) (at_pc (ctl y t))) y)).
  exists (System s' ct (inside y)). split.
  - unfold exec. rewrite (bind_Ret _ _ y y y) by done. fold t.
    by rewrite (bind_Ret _ _ y (eflags (mach (kern y))) (System s' (ctl y) (inside y)))
      by (unfold in_kernel, zoom; by rewrite H1).
  - apply sys_inv_kernel; try done.
    + intros u. unfold ct. cbn [ctl set_ctl]. by case_decide; subst.
    + intros u l o i. unfold ct. cbn [ctl set_ctl]. case_decide; [|apply (si_inner _ _ Hy)].
      intros E. cbn in E. destruct (si_if _ _ Hy Hif) as [_ Hn]. by apply Hn in E.
    + congruence.
Qed.

(** Events that change only the flags word or the program point. *)
Lemma sys_inv_flags y m ct :
  sys_inv dirs y -> (forall u, at_pc (ct u) = at_pc (ctl y u)) ->
  (forall u, u <> cur (kern y) -> ct u = ctl y u) -> irq (ct (cur (kern y))) = None ->
  (if_flag (eflags m) = INT_ON -> in_down (at_pc (ct (cur (kern y)))) = false) ->
  sys_inv dirs (System (set_mach m (kern y)) ct (inside y)).
Proof.
  intros Hy Hpc Hct Hirq Hif. apply sys_inv_kernel; try done.
  - apply sched_ok_mach, Hy.
  - intros u. exact (same_blocking_refl (kern y) u).
  - intros u l o i E. destruct (decide (u = cur (kern y))) as [->|]; [done|].
    rewrite Hct in E |- * by done. by eapply (si_inner _ _ Hy).
  - intros E. split; [done|]. intros l o i Hd. specialize (Hif E).
    change (cur (set_mach m (kern y))) with (cur (kern y)) in Hd. by rewrite Hd in Hif.
Qed.

Lemma progress_iret y e : sys_inv dirs y -> irq (ctl y (cur (kern y))) = Some e -> progress y EvRun.
Proof.
  intros Hy Hirq. set (t := cur (kern y)) in *.
  exists (System (set_mach (set_eflags e (mach (kern y))) (kern y))
    (ctl (set_ctl t (Ctl None (at_pc (ctl y t))) y)) (inside y)). split.
  - unfold exec. rewrite (bind_Ret _ _ y y y) by done. fold t. rewrite Hirq. done.
  - apply sys_inv_flags; fold t; cbn [ctl set_ctl]; try done.
    + intros u. by case_decide; subst.
    + intros u Hu. by rewrite decide_False.
    + by rewrite decide_True.
    + intros _. rewrite decide_True by done. cbn [at_pc].
      destruct (at_pc (ctl y t)) eqn:E; try done. destruct (si_inner _ _ Hy _ _ _ _ E). congruence.
Qed.

Lemma progress_flag (m : M machine int_status) y e r c :
  sys_inv dirs y -> irq (ctl y (cur (kern y))) = None -> at_pc (ctl y (cur (kern y))) = Client ->
  m (mach (kern y)) = Ret (r, c) -> exec e = (let* y := get in let* _ := in_kernel (on_mach m) in ret tt) ->
  progress y e.
Proof.
  intros Hy Hirq Hpc Hm He. exists (System (set_mach c (kern y)) (ctl y) (inside y)). split.
  - rewrite He. rewrite (bind_Ret _ _ y y y) by done.
    by rewrite (bind_Ret _ _ y r (System (set_mach c (kern y)) (ctl y) (inside y)))
      by (unfold in_kernel, zoom; by rewrite (on_mach_ok _ _ _ _ Hm)).
  - apply sys_inv_flags; try done. by rewrite Hpc.
Qed.

(** *** Calls *)

Lemma progress_call y e l k p' n :
  let t := cur (kern y) in
  sys_inv dirs y -> irq (ctl y t) = None -> at_pc (ctl y t) = Client -> locks (kern y) !! l = Some k ->
  (exists y1, exec e y = Ret (tt, y1) /\ kern y1 = kern y /\ ctl y1 = ctl (set_ctl t (Ctl None p') y) /\
     forall u m, inside y1 u m = if decide (u = t /\ m = l) then inside y u m + n else inside y u m) ->
  pc_lock p' = Some l -> in_down p' = false ->
  passing (pc_role p' false) = false -> pc_role p' false <> Waiting ->
  (holding (pc_role p' false) = true -> holder k = t) ->
  (not_holding (pc_role p' false) = true -> holder k <> t) ->
  (holder k = t -> sum_ok Out (holder_repeat_request_sum k) ->
     sum_ok (pc_role p' false) (holder_repeat_request_sum k)) ->
  sections k t (pc_role p' false) = sections k t Out + n ->
  progress y e.
Proof.
  intros t Hy Hirq Hpc Hk (y1 & Hex & Ek & Ec & Ei) Hp' Hnd Hpass Hnw Hh Hnh Hsum Hsec.
  pose proof (cur_thread y Hy) as Ht. fold t in Ht.
  assert (role_of (kern y) (ctl y) l t = Out) as Hr.
  { unfold role_of. fold t in Hpc. by rewrite Hpc. }
  pose proof (si_locks _ _ Hy l k Hk) as Hinv.
  exists y1. split; [done|].
  assert (y1 = moved y l k (mach (kern y)) p' (inside y1)) as ->.
  { unfold moved. rewrite with_lock_id, set_mach_id by done. destruct y1. cbn in *. by subst. }
  apply (moved_inv y l k k (mach (kern y)) p' _ n); fold t; try done.
  - intros l' E. by rewrite Hpc in E.
  - intros l' E. congruence.
  - replace k with (Lock (holder k) (sema k) (holder_repeat_request_sum k)) by (by destruct k).
    cbn [holder sema holder_repeat_request_sum].
    apply inv_move; rewrite ?Hr; try done.
    + intros u Hu. by apply (inv_D y u).
    + intros E. apply Hsum; [done|]. pose proof (li_sum _ _ _ Hinv t Ht E) as H1. by rewrite Hr in H1.
  - rewrite Hsec. f_equal. rewrite (si_inside _ _ Hy t l k Ht Hk). by rewrite Hr.
Qed.

Lemma progress_call_lock y l : sys_inv dirs y -> enabled (EvLock l) y -> progress y (EvLock l).
Proof.
  intros Hy (Hirq & Hpc & k & Hk & Hlim). set (t := cur (kern y)) in *.
  set (p' := if negb (holder k =? t) then Lock58 l else Lock65 l).
  apply (progress_call y _ l k p' 0); fold t; try done.
  - exists (set_ctl t (Ctl None p') y). split_and!; try done.
    + unfold exec. rewrite (bind_Ret _ _ y y y) by done. fold t.
      rewrite (bind_Ret _ _ y p' y); [done|]. unfold in_kernel, zoom, call_lock.
      rewrite (bind_Ret _ _ _ _ _ (get_lock_ok _ _ _ Hk)). by destruct y.
    + intros u m. rewrite Z.add_0_r. by case_decide.
  - unfold p'. by destruct (holder k =? t).
  - unfold p'. by destruct (holder k =? t).
  - unfold p'. by destruct (holder k =? t).
  - unfold p'. by destruct (holder k =? t).
  - unfold p'. destruct (Z.eqb_spec (holder k) t); done.
  - unfold p'. destruct (Z.eqb_spec (holder k) t); done.
  - intros E Hs. specialize (Hlim E). unfold p'. rewrite E, Z.eqb_refl. cbn in *. lia.
  - unfold p', sections. destruct (Z.eqb_spec (holder k) t); cbn; lia.
Qed.

Lemma progress_call_unlock y l : sys_inv dirs y -> enabled (EvUnlock l) y -> progress y (EvUnlock l).
Proof.
  intros Hy (Hirq & Hpc & k & Hk & Hh). set (t := cur (kern y)) in *.
  apply (progress_call y _ l k (Unlock72 l) (-1)); fold t; try done.
  - exists (add_inside t l (-1) (set_ctl t (Ctl None (Unlock72 l)) y)). split_and!; try done.
    unfold exec. rewrite (bind_Ret _ _ y y y) by done. fold t.
    rewrite (bind_Ret _ _ y (Unlock72 l) y); [done|]. unfold in_kernel, zoom, call_unlock.
    rewrite (bind_Ret _ _ _ _ _ (get_lock_ok _ _ _ Hk)).
    rewrite (bind_Ret _ _ (kern y) t (kern y)) by done.
    rewrite (bind_Ret _ _ (kern y) tt (kern y)) by (apply ASSERT_true; lia). by destruct y.
  - unfold sections. rewrite Hh, Z.eqb_refl. cbn. lia.
Qed.

(** *** Every step *)

Definition deadlock (y : system) : Prop :=
  forall u, thread_of (kern y) u -> u <> cur (kern y) -> is_blocked (kern y) u = true.

Lemma empty_queue_deadlock y : sys_inv dirs y -> ready_thread_list (kern y) = [] -> deadlock y.
Proof.
  intros Hy Hq u [c Hc] Hne. pose proof (si_sched _ _ Hy) as Hok. unfold is_blocked. rewrite Hc.
  apply bool_decide_eq_true. destruct (si_status _ _ Hy u c Hc) as [E|[E|E]]; [| |done].
  - by apply (so_running _ _ _ Hok u c Hc) in E.
  - assert (general_tag u ∈ ready_thread_list (kern y)) as Hin by (apply (so_ready _ _ _ Hok); eauto).
    rewrite Hq in Hin. by apply not_elem_of_nil in Hin.
Qed.

Lemma progress_down y l old :
  let p := at_pc (ctl y (cur (kern y))) in
  sys_inv dirs y -> irq (ctl y (cur (kern y))) = None ->
  p = Lock58 l \/ (exists inner, p = InDown l old inner) ->
  progress y EvRun \/ (exec EvRun y = Panic "ScheduleThread" 65 /\ deadlock y).
Proof.
  intros p Hy Hirq Hp. unfold p in *.
  assert (pc_lock (at_pc (ctl y (cur (kern y)))) = Some l /\
    (pc_role (at_pc (ctl y (cur (kern y)))) false = Trying \/
     pc_role (at_pc (ctl y (cur (kern y)))) false = Woken)) as (Hpl & Hro).
  { destruct Hp as [->|[inner ->]]; auto. }
  destruct (at_lock y l Hy Hpl) as (k & Hk & Hinv & Hr & _).
  destruct (decide (value (sema k) = 0)) as [Hv|Hv]; [|left; by eapply progress_acquire].
  destruct (ready_thread_list (kern y)) as [|tag rest] eqn:Hq; [|left; by eapply progress_block].
  right. split; [|by apply empty_queue_deadlock].
  pose proof (cur_thread y Hy) as Ht. pose proof Ht as [c Hc].
  assert (general_tag (cur (kern y)) ∉ waiting_thread_list (sema k)) as Hnin.
  { rewrite (li_waiting _ _ _ Hinv). intros (u & Hu & Et & Hw).
    apply general_tag_inj in Et; [|by eapply inv_D..]. subst u. rewrite Hr in Hw. destruct Hro; congruence. }
  destruct (down_entry y l old Hy Hp) as (old' & Hrun).
  unfold exec. rewrite (bind_Ret _ _ y y y) by done. rewrite Hirq. apply bind_Panic.
  unfold in_kernel, zoom. rewrite Hrun.
  by rewrite (down_block_stuck (kern y) l k c (si_sched _ _ Hy) Hk Hv Hnin Hc Hq).
Qed.

Lemma progress_all y e : sys_inv dirs y -> enabled e y ->
  progress y e \/ (exec e y = Panic "ScheduleThread" 65 /\ deadlock y).
Proof.
  intros Hy He. destruct e as [| |l|l| |].
  - destruct (irq (ctl y (cur (kern y)))) as [e|] eqn:Hirq; [left; by eapply progress_iret|].
    destruct He as [He|Hpc]; [done|].
    destruct (at_pc (ctl y (cur (kern y)))) as [|l|l old inner|l|l|l|l|l|l|l|l|l|l] eqn:E; [done|..].
    + apply (progress_down y l INT_OFF); auto.
    + apply (progress_down y l old); eauto.
    + left. by eapply progress_hold.
    + left. apply (progress_holder y l); auto.
    + left. apply (progress_holder y l); auto.
    + left. apply (progress_holder y l); auto.
    + left. apply (progress_holder y l); auto 10.
    + left. apply (progress_holder y l); auto 10.
    + left. apply (progress_holder y l); auto 10.
    + left. apply (progress_holder y l); auto 10.
    + left. by eapply progress_release.
    + left. destruct (at_lock y l Hy) as (k & Hk & _); [by rewrite E|].
      destruct (waiting_thread_list (sema k)) as [|tag rest] eqn:Hw;
        [by eapply progress_up_free|by eapply progress_up_wake].
  - left. by apply progress_clock.
  - left. by apply progress_call_lock.
  - left. by apply progress_call_unlock.
  - left. destruct He as [Hirq Hpc].
    destruct (SetIntStatus_total INT_ON (mach (kern y))) as (r & m & Hm). by eapply progress_flag.
  - left. destruct He as [Hirq Hpc].
    destruct (SetIntStatus_total INT_OFF (mach (kern y))) as (r & m & Hm). by eapply progress_flag.
Qed.

(** ** Reachable systems *)

Record initial (y : system) : Prop := {
  in_sched : sched_ok dirs TASK_RUNNING (kern y);
  in_status : forall t c, pcbs (kern y) !! t = Some c -> status c = TASK_RUNNING \/ status c = TASK_READY;
  in_locks : forall l k, locks (kern y) !! l = Some k -> k = free_lock;
  in_ctl : forall t, ctl y t = Ctl None Client;
  in_inside : forall t l, inside y t l = 0
}.

Lemma initial_inv y : initial y -> sys_inv dirs y.
Proof.
  intros [I1 I2 I3 I4 I5].
  assert (forall u, is_blocked (kern y) u = false) as Hnb.
  { intros u. unfold is_blocked. destruct (pcbs (kern y) !! u) as [c|] eqn:Hc; [|done].
    apply bool_decide_eq_false. destruct (I2 u c Hc) as [->| ->]; done. }
  assert (forall l u, role_of (kern y) (ctl y) l u = Out) as Hr.
  { intros l u. unfold role_of. by rewrite I4. }
  assert (forall u, thread_of (kern y) u -> u <> 0) as Hnz.
  { intros u [c Hc]. destruct (so_page _ _ _ I1 u c Hc) as [Hp _]. destruct Hp. lia. }
  constructor; try done.
  - intros t c Hc. destruct (I2 t c Hc); auto.
  - intros t Hb. by rewrite Hnb in Hb.
  - intros t l Ht. by rewrite I4.
  - intros t l o i. by rewrite I4.
  - intros _. by rewrite I4.
  - intros l k Hk. rewrite (I3 l k Hk). constructor; cbn; try done.
    + constructor.
    + intros tag. split; [by intros ?%not_elem_of_nil|]. intros (t & _ & _ & E). by rewrite Hr in E.
    + by right.
    + intros _. split; [done|]. intros t _. by rewrite Hr.
    + intros t u Ht Hu [E|E]; [by apply Hnz in Ht|by rewrite Hr in E].
    + by left.
    + intros t _. by rewrite Hr.
    + intros t _. by rewrite Hr.
    + intros t Ht E. by apply Hnz in Ht.
  - intros t l k Ht Hk. rewrite I5, (I3 l k Hk), Hr. unfold sections. cbn [holder free_lock].
    destruct (Z.eqb_spec 0 t); [|done]. by apply Hnz in Ht.
Qed.

Lemma reaches_inv y0 y : initial y0 -> reaches y0 y -> sys_inv dirs y.
Proof.
  intros H0 Hr. induction Hr as [|y1 e y2 _ IH He Hex]; [by apply initial_inv|].
  destruct (progress_all y1 e IH He) as [(y3 & H3 & Hy3)|[Hp _]]; congruence.
Qed.

(** C3: safety of the locks under preemption: from a system in which every thread is ready and every
    lock is free, after any interleaving of lock and unlock calls, clock interrupts and changes of
    the interrupt flag, the next step of the kernel neither faults nor fails an assertion, with
    one exception: a thread that has to wait when all other threads are blocked makes the
    assertion of line 65 of thread.c fail (the kernel has no idle thread). *)
Theorem lock_system_safe y0 y e :
  initial y0 -> reaches y0 y -> enabled e y ->
  (exists y', exec e y = Ret (tt, y') /\ sys_inv dirs y') \/
  (exec e y = Panic "ScheduleThread" 65 /\ deadlock y).
Proof. intros H0 Hr He. apply progress_all; [by eapply reaches_inv|done]. Qed.

Lemma inside_unique y t u l : sys_inv dirs y -> thread_of (kern y) t -> thread_of (kern y) u ->
  is_Some (locks (kern y) !! l) -> 0 < inside y t l -> 0 < inside y u l -> t = u.
Proof.
  intros Hy Ht Hu [k Hk] Hit Hiu.
  assert (forall v, thread_of (kern y) v -> 0 < inside y v l -> holder k = v) as H.
  { intros v Hv Hi. rewrite (si_inside _ _ Hy v l k Hv Hk) in Hi. unfold sections in Hi.
    destruct (Z.eqb_spec (holder k) v); [done|lia]. }
  by rewrite <- (H t Ht Hit), (H u Hu Hiu).
Qed.

(** C2: mutual exclusion: in a reachable system two threads are never both between the return of a
    [sys_lock_lock] on [l] and the matching [sys_lock_unlock]. *)
Theorem mutual_exclusion y0 y t u l :
  initial y0 -> reaches y0 y -> thread_of (kern y) t -> thread_of (kern y) u ->
  is_Some (locks (kern y) !! l) -> 0 < inside y t l -> 0 < inside y u l -> t = u.
Proof. intros H0 Hr. apply inside_unique. by apply (reaches_inv y0). Qed.

(** C4: no lost wake-up: in a reachable system a blocked thread is linked into the waiting list of the
    semaphore it waits for, exactly once and into no other, and while it waits either some thread
    owns that semaphore or a thread already taken off the list is on its way to take it. *)
Theorem no_lost_wakeup y0 y t :
  initial y0 -> reaches y0 y -> is_blocked (kern y) t = true ->
  exists l k, locks (kern y) !! l = Some k /\ general_tag t ∈ waiting_thread_list (sema k) /\
    NoDup (waiting_thread_list (sema k)) /\ (general_tag t ∉ ready_thread_list (kern y)) /\
    (forall l' k', l' <> l -> locks (kern y) !! l' = Some k' ->
       general_tag t ∉ waiting_thread_list (sema k')) /\
    exists u, thread_of (kern y) u /\ u <> t /\
      ((value (sema k) = 0 /\ (holder k = u \/ at_pc (ctl y u) = Lock59 l \/ at_pc (ctl y u) = Unlock80 l)) \/
       (value (sema k) = 1 /\ is_blocked (kern y) u = false /\ exists o i, at_pc (ctl y u) = InDown l o i)).
Proof.
  intros H0 Hr Hb. pose proof (reaches_inv _ _ H0 Hr) as Hy.
  destruct (si_blocked _ _ Hy t Hb) as (l & o & i & Hpc).
  assert (thread_of (kern y) t) as Ht.
  { unfold is_blocked in Hb. unfold thread_of. destruct (pcbs (kern y) !! t); [eauto|done]. }
  destruct (si_lock _ _ Hy t l Ht) as [k Hk]; [by rewrite Hpc|].
  pose proof (si_locks _ _ Hy l k Hk) as Hinv.
  assert (role_of (kern y) (ctl y) l t = Waiting) as Hrt.
  { unfold role_of. rewrite Hpc, Hb. by rewrite decide_True. }
  assert (general_tag t ∈ waiting_thread_list (sema k)) as Hin by (apply (li_waiting _ _ _ Hinv); eauto).
  exists l, k. split_and!; try done.
  - apply Hinv.
  - intros Hrd. apply (so_ready _ _ _ (si_sched _ _ Hy)) in Hrd as (u & c & Hu & Et & Es).
    apply general_tag_inj in Et; [|by eapply inv_D, Ht|by eapply inv_D; [|exists c]]. subst u.
    unfold is_blocked in Hb. rewrite Hu, Es in Hb. done.
  - intros l' k' Hne Hk' Hw. apply (li_waiting _ _ _ (si_locks _ _ Hy l' k' Hk')) in Hw as (u & Hu & Et & Hwu).
    apply general_tag_inj in Et; [|by eapply inv_D..]. subst u. unfold role_of in Hwu.
    rewrite Hpc in Hwu. cbn [pc_lock] in Hwu. by rewrite decide_False in Hwu by congruence.
  - assert (forall u x, role_of (kern y) (ctl y) l u = x -> x <> Out ->
      pc_lock (at_pc (ctl y u)) = Some l /\ pc_role (at_pc (ctl y u)) (is_blocked (kern y) u) = x) as Hrole.
    { intros u x <- Hx. unfold role_of in *. by case_decide. }
    destruct (li_value _ _ _ Hinv) as [Hv|Hv].
    + destruct (li_owner _ _ _ Hinv Hv) as (u & Hu & Hown). exists u. split; [done|]. split.
      { intros ->. destruct Hown as [Hh|Hp]; [|by rewrite Hrt in Hp].
        apply (li_out _ _ _ Hinv t Ht); [by rewrite Hrt|done]. }
      left. split; [done|]. destruct Hown as [|Hp]; [by left|right].
      destruct (Hrole u _ eq_refl) as [Hl1 Hl2]; [by destruct (role_of _ _ _ u)|].
      rewrite <- Hl2 in Hp. destruct (at_pc (ctl y u)); cbn in Hl1, Hp; try done;
        try (by destruct (is_blocked (kern y) u)); injection Hl1 as ->; auto.
    + destruct (li_wake _ _ _ Hinv Hv) as (u & Hu & Hwk); [by intros E; rewrite E in Hin; apply not_elem_of_nil in Hin|].
      exists u. split; [done|]. split; [intros ->; congruence|]. right. split; [done|].
      destruct (Hrole u _ Hwk) as [Hl1 Hl2]; [done|].
      destruct (at_pc (ctl y u)); cbn in Hl1, Hl2; try done. injection Hl1 as ->.
      destruct (is_blocked (kern y) u); [done|eauto].
Qed.

End steps.

(** ** Examples: two threads and the console lock *)

Definition two_pcb (p : Z) (st : task_status) : PCB :=
  Pcb (p + 3664) 1 st 31 [] 0 0 0 (VirtualAddr (Bitmap.Bitmap 0 0) 0) STACK_CANARY.
Definition two_threads : gmap Z PCB :=
  <[0xC0120000 := two_pcb 0xC0120000 TASK_RUNNING]>
    (<[0xC0130000 := two_pcb 0xC0130000 TASK_READY]> ∅).
Definition two_kernel : kernel := set_locks demo_locks (set_pcbs two_threads demo_kernel).
Definition two_system : system := System two_kernel (fun _ => Ctl None Client) (fun _ _ => 0).

Lemma two_threads_inv p c : two_threads !! p = Some c ->
  (p = 0xC0120000 /\ c = two_pcb 0xC0120000 TASK_RUNNING) \/
  (p = 0xC0130000 /\ c = two_pcb 0xC0130000 TASK_READY).
Proof.
  unfold two_threads. rewrite !lookup_insert. repeat case_decide; try (intros [= <-]; subst; tauto).
Qed.

Lemma two_system_initial : initial demo_dirs two_system.
Proof.
  constructor; try done.
  - constructor; change (cur (kern two_system)) with 0xC0120000;
      cbn [two_system two_kernel kern set_locks set_pcbs demo_kernel pcbs ready_thread_list esp].
    + exists (two_pcb 0xC0120000 TASK_RUNNING). split; [apply lookup_insert_eq|done].
    + intros p c H. apply two_threads_inv in H as [[-> ->]|[-> ->]]; (split; [zdec|done]).
    + apply NoDup_singleton.
    + intros tag. rewrite list_elem_of_singleton. split.
      * intros ->. exists 0xC0130000, (two_pcb 0xC0130000 TASK_READY). split; [reflexivity|done].
      * intros (p & c & H & -> & E). by apply two_threads_inv in H as [[-> ->]|[-> ->]].
    + intros p c H E. by apply two_threads_inv in H as [[-> ->]|[-> ->]].
    + lia.
    + intros p c H Hne. by apply two_threads_inv in H as [[-> ->]|[-> ->]].
    + intros p c H. split; [done|]. intros E. by apply two_threads_inv in H as [[-> ->]|[-> ->]].
    + done.
    + intros c H E. exfalso. apply E. by apply two_threads_inv in H as [[_ ->]|[_ ->]].
  - intros t c H. apply two_threads_inv in H as [[-> ->]|[-> ->]]; auto.
  - intros l k. cbn. unfold demo_locks. rewrite lookup_insert. case_decide; [by intros [= <-]|done].
Qed.

(** The state after an event. *)
Definition next (y : system) (e : event) : system :=
  match exec e y with Ret (_, y') => y' | _ => y end.

Definition returns {A S} (o : outcome (A * S)) : bool := match o with Ret _ => true | _ => false end.

Lemma reaches_next y0 y e : reaches y0 y -> enabled e y -> returns (exec e y) = true -> reaches y0 (next y e).
Proof.
  intros Hr He Hx. apply (reaches_step y0 y e _ Hr He). unfold next.
  destruct (exec e y) as [[[] y']| | | |]; done.
Qed.

(** The first thread takes the lock, is preempted, and the second one blocks on it. *)
Definition take_events : list event := [EvLock console_lock; EvRun; EvRun; EvRun; EvRun].
Definition contend_events : list event := take_events ++ [EvEnable; EvClock; EvLock console_lock; EvRun].
Definition locked_system : system := foldl next two_system take_events.
Definition contended_system : system := foldl next two_system contend_events.

(** [enabled] as a program. *)
Definition enabledb (e : event) (y : system) : bool :=
  let t := cur (kern y) in
  let c := ctl y t in
  let idle := match irq c, at_pc c with None, Client => true | _, _ => false end in
  match e with
  | EvRun => negb idle
  | EvClock => match irq c with None => bool_decide (if_flag (eflags (mach (kern y))) = INT_ON) | _ => false end
  | EvLock l => idle && match locks (kern y) !! l with
      | Some k => negb (holder k =? t) || (holder_repeat_request_sum k <? 2 ^ 32 - 1) | None => false end
  | EvUnlock l => idle && match locks (kern y) !! l with Some k => holder k =? t | None => false end
  | EvEnable | EvDisable => idle
  end.

Lemma enabledb_ok e y : enabledb e y = true -> enabled e y.
Proof.
  unfold enabledb, enabled. destruct (ctl y (cur (kern y))) as [ir p]. cbn [irq at_pc].
  destruct e as [| |l|l| |]; [destruct ir, p; cbn; try done; intros _; (by left) || (by right)
    |destruct ir; [done|]; by intros ?%bool_decide_eq_true| |
    |destruct ir, p; done|destruct ir, p; done];
    (destruct ir; [done|]; destruct p; try done; cbn;
     destruct (locks (kern y) !! l) as [k|]; [|done]; intros H; split_and!; [done|done|];
     exists k; split; [done|]; lia).
Qed.

Lemma reaches_events y0 evs : forall y, reaches y0 y ->
  (fix ok y evs := match evs with
     | [] => true
     | e :: r => enabledb e y && returns (exec e y) && ok (next y e) r end) y evs = true ->
  reaches y0 (foldl next y evs).
Proof.
  induction evs as [|e r IH]; intros y Hr H; [done|].
  apply andb_true_iff in H as [H H3]. apply andb_true_iff in H as [H1 H2].
  cbn [foldl]. apply IH; [|done]. apply reaches_next; [done|by apply enabledb_ok|done].
Qed.

Lemma locked_reached : reaches two_system locked_system.
Proof. apply reaches_events; [constructor|]. vm_compute. reflexivity. Qed.

Lemma contended_reached : reaches two_system contended_system.
Proof. apply reaches_events; [constructor|]. vm_compute. reflexivity. Qed.

Lemma lock_system_safe_witness :
  exists y', exec (EvUnlock console_lock) locked_system = Ret (tt, y') /\ sys_inv demo_dirs y'.
Proof.
  destruct (lock_system_safe demo_dirs two_system locked_system (EvUnlock console_lock)
    two_system_initial locked_reached) as [H|[_ H]].
  - apply enabledb_ok. vm_compute. reflexivity.
  - exact H.
  - specialize (H 0xC0130000). exfalso.
    assert (is_blocked (kern locked_system) 0xC0130000 = false) as E by (vm_compute; reflexivity).
    rewrite H in E; [discriminate|vm_compute; eauto|vm_compute; discriminate].
Defined.

Lemma mutual_exclusion_witness :
  0 < inside locked_system 0xC0120000 console_lock /\ (0xC0120000 = 0xC0120000 :> Z).
Proof.
  assert (0 < inside locked_system 0xC0120000 console_lock) as H by (vm_compute; reflexivity).
  split; [exact H|].
  apply (mutual_exclusion demo_dirs two_system locked_system 0xC0120000 0xC0120000 console_lock
    two_system_initial locked_reached); [vm_compute; eauto..|exact H|exact H].
Defined.

Lemma no_lost_wakeup_witness :
  exists l k, locks (kern contended_system) !! l = Some k /\
    general_tag 0xC0130000 ∈ waiting_thread_list (sema k).
Proof.
  destruct (no_lost_wakeup demo_dirs two_system contended_system 0xC0130000 two_system_initial
    contended_reached) as (l & k & H1 & H2 & _); [vm_compute; reflexivity|].
  exists l, k. split; [exact H1|exact H2].
Defined.
