(* ===== verification/Pool.v ===== *)
(** * kernel/memory.c: memory pools and the page allocator

    The bitmaps of the pools and of the address spaces lie in linear memory ([ram]), page tables in
    physical memory ([phys]).  When a page is mapped, its bytes become accessible in linear memory
    with the contents [noise] gives them; when it is unmapped, they go. *)
From stdpp Require Import base list gmap strings.
From S2P Require Import Prelude Machine CString Bitmap Print Interrupt KList Paging State Sched Sync.

Inductive pool_flags := KERNEL_POOL | USER_POOL.

Definition MEM_BITMAP_BASE : Z := 0xC009A000.
Definition KERNEL_HEAP_BASE : Z := 0xC0100000.

Definition pool_of (pf : pool_flags) (p : pools) : memory_pool :=
  match pf with KERNEL_POOL => kernel_memory_pool p | USER_POOL => user_memory_pool p end.
Definition pool_lock (pf : pool_flags) : lock_id :=
  match pf with KERNEL_POOL => kernel_pool_lock | USER_POOL => user_pool_lock end.

(** ** Virtual pages *)

(** The address space [GetVirtualPage] and [ReturnVirtualPage] work on. *)
Definition space_of (pf : pool_flags) : M kernel virtual_addr :=
  match pf with
  | KERNEL_POOL => let* s := get in ret (kernel_vaddr (mem s))
  | USER_POOL =>
      let* current_thread := GetCurrentThreadPCB in
      let* c := get_pcb current_thread in
      ret (userprog_vaddr c)
  end.

(** The loops of [GetVirtualPage] and [ReturnVirtualPage]. *)
Definition set_bits_body (btmp : bitmap) (idx page_cnt value cnt : Z) : M machine (Z + unit) :=
  if cnt <? page_cnt then
    BitmapSetBit btmp (u32 (idx + cnt)) value ;;;
    ret (inl (u32 (cnt + 1)))
  else ret (inr tt).
Definition set_bits (btmp : bitmap) (idx page_cnt value : Z) : M machine unit :=
  iter (S (Z.to_nat page_cnt)) (set_bits_body btmp idx page_cnt value) 0.

Definition GetVirtualPage (pf : pool_flags) (request_page_cnt : Z) : M kernel Z :=
  let* v := space_of pf in
  let* virtual_page_bit_idx := on_mach (BitmapScan (vaddr_bitmap v) request_page_cnt) in
  if virtual_page_bit_idx =? -1 then ret 0
  else
    on_mach (set_bits (vaddr_bitmap v) (u32 virtual_page_bit_idx) request_page_cnt 1) ;;;
    ret (u32 (vaddr_start v + u32 virtual_page_bit_idx * PAGE_SIZE)).

Definition ReturnVirtualPage (pf : pool_flags) (v_addr page_cnt : Z) : M kernel unit :=
  let* v := space_of pf in
  let bit_idx_start := u32 (v_addr - vaddr_start v) / PAGE_SIZE in
  on_mach (set_bits (vaddr_bitmap v) bit_idx_start page_cnt 0).

(** ** Physical pages *)

Definition GetOnePhysicPage (m_pool : memory_pool) : M machine Z :=
  let* bit_idx := BitmapScan (pool_bitmap m_pool) 1 in
  if bit_idx =? -1 then ret 0
  else
    BitmapSetBit (pool_bitmap m_pool) (u32 bit_idx) 1 ;;;
    ret (u32 (bit_idx * PAGE_SIZE + physic_addr_start m_pool)).

Definition ReturnOnePhysicPage (page_physic_addr : Z) : M kernel unit :=
  let* s := get in
  let user := user_memory_pool (mem s) in
  let kern := kernel_memory_pool (mem s) in
  if page_physic_addr >? physic_addr_start user then
    on_mach (BitmapSetBit (pool_bitmap user) (u32 (page_physic_addr - physic_addr_start user) / PAGE_SIZE) 0)
  else
    on_mach (BitmapSetBit (pool_bitmap kern) (u32 (page_physic_addr - physic_addr_start kern) / PAGE_SIZE) 0).

Fixpoint del_bytes (m : gmap Z Z) (p : Z) (n : nat) : gmap Z Z :=
  match n with O => m | S n' => del_bytes (delete p m) (p + 1) n' end.

Definition page_of (va : Z) : Z := va - va mod PAGE_SIZE.

Section allocator.
  Context `{Env}.

(** The bytes of a page whose frame is at [pa]. *)
Definition page_bytes (pa : Z) : list Z := (fun k => u8 (noise (pa + Z.of_nat k))) <$> seq 0 page_n.

Definition gain_page (va pa : Z) : M kernel unit :=
  modify (fun s => set_mach (set_ram (write_bytes (ram (mach s)) (page_of va) (page_bytes pa)) (mach s)) s).
Definition lose_page (va : Z) : M kernel unit :=
  modify (fun s => set_mach (set_ram (del_bytes (ram (mach s)) (page_of va) page_n) (mach s)) s).

Definition PageMapping (v_addr physic_page_addr : Z) : M kernel unit :=
  let pde_addr := GetPDEPointer v_addr in
  let pte_addr := GetPTEPointer v_addr in
  let* pde := on_pg (vld32 pde_addr) in
  (if negb (Z.land pde PAGE_P_1 =? 0) then
     let* pte := on_pg (vld32 pte_addr) in
     ASSERT (Z.land pte PAGE_P_1 =? 0) "PageMapping" 135 ;;;
     let* pte := on_pg (vld32 pte_addr) in
     if Z.land pte PAGE_P_1 =? 0 then on_pg (vst32 pte_addr (entry_value physic_page_addr))
     else panic "PageMapping" 142
   else
     let* s := get in
     let* pte_physic_addr := on_mach (GetOnePhysicPage (kernel_memory_pool (mem s))) in
     on_pg (map_new_table pde_addr pte_addr pte_physic_addr (entry_value physic_page_addr))) ;;;
  gain_page v_addr physic_page_addr.

Definition unmap_page (v_addr : Z) : M kernel unit :=
  let* s := get in
  on_pg (PageUnmapping (arg_slot s) v_addr) ;;;
  lose_page v_addr.

(** The two loops of [pfree], which differ in the assertion on the page's frame. *)
Definition pfree_body (pool_ok : Z -> bool) (line page_cnt : Z) '((v_addr, cnt) : Z * Z)
    : M kernel (Z * Z + unit) :=
  if cnt <? page_cnt then
    let v_addr := u32 (v_addr + PAGE_SIZE) in
    let* page_physic_addr := on_pg (VirtualAddrToPhysicAddr v_addr) in
    ASSERT (pool_ok page_physic_addr) "pfree" line ;;;
    ReturnOnePhysicPage page_physic_addr ;;;
    unmap_page v_addr ;;;
    ret (inl (v_addr, u32 (cnt + 1)))
  else ret (inr tt).

Definition pfree (pf : pool_flags) (v_addr_start page_cnt : Z) : M kernel unit :=
  ASSERT ((page_cnt >=? 1) && (v_addr_start mod PAGE_SIZE =? 0)) "pfree" 274 ;;;
  let* page_physic_addr := on_pg (VirtualAddrToPhysicAddr v_addr_start) in
  ASSERT ((page_physic_addr mod PAGE_SIZE =? 0) && (page_physic_addr >? 0x102000)) "pfree" 277 ;;;
  let* s := get in
  let user_start := physic_addr_start (user_memory_pool (mem s)) in
  (if page_physic_addr >=? user_start then
     iter (S (Z.to_nat page_cnt)) (pfree_body (fun p => p >=? user_start) 286 page_cnt)
       (u32 (v_addr_start - PAGE_SIZE), 0)
   else
     iter (S (Z.to_nat page_cnt)) (pfree_body (fun p => p <? user_start) 300 page_cnt)
       (u32 (v_addr_start - PAGE_SIZE), 0)) ;;;
  ReturnVirtualPage pf v_addr_start page_cnt.

Definition palloc_body (pf : pool_flags) (vaddr_start_ : Z) '((vaddr, page_cnt) : Z * Z)
    : M kernel (Z * Z + Z) :=
  if page_cnt =? 0 then ret (inr vaddr_start_)
  else
    let* s := get in
    let* page_physic_addr := on_mach (GetOnePhysicPage (pool_of pf (mem s))) in
    if page_physic_addr =? 0 then
      pfree pf vaddr_start_ (u32 (vaddr - vaddr_start_) / PAGE_SIZE) ;;;
      ret (inr 0)
    else
      PageMapping vaddr page_physic_addr ;;;
      ret (inl (u32 (vaddr + PAGE_SIZE), u32 (page_cnt - 1))).

Definition palloc (pf : pool_flags) (page_cnt : Z) : M kernel Z :=
  ASSERT (page_cnt <? 3840) "palloc" 244 ;;;
  let* vaddr_start_ := GetVirtualPage pf page_cnt in
  if vaddr_start_ =? 0 then ret vaddr_start_
  else iter (S (Z.to_nat page_cnt)) (palloc_body pf vaddr_start_) (vaddr_start_, page_cnt).

(** [kpalloc] is [pool_alloc KERNEL_POOL], [upalloc] is [pool_alloc USER_POOL]. *)
Definition pool_alloc (pf : pool_flags) (fuel : nat) (page_cnt : Z) : M kernel Z :=
  sys_lock_lock fuel (pool_lock pf) ;;;
  let* vaddr := palloc pf page_cnt in
  sys_lock_unlock (pool_lock pf) ;;;
  (if negb (vaddr =? 0) then on_mach (memset vaddr 0 (u32 (page_cnt * PAGE_SIZE))) else ret tt) ;;;
  ret vaddr.
Definition kpalloc : nat -> Z -> M kernel Z := pool_alloc KERNEL_POOL.
Definition upalloc : nat -> Z -> M kernel Z := pool_alloc USER_POOL.

Definition VirtualAddrMapping (pf : pool_flags) (fuel : nat) (vaddr : Z) : M kernel Z :=
  sys_lock_lock fuel (pool_lock pf) ;;;
  let* curren_thread := GetCurrentThreadPCB in
  let* c := get_pcb curren_thread in
  (match pf, PDE_addr c =? 0 with
   | USER_POOL, false =>
       let bitmap_idx := u32 (vaddr - vaddr_start (userprog_vaddr c)) / PAGE_SIZE in
       ASSERT (bitmap_idx >? 0) "VirtualAddrMapping" 348 ;;;
       on_mach (BitmapSetBit (vaddr_bitmap (userprog_vaddr c)) bitmap_idx 1)
   | KERNEL_POOL, true =>
       let* s := get in
       let bitmap_idx := u32 (vaddr - vaddr_start (kernel_vaddr (mem s))) / PAGE_SIZE in
       ASSERT (bitmap_idx >? 0) "VirtualAddrMapping" 354 ;;;
       on_mach (BitmapSetBit (vaddr_bitmap (kernel_vaddr (mem s))) bitmap_idx 1)
   | _, _ => panic "VirtualAddrMapping" 359
   end) ;;;
  let* s := get in
  let* physic_page_addr := on_mach (GetOnePhysicPage (pool_of pf (mem s))) in
  if physic_page_addr =? 0 then ret 0
  else
    PageMapping vaddr physic_page_addr ;;;
    sys_lock_unlock (pool_lock pf) ;;;
    ret vaddr.

End allocator.

(** ** Setting up the pools *)
Definition VmemPoolInit (all_mem : Z) : M kernel unit :=
  on_mach (sys_putstr "    memory_pool_init start..") ;;;
  let page_table_size := PAGE_SIZE * 256 in
  let used_mem := page_table_size + 0x100000 in
  let free_mem := u32 (all_mem - used_mem) in
  let free_pages_sum := free_mem / PAGE_SIZE in
  let kernel_free_pages := free_pages_sum / 2 in
  let user_free_pages := free_pages_sum - kernel_free_pages in
  let kernel_bitmap_length := kernel_free_pages / 8 in
  let user_bitmap_length := user_free_pages / 8 in
  let kernel_memory_pool_start := used_mem in
  let user_memory_pool_start := u32 (kernel_memory_pool_start + kernel_free_pages * PAGE_SIZE) in
  let kernel_pool := MemoryPool (Bitmap kernel_bitmap_length MEM_BITMAP_BASE)
    kernel_memory_pool_start (u32 (kernel_free_pages * PAGE_SIZE)) in
  let user_pool := MemoryPool (Bitmap user_bitmap_length (u32 (MEM_BITMAP_BASE + kernel_bitmap_length)))
    user_memory_pool_start (u32 (user_free_pages * PAGE_SIZE)) in
  let vaddr := VirtualAddr
    (Bitmap kernel_bitmap_length (u32 (kernel_bitmap_length + user_bitmap_length + MEM_BITMAP_BASE)))
    KERNEL_HEAP_BASE in
  modify (set_mem (Pools kernel_pool user_pool vaddr)) ;;;
  on_mach (BitmapInit (vaddr_bitmap vaddr)) ;;;
  on_mach (sys_putstr_bytes (10 :: literal "        kernel_pool_bitmap_start:         0x")) ;;;
  on_mach (sys_puthex (bits (pool_bitmap kernel_pool))) ;;;
  on_mach (sys_putstr_bytes (10 :: literal "        kernel_pool_physic_addr_start:    0x")) ;;;
  on_mach (sys_puthex (physic_addr_start kernel_pool)) ;;;
  on_mach (sys_putstr_bytes (10 :: literal "        kernel_virutal_addr_start:        0x")) ;;;
  on_mach (sys_puthex (vaddr_start vaddr)) ;;;
  on_mach (sys_putstr_bytes (10 :: literal "        user_pool_bitmap_start:           0x")) ;;;
  on_mach (sys_puthex (bits (pool_bitmap user_pool))) ;;;
  on_mach (sys_putstr_bytes (10 :: literal "        user_pool_physic_addr_start:      0x")) ;;;
  on_mach (sys_puthex (physic_addr_start user_pool)) ;;;
  on_mach (BitmapInit (pool_bitmap kernel_pool)) ;;;
  on_mach (BitmapInit (pool_bitmap user_pool)) ;;;
  on_mach (sys_putstr_bytes (10 :: literal_nl "    done")) ;;;
  ret tt.

(** ** Bitmaps side by side *)

(** The addresses of the bitmap's bytes, and of the one byte behind that the scan may read. *)
Definition in_bitmap (b : bitmap) (a : Z) : Prop := bits b <= a < bits b + bitmap_bytes_len b.

Lemma bitmap_ok_keep m m' b c :
  bitmap_ok m b -> bitmap_ok m' c -> same_outside (in_bitmap c) m m' -> bitmap_ok m' b.
Proof.
  intros (_ & H2 & H3 & H4 & H5 & H6) (H1 & _ & _ & _ & _ & H7) Hs.
  split_and!; try done. intros a Ha.
  destruct (decide (bits c <= a < bits c + bitmap_bytes_len c)) as [Hin|Hout].
  - apply H7. lia.
  - rewrite Hs by done. by apply H6.
Qed.

Lemma bit_keep m m' b P j :
  same_outside P m m' -> ~ P (bits b + j / 8) -> bit m' b j = bit m b j.
Proof. intros Hs Hn. unfold bit. by rewrite Hs. Qed.

(** Bit [j] of a bitmap that lies [k] bytes behind another. *)
Lemma bit_shift m b c k j : bits b = bits c + k -> bit m b j = bit m c (j + 8 * k).
Proof.
  intros H. unfold bit. rewrite H. rewrite (Z.mul_comm 8), Z.div_add, Z.mod_add by lia.
  by replace (bits c + k + j / 8) with (bits c + (j / 8 + k)) by lia.
Qed.

Lemma bit_in_bitmap b j : 0 <= j < nbits b -> in_bitmap b (bits b + j / 8).
Proof. unfold nbits, in_bitmap. intros Hj. destruct (bit_split j). lia. Qed.

(** ** Counting free bits *)

(** At least [n] bits of the bitmap are clear. *)
Definition has_free (m : gmap Z Z) (b : bitmap) (n : nat) : Prop :=
  exists l : list Z, NoDup l /\ length l = n /\ Forall (fun j => 0 <= j < nbits b /\ bit m b j = false) l.

Lemma has_free_le m b n k : has_free m b n -> (k <= n)%nat -> has_free m b k.
Proof.
  intros (l & H1 & H2 & H3) Hk. exists (take k l). split_and!.
  - rewrite <- (take_drop k l) in H1. by apply NoDup_app in H1 as [? _].
  - rewrite length_take. lia.
  - by apply Forall_take.
Qed.

(** Setting one bit costs at most one. *)
Lemma has_free_set_in m m' b r n : has_free m b (S n) ->
  (forall j, 0 <= j < nbits b -> bit m' b j = if j =? r then true else bit m b j) -> has_free m' b n.
Proof.
  intros (l & H1 & H2 & H3) Hbit.
  destruct (decide (r ∈ l)) as [Hin|Hin].
  - apply list_elem_of_split in Hin as (l1 & l2 & ->).
    exists (l1 ++ l2). rewrite length_app in *. cbn in H2.
    assert (NoDup (r :: l1 ++ l2)) as Hnd by by rewrite Permutation_middle.
    apply NoDup_cons in Hnd as [Hnin Hnd]. split_and!; [done|lia|].
    rewrite Forall_app, Forall_cons in H3. destruct H3 as (Ha & _ & Hb).
    assert (Forall (fun j => 0 <= j < nbits b /\ bit m b j = false) (l1 ++ l2)) as Hall by by apply Forall_app.
    rewrite Forall_forall in Hall |- *. intros j Hj. destruct (Hall j Hj) as [Hr Hf]. split; [done|].
    rewrite Hbit by done. replace (j =? r) with false; [done|]. symmetry. apply Z.eqb_neq. congruence.
  - destruct l as [|x l]; [done|]. exists l. apply NoDup_cons in H1 as [_ H1]. cbn in H2.
    split_and!; [done|lia|]. apply Forall_cons in H3 as [_ H3].
    rewrite Forall_forall in H3 |- *. intros j Hj. destruct (H3 j Hj) as [Hr Hf]. split; [done|].
    rewrite Hbit by done. replace (j =? r) with false; [done|]. symmetry. apply Z.eqb_neq. intros ->.
    apply Hin. by right.
Qed.

Lemma has_free_set m m' b r n :
  has_free m b (S n) -> (forall j, bit m' b j = if j =? r then true else bit m b j) -> has_free m' b n.
Proof. intros Hf Hbit. by apply (has_free_set_in m m' b r). Qed.

Lemma has_free_mono m m' b n : (forall j, 0 <= j < nbits b -> bit m b j = false -> bit m' b j = false) ->
  has_free m b n -> has_free m' b n.
Proof.
  intros Hbit (l & H1 & H2 & H3). exists l. split_and!; try done.
  eapply Forall_impl; [exact H3|]. cbv beta. intros j [Hr Hf]. auto.
Qed.

Lemma has_free_same m m' b n : (forall j, 0 <= j < nbits b -> bit m' b j = bit m b j) ->
  has_free m b n -> has_free m' b n.
Proof. intros Hbit. apply has_free_mono. intros j Hj. by rewrite Hbit. Qed.

Lemma has_free_ex m b n : has_free m b (S n) -> exists i, 0 <= i < nbits b /\ bit m b i = false.
Proof. intros ([|i l] & _ & H2 & H3); [done|]. apply Forall_cons in H3 as [H3 _]. eauto. Qed.

(** ** Taking a frame *)

Definition frame (p : memory_pool) (r : Z) : Z := physic_addr_start p + PAGE_SIZE * r.
Definition pool_bits (p : memory_pool) : Z := nbits (pool_bitmap p).

(** One bit set: the memory [m'] is [m] but for bit [r] of [b]. *)
Record bit_set (m m' : gmap Z Z) (b : bitmap) (r : Z) : Prop := BitSet {
  bs_range : 0 <= r < nbits b;
  bs_clear : bit m b r = false;
  bs_bits : forall j, bit m' b j = if j =? r then true else bit m b j;
  bs_ok : bitmap_ok m' b;
  bs_same : same_outside (fun a => a = bits b + r / 8) m m'
}.

Lemma GetOnePhysicPage_ok s p :
  bitmap_ok (ram s) (pool_bitmap p) -> 0 <= physic_addr_start p ->
  physic_addr_start p + PAGE_SIZE * pool_bits p <= 2 ^ 32 ->
  has_free (ram s) (pool_bitmap p) 1 ->
  exists r m', GetOnePhysicPage p s = Ret (frame p r, set_ram m' s) /\
    bit_set (ram s) m' (pool_bitmap p) r /\ forall j, 0 <= j < r -> bit (ram s) (pool_bitmap p) j = true.
Proof.
  intros Hok H0 Hlim Hfree. apply has_free_ex in Hfree as (i & Hi & Hbi).
  pose proof (len_bounds s _ Hok) as Hlen.
  destruct (BitmapScan_fits s (pool_bitmap p) 1 i Hok) as (r & Hr & Hri & Hrun & Hfirst); [lia|lia|lia| |].
  { intros j Hj. by replace j with i by lia. }
  assert (bit (ram s) (pool_bitmap p) r = false) as Hbr by (apply Hrun; lia).
  unfold nbits in Hi.
  destruct (BitmapSetBit_ok s (pool_bitmap p) r 1 Hok) as (m' & Hset & Hok' & Hbits & Hsame);
    [unfold nbits; lia|by right|].
  exists r, m'. split.
  - unfold GetOnePhysicPage. rewrite (bind_Ret _ _ _ _ _ Hr).
    replace (r =? -1) with false by lia. rewrite u32_id, (bind_Ret _ _ _ _ _ Hset) by lia.
    unfold ret, frame. rewrite u32_id; [do 2 f_equal; lia|].
    unfold pool_bits, nbits, PAGE_SIZE in *. lia.
  - split; [constructor; try done; unfold nbits; lia|]. intros j Hj. destruct (bit (ram s) (pool_bitmap p) j) eqn:E; [done|].
    exfalso. apply (Hfirst j); [lia|]. intros x Hx. by replace x with j by lia.
Qed.

(** ** The invariant of the allocator

    [V] is the address space pages are taken from: [kernel_vaddr], or that of a process. *)

(** The three bitmaps: of the pools, and of the address space. *)
Definition bitmap_at (ps : pools) (V : virtual_addr) (i : option pool_flags) : bitmap :=
  match i with Some pf => pool_bitmap (pool_of pf ps) | None => vaddr_bitmap V end.

Definition vpage (V : virtual_addr) (i : Z) : Z := vaddr_start V + PAGE_SIZE * i.
Definition space_bits (V : virtual_addr) : Z := nbits (vaddr_bitmap V).
Definition in_space (V : virtual_addr) (a : Z) : Prop :=
  vaddr_start V <= a < vaddr_start V + PAGE_SIZE * space_bits V.

#[global] Instance pool_flags_eq_dec : EqDecision pool_flags.
Proof. solve_decision. Defined.

(** The address [va] is mapped to a byte of frame [r] of pool [pf]. *)
Definition maps_frame (ps : pools) (pg : paging) (va : Z) (pf : pool_flags) (r : Z) : Prop :=
  0 <= va < 1023 * 2 ^ 22 /\ 0 <= r < pool_bits (pool_of pf ps) /\
  translate pg va = Some (frame (pool_of pf ps) r + va mod 2 ^ 12).

(** Two addresses are translated by the same entry of the same page table. *)
Definition same_entry (pg : paging) (va va' : Z) : Prop :=
  table_of (phys pg) (frame_of (cr3 pg)) va = table_of (phys pg) (frame_of (cr3 pg)) va' /\
  va / 2 ^ 12 mod 2 ^ 10 = va' / 2 ^ 12 mod 2 ^ 10.

Record mem_ok (ps : pools) (V : virtual_addr) (m : gmap Z Z) (pg : paging) : Prop := MemOk {
  mo_dir : pg_ok pg;
  mo_bitmap : forall i, bitmap_ok m (bitmap_at ps V i);
  (* the bitmaps do not overlap, and the pages of the space are elsewhere *)
  mo_apart : forall i j a, in_bitmap (bitmap_at ps V i) a -> in_bitmap (bitmap_at ps V j) a -> i = j;
  mo_away : forall i a, in_space V a ->
    ~ bits (bitmap_at ps V i) <= a <= bits (bitmap_at ps V i) + bitmap_bytes_len (bitmap_at ps V i);
  mo_pool : forall pf, let P := pool_of pf ps in
    0 < physic_addr_start P /\ physic_addr_start P mod PAGE_SIZE = 0 /\
    physic_addr_start P + PAGE_SIZE * pool_bits P <= 2 ^ 32;
  mo_order : physic_addr_start (kernel_memory_pool ps) + PAGE_SIZE * pool_bits (kernel_memory_pool ps) <=
    physic_addr_start (user_memory_pool ps);
  mo_space : 0 < vaddr_start V /\ vaddr_start V mod PAGE_SIZE = 0 /\
    vaddr_start V + PAGE_SIZE * space_bits V <= 1023 * 2 ^ 22;
  (* a free frame is used neither as a page table nor by any page below the window *)
  mo_free : forall pf r, 0 <= r < pool_bits (pool_of pf ps) ->
    bit m (pool_bitmap (pool_of pf ps)) r = false ->
    frame_fresh (phys pg) (frame_of (cr3 pg)) (frame (pool_of pf ps) r);
  mo_used : forall pf r va, maps_frame ps pg va pf r -> bit m (pool_bitmap (pool_of pf ps)) r = true;
  (* a free virtual page is not mapped *)
  mo_unmapped : forall i, 0 <= i < space_bits V -> bit m (vaddr_bitmap V) i = false ->
    translate pg (vpage V i) = None;
  (* the directory entries of the space have tables of their own *)
  mo_tables : forall va va' t, in_space V va -> in_space V va' ->
    table_of (phys pg) (frame_of (cr3 pg)) va = Some t ->
    table_of (phys pg) (frame_of (cr3 pg)) va' = Some t -> va / 2 ^ 22 = va' / 2 ^ 22;
  (* a frame mapped in the space is no page table, and every frame is mapped through one entry only *)
  mo_data : forall pf r va, in_space V va -> maps_frame ps pg va pf r ->
    frame_fresh (phys pg) (frame_of (cr3 pg)) (frame (pool_of pf ps) r);
  mo_entry : forall pf r va va', maps_frame ps pg va pf r -> maps_frame ps pg va' pf r ->
    same_entry pg va va'
}.

(** What allocating pages keeps: translations, the contents of the frames in the space, the accessible part
    of physical memory; and the page directory, when every page of the space has a table. *)
Record grown (ps : pools) (V : virtual_addr) (pg pg' : paging) : Prop := Grown {
  gr_walk : forall va pa, 0 <= va < 1023 * 2 ^ 22 -> translate pg va = Some pa -> translate pg' va = Some pa;
  gr_data : forall pf r va a, in_space V va -> maps_frame ps pg va pf r ->
    frame (pool_of pf ps) r <= a < frame (pool_of pf ps) r + 4096 -> phys pg' !! a = phys pg !! a;
  gr_read : forall q n, readable (phys pg) q n -> readable (phys pg') q n;
  gr_pdes : (forall va, in_space V va -> is_Some (table_of (phys pg) (frame_of (cr3 pg)) va)) ->
    forall j, 0 <= j < 1024 -> pde_at (phys pg') (frame_of (cr3 pg)) j = pde_at (phys pg) (frame_of (cr3 pg)) j
}.

Lemma grown_refl ps V pg : grown ps V pg pg.
Proof. by constructor. Qed.

Lemma table_of_pdes m m' dir va : 0 <= va < 2 ^ 32 ->
  (forall j, 0 <= j < 1024 -> pde_at m' dir j = pde_at m dir j) -> table_of m' dir va = table_of m dir va.
Proof. intros Hva H. unfold table_of. unfold pde_at in H. by rewrite H by by apply pde_idx_range. Qed.

Lemma grown_trans ps V pg1 pg2 pg3 : cr3 pg2 = cr3 pg1 ->
  vaddr_start V + PAGE_SIZE * space_bits V <= 2 ^ 32 -> 0 <= vaddr_start V ->
  grown ps V pg1 pg2 -> grown ps V pg2 pg3 -> grown ps V pg1 pg3.
Proof.
  intros Hcr Hlim H0 [A1 A2 A3 A4] [B1 B2 B3 B4]. constructor.
  - auto.
  - intros pf r va a Hin Hmp Ha. rewrite (B2 pf r va a); [by apply (A2 pf r va)|done| |done].
    destruct Hmp as (Hva & Hr & Ht). split; [done|]. split; [done|]. by apply A1.
  - auto.
  - intros Ht j Hj. rewrite <- Hcr, B4, Hcr; [by apply A4| |done]. intros va Hva. rewrite Hcr.
    rewrite (table_of_pdes (phys pg1)); [by apply Ht|unfold in_space in Hva; lia|by apply A4].
Qed.

Section mem_ok_facts.
  Context (ps : pools) (V : virtual_addr).

(** A bit that is set in one bitmap changes no other. *)
Lemma bit_set_at m m' pg i r : mem_ok ps V m pg -> bit_set m m' (bitmap_at ps V i) r ->
  forall k j, 0 <= j < nbits (bitmap_at ps V k) ->
    bit m' (bitmap_at ps V k) j =
      if bool_decide (k = i /\ j = r) then true else bit m (bitmap_at ps V k) j.
Proof.
  intros Hm [Hr _ Hb _ Hs] k j Hj. case_bool_decide as Hc.
  - destruct Hc as [-> ->]. by rewrite Hb, Z.eqb_refl.
  - destruct (decide (k = i)) as [->|Hne].
    + rewrite Hb. replace (j =? r) with false; [done|]. symmetry. apply Z.eqb_neq. naive_solver.
    + eapply bit_keep; [exact Hs|]. cbv beta. intros E. apply Hne.
      apply (mo_apart _ _ _ _ Hm k i (bits (bitmap_at ps V i) + r / 8)); [rewrite <- E|];
        by apply bit_in_bitmap.
Qed.

(** Setting bits of one bitmap keeps the invariant. *)
Lemma mem_ok_more m m' pg i : mem_ok ps V m pg -> bitmap_ok m' (bitmap_at ps V i) ->
  same_outside (in_bitmap (bitmap_at ps V i)) m m' ->
  (forall j, 0 <= j < nbits (bitmap_at ps V i) -> bit m (bitmap_at ps V i) j = true ->
    bit m' (bitmap_at ps V i) j = true) ->
  mem_ok ps V m' pg.
Proof.
  intros Hm Hok Hs Hset.
  assert (forall k j, 0 <= j < nbits (bitmap_at ps V k) -> bit m (bitmap_at ps V k) j = true ->
    bit m' (bitmap_at ps V k) j = true) as Hbit.
  { intros k j Hj Hb. destruct (decide (k = i)) as [->|Hne]; [by apply Hset|].
    rewrite (bit_keep _ _ _ _ _ Hs); [done|]. intros Hin. apply Hne.
    by apply (mo_apart _ _ _ _ Hm k i _ (bit_in_bitmap _ _ Hj)). }
  assert (forall k j, 0 <= j < nbits (bitmap_at ps V k) -> bit m' (bitmap_at ps V k) j = false ->
    bit m (bitmap_at ps V k) j = false) as Hclear.
  { intros k j Hj Hb. destruct (bit m (bitmap_at ps V k) j) eqn:E; [|done]. by rewrite Hbit in Hb. }
  destruct Hm as [H1 H2 H3 H4 H5 H6 H7 H8 H9 H10 H11 H12 H13]. constructor; try done.
  - intros k. by eapply bitmap_ok_keep.
  - intros pf q Hq Hf. apply H8; [done|]. by apply (Hclear (Some pf)).
  - intros pf q va Hmp. apply (Hbit (Some pf)); [apply Hmp|]. by eapply (H9 pf q).
  - intros q Hq Hf. apply H10; [done|]. by apply (Hclear None).
Qed.

Lemma bit_set_same m m' b r : bit_set m m' b r -> same_outside (in_bitmap b) m m'.
Proof. intros [Hr _ _ _ Hs] a Ha. apply Hs. intros ->. apply Ha. by apply bit_in_bitmap. Qed.

Lemma mem_ok_set m m' pg i r : mem_ok ps V m pg -> bit_set m m' (bitmap_at ps V i) r ->
  mem_ok ps V m' pg.
Proof.
  intros Hm Hset. apply (mem_ok_more m m' pg i Hm (bs_ok _ _ _ _ Hset) (bit_set_same _ _ _ _ Hset)).
  intros j Hj Hb. rewrite (bs_bits _ _ _ _ Hset). by destruct (j =? r).
Qed.

(** Bytes that lie in no bitmap do not matter. *)
Lemma mem_ok_bitmaps m m' pg : mem_ok ps V m pg -> ram_ok m' ->
  (forall k a, bits (bitmap_at ps V k) <= a <= bits (bitmap_at ps V k) + bitmap_bytes_len (bitmap_at ps V k) ->
     m' !! a = m !! a) ->
  mem_ok ps V m' pg /\
  forall k j, 0 <= j < nbits (bitmap_at ps V k) -> bit m' (bitmap_at ps V k) j = bit m (bitmap_at ps V k) j.
Proof.
  intros Hm Hok Hs.
  assert (forall k j, 0 <= j < nbits (bitmap_at ps V k) ->
    bit m' (bitmap_at ps V k) j = bit m (bitmap_at ps V k) j) as Hbit.
  { intros k j Hj. unfold bit. rewrite (Hs k); [done|].
    pose proof (bit_in_bitmap _ _ Hj) as Hb. unfold in_bitmap in Hb. lia. }
  split; [|done]. destruct Hm as [H1 H2 H3 H4 H5 H6 H7 H8 H9 H10 H11 H12 H13]. constructor; try done.
  - intros k. destruct (H2 k) as (_ & B2 & B3 & B4 & B5 & B6). split_and!; try done.
    intros a Ha. rewrite (Hs k); [by apply B6|lia].
  - intros pf q Hq Hf. apply H8; [done|]. pose proof (Hbit (Some pf) q Hq) as E. cbn [bitmap_at] in E. by rewrite <- E.
  - intros pf q va Hmp. pose proof (Hbit (Some pf) q ltac:(apply Hmp)) as E. cbn [bitmap_at] in E.
    rewrite E. by eapply (H9 pf q).
  - intros q Hq Hf. apply H10; [done|]. pose proof (Hbit None q Hq) as E. cbn [bitmap_at] in E. by rewrite <- E.
Qed.

(** Bytes of the space's pages that appear or change do not matter. *)
Lemma mem_ok_ram m m' pg : mem_ok ps V m pg -> ram_ok m' -> same_outside (in_space V) m m' ->
  mem_ok ps V m' pg /\
  forall k j, 0 <= j < nbits (bitmap_at ps V k) -> bit m' (bitmap_at ps V k) j = bit m (bitmap_at ps V k) j.
Proof.
  intros Hm Hok Hs. apply mem_ok_bitmaps; [done|done|]. intros k a Ha. apply Hs. intros Hin.
  by apply (mo_away _ _ _ _ Hm k a Hin).
Qed.

Lemma vpage_facts m pg i : mem_ok ps V m pg -> 0 <= i < space_bits V ->
  in_space V (vpage V i) /\ 0 < vpage V i /\ vpage V i + 4096 <= 1023 * 2 ^ 22 /\ vpage V i mod 4096 = 0.
Proof.
  intros Hm Hi. destruct (mo_space _ _ _ _ Hm) as (H0 & Hp & Hl). unfold in_space, vpage, PAGE_SIZE in *.
  split_and!; [lia|lia|lia|lia|]. rewrite Z.add_mod, Hp, Z.mul_comm, Z.mod_mul by lia. done.
Qed.

Lemma frame_facts m pg pf r : mem_ok ps V m pg -> 0 <= r < pool_bits (pool_of pf ps) ->
  0 < frame (pool_of pf ps) r < 2 ^ 32 /\ frame (pool_of pf ps) r mod 4096 = 0.
Proof.
  intros Hm Hr. destruct (mo_pool _ _ _ _ Hm pf) as (H0 & Hp & Hl). unfold frame, PAGE_SIZE in *.
  split; [lia|]. rewrite Z.add_mod, Hp, Z.mul_comm, Z.mod_mul by lia. done.
Qed.

Lemma frames_apart m pg pf pf' r r' : mem_ok ps V m pg ->
  0 <= r < pool_bits (pool_of pf ps) -> 0 <= r' < pool_bits (pool_of pf' ps) ->
  frame (pool_of pf ps) r = frame (pool_of pf' ps) r' -> pf = pf' /\ r = r'.
Proof.
  intros Hm Hr Hr' E. pose proof (mo_order _ _ _ _ Hm) as Ho. unfold frame, PAGE_SIZE in *.
  destruct pf, pf'; cbn [pool_of] in *; (split; [done|lia]) || (exfalso; lia).
Qed.

(** The page of an address is given by its directory and table index. *)
Lemma page_of_split va v : v mod 4096 = 0 -> va / 2 ^ 12 mod 2 ^ 10 = v / 2 ^ 12 mod 2 ^ 10 ->
  va / 2 ^ 22 = v / 2 ^ 22 -> page_of va = v.
Proof.
  intros H3 E1 E3. unfold page_of, PAGE_SIZE.
  assert (forall x, x = x / 2 ^ 22 * 2 ^ 22 + x / 2 ^ 12 mod 2 ^ 10 * 2 ^ 12 + x mod 4096) as Split.
  { intros x. change (2 ^ 22) with (2 ^ 12 * 2 ^ 10). rewrite <- Z.div_div by lia. change 4096 with (2 ^ 12).
    pose proof (Z.div_mod x (2 ^ 12)). pose proof (Z.div_mod (x / 2 ^ 12) (2 ^ 10)). lia. }
  rewrite (Split va) at 1. rewrite (Split v). rewrite E1, E3, H3. lia.
Qed.

(** ** Mapping one page *)

Lemma mapped_table m m' dir v p f va t : mapped m m' dir v p f -> 0 <= va < 1023 * 2 ^ 22 ->
  table_of m' dir va = Some t ->
  table_of m dir va = Some t \/ (t = f /\ va / 2 ^ 22 = v / 2 ^ 22).
Proof.
  intros [_ _ _ Hpde] Hva. unfold table_of. pose proof (pde_idx_low va Hva) as Hi.
  destruct (word m' _) as [e|] eqn:He; [|done]. destruct (is_present e) eqn:Pe; [|done]. intros [= <-].
  destruct (Hpde (va / 2 ^ 22) e Hi He Pe) as [H|[H1 H2]]; [|by right].
  left. unfold pde_at in H. by rewrite H, Pe.
Qed.

Section map_page.
  Context (m : gmap Z Z) (pg : paging) (ph' : gmap Z Z) (i : Z) (pf : pool_flags) (r f : Z).
  #[local] Abbreviation dir := (frame_of (cr3 pg)).
  #[local] Abbreviation P := (pool_of pf ps).
  #[local] Abbreviation pg' := (set_phys ph' pg).
  Hypothesis Hm : mem_ok ps V m pg.
  Hypothesis Hi : 0 <= i < space_bits V.
  Hypothesis Hbi : bit m (vaddr_bitmap V) i = true.
  Hypothesis Hr : 0 <= r < pool_bits P.
  Hypothesis Hbr : bit m (pool_bitmap P) r = true.
  Hypothesis Hmap : mapped (phys pg) ph' dir (vpage V i) (frame P r) f.
  Hypothesis Hf : forall pf' r', 0 <= r' < pool_bits (pool_of pf' ps) ->
    bit m (pool_bitmap (pool_of pf' ps)) r' = false -> frame (pool_of pf' ps) r' <> f.
  Hypothesis Hold : forall j e, 0 <= j < 1023 -> pde_at (phys pg) dir j = Some e -> is_present e = true ->
    frame_of e <> f.
  Hypothesis Hmf : forall pf' r' va, maps_frame ps pg va pf' r' -> frame (pool_of pf' ps) r' <> f.
  Hypothesis Hpf : frame P r <> f.
  Hypothesis Hnew : forall va, ~ maps_frame ps pg va pf r.
  Hypothesis Hdata : frame_fresh (phys pg) dir (frame P r).
  Hypothesis Hfpage : f + 4096 <= 0 \/ f mod 4096 = 0.

Lemma old_table va t : 0 <= va < 1023 * 2 ^ 22 -> table_of (phys pg) dir va = Some t -> t <> f.
Proof.
  intros Hva. unfold table_of. destruct (word _ _) as [e|] eqn:He; [|done].
  destruct (is_present e) eqn:Pe; [|done]. intros [= <-]. by apply (Hold (va / 2 ^ 22)); [apply pde_idx_low|..].
Qed.

Lemma in_space_low va : in_space V va -> 0 <= va < 1023 * 2 ^ 22.
Proof. destruct (mo_space _ _ _ _ Hm) as (? & ? & ?). unfold in_space. lia. Qed.

Lemma map_tables va va' t : in_space V va -> in_space V va' ->
  table_of ph' dir va = Some t -> table_of ph' dir va' = Some t -> va / 2 ^ 22 = va' / 2 ^ 22.
Proof.
  intros Hva Hva' H1 H2. pose proof (in_space_low _ Hva) as L1. pose proof (in_space_low _ Hva') as L2.
  destruct (mapped_table _ _ _ _ _ _ _ _ Hmap L1 H1) as [O1|[-> E1]];
    destruct (mapped_table _ _ _ _ _ _ _ _ Hmap L2 H2) as [O2|[E O2]].
  - by eapply (mo_tables _ _ _ _ Hm).
  - subst t. by destruct (old_table _ _ L1 O1).
  - by destruct (old_table _ _ L2 O2).
  - congruence.
Qed.

Lemma map_here : translate pg' (vpage V i) = Some (frame P r).
Proof.
  destruct (vpage_facts _ _ i Hm Hi) as (_ & H1 & H2 & H3).
  unfold translate. cbn [phys cr3 set_phys]. rewrite (mp_maps _ _ _ _ _ _ Hmap) by lia.
  rewrite bool_decide_true by done. change (2 ^ 12) with 4096. by rewrite H3, Z.add_0_r.
Qed.

Lemma map_elsewhere va : in_space V va -> page_of va <> vpage V i -> translate pg' va = translate pg va.
Proof.
  intros Hva Hne. pose proof (in_space_low _ Hva) as L.
  destruct (vpage_facts _ _ i Hm Hi) as (Hin & H1 & H2 & H3).
  unfold translate. cbn [phys cr3 set_phys]. rewrite (mp_maps _ _ _ _ _ _ Hmap) by done.
  rewrite bool_decide_false; [done|]. intros [E1 E2].
  pose proof map_here as Hh. unfold translate, walk in Hh. cbn [phys cr3 set_phys] in Hh.
  destruct (table_of ph' dir (vpage V i)) as [t|] eqn:Ht; [|done].
  pose proof (map_tables _ _ _ Hva Hin E2 Ht) as E3. apply Hne. by apply page_of_split.
Qed.

Lemma fresh_kept x : frame_fresh (phys pg) dir x -> x <> f -> frame_fresh ph' dir x.
Proof.
  intros (F1 & F2 & F3 & F4 & F5 & F6) Hx.
  split_and!; try done; [by apply (mp_read _ _ _ _ _ _ Hmap)|].
  intros j e Hj He Pe. destruct (mp_pde _ _ _ _ _ _ Hmap j e Hj He Pe) as [H|[H _]]; [by apply (F6 j)|].
  rewrite H. by apply not_eq_sym.
Qed.

(** An address mapped to a frame afterwards was mapped to it before, or got the new entry. *)
Lemma map_inv va pf' r' : maps_frame ps pg' va pf' r' ->
  maps_frame ps pg va pf' r' \/ (pf' = pf /\ r' = r /\ same_entry pg' va (vpage V i)).
Proof.
  intros (Hva & Hr' & Ht). pose proof Ht as Ht'. unfold translate in Ht. cbn [phys cr3 set_phys] in Ht.
  rewrite (mp_maps _ _ _ _ _ _ Hmap) in Ht by done. case_bool_decide as Hs.
  - right. injection Ht as E. apply Z.add_cancel_r in E.
    destruct (frames_apart _ _ _ _ _ _ Hm Hr Hr' E) as [<- <-]. split_and!; [done|done|]. by destruct Hs as [Hs1 Hs2].
  - left. done.
Qed.

Lemma table_kept va t : 0 <= va < 1023 * 2 ^ 22 -> table_of (phys pg) dir va = Some t ->
  table_of ph' dir va = Some t.
Proof.
  intros Hva. unfold table_of. destruct (word (phys pg) _) as [e|] eqn:He; [|done].
  destruct (is_present e) eqn:Pe; [|done]. intros [= <-].
  pose proof (mp_keep _ _ _ _ _ _ Hmap (va / 2 ^ 22) e (pde_idx_low va Hva) He Pe) as E.
  unfold pde_at in E. by rewrite E, Pe.
Qed.

Lemma maps_frame_table p va pf' r' : maps_frame ps p va pf' r' ->
  exists t, table_of (phys p) (frame_of (cr3 p)) va = Some t.
Proof. intros (_ & _ & Ht). unfold translate, walk in Ht. destruct (table_of _ _ va) as [t|]; [eauto|done]. Qed.

(** Mapping a page that was not mapped keeps the rest. *)
Lemma map_grown : translate pg (vpage V i) = None -> grown ps V pg pg'.
Proof.
  intros Hun. destruct (vpage_facts _ _ i Hm Hi) as (Hin & H1 & H2 & H3). constructor.
  - intros va pa Hva Ht. unfold translate. cbn [phys cr3 set_phys]. rewrite (mp_maps _ _ _ _ _ _ Hmap) by done.
    case_bool_decide as Hc; [|done]. destruct Hc as [E1 E2]. exfalso.
    unfold translate, walk in Ht. destruct (table_of (phys pg) dir va) as [t|] eqn:Etv; [|done].
    rewrite (table_kept va t Hva Etv) in E2. symmetry in E2.
    destruct (mapped_table _ _ _ _ _ _ (vpage V i) t Hmap ltac:(lia) E2) as [E3|[-> _]].
    + unfold translate, walk in Hun. rewrite E3, <- E1 in Hun.
      destruct (word _ _) as [e|]; [|done]. by destruct (is_present e).
    + by destruct (old_table va f Hva Etv).
  - intros pf' r' va a Hva Hmp Ha. apply (mp_same _ _ _ _ _ _ Hmap).
    destruct (mo_data _ _ _ _ Hm _ _ _ Hva Hmp) as (F1 & F2 & F3 & F4 & F5 & F6).
    assert (dir mod 4096 = 0) as Hd by apply (mo_dir _ _ _ _ Hm).
    intros [Hc|[Hc|(t & Ht & Hc)]].
    + destruct (pages_apart (frame (pool_of pf' ps) r') dir F1 Hd F5); lia.
    + destruct Hfpage as [Hneg|Hfp]; [lia|].
      destruct (pages_apart (frame (pool_of pf' ps) r') f F1 Hfp (Hmf _ _ _ Hmp)); lia.
    + destruct (table_of_ok _ _ (vpage V i) t (mo_dir _ _ _ _ Hm) ltac:(lia) Ht) as (_ & _ & Htp & _).
      assert (frame (pool_of pf' ps) r' <> t) as Hne.
      { intros <-. unfold table_of in Ht. destruct (word _ _) as [e|] eqn:He; [|done].
        destruct (is_present e) eqn:Pe; [|done]. injection Ht as Ht.
        by apply (F6 (vpage V i / 2 ^ 22) e); [apply pde_idx_low; lia|..]. }
      destruct (pages_apart _ _ F1 Htp Hne); lia.
  - apply (mp_read _ _ _ _ _ _ Hmap).
  - intros Ht j Hj. apply (mp_pdes _ _ _ _ _ _ Hmap); [by apply Ht|done].
Qed.

Lemma mem_ok_map : mem_ok ps V m pg'.
Proof.
  constructor; try apply Hm; cbn [phys cr3 set_phys].
  - apply (mp_ok _ _ _ _ _ _ Hmap).
  - intros pf' r' Hr' Hb'. apply fresh_kept; [by apply (mo_free _ _ _ _ Hm)|by apply Hf].
  - intros pf' r' va H. destruct (map_inv _ _ _ H) as [H1|(-> & -> & _)]; [|done].
    by eapply (mo_used _ _ _ _ Hm).
  - intros j Hj Hb. destruct (vpage_facts _ _ j Hm Hj) as (Hin & H1 & H2 & H3).
    rewrite map_elsewhere; [by apply (mo_unmapped _ _ _ _ Hm)|done|].
    unfold page_of, PAGE_SIZE. rewrite H3, Z.sub_0_r. intros E.
    assert (j = i) as -> by (unfold vpage, PAGE_SIZE in E; lia). congruence.
  - apply map_tables.
  - intros pf' r' va Hva H. destruct (map_inv _ _ _ H) as [H1|(-> & -> & _)]; [|by apply fresh_kept].
    apply fresh_kept; [by eapply (mo_data _ _ _ _ Hm)|by eapply Hmf].
  - intros pf' r' va va' H H'.
    destruct (map_inv _ _ _ H) as [H1|(-> & -> & E1)]; destruct (map_inv _ _ _ H') as [H1'|(E & E' & E1')].
    + destruct (mo_entry _ _ _ _ Hm _ _ _ _ H1 H1') as [Et Ei].
      destruct (maps_frame_table _ _ _ _ H1) as [t Ht]. rewrite Ht in Et.
      split; [|done]. cbn [phys cr3 set_phys].
      by rewrite (table_kept va t), (table_kept va' t) by (done || apply H1 || apply H1').
    + subst. by destruct (Hnew va).
    + by destruct (Hnew va').
    + destruct E1 as [E1 E2], E1' as [E3 E4]. split; congruence.
Qed.

End map_page.

End mem_ok_facts.

Definition with_mem (m : gmap Z Z) (p : paging) (s : kernel) : kernel :=
  set_mach (set_ram m (mach s)) (set_pg p s).

Lemma with_mem_id s : with_mem (ram (mach s)) (pg s) s = s.
Proof. destruct s as [ma]. by destruct ma. Qed.

Lemma with_mem_twice m p m' p' s : with_mem m p (with_mem m' p' s) = with_mem m p s.
Proof. reflexivity. Qed.

Lemma with_mem_mem m p s : mem (with_mem m p s) = mem s.
Proof. reflexivity. Qed.

Lemma with_mem_ram m p s : ram (mach (with_mem m p s)) = m.
Proof. reflexivity. Qed.

Lemma with_mem_pg m p s : pg (with_mem m p s) = p.
Proof. reflexivity. Qed.

Lemma present_bit e : (Z.land e 1 =? 0) = negb (is_present e).
Proof. change 1 with (2 ^ 0). by rewrite land_pow2_eqb. Qed.

Lemma pde_load pg v : pg_ok pg -> 0 <= v < 2 ^ 32 ->
  exists e, pde_at (phys pg) (frame_of (cr3 pg)) (v / 2 ^ 22) = Some e /\ 0 <= e < 2 ^ 32 /\
    vld32 (GetPDEPointer v) pg = Ret (e, pg).
Proof.
  intros Hok Hv. pose proof Hok as (Hm & H0 & Hl & Hd & Hr & (e0 & He0 & P0 & F0) & _).
  pose proof (pde_idx_range v Hv).
  destruct (readable_word _ _ _ (frame_of (cr3 pg) + 4 * (v / 2 ^ 22)) Hr) as [e He]; [lia|lia|].
  exists e. split_and!; [done|by eapply word_range|by eapply word_range|].
  eapply vld32_ok; [|exact He]. by apply (GetPDEPointer_walk _ _ v e0).
Qed.

Lemma write_page_out m p l : same_outside (fun a => p <= a < p + Z.of_nat (length l)) m (write_bytes m p l).
Proof. intros a Ha. apply write_bytes_lookup_out. lia. Qed.

(** What mapping page [i] of the space to frame [r] of pool [pf] does to memory; a table for it may
    come from the kernel pool. *)
Record page_mapped (ps : pools) (V : virtual_addr) (m m' : gmap Z Z) (pg pg' : paging) (i : Z)
    (pf : pool_flags) (r : Z) (bytes : list Z) : Prop := PageMapped {
  pm_ok : mem_ok ps V m' pg';
  pm_here : translate pg' (vpage V i) = Some (frame (pool_of pf ps) r);
  pm_elsewhere : forall va, in_space V va -> page_of va <> vpage V i -> translate pg' va = translate pg va;
  pm_cr3 : cr3 pg' = cr3 pg;
  pm_bits : forall k j, 0 <= j < nbits (bitmap_at ps V k) -> k <> Some KERNEL_POOL ->
    bit m' (bitmap_at ps V k) j = bit m (bitmap_at ps V k) j;
  pm_taken : forall j, bit m (pool_bitmap (kernel_memory_pool ps)) j = true ->
    0 <= j < pool_bits (kernel_memory_pool ps) -> bit m' (pool_bitmap (kernel_memory_pool ps)) j = true;
  pm_free : forall n, has_free m (pool_bitmap (kernel_memory_pool ps)) (S n) ->
    has_free m' (pool_bitmap (kernel_memory_pool ps)) n;
  pm_bytes : bytes_at m' (vpage V i) bytes;
  pm_same : same_outside (fun a => in_bitmap (pool_bitmap (kernel_memory_pool ps)) a \/
    vpage V i <= a < vpage V i + 4096) m m';
  pm_grown : grown ps V pg pg'
}.

Section mapping.
  Context `{Env} (s : kernel) (V : virtual_addr) (i : Z) (pf : pool_flags) (r : Z).
  #[local] Abbreviation m := (ram (mach s)).
  #[local] Abbreviation ps := (mem s).
  #[local] Abbreviation P := (pool_of pf ps).
  Hypothesis Hm : mem_ok ps V m (pg s).
  Hypothesis Hi : 0 <= i < space_bits V.
  Hypothesis Hbi : bit m (vaddr_bitmap V) i = true.
  Hypothesis Hun : translate (pg s) (vpage V i) = None.
  Hypothesis Hr : 0 <= r < pool_bits P.
  Hypothesis Hbr : bit m (pool_bitmap P) r = true.
  Hypothesis Hfree : has_free m (pool_bitmap (kernel_memory_pool ps)) 1.
  Hypothesis Hnew : forall va, ~ maps_frame ps (pg s) va pf r.
  Hypothesis Hdata : frame_fresh (phys (pg s)) (frame_of (cr3 (pg s))) (frame P r).

Lemma length_page_bytes pa : Z.of_nat (length (page_bytes pa)) = 4096.
Proof. unfold page_bytes. rewrite length_fmap, length_seq. apply page_n_Z. Qed.

Lemma page_bytes_ok pa : Forall (fun b => 0 <= b < 256) (page_bytes pa).
Proof. apply Forall_fmap, Forall_forall. intros k _. apply u8_range. Qed.

(** The new page's bytes, after the page tables are done. *)
Lemma gain_ok m1 pg1 :
  mem_ok ps V m1 pg1 -> translate pg1 (vpage V i) = Some (frame P r) -> cr3 pg1 = cr3 (pg s) ->
  (forall va, in_space V va -> page_of va <> vpage V i -> translate pg1 va = translate (pg s) va) ->
  (forall k j, 0 <= j < nbits (bitmap_at ps V k) -> k <> Some KERNEL_POOL ->
    bit m1 (bitmap_at ps V k) j = bit m (bitmap_at ps V k) j) ->
  (forall j, bit m (pool_bitmap (kernel_memory_pool ps)) j = true ->
    0 <= j < pool_bits (kernel_memory_pool ps) -> bit m1 (pool_bitmap (kernel_memory_pool ps)) j = true) ->
  (forall n, has_free m (pool_bitmap (kernel_memory_pool ps)) (S n) ->
    has_free m1 (pool_bitmap (kernel_memory_pool ps)) n) ->
  same_outside (in_bitmap (pool_bitmap (kernel_memory_pool ps))) m m1 -> grown ps V (pg s) pg1 ->
  page_mapped ps V m (write_bytes m1 (vpage V i) (page_bytes (frame P r))) (pg s) pg1 i pf r
    (page_bytes (frame P r)).
Proof.
  intros Hm1 Hh Hcr He Hb Ht Hfr Hs Hg. pose proof (length_page_bytes (frame P r)) as Hl.
  destruct (vpage_facts ps V _ _ i Hm Hi) as (Hin & H1 & H2 & H3).
  set (m2 := write_bytes m1 (vpage V i) (page_bytes (frame P r))).
  pose proof (write_page_out m1 (vpage V i) (page_bytes (frame P r))) as Hout. fold m2 in Hout. rewrite Hl in Hout.
  destruct (mem_ok_ram ps V m1 m2 pg1 Hm1) as (Hm2 & Hbit).
  { apply write_bytes_ok; [|apply page_bytes_ok]. apply (mo_bitmap _ _ _ _ Hm1 None). }
  { intros a Ha. apply Hout. intros Hc. apply Ha. unfold in_space, vpage, PAGE_SIZE in *. lia. }
  constructor; try done.
  - intros k j Hj Hk. rewrite Hbit by done. by apply Hb.
  - intros j Hj Hrange. pose proof (Hbit (Some KERNEL_POOL) j Hrange) as E. cbn [bitmap_at pool_of] in E.
    rewrite E. by apply Ht.
  - intros n Hn. apply (has_free_same m1); [|by apply Hfr]. exact (Hbit (Some KERNEL_POOL)).
  - apply write_bytes_at.
  - intros a Ha. rewrite Hout by tauto. apply Hs. tauto.
Qed.

Lemma PageMapping_ok : exists m' pg',
  PageMapping (vpage V i) (frame P r) s = Ret (tt, with_mem m' pg' s) /\
  page_mapped ps V m m' (pg s) pg' i pf r (page_bytes (frame P r)).
Proof.
  destruct (vpage_facts ps V _ _ i Hm Hi) as (Hin & H1 & H2 & H3).
  destruct (frame_facts ps V _ _ pf r Hm Hr) as (Hfr & Hfp).
  pose proof (mo_dir _ _ _ _ Hm) as Hdir.
  destruct (pde_load (pg s) (vpage V i) Hdir ltac:(lia)) as (e & He & Re & Hld).
  assert (page_of (vpage V i) = vpage V i) as Hpage by (unfold page_of, PAGE_SIZE; lia).
  unfold PageMapping. rewrite (bind_Ret _ _ s e s) by (rewrite (on_pg_ok _ _ _ _ Hld); by rewrite set_pg_id).
  change PAGE_P_1 with 1. rewrite present_bit, negb_involutive. destruct (is_present e) eqn:Pe.
  - assert (table_of (phys (pg s)) (frame_of (cr3 (pg s))) (vpage V i) = Some (frame_of e)) as Ht.
    { unfold table_of. unfold pde_at in He. by rewrite He, Pe. }
    destruct (pte_word (pg s) (vpage V i) (frame_of e) Hdir ltac:(lia) Ht) as (x & Hx & Rx).
    assert (is_present x = false) as Px.
    { unfold translate, walk in Hun. rewrite Ht, Hx in Hun. by destruct (is_present x). }
    assert (vld32 (GetPTEPointer (vpage V i)) (pg s) = Ret (x, pg s)) as Hld2.
    { eapply vld32_ok; [|exact Hx]. apply GetPTEPointer_translate; [done|lia|done]. }
    assert (on_pg (vld32 (GetPTEPointer (vpage V i))) s = Ret (x, s)) as Hld3
      by (rewrite (on_pg_ok _ _ _ _ Hld2); by rewrite set_pg_id).
    pose proof (map_existing (pg s) (vpage V i) (entry_value (frame P r)) _ Hdir ltac:(lia) Ht) as Hst.
    pose proof (map_existing_maps _ _ (vpage V i) (frame P r) _ Hdir ltac:(lia) Ht ltac:(lia) Hfp (-4096)) as Hmap.
    set (ph' := setw _ _ _) in *. set (pg1 := set_phys ph' (pg s)) in *.
    exists (write_bytes m (vpage V i) (page_bytes (frame P r))), pg1. split.
    + rewrite bind_assoc, (bind_Ret _ _ _ _ _ Hld3), present_bit, Px.
      rewrite bind_assoc, (bind_Ret _ _ s tt s) by done.
      rewrite bind_assoc, (bind_Ret _ _ _ _ _ Hld3), present_bit, Px. cbn [negb].
      rewrite (bind_Ret _ _ _ _ _ (on_pg_ok _ _ _ _ Hst)).
      unfold gain_page, modify. rewrite Hpage. reflexivity.
    + assert (forall j e', 0 <= j < 1023 -> pde_at (phys (pg s)) (frame_of (cr3 (pg s))) j = Some e' ->
        is_present e' = true -> frame_of e' <> -4096) as Hold.
      { intros j e' Hj He' Pe'. destruct Hdir as (_ & _ & _ & _ & _ & _ & Hts).
        destruct (Hts j e' Hj He' Pe') as (_ & ? & _). lia. }
      assert (forall pf' r', 0 <= r' < pool_bits (pool_of pf' ps) ->
        bit m (pool_bitmap (pool_of pf' ps)) r' = false -> frame (pool_of pf' ps) r' <> -4096) as Hf.
      { intros pf' r' Hr' _. destruct (frame_facts ps V _ _ pf' r' Hm Hr'). lia. }
      assert (forall pf' r' va, maps_frame ps (pg s) va pf' r' -> frame (pool_of pf' ps) r' <> -4096) as Hmf.
      { intros pf' r' va (_ & Hr' & _). destruct (frame_facts ps V _ _ pf' r' Hm Hr'). lia. }
      apply gain_ok; try done.
      * eapply (mem_ok_map ps V m (pg s) ph' i pf r (-4096)); try done. lia.
      * by eapply (map_here ps V m (pg s) ph' i pf r (-4096)).
      * by eapply (map_elsewhere ps V m (pg s) ph' i pf r (-4096)).
      * intros n Hn. eapply has_free_le; [exact Hn|lia].
      * eapply (map_grown ps V m (pg s) ph' i pf r (-4096)); try done. by left.
  - destruct (mo_pool _ _ _ _ Hm KERNEL_POOL) as (K0 & Kp & Kl).
    destruct (GetOnePhysicPage_ok (mach s) (kernel_memory_pool ps)) as (q & m1 & Hget & Hset & _);
      [apply (mo_bitmap _ _ _ _ Hm (Some KERNEL_POOL))|cbn in K0; lia|done|done|].
    set (f := frame (kernel_memory_pool ps) q) in *.
    pose proof (mem_ok_set ps V m m1 (pg s) (Some KERNEL_POOL) q Hm Hset) as Hm1.
    pose proof (bit_set_at ps V m m1 (pg s) (Some KERNEL_POOL) q Hm Hset) as Hbits.
    pose proof Hset as [Hq Hclear Hb1 Hok1 Hs1].
    pose proof (mo_free _ _ _ _ Hm KERNEL_POOL q Hq Hclear) as Hfresh.
    cbn [pool_of] in Hfresh. fold f in Hfresh.
    destruct (map_new_table_ok (pg s) (vpage V i) (frame P r) f e Hdir ltac:(lia) ltac:(lia) Hfp Hfresh He Pe)
      as (ph' & Hrun & Hmap).
    set (pg1 := set_phys ph' (pg s)) in *.
    exists (write_bytes m1 (vpage V i) (page_bytes (frame P r))), pg1. split.
    + rewrite bind_assoc, (bind_Ret _ _ s s s) by done.
      rewrite bind_assoc, (bind_Ret _ _ _ _ _ (on_mach_ok _ _ _ _ Hget)).
      rewrite (bind_Ret _ _ _ _ _ (on_pg_ok _ (set_mach (set_ram m1 (mach s)) s) _ _ Hrun)).
      unfold gain_page, modify. rewrite Hpage. reflexivity.
    + assert (bit m1 (vaddr_bitmap V) i = true) as Hbi1.
      { pose proof (Hbits None i Hi) as E. cbn [bitmap_at] in E. by rewrite E. }
      assert (bit m1 (pool_bitmap P) r = true) as Hbr1.
      { pose proof (Hbits (Some pf) r Hr) as E. cbn [bitmap_at] in E. rewrite E. by case_bool_decide. }
      assert (forall j e', 0 <= j < 1023 -> pde_at (phys (pg s)) (frame_of (cr3 (pg s))) j = Some e' ->
        is_present e' = true -> frame_of e' <> f) as Hold by apply Hfresh.
      assert (forall pf' r', 0 <= r' < pool_bits (pool_of pf' ps) ->
        bit m1 (pool_bitmap (pool_of pf' ps)) r' = false -> frame (pool_of pf' ps) r' <> f) as Hf.
      { intros pf' r' Hr' Hb' E. destruct (frames_apart ps V _ _ pf' KERNEL_POOL r' q Hm Hr' Hq E) as [-> ->].
        cbn [pool_of] in Hb'. rewrite Hb1, Z.eqb_refl in Hb'. done. }
      assert (forall pf' r' va, maps_frame ps (pg s) va pf' r' -> frame (pool_of pf' ps) r' <> f) as Hmf.
      { intros pf' r' va Hmp E. pose proof (mo_used _ _ _ _ Hm _ _ _ Hmp) as Hu.
        destruct (frames_apart ps V _ _ pf' KERNEL_POOL r' q Hm ltac:(apply Hmp) Hq E) as [-> ->].
        cbn [pool_of bitmap_at] in Hu, Hclear. congruence. }
      assert (frame P r <> f) as Hpf.
      { intros E. destruct (frames_apart ps V _ _ pf KERNEL_POOL r q Hm Hr Hq E) as [E1 ->].
        rewrite E1 in Hbr. cbn [pool_of bitmap_at] in Hbr, Hclear. congruence. }
      apply gain_ok; try done.
      * by eapply (mem_ok_map ps V m1 (pg s) ph' i pf r f).
      * by eapply (map_here ps V m1 (pg s) ph' i pf r f).
      * by eapply (map_elsewhere ps V m1 (pg s) ph' i pf r f).
      * intros k j Hj Hk. rewrite Hbits by done. rewrite bool_decide_false; [done|]. naive_solver.
      * intros j Hj Hrange. rewrite Hb1. by destruct (j =? q).
      * intros n Hn. by eapply has_free_set.
      * intros a Ha. apply Hs1. intros ->. apply Ha. by apply bit_in_bitmap.
      * eapply (map_grown ps V m1 (pg s) ph' i pf r f); try done. right. apply Hfresh.
Qed.

End mapping.

(** ** Reserving virtual pages *)

Lemma set_bits_loop b idx cnt v n : forall s k,
  bitmap_ok (ram s) b -> 0 <= idx -> 0 <= k -> k + Z.of_nat n = cnt -> idx + cnt <= nbits b ->
  v = 0 \/ v = 1 ->
  exists m', iter (S n) (set_bits_body b idx cnt v) k s = Ret (tt, set_ram m' s) /\ bitmap_ok m' b /\
    (forall j, bit m' b j = if (idx + k <=? j) && (j <? idx + cnt) then v =? 1 else bit (ram s) b j) /\
    same_outside (in_bitmap b) (ram s) m'.
Proof.
  induction n as [|n IH]; intros s k Hok Hidx Hk Hn Hle Hv.
  - exists (ram s). rewrite set_ram_id. split_and!; [|done| |by intros a _].
    + cbn [iter]. unfold set_bits_body. by replace (k <? cnt) with false by lia.
    + intros j. replace ((idx + k <=? j) && (j <? idx + cnt)) with false by lia. done.
  - pose proof (len_bounds s b Hok) as Hlen. unfold nbits in Hle.
    destruct (BitmapSetBit_ok s b (idx + k) v Hok) as (m1 & H1 & Hok1 & Hb1 & Hs1); [unfold nbits; lia|done|].
    destruct (IH (set_ram m1 s) (k + 1)) as (m2 & H2 & Hok2 & Hb2 & Hs2); try done; [lia|lia|].
    exists m2. split_and!; [|done| |].
    + rewrite (iter_S _ _ _ _ (inl (k + 1)) (set_ram m1 s)); [exact H2|].
      unfold set_bits_body. replace (k <? cnt) with true by lia.
      rewrite u32_id, (bind_Ret _ _ _ _ _ H1), u32_id by lia. done.
    + intros j. rewrite Hb2. cbn [ram set_ram]. rewrite Hb1.
      destruct (Z.eqb_spec j (idx + k)) as [->|Hne].
      * replace ((idx + k <=? idx + k) && (idx + k <? idx + cnt)) with true by lia.
        by replace ((idx + (k + 1) <=? idx + k) && (idx + k <? idx + cnt)) with false by lia.
      * by replace (idx + (k + 1) <=? j) with (idx + k <=? j) by lia.
    + intros a Ha. rewrite Hs2 by done. cbn [ram set_ram]. apply Hs1. intros ->. apply Ha.
      apply bit_in_bitmap. unfold nbits. lia.
Qed.

Lemma set_bits_ok s b idx cnt v :
  bitmap_ok (ram s) b -> 0 <= idx -> 0 <= cnt -> idx + cnt <= nbits b -> v = 0 \/ v = 1 ->
  exists m', set_bits b idx cnt v s = Ret (tt, set_ram m' s) /\ bitmap_ok m' b /\
    (forall j, bit m' b j = if (idx <=? j) && (j <? idx + cnt) then v =? 1 else bit (ram s) b j) /\
    same_outside (in_bitmap b) (ram s) m'.
Proof.
  intros Hok Hi Hc Hle Hv.
  destruct (set_bits_loop b idx cnt v (Z.to_nat cnt) s 0 Hok Hi) as (m' & H1 & H2 & H3 & H4); [lia|lia|done|done|].
  exists m'. split_and!; try done. intros j. rewrite H3. by rewrite Z.add_0_r.
Qed.

(** [GetVirtualPage] returns the first run of free pages and marks exactly them. *)
Lemma GetVirtualPage_ok s pf V cnt r0 :
  space_of pf s = Ret (V, s) -> mem_ok (mem s) V (ram (mach s)) (pg s) ->
  1 <= cnt -> 0 <= r0 -> r0 + cnt <= space_bits V -> free_run (ram (mach s)) (vaddr_bitmap V) r0 cnt ->
  exists r m', GetVirtualPage pf cnt s = Ret (vpage V r, with_mem m' (pg s) s) /\ 0 <= r <= r0 /\
    free_run (ram (mach s)) (vaddr_bitmap V) r cnt /\
    (forall r', 0 <= r' < r -> ~ free_run (ram (mach s)) (vaddr_bitmap V) r' cnt) /\
    bitmap_ok m' (vaddr_bitmap V) /\
    (forall j, bit m' (vaddr_bitmap V) j =
       if (r <=? j) && (j <? r + cnt) then true else bit (ram (mach s)) (vaddr_bitmap V) j) /\
    same_outside (in_bitmap (vaddr_bitmap V)) (ram (mach s)) m'.
Proof.
  intros Hsp Hm Hc Hr0 Hle Hrun. pose proof (mo_bitmap _ _ _ _ Hm None) as Hok. cbn [bitmap_at] in Hok.
  destruct (BitmapScan_fits (mach s) (vaddr_bitmap V) cnt r0 Hok) as (r & Hscan & Hr & Hrun' & Hfirst); try done.
  destruct (set_bits_ok (mach s) (vaddr_bitmap V) r cnt 1 Hok) as (m' & Hset & Hok' & Hb' & Hs');
    [lia|lia|unfold space_bits in Hle; lia|by right|].
  destruct (mo_space _ _ _ _ Hm) as (V0 & Vp & Vl). pose proof (len_bounds (mach s) _ Hok) as Hlen.
  unfold space_bits in Hle, Vl. pose proof Hle as Hle'. unfold nbits in Hle', Vl.
  exists r, m'. split_and!; try done; try lia.
  unfold GetVirtualPage. rewrite (bind_Ret _ _ _ _ _ Hsp).
  rewrite (bind_Ret _ _ s r s) by (rewrite (on_mach_ok _ _ _ _ Hscan); by rewrite set_mach_id).
  replace (r =? -1) with false by lia. rewrite u32_id by lia.
  rewrite (bind_Ret _ _ _ _ _ (on_mach_ok _ _ _ _ Hset)).
  unfold ret, vpage. rewrite u32_id by (unfold PAGE_SIZE in *; lia).
  do 2 f_equal. unfold PAGE_SIZE. lia.
Qed.
