(* ===== verification/Palloc.v ===== *)
(** * kernel/memory.c: correctness of [palloc], [kpalloc], [upalloc] and [pfree]

    The theorems about the allocator of Pool.v, over its invariant [mem_ok], and a small concrete
    memory that satisfies it. *)
From stdpp Require Import base list gmap strings.
From S2P Require Import Prelude Machine CString Bitmap Print Interrupt KList Paging State Sched Sync Pool.

(** ** Allocating pages *)

(** Enough frames for [k] pages of pool [pf], counting a page table for each. *)
Definition enough_frames (ps : pools) (m : gmap Z Z) (pf : pool_flags) (k : nat) : Prop :=
  has_free m (pool_bitmap (kernel_memory_pool ps)) (2 * k) /\ has_free m (pool_bitmap (pool_of pf ps)) k.

Lemma enough_le ps m pf n k : enough_frames ps m pf n -> (k <= n)%nat -> enough_frames ps m pf k.
Proof. intros [HK HP] Hk. split; (eapply has_free_le; [eassumption|lia]). Qed.

(** What allocating [k] pages from page [i] of the space on does: each page is mapped to a frame of
    its own, free before, of pool [pf]. *)
Record pages_mapped (ps : pools) (V : virtual_addr) (m m' : gmap Z Z) (pg pg' : paging) (i : Z)
    (k : nat) (pf : pool_flags) : Prop := PagesMapped {
  pms_ok : mem_ok ps V m' pg';
  pms_cr3 : cr3 pg' = cr3 pg;
  pms_frames : exists rs : list Z, length rs = k /\ NoDup rs /\
    Forall (fun r => 0 <= r < pool_bits (pool_of pf ps) /\ bit m (pool_bitmap (pool_of pf ps)) r = false) rs /\
    forall n r, rs !! n = Some r ->
      translate pg' (vpage V (i + Z.of_nat n)) = Some (frame (pool_of pf ps) r);
  pms_elsewhere : forall va, in_space V va -> ~ vpage V i <= va < vpage V (i + Z.of_nat k) ->
    translate pg' va = translate pg va;
  pms_space : forall j, 0 <= j < space_bits V -> bit m' (vaddr_bitmap V) j = bit m (vaddr_bitmap V) j;
  pms_taken : forall pf' j, 0 <= j < pool_bits (pool_of pf' ps) ->
    bit m (pool_bitmap (pool_of pf' ps)) j = true -> bit m' (pool_bitmap (pool_of pf' ps)) j = true;
  pms_read : readable m' (vpage V i) (PAGE_SIZE * Z.of_nat k);
  pms_same : same_outside (fun a => in_bitmap (pool_bitmap (kernel_memory_pool ps)) a \/
    in_bitmap (pool_bitmap (pool_of pf ps)) a \/ vpage V i <= a < vpage V (i + Z.of_nat k)) m m';
  pms_grown : grown ps V pg pg';
  pms_enough : forall j, enough_frames ps m pf (k + j) -> enough_frames ps m' pf j
}.

Lemma vpage_next V i : u32 (vpage V i + PAGE_SIZE) = u32 (vpage V (i + 1)).
Proof. unfold vpage. f_equal. lia. Qed.


(** The bytes of the bitmaps that an allocation from [pf] may change. *)
Definition in_bitmaps (pf : pool_flags) (ps : pools) (V : virtual_addr) (a : Z) : Prop :=
  exists i, (i = Some USER_POOL -> pf = USER_POOL) /\ in_bitmap (bitmap_at ps V i) a.

Section palloc_loop.
  Context `{Env}.

(** One round of the loop. *)
Lemma palloc_step s V pf i :
  mem_ok (mem s) V (ram (mach s)) (pg s) -> 0 <= i < space_bits V ->
  bit (ram (mach s)) (vaddr_bitmap V) i = true -> translate (pg s) (vpage V i) = None ->
  enough_frames (mem s) (ram (mach s)) pf 1 ->
  exists r m1 m2 pg2,
    GetOnePhysicPage (pool_of pf (mem s)) (mach s) =
      Ret (frame (pool_of pf (mem s)) r, set_ram m1 (mach s)) /\
    PageMapping (vpage V i) (frame (pool_of pf (mem s)) r) (with_mem m1 (pg s) s) =
      Ret (tt, with_mem m2 pg2 s) /\
    bit_set (ram (mach s)) m1 (pool_bitmap (pool_of pf (mem s))) r /\
    page_mapped (mem s) V m1 m2 (pg s) pg2 i pf r (page_bytes (frame (pool_of pf (mem s)) r)) /\
    mem_ok (mem s) V m1 (pg s) /\
    (forall k, enough_frames (mem s) (ram (mach s)) pf (S k) -> enough_frames (mem s) m2 pf k) /\
    forall j, 0 <= j < r -> bit (ram (mach s)) (pool_bitmap (pool_of pf (mem s))) j = true.
Proof.
  intros Hm Hi Hbi Hun [HfK HfP]. destruct (mo_pool _ _ _ _ Hm pf) as (P0 & Pp & Pl).
  destruct (GetOnePhysicPage_ok (mach s) (pool_of pf (mem s))) as (r & m1 & Hget & Hset & Hfirst);
    [apply (mo_bitmap _ _ _ _ Hm (Some pf))|lia|done|eapply has_free_le; [exact HfP|lia]|].
  pose proof (mem_ok_set _ _ _ _ _ (Some pf) _ Hm Hset) as Hm1.
  pose proof (bit_set_at _ _ _ _ _ (Some pf) _ Hm Hset) as Hbits.
  pose proof Hset as [Hr Hclear Hb1 Hok1 Hs1].
  assert (forall k, has_free (ram (mach s)) (pool_bitmap (kernel_memory_pool (mem s))) (2 * S k) ->
    has_free m1 (pool_bitmap (kernel_memory_pool (mem s))) (S (2 * k))) as HfK1.
  { clear HfK. intros k HfK. destruct pf.
    - eapply (has_free_set _ m1); [|exact Hb1]. eapply has_free_le; [exact HfK|lia].
    - eapply has_free_le; [|instantiate (1 := (2 * S k)%nat); lia].
      eapply has_free_same; [|exact HfK]. intros j Hj.
      pose proof (Hbits (Some KERNEL_POOL) j Hj) as E. cbn [bitmap_at pool_of] in E. rewrite E.
      rewrite bool_decide_false by (intros [? _]; done). done. }
  set (s1 := with_mem m1 (pg s) s).
  destruct (PageMapping_ok s1 V i pf r) as (m2 & pg2 & Hrun & Hpm).
  - exact Hm1.
  - exact Hi.
  - pose proof (Hbits None i Hi) as E. cbn [bitmap_at] in E. cbn [s1 with_mem mach set_mach ram set_ram].
    by rewrite E.
  - exact Hun.
  - exact Hr.
  - cbn [s1 with_mem mach set_mach ram set_ram mem set_pg]. by rewrite Hb1, Z.eqb_refl.
  - eapply has_free_le; [exact (HfK1 0%nat HfK)|lia].
  - intros va Hmp. pose proof (mo_used _ _ _ _ Hm _ _ _ Hmp) as Hu. cbn [s1 with_mem mem set_mach set_pg] in Hu. congruence.
  - exact (mo_free _ _ _ _ Hm pf r Hr Hclear).
  - exists r, m1, m2, pg2. split_and!; try done. clear HfK HfP Hfirst. intros k [HfK HfP].
    pose proof (pm_free _ _ _ _ _ _ _ _ _ _ Hpm _ (HfK1 k HfK)) as HfK2.
    split; [exact HfK2|]. destruct pf; [eapply has_free_le; [exact HfK2|lia]|].
    eapply has_free_same; [exact (fun j Hj => pm_bits _ _ _ _ _ _ _ _ _ _ Hpm (Some USER_POOL) j Hj ltac:(done))|].
    eapply has_free_set; [exact HfP|exact Hb1].
Qed.


Lemma pages_mapped_nil ps V m pg i pf : mem_ok ps V m pg -> pages_mapped ps V m m pg pg i 0 pf.
Proof.
  intros Hm. constructor; try done.
  - exists []. split_and!; try done. by apply NoDup_nil_2.
  - intros a Ha. exfalso. unfold PAGE_SIZE in Ha. lia.
Qed.

(** A first page and the pages after it. *)
Lemma pages_mapped_cons ps V m m1 m2 m3 pg pg2 pg3 i k pf r bytes :
  mem_ok ps V m pg -> 0 <= i -> i + Z.of_nat (S k) <= space_bits V ->
  bit_set m m1 (pool_bitmap (pool_of pf ps)) r ->
  page_mapped ps V m1 m2 pg pg2 i pf r bytes -> Z.of_nat (length bytes) = 4096 ->
  pages_mapped ps V m2 m3 pg2 pg3 (i + 1) k pf ->
  (forall k, enough_frames ps m pf (S k) -> enough_frames ps m2 pf k) ->
  pages_mapped ps V m m3 pg pg3 i (S k) pf.
Proof.
  intros Hm Hi Hk Hset Hpm Hlen Hpms Hen.
  pose proof (bit_set_at _ _ _ _ _ (Some pf) _ Hm Hset) as Hbits.
  pose proof (mem_ok_set _ _ _ _ _ (Some pf) _ Hm Hset) as Hm1.
  destruct (vpage_facts ps V _ _ i Hm ltac:(lia)) as (Hin & V1 & V2 & V3).
  assert (forall n, vpage V (i + 1 + n) = vpage V i + 4096 + 4096 * n) as Vn
    by (intros n; unfold vpage, PAGE_SIZE; lia).
  assert (forall pf' j, 0 <= j < pool_bits (pool_of pf' ps) -> bit m (pool_bitmap (pool_of pf' ps)) j = true ->
    bit m2 (pool_bitmap (pool_of pf' ps)) j = true) as Hmono.
  { intros pf' j Hj Hb.
    assert (bit m1 (pool_bitmap (pool_of pf' ps)) j = true) as Hb1.
    { pose proof (Hbits (Some pf') j Hj) as E. cbn [bitmap_at] in E. rewrite E. by case_bool_decide. }
    destruct pf'; [by apply (pm_taken _ _ _ _ _ _ _ _ _ _ Hpm)|].
    pose proof (pm_bits _ _ _ _ _ _ _ _ _ _ Hpm (Some USER_POOL) j Hj ltac:(done)) as E.
    cbn [bitmap_at pool_of] in E. cbn [pool_of] in *. by rewrite E. }
  destruct Hpms as [Q1 Q2 (rs & R1 & R2 & R3 & R4) Q4 Q5 Q6 Q7 Q8 Q9 Q10].
  pose proof Hset as [Hr Hclear Hb1 _ _].
  assert (bit m2 (pool_bitmap (pool_of pf ps)) r = true) as Hr2.
  { assert (bit m1 (pool_bitmap (pool_of pf ps)) r = true) as Hr1 by by rewrite Hb1, Z.eqb_refl.
    destruct pf; [by apply (pm_taken _ _ _ _ _ _ _ _ _ _ Hpm)|].
    pose proof (pm_bits _ _ _ _ _ _ _ _ _ _ Hpm (Some USER_POOL) r Hr ltac:(done)) as E.
    cbn [bitmap_at pool_of] in E. cbn [pool_of] in *. by rewrite E. }
  constructor; try done.
  - by rewrite Q2, (pm_cr3 _ _ _ _ _ _ _ _ _ _ Hpm).
  - exists (r :: rs). split_and!.
    + cbn. lia.
    + constructor; [|done]. intros Hin'. rewrite Forall_forall in R3. destruct (R3 r Hin'). congruence.
    + constructor; [done|]. eapply Forall_impl; [exact R3|]. cbv beta. intros j [Hj Hb]. split; [done|].
      destruct (bit m (pool_bitmap (pool_of pf ps)) j) eqn:E; [|done]. by rewrite (Hmono pf j Hj E) in Hb.
    + intros [|n] r' Hn; cbn in Hn; simplify_eq.
      * rewrite Z.add_0_r, Q4; [apply (pm_here _ _ _ _ _ _ _ _ _ _ Hpm)|done|].
        pose proof (Vn 0) as E. rewrite Z.add_0_r in E. lia.
      * rewrite <- (R4 n r' Hn). do 2 f_equal. lia.
  - intros va Hva Hout. rewrite Q4; [|done|].
    + apply (pm_elsewhere _ _ _ _ _ _ _ _ _ _ Hpm); [done|]. intros E. apply Hout.
      replace (i + Z.of_nat (S k)) with (i + 1 + Z.of_nat k) by lia. rewrite Vn.
      unfold page_of, PAGE_SIZE in E. pose proof (Z.mod_pos_bound va 4096). lia.
    + intros E. apply Hout. replace (i + Z.of_nat (S k)) with (i + 1 + Z.of_nat k) by lia.
      pose proof (Vn 0) as E0. rewrite Z.add_0_r in E0. lia.
  - intros j Hj. rewrite Q5 by done.
    pose proof (pm_bits _ _ _ _ _ _ _ _ _ _ Hpm None j Hj ltac:(done)) as E. cbn [bitmap_at] in E. rewrite E.
    pose proof (Hbits None j Hj) as E2. cbn [bitmap_at] in E2. rewrite E2. by rewrite bool_decide_false by (intros [? _]; done).
  - intros pf' j Hj Hb. apply Q6; [done|]. by apply Hmono.
  - intros a Ha. unfold PAGE_SIZE in Ha. destruct (decide (a < vpage V i + 4096)) as [Hlt|Hge].
    + destruct (bytes_at_readable _ _ _ (pm_bytes _ _ _ _ _ _ _ _ _ _ Hpm) a) as [x Hx]; [lia|].
      exists x. rewrite <- Hx. apply Q8. pose proof (Vn 0) as E0. rewrite Z.add_0_r in E0.
      intros [Hc|[Hc|Hc]]; [| |lia].
      * apply (mo_away _ _ _ _ Hm (Some KERNEL_POOL) a); [unfold in_space, vpage, PAGE_SIZE in *; lia|].
        cbn [bitmap_at pool_of]. unfold in_bitmap in Hc. lia.
      * apply (mo_away _ _ _ _ Hm (Some pf) a); [unfold in_space, vpage, PAGE_SIZE in *; lia|].
        cbn [bitmap_at]. unfold in_bitmap in Hc. lia.
    + apply Q7. pose proof (Vn 0) as E0. rewrite Z.add_0_r in E0. unfold PAGE_SIZE. lia.
  - intros a Ha. replace (i + Z.of_nat (S k)) with (i + 1 + Z.of_nat k) in Ha by lia. rewrite Vn in Ha.
    pose proof (Vn 0) as E0. rewrite Z.add_0_r in E0. rewrite Q8, (pm_same _ _ _ _ _ _ _ _ _ _ Hpm).
    + apply (bit_set_same _ _ _ _ Hset). tauto.
    + intros [Hc|Hc]; [tauto|]. apply Ha. right. right. lia.
    + rewrite Vn. intros [Hc|[Hc|Hc]]; [tauto|tauto|]. apply Ha. right. right. lia.
  - destruct (mo_space _ _ _ _ Hm) as (S1 & _ & S2).
    apply (grown_trans _ _ _ pg2); [apply (pm_cr3 _ _ _ _ _ _ _ _ _ _ Hpm)|lia|lia| |done].
    apply (pm_grown _ _ _ _ _ _ _ _ _ _ Hpm).
  - intros j Hj. apply Q10, Hen, Hj.
Qed.

Lemma palloc_loop_ok V pf v0 k : forall s i,
  mem_ok (mem s) V (ram (mach s)) (pg s) -> 0 <= i -> i + Z.of_nat k <= space_bits V ->
  (forall j, i <= j < i + Z.of_nat k -> bit (ram (mach s)) (vaddr_bitmap V) j = true /\
     translate (pg s) (vpage V j) = None) ->
  enough_frames (mem s) (ram (mach s)) pf k -> Z.of_nat k < 2 ^ 32 ->
  exists m' pg', iter (S k) (palloc_body pf v0) (u32 (vpage V i), Z.of_nat k) s = Ret (v0, with_mem m' pg' s) /\
    pages_mapped (mem s) V (ram (mach s)) m' (pg s) pg' i k pf.
Proof.
  induction k as [|k IH]; intros s i Hm Hi Hle Hpages Hf Hk.
  - exists (ram (mach s)), (pg s). rewrite with_mem_id. split; [done|]. by apply pages_mapped_nil.
  - destruct (Hpages i ltac:(lia)) as [Hbi Hun].
    destruct (palloc_step s V pf i Hm ltac:(lia) Hbi Hun (enough_le _ _ _ _ 1 Hf ltac:(lia))) as (r & m1 & m2 & pg2 & Hget & Hmap & Hset & Hpm & Hm1 & Hf2 & _).
    destruct (vpage_facts _ _ _ _ i Hm ltac:(lia)) as (Hin & V1 & V2 & V3).
    destruct (frame_facts _ _ _ _ pf r Hm (bs_range _ _ _ _ Hset)) as [Fr _].
    pose proof (bit_set_at _ _ _ _ _ (Some pf) _ Hm Hset) as Hbits.
    assert (forall j, 0 <= j < space_bits V -> bit m2 (vaddr_bitmap V) j = bit (ram (mach s)) (vaddr_bitmap V) j) as HV.
    { intros j Hj. pose proof (pm_bits _ _ _ _ _ _ _ _ _ _ Hpm None j Hj ltac:(done)) as E.
      cbn [bitmap_at] in E. rewrite E. pose proof (Hbits None j Hj) as E2. cbn [bitmap_at] in E2.
      by rewrite E2, bool_decide_false by (intros [? _]; done). }
    destruct (IH (with_mem m2 pg2 s) (i + 1)) as (m3 & pg3 & Hrun & Hpms).
    + apply (pm_ok _ _ _ _ _ _ _ _ _ _ Hpm).
    + lia.
    + lia.
    + intros j Hj. destruct (Hpages j ltac:(lia)) as [Hbj Huj].
      cbn [with_mem mach set_mach ram set_ram pg set_pg]. rewrite HV by lia. split; [done|].
      destruct (vpage_facts _ _ _ _ j Hm ltac:(lia)) as (Hinj & W1 & W2 & W3).
      rewrite (pm_elsewhere _ _ _ _ _ _ _ _ _ _ Hpm); [done|done|].
      unfold page_of, PAGE_SIZE. rewrite W3. unfold vpage, PAGE_SIZE. lia.
    + by apply Hf2.
    + lia.
    + exists m3, pg3. split.
      2:{ eapply pages_mapped_cons; [exact Hm|lia|lia|exact Hset|exact Hpm|apply length_page_bytes|exact Hpms|exact Hf2]. }
      rewrite (iter_S _ _ _ _ (inl (u32 (vpage V (i + 1)), Z.of_nat k)) (with_mem m2 pg2 s)); [exact Hrun|].
      unfold palloc_body. replace (Z.of_nat (S k) =? 0) with false by lia.
      rewrite (bind_Ret _ _ s s s) by done.
      rewrite (bind_Ret _ _ _ _ _ (on_mach_ok _ _ _ _ Hget)).
      replace (frame (pool_of pf (mem s)) r =? 0) with false by lia.
      rewrite (u32_id (vpage V i)) by lia.
      assert (set_mach (set_ram m1 (mach s)) s = with_mem m1 (pg s) s) as -> by by destruct s.
      rewrite (bind_Ret _ _ _ _ _ Hmap). unfold ret. rewrite vpage_next. do 4 f_equal.
      rewrite u32_id by lia. lia.
Qed.

End palloc_loop.

(** Pages [r] to [r + cnt] of the space are marked in [m'], nothing else changed. *)
Definition reserved (V : virtual_addr) (m m' : gmap Z Z) (r cnt : Z) : Prop :=
  (forall j, bit m' (vaddr_bitmap V) j =
     if (r <=? j) && (j <? r + cnt) then true else bit m (vaddr_bitmap V) j) /\
  same_outside (in_bitmap (vaddr_bitmap V)) m m'.

Lemma reserved_bits ps V m m' pg r cnt : mem_ok ps V m pg -> reserved V m m' r cnt ->
  forall pf' j, 0 <= j < nbits (pool_bitmap (pool_of pf' ps)) ->
    bit m' (pool_bitmap (pool_of pf' ps)) j = bit m (pool_bitmap (pool_of pf' ps)) j.
Proof.
  intros Hm [Hb Hs] pf' j Hj. eapply bit_keep; [exact Hs|]. intros Hin.
  by pose proof (mo_apart _ _ _ _ Hm (Some pf') None _ (bit_in_bitmap _ _ Hj) Hin).
Qed.

Lemma reserved_ok ps V m m' pg r cnt pf k :
  mem_ok ps V m pg -> bitmap_ok m' (vaddr_bitmap V) -> reserved V m m' r cnt -> enough_frames ps m pf k ->
  mem_ok ps V m' pg /\ enough_frames ps m' pf k.
Proof.
  intros Hm Hok Hres [HK HP]. pose proof (reserved_bits _ _ _ _ _ _ _ Hm Hres) as Hsame. destruct Hres as [Hb Hs]. split.
  - apply (mem_ok_more _ _ m m' pg None Hm Hok Hs). cbn [bitmap_at]. intros j _ Hj. rewrite Hb, Hj. by destruct (_ && _).
  - split; (eapply has_free_same; [|eassumption]); [apply (Hsame KERNEL_POOL)|apply Hsame].
Qed.

(** The result of [palloc], shared by [palloc_correct] and the functions that call [palloc]. *)
Definition palloc_result (s : kernel) (pf : pool_flags) (V : virtual_addr) (cnt r : Z) (m1 m' : gmap Z Z)
    (pg' : paging) : Prop :=
  0 <= r /\ r + cnt <= space_bits V /\ free_run (ram (mach s)) (vaddr_bitmap V) r cnt /\
  (forall r', 0 <= r' < r -> ~ free_run (ram (mach s)) (vaddr_bitmap V) r' cnt) /\
  reserved V (ram (mach s)) m1 r cnt /\
  pages_mapped (mem s) V m1 m' (pg s) pg' r (Z.to_nat cnt) pf.

Section palloc.
  Context `{Env}.

Lemma palloc_ok s pf V cnt r0 :
  space_of pf s = Ret (V, s) -> mem_ok (mem s) V (ram (mach s)) (pg s) ->
  1 <= cnt < 3840 -> 0 <= r0 -> r0 + cnt <= space_bits V -> free_run (ram (mach s)) (vaddr_bitmap V) r0 cnt ->
  enough_frames (mem s) (ram (mach s)) pf (Z.to_nat cnt) ->
  exists r m1 m' pg', palloc pf cnt s = Ret (vpage V r, with_mem m' pg' s) /\
    palloc_result s pf V cnt r m1 m' pg'.
Proof.
  intros Hsp Hm Hc Hr0 Hle Hrun Hf.
  destruct (GetVirtualPage_ok s pf V cnt r0 Hsp Hm ltac:(lia) Hr0 Hle Hrun)
    as (r & m1 & Hget & Hr & Hfree & Hfirst & Hok1 & Hb1 & Hs1).
  destruct (reserved_ok _ V _ m1 _ r cnt pf _ Hm Hok1 (conj Hb1 Hs1) Hf) as [Hm1 Hf1].
  destruct (palloc_loop_ok V pf (vpage V r) (Z.to_nat cnt) (with_mem m1 (pg s) s) r) as (m' & pg' & Hloop & Hpms);
    [exact Hm1|lia|lia| |exact Hf1|lia|].
  { intros j Hj. cbn [with_mem mach set_mach ram set_ram pg set_pg].
    split; [rewrite Hb1; by replace ((r <=? j) && (j <? r + cnt)) with true by lia|].
    apply (mo_unmapped _ _ _ _ Hm); [lia|]. apply Hfree. lia. }
  destruct (vpage_facts _ _ _ _ r Hm ltac:(lia)) as (Hin & V1 & V2 & V3).
  exists r, m1, m', pg'. split; [|by split_and!; try done; try lia].
  unfold palloc. rewrite (bind_Ret _ _ s tt s) by (apply ASSERT_true; lia).
  rewrite (bind_Ret _ _ _ _ _ Hget). replace (vpage V r =? 0) with false by lia.
  rewrite Z2Nat.id, (u32_id (vpage V r)) in Hloop by lia. exact Hloop.
Qed.

(** [palloc]: when the space has a run of [cnt] free pages and the pools have frames for them and
    for the page tables they may need, it returns the first such run, marked as used; every page of
    it is accessible and mapped to a frame of its own that was free before; no other page of the
    space changes its mapping, and the invariant of the allocator - page tables, free frames and
    mapped frames are apart - holds again.  Nothing but the bitmaps and the new pages is written. *)
Theorem palloc_correct s pf V cnt r0 :
  space_of pf s = Ret (V, s) -> mem_ok (mem s) V (ram (mach s)) (pg s) ->
  1 <= cnt < 3840 -> 0 <= r0 -> r0 + cnt <= space_bits V -> free_run (ram (mach s)) (vaddr_bitmap V) r0 cnt ->
  enough_frames (mem s) (ram (mach s)) pf (Z.to_nat cnt) ->
  exists r m1 m' pg', palloc pf cnt s = Ret (vpage V r, with_mem m' pg' s) /\
    palloc_result s pf V cnt r m1 m' pg' /\ mem_ok (mem s) V m' pg'.
Proof.
  intros Hsp Hm Hc Hr0 Hle Hrun Hf.
  destruct (palloc_ok s pf V cnt r0 Hsp Hm Hc Hr0 Hle Hrun Hf) as (r & m1 & m' & pg' & Hrun' & Hres).
  exists r, m1, m', pg'. split_and!; try done. apply Hres.
Qed.

(** C33: running out of frames: [palloc] of one page, when the pool has no free frame left, does not
    return NULL as its code for that case says; the assertion of [BitmapScan] panics first, with the
    virtual page already marked as used. *)
Theorem palloc_exhausted s pf V r0 :
  space_of pf s = Ret (V, s) -> mem_ok (mem s) V (ram (mach s)) (pg s) ->
  0 <= r0 < space_bits V -> bit (ram (mach s)) (vaddr_bitmap V) r0 = false ->
  (forall r, 0 <= r < pool_bits (pool_of pf (mem s)) -> bit (ram (mach s)) (pool_bitmap (pool_of pf (mem s))) r = true) ->
  palloc pf 1 s = Panic "BitmapScan" 28.
Proof.
  intros Hsp Hm Hr0 Hb Hfull.
  destruct (GetVirtualPage_ok s pf V 1 r0 Hsp Hm ltac:(lia) ltac:(lia) ltac:(lia))
    as (r & m1 & Hget & Hr & Hfree & _ & Hok1 & Hb1 & Hs1).
  { intros j Hj. by replace j with r0 by lia. }
  destruct (vpage_facts _ _ _ _ r Hm ltac:(lia)) as (Hin & V1 & V2 & V3).
  unfold palloc. rewrite (bind_Ret _ _ s tt s) by done.
  rewrite (bind_Ret _ _ _ _ _ Hget). replace (vpage V r =? 0) with false by lia.
  change (S (Z.to_nat 1)) with 2%nat. cbn [iter]. apply bind_Panic. unfold palloc_body. cbn [Z.eqb].
  set (s1 := with_mem m1 (pg s) s). rewrite (bind_Ret _ _ s1 s1 s1) by done.
  apply bind_Panic. unfold on_mach, zoom, GetOnePhysicPage.
  rewrite (bind_Panic _ _ _ "BitmapScan" 28); [done|].
  apply BitmapScan_full.
  - pose proof (mo_bitmap _ _ _ _ Hm (Some pf)) as Hok. eapply bitmap_ok_keep; [exact Hok|exact Hok1|exact Hs1].
  - intros j Hj. cbn [s1 with_mem mach set_mach ram set_ram mem set_pg].
    rewrite (bit_keep _ _ _ _ _ Hs1); [by apply Hfull|]. intros Hc.
    by pose proof (mo_apart _ _ _ _ Hm (Some pf) None _ (bit_in_bitmap _ _ Hj) Hc).
Qed.

End palloc.

(** ** [kpalloc] and [upalloc] *)

Section pool_alloc.
  Context `{Env}.

Lemma space_of_locks pf s V l : space_of pf s = Ret (V, s) -> space_of pf (set_locks l s) = Ret (V, set_locks l s).
Proof.
  destruct pf; cbn.
  - intros [= ->]. done.
  - unfold space_of, bind, GetCurrentThreadPCB, get_pcb. cbn [pcbs set_locks esp].
    destruct (pcbs s !! _); [|done]. by intros [= ->].
Qed.

(** Memory set to zero inside pages of the space. *)
Lemma zero_pages ps V m pg a n : mem_ok ps V m pg -> vaddr_start V <= a ->
  a + Z.of_nat n <= vaddr_start V + PAGE_SIZE * space_bits V ->
  let m' := write_bytes m a (replicate n (u8 0)) in
  mem_ok ps V m' pg /\
  (forall k j, 0 <= j < nbits (bitmap_at ps V k) -> bit m' (bitmap_at ps V k) j = bit m (bitmap_at ps V k) j) /\
  forall x, a <= x < a + Z.of_nat n -> m' !! x = Some 0.
Proof.
  intros Hm H1 H2 m'.
  destruct (mem_ok_ram ps V m m' pg Hm) as [Hm' Hb'].
  { apply write_bytes_ok; [apply (mo_bitmap _ _ _ _ Hm None)|]. apply Forall_replicate, u8_range. }
  { intros x Hx. apply write_bytes_lookup_out. rewrite length_replicate. unfold in_space in Hx. lia. }
  split_and!; [done|done|]. intros x Hx.
  replace x with (a + Z.of_nat (Z.to_nat (x - a))) by lia. apply write_bytes_lookup_in.
  apply lookup_replicate_2. lia.
Qed.

Lemma pool_alloc_ok fuel s pf V cnt r0 :
  space_of pf s = Ret (V, s) -> mem_ok (mem s) V (ram (mach s)) (pg s) ->
  locks s !! pool_lock pf = Some free_lock -> cur s <> 0 ->
  1 <= cnt < 3840 -> 0 <= r0 -> r0 + cnt <= space_bits V -> free_run (ram (mach s)) (vaddr_bitmap V) r0 cnt ->
  enough_frames (mem s) (ram (mach s)) pf (Z.to_nat cnt) ->
  exists r m' pg', pool_alloc pf (S fuel) cnt s = Ret (vpage V r, with_mem m' pg' s) /\
    mem_ok (mem s) V m' pg' /\ 0 <= r <= r0 /\ free_run (ram (mach s)) (vaddr_bitmap V) r cnt /\
    (forall j, 0 <= j < space_bits V -> bit m' (vaddr_bitmap V) j =
       if (r <=? j) && (j <? r + cnt) then true else bit (ram (mach s)) (vaddr_bitmap V) j) /\
    (forall j, r <= j < r + cnt -> exists q, maps_frame (mem s) pg' (vpage V j) pf q /\
       bit (ram (mach s)) (pool_bitmap (pool_of pf (mem s))) q = false) /\
    (forall a, vpage V r <= a < vpage V r + PAGE_SIZE * cnt -> m' !! a = Some 0) /\
    (forall va, in_space V va -> ~ vpage V r <= va < vpage V r + PAGE_SIZE * cnt ->
       translate pg' va = translate (pg s) va) /\
    cr3 pg' = cr3 (pg s) /\
    same_outside (fun a => in_bitmaps pf (mem s) V a \/
      vpage V r <= a < vpage V r + PAGE_SIZE * cnt) (ram (mach s)) m' /\
    grown (mem s) V (pg s) pg' /\
    (forall j, enough_frames (mem s) (ram (mach s)) pf (Z.to_nat cnt + j) -> enough_frames (mem s) m' pf j).
Proof.
  intros Hsp Hm Hl Hcur Hc Hr0 Hle Hrun Hf.
  set (s1 := with_lock (pool_lock pf) (held_lock (cur s) 1) s).
  destruct (palloc_ok s1 pf V cnt r0 (space_of_locks _ _ _ _ Hsp) Hm Hc Hr0 Hle Hrun Hf)
    as (r & m1 & m2 & pg2 & Hp & R1 & R2 & R3 & R4 & [R5 R5'] & [Q1 Q2 Q3 Q4 Q5 Q6 Q7 Q8 Q9 Q10]).
  destruct (vpage_facts _ _ _ _ r Hm ltac:(lia)) as (Hin & V1 & V2 & V3).
  assert (r <= r0) as Hrr.
  { destruct (decide (r <= r0)); [done|]. exfalso. by apply (R4 r0); [lia|]. }
  destruct (mo_space _ _ _ _ Hm) as (S1 & S2 & S3). set (n := Z.to_nat (PAGE_SIZE * cnt)).
  assert (vpage V r = vaddr_start V + 4096 * r) as Ev by reflexivity.
  destruct (zero_pages (mem s) V m2 pg2 (vpage V r) n Q1) as (Hm3 & Hb3 & Hz); [lia|unfold n, PAGE_SIZE; lia|].
  set (m3 := write_bytes m2 (vpage V r) (replicate n (u8 0))) in *.
  exists r, m3, pg2. split_and!; try done; try lia.
  - unfold pool_alloc. rewrite (bind_Ret _ _ _ _ _ (lock_free_ok fuel _ s Hl Hcur)). fold s1.
    rewrite (bind_Ret _ _ _ _ _ Hp).
    pose proof (unlock_last_ok (pool_lock pf) (with_mem m2 pg2 s1) (with_lock_lookup _ _ _)) as Hu.
    rewrite (bind_Ret _ _ _ _ _ Hu).
    assert (with_lock (pool_lock pf) free_lock (with_mem m2 pg2 s1) = with_mem m2 pg2 s) as ->.
    { unfold s1. change (with_mem m2 pg2 (with_lock ?l ?k s)) with (with_lock l k (with_mem m2 pg2 s)).
      rewrite with_lock_twice. by apply with_lock_id. }
    replace (vpage V r =? 0) with false by lia. cbn [negb].
    rewrite (bind_Ret _ _ _ tt (with_mem m3 pg2 s)); [done|].
    assert (u32 (cnt * PAGE_SIZE) = Z.of_nat n) as -> by (unfold n, PAGE_SIZE; rewrite u32_id by lia; lia).
    rewrite (on_mach_ok _ (with_mem m2 pg2 s) tt (set_ram m3 (mach s))); [done|].
    unfold memset. rewrite (bind_Ret _ _ _ tt (mach (with_mem m2 pg2 s))) by (apply ASSERT_true, negb_eqb_true; lia).
    rewrite Nat2Z.id. rewrite memset_loop; [done|lia|unfold n, PAGE_SIZE in *; lia| |unfold n, PAGE_SIZE; lia].
    eapply readable_le; [exact Q7|lia|unfold n, PAGE_SIZE; lia].
  - intros j Hj. pose proof (Hb3 None j Hj) as E. cbn [bitmap_at] in E. rewrite E, Q5 by done. apply R5.
  - intros j Hj. destruct Q3 as (rs & L & _ & F & T).
    destruct (lookup_lt_is_Some_2 rs (Z.to_nat (j - r))) as [q Hq]; [lia|].
    exists q. destruct (vpage_facts _ _ _ _ j Hm ltac:(lia)) as (Hinj & W1 & W2 & W3).
    destruct (Forall_lookup_1 _ _ _ _ F Hq) as [Fq Fb].
    split; [|rewrite <- Fb; symmetry; exact (reserved_bits _ _ _ m1 (pg s) r cnt Hm (conj R5 R5') pf q Fq)].
    split; [lia|]. split; [exact Fq|]. change (2 ^ 12) with 4096. rewrite W3, Z.add_0_r.
    pose proof (T _ _ Hq) as E. replace (r + Z.of_nat (Z.to_nat (j - r))) with j in E by lia. exact E.
  - intros a Ha. apply Hz. unfold n, PAGE_SIZE in *. lia.
  - intros va Hva Hout. rewrite Q4; [done|done|]. intros Hi. apply Hout.
    unfold vpage, PAGE_SIZE in *. lia.
  - intros a Ha. unfold m3. rewrite write_bytes_lookup_out.
    2:{ rewrite length_replicate. unfold n, PAGE_SIZE in *. destruct (decide (vpage V r <= a < vpage V r + 4096 * cnt)) as [Hi|]; [|lia].
        by destruct Ha; right. }
    rewrite Q8; [apply R5'; intros Hi; apply Ha; left; by exists None|].
    intros [Hi|[Hi|Hi]]; apply Ha; [left; by exists (Some KERNEL_POOL)|left; exists (Some pf); by destruct pf|right].
    unfold vpage, PAGE_SIZE in *. lia.
  - intros j [HjK HjP].
    assert (enough_frames (mem s) m2 pf j) as [HK2 HP2].
    { apply Q10. split; (eapply has_free_same; [|eassumption]); intros b Hb.
      - exact (reserved_bits _ _ _ m1 (pg s) r cnt Hm (conj R5 R5') KERNEL_POOL b Hb).
      - exact (reserved_bits _ _ _ m1 (pg s) r cnt Hm (conj R5 R5') pf b Hb). }
    split; (eapply has_free_same; [|eassumption]); intros b Hb; [apply (Hb3 (Some KERNEL_POOL))|apply (Hb3 (Some pf))]; exact Hb.
Qed.

(** [kpalloc] and [upalloc], called while the pool's lock is free: they return the first run of
    [cnt] free pages, mapped to frames of the pool and filled with zeros, and the lock is free again;
    the pages are marked in the space's bitmap and nothing else of it changes; the contents of the
    frames in use and, where the tables exist, the page directory are kept; and the invariant of the
    allocator holds again. *)
Theorem pool_alloc_correct fuel s pf V cnt r0 :
  space_of pf s = Ret (V, s) -> mem_ok (mem s) V (ram (mach s)) (pg s) ->
  locks s !! pool_lock pf = Some free_lock -> cur s <> 0 ->
  1 <= cnt < 3840 -> 0 <= r0 -> r0 + cnt <= space_bits V -> free_run (ram (mach s)) (vaddr_bitmap V) r0 cnt ->
  enough_frames (mem s) (ram (mach s)) pf (Z.to_nat cnt) ->
  exists r m' pg', pool_alloc pf (S fuel) cnt s = Ret (vpage V r, with_mem m' pg' s) /\
    mem_ok (mem s) V m' pg' /\ 0 <= r <= r0 /\ free_run (ram (mach s)) (vaddr_bitmap V) r cnt /\
    (forall j, 0 <= j < space_bits V -> bit m' (vaddr_bitmap V) j =
       if (r <=? j) && (j <? r + cnt) then true else bit (ram (mach s)) (vaddr_bitmap V) j) /\
    (forall j, r <= j < r + cnt -> exists q, maps_frame (mem s) pg' (vpage V j) pf q /\
       bit (ram (mach s)) (pool_bitmap (pool_of pf (mem s))) q = false) /\
    (forall a, vpage V r <= a < vpage V r + PAGE_SIZE * cnt -> m' !! a = Some 0) /\
    (forall va, in_space V va -> ~ vpage V r <= va < vpage V r + PAGE_SIZE * cnt ->
       translate pg' va = translate (pg s) va) /\
    cr3 pg' = cr3 (pg s) /\
    same_outside (fun a => in_bitmaps pf (mem s) V a \/
      vpage V r <= a < vpage V r + PAGE_SIZE * cnt) (ram (mach s)) m' /\
    grown (mem s) V (pg s) pg' /\
    (forall j, enough_frames (mem s) (ram (mach s)) pf (Z.to_nat cnt + j) -> enough_frames (mem s) m' pf j).
Proof. apply pool_alloc_ok. Qed.

End pool_alloc.

(** ** Giving a page back *)

Record bit_cleared (m m' : gmap Z Z) (b : bitmap) (r : Z) : Prop := BitCleared {
  bc_bits : forall j, bit m' b j = if j =? r then false else bit m b j;
  bc_ok : bitmap_ok m' b;
  bc_same : same_outside (in_bitmap b) m m'
}.

(** [ReturnOnePhysicPage] clears the bit of the frame, but for the first frame of the user pool. *)
Lemma ReturnOnePhysicPage_ok s V pf r :
  mem_ok (mem s) V (ram (mach s)) (pg s) -> 0 <= r < pool_bits (pool_of pf (mem s)) ->
  (pf = USER_POOL -> r <> 0) ->
  exists m1, ReturnOnePhysicPage (frame (pool_of pf (mem s)) r) s = Ret (tt, with_mem m1 (pg s) s) /\
    bit_cleared (ram (mach s)) m1 (pool_bitmap (pool_of pf (mem s))) r.
Proof.
  intros Hm Hr Hu. pose proof (mo_bitmap _ _ _ _ Hm (Some pf)) as Hok. cbn [bitmap_at] in Hok.
  destruct (BitmapSetBit_ok (mach s) _ r 0 Hok) as (m1 & H1 & H2 & H3 & H4);
    [unfold pool_bits, nbits in *; lia|by left|].
  exists m1. split.
  2:{ constructor; [|done|].
      - intros j. rewrite H3. by destruct (j =? r).
      - intros a Ha. apply H4. intros ->. apply Ha. by apply bit_in_bitmap. }
  destruct (frame_facts _ _ _ _ pf r Hm Hr) as [Hf _]. pose proof (mo_order _ _ _ _ Hm) as Ho.
  destruct (mo_pool _ _ _ _ Hm pf) as (P0 & _ & _).
  assert (u32 (frame (pool_of pf (mem s)) r - physic_addr_start (pool_of pf (mem s))) / PAGE_SIZE = r) as E.
  { rewrite u32_id by (unfold frame, PAGE_SIZE in *; lia). unfold frame.
    replace (physic_addr_start (pool_of pf (mem s)) + PAGE_SIZE * r - physic_addr_start (pool_of pf (mem s)))
      with (r * PAGE_SIZE) by lia. apply Z.div_mul. done. }
  assert (on_mach (BitmapSetBit (pool_bitmap (pool_of pf (mem s))) r 0) s = Ret (tt, with_mem m1 (pg s) s)) as Hrun.
  { rewrite (on_mach_ok _ _ _ _ H1). unfold with_mem. by rewrite set_pg_id. }
  unfold ReturnOnePhysicPage. rewrite (bind_Ret _ _ s s s) by done. destruct pf; cbn [pool_of] in *.
  - replace (_ >? _) with false by (unfold frame, PAGE_SIZE in *; lia). rewrite E. exact Hrun.
  - specialize (Hu eq_refl). replace (_ >? _) with true by (unfold frame, PAGE_SIZE in *; lia).
    rewrite E. exact Hrun.
Qed.

(** The first frame of the user pool is taken for one of the kernel pool (the test is [>], where
    [pfree] tests [>=]).  With the bitmaps laid out as [VmemPoolInit] does, for a kernel pool of [n]
    frames, bit [n] of the kernel bitmap is bit [n mod 8] of the user bitmap: that bit is cleared, so
    the frame stays in use unless [n] is a multiple of 8. *)
Theorem ReturnOnePhysicPage_first_user s n :
  let K := kernel_memory_pool (mem s) in
  let U := user_memory_pool (mem s) in
  bitmap_ok (ram (mach s)) (pool_bitmap K) -> 0 <= n -> 0 <= physic_addr_start K ->
  bitmap_bytes_len (pool_bitmap K) = n / 8 -> bits (pool_bitmap U) = bits (pool_bitmap K) + n / 8 ->
  physic_addr_start U = physic_addr_start K + n * PAGE_SIZE -> physic_addr_start U < 2 ^ 32 ->
  exists m', ReturnOnePhysicPage (frame U 0) s = Ret (tt, with_mem m' (pg s) s) /\
    (forall j, 0 <= j -> bit m' (pool_bitmap U) j =
       if j =? n mod 8 then false else bit (ram (mach s)) (pool_bitmap U) j) /\
    (n mod 8 <> 0 -> bit m' (pool_bitmap U) 0 = bit (ram (mach s)) (pool_bitmap U) 0).
Proof.
  intros K U Hok Hn HK Hlen Hbits Hstart Hlim. destruct (bit_split n) as [Hsn Hon].
  destruct (BitmapSetBit_ok (mach s) _ n 0 Hok) as (m' & H1 & _ & H3 & _);
    [unfold nbits; lia|by left|].
  assert (forall j, 0 <= j -> bit m' (pool_bitmap U) j =
    if j =? n mod 8 then false else bit (ram (mach s)) (pool_bitmap U) j) as Hbit.
  { intros j Hj. rewrite !(bit_shift _ (pool_bitmap U) (pool_bitmap K) (n / 8)) by done.
    rewrite H3. by replace (j + 8 * (n / 8) =? n) with (j =? n mod 8) by lia. }
  exists m'. split; [|split; [exact Hbit|]].
  - unfold ReturnOnePhysicPage. rewrite (bind_Ret _ _ s s s) by done. fold K U.
    replace (frame U 0) with (physic_addr_start U) by (unfold frame; lia).
    replace (_ >? _) with false by lia. rewrite Hstart.
    replace (u32 (physic_addr_start K + n * PAGE_SIZE - physic_addr_start K) / PAGE_SIZE) with n.
    + rewrite (on_mach_ok _ _ _ _ H1). unfold with_mem. by rewrite set_pg_id.
    + rewrite u32_id by (unfold PAGE_SIZE in *; lia). rewrite Z.add_simpl_l. symmetry. by apply Z.div_mul.
  - intros Hne. rewrite Hbit by lia. by replace (0 =? n mod 8) with false by lia.
Qed.

Lemma del_bytes_out m p n a : (a < p \/ p + Z.of_nat n <= a) -> del_bytes m p n !! a = m !! a.
Proof.
  revert m p. induction n as [|n IH]; intros m p Ha; [done|]. cbn [del_bytes].
  rewrite IH by lia. apply lookup_delete_ne. lia.
Qed.

Lemma del_bytes_ok m p n : ram_ok m -> ram_ok (del_bytes m p n).
Proof.
  revert m p. induction n as [|n IH]; intros m p Hm; [done|]. cbn [del_bytes]. apply IH.
  by apply map_Forall_delete.
Qed.

Section unmap_page.
  Context (ps : pools) (V : virtual_addr) (m m1 : gmap Z Z) (pg : paging) (i : Z) (pf : pool_flags) (r t arg : Z).
  #[local] Abbreviation v := (vpage V i).
  #[local] Abbreviation pg1 := (unmapped_paging pg v t arg).
  #[local] Abbreviation dir := (frame_of (cr3 pg)).
  Hypothesis Hm : mem_ok ps V m pg.
  Hypothesis Hi : 0 <= i < space_bits V.
  Hypothesis Hr : 0 <= r < pool_bits (pool_of pf ps).
  Hypothesis Htr : translate pg v = Some (frame (pool_of pf ps) r).
  Hypothesis Ht : table_of (phys pg) dir v = Some t.
  Hypothesis Hclr : bit_cleared m m1 (pool_bitmap (pool_of pf ps)) r.

Lemma v_low : 0 <= v < 1023 * 2 ^ 22.
Proof. destruct (vpage_facts ps V _ _ i Hm Hi) as (_ & ? & ? & _). lia. Qed.

Lemma v_maps : maps_frame ps pg v pf r.
Proof.
  destruct (vpage_facts ps V _ _ i Hm Hi) as (_ & _ & _ & E).
  split_and!; [apply v_low|apply v_low|lia|lia|]. change (2 ^ 12) with 4096. by rewrite E, Z.add_0_r.
Qed.

Lemma unmap_inv va pa : 0 <= va < 1023 * 2 ^ 22 -> translate pg1 va = Some pa ->
  translate pg va = Some pa /\ ~ same_entry pg va v.
Proof.
  intros Hva. rewrite unmapped_translate by (done || apply Hm || apply v_low).
  case_bool_decide as Hc; [done|]. intros E. split; [done|]. intros [E1 E2]. apply Hc. split; [|done]. congruence.
Qed.

Lemma unmap_table va : 0 <= va < 2 ^ 32 -> table_of (phys pg1) dir va = table_of (phys pg) dir va.
Proof.
  intros Hva. destruct (table_of_ok _ _ _ _ (mo_dir _ _ _ _ Hm) v_low Ht) as (Hne & _ & Htp & _).
  apply setw_table_of; try done; [apply (mo_dir _ _ _ _ Hm)|apply pte_idx_range].
Qed.

Lemma unmap_fresh x : frame_fresh (phys pg) dir x -> frame_fresh (phys pg1) dir x.
Proof.
  intros (F1 & F2 & F3 & F4 & F5 & F6).
  destruct (table_of_ok _ _ _ _ (mo_dir _ _ _ _ Hm) v_low Ht) as (Hne & _ & Htp & _).
  split_and!; try done; [by apply setw_readable|].
  intros j e Hj. cbn [unmapped_paging phys]. rewrite pde_at_set_pte; [by apply F6|apply (mo_dir _ _ _ _ Hm)|done|done|apply pte_idx_range|lia].
Qed.

Lemma unmap_maps va pf' r' : maps_frame ps pg1 va pf' r' -> maps_frame ps pg va pf' r' /\ ~ same_entry pg va v.
Proof. intros (Hva & Hr' & E). destruct (unmap_inv _ _ Hva E). done. Qed.

Lemma unmap_elsewhere va : in_space V va -> page_of va <> v -> translate pg1 va = translate pg va.
Proof.
  intros Hva Hne. assert (0 <= va < 1023 * 2 ^ 22) as Hlow.
  { destruct (mo_space _ _ _ _ Hm) as (? & ? & ?). unfold in_space in Hva. lia. }
  rewrite unmapped_translate by (done || apply Hm || apply v_low). rewrite bool_decide_false; [done|].
  intros [E1 E2]. destruct (vpage_facts ps V _ _ i Hm Hi) as (Hin & _ & _ & E0).
  pose proof (mo_tables _ _ _ _ Hm va v t Hva Hin E1 Ht) as E3. apply Hne. by apply page_of_split.
Qed.

Lemma unmap_here : translate pg1 v = None.
Proof.
  rewrite unmapped_translate by (done || apply Hm || apply v_low). by rewrite bool_decide_true.
Qed.

Lemma cleared_bits pf' r' : 0 <= r' < pool_bits (pool_of pf' ps) ->
  bit m1 (pool_bitmap (pool_of pf' ps)) r' =
    if bool_decide (pf' = pf /\ r' = r) then false else bit m (pool_bitmap (pool_of pf' ps)) r'.
Proof.
  intros Hr'. destruct Hclr as [Hb _ Hs]. case_bool_decide as Hc.
  - destruct Hc as [-> ->]. by rewrite Hb, Z.eqb_refl.
  - destruct (decide (pf' = pf)) as [->|Hne].
    + rewrite Hb. replace (r' =? r) with false; [done|]. symmetry. apply Z.eqb_neq. naive_solver.
    + eapply bit_keep; [exact Hs|]. intros Hin. apply Hne.
      pose proof (mo_apart _ _ _ _ Hm (Some pf') (Some pf) _ (bit_in_bitmap _ _ Hr') Hin). congruence.
Qed.

Lemma cleared_space j : 0 <= j < space_bits V -> bit m1 (vaddr_bitmap V) j = bit m (vaddr_bitmap V) j.
Proof.
  intros Hj. destruct Hclr as [_ _ Hs]. eapply bit_keep; [exact Hs|]. intros Hin.
  by pose proof (mo_apart _ _ _ _ Hm None (Some pf) _ (bit_in_bitmap _ _ Hj) Hin).
Qed.

Lemma mem_ok_unmap : mem_ok ps V m1 pg1.
Proof.
  pose proof Hm as [H1 H2 H3 H4 H5 H6 H7 H8 H9 H10 H11 H12 H13]. constructor; try done.
  - apply unmapped_pg_ok; [done|apply v_low|done].
  - intros k. destruct Hclr as [_ Hok Hs]. by eapply bitmap_ok_keep.
  - intros pf' r' Hr' Hb. apply unmap_fresh. rewrite cleared_bits in Hb by done. case_bool_decide as Hc.
    + destruct Hc as [-> ->]. eapply H12, v_maps. apply (vpage_facts ps V _ _ i Hm Hi).
    + by apply H8.
  - intros pf' r' va H. destruct (unmap_maps _ _ _ H) as [Hmp Hne]. rewrite cleared_bits by apply Hmp.
    case_bool_decide as Hc; [|by eapply H9]. destruct Hc as [-> ->]. exfalso. apply Hne.
    eapply H13; [exact Hmp|apply v_maps].
  - intros j Hj Hb. rewrite cleared_space in Hb by done. destruct (translate pg1 (vpage V j)) eqn:E; [|done].
    destruct (vpage_facts ps V _ _ j Hm Hj) as (_ & ? & ? & _).
    destruct (unmap_inv (vpage V j) _ ltac:(lia) E) as [E' _]. by rewrite H10 in E'.
  - intros va va' t' Hva Hva' E1 E2.
    assert (forall a, in_space V a -> 0 <= a < 2 ^ 32) as L by (intros a Ha; unfold in_space in Ha; lia).
    cbn [cr3 unmapped_paging] in E1, E2. rewrite unmap_table in E1, E2 by by apply L. by eapply H11.
  - intros pf' r' va Hva H. apply unmap_fresh. eapply H12; [exact Hva|]. by destruct (unmap_maps _ _ _ H).
  - intros pf' r' va va' H H'. destruct (unmap_maps _ _ _ H) as [Hmp _], (unmap_maps _ _ _ H') as [Hmp' _].
    destruct (H13 _ _ _ _ Hmp Hmp') as [E1 E2]. split; [|done].
    assert (forall a, 0 <= a < 1023 * 2 ^ 22 -> 0 <= a < 2 ^ 32) as L by lia.
    cbn [cr3 unmapped_paging]. rewrite !unmap_table; [done|apply L, Hmp'|apply L, Hmp].
Qed.

End unmap_page.

(** ** [pfree] *)

(** What giving back the pages from page [i] on, mapped to the frames [rs] of pool [pf], does before
    [ReturnVirtualPage]. *)
Record pages_freed (ps : pools) (V : virtual_addr) (m m' : gmap Z Z) (pg pg' : paging) (i : Z)
    (pf : pool_flags) (rs : list Z) : Prop := PagesFreed {
  pf_ok : mem_ok ps V m' pg';
  pf_cr3 : cr3 pg' = cr3 pg;
  pf_gone : forall n, (n < length rs)%nat -> translate pg' (vpage V (i + Z.of_nat n)) = None;
  pf_elsewhere : forall va, in_space V va -> ~ vpage V i <= va < vpage V (i + Z.of_nat (length rs)) ->
    translate pg' va = translate pg va;
  pf_space : forall j, 0 <= j < space_bits V -> bit m' (vaddr_bitmap V) j = bit m (vaddr_bitmap V) j;
  pf_bits : forall pf' j, 0 <= j < pool_bits (pool_of pf' ps) ->
    bit m' (pool_bitmap (pool_of pf' ps)) j =
      if bool_decide (pf' = pf /\ j ∈ rs) then false else bit m (pool_bitmap (pool_of pf' ps)) j;
  pf_same : same_outside (fun a => in_bitmap (pool_bitmap (pool_of pf ps)) a \/
    vpage V i <= a < vpage V (i + Z.of_nat (length rs))) m m'
}.

Section pfree.
  Context `{Env}.

Lemma unmap_page_run s v t m1 :
  pg_ok (pg s) -> 0 <= v < 1023 * 2 ^ 22 -> v mod 4096 = 0 ->
  table_of (phys (pg s)) (frame_of (cr3 (pg s))) v = Some t ->
  unmap_page v (with_mem m1 (pg s) s) =
    Ret (tt, with_mem (del_bytes m1 v page_n)
      (unmapped_paging (pg s) v t (arg_slot (with_mem m1 (pg s) s))) s).
Proof.
  intros Hok Hv Hp Ht. set (s1 := with_mem m1 (pg s) s). unfold unmap_page.
  rewrite (bind_Ret _ _ s1 s1 s1) by done.
  rewrite (bind_Ret _ _ _ _ _ (on_pg_ok _ s1 _ _ (PageUnmapping_run (pg s) v t (arg_slot s1) Hok Hv Ht))).
  unfold lose_page, modify, page_of. change PAGE_SIZE with 4096. by rewrite Hp, Z.sub_0_r.
Qed.

(** One page of the loop. *)
Lemma pfree_step s V pf i r test line k n :
  mem_ok (mem s) V (ram (mach s)) (pg s) -> 0 <= i < space_bits V ->
  0 <= r < pool_bits (pool_of pf (mem s)) -> (pf = USER_POOL -> r <> 0) ->
  translate (pg s) (vpage V i) = Some (frame (pool_of pf (mem s)) r) ->
  test (frame (pool_of pf (mem s)) r) = true -> 0 <= n < k -> k < 2 ^ 32 ->
  exists m1 pg1, pfree_body test line k (u32 (vpage V i - PAGE_SIZE), n) s =
      Ret (inl (vpage V i, n + 1), with_mem m1 pg1 s) /\
    pages_freed (mem s) V (ram (mach s)) m1 (pg s) pg1 i pf [r].
Proof.
  intros Hm Hi Hr Hu Htr Htest Hn Hk.
  destruct (vpage_facts _ _ _ _ i Hm Hi) as (Hin & V1 & V2 & V3).
  assert (exists t, table_of (phys (pg s)) (frame_of (cr3 (pg s))) (vpage V i) = Some t) as [t Ht].
  { unfold translate, walk in Htr. destruct (table_of _ _ (vpage V i)) as [t|]; [eauto|done]. }
  destruct (ReturnOnePhysicPage_ok s V pf r Hm Hr Hu) as (m1 & Hret & Hclr).
  set (s1 := with_mem m1 (pg s) s) in *. set (arg := arg_slot s1).
  pose proof (mem_ok_unmap _ V _ m1 _ i pf r t arg Hm Hi Hr Htr Ht Hclr) as Hm1.
  set (m2 := del_bytes m1 (vpage V i) page_n). set (pg1 := unmapped_paging (pg s) (vpage V i) t arg) in *.
  destruct (mem_ok_ram _ V m1 m2 pg1 Hm1) as [Hm2 Hb2].
  { apply del_bytes_ok, (bc_ok _ _ _ _ Hclr). }
  { intros a Ha. apply del_bytes_out. rewrite page_n_Z. unfold in_space, vpage, PAGE_SIZE in *. lia. }
  exists m2, pg1. split.
  - unfold pfree_body. replace (n <? k) with true by lia.
    assert (u32 (u32 (vpage V i - PAGE_SIZE) + PAGE_SIZE) = vpage V i) as ->.
    { unfold u32. rewrite Zplus_mod_idemp_l. replace (vpage V i - PAGE_SIZE + PAGE_SIZE) with (vpage V i) by lia.
      apply Z.mod_small. lia. }
    pose proof (VirtualAddrToPhysicAddr_ok (pg s) (vpage V i) _ (mo_dir _ _ _ _ Hm) ltac:(lia) Htr) as Hphys.
    rewrite (bind_Ret _ _ s (frame (pool_of pf (mem s)) r) s) by by apply on_pg_get.
    rewrite (bind_Ret _ _ s tt s) by by apply ASSERT_true.
    rewrite (bind_Ret _ _ _ _ _ Hret). fold s1.
    pose proof (unmap_page_run s (vpage V i) t m1 (mo_dir _ _ _ _ Hm) ltac:(lia) V3 Ht) as Hun.
    fold s1 arg pg1 m2 in Hun. rewrite (bind_Ret _ _ _ _ _ Hun). unfold ret. by rewrite u32_id by lia.
  - constructor; try done.
    + intros [|x] Hx; cbn in Hx; [|lia]. rewrite Z.add_0_r.
      apply (unmap_here _ _ _ _ _ _ _ _ _ Hm Hi Hr Ht).
    + intros va Hva Hout. apply (unmap_elsewhere _ _ _ _ _ _ _ _ _ Hm Hi Hr Ht va Hva).
      intros E. apply Hout. cbn [length]. unfold page_of, vpage, PAGE_SIZE in *. pose proof (Z.mod_pos_bound va 4096). lia.
    + intros j Hj. pose proof (Hb2 None j Hj) as E. cbn [bitmap_at] in E. rewrite E.
      apply (cleared_space _ _ _ _ _ _ _ Hm Hclr j Hj).
    + intros pf' j Hj. pose proof (Hb2 (Some pf') j Hj) as E. cbn [bitmap_at] in E. rewrite E.
      rewrite (cleared_bits _ _ _ _ _ _ _ _ Hm Hi Hr Hclr pf' j Hj).
      rewrite (bool_decide_ext (pf' = pf /\ j ∈ [r]) (pf' = pf /\ j = r)); [done|]. by rewrite list_elem_of_singleton.
    + intros a Ha. unfold m2. rewrite del_bytes_out.
      * apply (bc_same _ _ _ _ Hclr). intros Hc. apply Ha. by left.
      * rewrite page_n_Z. cbn [length] in Ha. unfold vpage, PAGE_SIZE in *. lia.
Qed.

Lemma pages_freed_nil ps V m pg i pf : mem_ok ps V m pg -> pages_freed ps V m m pg pg i pf [].
Proof.
  intros Hm. constructor; try done.
  - intros n Hn. cbn in Hn. lia.
  - intros pf' j Hj. rewrite bool_decide_false; [done|]. intros [_ Hin]. by apply elem_of_nil in Hin.
Qed.

Lemma pages_freed_cons ps V m m1 m2 pg pg1 pg2 i pf r rs :
  mem_ok ps V m pg -> 0 <= i -> i + Z.of_nat (S (length rs)) <= space_bits V ->
  pages_freed ps V m m1 pg pg1 i pf [r] -> pages_freed ps V m1 m2 pg1 pg2 (i + 1) pf rs ->
  pages_freed ps V m m2 pg pg2 i pf (r :: rs).
Proof.
  intros Hm Hi Hle [A1 A2 A3 A4 A5 A6 A7] [B1 B2 B3 B4 B5 B6 B7].
  assert (forall j k, 0 <= j -> j < k -> k <= space_bits V ->
    vpage V j + 4096 <= vpage V k) as Vlt by (intros j k _ Hjk _; unfold vpage, PAGE_SIZE; lia).
  constructor.
  - done.
  - congruence.
  - intros [|n] Hn; cbn [length] in Hn.
    + rewrite Z.add_0_r. destruct (vpage_facts _ _ _ _ i Hm ltac:(lia)) as (Hin & _ & _ & _).
      rewrite B4; [pose proof (A3 0%nat) as E; rewrite Z.add_0_r in E; apply E; cbn; lia|done|].
      pose proof (Vlt i (i + 1)). lia.
    + replace (i + Z.of_nat (S n)) with (i + 1 + Z.of_nat n) by lia. apply B3. lia.
  - intros va Hva Hout. cbn [length] in Hout. rewrite B4; [apply A4; [done|]|done|].
    + cbn [length]. intros E. apply Hout. unfold vpage, PAGE_SIZE in *. lia.
    + intros E. apply Hout. unfold vpage, PAGE_SIZE in *. lia.
  - intros j Hj. by rewrite B5, A5.
  - intros pf' j Hj. rewrite B6, A6 by done. repeat case_bool_decide; try done; exfalso; set_solver.
  - intros a Ha. rewrite B7, A7; [done| |]; intros [Hc|Hc]; apply Ha;
      first [by left|right; cbn [length] in *; unfold vpage, PAGE_SIZE in *; lia].
Qed.

(** The loop. *)
Lemma pfree_loop V pf test line k rs : forall s i,
  mem_ok (mem s) V (ram (mach s)) (pg s) -> 0 <= i -> i + Z.of_nat (length rs) <= space_bits V ->
  (forall n r, rs !! n = Some r -> 0 <= r < pool_bits (pool_of pf (mem s)) /\ (pf = USER_POOL -> r <> 0) /\
     translate (pg s) (vpage V (i + Z.of_nat n)) = Some (frame (pool_of pf (mem s)) r) /\
     test (frame (pool_of pf (mem s)) r) = true) ->
  Z.of_nat (length rs) <= k < 2 ^ 32 ->
  exists m' pg', iter (S (length rs)) (pfree_body test line k) (u32 (vpage V i - PAGE_SIZE), k - Z.of_nat (length rs)) s =
      Ret (tt, with_mem m' pg' s) /\
    pages_freed (mem s) V (ram (mach s)) m' (pg s) pg' i pf rs.
Proof.
  induction rs as [|r rs IH]; intros s i Hm Hi Hle Hrs Hk.
  - exists (ram (mach s)), (pg s). rewrite with_mem_id. split; [|by apply pages_freed_nil].
    cbn [length iter]. unfold pfree_body. by replace (k - Z.of_nat 0 <? k) with false by lia.
  - cbn [length] in Hle, Hk. destruct (Hrs 0%nat r eq_refl) as (Hr & Hu & Htr & Htest).
    rewrite Z.add_0_r in Htr.
    destruct (pfree_step s V pf i r test line k (k - Z.of_nat (S (length rs))) Hm ltac:(lia) Hr Hu Htr Htest)
      as (m1 & pg1 & Hrun & Hfr); [lia|lia|].
    destruct (IH (with_mem m1 pg1 s) (i + 1)) as (m2 & pg2 & Hrun2 & Hfr2).
    + apply (pf_ok _ _ _ _ _ _ _ _ _ Hfr).
    + lia.
    + lia.
    + intros n q Hq. destruct (Hrs (S n) q Hq) as (Hq1 & Hq2 & Hq3 & Hq4).
      split; [exact Hq1|]. split; [exact Hq2|]. split; [|exact Hq4].
      replace (i + 1 + Z.of_nat n) with (i + Z.of_nat (S n)) by lia. etransitivity; [|exact Hq3].
      cbn [with_mem pg set_mach set_pg]. pose proof (lookup_lt_Some _ _ _ Hq) as Hn. 
      destruct (vpage_facts _ _ _ _ (i + Z.of_nat (S n)) Hm) as (Hin & _ & _ & _); [lia|].
      apply (pf_elsewhere _ _ _ _ _ _ _ _ _ Hfr); [done|]. cbn [length]. unfold vpage, PAGE_SIZE. lia.
    + lia.
    + exists m2, pg2. split.
      2:{ eapply pages_freed_cons; [exact Hm|lia|lia|exact Hfr|exact Hfr2]. }
      cbn [length]. rewrite (iter_S _ _ _ _ _ _ Hrun). cbn [with_mem mem set_mach set_pg] in *.
      destruct (vpage_facts _ _ _ _ i Hm ltac:(lia)) as (_ & V1 & V2 & _).
      replace (vpage V i) with (u32 (vpage V (i + 1) - PAGE_SIZE)).
      * replace (k - Z.of_nat (S (length rs)) + 1) with (k - Z.of_nat (length rs)) by lia. exact Hrun2.
      * unfold vpage, PAGE_SIZE in *. rewrite u32_id by lia. lia.
Qed.

(** Clearing the bits of unmapped pages keeps the invariant. *)
Lemma mem_ok_release ps V m m' pg r cnt : mem_ok ps V m pg -> bitmap_ok m' (vaddr_bitmap V) ->
  (forall j, bit m' (vaddr_bitmap V) j = if (r <=? j) && (j <? r + cnt) then false else bit m (vaddr_bitmap V) j) ->
  same_outside (in_bitmap (vaddr_bitmap V)) m m' ->
  (forall j, r <= j < r + cnt -> translate pg (vpage V j) = None) ->
  mem_ok ps V m' pg /\
  forall pf j, 0 <= j < pool_bits (pool_of pf ps) -> bit m' (pool_bitmap (pool_of pf ps)) j = bit m (pool_bitmap (pool_of pf ps)) j.
Proof.
  intros Hm Hok Hb Hs Hun.
  assert (forall pf j, 0 <= j < pool_bits (pool_of pf ps) ->
    bit m' (pool_bitmap (pool_of pf ps)) j = bit m (pool_bitmap (pool_of pf ps)) j) as Hpool.
  { intros pf j Hj. eapply bit_keep; [exact Hs|]. intros Hin.
    by pose proof (mo_apart _ _ _ _ Hm (Some pf) None _ (bit_in_bitmap _ _ Hj) Hin). }
  split; [|done]. destruct Hm as [H1 H2 H3 H4 H5 H6 H7 H8 H9 H10 H11 H12 H13]. constructor; try done.
  - intros k. by eapply bitmap_ok_keep.
  - intros pf q Hq Hf. apply H8; [done|]. by rewrite <- Hpool.
  - intros pf q va Hmp. rewrite Hpool by apply Hmp. by eapply H9.
  - intros j Hj Hf. rewrite Hb in Hf. destruct ((r <=? j) && (j <? r + cnt)) eqn:E; [apply Hun; lia|].
    by apply H10.
Qed.

Lemma space_of_mem pf s V m p : space_of pf s = Ret (V, s) -> space_of pf (with_mem m p s) = Ret (V, with_mem m p s).
Proof.
  destruct pf; cbn.
  - intros [= ->]. done.
  - unfold space_of, bind, GetCurrentThreadPCB, get_pcb. cbn [pcbs with_mem set_mach set_pg esp].
    destruct (pcbs s !! _); [|done]. by intros [= ->].
Qed.

(** The pages of [rs] given back, and their bits in the bitmap of the space cleared. *)
Definition pfree_result (s : kernel) (V : virtual_addr) (r : Z) (pf : pool_flags) (rs : list Z)
    (m' : gmap Z Z) (pg' : paging) : Prop :=
  mem_ok (mem s) V m' pg' /\
  (forall j, 0 <= j < space_bits V -> bit m' (vaddr_bitmap V) j =
     if (r <=? j) && (j <? r + Z.of_nat (length rs)) then false else bit (ram (mach s)) (vaddr_bitmap V) j) /\
  (forall pf' j, 0 <= j < pool_bits (pool_of pf' (mem s)) -> bit m' (pool_bitmap (pool_of pf' (mem s))) j =
     if bool_decide (pf' = pf /\ j ∈ rs) then false else bit (ram (mach s)) (pool_bitmap (pool_of pf' (mem s))) j) /\
  (forall n, (n < length rs)%nat -> translate pg' (vpage V (r + Z.of_nat n)) = None) /\
  (forall va, in_space V va -> ~ vpage V r <= va < vpage V (r + Z.of_nat (length rs)) ->
     translate pg' va = translate (pg s) va) /\
  same_outside (fun a => in_bitmap (pool_bitmap (pool_of pf (mem s))) a \/ in_bitmap (vaddr_bitmap V) a \/
    vpage V r <= a < vpage V (r + Z.of_nat (length rs))) (ram (mach s)) m'.

Lemma pfree_ok s sp V pf r rs :
  space_of sp s = Ret (V, s) -> mem_ok (mem s) V (ram (mach s)) (pg s) ->
  0 <= r -> r + Z.of_nat (length rs) <= space_bits V -> rs <> [] ->
  (forall n q, rs !! n = Some q -> 0 <= q < pool_bits (pool_of pf (mem s)) /\ (pf = USER_POOL -> q <> 0) /\
     translate (pg s) (vpage V (r + Z.of_nat n)) = Some (frame (pool_of pf (mem s)) q)) ->
  (forall q, rs !! 0%nat = Some q -> 0x102000 < frame (pool_of pf (mem s)) q) ->
  exists m' pg', pfree sp (vpage V r) (Z.of_nat (length rs)) s = Ret (tt, with_mem m' pg' s) /\
    pfree_result s V r pf rs m' pg'.
Proof.
  intros Hsp Hm Hr Hle Hne Hrs Hlow. set (k := Z.of_nat (length rs)).
  assert (exists q0, rs !! 0%nat = Some q0 /\ 0 < k) as (q0 & H0 & Hk).
  { unfold k. destruct rs as [|q0 rs0]; [done|]. exists q0. split; [done|cbn [length]; lia]. }
  destruct (Hrs 0%nat q0 H0) as (Hq0 & Hu0 & Ht0). rewrite Z.add_0_r in Ht0.
  destruct (vpage_facts _ _ _ _ r Hm ltac:(lia)) as (Hin & V1 & V2 & V3).
  destruct (frame_facts _ _ _ _ pf q0 Hm Hq0) as (F1 & F2). specialize (Hlow q0 H0).
  pose proof (len_bounds (mach s) _ (mo_bitmap _ _ _ _ Hm None)) as Hlen. cbn [bitmap_at] in Hlen.
  assert (k < 2 ^ 31) as Hk31 by (unfold space_bits, nbits in Hle; lia).
  pose proof (VirtualAddrToPhysicAddr_ok (pg s) (vpage V r) _ (mo_dir _ _ _ _ Hm) ltac:(lia) Ht0) as Hphys.
  pose proof (mo_order _ _ _ _ Hm) as Ho. set (us := physic_addr_start (user_memory_pool (mem s))).
  set (f0 := frame (pool_of pf (mem s)) q0) in *.
  (* the loop that runs *)
  assert (forall q, 0 <= q < pool_bits (pool_of pf (mem s)) ->
    (frame (pool_of pf (mem s)) q >=? us) = bool_decide (pf = USER_POOL)) as Hside.
  { intros q Hq. unfold us, frame, PAGE_SIZE in *. destruct pf; cbn [pool_of] in *.
    - rewrite bool_decide_false by done. lia.
    - rewrite bool_decide_true by done. lia. }
  pose (test := if f0 >=? us then (fun p => p >=? us) else (fun p => p <? us)).
  pose (line := if f0 >=? us then 286 else 300).
  destruct (pfree_loop V pf test line k rs s r Hm Hr Hle) as (m1 & pg1 & Hrun & Hfr).
  { intros n q Hq. destruct (Hrs n q Hq) as (Hq1 & Hq2 & Hq3). split_and!; try done; try lia.
    unfold test. unfold f0. rewrite (Hside q0 Hq0). pose proof (Hside q Hq1) as E.
    destruct (bool_decide (pf = USER_POOL)); [done|lia]. }
  { unfold k. lia. }
  pose proof Hfr as [A1 A2 A3 A4 A5 A6 A7].
  destruct (set_bits_ok (set_ram m1 (mach s)) (vaddr_bitmap V) r k 0 (mo_bitmap _ _ _ _ A1 None))
    as (m2 & Hset & Hok2 & Hb2 & Hs2); [lia|lia|unfold space_bits in Hle; lia|by left|]. cbn [ram set_ram] in Hb2, Hs2.
  destruct (mem_ok_release (mem s) V m1 m2 pg1 r k A1 Hok2 Hb2 Hs2) as [Hm2 Hpool2].
  { intros j Hj. pose proof (A3 (Z.to_nat (j - r)) ltac:(lia)) as E.
    replace (r + Z.of_nat (Z.to_nat (j - r))) with j in E by lia. exact E. }
  exists m2, pg1. split.
  2:{ split_and!; try done.
      - intros j Hj. rewrite Hb2. fold k. by rewrite A5.
      - intros pf' j Hj. by rewrite Hpool2, A6.
      - intros a Ha. rewrite Hs2, A7; [done| |]; intros Hc; apply Ha; tauto. }
  unfold pfree. rewrite (bind_Ret _ _ s tt s).
  2:{ apply ASSERT_true. change PAGE_SIZE with 4096. rewrite V3. lia. }
  rewrite (bind_Ret _ _ s f0 s) by by apply on_pg_get.
  rewrite (bind_Ret _ _ s tt s).
  2:{ apply ASSERT_true. change PAGE_SIZE with 4096. rewrite F2. lia. }
  rewrite (bind_Ret _ _ s s s) by done. fold us.
  rewrite (bind_Ret _ _ _ tt (with_mem m1 pg1 s)).
  - unfold ReturnVirtualPage. rewrite (bind_Ret _ _ _ _ _ (space_of_mem _ _ _ m1 pg1 Hsp)).
    assert (u32 (vpage V r - vaddr_start V) / PAGE_SIZE = r) as ->.
    { destruct (mo_space _ _ _ _ Hm) as (S1 & _ & _). unfold vpage. replace (vaddr_start V + PAGE_SIZE * r - vaddr_start V) with (r * PAGE_SIZE) by lia.
      rewrite u32_id by (unfold vpage, PAGE_SIZE in *; lia). apply Z.div_mul. done. }
    by rewrite (on_mach_ok _ (with_mem m1 pg1 s) _ _ Hset).
  - rewrite Z.sub_diag in Hrun. fold k in Hrun. unfold test, line in Hrun.
    replace (Z.to_nat k) with (length rs) by (unfold k; lia).
    by destruct (f0 >=? us).
Qed.

(** C32: [pfree] of pages that are mapped to frames of one pool gives back exactly those: the pages are
    unmapped and free in the space, their frames are free in the pool, no other page, frame or
    mapping changes, and the invariant of the allocator holds again.  The first frame of the user
    pool is excepted (see [ReturnOnePhysicPage_first_user]).  No byte changes but the bitmaps and the
    pages given back. *)
Theorem pfree_correct s sp V pf r rs :
  space_of sp s = Ret (V, s) -> mem_ok (mem s) V (ram (mach s)) (pg s) ->
  0 <= r -> r + Z.of_nat (length rs) <= space_bits V -> rs <> [] ->
  (forall n q, rs !! n = Some q -> 0 <= q < pool_bits (pool_of pf (mem s)) /\ (pf = USER_POOL -> q <> 0) /\
     translate (pg s) (vpage V (r + Z.of_nat n)) = Some (frame (pool_of pf (mem s)) q)) ->
  (forall q, rs !! 0%nat = Some q -> 0x102000 < frame (pool_of pf (mem s)) q) ->
  exists m' pg', pfree sp (vpage V r) (Z.of_nat (length rs)) s = Ret (tt, with_mem m' pg' s) /\
    pfree_result s V r pf rs m' pg'.
Proof. apply pfree_ok. Qed.

(** C31: [pfree] undoes [palloc]: allocating [cnt] pages and giving them back leaves the bitmap of the
    address space and every translation in it as before, and the invariant holds.  (A frame that
    became a page table stays one.) *)
Theorem palloc_pfree s pf V cnt r0 :
  space_of pf s = Ret (V, s) -> mem_ok (mem s) V (ram (mach s)) (pg s) ->
  1 <= cnt < 3840 -> 0 <= r0 -> r0 + cnt <= space_bits V -> free_run (ram (mach s)) (vaddr_bitmap V) r0 cnt ->
  enough_frames (mem s) (ram (mach s)) pf (Z.to_nat cnt) ->
  0x102000 < physic_addr_start (pool_of pf (mem s)) ->
  (pf = USER_POOL -> bit (ram (mach s)) (pool_bitmap (user_memory_pool (mem s))) 0 = true) ->
  exists v m1 pg1 m2 pg2, palloc pf cnt s = Ret (v, with_mem m1 pg1 s) /\
    pfree pf v cnt (with_mem m1 pg1 s) = Ret (tt, with_mem m2 pg2 s) /\
    mem_ok (mem s) V m2 pg2 /\
    (forall j, 0 <= j < space_bits V -> bit m2 (vaddr_bitmap V) j = bit (ram (mach s)) (vaddr_bitmap V) j) /\
    (forall va, in_space V va -> va mod 4096 = 0 -> translate pg2 va = translate (pg s) va).
Proof.
  intros Hsp Hm Hc Hr0 Hle Hrun Hf Hlow Hu.
  destruct (palloc_ok s pf V cnt r0 Hsp Hm Hc Hr0 Hle Hrun Hf)
    as (r & m1 & m2 & pg2 & Hp & R1 & R2 & R3 & R4 & [R5 R5'] & [Q1 Q2 (rs & L & Nd & F & T) Q4 Q5 Q6 Q7 Q8]).
  assert (Z.of_nat (length rs) = cnt) as Hlen by lia.
  assert (bit m1 (pool_bitmap (user_memory_pool (mem s))) 0 = bit (ram (mach s)) (pool_bitmap (user_memory_pool (mem s))) 0 \/
          pool_bits (user_memory_pool (mem s)) <= 0) as HU0.
  { destruct (decide (0 < pool_bits (user_memory_pool (mem s)))) as [Hpos|]; [left|right; lia].
    eapply bit_keep; [exact R5'|]. intros Hin.
    by pose proof (mo_apart _ _ _ _ Hm (Some USER_POOL) None _ (bit_in_bitmap (pool_bitmap (user_memory_pool (mem s))) 0 ltac:(unfold pool_bits in Hpos; lia)) Hin). }
  destruct (pfree_ok (with_mem m2 pg2 s) pf V pf r rs) as (m3 & pg3 & Hfree & P1 & P2 & P3 & P4 & P5 & _).
  - by apply space_of_mem.
  - exact Q1.
  - done.
  - lia.
  - destruct rs; [cbn in Hlen; lia|done].
  - intros n q Hq. destruct (Forall_lookup_1 _ _ _ _ F Hq) as [Hq1 Hq2]. split; [done|].
    split; [|by apply T]. intros -> ->. cbn [pool_of] in Hq1, Hq2. destruct HU0 as [E|E]; [|lia].
    rewrite E, Hu in Hq2 by done. done.
  - intros q Hq. destruct (Forall_lookup_1 _ _ _ _ F Hq) as [Hq1 Hq2]. unfold frame, PAGE_SIZE.
    cbn [with_mem mem set_mach set_pg]. lia.
  - exists (vpage V r), m2, pg2, m3, pg3. rewrite <- Hlen at 2. split_and!; try done.
    + intros j Hj. rewrite P2 by done. cbn [with_mem mach set_mach ram set_ram]. rewrite Q5 by done. rewrite Hlen, R5.
      destruct ((r <=? j) && (j <? r + cnt)) eqn:E; [|done]. symmetry. apply R3. lia.
    + intros va Hva Hp0. destruct (decide (vpage V r <= va < vpage V (r + cnt))) as [Hin|Hout].
      * set (j := (va - vaddr_start V) / 4096).
        destruct (mo_space _ _ _ _ Hm) as (S1 & S2 & S3).
        assert (va = vpage V j) as Ej.
        { unfold vpage, j, PAGE_SIZE in *. pose proof (Z.div_mod (va - vaddr_start V) 4096 ltac:(lia)) as D.
          rewrite Zminus_mod, Hp0, S2 in D. change ((0 - 0) mod 4096) with 0 in D. lia. }
        assert (r <= j < r + cnt) as Hj by (unfold vpage, PAGE_SIZE in *; lia).
        rewrite Ej. transitivity (@None Z).
        -- pose proof (P4 (Z.to_nat (j - r)) ltac:(lia)) as E.
           replace (r + Z.of_nat (Z.to_nat (j - r))) with j in E by lia. exact E.
        -- symmetry. apply (mo_unmapped _ _ _ _ Hm); [lia|]. apply R3. lia.
      * rewrite P5; [|done|by rewrite Hlen]. cbn [with_mem pg set_mach set_pg].
        apply Q4; [done|]. by rewrite Z2Nat.id by lia.
Qed.

End pfree.

(** ** A small memory for the examples

    Eight frames in each pool behind the directory at 0x100000 and the page table of the kernel's
    first 4 MB at 0x101000; eight pages of kernel heap; the three bitmaps at 0x1000. *)

Definition pool_phys : gmap Z Z :=
  setw (setw (write_bytes ∅ 0x100000 (replicate (368 * page_n) 0))
    (0x100000 + 4 * 1023) 0x100007) (0x100000 + 4 * 768) 0x101007.
Definition pool_paging : paging := Paging pool_phys 0x100000 [].
Definition pool_ram : gmap Z Z := write_bytes ∅ 0x1000 (replicate 8 0).
Definition pool_pools : pools :=
  Pools (MemoryPool (Bitmap 1 0x1000) 0x103000 0x8000) (MemoryPool (Bitmap 1 0x1002) 0x10B000 0x8000)
    (VirtualAddr (Bitmap 1 0x1004) KERNEL_HEAP_BASE).
Definition pool_space : virtual_addr := kernel_vaddr pool_pools.

Lemma pool_pde i : 0 <= i < 1024 ->
  pde_at pool_phys 0x100000 i = Some (if i =? 1023 then 0x100007 else if i =? 768 then 0x101007 else 0).
Proof.
  intros Hi. pose proof page_n_Z. unfold pde_at, pool_phys.
  destruct (Z.eqb_spec i 768) as [->|].
  - by rewrite word_setw_eq by lia.
  - rewrite word_setw_ne by lia. destruct (Z.eqb_spec i 1023) as [->|].
    + by rewrite word_setw_eq by lia.
    + rewrite word_setw_ne by lia. apply zeros_word; lia.
Qed.

Lemma pool_region p : 0x100000 <= p -> p + 4096 <= 0x270000 -> readable pool_phys p 4096.
Proof.
  intros H1 H2 a Ha. pose proof page_n_Z. do 2 apply setw_is_Some. rewrite zeros_lookup by lia. eauto.
Qed.

(** No page is mapped by the page table. *)
Lemma pool_pte j : 0 <= j < 1024 -> word pool_phys (0x101000 + 4 * j) = Some 0.
Proof.
  intros Hj. pose proof page_n_Z. unfold pool_phys. rewrite !word_setw_ne by lia. apply zeros_word; lia.
Qed.

Lemma pool_ram_ok : ram_ok pool_phys.
Proof. do 2 apply ram_ok_setw. apply zero_ram_ok. Qed.

#[global] Opaque pool_phys.

Lemma pool_table va t : 0 <= va < 1023 * 2 ^ 22 ->
  table_of pool_phys 0x100000 va = Some t -> t = 0x101000 /\ va / 2 ^ 22 = 768.
Proof.
  intros Hva. pose proof (pde_idx_low va Hva) as Hi. unfold table_of.
  pose proof (pool_pde (va / 2 ^ 22)) as E. unfold pde_at in E. rewrite E by lia. clear E.
  destruct (Z.eqb_spec (va / 2 ^ 22) 1023); [lia|]. destruct (Z.eqb_spec (va / 2 ^ 22) 768) as [H|]; [|done].
  change (frame_of 0x101007) with 0x101000. intros [= <-]. split; [reflexivity|exact H].
Qed.

Lemma pool_has_table va : va / 2 ^ 22 = 768 -> is_Some (table_of pool_phys 0x100000 va).
Proof.
  intros E. unfold table_of. rewrite E. pose proof (pool_pde 768) as H. unfold pde_at in H. rewrite H by lia.
  change (is_present _) with true. eauto.
Qed.

Lemma pool_unmapped va : 0 <= va < 1023 * 2 ^ 22 -> translate pool_paging va = None.
Proof.
  intros Hva. unfold translate, walk. cbn [pool_paging phys cr3]. change (frame_of 0x100000) with 0x100000.
  destruct (table_of pool_phys 0x100000 va) as [t|] eqn:Ht; [|reflexivity].
  apply pool_table in Ht as [-> _]; [|exact Hva]. by rewrite pool_pte by apply pte_idx_range.
Qed.

Lemma pool_pg_ok : pg_ok pool_paging.
Proof.
  unfold pg_ok, pool_paging. cbn [phys cr3]. change (frame_of 0x100000) with 0x100000.
  split; [|split; [|split; [|split; [|split; [|split]]]]].
  - apply pool_ram_ok.
  - done.
  - done.
  - done.
  - by apply pool_region.
  - exists 0x100007. rewrite pool_pde by lia. done.
  - intros i e Hi. rewrite pool_pde by lia. replace (i =? 1023) with false by lia.
    destruct (i =? 768); intros [= <-]; [|done]. intros _.
    change (frame_of 0x101007) with 0x101000. split; [done|]. split; [done|]. by apply pool_region.
Qed.

Lemma pool_bitmap_ok b : 0x1000 <= b -> b + 2 <= 0x1008 -> bitmap_ok pool_ram (Bitmap 1 b).
Proof.
  intros H1 H2. split; [apply zero_ram_ok|]. split_and!; cbn [bits bitmap_bytes_len]; try lia.
  intros a Ha. unfold pool_ram. rewrite zeros_lookup by lia. eauto.
Qed.

Lemma pool_bit b j : 0x1000 <= b -> b + 1 <= 0x1008 -> 0 <= j < 8 -> bit pool_ram (Bitmap 1 b) j = false.
Proof.
  intros H1 H2 Hj. unfold bit, pool_ram. cbn [bits]. rewrite Z.div_small by lia.
  rewrite zeros_lookup by lia. apply Z.bits_0.
Qed.

Lemma pool_frame_fresh f : 0x103000 <= f -> f + 4096 <= 0x270000 -> f mod 4096 = 0 ->
  frame_fresh pool_phys 0x100000 f.
Proof.
  intros H1 H2 Hp. split; [exact Hp|]. split; [lia|]. split; [lia|].
  split; [apply pool_region; lia|]. split; [lia|].
  intros i e Hi. rewrite pool_pde by lia. replace (i =? 1023) with false by lia.
  destruct (i =? 768); intros [= <-]; [|done]. intros _. change (frame_of 0x101007) with 0x101000. lia.
Qed.

Lemma pool_mem_ok : mem_ok pool_pools pool_space pool_ram pool_paging.
Proof.
  assert (forall pf r, 0 <= r < pool_bits (pool_of pf pool_pools) -> 0 <= r < 8) as Hr by (by intros []).
  constructor.
  - apply pool_pg_ok.
  - intros [[]|]; apply pool_bitmap_ok; lia.
  - intros [[]|] [[]|] a; unfold in_bitmap; cbn; intros; (done || lia).
  - intros [[]|] a; unfold in_space, space_bits, nbits; cbn; unfold KERNEL_HEAP_BASE; lia.
  - intros []; cbn; unfold PAGE_SIZE, pool_bits, nbits; cbn; (split_and!; [lia|done|lia]).
  - zdec.
  - split_and!; zdec.
  - intros pf r H1 _. apply Hr in H1. change (frame_of (cr3 pool_paging)) with 0x100000.
    apply pool_frame_fresh; destruct pf; unfold frame, PAGE_SIZE; cbn [pool_of pool_pools kernel_memory_pool user_memory_pool physic_addr_start];
      try lia; rewrite Z.add_mod, (Z.mul_comm 4096), Z.mod_mul by lia; done.
  - intros pf r va (Hva & _ & Ht). by rewrite pool_unmapped in Ht.
  - intros i Hi _. apply pool_unmapped. change (space_bits pool_space) with 8 in Hi.
    change (vpage pool_space i) with (0xC0100000 + 4096 * i). clear -Hi. lia.
  - intros va va' t Hva Hva' H1 H2.
    assert (forall a, in_space pool_space a -> 0 <= a < 1023 * 2 ^ 22) as L.
    { intros a Ha. change (0xC0100000 <= a < 0xC0100000 + 4096 * 8) in Ha. clear -Ha. lia. }
    apply pool_table in H1 as [_ ->]; [|by apply L]. by apply pool_table in H2 as [_ ->]; [|by apply L].
  - intros pf r va _ (Hva & _ & Ht). by rewrite pool_unmapped in Ht.
  - intros pf r va va' (Hva & _ & Ht). by rewrite pool_unmapped in Ht.
Qed.

Definition pool_kernel : kernel :=
  set_mem pool_pools (set_pg pool_paging (set_mach (Machine pool_ram 2 [] []) demo_kernel)).

Lemma pool_has_free b n : 0x1000 <= b -> b + 1 <= 0x1008 -> (n <= 8)%nat -> has_free pool_ram (Bitmap 1 b) n.
Proof.
  intros H1 H2 Hn. eapply has_free_le; [|exact Hn]. exists [0; 1; 2; 3; 4; 5; 6; 7]. split_and!; [|done|].
  - by apply (bool_decide_unpack _).
  - unfold nbits. cbn [bitmap_bytes_len]. repeat (constructor; [split; [lia|apply pool_bit; lia]|]). constructor.
Qed.

Lemma pool_enough pf n : (n <= 4)%nat -> enough_frames pool_pools pool_ram pf n.
Proof. intros Hn. split; [|destruct pf]; apply pool_has_free; lia. Qed.

Lemma palloc_correct_witness :
  exists r m' pg', palloc (H := demo_env) KERNEL_POOL 3 pool_kernel = Ret (vpage pool_space r, with_mem m' pg' pool_kernel) /\
    mem_ok pool_pools pool_space m' pg'.
Proof.
  destruct (palloc_correct (H := demo_env) pool_kernel KERNEL_POOL pool_space 3 0) as (r & m1 & m' & pg' & H1 & _ & H2);
    [reflexivity|exact pool_mem_ok|lia|lia|zdec| |apply (pool_enough KERNEL_POOL); cbn; lia|].
  - intros i Hi. apply (pool_bit 0x1004); lia.
  - exists r, m', pg'. split; [exact H1|exact H2].
Defined.

(** The same with every frame of the kernel pool in use. *)
Definition full_ram : gmap Z Z := <[0x1000 := 255]> pool_ram.
Definition full_kernel : kernel := set_mach (Machine full_ram 2 [] []) pool_kernel.

Lemma full_mem_ok : mem_ok pool_pools pool_space full_ram pool_paging.
Proof.
  apply (mem_ok_more _ _ pool_ram full_ram pool_paging (Some KERNEL_POOL) pool_mem_ok).
  - destruct (pool_bitmap_ok 0x1000) as (H1 & H2 & H3 & H4 & H5 & H6); [lia|lia|].
    split; [by apply ram_ok_insert|]. split_and!; try done. intros a Ha. unfold full_ram. rewrite lookup_insert.
    case_decide; [eauto|]. by apply H6.
  - intros a Ha. apply lookup_insert_ne. intros <-. apply Ha. split; zdec.
  - intros j Hj. change (0 <= j < 8) in Hj. cbn [bitmap_at pool_of pool_pools kernel_memory_pool pool_bitmap].
    by rewrite pool_bit by lia.
Qed.

Lemma palloc_exhausted_witness : palloc (H := demo_env) KERNEL_POOL 1 full_kernel = Panic "BitmapScan" 28.
Proof.
  apply (palloc_exhausted (H := demo_env) full_kernel KERNEL_POOL pool_space 0);
    [reflexivity|exact full_mem_ok|split; zdec| |].
  - change (bit full_ram (Bitmap 1 0x1004) 0 = false). unfold full_ram.
    rewrite (bit_keep pool_ram _ _ (fun a => a = 0x1000)); [apply pool_bit; lia| |done].
    intros a Ha. apply lookup_insert_ne. congruence.
  - intros r Hr. change (0 <= r < 8) in Hr. change (bit full_ram (Bitmap 1 0x1000) r = true).
    unfold bit, full_ram. cbn [bits]. rewrite Z.div_small, Z.add_0_r, lookup_insert_eq, Z.mod_small by lia.
    change 255 with (Z.ones 8). apply Z.ones_spec_low. lia.
Defined.

Definition locked_kernel : kernel := set_locks (<[kernel_pool_lock := free_lock]> ∅) pool_kernel.

Lemma pool_alloc_correct_witness :
  exists r m' pg', kpalloc (H := demo_env) 1 2 locked_kernel = Ret (vpage pool_space r, with_mem m' pg' locked_kernel) /\
    mem_ok pool_pools pool_space m' pg' /\ m' !! vpage pool_space r = Some 0.
Proof.
  destruct (pool_alloc_correct (H := demo_env) 0 locked_kernel KERNEL_POOL pool_space 2 0)
    as (r & m' & pg' & H1 & H2 & H3 & _ & _ & _ & H4 & _);
    [reflexivity|exact pool_mem_ok|reflexivity|discriminate|lia|lia|zdec| |apply (pool_enough KERNEL_POOL); cbn; lia|].
  - intros i Hi. apply (pool_bit 0x1004); lia.
  - exists r, m', pg'. split; [exact H1|]. split; [exact H2|]. apply H4. unfold PAGE_SIZE. lia.
Defined.

Lemma pfree_correct_witness :
  exists v m1 pg1 m2 pg2, pfree (H := demo_env) KERNEL_POOL v 2 (with_mem m1 pg1 pool_kernel) =
      Ret (tt, with_mem m2 pg2 pool_kernel) /\ mem_ok pool_pools pool_space m2 pg2.
Proof.
  destruct (palloc_ok (H := demo_env) pool_kernel KERNEL_POOL pool_space 2 0)
    as (r & m1 & m2 & pg2 & _ & R1 & R2 & _ & _ & _ & [Q1 Q2 (rs & L & Nd & F & T) _ _ _ _ _]);
    [reflexivity|exact pool_mem_ok|lia|lia|zdec| |apply (pool_enough KERNEL_POOL); cbn; lia|].
  { intros i Hi. apply (pool_bit 0x1004); lia. }
  destruct (pfree_correct (H := demo_env) (with_mem m2 pg2 pool_kernel) KERNEL_POOL pool_space KERNEL_POOL r rs)
    as (m3 & pg3 & H1 & H2 & _).
  - reflexivity.
  - rewrite with_mem_mem, with_mem_ram, with_mem_pg. exact Q1.
  - exact R1.
  - rewrite L. exact R2.
  - intros ->. discriminate L.
  - intros n q Hq. rewrite with_mem_mem, with_mem_pg.
    split; [exact (proj1 (Forall_lookup_1 _ _ _ _ F Hq))|]. split; [discriminate|exact (T _ _ Hq)].
  - intros q Hq. rewrite with_mem_mem. pose proof (proj1 (Forall_lookup_1 _ _ _ _ F Hq)) as Hq1.
    change (0x102000 < 0x103000 + 4096 * q). lia.
  - exists (vpage pool_space r), m2, pg2, m3, pg3. split; [|exact H2].
    rewrite L in H1. rewrite with_mem_twice in H1. exact H1.
Defined.

Lemma palloc_pfree_witness :
  exists v m1 pg1 m2 pg2, palloc (H := demo_env) KERNEL_POOL 3 pool_kernel = Ret (v, with_mem m1 pg1 pool_kernel) /\
    pfree (H := demo_env) KERNEL_POOL v 3 (with_mem m1 pg1 pool_kernel) = Ret (tt, with_mem m2 pg2 pool_kernel) /\
    mem_ok pool_pools pool_space m2 pg2.
Proof.
  destruct (palloc_pfree (H := demo_env) pool_kernel KERNEL_POOL pool_space 3 0)
    as (v & m1 & pg1 & m2 & pg2 & H1 & H2 & H3 & _);
    [reflexivity|exact pool_mem_ok|lia|lia|zdec| |apply (pool_enough KERNEL_POOL); cbn; lia|zdec|discriminate|].
  - intros i Hi. apply (pool_bit 0x1004); lia.
  - exists v, m1, pg1, m2, pg2. split; [exact H1|]. split; [exact H2|exact H3].
Defined.

(** Twelve kernel frames: bit 4 of the user bitmap is cleared instead of bit 0. *)
Definition odd_pools : pools :=
  Pools (MemoryPool (Bitmap 1 0x1000) 0x103000 0xC000) (MemoryPool (Bitmap 1 0x1001) 0x10F000 0x8000)
    (VirtualAddr (Bitmap 1 0x1004) 0xC0100000).
Definition odd_kernel : kernel :=
  set_mem odd_pools (set_mach (Machine (<[0x1001 := 255]> pool_ram) 2 [] []) pool_kernel).

Lemma ReturnOnePhysicPage_first_user_witness :
  exists m', ReturnOnePhysicPage 0x10F000 odd_kernel = Ret (tt, with_mem m' pool_paging odd_kernel) /\
    bit m' (Bitmap 1 0x1001) 0 = true.
Proof.
  destruct (ReturnOnePhysicPage_first_user odd_kernel 12) as (m' & H1 & _ & H3).
  - destruct (pool_bitmap_ok 0x1000) as (B1 & B2 & B3 & B4 & B5 & B6); [lia|lia|].
    split; [apply ram_ok_insert; [exact B1|lia]|]. split_and!; try done. intros a Ha.
    change (is_Some ((<[0x1001 := 255]> pool_ram) !! a)).
    rewrite lookup_insert. case_decide; [eauto|]. by apply B6.
  - lia.
  - zdec.
  - reflexivity.
  - reflexivity.
  - reflexivity.
  - zdec.
  - exists m'. split; [exact H1|]. etransitivity; [apply H3; discriminate|].
    unfold bit. change (ram (mach odd_kernel)) with (<[0x1001 := 255]> pool_ram).
    change (bits (pool_bitmap (user_memory_pool (mem odd_kernel))) + 0 / 8) with 0x1001.
    by rewrite lookup_insert_eq.
Defined.
