(* ===== verification/Vmap.v ===== *)
(** * kernel/memory.c: [VirtualAddrMapping], a page at an address the caller chooses *)
From stdpp Require Import base list gmap strings.
From S2P Require Import Prelude Machine CString Bitmap Print Interrupt KList Paging State Sched Sync Pool Palloc.

(** The pool goes with the kind of thread: processes take user pages, kernel threads kernel pages. *)
Definition own_pool (pf : pool_flags) (s : kernel) : Prop :=
  exists c, pcbs s !! cur s = Some c /\
    match pf with KERNEL_POOL => PDE_addr c = 0 | USER_POOL => PDE_addr c <> 0 end.

(** The address space of a thread. *)
Lemma space_of_pcb s c : pcbs s !! cur s = Some c -> space_of USER_POOL s = Ret (userprog_vaddr c, s).
Proof. intros Hc. unfold space_of. rewrite (bind_Ret _ _ s (cur s) s) by done. by rewrite (bind_Ret _ _ _ _ _ (get_pcb_ok _ _ _ Hc)). Qed.

Section vmap.
  Context `{Env}.

(** The part before the frame is taken: the lock, and the bit of the page. *)
Lemma mark_page_ok pf fuel s V i :
  space_of pf s = Ret (V, s) -> own_pool pf s -> mem_ok (mem s) V (ram (mach s)) (pg s) ->
  0 < i < space_bits V -> bit (ram (mach s)) (vaddr_bitmap V) i = false ->
  locks s !! pool_lock pf = Some free_lock -> cur s <> 0 ->
  let s1 := with_lock (pool_lock pf) (held_lock (cur s) 1) s in
  exists m, reserved V (ram (mach s)) m i 1 /\ bitmap_ok m (vaddr_bitmap V) /\
    VirtualAddrMapping pf (S fuel) (vpage V i) s =
      (let* physic_page_addr := on_mach (GetOnePhysicPage (pool_of pf (mem s))) in
       if physic_page_addr =? 0 then ret 0
       else
         PageMapping (vpage V i) physic_page_addr ;;;
         sys_lock_unlock (pool_lock pf) ;;;
         ret (vpage V i)) (with_mem m (pg s) s1).
Proof.
  intros Hsp (c & Hc & Hpf) Hm Hi Hb Hl Hcur s1.
  destruct (vpage_facts _ _ _ _ i Hm ltac:(lia)) as (_ & V1 & V2 & V3).
  destruct (mo_space _ _ _ _ Hm) as (S1 & S2 & S3).
  pose proof (mo_bitmap _ _ _ _ Hm None) as Hok. cbn [bitmap_at] in Hok.
  destruct (BitmapSetBit_ok (mach s) (vaddr_bitmap V) i 1 Hok) as (m & Hset & Hok' & Hbits & Hsame);
    [unfold space_bits in Hi; lia|by right|].
  assert (u32 (vpage V i - vaddr_start V) / PAGE_SIZE = i) as Eidx.
  { replace (vpage V i - vaddr_start V) with (PAGE_SIZE * i) by (unfold vpage; lia).
    rewrite u32_id by (unfold vpage, PAGE_SIZE in *; lia). unfold PAGE_SIZE. lia. }
  assert (on_mach (BitmapSetBit (vaddr_bitmap V) i 1) s1 = Ret (tt, with_mem m (pg s) s1)) as Hmark.
  { rewrite (on_mach_ok _ s1 _ _ Hset). by destruct s. }
  assert (cur s1 = cur s) as Ecur by done.
  exists m. split; [|split; [exact Hok'|]].
  - split.
    + intros j. rewrite Hbits. by replace ((i <=? j) && (j <? i + 1)) with (j =? i) by lia.
    + intros a Ha. apply Hsame. intros ->. apply Ha, bit_in_bitmap. unfold space_bits in Hi. lia.
  - unfold VirtualAddrMapping. rewrite (bind_Ret _ _ _ _ _ (lock_free_ok fuel _ s Hl Hcur)). fold s1.
    rewrite (bind_Ret _ _ s1 (cur s) s1) by done.
    rewrite (bind_Ret _ _ s1 c s1) by (apply get_pcb_ok; exact Hc).
    match goal with |- bind ?a ?k ?x = ?y => enough (a x = Ret (tt, with_mem m (pg s) s1)) as Ha end.
    { rewrite (bind_Ret _ _ _ _ _ Ha). by rewrite (bind_Ret _ _ _ (with_mem m (pg s) s1) (with_mem m (pg s) s1)) by done. }
    destruct pf.
    + replace (PDE_addr c =? 0) with true by lia. unfold space_of, bind, get, ret in Hsp. injection Hsp as HV.
      rewrite (bind_Ret _ _ s1 s1 s1) by done. change (mem s1) with (mem s). rewrite HV, Eidx.
      rewrite (bind_Ret _ _ s1 tt s1) by (apply ASSERT_true; lia). exact Hmark.
    + replace (PDE_addr c =? 0) with false by lia. rewrite (space_of_pcb s c Hc) in Hsp. injection Hsp as HV.
      rewrite HV, Eidx. rewrite (bind_Ret _ _ s1 tt s1) by (apply ASSERT_true; lia). exact Hmark.
Qed.

Lemma VirtualAddrMapping_ok pf fuel s V i :
  space_of pf s = Ret (V, s) -> own_pool pf s -> mem_ok (mem s) V (ram (mach s)) (pg s) ->
  0 < i < space_bits V -> bit (ram (mach s)) (vaddr_bitmap V) i = false ->
  locks s !! pool_lock pf = Some free_lock -> cur s <> 0 ->
  enough_frames (mem s) (ram (mach s)) pf 1 ->
  exists q m' g, VirtualAddrMapping pf (S fuel) (vpage V i) s = Ret (vpage V i, with_mem m' g s) /\
    mem_ok (mem s) V m' g /\ maps_frame (mem s) g (vpage V i) pf q /\
    bit (ram (mach s)) (pool_bitmap (pool_of pf (mem s))) q = false /\
    (forall j, 0 <= j < space_bits V -> bit m' (vaddr_bitmap V) j =
       if j =? i then true else bit (ram (mach s)) (vaddr_bitmap V) j) /\
    (forall va, in_space V va -> page_of va <> vpage V i -> translate g va = translate (pg s) va) /\
    cr3 g = cr3 (pg s) /\ readable m' (vpage V i) PAGE_SIZE /\
    same_outside (fun a => in_bitmaps pf (mem s) V a \/
      vpage V i <= a < vpage V i + PAGE_SIZE) (ram (mach s)) m' /\
    grown (mem s) V (pg s) g /\
    (forall j, 0 <= j <= q -> bit m' (pool_bitmap (pool_of pf (mem s))) j = true).
Proof.
  intros Hsp Hown Hm Hi Hb Hl Hcur Hen.
  destruct (mark_page_ok pf fuel s V i Hsp Hown Hm Hi Hb Hl Hcur) as (m0 & Hres & Hok0 & ->).
  set (s1 := with_lock (pool_lock pf) (held_lock (cur s) 1) s).
  destruct (reserved_ok _ V _ m0 _ i 1 pf _ Hm Hok0 Hres Hen) as [Hm0 Hen0].
  destruct (vpage_facts _ _ _ _ i Hm ltac:(lia)) as (Hin & V1 & V2 & V3).
  set (s2 := with_mem m0 (pg s) s1).
  destruct (palloc_step s2 V pf i) as (q & m1 & m2 & g & Hget & Hmap & Hset & Hpm & Hm1 & _ & Hfirst).
  - exact Hm0.
  - lia.
  - change (bit m0 (vaddr_bitmap V) i = true). destruct Hres as [Hr _]. rewrite Hr.
    by replace ((i <=? i) && (i <? i + 1)) with true by lia.
  - apply (mo_unmapped _ _ _ _ Hm); [lia|exact Hb].
  - exact Hen0.
  - change (mem s2) with (mem s) in *. change (pg s2) with (pg s) in *.
    change (ram (mach s2)) with m0 in *.
    destruct (frame_facts _ _ _ _ pf q Hm (bs_range _ _ _ _ Hset)) as [Fq _].
    exists q, m2, g. split.
    { rewrite (bind_Ret _ _ s2 (frame (pool_of pf (mem s)) q) (with_mem m1 (pg s) s1)).
      2:{ rewrite (on_mach_ok _ s2 _ _ Hget). by destruct s. }
      replace (frame (pool_of pf (mem s)) q =? 0) with false by lia.
      change (with_mem m1 (pg s) s2) with (with_mem m1 (pg s) s1) in Hmap.
      rewrite (bind_Ret _ _ _ _ _ Hmap).
      change (with_mem m2 g s2) with (with_lock (pool_lock pf) (held_lock (cur s) 1) (with_mem m2 g s)).
      rewrite (bind_Ret _ _ _ _ _ (unlock_last_ok (pool_lock pf) (with_lock (pool_lock pf) (held_lock (cur s) 1)
        (with_mem m2 g s)) (with_lock_lookup _ _ _))).
      rewrite with_lock_twice, with_lock_id by done. reflexivity. }
    pose proof (bit_set_at _ _ _ _ _ (Some pf) _ Hm0 Hset) as Hbits.
    split; [apply Hpm|]. split; [|split; [|split; [|split; [|split; [apply Hpm|split; [|split; [|split; [apply Hpm|]]]]]]]].
    + split; [lia|]. split; [apply (bs_range _ _ _ _ Hset)|]. change (2 ^ 12) with 4096. rewrite V3, Z.add_0_r. apply Hpm.
    + rewrite <- (bs_clear _ _ _ _ Hset). symmetry. apply (reserved_bits _ _ _ m0 (pg s) i 1 Hm Hres pf q (bs_range _ _ _ _ Hset)).
    + intros j Hj. pose proof (pm_bits _ _ _ _ _ _ _ _ _ _ Hpm None j Hj ltac:(done)) as E1. cbn [bitmap_at] in E1.
      pose proof (Hbits None j Hj) as E2. cbn [bitmap_at] in E2. rewrite E1, E2.
      rewrite bool_decide_false by (intros [? _]; done). destruct Hres as [Hr _]. rewrite Hr.
      by replace ((i <=? j) && (j <? i + 1)) with (j =? i) by lia.
    + apply Hpm.
    + pose proof (bytes_at_readable _ _ _ (pm_bytes _ _ _ _ _ _ _ _ _ _ Hpm)) as Hr. by rewrite length_page_bytes in Hr.
    + intros a Ha. rewrite (pm_same _ _ _ _ _ _ _ _ _ _ Hpm).
      2:{ intros [Hc|Hc]; apply Ha; [left; by exists (Some KERNEL_POOL)|right; unfold PAGE_SIZE; lia]. }
      rewrite (bit_set_same _ _ _ _ Hset).
      2:{ intros Hc. apply Ha. left. exists (Some pf). by destruct pf. }
      apply Hres. intros Hc. apply Ha. left. by exists None.
    + intros j Hj. pose proof (bs_range _ _ _ _ Hset) as Hq.
      assert (0 <= j < nbits (pool_bitmap (pool_of pf (mem s)))) as Hjn by lia.
      assert (bit m1 (pool_bitmap (pool_of pf (mem s))) j = true) as Hj1.
      { rewrite (bs_bits _ _ _ _ Hset). destruct (Z.eqb_spec j q); [done|]. apply Hfirst. lia. }
      destruct pf; [by apply (pm_taken _ _ _ _ _ _ _ _ _ _ Hpm)|].
      pose proof (pm_bits _ _ _ _ _ _ _ _ _ _ Hpm (Some USER_POOL) j Hjn ltac:(done)) as E.
      cbn [bitmap_at] in E. by rewrite E.
Qed.

(** C30: [VirtualAddrMapping] of a page the caller chooses, for the pool that goes with its kind: when the
    page is free, is not the first of the space, and a frame is free, it returns the address with that
    page marked, accessible and mapped to a frame that was free; no other page of the space changes,
    what was mapped stays mapped, only the bitmaps and the page are written, the lock is free again
    and the allocator's invariant holds. *)
Theorem VirtualAddrMapping_correct pf fuel s V i :
  space_of pf s = Ret (V, s) -> own_pool pf s -> mem_ok (mem s) V (ram (mach s)) (pg s) ->
  0 < i < space_bits V -> bit (ram (mach s)) (vaddr_bitmap V) i = false ->
  locks s !! pool_lock pf = Some free_lock -> cur s <> 0 ->
  enough_frames (mem s) (ram (mach s)) pf 1 ->
  exists q m' g, VirtualAddrMapping pf (S fuel) (vpage V i) s = Ret (vpage V i, with_mem m' g s) /\
    mem_ok (mem s) V m' g /\ maps_frame (mem s) g (vpage V i) pf q /\
    bit (ram (mach s)) (pool_bitmap (pool_of pf (mem s))) q = false /\
    (forall j, 0 <= j < space_bits V -> bit m' (vaddr_bitmap V) j =
       if j =? i then true else bit (ram (mach s)) (vaddr_bitmap V) j) /\
    (forall va, in_space V va -> page_of va <> vpage V i -> translate g va = translate (pg s) va) /\
    cr3 g = cr3 (pg s) /\ readable m' (vpage V i) PAGE_SIZE /\
    same_outside (fun a => in_bitmaps pf (mem s) V a \/
      vpage V i <= a < vpage V i + PAGE_SIZE) (ram (mach s)) m' /\
    grown (mem s) V (pg s) g /\
    (forall j, 0 <= j <= q -> bit m' (pool_bitmap (pool_of pf (mem s))) j = true).
Proof. apply VirtualAddrMapping_ok. Qed.

(** The first page of a space cannot be mapped in this way: the assertion takes its index for an error. *)
Lemma VirtualAddrMapping_first fuel s V :
  space_of KERNEL_POOL s = Ret (V, s) -> own_pool KERNEL_POOL s -> 0 <= vaddr_start V < 2 ^ 32 ->
  locks s !! kernel_pool_lock = Some free_lock -> cur s <> 0 ->
  VirtualAddrMapping KERNEL_POOL (S fuel) (vpage V 0) s = Panic "VirtualAddrMapping" 354.
Proof.
  intros Hsp (c & Hc & Hp) HV Hl Hcur. unfold VirtualAddrMapping. rewrite (bind_Ret _ _ _ _ _ (lock_free_ok fuel _ s Hl Hcur)).
  set (s1 := with_lock (pool_lock KERNEL_POOL) (held_lock (cur s) 1) s).
  rewrite (bind_Ret _ _ s1 (cur s) s1) by done. rewrite (bind_Ret _ _ s1 c s1) by (apply get_pcb_ok; exact Hc).
  apply bind_Panic. replace (PDE_addr c =? 0) with true by lia.
  unfold space_of, bind, get, ret in Hsp. injection Hsp as E.
  rewrite (bind_Ret _ _ s1 s1 s1) by done. change (mem s1) with (mem s). rewrite E.
  replace (vpage V 0 - vaddr_start V) with 0 by (unfold vpage; lia). by apply bind_Panic.
Qed.

End vmap.

Lemma VirtualAddrMapping_correct_witness : exists q s',
  VirtualAddrMapping (H := demo_env) KERNEL_POOL 1 (vpage pool_space 3) locked_kernel = Ret (vpage pool_space 3, s') /\
  maps_frame pool_pools (pg s') (vpage pool_space 3) KERNEL_POOL q.
Proof.
  destruct (VirtualAddrMapping_correct (H := demo_env) KERNEL_POOL 0 locked_kernel pool_space 3)
    as (q & m' & g & H1 & _ & H2 & _);
    [reflexivity| |exact pool_mem_ok|zdec|apply (pool_bit 0x1004); lia|reflexivity|discriminate|
     apply (pool_enough KERNEL_POOL); cbn; lia|].
  - eexists. split; reflexivity.
  - exists q, (with_mem m' g locked_kernel). split; [exact H1|exact H2].
Defined.
