(* ===== verification/Arena.v ===== *)
(** * kernel/memory.c: the byte allocator, and setting up memory

    The arena descriptors (three words each: [block_size], [memory_blocks_sum] and the sentinels of
    [free_list]), the headers of the arena pages ([struct arena]: [desc], [cnt], [large_request]) and
    the free blocks (a [list_elem] each) lie in linear memory; a process's descriptors are the member
    [user_arena_descs] of its PCB. *)
From stdpp Require Import base list gmap strings.
From S2P Require Import Prelude Machine CString Bitmap Print Interrupt KList Paging State Sched Sync Pool.

Definition ARENA_SUM : Z := 7.

Definition sizeof_arena : Z := 12.
Definition sizeof_arena_desc : Z := 24.

(** Addresses of the members of [struct arena_desc] and [struct arena]. *)
Definition desc_at (desc_array idx : Z) : Z := u32 (desc_array + sizeof_arena_desc * idx).
Definition block_size_of (desc : Z) : Z := desc.
Definition blocks_sum_of (desc : Z) : Z := u32 (desc + 4).
Definition free_list_of (desc : Z) : Z := u32 (desc + 8).
Definition arena_desc_of (av : Z) : Z := av.
Definition arena_cnt_of (av : Z) : Z := u32 (av + 4).
Definition arena_large_of (av : Z) : Z := u32 (av + 8).

Definition user_arena_descs (pcb : Z) : Z := u32 (pcb + 64).

Definition DIV_ROUND_UP (X STEP : Z) : Z := u32 (X + STEP - 1) / STEP.

Definition ArenaInit_body (desc_array : Z) '((desc_idx, block_size) : Z * Z) : M machine (Z * Z + unit) :=
  if desc_idx <? ARENA_SUM then
    let desc := desc_at desc_array desc_idx in
    st32 (block_size_of desc) block_size ;;;
    st32 (blocks_sum_of desc) ((PAGE_SIZE - sizeof_arena) / block_size) ;;;
    list_init (free_list_of desc) ;;;
    ret (inl (desc_idx + 1, u32 (block_size * 2)))
  else ret (inr tt).

Definition ArenaInit (desc_array : Z) : M machine unit :=
  iter (S (Z.to_nat ARENA_SUM)) (ArenaInit_body desc_array) (0, 16).

Definition arena2block (arena idx : Z) : M machine Z :=
  let* desc := ld32 (arena_desc_of arena) in
  let* block_size := ld32 (block_size_of desc) in
  ret (u32 (arena + sizeof_arena + idx * block_size)).

Definition block2arena (block : Z) : Z := Z.land block 0xFFFFF000.

(** The search for the smallest class that is large enough. *)
Definition class_body (arenas size arena_idx : Z) : M machine (Z + Z) :=
  if arena_idx <? ARENA_SUM then
    let* block_size := ld32 (block_size_of (desc_at arenas arena_idx)) in
    if size <=? block_size then ret (inr arena_idx) else ret (inl (arena_idx + 1))
  else ret (inr arena_idx).

(** The loop that puts the blocks of a new arena into the free list. *)
Definition carve_body (fuel : nat) (av block_idx : Z) : M machine (Z + unit) :=
  let* cnt := ld32 (arena_cnt_of av) in
  if block_idx <? cnt then
    let* p := arena2block av block_idx in
    let* desc := ld32 (arena_desc_of av) in
    let* found := elem_find fuel (free_list_of desc) p in
    ASSERT (negb (is_true_c found)) "sys_malloc" 501 ;;;
    let* desc := ld32 (arena_desc_of av) in
    list_append (free_list_of desc) p ;;;
    ret (inl (u32 (block_idx + 1)))
  else ret (inr tt).

(** The loop that takes the blocks of a free arena out of the free list. *)
Definition uncarve_body (fuel : nat) (av block_idx : Z) : M machine (Z + unit) :=
  let* desc := ld32 (arena_desc_of av) in
  let* sum := ld32 (blocks_sum_of desc) in
  if block_idx <? sum then
    let* victim := arena2block av block_idx in
    let* desc := ld32 (arena_desc_of av) in
    let* found := elem_find fuel (free_list_of desc) victim in
    ASSERT (is_true_c found) "sys_free" 556 ;;;
    list_remove victim ;;;
    ret (inl (u32 (block_idx + 1)))
  else ret (inr tt).

(** [VmemInit] sets up the pools for the memory size the loader left at 0x810. *)
Definition VmemInit (kernel_arena_descs : Z) : M kernel unit :=
  let* _ := on_mach (sys_putline "vmem_init start..") in
  let* memory_total_bytes := on_mach (ld32 0x810) in
  VmemPoolInit memory_total_bytes ;;;
  LockInit kernel_pool_lock ;;;
  LockInit user_pool_lock ;;;
  on_mach (ArenaInit kernel_arena_descs) ;;;
  let* _ := on_mach (sys_putline "done") in
  ret tt.

Section malloc.
  Context `{Env}.
  Variable kernel_arena_descs : Z.

(** The pool, its size and the descriptors of the running thread. *)
Definition malloc_target : M kernel (pool_flags * Z * Z) :=
  let* current_thread := GetCurrentThreadPCB in
  let* c := get_pcb current_thread in
  let* s := get in
  if PDE_addr c =? 0 then ret (KERNEL_POOL, pool_size (kernel_memory_pool (mem s)), kernel_arena_descs)
  else ret (USER_POOL, pool_size (user_memory_pool (mem s)), user_arena_descs current_thread).

(** Lines 453 to 471: whole pages. *)
Definition malloc_pages (PF : pool_flags) (size : Z) : M kernel Z :=
  let pages_needed := DIV_ROUND_UP (u32 (size + sizeof_arena)) PAGE_SIZE in
  let* av := palloc PF pages_needed in
  if negb (av =? 0) then
    on_mach (memset av 0 (u32 (pages_needed * PAGE_SIZE))) ;;;
    on_mach (st32 (arena_desc_of av) 0) ;;;
    on_mach (st32 (arena_cnt_of av) pages_needed) ;;;
    on_mach (st32 (arena_large_of av) 1) ;;;
    sys_lock_unlock (pool_lock PF) ;;;
    ret (u32 (av + sizeof_arena))
  else
    sys_lock_unlock (pool_lock PF) ;;;
    ret 0.

(** Lines 483 to 506: a new arena for the class of [desc]; [false] when there is no page. *)
Definition new_arena (fuel : nat) (PF : pool_flags) (desc : Z) : M kernel bool :=
  let* av := palloc PF 1 in
  if av =? 0 then ret false
  else
    on_mach (memset av 0 PAGE_SIZE) ;;;
    on_mach (st32 (arena_desc_of av) desc) ;;;
    on_mach (st32 (arena_large_of av) 0) ;;;
    let* sum := on_mach (ld32 (blocks_sum_of desc)) in
    on_mach (st32 (arena_cnt_of av) sum) ;;;
    let* old_status := on_mach DisableInt in
    on_mach (iter (S (Z.to_nat sum)) (carve_body fuel av) 0) ;;;
    let* _ := on_mach (SetIntStatus old_status) in
    ret true.

(** Lines 508 to 514: the first free block. *)
Definition take_block (PF : pool_flags) (desc : Z) : M kernel Z :=
  let* e := on_mach (list_pop (free_list_of desc)) in
  let p := elem2entry 0 e in
  let* block_size := on_mach (ld32 (block_size_of desc)) in
  on_mach (memset p 0 block_size) ;;;
  let av := block2arena p in
  let* cnt := on_mach (ld32 (arena_cnt_of av)) in
  on_mach (st32 (arena_cnt_of av) (u32 (cnt - 1))) ;;;
  sys_lock_unlock (pool_lock PF) ;;;
  ret p.

Definition malloc_block (fuel : nat) (PF : pool_flags) (arenas size : Z) : M kernel Z :=
  let* arena_idx := on_mach (iter (S (Z.to_nat ARENA_SUM)) (class_body arenas size) 0) in
  let desc := desc_at arenas arena_idx in
  let* empty := on_mach (list_empty (free_list_of desc)) in
  if is_true_c empty then
    let* ok := new_arena fuel PF desc in
    if ok then take_block PF desc
    else
      sys_lock_unlock (pool_lock PF) ;;;
      ret 0
  else take_block PF desc.

Definition sys_malloc (fuel : nat) (size : Z) : M kernel Z :=
  let* (PF, pool_size, arenas) := malloc_target in
  if negb ((size >? 0) && (size <? pool_size)) then ret 0
  else
    sys_lock_lock fuel (pool_lock PF) ;;;
    if size >? 1024 then malloc_pages PF size
    else malloc_block fuel PF arenas size.

(** Lines 549 to 562: a block goes back to its arena. *)
Definition free_block (fuel : nat) (PF : pool_flags) (av victim : Z) : M kernel unit :=
  let* desc := on_mach (ld32 (arena_desc_of av)) in
  on_mach (list_append (free_list_of desc) victim) ;;;
  let* cnt := on_mach (ld32 (arena_cnt_of av)) in
  on_mach (st32 (arena_cnt_of av) (u32 (cnt + 1))) ;;;
  let* cnt := on_mach (ld32 (arena_cnt_of av)) in
  let* desc := on_mach (ld32 (arena_desc_of av)) in
  let* sum := on_mach (ld32 (blocks_sum_of desc)) in
  if cnt =? sum then
    on_mach (iter (S (Z.to_nat sum)) (uncarve_body fuel av) 0) ;;;
    pfree PF av 1
  else ret tt.

Definition sys_free (fuel : nat) (p : Z) : M kernel unit :=
  if negb (p =? 0) then
    let* current_thread := GetCurrentThreadPCB in
    let* c := get_pcb current_thread in
    let* PF :=
      (if PDE_addr c =? 0 then ASSERT (p >=? KERNEL_HEAP_BASE) "sys_free" 528 ;;; ret KERNEL_POOL
       else ret USER_POOL) in
    sys_lock_lock fuel (pool_lock PF) ;;;
    let av := block2arena p in
    let* large_request := on_mach (ld32 (arena_large_of av)) in
    ASSERT ((s32 large_request =? 1) || (s32 large_request =? 0)) "sys_free" 542 ;;;
    let* desc := on_mach (ld32 (arena_desc_of av)) in
    let* large_request := on_mach (ld32 (arena_large_of av)) in
    (if (desc =? 0) && (s32 large_request =? 1) then
       let* cnt := on_mach (ld32 (arena_cnt_of av)) in
       pfree PF av cnt
     else free_block fuel PF av p) ;;;
    sys_lock_unlock (pool_lock PF)
  else ret tt.

End malloc.
