(* ===== verification/Heap.v ===== *)
(** * kernel/memory.c: the heap of the byte allocator

    The invariant [heap_ok] of the allocator of Arena.v over the page allocator's [mem_ok], how it is
    kept by changes elsewhere and by changes to one class, and the two loops over the blocks of a
    page, on byte memory. *)
From stdpp Require Import base list gmap functions strings.
From S2P Require Import Prelude Machine CString Bitmap Print Interrupt KList Paging State Sched Sync Pool.
From S2P Require Import Palloc Arena.

(** ** The seven classes *)
Definition bsize (k : Z) : Z := 16 * 2 ^ k.
Definition bsum (k : Z) : Z := (PAGE_SIZE - sizeof_arena) / bsize k.

Lemma class_facts k : 0 <= k < 7 ->
  16 <= bsize k <= 1024 /\ 3 <= bsum k <= 255 /\ bsize k * bsum k <= 4084.
Proof.
  intros Hk. pose (P k := (16 <=? bsize k) && (bsize k <=? 1024) && (3 <=? bsum k) && (bsum k <=? 255) &&
    (bsize k * bsum k <=? 4084)).
  assert (P k = true) as H by (apply (forall_below 7); [vm_compute; reflexivity|lia]).
  unfold P in H. lia.
Qed.

(** ** The heap

    [D] is the address of the descriptors, [pf] the pool and [V] the space pages come from.  [ar] maps
    the arena pages of the space to their classes, [fl] the classes to their free lists. *)
Section heap.
  Context (D : Z) (ps : pools) (V : virtual_addr) (pf : pool_flags).

Definition block (i k j : Z) : Z := vpage V i + sizeof_arena + j * bsize k.
Definition flist (k : Z) : Z := D + sizeof_arena_desc * k + 8.
Definition in_page (i a : Z) : Prop := vpage V i <= a < vpage V i + PAGE_SIZE.
#[global] Instance in_page_dec i a : Decision (in_page i a).
Proof. unfold in_page. apply _. Defined.

(** The free blocks of page [i]. *)
Definition free_in (i : Z) (xs : list Z) : list Z := filter (in_page i) xs.

Record arena_ok (m : gmap Z Z) (pg : paging) (xs : list Z) (i k : Z) : Prop := ArenaOk {
  ao_page : 0 <= i < space_bits V;
  ao_class : 0 <= k < 7;
  ao_used : bit m (vaddr_bitmap V) i = true;
  ao_frame : exists q, 0 <= q < pool_bits (pool_of pf ps) /\ (pf = USER_POOL -> q <> 0) /\
    translate pg (vpage V i) = Some (frame (pool_of pf ps) q);
  ao_read : readable m (vpage V i) PAGE_SIZE;
  ao_desc : word m (vpage V i) = Some (D + sizeof_arena_desc * k);
  ao_cnt : word m (vpage V i + 4) = Some (Z.of_nat (length (free_in i xs)));
  ao_large : word m (vpage V i + 8) = Some 0
}.

Record class_ok (m : gmap Z Z) (xs : list Z) (k : Z) : Prop := ClassOk {
  co_size : word m (D + sizeof_arena_desc * k) = Some (bsize k);
  co_sum : word m (D + sizeof_arena_desc * k + 4) = Some (bsum k);
  co_list : dll m (flist k) xs
}.

Definition block_of (ar : gmap Z Z) (k x : Z) : Prop :=
  exists i j, ar !! i = Some k /\ 0 <= j < bsum k /\ x = block i k j.

Record heap_ok (m : gmap Z Z) (pg : paging) (ar : gmap Z Z) (fl : Z -> list Z) : Prop := HeapOk {
  ho_mem : mem_ok ps V m pg;
  ho_range : 0 < D /\ D + 7 * sizeof_arena_desc < 2 ^ 32;
  ho_away : forall a, D <= a < D + 7 * sizeof_arena_desc -> ~ in_space V a /\
    forall b, ~ bits (bitmap_at ps V b) <= a <= bits (bitmap_at ps V b) + bitmap_bytes_len (bitmap_at ps V b);
  ho_low : 0x102000 < physic_addr_start (pool_of pf ps);
  ho_user : pf = USER_POOL -> 0 < pool_bits (user_memory_pool ps) /\
    bit m (pool_bitmap (user_memory_pool ps)) 0 = true;
  ho_classes : forall k, 0 <= k < 7 -> class_ok m (fl k) k;
  ho_arenas : forall i k, ar !! i = Some k -> arena_ok m pg (fl k) i k;
  ho_free : forall k x, 0 <= k < 7 -> x ∈ fl k -> block_of ar k x
}.

(** A block in use. *)
Definition live (ar : gmap Z Z) (fl : Z -> list Z) (k x : Z) : Prop := block_of ar k x /\ x ∉ fl k.

(** ** Blocks and pages *)

Lemma block_in_page i k j : 0 <= k < 7 -> 0 <= j < bsum k ->
  vpage V i + 12 <= block i k j /\ block i k j + bsize k <= vpage V i + PAGE_SIZE.
Proof.
  intros Hk Hj. destruct (class_facts k Hk) as (H1 & H2 & H3). unfold block, sizeof_arena, PAGE_SIZE. nia.
Qed.

Lemma block_lt i k j j' : 0 <= k < 7 -> j < j' -> block i k j + bsize k <= block i k j'.
Proof. intros Hk Hj. destruct (class_facts k Hk) as (H1 & H2 & H3). unfold block. nia. Qed.

Lemma vpages_apart i i' a : in_page i a -> in_page i' a -> i = i'.
Proof. unfold in_page, vpage, PAGE_SIZE. lia. Qed.

Lemma page_in_space i a : 0 <= i < space_bits V -> in_page i a -> in_space V a.
Proof. unfold in_page, in_space, vpage, PAGE_SIZE. lia. Qed.

(** Blocks of one class do not overlap. *)
Lemma blocks_apart i k j i' j' : 0 <= k < 7 -> 0 <= j < bsum k -> 0 <= j' < bsum k ->
  block i k j <> block i' k j' ->
  block i k j + bsize k <= block i' k j' \/ block i' k j' + bsize k <= block i k j.
Proof.
  intros Hk Hj Hj' Hne. pose proof (block_in_page i k j Hk Hj). pose proof (block_in_page i' k j' Hk Hj').
  destruct (Z.lt_trichotomy i i') as [Hi|[->|Hi]].
  - left. unfold vpage, PAGE_SIZE in *. lia.
  - destruct (Z.lt_trichotomy j j') as [Hl|[->|Hl]]; [left|done|right]; by apply block_lt.
  - right. unfold vpage, PAGE_SIZE in *. lia.
Qed.

(** A page of the space does not meet the descriptors. *)
Lemma space_apart m pg i : mem_ok ps V m pg -> 0 < D -> (forall a, D <= a < D + 7 * sizeof_arena_desc -> ~ in_space V a) ->
  0 <= i < space_bits V -> vpage V i + PAGE_SIZE <= D \/ D + 7 * sizeof_arena_desc <= vpage V i.
Proof.
  intros Hm HD Haway Hi. unfold sizeof_arena_desc in *. destruct (Z.le_gt_cases (vpage V i + PAGE_SIZE) D); [by left|right].
  destruct (Z.le_gt_cases (D + 7 * 24) (vpage V i)); [done|exfalso].
  apply (Haway (Z.max D (vpage V i))); [lia|]. unfold in_space, vpage, PAGE_SIZE in *. lia.
Qed.

Lemma block2arena_ok m pg i a : mem_ok ps V m pg -> 0 <= i < space_bits V -> in_page i a ->
  block2arena a = vpage V i.
Proof.
  intros Hm Hi Ha. destruct (vpage_facts _ _ _ _ i Hm Hi) as (_ & V1 & V2 & V3).
  unfold in_page, PAGE_SIZE in *. change (block2arena a) with (frame_of a).
  rewrite frame_of_eq by lia. replace a with (vpage V i + (a - vpage V i)) at 2 by lia.
  rewrite Z.add_mod, V3, Z.add_0_l, Z.mod_mod, Z.mod_small by lia. lia.
Qed.

(** The bytes a free list occupies. *)
Definition sentinels (k a : Z) : Prop := flist k <= a < flist k + 16.

Lemma class_nodes ar xs k a : 0 <= k < 7 -> (forall x, x ∈ xs -> block_of ar k x) ->
  in_nodes (nodes (flist k) xs) a ->
  sentinels k a \/ exists i, ar !! i = Some k /\ vpage V i + 12 <= a /\ in_page i a.
Proof.
  intros Hk Hxs (n & Hn & Ha). unfold nodes in Hn. rewrite elem_of_cons, elem_of_app, list_elem_of_singleton in Hn.
  destruct Hn as [->|[Hn| ->]]; [left; unfold sentinels; lia| |left; unfold sentinels; lia].
  right. destruct (Hxs n Hn) as (i & j & Hi & Hj & ->). exists i.
  destruct (block_in_page i k j Hk Hj) as [H1 H2]. destruct (class_facts k Hk) as (H3 & _).
  split_and!; [done|lia|]. unfold in_page. lia.
Qed.

Lemma class_ok_same m m' ar xs k : 0 <= k < 7 -> (forall x, x ∈ xs -> block_of ar k x) ->
  (forall a, D + sizeof_arena_desc * k <= a < D + sizeof_arena_desc * (k + 1) -> m' !! a = m !! a) ->
  (forall i a, ar !! i = Some k -> in_page i a -> m' !! a = m !! a) ->
  class_ok m xs k -> class_ok m' xs k.
Proof.
  intros Hk Hxs Hd Hp [H1 H2 H3]. constructor.
  - rewrite <- H1. apply word_same. intros b Hb. apply Hd. unfold sizeof_arena_desc in *. lia.
  - rewrite <- H2. apply word_same. intros b Hb. apply Hd. unfold sizeof_arena_desc in *. lia.
  - eapply dll_same; [exact H3|]. intros a Ha. destruct (class_nodes ar xs k a Hk Hxs Ha) as [Hs|(i & Hi & _ & Ha')].
    + apply Hd. unfold sentinels, flist, sizeof_arena_desc in *. lia.
    + by apply (Hp i).
Qed.

Lemma arena_ok_same m m' pg pg' xs xs' i k : arena_ok m pg xs i k ->
  (forall a, vpage V i <= a < vpage V i + 12 -> m' !! a = m !! a) -> readable m' (vpage V i) PAGE_SIZE ->
  bit m' (vaddr_bitmap V) i = true -> translate pg' (vpage V i) = translate pg (vpage V i) ->
  length (free_in i xs') = length (free_in i xs) -> arena_ok m' pg' xs' i k.
Proof.
  intros [H1 H2 H3 H4 H5 H6 H7 H8] Hs Hr Hb Ht Hl. constructor; try done.
  - by rewrite Ht.
  - rewrite <- H6. apply word_same. intros b Hb'. apply Hs. lia.
  - rewrite Hl, <- H7. apply word_same. intros b Hb'. apply Hs. lia.
  - rewrite <- H8. apply word_same. intros b Hb'. apply Hs. lia.
Qed.

(** The heap does not notice what happens to other pages. *)
Lemma heap_keep m m' pg pg' ar fl : heap_ok m pg ar fl -> mem_ok ps V m' pg' ->
  (forall a, D <= a < D + 7 * sizeof_arena_desc -> m' !! a = m !! a) ->
  (forall i k a, ar !! i = Some k -> in_page i a -> m' !! a = m !! a) ->
  (forall i k, ar !! i = Some k -> bit m' (vaddr_bitmap V) i = true /\
     translate pg' (vpage V i) = translate pg (vpage V i)) ->
  (pf = USER_POOL -> bit m' (pool_bitmap (user_memory_pool ps)) 0 = true) ->
  heap_ok m' pg' ar fl.
Proof.
  intros [H1 H2 H3 H4 H5 H6 H7 H8] Hm Hd Hp Ha Hu. constructor; try done.
  - intros Hpf. split; [by apply H5|by apply Hu].
  - intros k Hk. eapply class_ok_same; [done|intros x; by apply H8| | |by apply H6].
    + intros a Hb. apply Hd. unfold sizeof_arena_desc in *. lia.
    + intros i a Hi. by apply (Hp i k).
  - intros i k Hi. destruct (Ha i k Hi) as [Hb Ht]. eapply arena_ok_same; [by apply H7| | |done|done|done].
    + intros a Hin. apply (Hp i k); [done|]. unfold in_page, PAGE_SIZE. lia.
    + intros a Hin. rewrite (Hp i k); [by apply (ao_read _ _ _ _ _ (H7 i k Hi))|done|done].
Qed.

(** Changes confined to one class: its sentinels and pages that hold no arena of another class. *)
Definition touched (ar : gmap Z Z) (k a : Z) : Prop :=
  sentinels k a \/ in_space V a /\ forall i k', ar !! i = Some k' -> k' <> k -> ~ in_page i a.

Lemma touched_desc ar k k' a : 0 <= k < 7 -> 0 <= k' < 7 ->
  (forall x, D <= x < D + 7 * sizeof_arena_desc -> ~ in_space V x) ->
  D + sizeof_arena_desc * k' <= a < D + sizeof_arena_desc * k' + 8 \/ k' <> k /\
    D + sizeof_arena_desc * k' <= a < D + sizeof_arena_desc * (k' + 1) -> ~ touched ar k a.
Proof.
  intros Hk Hk' Hd Ha [Hs|[Hin _]].
  - clear Hd. unfold sentinels, flist, sizeof_arena_desc in *. destruct Ha as [Ha|[Hne Ha]]; [|lia].
    destruct (Z.lt_trichotomy k k') as [?|[->|?]]; lia.
  - apply (Hd a); [|done]. unfold sizeof_arena_desc in *. lia.
Qed.

Lemma mem_ok_touched m m' pg ar fl k : heap_ok m pg ar fl -> 0 <= k < 7 -> ram_ok m' ->
  same_outside (touched ar k) m m' ->
  mem_ok ps V m' pg /\
  forall b j, 0 <= j < nbits (bitmap_at ps V b) -> bit m' (bitmap_at ps V b) j = bit m (bitmap_at ps V b) j.
Proof.
  intros Hh Hk Hram Hs.
  assert (forall b a, bits (bitmap_at ps V b) <= a <= bits (bitmap_at ps V b) + bitmap_bytes_len (bitmap_at ps V b) ->
    m' !! a = m !! a) as Hbm.
  { intros b a Ha. apply Hs. intros [Ht|[Ht _]].
    - apply (ho_away _ _ _ _ Hh a) with (b := b); [|done].
      unfold sentinels, flist, sizeof_arena_desc in *. lia.
    - by apply (mo_away _ _ _ _ (ho_mem _ _ _ _ Hh) b a Ht). }
  exact (mem_ok_bitmaps ps V m m' pg (ho_mem _ _ _ _ Hh) Hram Hbm).
Qed.

Lemma heap_update m m' pg ar ar' fl k xs' : heap_ok m pg ar fl -> 0 <= k < 7 -> ram_ok m' ->
  same_outside (touched ar k) m m' ->
  (forall i k', k' <> k -> ar' !! i = Some k' <-> ar !! i = Some k') ->
  dll m' (flist k) xs' ->
  (forall i, ar' !! i = Some k -> arena_ok m' pg xs' i k) ->
  (forall x, x ∈ xs' -> block_of ar' k x) ->
  heap_ok m' pg ar' (<[k := xs']> fl).
Proof.
  intros Hh Hk Hram Hs Har Hd Ha Hf. destruct (mem_ok_touched _ _ _ _ _ _ Hh Hk Hram Hs) as [Hm Hb].
  pose proof Hh as [H1 H2 H3 H4 H5 H6 H7 H8].
  assert (forall x, D <= x < D + 7 * sizeof_arena_desc -> ~ in_space V x) as Hsp by (intros x Hx; apply H3, Hx).
  assert (forall i k' a, ar !! i = Some k' -> k' <> k -> in_page i a -> m' !! a = m !! a) as Hpage.
  { intros i k' a Hi Hne Hin. apply Hs. intros [Ht|[Ht Hno]]; [|by apply (Hno i k')].
    destruct (H7 i k' Hi). apply (Hsp a); [unfold sentinels, flist, sizeof_arena_desc in *; lia|].
    by apply (page_in_space i). }
  assert (forall k' x, k' <> k -> block_of ar k' x -> block_of ar' k' x) as Hblk.
  { intros k' x Hne (i & j & Hi & Hj). exists i, j. split; [by apply Har|done]. }
  constructor; try done.
  - intros Hpf. destruct (H5 Hpf) as [Hu1 Hu2]. split; [done|].
    pose proof (Hb (Some USER_POOL) 0) as E. cbn [bitmap_at pool_of] in E. rewrite E; [done|].
    unfold pool_bits in Hu1. lia.
  - intros k' Hk'. destruct (decide (k' = k)) as [->|Hne].
    + rewrite fn_lookup_insert. destruct (H6 k Hk). constructor; [| |done].
      * rewrite <- co_size0. apply word_same. intros b Hbb. apply Hs. apply (touched_desc ar k k); (done || lia).
      * rewrite <- co_sum0. apply word_same. intros b Hbb. apply Hs. apply (touched_desc ar k k); (done || lia).
    + rewrite fn_lookup_insert_ne by done. apply (class_ok_same m m' ar _ k' Hk').
      * intros x. by apply H8.
      * intros a Hin. apply Hs. apply (touched_desc ar k k'); try done. by right.
      * intros i a Hi. by apply (Hpage i k').
      * by apply H6.
  - intros i k' Hi. destruct (decide (k' = k)) as [->|Hne]; [rewrite fn_lookup_insert; by apply Ha|].
    rewrite fn_lookup_insert_ne by done. apply Har in Hi; [|done]. pose proof (H7 i k' Hi) as Hok.
    apply (arena_ok_same m _ pg _ (fl k')); [done| | | |done|done].
    + intros a Hin. apply (Hpage i k'); [done|done|]. unfold in_page, PAGE_SIZE. lia.
    + intros a Hin. rewrite (Hpage i k'); [by apply (ao_read _ _ _ _ _ Hok)|done|done|done].
    + pose proof (Hb None i (ao_page _ _ _ _ _ Hok)) as E. cbn [bitmap_at] in E. rewrite E. apply Hok.
  - intros k' x Hk'. destruct (decide (k' = k)) as [->|Hne]; [rewrite fn_lookup_insert; by apply Hf|].
    rewrite fn_lookup_insert_ne by done. intros Hx. by apply Hblk, H8.
Qed.

End heap.

(** ** The loops over the blocks of a page, on byte memory *)
Section page_loops.
  Context (D : Z) (V : virtual_addr) (i k : Z).
  Abbreviation v := (vpage V i).
  Abbreviation desc := (D + sizeof_arena_desc * k).
  Abbreviation l := (flist D k).
  Abbreviation blk j := (block V i k j).

(** The first [t] blocks of the page. *)
Definition blocks_upto (t : nat) : list Z := (fun j => blk (Z.of_nat j)) <$> seq 0 t.

(** The header of the page and its descriptor, apart from each other. *)
Record header_ok (m : gmap Z Z) (cnt : Z) : Prop := HeaderOk {
  hd_class : 0 <= k < 7;
  hd_page : 0 < v /\ v + PAGE_SIZE < 2 ^ 32;
  hd_range : 0 < D /\ D + 7 * sizeof_arena_desc < 2 ^ 32;
  hd_apart : v + PAGE_SIZE <= D \/ D + 7 * sizeof_arena_desc <= v;
  hd_read : readable m v PAGE_SIZE;
  hd_desc : word m v = Some desc;
  hd_cnt : word m (v + 4) = Some cnt;
  hd_size : word m desc = Some (bsize k);
  hd_sum : word m (desc + 4) = Some (bsum k)
}.

(** The bytes the loops write. *)
Definition body_of (a : Z) : Prop := sentinels D k a \/ v + 12 <= a < v + PAGE_SIZE.

(** Those, and what is neither in the page nor in the descriptors. *)
Definition far_of (a : Z) : Prop := body_of a \/ a < v /\ ~ (D <= a < D + 7 * sizeof_arena_desc) \/
  v + PAGE_SIZE <= a /\ ~ (D <= a < D + 7 * sizeof_arena_desc).

Lemma header_same m m' cnt P : header_ok m cnt -> stored m m' -> same_outside P m m' ->
  (forall a, P a -> far_of a) ->
  header_ok m' cnt.
Proof.
  intros [H1 H2 H3 H4 H5 H6 H7 H8 H9] Hst Hs HP.
  assert (forall a, v <= a < v + 12 \/ desc <= a < desc + 8 -> m' !! a = m !! a) as Hk.
  { intros a Ha. apply Hs. intros Hb%HP. unfold far_of, body_of, sentinels, flist, sizeof_arena_desc, PAGE_SIZE in *. lia. }
  constructor; try done.
  - by eapply stored_readable.
  - rewrite <- H6. apply word_same. intros b Hb. apply Hk. lia.
  - rewrite <- H7. apply word_same. intros b Hb. apply Hk. lia.
  - rewrite <- H8. apply word_same. intros b Hb. apply Hk. lia.
  - rewrite <- H9. apply word_same. intros b Hb. apply Hk. lia.
Qed.

Lemma header_addrs m cnt : header_ok m cnt ->
  arena_cnt_of v = v + 4 /\ arena_large_of v = v + 8 /\ free_list_of desc = l /\ blocks_sum_of desc = desc + 4.
Proof.
  intros [H1 H2 H3 _ _ _ _ _ _]. unfold arena_cnt_of, arena_large_of, free_list_of, blocks_sum_of, flist, PAGE_SIZE in *.
  unfold sizeof_arena_desc in *. rewrite !u32_id by lia. done.
Qed.

Lemma blk_range m cnt j : header_ok m cnt -> 0 <= j < bsum k ->
  v + 12 <= blk j /\ blk j + bsize k <= v + PAGE_SIZE /\ 16 <= bsize k.
Proof. intros Hh Hj. pose proof (hd_class _ _ Hh) as Hk. pose proof (class_facts k Hk). split_and!; [| |lia]; by apply block_in_page. Qed.

Lemma arena2block_ok s cnt j : header_ok (ram s) cnt -> 0 <= j < bsum k ->
  arena2block v j s = Ret (blk j, s).
Proof.
  intros Hh Hj. destruct (blk_range _ _ _ Hh Hj) as (B1 & B2 & B3). pose proof (hd_page _ _ Hh).
  unfold arena2block, arena_desc_of, block_size_of.
  rewrite (bind_Ret _ _ _ _ _ (ld32_ok _ _ _ (hd_desc _ _ Hh))), (bind_Ret _ _ _ _ _ (ld32_ok _ _ _ (hd_size _ _ Hh))).
  unfold ret, block in *. by rewrite u32_id by lia.
Qed.

Lemma blocks_upto_S t : blocks_upto (S t) = blocks_upto t ++ [blk (Z.of_nat t)].
Proof. unfold blocks_upto. by rewrite seq_S, fmap_app. Qed.

Lemma elem_of_blocks x t : x ∈ blocks_upto t <-> exists j, 0 <= j < Z.of_nat t /\ x = blk j.
Proof.
  unfold blocks_upto. rewrite list_elem_of_fmap. split.
  - intros (j & -> & Hj%elem_of_seq). exists (Z.of_nat j). split; [lia|done].
  - intros (j & Hj & ->). exists (Z.to_nat j). rewrite elem_of_seq. split; [f_equal; lia|lia].
Qed.

Lemma blk_fresh m cnt xs j : header_ok m cnt -> 0 <= j < bsum k -> xs = blocks_upto (Z.to_nat j) ->
  fresh_node m l xs (blk j).
Proof.
  intros Hh Hj ->. destruct (blk_range _ _ _ Hh Hj) as (B1 & B2 & B3).
  destruct Hh as [H1 H2 H3 H4 H5 _ _ _ _]. unfold PAGE_SIZE in *. split.
  - split_and!; [lia|lia|]. eapply readable_le; [exact H5|lia|lia].
  - apply Forall_forall. intros n Hn. unfold nodes in Hn.
    rewrite elem_of_cons, elem_of_app, list_elem_of_singleton, elem_of_blocks in Hn.
    unfold apart, flist, sizeof_arena_desc in *.
    destruct Hn as [->|[(j' & Hj' & ->)| ->]]; [lia| |lia].
    right. pose proof (block_lt V i k j' j H1 ltac:(lia)). lia.
Qed.

Lemma nodes_body m cnt xs a : header_ok m cnt -> (forall x, x ∈ xs -> exists j, 0 <= j < bsum k /\ x = blk j) ->
  in_nodes (nodes l xs) a -> body_of a.
Proof.
  intros Hh Hxs (n & Hn & Ha). unfold nodes in Hn. rewrite elem_of_cons, elem_of_app, list_elem_of_singleton in Hn.
  unfold body_of, sentinels. destruct Hn as [->|[Hn| ->]]; [left; lia| |left; lia].
  right. destruct (Hxs n Hn) as (j & Hj & ->). destruct (blk_range _ _ _ Hh Hj). lia.
Qed.

(** [carve_body] appends block [t]. *)
Lemma carve_step fuel s t : header_ok (ram s) (bsum k) -> dll (ram s) l (blocks_upto t) ->
  Z.of_nat t < bsum k -> (255 < fuel)%nat ->
  exists m', carve_body fuel v (Z.of_nat t) s = Ret (inl (Z.of_nat (S t)), set_ram m' s) /\
    header_ok m' (bsum k) /\ dll m' l (blocks_upto (S t)) /\ same_outside body_of (ram s) m' /\ stored (ram s) m'.
Proof.
  intros Hh Hd Ht Hf. destruct (header_addrs _ _ Hh) as (A1 & A2 & A3 & A4).
  pose proof (hd_class _ _ Hh) as Hk. destruct (class_facts k Hk) as (_ & K2 & _).
  pose proof (blk_fresh _ _ _ (Z.of_nat t) Hh ltac:(lia) eq_refl) as Hfr. rewrite Nat2Z.id in Hfr.
  destruct (list_append_ok s l _ _ Hd Hfr) as (m' & Happ & Hd' & Hs & Hst).
  rewrite <- blocks_upto_S in Hd'.
  assert (same_outside body_of (ram s) m') as Hs'.
  { intros a Ha. apply Hs. intros Hin. apply Ha. apply in_nodes_cons in Hin as [Hin|Hin].
    - right. destruct (blk_range _ _ (Z.of_nat t) Hh); lia.
    - eapply nodes_body; [done| |done]. intros x (j & Hj & ->)%elem_of_blocks. exists j. split; [lia|done]. }
  exists m'. split_and!; try done.
  - unfold carve_body. rewrite A1, (bind_Ret _ _ _ _ _ (ld32_ok _ _ _ (hd_cnt _ _ Hh))).
    replace (Z.of_nat t <? bsum k) with true by lia.
    rewrite (bind_Ret _ _ _ _ _ (arena2block_ok s _ (Z.of_nat t) Hh ltac:(lia))).
    unfold arena_desc_of. rewrite (bind_Ret _ _ _ _ _ (ld32_ok _ _ _ (hd_desc _ _ Hh))), A3.
    erewrite bind_Ret; [|apply (elem_find_ok s l (blk (Z.of_nat t)) _ fuel Hd)].
    2:{ unfold blocks_upto. rewrite length_fmap, length_seq. lia. }
    rewrite bool_decide_false.
    2:{ intros (j & Hj & E)%elem_of_blocks. pose proof (block_lt V i k j (Z.of_nat t) Hk ltac:(lia)).
        pose proof (class_facts k Hk). lia. }
    rewrite (bind_Ret _ _ s tt s) by by apply ASSERT_true.
    rewrite (bind_Ret _ _ _ _ _ (ld32_ok _ _ _ (hd_desc _ _ Hh))), A3, (bind_Ret _ _ _ _ _ Happ).
    unfold ret. rewrite u32_id by lia. do 3 f_equal. lia.
  - apply (header_same (ram s) m' _ body_of); try done. by left.
Qed.

Lemma carve_loop fuel n : forall s t, header_ok (ram s) (bsum k) -> dll (ram s) l (blocks_upto t) ->
  Z.of_nat (t + n) = bsum k -> (255 < fuel)%nat ->
  exists m', iter (S n) (carve_body fuel v) (Z.of_nat t) s = Ret (tt, set_ram m' s) /\
    header_ok m' (bsum k) /\ dll m' l (blocks_upto (t + n)) /\ same_outside body_of (ram s) m' /\ stored (ram s) m'.
Proof.
  induction n as [|n IH]; intros s t Hh Hd Ht Hf.
  - exists (ram s). rewrite Nat.add_0_r in *. split_and!; try done.
    cbn [iter]. unfold carve_body. destruct (header_addrs _ _ Hh) as (A1 & _). rewrite A1.
    rewrite (bind_Ret _ _ _ (inr tt) s); [by rewrite set_ram_id|].
    rewrite (bind_Ret _ _ _ _ _ (ld32_ok _ _ _ (hd_cnt _ _ Hh))).
    by replace (Z.of_nat t <? bsum k) with false by lia.
  - destruct (carve_step fuel s t Hh Hd ltac:(lia) Hf) as (m1 & H1 & Hh1 & Hd1 & Hs1 & Hst1).
    destruct (IH (set_ram m1 s) (S t) Hh1 Hd1 ltac:(lia) Hf) as (m2 & H2 & Hh2 & Hd2 & Hs2 & Hst2).
    exists m2. rewrite (iter_S _ _ _ _ _ _ H1). replace (t + S n)%nat with (S t + n)%nat by lia.
    split_and!; try done.
    + intros a Ha. rewrite Hs2 by done. by apply Hs1.
    + by eapply stored_trans.
Qed.

(** [uncarve_body] unlinks block [t] from a list that holds every block of the page. *)
Definition without (t : nat) (xs : list Z) : list Z := filter (fun x => x ∉ blocks_upto t) xs.

Lemma without_S t xs : filter (fun x => x <> blk (Z.of_nat t)) (without t xs) = without (S t) xs.
Proof.
  unfold without. rewrite list_filter_filter. apply list_filter_iff. intros x.
  rewrite blocks_upto_S, elem_of_app, list_elem_of_singleton. naive_solver.
Qed.

Lemma without_nodes t xs a : in_nodes (nodes l (without t xs)) a -> in_nodes (nodes l xs) a.
Proof.
  apply in_nodes_mono. intros n. unfold nodes, without. rewrite !elem_of_cons, !elem_of_app, list_elem_of_filter. tauto.
Qed.

Lemma uncarve_step fuel cnt xs s t : header_ok (ram s) cnt -> dll (ram s) l (without t xs) ->
  (forall a, in_nodes (nodes l xs) a -> far_of a) -> blk (Z.of_nat t) ∈ xs ->
  Z.of_nat t < bsum k -> (length xs < fuel)%nat ->
  exists m', uncarve_body fuel v (Z.of_nat t) s = Ret (inl (Z.of_nat (S t)), set_ram m' s) /\
    header_ok m' cnt /\ dll m' l (without (S t) xs) /\ same_outside (in_nodes (nodes l xs)) (ram s) m' /\
    stored (ram s) m'.
Proof.
  intros Hh Hd Hfar Hin Ht Hf. destruct (header_addrs _ _ Hh) as (A1 & A2 & A3 & A4).
  pose proof (hd_class _ _ Hh) as Hk. destruct (class_facts k Hk) as (K1 & K2 & _).
  assert (blk (Z.of_nat t) ∈ without t xs) as Hin'.
  { apply list_elem_of_filter. split; [|done]. intros (j & Hj & E)%elem_of_blocks.
    pose proof (block_lt V i k j (Z.of_nat t) Hk ltac:(lia)). lia. }
  assert (length (without t xs) <= length xs)%nat as Hlen by apply length_filter.
  destruct (list_remove_in s l _ _ Hd Hin') as (m' & Hrm & Hd' & Hs & Hst). rewrite without_S in Hd'.
  assert (same_outside (in_nodes (nodes l xs)) (ram s) m') as Hs'.
  { intros a Ha. apply Hs. intros Hn. by apply Ha, (without_nodes t). }
  exists m'. split_and!; try done.
  - unfold uncarve_body, arena_desc_of.
    rewrite (bind_Ret _ _ _ _ _ (ld32_ok _ _ _ (hd_desc _ _ Hh))), A4.
    rewrite (bind_Ret _ _ _ _ _ (ld32_ok _ _ _ (hd_sum _ _ Hh))).
    replace (Z.of_nat t <? bsum k) with true by lia.
    rewrite (bind_Ret _ _ _ _ _ (arena2block_ok s _ (Z.of_nat t) Hh ltac:(lia))).
    rewrite (bind_Ret _ _ _ _ _ (ld32_ok _ _ _ (hd_desc _ _ Hh))), A3.
    rewrite (bind_Ret _ _ _ _ _ (elem_find_ok s l (blk (Z.of_nat t)) _ fuel Hd ltac:(lia))).
    rewrite bool_decide_true by done. rewrite (bind_Ret _ _ s tt s) by by apply ASSERT_true.
    rewrite (bind_Ret _ _ _ _ _ Hrm). unfold ret. rewrite u32_id by lia. do 3 f_equal. lia.
  - by apply (header_same (ram s) m' _ (in_nodes (nodes l xs))).
Qed.

Lemma uncarve_loop fuel cnt xs n : forall s t, header_ok (ram s) cnt -> dll (ram s) l (without t xs) ->
  (forall a, in_nodes (nodes l xs) a -> far_of a) -> (forall j, 0 <= j < bsum k -> blk j ∈ xs) ->
  Z.of_nat (t + n) = bsum k -> (length xs < fuel)%nat ->
  exists m', iter (S n) (uncarve_body fuel v) (Z.of_nat t) s = Ret (tt, set_ram m' s) /\
    header_ok m' cnt /\ dll m' l (without (t + n) xs) /\ same_outside (in_nodes (nodes l xs)) (ram s) m' /\
    stored (ram s) m'.
Proof.
  induction n as [|n IH]; intros s t Hh Hd Hfar Hall Ht Hf.
  - exists (ram s). rewrite Nat.add_0_r in *. split_and!; try done.
    cbn [iter]. unfold uncarve_body, arena_desc_of. destruct (header_addrs _ _ Hh) as (_ & _ & _ & A4).
    rewrite (bind_Ret _ _ _ (inr tt) s); [by rewrite set_ram_id|].
    rewrite (bind_Ret _ _ _ _ _ (ld32_ok _ _ _ (hd_desc _ _ Hh))), A4.
    rewrite (bind_Ret _ _ _ _ _ (ld32_ok _ _ _ (hd_sum _ _ Hh))).
    by replace (Z.of_nat t <? bsum k) with false by lia.
  - destruct (uncarve_step fuel cnt xs s t Hh Hd Hfar) as (m1 & H1 & Hh1 & Hd1 & Hs1 & Hst1);
      [apply Hall; lia|lia|done|].
    destruct (IH (set_ram m1 s) (S t) Hh1 Hd1 Hfar Hall ltac:(lia) Hf) as (m2 & H2 & Hh2 & Hd2 & Hs2 & Hst2).
    exists m2. rewrite (iter_S _ _ _ _ _ _ H1). replace (t + S n)%nat with (S t + n)%nat by lia.
    split_and!; try done.
    + intros a Ha. rewrite Hs2 by done. by apply Hs1.
    + by eapply stored_trans.
Qed.

End page_loops.
