(* ===== verification/Malloc.v ===== *)
(** * kernel/memory.c: correctness of [sys_malloc] and [sys_free]

    What allocating and freeing do to the heap of Heap.v and to the blocks in use. *)
From stdpp Require Import base list gmap functions strings.
From S2P Require Import Prelude Machine CString Bitmap Print Interrupt KList Paging State Sched Sync Pool.
From S2P Require Import Palloc Arena Heap.

(** ** The searches and steps of [sys_malloc] *)

(** [k] is the smallest class for [size] bytes. *)
Definition class_of (size k : Z) : Prop :=
  0 <= k < 7 /\ size <= bsize k /\ forall k', 0 <= k' < k -> bsize k' < size.

Section steps.
  Context (D : Z) (ps : pools) (V : virtual_addr) (pf : pool_flags).
  Abbreviation heap := (heap_ok D ps V pf).

Lemma desc_at_ok m pg ar fl k : heap m pg ar fl -> 0 <= k < 7 ->
  desc_at D k = D + sizeof_arena_desc * k.
Proof. intros Hh Hk. pose proof (ho_range _ _ _ _ _ _ _ _ Hh). unfold desc_at, sizeof_arena_desc in *. by rewrite u32_id by lia. Qed.

Lemma class_loop size m pg ar fl n : forall k s, ram s = m -> heap m pg ar fl -> 0 <= k -> k + Z.of_nat n = 7 -> size <= 1024 ->
  (forall k', 0 <= k' < k -> bsize k' < size) ->
  exists c, iter (S n) (class_body D size) k s = Ret (c, s) /\ class_of size c.
Proof.
  induction n as [|n IH]; intros k s Hs Hh Hk Hn Hsize Hlow.
  { assert (bsize 6 < size) as H by (apply Hlow; lia). change (bsize 6) with 1024 in H. lia. }
  destruct (Z.leb_spec size (bsize k)) as [Hle|Hgt].
  - exists k. split; [|split_and!; (done || lia)]. erewrite iter_S with (x := inr k); [done|].
    unfold class_body. unfold ARENA_SUM. replace (k <? 7) with true by lia.
    unfold block_size_of. rewrite (desc_at_ok _ _ _ _ _ Hh) by lia.
    erewrite bind_Ret; [|apply ld32_ok; rewrite Hs; apply (ho_classes _ _ _ _ _ _ _ _ Hh); lia].
    by replace (size <=? bsize k) with true by lia.
  - destruct (IH (k + 1) s Hs Hh ltac:(lia) ltac:(lia) Hsize) as (c & Hc & Hcl).
    { intros k' Hk'. destruct (decide (k' = k)) as [->|]; [lia|apply Hlow; lia]. }
    exists c. split; [|done]. erewrite iter_S with (x := inl (k + 1)); [done|].
    unfold class_body, ARENA_SUM. replace (k <? 7) with true by lia.
    unfold block_size_of. rewrite (desc_at_ok _ _ _ _ _ Hh) by lia.
    erewrite bind_Ret; [|apply ld32_ok; rewrite Hs; apply (ho_classes _ _ _ _ _ _ _ _ Hh); lia].
    by replace (size <=? bsize k) with false by lia.
Qed.

(** The header of an arena page. *)
Lemma arena_header m pg ar fl i k : heap m pg ar fl -> ar !! i = Some k ->
  header_ok D V i k m (Z.of_nat (length (free_in V i (fl k)))).
Proof.
  intros [H1 H2 H3 H4 H5 H6 H7 H8] Hi. destruct (H7 i k Hi) as [A1 A2 A3 A4 A5 A6 A7 A8].
  destruct (H6 k A2) as [C1 C2 C3]. destruct (vpage_facts _ _ _ _ i H1 A1) as (V0 & V1 & V2 & V3).
  constructor; try done.
  - unfold PAGE_SIZE. lia.
  - apply (space_apart D ps V m pg i); [done|lia|intros a Ha; by apply H3|done].
Qed.

(** A step on linear memory. *)
Lemma on_ram {A} (prog : M machine A) m p s a m' :
  prog (set_ram m (mach s)) = Ret (a, set_ram m' (set_ram m (mach s))) ->
  on_mach prog (with_mem m p s) = Ret (a, with_mem m' p s).
Proof. intros H. exact (on_mach_ok prog (with_mem m p s) a _ H). Qed.

(** A page of zeros with the header of an arena without blocks. *)
Definition blank_arena (m : gmap Z Z) (v desc sum : Z) : gmap Z Z :=
  setw (setw (setw (write_bytes m v (replicate page_n (u8 0))) v desc) (v + 8) 0) (v + 4) sum.

Lemma blank_stored m v desc sum : stored m (blank_arena m v desc sum).
Proof.
  unfold blank_arena. do 3 (eapply stored_trans; [|apply stored_setw]).
  apply write_bytes_stored, Forall_replicate, u8_range.
Qed.

Lemma blank_same m v desc sum : same_outside (fun a => v <= a < v + PAGE_SIZE) m (blank_arena m v desc sum).
Proof.
  intros a Ha. unfold blank_arena, PAGE_SIZE in *. rewrite !setw_lookup_out by lia.
  apply write_bytes_lookup_out. rewrite length_replicate, page_n_Z. lia.
Qed.

Lemma blank_words m v desc sum : 0 <= desc < 2 ^ 32 -> 0 <= sum < 2 ^ 32 ->
  word (blank_arena m v desc sum) v = Some desc /\ word (blank_arena m v desc sum) (v + 4) = Some sum /\
  word (blank_arena m v desc sum) (v + 8) = Some 0.
Proof.
  intros Hd Hs. unfold blank_arena. split_and!.
  - rewrite !word_setw_ne by lia. by apply word_setw_eq.
  - by apply word_setw_eq.
  - rewrite word_setw_ne by lia. by apply word_setw_eq.
Qed.

Lemma blank_run `{Env} fuel m p s v desc sum (rest : M kernel bool) :
  0 < v -> v + PAGE_SIZE < 2 ^ 32 -> readable m v PAGE_SIZE -> v + PAGE_SIZE <= desc \/ desc + 8 <= v ->
  0 < desc -> desc + 8 < 2 ^ 32 -> word m (desc + 4) = Some sum -> 0 <= sum < 2 ^ 32 ->
  (on_mach (memset v 0 PAGE_SIZE) ;;;
   on_mach (st32 (arena_desc_of v) desc) ;;;
   on_mach (st32 (arena_large_of v) 0) ;;;
   let* sum := on_mach (ld32 (blocks_sum_of desc)) in
   on_mach (st32 (arena_cnt_of v) sum) ;;;
   let* old_status := on_mach DisableInt in
   on_mach (iter (S (Z.to_nat sum)) (carve_body fuel v) 0) ;;;
   let* _ := on_mach (SetIntStatus old_status) in
   rest)%kernel (with_mem m p s) =
  (let* old_status := on_mach DisableInt in
   on_mach (iter (S (Z.to_nat sum)) (carve_body fuel v) 0) ;;;
   let* _ := on_mach (SetIntStatus old_status) in
   rest)%kernel (with_mem (blank_arena m v desc sum) p s).
Proof.
  intros Hv Hv2 Hr Hap Hd Hd2 Hsum Hs. unfold PAGE_SIZE in *. pose proof page_n_Z as Hn.
  set (m1 := write_bytes m v (replicate page_n (u8 0))).
  assert (readable m1 v 4096) as Hr1 by by apply write_bytes_readable.
  rewrite (bind_Ret _ _ _ tt (with_mem m1 p s)).
  2:{ apply on_ram. unfold memset. rewrite (bind_Ret _ _ _ tt (set_ram m (mach s))) by (apply ASSERT_true, negb_eqb_true; lia).
      change (Z.to_nat 4096) with page_n. pose proof (memset_loop 0 page_n (set_ram m (mach s)) v) as E.
      rewrite Hn in E. apply E; (done || lia). }
  unfold arena_desc_of. rewrite (bind_Ret _ _ _ tt (with_mem (setw m1 v desc) p s)).
  2:{ apply on_ram. apply st32_ok. apply word_readable. eapply readable_le; [exact Hr1|lia|lia]. }
  unfold arena_large_of, arena_cnt_of, blocks_sum_of. rewrite !(u32_id (_ + _)) by lia.
  rewrite (bind_Ret _ _ _ tt (with_mem (setw (setw m1 v desc) (v + 8) 0) p s)).
  2:{ apply on_ram. apply st32_ok. apply is_word_setw. apply word_readable. eapply readable_le; [exact Hr1|lia|lia]. }
  set (m3 := setw (setw m1 v desc) (v + 8) 0).
  rewrite (bind_Ret _ _ _ sum (with_mem m3 p s)).
  2:{ apply on_ram. rewrite set_ram_set_ram. apply ld32_ok. cbn [ram set_ram]. unfold m3.
      rewrite !word_setw_ne by lia. rewrite <- Hsum. apply word_same. intros b Hb.
      apply write_bytes_lookup_out. rewrite length_replicate, Hn. lia. }
  rewrite (bind_Ret _ _ _ tt (with_mem (setw m3 (v + 4) sum) p s)); [done|].
  apply on_ram. apply st32_ok. do 2 apply is_word_setw. apply word_readable. eapply readable_le; [exact Hr1|lia|lia].
Qed.

Lemma carve_run fuel i k m p s : header_ok D V i k m (bsum k) -> dll m (flist D k) [] -> (255 < fuel)%nat ->
  exists m', (let* old_status := on_mach DisableInt in
    on_mach (iter (S (Z.to_nat (bsum k))) (carve_body fuel (vpage V i)) 0) ;;;
    let* _ := on_mach (SetIntStatus old_status) in
    ret true)%kernel (with_mem m p s) = Ret (true, with_mem m' p s) /\
    header_ok D V i k m' (bsum k) /\ dll m' (flist D k) (blocks_upto V i k (Z.to_nat (bsum k))) /\
    same_outside (body_of D V i k) m m' /\ stored m m'.
Proof.
  intros Hh Hd Hf. pose proof (class_facts k (hd_class _ _ _ _ _ _ Hh)) as (_ & K & _).
  destruct (carve_loop D V i k fuel (Z.to_nat (bsum k)) (masked (set_ram m (mach s))) 0 Hh Hd)
    as (m' & Hrun & Hh' & Hd' & Hs & Hst); [lia|done|].
  exists m'. split_and!; try done.
  rewrite (bind_Ret _ _ _ _ _ (on_mach_ok _ (with_mem m p s) _ _ (DisableInt_ok _))).
  rewrite (bind_Ret _ _ _ _ _ (on_mach_ok _ (set_mach (masked (set_ram m (mach s))) (with_mem m p s)) _ _ Hrun)).
  destruct (restore_kernel (with_mem m' p s) _ eq_refl) as [old Hold].
  by erewrite bind_Ret; [|exact Hold].
Qed.

(** There are [j] pages to be had: bits of the space's bitmap, and frames with their page tables. *)
Definition room (m : gmap Z Z) (j : nat) : Prop := enough_frames ps m pf j /\ has_free m (vaddr_bitmap V) j.
Definition bits_same (m m' : gmap Z Z) : Prop := forall b j, 0 <= j < nbits (bitmap_at ps V b) ->
  bit m' (bitmap_at ps V b) j = bit m (bitmap_at ps V b) j.

Lemma room_le m i j : room m i -> (j <= i)%nat -> room m j.
Proof. intros [H1 H2] Hj. split; [by eapply enough_le|by eapply has_free_le]. Qed.

Lemma room_mono m m' j : (forall b i, 0 <= i < nbits (bitmap_at ps V b) ->
  bit m (bitmap_at ps V b) i = false -> bit m' (bitmap_at ps V b) i = false) -> room m j -> room m' j.
Proof.
  intros Hb [[H1 H2] H3]. split; [split|]; (eapply has_free_mono; [|eassumption]).
  - exact (Hb (Some KERNEL_POOL)).
  - exact (Hb (Some pf)).
  - exact (Hb None).
Qed.

Lemma room_same m m' j : bits_same m m' -> room m j -> room m' j.
Proof. intros Hb. apply room_mono. intros b i Hi. by rewrite Hb. Qed.

Context `{Env}.

#[local] Opaque blank_arena.

(** What [new_arena] does: page [r] of the space becomes an arena whose blocks are the free list. *)
Definition arena_made (m m' : gmap Z Z) (pg' : paging) (ar : gmap Z Z) (fl : Z -> list Z) (k r : Z) : Prop :=
  heap m' pg' (<[r := k]> ar) (<[k := blocks_upto V r k (Z.to_nat (bsum k))]> fl) /\
  0 <= r < space_bits V /\ ar !! r = None /\ bit m (vaddr_bitmap V) r = false /\
  (forall i k' a, ar !! i = Some k' -> in_page V i a -> m' !! a = m !! a) /\
  (forall j, room m (S j) -> room m' j).

Lemma free_in_other i r k t : i <> r -> 0 <= k < 7 -> Z.of_nat t <= bsum k -> free_in V i (blocks_upto V r k t) = [].
Proof.
  intros Hne Hk Ht. unfold free_in. apply filter_none. intros x (j & Hj & ->)%elem_of_blocks Hx. apply Hne.
  apply (vpages_apart V i r (block V r k j)); [done|].
  destruct (block_in_page V r k j Hk) as [B1 B2]; [lia|]. pose proof (class_facts k Hk) as (K & _).
  unfold in_page. lia.
Qed.

Lemma free_in_all r k t : 0 <= k < 7 -> Z.of_nat t <= bsum k -> length (free_in V r (blocks_upto V r k t)) = t.
Proof.
  intros Hk Ht. unfold free_in. rewrite filter_all.
  - unfold blocks_upto. by rewrite length_fmap, length_seq.
  - intros x (j & Hj & ->)%elem_of_blocks. destruct (block_in_page V r k j Hk) as [B1 B2]; [lia|].
    pose proof (class_facts k Hk) as (K & _). unfold in_page. lia.
Qed.

(** Page [j] is in use and mapped to a frame [pfree] can give back. *)
Definition page_held (m : gmap Z Z) (pg : paging) (j : Z) : Prop :=
  bit m (vaddr_bitmap V) j = true /\ exists q, 0 <= q < pool_bits (pool_of pf ps) /\
    (pf = USER_POOL -> q <> 0) /\ translate pg (vpage V j) = Some (frame (pool_of pf ps) q).

(** The bit of the first user frame, seen through changes to the bitmap of the space. *)
Lemma user_bit_kept m m1 pg : mem_ok ps V m pg -> 0 < pool_bits (user_memory_pool ps) ->
  same_outside (in_bitmap (vaddr_bitmap V)) m m1 ->
  bit m1 (pool_bitmap (user_memory_pool ps)) 0 = bit m (pool_bitmap (user_memory_pool ps)) 0.
Proof.
  intros Hm HU Hs. apply (bit_keep _ _ _ _ _ Hs). intros Hc.
  assert (in_bitmap (bitmap_at ps V (Some USER_POOL)) (bits (pool_bitmap (user_memory_pool ps)) + 0 / 8)) as Hd.
  { apply bit_in_bitmap. unfold pool_bits in HU. cbn [bitmap_at pool_of]. lia. }
  by pose proof (mo_apart _ _ _ _ Hm _ None _ Hd Hc).
Qed.

(** [palloc] leaves the heap alone. *)
Lemma heap_palloc s ar fl cnt r m1 m2 pg2 : mem s = ps -> heap (ram (mach s)) (pg s) ar fl -> 0 <= cnt ->
  palloc_result s pf V cnt r m1 m2 pg2 ->
  heap m2 pg2 ar fl /\ (forall j, r <= j < r + cnt -> ar !! j = None /\ page_held m2 pg2 j) /\
  (forall i k a, ar !! i = Some k -> in_page V i a -> m2 !! a = ram (mach s) !! a).
Proof.
  intros Hps Hh Hcnt (R1 & R2 & R3 & _ & [R5 R5'] & [Q1 Q2 (rs & L & Nd & F & T) Q4 Q5 Q6 Q7 Q8]).
  rewrite Hps in *. pose proof Hh as [H1 H2 H3 H4 H5 H6 H7 H8].
  assert (forall j, r <= j < r + cnt -> ar !! j = None) as Hr.
  { intros j Hj. destruct (ar !! j) as [k'|] eqn:E; [|done]. pose proof (ao_used _ _ _ _ _ _ _ _ _ (H7 j k' E)) as Hu.
    by rewrite R3 in Hu. }
  assert (forall a, (forall j, r <= j < r + cnt -> ~ in_page V j a) -> (forall b, ~ in_bitmap (bitmap_at ps V b) a) ->
    m2 !! a = ram (mach s) !! a) as Hsame.
  { intros a Ha Hb. rewrite Q8; [apply R5'; apply (Hb None)|]. intros [Hc|[Hc|Hc]].
    - by apply (Hb (Some KERNEL_POOL)).
    - by apply (Hb (Some pf)).
    - unfold in_page, vpage, PAGE_SIZE in *. apply (Ha ((a - vaddr_start V) / 4096)); Z.to_euclidean_division_equations; lia. }
  assert (forall i k a, ar !! i = Some k -> in_page V i a -> m2 !! a = ram (mach s) !! a) as Hpages.
  { intros i k a Hi Ha. pose proof (ao_page _ _ _ _ _ _ _ _ _ (H7 i k Hi)) as Hip. apply Hsame.
    - intros j Hj Hc. rewrite (vpages_apart V i j a Ha Hc), Hr in Hi; done.
    - intros b Hb. apply (mo_away _ _ _ _ H1 b a (page_in_space V i a Hip Ha)). unfold in_bitmap in Hb. lia. }
  assert (pf = USER_POOL -> bit m2 (pool_bitmap (user_memory_pool ps)) 0 = true) as Hu0.
  { intros Hpf. destruct (H5 Hpf) as [U1 U2]. apply (Q6 USER_POOL 0); [cbn [pool_of]; lia|].
    cbn [pool_of]. by rewrite (user_bit_kept _ _ _ H1 U1 R5'). }
  split_and!; [| |done].
  - apply (heap_keep D ps V pf _ _ _ _ _ _ Hh Q1); [|done| |done].
    + intros a Ha. destruct (H3 a Ha) as [A1 A2]. apply Hsame.
      * intros j Hj Hc. apply A1. by apply (page_in_space V j); [lia|].
      * intros b Hb. apply (A2 b). unfold in_bitmap in Hb. lia.
    + intros i k Hi. pose proof (H7 i k Hi) as Ha. pose proof (ao_page _ _ _ _ _ _ _ _ _ Ha) as Hip. split.
      * rewrite Q5 by done. rewrite R5, (ao_used _ _ _ _ _ _ _ _ _ Ha). by destruct (_ && _).
      * apply Q4; [by apply (vpage_facts _ _ _ _ _ H1)|]. intros Hc. rewrite Hr in Hi; [done|].
        unfold vpage, PAGE_SIZE in *. lia.
  - intros j Hj. split; [by apply Hr|]. split.
    { rewrite Q5 by lia. rewrite R5. by replace ((r <=? j) && (j <? r + cnt)) with true by lia. }
    destruct (lookup_lt_is_Some_2 rs (Z.to_nat (j - r))) as [q Hq]; [lia|]. exists q.
    destruct (Forall_lookup_1 _ _ _ _ F Hq) as [Fq Fb]. split_and!; [apply Fq|apply Fq| |].
    + intros Hpf ->. destruct (H5 Hpf) as [U1 U2]. subst pf. cbn [pool_of] in Fb.
      rewrite (user_bit_kept _ _ _ H1 U1 R5') in Fb. congruence.
    + pose proof (T _ _ Hq) as E. by replace (r + Z.of_nat (Z.to_nat (j - r))) with j in E by lia.
Qed.

(** A page that was outside the heap, made into an arena. *)
Lemma heap_new_page m m' pg' ar fl k r : heap m pg' ar fl -> 0 <= k < 7 -> fl k = [] ->
  0 <= r < space_bits V -> ar !! r = None -> bit m (vaddr_bitmap V) r = true ->
  (exists q, 0 <= q < pool_bits (pool_of pf ps) /\ (pf = USER_POOL -> q <> 0) /\
     translate pg' (vpage V r) = Some (frame (pool_of pf ps) q)) ->
  stored m m' -> same_outside (fun a => in_page V r a \/ sentinels D k a) m m' ->
  header_ok D V r k m' (bsum k) -> word m' (vpage V r + 8) = Some 0 ->
  dll m' (flist D k) (blocks_upto V r k (Z.to_nat (bsum k))) ->
  heap m' pg' (<[r := k]> ar) (<[k := blocks_upto V r k (Z.to_nat (bsum k))]> fl) /\ bits_same m m' /\
  forall i k' a, ar !! i = Some k' -> in_page V i a -> m' !! a = m !! a.
Proof.
  intros Hh Hk Hfl Hr Har Hbr Hq Hst Hs Hhd Hlarge Hd. pose proof Hh as [H1 H2 H3 H4 H5 H6 H7 H8].
  destruct (class_facts k Hk) as (K1 & K2 & K3).
  assert (forall a, sentinels D k a -> ~ in_space V a) as Hsent.
  { intros a Ha. apply H3. unfold sentinels, flist, sizeof_arena_desc in *. lia. }
  assert (forall i k' a, ar !! i = Some k' -> in_page V i a -> m' !! a = m !! a) as Hpages.
  { intros i k' a Hi Ha. apply Hs. intros [Hc|Hc].
    - rewrite (vpages_apart V i r a Ha Hc) in Hi. congruence.
    - apply (Hsent a Hc), (page_in_space V i); [|done]. apply (H7 i k' Hi). }
  assert (same_outside (touched D V ar k) m m') as Ht.
  { intros a Ha. apply Hs. intros [Hc|Hc]; apply Ha; [right|by left].
    split; [by apply (page_in_space V r)|]. intros i k' Hi Hne Hi'.
    rewrite (vpages_apart V i r a Hi' Hc) in Hi. congruence. }
  assert (ram_ok m') as Hram by (apply Hst, (mo_bitmap _ _ _ _ H1 None)).
  destruct (mem_ok_touched D ps V pf m m' pg' ar fl k Hh Hk Hram Ht) as [_ Hb].
  split; [|by split]. apply (heap_update D ps V pf m m' pg' ar _ fl k _ Hh Hk Hram Ht).
  - intros i k' Hne. rewrite lookup_insert. case_decide; [subst; rewrite Har; naive_solver|done].
  - exact Hd.
  - intros i Hi. rewrite lookup_insert in Hi. case_decide as Hir.
    + subst i. constructor; try exact Hq; try exact Hk; try exact Hr; try exact Hlarge.
      * pose proof (Hb None r Hr) as E. cbn [bitmap_at] in E. by rewrite E.
      * apply Hhd.
      * apply Hhd.
      * rewrite free_in_all, Z2Nat.id by lia. apply Hhd.
    + pose proof (H7 i k Hi) as Hok. rewrite Hfl in Hok.
      apply (arena_ok_same D ps V pf m m' pg' pg' [] _ i k Hok).
      * intros a Ha. apply (Hpages i k); [done|]. unfold in_page, PAGE_SIZE. lia.
      * apply (stored_readable m _ _ _ Hst), Hok.
      * pose proof (Hb None i (ao_page _ _ _ _ _ _ _ _ _ Hok)) as E. cbn [bitmap_at] in E. rewrite E. apply Hok.
      * reflexivity.
      * rewrite free_in_other by (done || lia). reflexivity.
  - intros x (j & Hj & ->)%elem_of_blocks. exists r, j. rewrite lookup_insert_eq. split_and!; [done|lia|lia|done].
Qed.

(** The blank page has the header of an arena of class [k]. *)
Lemma blank_header m pg' ar fl k r : heap m pg' ar fl -> 0 <= k < 7 -> fl k = [] -> 0 <= r < space_bits V ->
  readable m (vpage V r) PAGE_SIZE ->
  let m' := blank_arena m (vpage V r) (D + sizeof_arena_desc * k) (bsum k) in
  header_ok D V r k m' (bsum k) /\ dll m' (flist D k) [] /\ word m' (vpage V r + 8) = Some 0.
Proof.
  intros Hh Hk Hfl Hr Hread. pose proof Hh as [H1 H2 H3 H4 H5 H6 H7 H8].
  destruct (H6 k Hk) as [C1 C2 C3]. rewrite Hfl in C3. destruct (class_facts k Hk) as (K1 & K2 & K3).
  destruct (vpage_facts _ _ _ _ r H1 Hr) as (Hin & V1 & V2 & V3).
  pose proof (space_apart D ps V m pg' r H1 ltac:(lia) ltac:(intros a Ha; by apply H3) Hr) as Hap.
  assert (0 <= D + sizeof_arena_desc * k < 2 ^ 32) as Hdr by (unfold sizeof_arena_desc in *; lia).
  destruct (blank_words m (vpage V r) (D + sizeof_arena_desc * k) (bsum k) Hdr ltac:(lia)) as (W1 & W2 & W3).
  pose proof (blank_same m (vpage V r) (D + sizeof_arena_desc * k) (bsum k)) as Hs.
  pose proof (blank_stored m (vpage V r) (D + sizeof_arena_desc * k) (bsum k)) as Hst.
  revert W1 W2 W3 Hs Hst. generalize (blank_arena m (vpage V r) (D + sizeof_arena_desc * k) (bsum k)) as m'.
  intros m' W1 W2 W3 Hs Hst.
  assert (forall a, D + sizeof_arena_desc * k <= a < D + sizeof_arena_desc * k + 24 -> m' !! a = m !! a) as Hdesc.
  { intros a Ha. apply Hs. unfold sizeof_arena_desc in *. lia. }
  split; [|split; [|exact W3]].
  - constructor; try exact W1; try exact W2; try exact Hk; try exact H2; try exact Hap.
    + unfold PAGE_SIZE. lia.
    + by apply (stored_readable m).
    + rewrite <- C1. apply word_same. intros b Hb. apply Hdesc. lia.
    + rewrite <- C2. apply word_same. intros b Hb. apply Hdesc. lia.
  - eapply dll_same; [exact C3|]. intros a (n & Hn & Ha). apply Hdesc. unfold flist, nodes in *.
    cbn [app] in Hn. rewrite !elem_of_cons, elem_of_nil in Hn. lia.
Qed.

Lemma new_arena_ok fuel s k ar fl r0 : mem s = ps -> space_of pf s = Ret (V, s) ->
  heap (ram (mach s)) (pg s) ar fl -> 0 <= k < 7 -> fl k = [] -> (255 < fuel)%nat ->
  0 <= r0 < space_bits V -> bit (ram (mach s)) (vaddr_bitmap V) r0 = false ->
  enough_frames ps (ram (mach s)) pf 1 ->
  exists r m' pg', new_arena fuel pf (D + sizeof_arena_desc * k) s = Ret (true, with_mem m' pg' s) /\
    arena_made (ram (mach s)) m' pg' ar fl k r.
Proof.
  intros Hps Hsp Hh Hk Hfl Hf Hr0 Hb0 Hfr.
  destruct (palloc_ok s pf V 1 r0 Hsp) as (r & m1 & m2 & pg2 & Hp & Hres);
    [rewrite Hps; apply Hh|lia|lia|lia| |by rewrite Hps|].
  { intros j Hj. by replace j with r0 by lia. }
  destruct (heap_palloc s ar fl 1 r m1 m2 pg2 Hps Hh ltac:(lia) Hres) as (Hh2 & Hpg & Hkeep).
  destruct (Hpg r ltac:(lia)) as (Hr & Hbr & Hq).
  destruct Hres as (R1 & R2 & R3 & _ & [R5 R5'] & [_ _ _ _ Q5 _ Hread _ _ Q10]).
  change (Z.to_nat 1) with 1%nat in Hread. change (PAGE_SIZE * Z.of_nat 1) with PAGE_SIZE in Hread.
  destruct (blank_header m2 pg2 ar fl k r Hh2 Hk Hfl ltac:(lia) Hread) as (Hhd & Hd3 & W3).
  pose proof (blank_same m2 (vpage V r) (D + sizeof_arena_desc * k) (bsum k)) as Hs3.
  pose proof (blank_stored m2 (vpage V r) (D + sizeof_arena_desc * k) (bsum k)) as Hst3.
  destruct (carve_run fuel r k _ pg2 s Hhd Hd3 Hf) as (m4 & Hrun & Hhd4 & Hd4 & Hs4 & Hst4).
  destruct (class_facts k Hk) as (K1 & K2 & K3).
  destruct (heap_new_page m2 m4 pg2 ar fl k r Hh2 Hk Hfl) as (Hh4 & Hb4 & Hk4); [lia|done|done|done| | |done| |done|].
  - by eapply stored_trans.
  - intros a Ha. rewrite Hs4, Hs3; [done| |].
    + intros Hc. apply Ha. by left.
    + intros [Hc|Hc]; apply Ha; [by right|left]. unfold in_page. lia.
  - rewrite <- W3. apply word_same. intros b Hb. apply Hs4. pose proof (hd_apart _ _ _ _ _ _ Hhd).
    unfold body_of, sentinels, flist, PAGE_SIZE, sizeof_arena_desc in *. lia.
  - exists r, m4, pg2. split.
    + destruct Hhd as [_ P1 P2 P3 _ _ _ _ _]. destruct (ho_classes _ _ _ _ _ _ _ _ Hh2 k Hk) as [_ C2 _].
      unfold new_arena. rewrite (bind_Ret _ _ _ _ _ Hp). replace (vpage V r =? 0) with false by lia.
      rewrite (blank_run fuel m2 pg2 s (vpage V r) _ (bsum k)); [exact Hrun|lia|lia|done| | | |done|lia];
        unfold PAGE_SIZE, sizeof_arena_desc in *; lia.
    + split; [done|]. split; [lia|]. split; [done|]. split; [apply R3; lia|].
      split; [intros i k' a Hi Ha; rewrite (Hk4 i k') by done; by apply (Hkeep i k')|].
      intros j [[HK HP] HV]. apply (room_same m2 m4 j Hb4). rewrite Hps in *. change (Z.to_nat 1) with 1%nat in Q10.
      pose proof (reserved_bits _ _ _ _ _ _ _ (ho_mem _ _ _ _ _ _ _ _ Hh) (conj R5 R5')) as Hrb. split.
      * apply Q10. split; (eapply has_free_same; [|eassumption]); [exact (Hrb KERNEL_POOL)|exact (Hrb pf)].
      * apply (has_free_set_in (ram (mach s)) _ _ r _ HV). intros i Hi. rewrite Q5, R5 by done.
        by replace ((r <=? i) && (i <? r + 1)) with (i =? r) by lia.
Qed.

(** ** Blocks of the heap *)

Lemma block_facts m pg ar fl k x : heap m pg ar fl -> block_of V ar k x ->
  0 <= k < 7 /\ exists i, ar !! i = Some k /\ 0 <= i < space_bits V /\ vpage V i + 12 <= x /\
    x + bsize k <= vpage V i + PAGE_SIZE /\ block2arena x = vpage V i /\ 0 < vpage V i /\
    vpage V i + PAGE_SIZE < 2 ^ 32 /\ 16 <= bsize k <= 1024 /\ readable m x (bsize k).
Proof.
  intros Hh (i & j & Hi & Hj & ->). pose proof (ho_arenas _ _ _ _ _ _ _ _ Hh i k Hi) as Hok.
  pose proof (ao_class _ _ _ _ _ _ _ _ _ Hok) as Hk. pose proof (ao_page _ _ _ _ _ _ _ _ _ Hok) as Hp.
  destruct (block_in_page V i k j Hk Hj) as [B1 B2]. destruct (class_facts k Hk) as (K1 & _).
  destruct (vpage_facts _ _ _ _ i (ho_mem _ _ _ _ _ _ _ _ Hh) Hp) as (_ & V1 & V2 & _).
  split; [done|]. exists i. split_and!; try done; try (unfold PAGE_SIZE in *; lia).
  - eapply block2arena_ok; [apply Hh|done|]. unfold in_page. lia.
  - eapply readable_le; [apply Hok|lia|lia].
Qed.

Lemma blocks_disjoint m pg ar fl k k' x y : heap m pg ar fl -> block_of V ar k x -> block_of V ar k' y -> x <> y ->
  x + bsize k <= y \/ y + bsize k' <= x.
Proof.
  intros Hh Hx Hy Hne. destruct (block_facts _ _ _ _ _ _ Hh Hx) as (Hk & i & Hi & _ & B1 & B2 & _).
  destruct (block_facts _ _ _ _ _ _ Hh Hy) as (Hk' & i' & Hi' & _ & B1' & B2' & _).
  destruct (decide (i = i')) as [->|Hii].
  - assert (k' = k) as -> by congruence. destruct Hx as (i1 & j1 & _ & Hj1 & ->). destruct Hy as (i2 & j2 & _ & Hj2 & ->).
    pose proof (block_in_page V i1 k j1 Hk Hj1). pose proof (block_in_page V i2 k j2 Hk Hj2).
    pose proof (class_facts k Hk) as (K1 & _).
    destruct (Z.lt_trichotomy i1 i2) as [Hl|[->|Hl]].
    + left. unfold vpage, PAGE_SIZE in *. lia.
    + by apply blocks_apart.
    + right. unfold vpage, PAGE_SIZE in *. lia.
  - pose proof (class_facts k Hk). pose proof (class_facts k' Hk'). unfold vpage, PAGE_SIZE in *. lia.
Qed.

Lemma block_class m pg ar fl k k' x : heap m pg ar fl -> block_of V ar k x -> block_of V ar k' x -> k = k'.
Proof.
  intros Hh Hx Hy. destruct (block_facts _ _ _ _ _ _ Hh Hx) as (Hk & i & Hi & _ & B1 & B2 & _).
  destruct (block_facts _ _ _ _ _ _ Hh Hy) as (Hk' & i' & Hi' & _ & B1' & B2' & _).
  pose proof (class_facts k Hk). pose proof (class_facts k' Hk').
  assert (i = i') as ->; [|congruence]. unfold vpage, PAGE_SIZE in *. lia.
Qed.

(** A byte of a free list, seen from page [i]. *)
Lemma nodes_far m pg ar fl i k a : heap m pg ar fl -> ar !! i = Some k ->
  in_nodes (nodes (flist D k) (fl k)) a -> far_of D V i k a.
Proof.
  intros Hh Hi Ha. pose proof (ho_arenas _ _ _ _ _ _ _ _ Hh i k Hi) as Hok. pose proof (ao_class _ _ _ _ _ _ _ _ _ Hok) as Hk.
  destruct (class_nodes D V ar (fl k) k a Hk ltac:(intros x; by apply Hh) Ha) as [Hs|(i' & Hi' & B & Hin)].
  - left. by left.
  - destruct (decide (i' = i)) as [->|Hne]; [left; right; unfold in_page in Hin; lia|].
    assert (~ (D <= a < D + 7 * sizeof_arena_desc)) as Hd.
    { intros Hc. apply (ho_away _ _ _ _ _ _ _ _ Hh a Hc). eapply page_in_space; [|exact Hin].
      apply (ho_arenas _ _ _ _ _ _ _ _ Hh i' k Hi'). }
    right. unfold in_page, vpage, PAGE_SIZE in *. lia.
Qed.

Lemma nodes_touched m pg ar fl k a : heap m pg ar fl -> 0 <= k < 7 ->
  in_nodes (nodes (flist D k) (fl k)) a -> touched D V ar k a.
Proof.
  intros Hh Hk Ha. destruct (class_nodes D V ar (fl k) k a Hk ltac:(intros x; by apply Hh) Ha) as [Hs|(i & Hi & B & Hin)];
    [by left|right]. split.
  - eapply page_in_space; [|exact Hin]. apply (ho_arenas _ _ _ _ _ _ _ _ Hh i k Hi).
  - intros i' k' Hi' Hne Hin'. rewrite (vpages_apart V i' i a Hin' Hin) in Hi'. congruence.
Qed.

Lemma page_touched m pg ar fl i k a : heap m pg ar fl -> ar !! i = Some k -> in_page V i a -> touched D V ar k a.
Proof.
  intros Hh Hi Hin. right. split.
  - eapply page_in_space; [|exact Hin]. apply (ho_arenas _ _ _ _ _ _ _ _ Hh i k Hi).
  - intros i' k' Hi' Hne Hin'. rewrite (vpages_apart V i' i a Hin' Hin) in Hi'. congruence.
Qed.

(** A byte of a block in use is in no free list and no header. *)
Lemma live_bytes m pg ar fl k y a : heap m pg ar fl -> live V ar fl k y -> y <= a < y + bsize k ->
  (forall k', 0 <= k' < 7 -> ~ in_nodes (nodes (flist D k') (fl k')) a) /\
  (forall i, ~ vpage V i <= a < vpage V i + 12) /\
  (forall k' x, 0 <= k' < 7 -> x ∈ fl k' -> ~ x <= a < x + bsize k').
Proof.
  intros Hh [Hb Hnf] Ha. destruct (block_facts _ _ _ _ _ _ Hh Hb) as (Hk & i & Hi & Hip & B1 & B2 & _).
  assert (forall k' x, 0 <= k' < 7 -> x ∈ fl k' -> x + bsize k' <= a \/ a < x) as Hfree.
  { intros k' x Hk' Hx. pose proof (ho_free _ _ _ _ _ _ _ _ Hh k' x Hk' Hx) as Hbx.
    destruct (decide (x = y)) as [->|Hne].
    - rewrite (block_class _ _ _ _ _ _ _ Hh Hb Hbx) in Hnf. done.
    - destruct (blocks_disjoint _ _ _ _ _ _ _ _ Hh Hbx Hb Hne); lia. }
  split_and!.
  - intros k' Hk' (n & Hn & Hna). unfold nodes in Hn. rewrite elem_of_cons, elem_of_app, list_elem_of_singleton in Hn.
    assert (in_space V a) as Hsp by (eapply page_in_space; [exact Hip|]; unfold in_page; lia).
    assert (forall b, flist D k' <= b < flist D k' + 16 -> ~ in_space V b) as Hst.
    { intros b Hbb. apply (ho_away _ _ _ _ _ _ _ _ Hh). unfold flist, sizeof_arena_desc in *. lia. }
    destruct Hn as [->|[Hn| ->]]; [apply (Hst a); [lia|done]| |apply (Hst a); [lia|done]].
    destruct (Hfree k' n Hk' Hn) as [?|?]; [|lia]. pose proof (class_facts k' Hk') as (K & _). lia.
  - intros i' Hi'. unfold vpage, PAGE_SIZE in *. lia.
  - intros k' x Hk' Hx. destruct (Hfree k' x Hk' Hx); lia.
Qed.

(** ** Taking a block *)

Definition zeroed (m : gmap Z Z) (x n : Z) : gmap Z Z := write_bytes m x (replicate (Z.to_nat n) (u8 0)).

Lemma zeroed_stored m x n : stored m (zeroed m x n).
Proof. apply write_bytes_stored, Forall_replicate, u8_range. Qed.

Lemma zeroed_out m x n a : ~ x <= a < x + n -> zeroed m x n !! a = m !! a.
Proof. intros Ha. apply write_bytes_lookup_out. rewrite length_replicate. lia. Qed.

Lemma zeroed_in m x n a : x <= a < x + n -> zeroed m x n !! a = Some 0.
Proof.
  intros Ha. replace a with (x + Z.of_nat (Z.to_nat (a - x))) by lia. apply write_bytes_lookup_in.
  apply lookup_replicate_2. lia.
Qed.

Lemma free_in_cons i x xs : free_in V i (x :: xs) = if decide (in_page V i x) then x :: free_in V i xs else free_in V i xs.
Proof. unfold free_in. by rewrite filter_cons. Qed.

(** The count of page [i] changes from [c] to [c']; headers otherwise stay. *)
Lemma arena_count m m' pg ar fl k xs' i c' : heap m pg ar fl -> 0 <= k < 7 -> ar !! i = Some k ->
  stored m m' -> mem_ok ps V m' pg ->
  (forall j, 0 <= j < space_bits V -> bit m' (vaddr_bitmap V) j = bit m (vaddr_bitmap V) j) ->
  (forall j k' a, ar !! j = Some k' -> vpage V j <= a < vpage V j + 12 -> ~ vpage V i + 4 <= a < vpage V i + 8 ->
     m' !! a = m !! a) ->
  word m' (vpage V i + 4) = Some c' -> c' = Z.of_nat (length (free_in V i xs')) ->
  (forall j, j <> i -> ar !! j = Some k -> length (free_in V j xs') = length (free_in V j (fl k))) ->
  forall j, ar !! j = Some k -> arena_ok D ps V pf m' pg xs' j k.
Proof.
  intros Hh Hk Hi Hst Hm Hb Hhd Hc -> Hother j Hj.
  pose proof (ho_arenas _ _ _ _ _ _ _ _ Hh j k Hj) as Hok.
  destruct (decide (j = i)) as [->|Hne].
  - destruct Hok as [A1 A2 A3 A4 A5 A6 A7 A8]. constructor; try done.
    + by rewrite Hb.
    + by apply (stored_readable m).
    + rewrite <- A6. apply word_same. intros b Hbb. apply (Hhd i k); [done|lia|lia].
    + rewrite <- A8. apply word_same. intros b Hbb. apply (Hhd i k); [done|lia|lia].
  - apply (arena_ok_same D ps V pf m m' pg pg (fl k) xs' j k Hok).
    + intros a Ha. apply (Hhd j k); [done|done|]. intros Hc'. apply Hne.
      apply (vpages_apart V j i a); unfold in_page, PAGE_SIZE; lia.
    + by apply (stored_readable m); [|apply Hok].
    + rewrite Hb by apply Hok. apply Hok.
    + done.
    + by apply Hother.
Qed.

(** No byte of a free list is in a header. *)
Lemma nodes_header m pg ar fl k i k' a : heap m pg ar fl -> 0 <= k < 7 -> ar !! i = Some k' ->
  vpage V i <= a < vpage V i + 12 -> ~ in_nodes (nodes (flist D k) (fl k)) a.
Proof.
  intros Hh Hk Hi Ha Hn.
  destruct (class_nodes D V ar (fl k) k a Hk ltac:(intros x; by apply Hh) Hn) as [Hs|(i' & Hi' & B & Hin)].
  - apply (ho_away _ _ _ _ _ _ _ _ Hh a); [unfold sentinels, flist, sizeof_arena_desc in *; lia|].
    apply (page_in_space V i); [apply (ho_arenas _ _ _ _ _ _ _ _ Hh i k' Hi)|unfold in_page, PAGE_SIZE; lia].
  - unfold in_page, vpage, PAGE_SIZE in *. lia.
Qed.

(** The free blocks of a page are different blocks of it. *)
Lemma free_in_sub m pg ar fl i k : heap m pg ar fl -> ar !! i = Some k ->
  free_in V i (fl k) ⊆+ blocks_upto V i k (Z.to_nat (bsum k)).
Proof.
  intros Hh Hi. pose proof (ao_class _ _ _ _ _ _ _ _ _ (ho_arenas _ _ _ _ _ _ _ _ Hh i k Hi)) as Hk.
  apply NoDup_submseteq.
  - apply NoDup_filter, (dll_NoDup _ _ _ (co_list _ _ _ _ (ho_classes _ _ _ _ _ _ _ _ Hh k Hk))).
  - intros x [Hx Hin]%list_elem_of_filter. pose proof (ho_free _ _ _ _ _ _ _ _ Hh k x Hk Hin) as Hb.
    destruct (block_facts _ _ _ _ _ _ Hh Hb) as (_ & i' & Hi' & _ & B1 & B2 & _ & _ & _ & K & _).
    destruct Hb as (i2 & j & Hi2 & Hj & ->). apply elem_of_blocks. exists j. split; [lia|]. f_equal.
    destruct (block_in_page V i2 k j Hk Hj) as [C1 C2]. apply (vpages_apart V i2 i (block V i2 k j)); [|done].
    unfold in_page. lia.
Qed.

Lemma free_in_bound m pg ar fl i k : heap m pg ar fl -> ar !! i = Some k ->
  Z.of_nat (length (free_in V i (fl k))) <= bsum k <= 255.
Proof.
  intros Hh Hi. pose proof (submseteq_length _ _ (free_in_sub _ _ _ _ _ _ Hh Hi)) as Hl.
  pose proof (ao_class _ _ _ _ _ _ _ _ _ (ho_arenas _ _ _ _ _ _ _ _ Hh i k Hi)) as Hk.
  pose proof (class_facts k Hk) as (_ & K & _).
  unfold blocks_upto in Hl. rewrite length_fmap, length_seq in Hl. lia.
Qed.

Lemma heap_take m m1 pg ar fl k x xs i : heap m pg ar fl -> fl k = x :: xs -> 0 <= k < 7 -> ar !! i = Some k ->
  vpage V i + 12 <= x -> x + bsize k <= vpage V i + PAGE_SIZE ->
  dll m1 (flist D k) xs -> same_outside (in_nodes (nodes (flist D k) (fl k))) m m1 -> stored m m1 ->
  let m3 := setw (zeroed m1 x (bsize k)) (vpage V i + 4) (Z.of_nat (length (free_in V i xs))) in
  heap m3 pg ar (<[k := xs]> fl) /\ bits_same m m3 /\ (forall a, x <= a < x + bsize k -> m3 !! a = Some 0) /\
  (forall k' y a, live V ar fl k' y -> y <= a < y + bsize k' -> m3 !! a = m !! a).
Proof.
  intros Hh Hfl Hk Hi Hx1 Hx2 Hd Hs Hst m3. pose proof (class_facts k Hk) as (K1 & K2 & K3).
  assert (forall a, ~ x <= a < x + bsize k -> ~ vpage V i + 4 <= a < vpage V i + 8 -> m3 !! a = m1 !! a) as H31.
  { intros a Ha Ha'. unfold m3. rewrite setw_lookup_out by lia. by apply zeroed_out. }
  assert (forall a, ~ in_nodes (nodes (flist D k) (fl k)) a -> ~ x <= a < x + bsize k ->
    ~ vpage V i + 4 <= a < vpage V i + 8 -> m3 !! a = m !! a) as H3.
  { intros a Hn Ha Ha'. rewrite H31 by done. by apply Hs. }
  assert (stored m m3) as Hst3.
  { eapply stored_trans; [exact Hst|]. eapply stored_trans; [apply zeroed_stored|apply stored_setw]. }
  pose proof (ho_arenas _ _ _ _ _ _ _ _ Hh i k Hi) as Hok. pose proof (ao_page _ _ _ _ _ _ _ _ _ Hok) as Hip.
  assert (same_outside (touched D V ar k) m m3) as Ht.
  { intros a Ha. apply H3; [by intros Hn%(nodes_touched _ _ _ _ _ _ Hh Hk)| |];
      intros Hc; apply Ha, (page_touched _ _ _ _ i k a Hh Hi); unfold in_page, PAGE_SIZE; (unfold PAGE_SIZE in *; lia). }
  assert (ram_ok m3) as Hram by (apply Hst3, (mo_bitmap _ _ _ _ (ho_mem _ _ _ _ _ _ _ _ Hh) None)).
  destruct (mem_ok_touched D ps V pf m m3 pg ar fl k Hh Hk Hram Ht) as [Hm3 Hb3].
  split_and!.
  - apply (heap_update D ps V pf m m3 pg ar ar fl k xs Hh Hk Hram Ht).
    + done.
    + eapply dll_same; [exact Hd|]. intros a (n & Hn & Ha).
      assert (n <> x /\ n ∈ nodes (flist D k) (fl k)) as [Hnx Hnn].
      { pose proof (dll_NoDup _ _ _ (co_list _ _ _ _ (ho_classes _ _ _ _ _ _ _ _ Hh k Hk))) as Hnd. rewrite Hfl in Hnd.
        apply NoDup_cons in Hnd as [Hnin _]. rewrite Hfl. unfold nodes in *. split; [|set_solver].
        intros ->. rewrite !elem_of_cons, elem_of_app, list_elem_of_singleton in Hn.
        pose proof (ho_away _ _ _ _ _ _ _ _ Hh x) as Haw. assert (in_space V x) by (eapply page_in_space; [exact Hip|]; unfold in_page; lia).
        destruct Hn as [Hn|[Hn|Hn]]; [|done|]; (apply Haw; [|done]); unfold flist, sizeof_arena_desc in *; lia. }
      apply H31.
      * intros Hc. unfold nodes in Hn. rewrite elem_of_cons, elem_of_app, list_elem_of_singleton in Hn.
        pose proof (ho_away _ _ _ _ _ _ _ _ Hh a) as Haw. assert (in_space V a) by (eapply page_in_space; [exact Hip|]; unfold in_page; lia).
        destruct Hn as [->|[Hn| ->]]; [|destruct (blocks_disjoint _ _ _ _ k k n x Hh) as [?|?]; try lia|].
        -- apply Haw; [|done]. unfold flist, sizeof_arena_desc in *. lia.
        -- apply Hh; [done|]. rewrite Hfl. by right.
        -- apply Hh; [done|]. rewrite Hfl. left.
        -- apply Haw; [|done]. unfold flist, sizeof_arena_desc in *. lia.
      * intros Hc. apply (nodes_header _ _ _ _ k i k a Hh Hk Hi); [lia|]. by exists n.
    + apply (arena_count m m3 pg ar fl k xs i (Z.of_nat (length (free_in V i xs))) Hh Hk Hi Hst3 Hm3 (Hb3 None)).
      * intros j k' a Hj Ha Ha'. apply H3; [by apply (nodes_header _ _ _ _ _ j k' a Hh)| |done].
        intros Hc. unfold vpage, PAGE_SIZE in *. lia.
      * unfold m3. apply word_setw_eq. pose proof (free_in_bound _ _ _ _ i k Hh Hi) as Hbd.
        rewrite Hfl, free_in_cons in Hbd. destruct (decide _); cbn [length] in Hbd; lia.
      * reflexivity.
      * intros j Hne Hj. rewrite Hfl, free_in_cons. rewrite decide_False; [done|].
        intros Hc. apply Hne, (vpages_apart V j i x); [done|]. unfold in_page. lia.
    + intros y Hy. apply Hh; [done|]. rewrite Hfl. by right.
  - exact Hb3.
  - intros a Ha. unfold m3. rewrite setw_lookup_out by lia. by apply zeroed_in.
  - intros k' y a Hl Ha. destruct (live_bytes _ _ _ _ _ _ _ Hh Hl Ha) as (L1 & L2 & L3).
    apply H3; [by apply L1| |]; [apply (L3 k x Hk); rewrite Hfl; left|]. intros Hc. apply (L2 i). lia.
Qed.

Lemma memset_zeroed s x n : 0 < x -> 0 <= n -> x + n <= 2 ^ 32 -> n < 2 ^ 32 -> readable (ram s) x n ->
  memset x 0 n s = Ret (tt, set_ram (zeroed (ram s) x n) s).
Proof.
  intros Hx Hn Hl Hl2 Hr. unfold memset. rewrite (bind_Ret _ _ s tt s) by (apply ASSERT_true, negb_eqb_true; lia).
  unfold zeroed. pose proof (memset_loop 0 (Z.to_nat n) s x) as E. rewrite !Z2Nat.id in E by lia. apply E; (done || lia).
Qed.

(** The effect of [malloc] on the heap: a block [x] of class [k], not in use before, is. *)
Record taken (m m' : gmap Z Z) (ar ar' : gmap Z Z) (fl fl' : Z -> list Z) (k x : Z) : Prop := Taken {
  tk_new : ~ live V ar fl k x;
  tk_live : live V ar' fl' k x;
  tk_iff : forall k' y, (k', y) <> (k, x) -> live V ar' fl' k' y <-> live V ar fl k' y;
  tk_zero : forall a, x <= a < x + bsize k -> m' !! a = Some 0;
  tk_keep : forall k' y a, live V ar fl k' y -> y <= a < y + bsize k' -> m' !! a = m !! a;
  tk_room : forall j, room m (S j) -> room m' j;
  tk_lists : forall k', (length (fl' k') <= length (fl k') + 255)%nat
}.

Lemma take_block_ok s ar fl k x xs : mem s = ps -> heap (ram (mach s)) (pg s) ar fl -> 0 <= k < 7 ->
  fl k = x :: xs -> locks s !! pool_lock pf = Some (held_lock (cur s) 1) ->
  exists m', take_block pf (D + sizeof_arena_desc * k) s =
      Ret (x, with_lock (pool_lock pf) free_lock (with_mem m' (pg s) s)) /\
    heap m' (pg s) ar (<[k := xs]> fl) /\ taken (ram (mach s)) m' ar ar fl (<[k := xs]> fl) k x /\
    bits_same (ram (mach s)) m'.
Proof.
  intros Hps Hh Hk Hfl Hlock. set (m := ram (mach s)) in *.
  pose proof (ho_free _ _ _ _ _ _ _ _ Hh k x Hk ltac:(rewrite Hfl; left)) as Hb.
  destruct (block_facts _ _ _ _ _ _ Hh Hb) as (_ & i & Hi & Hip & B1 & B2 & B3 & B4 & B5 & K1 & Hrd).
  pose proof (arena_header _ _ _ _ _ _ Hh Hi) as Hhd.
  destruct (header_addrs _ _ _ _ _ _ Hhd) as (A1 & A2 & A3 & A4).
  pose proof (co_list _ _ _ _ (ho_classes _ _ _ _ _ _ _ _ Hh k Hk)) as Hd. rewrite Hfl in Hd.
  pose proof (dll_NoDup _ _ _ Hd) as Hnd. apply NoDup_cons in Hnd as [Hnin _].
  destruct (list_pop_ok (mach s) (flist D k) x xs Hd) as (m1 & Hpop & Hd1 & Hs1 & Hst1). rewrite <- Hfl in Hs1.
  destruct (heap_take m m1 (pg s) ar fl k x xs i Hh Hfl Hk Hi B1 B2 Hd1 Hs1 Hst1) as (Hh3 & Hbs & Hz & Hkeep).
  pose proof (header_same D V i k m m1 _ _ Hhd Hst1 Hs1 ltac:(intros a; by apply (nodes_far _ _ _ _ i k a Hh Hi))) as Hhd1.
  assert (header_ok D V i k (zeroed m1 x (bsize k)) (Z.of_nat (length (free_in V i (fl k))))) as Hhd2.
  { apply (header_same D V i k m1 _ _ (fun a => x <= a < x + bsize k) Hhd1); [apply zeroed_stored|intros a; apply zeroed_out|].
    intros a Ha. left. right. lia. }
  eexists. split; [|split; [exact Hh3|split; [|exact Hbs]]].
  - unfold take_block. rewrite A3.
    rewrite (bind_Ret _ _ s x (with_mem m1 (pg s) s)).
    2:{ rewrite (on_mach_ok _ _ _ _ Hpop). unfold with_mem. by rewrite set_pg_id. }
    assert (elem2entry 0 x = x) as -> by (unfold elem2entry; rewrite u32_id; unfold PAGE_SIZE in *; lia).
    unfold block_size_of.
    rewrite (bind_Ret _ _ _ (bsize k) (with_mem m1 (pg s) s)) by (apply on_ram, ld32_ok, Hhd1).
    rewrite (bind_Ret _ _ _ tt (with_mem (zeroed m1 x (bsize k)) (pg s) s)).
    2:{ apply on_ram. apply (memset_zeroed (set_ram m1 (mach s))); unfold PAGE_SIZE in *; try lia.
        by apply (stored_readable m). }
    rewrite B3, A1.
    rewrite (bind_Ret _ _ _ (Z.of_nat (length (free_in V i (fl k)))) (with_mem (zeroed m1 x (bsize k)) (pg s) s)) by (apply on_ram, ld32_ok, Hhd2).
    rewrite Hfl, free_in_cons, decide_True by (unfold in_page; lia).
    rewrite (bind_Ret _ _ _ tt (with_mem (setw (zeroed m1 x (bsize k)) (vpage V i + 4) (Z.of_nat (length (free_in V i xs)))) (pg s) s)).
    + rewrite (bind_Ret _ _ _ tt (with_lock (pool_lock pf) free_lock
        (with_mem (setw (zeroed m1 x (bsize k)) (vpage V i + 4) (Z.of_nat (length (free_in V i xs)))) (pg s) s))); [done|].
      by apply unlock_last_ok.
    + apply on_ram. rewrite st32_ok by (cbn [ram set_ram]; rewrite (hd_cnt _ _ _ _ _ _ Hhd2); eauto).
      cbn [ram set_ram]. do 4 f_equal. pose proof (free_in_bound _ _ _ _ i k Hh Hi) as Hbd.
      rewrite Hfl, free_in_cons, decide_True in Hbd by (unfold in_page; lia). cbn [length] in *. rewrite u32_id by lia. lia.
  - constructor.
    + intros [_ Hn]. apply Hn. rewrite Hfl. left.
    + split; [done|]. by rewrite fn_lookup_insert.
    + intros k' y Hne. unfold live. destruct (decide (k' = k)) as [->|Hkk].
      * rewrite fn_lookup_insert, Hfl, elem_of_cons. split; [|tauto]. intros [Hby Hny]. split; [done|].
        intros [->|?]; [by apply Hne|done].
      * by rewrite fn_lookup_insert_ne.
    + exact Hz.
    + exact Hkeep.
    + intros j Hj. apply (room_same m _ j Hbs). eapply room_le; [exact Hj|lia].
    + intros k'. destruct (decide (k' = k)) as [->|Hkk]; [rewrite fn_lookup_insert, Hfl; cbn [length]; lia|].
      rewrite fn_lookup_insert_ne by done. lia.
Qed.

(** A new arena has no block in use. *)
Lemma made_live m' pg' ar fl k r k' y : heap m' pg' (<[r := k]> ar) (<[k := blocks_upto V r k (Z.to_nat (bsum k))]> fl) ->
  0 <= k < 7 -> ar !! r = None -> fl k = [] ->
  live V (<[r := k]> ar) (<[k := blocks_upto V r k (Z.to_nat (bsum k))]> fl) k' y <-> live V ar fl k' y.
Proof.
  intros Hh Hk Hr Hfl. pose proof (class_facts k Hk) as (_ & K2 & _). unfold live, block_of. split.
  - intros [(i & j & Hi & Hj & ->) Hn]. rewrite lookup_insert in Hi. case_decide as Hir.
    + simplify_eq. exfalso. apply Hn. rewrite fn_lookup_insert. apply elem_of_blocks. exists j. split; [lia|done].
    + split; [by exists i, j|]. destruct (decide (k' = k)) as [->|Hne]; [rewrite Hfl; apply not_elem_of_nil|].
      by rewrite fn_lookup_insert_ne in Hn.
  - intros [(i & j & Hi & Hj & ->) Hn]. assert (i <> r) as Hir by congruence.
    split; [exists i, j; by rewrite lookup_insert_ne|]. destruct (decide (k' = k)) as [->|Hne].
    + rewrite fn_lookup_insert. intros (j' & Hj' & E)%elem_of_blocks. apply Hir.
      destruct (block_in_page V i k j Hk Hj). destruct (block_in_page V r k j' Hk); [lia|]. pose proof (class_facts k Hk).
      apply (vpages_apart V i r (block V i k j)); unfold in_page; lia.
    + by rewrite fn_lookup_insert_ne.
Qed.

Lemma blocks_first r k : 0 <= k < 7 -> exists xs,
  blocks_upto V r k (Z.to_nat (bsum k)) = block V r k 0 :: xs.
Proof.
  intros Hk. pose proof (class_facts k Hk) as (_ & K2 & _).
  destruct (Z.to_nat (bsum k)) as [|n] eqn:E; [lia|]. by eexists.
Qed.

(** [malloc_block] with the pool's lock held: the result and its effect. *)
Lemma malloc_block_ok fuel s size ar fl : mem s = ps -> space_of pf s = Ret (V, s) ->
  heap (ram (mach s)) (pg s) ar fl -> locks s !! pool_lock pf = Some (held_lock (cur s) 1) ->
  size <= 1024 -> (255 < fuel)%nat ->
  (forall k, class_of size k -> fl k = [] ->
     (exists r0, 0 <= r0 < space_bits V /\ bit (ram (mach s)) (vaddr_bitmap V) r0 = false) /\
     enough_frames ps (ram (mach s)) pf 1) ->
  exists k x m' pg' ar' fl', malloc_block fuel pf D size s =
      Ret (x, with_lock (pool_lock pf) free_lock (with_mem m' pg' s)) /\ class_of size k /\
    heap m' pg' ar' fl' /\ taken (ram (mach s)) m' ar ar' fl fl' k x.
Proof.
  intros Hps Hsp Hh Hlock Hsize Hf Hroom. set (m := ram (mach s)) in *.
  destruct (class_loop size m (pg s) ar fl 7 0 (mach s) eq_refl Hh) as (k & Hrun & Hcl); [lia|lia|done|lia|].
  pose proof Hcl as (Hk & _). pose proof (desc_at_ok _ _ _ _ _ Hh Hk) as Hdesc.
  pose proof (ho_classes _ _ _ _ _ _ _ _ Hh k Hk) as [C1 C2 C3].
  assert (free_list_of (D + sizeof_arena_desc * k) = flist D k) as Hfo.
  { pose proof (ho_range _ _ _ _ _ _ _ _ Hh). unfold free_list_of, flist, sizeof_arena_desc in *. apply u32_id. lia. }
  unfold malloc_block. change (S (Z.to_nat ARENA_SUM)) with 8%nat.
  rewrite (bind_Ret _ _ s k s) by by apply on_mach_get.
  cbv zeta. rewrite Hdesc, Hfo.
  rewrite (bind_Ret _ _ s _ s) by (by apply on_mach_get, list_empty_ok).
  destruct (fl k) as [|x xs] eqn:Hfl.
  - rewrite bool_decide_true by done. cbn [c_bool is_true_c Z.eqb negb].
    destruct (Hroom k Hcl Hfl) as [(r0 & Hr0 & Hb0) Hfr].
    destruct (new_arena_ok fuel s k ar fl r0 Hps Hsp Hh Hk Hfl Hf Hr0 Hb0 Hfr) as (r & m1 & pg1 & Hna & Hh1 & Hr & Har & _ & Hkeep & Hroom1).
    rewrite (bind_Ret _ _ _ _ _ Hna). destruct (blocks_first r k Hk) as [xs Hxs].
    destruct (take_block_ok (with_mem m1 pg1 s) _ _ k (block V r k 0) xs Hps Hh1 Hk) as (m2 & Htk & Hh2 & [T1 T2 T3 T4 T5 _ T6] & Hb2).
    { rewrite fn_lookup_insert. exact Hxs. } { exact Hlock. }
    pose proof (fun k' y => made_live m1 pg1 ar fl k r k' y Hh1 Hk Har Hfl) as Hlive.
    exists k, (block V r k 0), m2, pg1. eexists _, _. split; [exact Htk|]. split; [exact Hcl|]. split; [exact Hh2|].
    constructor.
    + intros Hl. apply T1. by apply Hlive.
    + exact T2.
    + intros k' y Hne. rewrite T3 by done. by apply Hlive.
    + exact T4.
    + intros k' y a Hl Ha. rewrite (T5 k' y a); [|by apply Hlive|done].
      change (ram (mach (with_mem m1 pg1 s))) with m1. destruct Hl as [Hb _].
      destruct (block_facts _ _ _ _ _ _ Hh Hb) as (_ & i & Hi & _ & B1 & B2 & _).
      apply (Hkeep i k'); [done|]. unfold in_page. lia.
    + intros j Hj. apply (room_same m1 m2 j Hb2). by apply Hroom1.
    + intros k'. destruct (decide (k' = k)) as [->|Hne]; [|specialize (T6 k'); by rewrite !fn_lookup_insert_ne in T6 |- * by done].
      rewrite fn_lookup_insert, Hfl. apply (f_equal length) in Hxs. unfold blocks_upto in Hxs.
      rewrite length_fmap, length_seq in Hxs. cbn [length] in *. pose proof (class_facts k Hk). lia.
  - rewrite bool_decide_false by done. cbn [c_bool is_true_c Z.eqb negb].
    destruct (take_block_ok s ar fl k x xs Hps Hh Hk Hfl Hlock) as (m2 & Htk & Hh2 & Ht & _).
    exists k, x, m2, (pg s), ar. eexists. split; [exact Htk|]. split; [exact Hcl|]. split; [exact Hh2|exact Ht].
Qed.

(** ** Giving a block back *)

Lemma free_in_snoc i x xs : free_in V i (xs ++ [x]) = free_in V i xs ++ (if decide (in_page V i x) then [x] else []).
Proof. unfold free_in. by rewrite filter_app, filter_cons. Qed.

Lemma heap_put m m1 pg ar fl k p i : heap m pg ar fl -> live V ar fl k p -> ar !! i = Some k ->
  in_page V i p -> dll m1 (flist D k) (fl k ++ [p]) ->
  same_outside (in_nodes (p :: nodes (flist D k) (fl k))) m m1 -> stored m m1 ->
  let m2 := setw m1 (vpage V i + 4) (Z.of_nat (length (free_in V i (fl k))) + 1) in
  heap m2 pg ar (<[k := fl k ++ [p]]> fl) /\ bits_same m m2 /\
  (forall k' y a, live V ar fl k' y -> y <> p -> y <= a < y + bsize k' -> m2 !! a = m !! a).
Proof.
  intros Hh Hlive Hi Hin Hd Hs Hst m2. pose proof Hlive as [Hb Hnf].
  destruct (block_facts _ _ _ _ _ _ Hh Hb) as (Hk & i2 & Hi2 & Hip & B1 & B2 & _ & _ & _ & K1 & _).
  assert (i2 = i) as -> by (apply (vpages_apart V i2 i p); [unfold in_page; lia|done]).
  assert (forall a, ~ in_nodes (nodes (flist D k) (fl k)) a -> ~ p <= a < p + 8 ->
    ~ vpage V i + 4 <= a < vpage V i + 8 -> m2 !! a = m !! a) as H2.
  { intros a Hn Ha Ha'. unfold m2. rewrite setw_lookup_out by lia. apply Hs. rewrite in_nodes_cons. tauto. }
  assert (stored m m2) as Hst2 by (eapply stored_trans; [exact Hst|apply stored_setw]).
  assert (same_outside (touched D V ar k) m m2) as Ht.
  { intros a Ha. apply H2; [by intros Hn%(nodes_touched _ _ _ _ _ _ Hh Hk)| |];
      intros Hc; apply Ha, (page_touched _ _ _ _ i k a Hh Hi); unfold in_page, PAGE_SIZE in *; lia. }
  assert (ram_ok m2) as Hram by (apply Hst2, (mo_bitmap _ _ _ _ (ho_mem _ _ _ _ _ _ _ _ Hh) None)).
  destruct (mem_ok_touched D ps V pf m m2 pg ar fl k Hh Hk Hram Ht) as [Hm2 Hb2]. split; [|split; [exact Hb2|]].
  - apply (heap_update D ps V pf m m2 pg ar ar fl k _ Hh Hk Hram Ht).
    + done.
    + eapply dll_same; [exact Hd|]. intros a Ha. unfold m2. apply setw_lookup_out.
      assert (~ vpage V i + 4 <= a < vpage V i + 8) as Hc; [|lia]. intros Hc.
      assert (in_nodes (p :: nodes (flist D k) (fl k)) a) as Hn.
      { eapply in_nodes_mono; [|exact Ha]. intros n. unfold nodes. set_solver. }
      apply in_nodes_cons in Hn as [Hn|Hn]; [lia|].
      by apply (nodes_header _ _ _ _ k i k a Hh Hk Hi); [lia|].
    + apply (arena_count m m2 pg ar fl k _ i (Z.of_nat (length (free_in V i (fl k))) + 1) Hh Hk Hi Hst2 Hm2 (Hb2 None)).
      * intros j k' a Hj Ha Ha'. apply H2; [by apply (nodes_header _ _ _ _ _ j k' a Hh)| |done].
        intros Hc. unfold vpage, PAGE_SIZE in *. lia.
      * apply word_setw_eq. pose proof (free_in_bound _ _ _ _ i k Hh Hi). lia.
      * rewrite free_in_snoc, decide_True by done. rewrite length_app. cbn [length]. lia.
      * intros j Hne Hj. rewrite free_in_snoc, decide_False; [by rewrite app_nil_r|].
        intros Hc. by apply Hne, (vpages_apart V j i p).
    + intros x [Hx|Hx]%elem_of_app; [by apply Hh|]. apply list_elem_of_singleton in Hx. by subst x.
  - intros k' y a Hl Hne Ha. destruct (live_bytes _ _ _ _ _ _ _ Hh Hl Ha) as (L1 & L2 & L3).
    apply H2; [by apply L1| |].
    + intros Hc. destruct (blocks_disjoint _ _ _ _ k' k y p Hh (proj1 Hl) Hb Hne); lia.
    + intros Hc. apply (L2 i). lia.
Qed.

(** An arena all of whose blocks are free, without its blocks in the list: the page leaves the heap. *)
Lemma heap_drop m m1 pg ar fl k i : heap m pg ar fl -> ar !! i = Some k ->
  dll m1 (flist D k) (without V i k (Z.to_nat (bsum k)) (fl k)) ->
  same_outside (in_nodes (nodes (flist D k) (fl k))) m m1 -> stored m m1 ->
  heap m1 pg (delete i ar) (<[k := without V i k (Z.to_nat (bsum k)) (fl k)]> fl) /\
  bit m1 (vaddr_bitmap V) i = true /\ bits_same m m1 /\
  (forall k' y a, live V ar fl k' y -> y <= a < y + bsize k' -> m1 !! a = m !! a).
Proof.
  intros Hh Hi Hd Hs Hst. pose proof (ao_class _ _ _ _ _ _ _ _ _ (ho_arenas _ _ _ _ _ _ _ _ Hh i k Hi)) as Hk.
  assert (same_outside (touched D V ar k) m m1) as Ht.
  { intros a Ha. apply Hs. by intros Hn%(nodes_touched _ _ _ _ _ _ Hh Hk). }
  assert (ram_ok m1) as Hram by (apply Hst, (mo_bitmap _ _ _ _ (ho_mem _ _ _ _ _ _ _ _ Hh) None)).
  destruct (mem_ok_touched D ps V pf m m1 pg ar fl k Hh Hk Hram Ht) as [Hm1 Hb1]. split; [|split; [|split; [exact Hb1|]]].
  - apply (heap_update D ps V pf m m1 pg ar _ fl k _ Hh Hk Hram Ht).
    + intros j k' Hne. rewrite lookup_delete. case_decide; [subst; rewrite Hi; naive_solver|done].
    + exact Hd.
    + intros j Hj. rewrite lookup_delete in Hj. case_decide as Hji; [done|].
      pose proof (ho_arenas _ _ _ _ _ _ _ _ Hh j k Hj) as Hok.
      apply (arena_ok_same D ps V pf m m1 pg pg (fl k) _ j k Hok).
      * intros a Ha. apply Hs. by apply (nodes_header _ _ _ _ k j k a Hh Hk Hj).
      * by apply (stored_readable m); [|apply Hok].
      * pose proof (Hb1 None j (ao_page _ _ _ _ _ _ _ _ _ Hok)) as E. cbn [bitmap_at] in E. rewrite E. apply Hok.
      * done.
      * unfold free_in, without. rewrite list_filter_filter. f_equal. apply list_filter_iff.
        intros x. split; [tauto|]. intros Hp. split; [done|]. intros (t & Ht' & ->)%elem_of_blocks.
        apply Hji. destruct (block_in_page V i k t Hk) as [C1 C2]; [lia|]. pose proof (class_facts k Hk).
        symmetry. apply (vpages_apart V j i (block V i k t)); [done|]. unfold in_page. lia.
    + intros x [Hx Hin]%list_elem_of_filter. destruct (ho_free _ _ _ _ _ _ _ _ Hh k x Hk Hin) as (j & t & Hj & Ht' & ->).
      exists j, t. rewrite lookup_delete_ne; [done|]. intros <-. apply Hx. apply elem_of_blocks. exists t. split; [lia|done].
  - pose proof (Hb1 None i (ao_page _ _ _ _ _ _ _ _ _ (ho_arenas _ _ _ _ _ _ _ _ Hh i k Hi))) as E. cbn [bitmap_at] in E. rewrite E.
    apply (ho_arenas _ _ _ _ _ _ _ _ Hh i k Hi).
  - intros k' y a Hl Ha. apply Hs. by apply (live_bytes _ _ _ _ _ _ _ Hh Hl Ha).
Qed.

Lemma full_page m pg ar fl i k : heap m pg ar fl -> ar !! i = Some k ->
  Z.of_nat (length (free_in V i (fl k))) = bsum k -> forall j, 0 <= j < bsum k -> block V i k j ∈ fl k.
Proof.
  intros Hh Hi Hl j Hj. pose proof (free_in_sub _ _ _ _ _ _ Hh Hi) as Hsub.
  apply submseteq_length_Permutation in Hsub.
  - assert (block V i k j ∈ free_in V i (fl k)) as Hin; [|by apply list_elem_of_filter in Hin as [_ ?]].
    rewrite Hsub. apply elem_of_blocks. exists j. split; [lia|done].
  - unfold blocks_upto. rewrite length_fmap, length_seq. lia.
Qed.

Lemma drop_live m pg ar fl i k k' y : heap m pg ar fl -> ar !! i = Some k ->
  (forall j, 0 <= j < bsum k -> block V i k j ∈ fl k) ->
  live V (delete i ar) (<[k := without V i k (Z.to_nat (bsum k)) (fl k)]> fl) k' y <-> live V ar fl k' y.
Proof.
  intros Hh Hi Hall. pose proof (ao_class _ _ _ _ _ _ _ _ _ (ho_arenas _ _ _ _ _ _ _ _ Hh i k Hi)) as Hk.
  unfold live, block_of. split.
  - intros [(r & j & Hr & Hj & ->) Hn]. rewrite lookup_delete in Hr. case_decide as Hir; [done|].
    split; [by exists r, j|]. destruct (decide (k' = k)) as [->|Hne]; [|by rewrite fn_lookup_insert_ne in Hn].
    rewrite fn_lookup_insert in Hn. intros Hin. apply Hn, list_elem_of_filter. split; [|done].
    intros (t & Ht & E)%elem_of_blocks. apply Hir.
    destruct (block_in_page V r k j Hk Hj). destruct (block_in_page V i k t Hk); [lia|]. pose proof (class_facts k Hk).
    apply (vpages_apart V i r (block V r k j)); unfold in_page; lia.
  - intros [(r & j & Hr & Hj & ->) Hn]. assert (r <> i) as Hri.
    { intros ->. assert (k' = k) as -> by congruence. by apply Hn, Hall. }
    split; [exists r, j; by rewrite lookup_delete_ne|].
    destruct (decide (k' = k)) as [->|Hne]; [|by rewrite fn_lookup_insert_ne].
    rewrite fn_lookup_insert. by intros [_ Hin]%list_elem_of_filter.
Qed.

(** The effect of [free] on the heap. *)
Record freed (m m' : gmap Z Z) (ar ar' : gmap Z Z) (fl fl' : Z -> list Z) (k p : Z) : Prop := Freed {
  fd_dead : ~ live V ar' fl' k p;
  fd_iff : forall k' y, (k', y) <> (k, p) -> live V ar' fl' k' y <-> live V ar fl k' y;
  fd_keep : forall k' y a, live V ar fl k' y -> y <> p -> y <= a < y + bsize k' -> m' !! a = m !! a;
  fd_room : forall j, room m j -> room m' j;
  fd_lists : forall k', (length (fl' k') <= length (fl k') + 1)%nat
}.

Lemma put_freed m pg m2 ar fl k p : heap m pg ar fl -> live V ar fl k p ->
  (forall k' y a, live V ar fl k' y -> y <> p -> y <= a < y + bsize k' -> m2 !! a = m !! a) -> bits_same m m2 ->
  freed m m2 ar ar fl (<[k := fl k ++ [p]]> fl) k p.
Proof.
  intros Hh Hl Hkeep Hbs. constructor; [| |done| |].
  - intros [_ Hn]. apply Hn. rewrite fn_lookup_insert. apply elem_of_app. right. left.
  - intros k' y Hne. unfold live. destruct (decide (k' = k)) as [->|Hkk]; [|by rewrite fn_lookup_insert_ne].
    rewrite fn_lookup_insert, elem_of_app, list_elem_of_singleton. split; [tauto|].
    intros [Hb Hn]. split; [done|]. intros [?| ->]; [done|]. by apply Hne.
  - intros j. by apply room_same.
  - intros k'. destruct (decide (k' = k)) as [->|Hkk]; [rewrite fn_lookup_insert, length_app; cbn; lia|].
    rewrite fn_lookup_insert_ne by done. lia.
Qed.

(** The page [i] of an arena is given back to the page allocator: it is free in the space and unmapped,
    its frame is free in the pool, and no other page changes. *)
Record page_given_back (m m' : gmap Z Z) (pg pg' : paging) (i : Z) : Prop := PageGivenBack {
  gb_free : bit m' (vaddr_bitmap V) i = false;
  gb_unmapped : translate pg' (vpage V i) = None;
  gb_frame : exists q, translate pg (vpage V i) = Some (frame (pool_of pf ps) q) /\
    bit m' (pool_bitmap (pool_of pf ps)) q = false;
  gb_others : forall j, 0 <= j < space_bits V -> j <> i ->
    bit m' (vaddr_bitmap V) j = bit m (vaddr_bitmap V) j /\ translate pg' (vpage V j) = translate pg (vpage V j)
}.

(** The free blocks outside page [i]. *)
Definition outside_page (i : Z) (xs : list Z) : list Z := filter (fun x => ~ in_page V i x) xs.

(** What [free] of the block [p] of class [k] does with the arena of its page: the block goes to the end
    of the free list, unless all other blocks of the page are free; then the page leaves the heap
    with all its blocks and is given back. *)
Definition arena_after (m m' : gmap Z Z) (pg pg' : paging) (ar ar' : gmap Z Z) (fl fl' : Z -> list Z) (k p : Z) : Prop :=
  exists i, ar !! i = Some k /\ in_page V i p /\ (forall k', k' <> k -> fl' k' = fl k') /\
    if Z.of_nat (length (free_in V i (fl k))) + 1 =? bsum k
    then ar' = delete i ar /\ fl' k = outside_page i (fl k) /\ page_given_back m m' pg pg' i
    else ar' = ar /\ fl' k = fl k ++ [p] /\ pg' = pg.

Lemma without_page m pg ar fl i k : heap m pg ar fl -> ar !! i = Some k ->
  without V i k (Z.to_nat (bsum k)) (fl k) = outside_page i (fl k).
Proof.
  intros Hh Hi. pose proof (ao_class _ _ _ _ _ _ _ _ _ (ho_arenas _ _ _ _ _ _ _ _ Hh i k Hi)) as Hk.
  unfold without, outside_page. apply filter_on. intros x Hx.
  destruct (ho_free _ _ _ _ _ _ _ _ Hh k x Hk Hx) as (r & j & Hr & Hj & ->).
  pose proof (class_facts k Hk). split; intros Hn Hc; apply Hn.
  - apply elem_of_blocks. destruct (block_in_page V r k j Hk Hj).
    assert (r = i) as -> by (apply (vpages_apart V r i (block V r k j)); unfold in_page in *; lia).
    exists j. split; [lia|done].
  - apply elem_of_blocks in Hc as (t & Ht & ->). destruct (block_in_page V i k t Hk); [lia|]. unfold in_page. lia.
Qed.

(** [pfree] of pages outside the heap leaves the heap alone. *)
Lemma heap_pfree s ar fl i rs m' pg' : mem s = ps -> heap (ram (mach s)) (pg s) ar fl ->
  0 <= i -> i + Z.of_nat (length rs) <= space_bits V ->
  (forall j, i <= j < i + Z.of_nat (length rs) -> ar !! j = None) ->
  (pf = USER_POOL -> 0 ∉ rs) -> pfree_result s V i pf rs m' pg' ->
  heap m' pg' ar fl /\ (forall k y a, live V ar fl k y -> y <= a < y + bsize k -> m' !! a = ram (mach s) !! a).
Proof.
  intros Hps Hh Hi Hle Har Hq (P1 & P2 & P3 & _ & P5 & P6). rewrite Hps in *.
  pose proof Hh as [H1 H2 H3 H4 H5 H6 H7 H8].
  assert (forall a, (forall j, i <= j < i + Z.of_nat (length rs) -> ~ in_page V j a) ->
    (forall b, ~ in_bitmap (bitmap_at ps V b) a) -> m' !! a = ram (mach s) !! a) as Hsame.
  { intros a Ha Hb. apply P6. intros [Hc|[Hc|Hc]].
    - by apply (Hb (Some pf)).
    - by apply (Hb None).
    - unfold in_page, vpage, PAGE_SIZE in *. apply (Ha ((a - vaddr_start V) / 4096)); Z.to_euclidean_division_equations; lia. }
  assert (forall j k a, ar !! j = Some k -> in_page V j a -> m' !! a = ram (mach s) !! a) as Hpages.
  { intros j k a Hj Ha. pose proof (ao_page _ _ _ _ _ _ _ _ _ (H7 j k Hj)) as Hjp. apply Hsame.
    - intros j' Hj' Hc. rewrite (vpages_apart V j j' a Ha Hc), Har in Hj; done.
    - intros b Hb. apply (mo_away _ _ _ _ H1 b a (page_in_space V j a Hjp Ha)). unfold in_bitmap in Hb. lia. }
  split.
  - apply (heap_keep D ps V pf _ _ _ _ _ _ Hh P1); [|done| |].
    + intros a Ha. destruct (H3 a Ha) as [A1 A2]. apply Hsame.
      * intros j Hj Hc. apply A1. by apply (page_in_space V j); [lia|].
      * intros b Hb. apply (A2 b). unfold in_bitmap in Hb. lia.
    + intros j k Hj. pose proof (H7 j k Hj) as Ha. pose proof (ao_page _ _ _ _ _ _ _ _ _ Ha) as Hjp.
      assert (~ i <= j < i + Z.of_nat (length rs)) as Hji by (intros Hc; rewrite Har in Hj; done). split.
      * rewrite P2 by done. replace ((i <=? j) && (j <? i + Z.of_nat (length rs))) with false by lia. apply Ha.
      * apply P5; [by apply (vpage_facts _ _ _ _ _ H1)|]. intros Hc. apply Hji. unfold vpage, PAGE_SIZE in *. lia.
    + intros Hpf. destruct (H5 Hpf) as [U1 U2]. pose proof (P3 USER_POOL 0) as E. cbn [pool_of] in E.
      rewrite E by lia. rewrite bool_decide_false; [done|]. intros [_ Hin]. by apply Hq.
  - intros k y a [Hb _] Ha. destruct (block_facts _ _ _ _ _ _ Hh Hb) as (_ & j & Hj & _ & B1 & B2 & _).
    apply (Hpages j k); [done|]. unfold in_page. lia.
Qed.

(** [pfree] of held pages outside the heap. *)
Lemma pfree_held s ar fl i n : mem s = ps -> space_of pf s = Ret (V, s) -> heap (ram (mach s)) (pg s) ar fl ->
  (0 < n)%nat -> 0 <= i -> i + Z.of_nat n <= space_bits V ->
  (forall j, i <= j < i + Z.of_nat n -> ar !! j = None /\ page_held (ram (mach s)) (pg s) j) ->
  exists m' pg', pfree pf (vpage V i) (Z.of_nat n) s = Ret (tt, with_mem m' pg' s) /\ heap m' pg' ar fl /\
    (forall k y a, live V ar fl k y -> y <= a < y + bsize k -> m' !! a = ram (mach s) !! a) /\
    exists rs, length rs = n /\ pfree_result s V i pf rs m' pg' /\
      forall t q, rs !! t = Some q -> 0 <= q < pool_bits (pool_of pf ps) /\
        translate (pg s) (vpage V (i + Z.of_nat t)) = Some (frame (pool_of pf ps) q).
Proof.
  intros Hps Hsp Hh Hn Hi Hle Hheld.
  destruct (choose_list n (fun t q => 0 <= q < pool_bits (pool_of pf ps) /\ (pf = USER_POOL -> q <> 0) /\
    translate (pg s) (vpage V (i + Z.of_nat t)) = Some (frame (pool_of pf ps) q))) as (rs & Hlen & Hrs).
  { intros t Ht. destruct (Hheld (i + Z.of_nat t) ltac:(lia)) as (_ & _ & q & Hq). by exists q. }
  destruct (pfree_ok s pf V pf i rs Hsp) as (m2 & pg2 & Hpf & Hres).
  - rewrite Hps. apply Hh.
  - done.
  - by rewrite Hlen.
  - intros ->. cbn in Hlen. lia.
  - intros t q Hq. rewrite Hps. by apply Hrs.
  - intros q Hq. destruct (Hrs _ _ Hq) as (Hq1 & _). rewrite Hps. pose proof (ho_low _ _ _ _ _ _ _ _ Hh).
    unfold frame, PAGE_SIZE. lia.
  - rewrite Hlen in Hpf. destruct (heap_pfree s ar fl i rs m2 pg2 Hps Hh Hi) as [Hh2 Hk2]; try done.
    + by rewrite Hlen.
    + intros j Hj. apply Hheld. lia.
    + intros Hu Hin. apply list_elem_of_lookup in Hin as [t Ht]. by apply (proj1 (proj2 (Hrs _ _ Ht))).
    + exists m2, pg2. split_and!; try done. exists rs. split_and!; try done. intros t q Hq. by destruct (Hrs _ _ Hq) as (? & _ & ?).
Qed.

(** The end of [free_block] when all blocks of the page are free. *)
Lemma arena_release_ok fuel s ar fl i k : mem s = ps -> space_of pf s = Ret (V, s) -> heap (ram (mach s)) (pg s) ar fl ->
  ar !! i = Some k -> Z.of_nat (length (free_in V i (fl k))) = bsum k -> (length (fl k) < fuel)%nat ->
  exists m' pg' ar' fl', (on_mach (iter (S (Z.to_nat (bsum k))) (uncarve_body fuel (vpage V i)) 0) ;;;
      pfree pf (vpage V i) 1)%kernel s = Ret (tt, with_mem m' pg' s) /\
    heap m' pg' ar' fl' /\ (forall k' y, live V ar' fl' k' y <-> live V ar fl k' y) /\
    (forall k' y a, live V ar fl k' y -> y <= a < y + bsize k' -> m' !! a = ram (mach s) !! a) /\
    (forall j, room (ram (mach s)) j -> room m' j) /\ (forall k', (length (fl' k') <= length (fl k'))%nat) /\
    ar' = delete i ar /\ (forall k', k' <> k -> fl' k' = fl k') /\ fl' k = outside_page i (fl k) /\
    page_given_back (ram (mach s)) m' (pg s) pg' i.
Proof.
  intros Hps Hsp Hh Hi Hl Hf. pose proof (ho_arenas _ _ _ _ _ _ _ _ Hh i k Hi) as Hok.
  pose proof (ao_class _ _ _ _ _ _ _ _ _ Hok) as Hk. pose proof (ao_page _ _ _ _ _ _ _ _ _ Hok) as Hip.
  pose proof (full_page _ _ _ _ _ _ Hh Hi Hl) as Hall. destruct (class_facts k Hk) as (K1 & K2 & _).
  pose proof (arena_header _ _ _ _ _ _ Hh Hi) as Hhd.
  pose proof (co_list _ _ _ _ (ho_classes _ _ _ _ _ _ _ _ Hh k Hk)) as Hd.
  destruct (uncarve_loop D V i k fuel _ (fl k) (Z.to_nat (bsum k)) (mach s) 0 Hhd) as (m1 & Hrun & _ & Hd1 & Hs1 & Hst1).
  { unfold without. rewrite filter_all; [exact Hd|]. intros x _. apply not_elem_of_nil. }
  { intros a. by apply (nodes_far _ _ _ _ i k a Hh Hi). }
  { exact Hall. } { lia. } { done. }
  destruct (heap_drop _ _ _ _ _ _ _ Hh Hi Hd1 Hs1 Hst1) as (Hh1 & Hb1 & Hbs1 & Hkeep1).
  pose proof (fun k' y => drop_live _ _ _ _ i k k' y Hh Hi Hall) as Hlive1.
  change (0 + Z.to_nat (bsum k))%nat with (Z.to_nat (bsum k)) in *. change (Z.of_nat 0) with 0 in Hrun.
  set (ar1 := delete i ar) in *. set (fl1 := <[k := without V i k (Z.to_nat (bsum k)) (fl k)]> fl) in *.
  set (s1 := with_mem m1 (pg s) s).
  destruct (pfree_held s1 ar1 fl1 i 1 Hps (space_of_mem _ _ _ _ _ Hsp) Hh1) as (m2 & pg2 & Hpf & Hh2 & Hkeep2 & rs & Hlen & Hpr & Hrs); [lia|lia|lia| |].
  { intros j Hj. assert (j = i) as -> by lia. split; [apply lookup_delete_eq|]. split; [exact Hb1|apply Hok]. }
  exists m2, pg2, ar1, fl1. split_and!.
  - rewrite (bind_Ret _ _ s tt s1); [exact Hpf|]. rewrite (on_mach_ok _ _ _ _ Hrun). unfold s1, with_mem. by rewrite set_pg_id.
  - exact Hh2.
  - exact Hlive1.
  - intros k' y a Hl' Ha. rewrite (Hkeep2 k' y a); [|by apply Hlive1|done]. by apply (Hkeep1 k' y).
  - intros j Hj. apply (room_same _ m1 j Hbs1) in Hj. revert Hj. apply room_mono. intros b t Ht Hf2.
    destruct Hpr as (_ & P2 & P3 & _). change (ram (mach s1)) with m1 in P2, P3. change (mem s1) with (mem s) in P3.
    rewrite Hps in P3. destruct b as [pf'|]; cbn [bitmap_at] in *.
    + rewrite P3, Hf2 by exact Ht. by case_bool_decide.
    + rewrite P2, Hf2 by exact Ht. by destruct (_ && _).
  - intros k'. unfold fl1. destruct (decide (k' = k)) as [->|Hne]; [rewrite fn_lookup_insert; apply length_filter|].
    by rewrite fn_lookup_insert_ne.
  - done.
  - intros k' Hne. by apply fn_lookup_insert_ne.
  - unfold fl1. rewrite fn_lookup_insert. by apply (without_page (ram (mach s)) (pg s) ar).
  - destruct rs as [|q [|]]; [done| |done]. specialize (Hrs 0%nat q eq_refl) as [Hq Htr].
    rewrite Z.add_0_r in Htr. destruct Hpr as (Hm2 & P2 & P3 & P4 & P5 & _).
    change (ram (mach s1)) with m1 in *. change (mem s1) with (mem s) in *. rewrite Hps in *. change (Z.of_nat (length [q])) with 1 in *.
    constructor.
    + rewrite P2 by done. by replace ((i <=? i) && (i <? i + 1)) with true by lia.
    + specialize (P4 0%nat). rewrite Z.add_0_r in P4. apply P4. cbn. lia.
    + exists q. split; [exact Htr|]. rewrite P3 by done. rewrite bool_decide_true; [done|]. split; [done|left].
    + intros j Hj Hne. split.
      * rewrite P2 by done. replace ((i <=? j) && (j <? i + 1)) with false by lia. apply (Hbs1 None j Hj).
      * apply P5; [by apply (vpage_facts _ _ _ _ _ Hm2)|]. unfold vpage, PAGE_SIZE. lia.
Qed.

Lemma free_block_ok fuel s ar fl k p : mem s = ps -> space_of pf s = Ret (V, s) -> heap (ram (mach s)) (pg s) ar fl ->
  live V ar fl k p -> (length (fl k) + 1 < fuel)%nat ->
  exists m' pg' ar' fl', free_block fuel pf (block2arena p) p s = Ret (tt, with_mem m' pg' s) /\
    heap m' pg' ar' fl' /\ freed (ram (mach s)) m' ar ar' fl fl' k p /\
    arena_after (ram (mach s)) m' (pg s) pg' ar ar' fl fl' k p.
Proof.
  intros Hps Hsp Hh Hlive Hf. pose proof Hlive as [Hb Hnf].
  destruct (block_facts _ _ _ _ _ _ Hh Hb) as (Hk & i & Hi & Hip & B1 & B2 & B3 & B4 & B5 & K1 & Hrd).
  pose proof (arena_header _ _ _ _ _ _ Hh Hi) as Hhd. destruct (header_addrs _ _ _ _ _ _ Hhd) as (A1 & A2 & A3 & A4).
  pose proof (ho_classes _ _ _ _ _ _ _ _ Hh k Hk) as [C1 C2 Hd].
  assert (fresh_node (ram (mach s)) (flist D k) (fl k) p) as Hfr.
  { split.
    - split_and!; [lia|unfold PAGE_SIZE in *; lia|]. eapply readable_le; [exact Hrd|lia|lia].
    - apply Forall_forall. intros n Hn. unfold nodes in Hn. rewrite elem_of_cons, elem_of_app, list_elem_of_singleton in Hn.
      pose proof (hd_apart _ _ _ _ _ _ Hhd). unfold apart.
      destruct Hn as [->|[Hn| ->]]; [unfold flist, PAGE_SIZE, sizeof_arena_desc in *; lia| |unfold flist, PAGE_SIZE, sizeof_arena_desc in *; lia].
      assert (p <> n) as Hne by by intros ->. pose proof (ho_free _ _ _ _ _ _ _ _ Hh k n Hk Hn) as Hbn.
      destruct (blocks_disjoint _ _ _ _ _ _ _ _ Hh Hb Hbn Hne); lia. }
  destruct (list_append_ok (mach s) _ _ _ Hd Hfr) as (m1 & Happ & Hd1 & Hs1 & Hst1).
  set (c := Z.of_nat (length (free_in V i (fl k)))) in *. set (m2 := setw m1 (vpage V i + 4) (c + 1)).
  destruct (heap_put _ m1 _ _ _ _ p i Hh Hlive Hi ltac:(unfold in_page; lia) Hd1 Hs1 Hst1) as (Hh2 & Hbs2 & Hkeep2).
  fold c m2 in Hh2, Hbs2, Hkeep2. pose proof (free_in_bound _ _ _ _ i k Hh Hi) as Hbd. fold c in Hbd.
  pose proof (put_freed _ _ _ _ _ _ _ Hh Hlive Hkeep2 Hbs2) as [D1 D2 D3 D4 D5].
  set (fl2 := <[k := fl k ++ [p]]> fl) in *. set (s2 := with_mem m2 (pg s) s).
  pose proof (arena_header _ _ _ _ _ _ Hh2 Hi) as Hhd2.
  assert (Z.of_nat (length (free_in V i (fl2 k))) = c + 1) as Hc2.
  { unfold fl2. rewrite fn_lookup_insert, free_in_snoc, decide_True by (unfold in_page; lia).
    rewrite length_app. cbn [length]. unfold c. lia. }
  rewrite Hc2 in Hhd2.
  assert (header_ok D V i k m1 c) as Hhd1.
  { apply (header_same D V i k _ m1 _ _ Hhd Hst1 Hs1). intros a [Ha|Ha]%in_nodes_cons.
    - left. right. lia.
    - by apply (nodes_far _ _ _ _ i k a Hh Hi). }
  assert (forall rest : M kernel unit, (let* desc := on_mach (ld32 (arena_desc_of (vpage V i))) in
    on_mach (list_append (free_list_of desc) p) ;;;
    let* cnt := on_mach (ld32 (arena_cnt_of (vpage V i))) in
    on_mach (st32 (arena_cnt_of (vpage V i)) (u32 (cnt + 1))) ;;; rest)%kernel s = rest s2) as Hstart.
  { intros rest. unfold arena_desc_of.
    rewrite (bind_Ret _ _ s _ s) by (apply on_mach_get, ld32_ok, Hhd).
    rewrite A3, (bind_Ret _ _ s tt (with_mem m1 (pg s) s)).
    2:{ rewrite (on_mach_ok _ _ _ _ Happ). unfold with_mem. by rewrite set_pg_id. }
    rewrite A1, (bind_Ret _ _ _ c (with_mem m1 (pg s) s)) by (apply on_ram, ld32_ok, Hhd1).
    rewrite u32_id by lia. rewrite (bind_Ret _ _ _ tt s2); [done|]. apply on_ram.
    rewrite st32_ok by (cbn [ram set_ram]; rewrite (hd_cnt _ _ _ _ _ _ Hhd1); eauto). done. }
  unfold free_block. rewrite B3, Hstart. unfold arena_desc_of. rewrite A1.
  rewrite (bind_Ret _ _ s2 (c + 1) s2) by (apply on_ram, ld32_ok, Hhd2).
  rewrite (bind_Ret _ _ s2 (D + sizeof_arena_desc * k) s2) by (apply on_ram, ld32_ok, Hhd2). rewrite A4.
  rewrite (bind_Ret _ _ s2 (bsum k) s2) by (apply on_ram, ld32_ok, Hhd2).
  destruct (Z.eqb_spec (c + 1) (bsum k)) as [Heq|Hne].
  - destruct (arena_release_ok fuel s2 ar fl2 i k Hps (space_of_mem _ _ _ _ _ Hsp) Hh2 Hi) as (m3 & pg3 & ar3 & fl3 & Hrun & Hh3 & Hl3 & Hk3 & Hr3 & Hll3 & Ha3 & Ho3 & Hf3 & Hg3).
    { by rewrite Hc2. } { unfold fl2. rewrite fn_lookup_insert, length_app. cbn [length]. lia. }
    exists m3, pg3, ar3, fl3. split; [exact Hrun|]. split; [exact Hh3|]. split.
    2:{ exists i. split; [done|]. split; [unfold in_page; lia|]. fold c. rewrite Heq, Z.eqb_refl. split.
        - intros k' Hne. rewrite Ho3 by done. by apply fn_lookup_insert_ne.
        - split; [done|]. split.
          + rewrite Hf3. unfold fl2. rewrite fn_lookup_insert. unfold outside_page. rewrite filter_app.
            rewrite (filter_none _ [p]), app_nil_r; [done|]. intros x ->%list_elem_of_singleton Hx. apply Hx. unfold in_page. lia.
          + destruct Hg3 as [G1 G2 G3 G4]. constructor; try done. intros j Hj Hne.
            destruct (G4 j Hj Hne) as [-> E]. split; [apply (Hbs2 None j Hj)|exact E]. }
    constructor.
    + by rewrite Hl3.
    + intros k' y Hy. rewrite Hl3. by apply D2.
    + intros k' y a Hl Hy Ha. rewrite (Hk3 k' y a); [by apply (D3 k' y)| |done]. apply D2; [congruence|done].
    + intros j Hj. by apply Hr3, D4.
    + intros k'. specialize (D5 k'). specialize (Hll3 k'). lia.
  - exists m2, (pg s), ar, fl2. split; [done|]. split; [exact Hh2|]. split; [by constructor|].
    exists i. split; [done|]. split; [unfold in_page; lia|]. fold c. rewrite (proj2 (Z.eqb_neq _ _) Hne). split.
    + intros k' Hk'. by apply fn_lookup_insert_ne.
    + split; [done|]. split; [apply fn_lookup_insert|done].
Qed.

(** ** Whole pages *)

(** The [n] pages from page [r] on are one large block, with its header. *)
Record large_block (m : gmap Z Z) (pg : paging) (ar : gmap Z Z) (r n : Z) : Prop := LargeBlock {
  lb_range : 0 <= r /\ 0 < n /\ r + n <= space_bits V;
  lb_held : forall j, r <= j < r + n -> ar !! j = None /\ page_held m pg j;
  lb_desc : word m (vpage V r) = Some 0;
  lb_cnt : word m (vpage V r + 4) = Some n;
  lb_large : word m (vpage V r + 8) = Some 1
}.

(** Stores into pages that belong to no arena. *)
Lemma heap_pages m m' pg ar fl r n : heap m pg ar fl -> 0 <= r -> r + n <= space_bits V ->
  (forall j, r <= j < r + n -> ar !! j = None) -> stored m m' ->
  same_outside (fun a => vpage V r <= a < vpage V r + PAGE_SIZE * n) m m' ->
  heap m' pg ar fl /\ (forall j, 0 <= j < space_bits V -> bit m' (vaddr_bitmap V) j = bit m (vaddr_bitmap V) j) /\
  (forall i k a, ar !! i = Some k -> in_page V i a -> m' !! a = m !! a).
Proof.
  intros Hh Hr Hle Har Hst Hs. pose proof Hh as [H1 H2 H3 H4 H5 H6 H7 H8].
  destruct (mem_ok_ram ps V m m' pg H1) as [Hm' Hb'].
  { apply Hst, (mo_bitmap _ _ _ _ H1 None). }
  { intros a Ha. apply Hs. unfold in_space, vpage, PAGE_SIZE in *. lia. }
  assert (forall i k a, ar !! i = Some k -> in_page V i a -> m' !! a = m !! a) as Hp.
  { intros i k a Hi Ha. apply Hs. intros Hc. assert (r <= i < r + n) as Hir by (unfold in_page, vpage, PAGE_SIZE in *; lia).
    rewrite (Har i Hir) in Hi. done. }
  split_and!; [|exact (Hb' None)|done]. apply (heap_keep D ps V pf m m' pg pg ar fl Hh Hm').
  - intros a Ha. apply Hs. intros Hc. apply (proj1 (H3 a Ha)). unfold in_space, vpage, PAGE_SIZE in *. lia.
  - exact Hp.
  - intros i k Hi. pose proof (Hb' None i (ao_page _ _ _ _ _ _ _ _ _ (H7 i k Hi))) as E. cbn [bitmap_at] in E.
    rewrite E. split; [by apply (H7 i k)|done].
  - intros Hpf. destruct (H5 Hpf) as [U1 U2]. pose proof (Hb' (Some USER_POOL) 0) as E. cbn [bitmap_at pool_of] in E.
    rewrite E; [done|]. unfold pool_bits in U1. lia.
Qed.

(** The pages [malloc_pages] hands out: zeros behind a header. *)
Definition large_mem (m : gmap Z Z) (v n : Z) : gmap Z Z :=
  setw (setw (setw (zeroed m v (n * PAGE_SIZE)) v 0) (v + 4) n) (v + 8) 1.

Lemma large_mem_ok m v n : 0 < n < 2 ^ 32 ->
  stored m (large_mem m v n) /\ same_outside (fun a => v <= a < v + PAGE_SIZE * n) m (large_mem m v n) /\
  word (large_mem m v n) v = Some 0 /\ word (large_mem m v n) (v + 4) = Some n /\
  word (large_mem m v n) (v + 8) = Some 1 /\
  forall a, v + 12 <= a < v + PAGE_SIZE * n -> large_mem m v n !! a = Some 0.
Proof.
  intros Hn. unfold large_mem. split_and!.
  - do 3 (eapply stored_trans; [|apply stored_setw]). apply zeroed_stored.
  - intros a Ha. unfold PAGE_SIZE in *. rewrite !setw_lookup_out by lia. apply zeroed_out. lia.
  - rewrite !word_setw_ne by lia. by apply word_setw_eq.
  - rewrite word_setw_ne by lia. apply word_setw_eq. lia.
  - by apply word_setw_eq.
  - intros a Ha. rewrite !setw_lookup_out by lia. apply zeroed_in. lia.
Qed.

Lemma large_run m p s v n : 0 < v -> 0 < n -> v + n * PAGE_SIZE < 2 ^ 32 -> readable m v (PAGE_SIZE * n) ->
  locks s !! pool_lock pf = Some (held_lock (cur s) 1) ->
  (on_mach (memset v 0 (u32 (n * PAGE_SIZE))) ;;;
   on_mach (st32 (arena_desc_of v) 0) ;;;
   on_mach (st32 (arena_cnt_of v) n) ;;;
   on_mach (st32 (arena_large_of v) 1) ;;;
   sys_lock_unlock (pool_lock pf) ;;;
   ret (u32 (v + sizeof_arena)))%kernel (with_mem m p s) =
  Ret (v + 12, with_lock (pool_lock pf) free_lock (with_mem (large_mem m v n) p s)).
Proof.
  intros Hv Hn Hlim Hr Hlock. unfold arena_desc_of, arena_cnt_of, arena_large_of, sizeof_arena, PAGE_SIZE in *.
  rewrite !u32_id by lia. set (m1 := zeroed m v (n * 4096)).
  assert (readable m1 v (4096 * n)) as Hr1 by by apply (stored_readable m), Hr; first apply zeroed_stored.
  rewrite (bind_Ret _ _ _ tt (with_mem m1 p s)).
  2:{ apply on_ram. apply (memset_zeroed (set_ram m (mach s))); try lia. eapply readable_le; [exact Hr|lia|lia]. }
  rewrite (bind_Ret _ _ _ tt (with_mem (setw m1 v 0) p s)).
  2:{ apply on_ram, st32_ok, word_readable. eapply readable_le; [exact Hr1|lia|lia]. }
  rewrite (bind_Ret _ _ _ tt (with_mem (setw (setw m1 v 0) (v + 4) n) p s)).
  2:{ apply on_ram, st32_ok, is_word_setw, word_readable. eapply readable_le; [exact Hr1|lia|lia]. }
  rewrite (bind_Ret _ _ _ tt (with_mem (large_mem m v n) p s)).
  2:{ apply on_ram, st32_ok. do 2 apply is_word_setw. apply word_readable. eapply readable_le; [exact Hr1|lia|lia]. }
  rewrite (bind_Ret _ _ _ tt (with_lock (pool_lock pf) free_lock (with_mem (large_mem m v n) p s))); [done|].
  by apply unlock_last_ok.
Qed.

Definition pages_for (size : Z) : Z := (size + 12 + 4095) / 4096.

Lemma malloc_pages_ok s size ar fl r0 : mem s = ps -> space_of pf s = Ret (V, s) ->
  heap (ram (mach s)) (pg s) ar fl -> locks s !! pool_lock pf = Some (held_lock (cur s) 1) ->
  1024 < size -> pages_for size < 3840 ->
  0 <= r0 -> r0 + pages_for size <= space_bits V -> free_run (ram (mach s)) (vaddr_bitmap V) r0 (pages_for size) ->
  enough_frames ps (ram (mach s)) pf (Z.to_nat (pages_for size)) ->
  exists r m' pg', malloc_pages pf size s = Ret (vpage V r + 12, with_lock (pool_lock pf) free_lock (with_mem m' pg' s)) /\
    heap m' pg' ar fl /\ large_block m' pg' ar r (pages_for size) /\
    free_run (ram (mach s)) (vaddr_bitmap V) r (pages_for size) /\
    (forall a, vpage V r + 12 <= a < vpage V r + PAGE_SIZE * pages_for size -> m' !! a = Some 0) /\
    (forall k y a, live V ar fl k y -> y <= a < y + bsize k -> m' !! a = ram (mach s) !! a).
Proof.
  intros Hps Hsp Hh Hlock Hsize Hmax Hr0 Hle Hrun Hfr. set (n := pages_for size) in *.
  assert (1 <= n /\ size + 12 <= 4096 * n) as [Hn Hfit] by (unfold n, pages_for in *; Z.to_euclidean_division_equations; lia).
  destruct (palloc_ok s pf V n r0 Hsp) as (r & m1 & m2 & pg2 & Hp & Hres); [rewrite Hps; apply Hh|lia|done|done|done|by rewrite Hps|].
  destruct (heap_palloc s ar fl n r m1 m2 pg2 Hps Hh ltac:(lia) Hres) as (Hh2 & Hpg & Hkeep).
  destruct Hres as (R1 & R2 & R3 & _ & _ & [_ _ _ _ _ _ Hread _]). rewrite Z2Nat.id in Hread by lia.
  destruct (large_mem_ok m2 (vpage V r) n) as (L1 & L2 & L3 & L4 & L5 & L6); [lia|].
  destruct (heap_pages m2 _ pg2 ar fl r n Hh2 R1 R2 (fun j Hj => proj1 (Hpg j Hj)) L1 L2) as (Hh3 & Hb3 & Hk3).
  destruct (mo_space _ _ _ _ (ho_mem _ _ _ _ _ _ _ _ Hh2)) as (S1 & S2 & S3).
  exists r, (large_mem m2 (vpage V r) n), pg2. split_and!; try done; try lia.
  - unfold malloc_pages.
    assert (DIV_ROUND_UP (u32 (size + sizeof_arena)) PAGE_SIZE = n) as ->.
    { unfold DIV_ROUND_UP, sizeof_arena, PAGE_SIZE. assert (size + 12 < 2 ^ 25) as Hlt by (unfold n, pages_for in *; Z.to_euclidean_division_equations; lia).
      rewrite (u32_id (size + 12)), u32_id by lia. unfold n, pages_for. f_equal. lia. }
    cbv zeta. rewrite (bind_Ret _ _ _ _ _ Hp). replace (vpage V r =? 0) with false by (unfold vpage, PAGE_SIZE in *; lia).
    cbn [negb]. apply large_run; try done; unfold vpage, PAGE_SIZE in *; try lia.
  - constructor; try done; try lia. intros j Hj. destruct (Hpg j Hj) as [A [B C]].
    split; [done|]. split; [|done]. by rewrite Hb3 by lia.
  - intros k y a [Hb _] Ha. destruct (block_facts _ _ _ _ _ _ Hh Hb) as (_ & i & Hi & _ & B1 & B2 & _).
    rewrite (Hk3 i k a), (Hkeep i k a); unfold in_page; (done || lia).
Qed.

End steps.

(** ** [sys_malloc] for small sizes *)
Section malloc.
  Context `{Env} (kernel_arena_descs : Z).

(** The pool and the descriptors of a thread. *)
Definition pool_for (c : PCB) : pool_flags := if PDE_addr c =? 0 then KERNEL_POOL else USER_POOL.
Definition descs_for (s : kernel) (c : PCB) : Z :=
  if PDE_addr c =? 0 then kernel_arena_descs else user_arena_descs (cur s).

(** The running thread [c] has the heap [ar], [fl] in the space [V], and the lock of its pool is free. *)
Record heap_of (s : kernel) (c : PCB) (V : virtual_addr) (ar : gmap Z Z) (fl : Z -> list Z) : Prop := HeapOf {
  hf_pcb : pcbs s !! cur s = Some c;
  hf_cur : cur s <> 0;
  hf_space : space_of (pool_for c) s = Ret (V, s);
  hf_lock : locks s !! pool_lock (pool_for c) = Some free_lock;
  hf_heap : heap_ok (descs_for s c) (mem s) V (pool_for c) (ram (mach s)) (pg s) ar fl
}.

Lemma malloc_target_ok s c : pcbs s !! cur s = Some c ->
  malloc_target kernel_arena_descs s = Ret ((pool_for c, pool_size (pool_of (pool_for c) (mem s)), descs_for s c), s).
Proof.
  intros Hc. unfold malloc_target. rewrite (bind_Ret _ _ s (cur s) s) by done.
  rewrite (bind_Ret _ _ s c s) by by apply get_pcb_ok. rewrite (bind_Ret _ _ s s s) by done.
  unfold pool_for, descs_for. by destruct (PDE_addr c =? 0).
Qed.

Lemma sys_malloc_ok fuel s c V ar fl size :
  heap_of s c V ar fl -> 0 < size <= 1024 -> size < pool_size (pool_of (pool_for c) (mem s)) -> (255 < fuel)%nat ->
  (forall k, class_of size k -> fl k = [] ->
     (exists r0, 0 <= r0 < space_bits V /\ bit (ram (mach s)) (vaddr_bitmap V) r0 = false) /\
     enough_frames (mem s) (ram (mach s)) (pool_for c) 1) ->
  exists k x m' pg' ar' fl', sys_malloc kernel_arena_descs fuel size s = Ret (x, with_mem m' pg' s) /\
    class_of size k /\ heap_of (with_mem m' pg' s) c V ar' fl' /\
    taken (mem s) V (pool_for c) (ram (mach s)) m' ar ar' fl fl' k x.
Proof.
  intros [Hc Hcur Hsp Hlock Hh] Hsize Hps Hf Hroom. destruct fuel as [|fuel]; [lia|].
  set (s1 := with_lock (pool_lock (pool_for c)) (held_lock (cur s) 1) s).
  destruct (malloc_block_ok (descs_for s c) (mem s) V (pool_for c) (S fuel) s1 size ar fl eq_refl
    (space_of_locks _ _ _ _ Hsp) Hh (with_lock_lookup _ _ _)) as (k & x & m' & pg' & ar' & fl' & Hrun & Hcl & Hh' & Ht);
    [lia|done|done|].
  exists k, x, m', pg', ar', fl'. split_and!; [|done| |done].
  - unfold sys_malloc. rewrite (bind_Ret _ _ _ _ _ (malloc_target_ok s c Hc)).
    replace ((size >? 0) && (size <? pool_size (pool_of (pool_for c) (mem s)))) with true by lia. cbn [negb].
    rewrite (bind_Ret _ _ _ _ _ (lock_free_ok fuel _ s Hlock Hcur)). fold s1.
    replace (size >? 1024) with false by lia. rewrite Hrun. do 2 f_equal. unfold s1.
    change (with_mem m' pg' (with_lock ?l ?k s)) with (with_lock l k (with_mem m' pg' s)).
    rewrite with_lock_twice. by apply with_lock_id.
  - constructor; try done. by apply space_of_mem.
Qed.

(** C18: [sys_malloc] of at most 1024 bytes returns a block of the smallest class that fits, which was not
    in use and now is; it is filled with zeros, the other blocks in use stay in use with their
    contents, and the invariant of the heap (free lists, arena headers, page allocator) holds again.
    When the class has no free block, a page must be free for a new arena. *)
Theorem sys_malloc_correct fuel s c V ar fl size :
  heap_of s c V ar fl -> 0 < size <= 1024 -> size < pool_size (pool_of (pool_for c) (mem s)) -> (255 < fuel)%nat ->
  (forall k, class_of size k -> fl k = [] ->
     (exists r0, 0 <= r0 < space_bits V /\ bit (ram (mach s)) (vaddr_bitmap V) r0 = false) /\
     enough_frames (mem s) (ram (mach s)) (pool_for c) 1) ->
  exists k x m' pg' ar' fl', sys_malloc kernel_arena_descs fuel size s = Ret (x, with_mem m' pg' s) /\
    class_of size k /\ heap_of (with_mem m' pg' s) c V ar' fl' /\
    taken (mem s) V (pool_for c) (ram (mach s)) m' ar ar' fl fl' k x.
Proof. apply sys_malloc_ok. Qed.

Lemma sys_free_full_ok fuel s c V ar fl k p :
  heap_of s c V ar fl -> live V ar fl k p -> (length (fl k) + 1 < fuel)%nat ->
  (PDE_addr c = 0 -> KERNEL_HEAP_BASE <= vaddr_start V) ->
  exists m' pg' ar' fl', sys_free fuel p s = Ret (tt, with_mem m' pg' s) /\
    heap_of (with_mem m' pg' s) c V ar' fl' /\ freed (mem s) V (pool_for c) (ram (mach s)) m' ar ar' fl fl' k p /\
    arena_after (mem s) V (pool_for c) (ram (mach s)) m' (pg s) pg' ar ar' fl fl' k p.
Proof.
  intros [Hc Hcur Hsp Hlock Hh] Hlive Hf Hbase. destruct fuel as [|fuel]; [lia|].
  destruct (block_facts _ _ _ _ _ _ _ _ _ _ Hh (proj1 Hlive)) as (Hk & i & Hi & Hip & B1 & B2 & B3 & B4 & B5 & K1 & Hrd).
  pose proof (arena_header _ _ _ _ _ _ _ _ _ _ Hh Hi) as Hhd. destruct (header_addrs _ _ _ _ _ _ Hhd) as (_ & A2 & _).
  pose proof (ho_arenas _ _ _ _ _ _ _ _ Hh i k Hi) as Hok.
  set (s1 := with_lock (pool_lock (pool_for c)) (held_lock (cur s) 1) s).
  destruct (free_block_ok (descs_for s c) (mem s) V (pool_for c) (S fuel) s1 ar fl k p eq_refl
    (space_of_locks _ _ _ _ Hsp) Hh Hlive Hf) as (m' & pg' & ar' & fl' & Hrun & Hh' & Hfd & Haft).
  exists m', pg', ar', fl'. split_and!; [| |exact Hfd|exact Haft].
  - unfold sys_free. replace (p =? 0) with false by lia. cbn [negb].
    rewrite (bind_Ret _ _ s (cur s) s) by done. rewrite (bind_Ret _ _ s c s) by by apply get_pcb_ok.
    rewrite (bind_Ret _ _ s (pool_for c) s).
    2:{ unfold pool_for. destruct (Z.eqb_spec (PDE_addr c) 0) as [E|E]; [|done].
        rewrite (bind_Ret _ _ s tt s); [done|]. apply ASSERT_true. specialize (Hbase E).
        unfold vpage, PAGE_SIZE in *. lia. }
    rewrite (bind_Ret _ _ _ _ _ (lock_free_ok fuel _ s Hlock Hcur)). fold s1. cbv zeta. rewrite B3, A2.
    rewrite (bind_Ret _ _ s1 0 s1) by (apply on_mach_get, ld32_ok, Hok).
    rewrite (bind_Ret _ _ s1 tt s1) by done. unfold arena_desc_of.
    rewrite (bind_Ret _ _ s1 _ s1) by (apply on_mach_get, ld32_ok, Hok).
    rewrite (bind_Ret _ _ s1 0 s1) by (apply on_mach_get, ld32_ok, Hok).
    change (s32 0 =? 1) with false. rewrite andb_false_r. rewrite B3 in Hrun. rewrite (bind_Ret _ _ _ _ _ Hrun).
    rewrite unlock_last_ok by apply with_lock_lookup. do 2 f_equal. unfold s1.
    change (with_mem m' pg' (with_lock ?l ?k s)) with (with_lock l k (with_mem m' pg' s)).
    rewrite with_lock_twice. by apply with_lock_id.
  - constructor; try done. by apply space_of_mem.
Qed.

Lemma sys_free_ok fuel s c V ar fl k p :
  heap_of s c V ar fl -> live V ar fl k p -> (length (fl k) + 1 < fuel)%nat ->
  (PDE_addr c = 0 -> KERNEL_HEAP_BASE <= vaddr_start V) ->
  exists m' pg' ar' fl', sys_free fuel p s = Ret (tt, with_mem m' pg' s) /\
    heap_of (with_mem m' pg' s) c V ar' fl' /\ freed (mem s) V (pool_for c) (ram (mach s)) m' ar ar' fl fl' k p.
Proof.
  intros H1 H2 H3 H4. destruct (sys_free_full_ok fuel s c V ar fl k p H1 H2 H3 H4) as (m' & pg' & ar' & fl' & R1 & R2 & R3 & _).
  by exists m', pg', ar', fl'.
Qed.

(** C19: [sys_free] of a block in use takes it out of use and leaves the other blocks with their contents.
    The block goes to the end of the free list of its class; but when it was the last one of its page
    in use, all blocks of the page leave the list and the page is given back to the page allocator:
    free in the address space, unmapped, its frame free in the pool, every other page as it was.
    The invariant of the heap holds again. *)
Theorem sys_free_correct fuel s c V ar fl k p :
  heap_of s c V ar fl -> live V ar fl k p -> (length (fl k) + 1 < fuel)%nat ->
  (PDE_addr c = 0 -> KERNEL_HEAP_BASE <= vaddr_start V) ->
  exists m' pg' ar' fl', sys_free fuel p s = Ret (tt, with_mem m' pg' s) /\
    heap_of (with_mem m' pg' s) c V ar' fl' /\ freed (mem s) V (pool_for c) (ram (mach s)) m' ar ar' fl fl' k p /\
    arena_after (mem s) V (pool_for c) (ram (mach s)) m' (pg s) pg' ar ar' fl fl' k p.
Proof. apply sys_free_full_ok. Qed.

Lemma sys_malloc_large_ok fuel s c V ar fl size r0 :
  heap_of s c V ar fl -> 1024 < size -> size < pool_size (pool_of (pool_for c) (mem s)) -> pages_for size < 3840 ->
  0 <= r0 -> r0 + pages_for size <= space_bits V -> free_run (ram (mach s)) (vaddr_bitmap V) r0 (pages_for size) ->
  enough_frames (mem s) (ram (mach s)) (pool_for c) (Z.to_nat (pages_for size)) ->
  exists r m' pg', sys_malloc kernel_arena_descs (S fuel) size s = Ret (vpage V r + 12, with_mem m' pg' s) /\
    heap_of (with_mem m' pg' s) c V ar fl /\ large_block (mem s) V (pool_for c) m' pg' ar r (pages_for size) /\
    size + 12 <= PAGE_SIZE * pages_for size /\
    (forall a, vpage V r + 12 <= a < vpage V r + PAGE_SIZE * pages_for size -> m' !! a = Some 0) /\
    (forall k y a, live V ar fl k y -> y <= a < y + bsize k -> m' !! a = ram (mach s) !! a).
Proof.
  intros [Hc Hcur Hsp Hlock Hh] Hsize Hps Hmax Hr0 Hle Hrun Hfr.
  set (s1 := with_lock (pool_lock (pool_for c)) (held_lock (cur s) 1) s).
  destruct (malloc_pages_ok (descs_for s c) (mem s) V (pool_for c) s1 size ar fl r0 eq_refl
    (space_of_locks _ _ _ _ Hsp) Hh (with_lock_lookup _ _ _) Hsize Hmax Hr0 Hle Hrun Hfr)
    as (r & m' & pg' & Hrun' & Hh' & Hlb & _ & Hz & Hk).
  exists r, m', pg'. split_and!; try done.
  - unfold sys_malloc. rewrite (bind_Ret _ _ _ _ _ (malloc_target_ok s c Hc)).
    replace ((size >? 0) && (size <? pool_size (pool_of (pool_for c) (mem s)))) with true by lia. cbn [negb].
    rewrite (bind_Ret _ _ _ _ _ (lock_free_ok fuel _ s Hlock Hcur)). fold s1.
    replace (size >? 1024) with true by lia. rewrite Hrun'. do 2 f_equal. unfold s1.
    change (with_mem m' pg' (with_lock ?l ?k s)) with (with_lock l k (with_mem m' pg' s)).
    rewrite with_lock_twice. by apply with_lock_id.
  - constructor; try done. by apply space_of_mem.
  - unfold pages_for, PAGE_SIZE. Z.to_euclidean_division_equations. lia.
Qed.

(** [sys_malloc] of more than 1024 bytes (and less than 15 MB) returns whole pages: a header and behind
    it zeros for at least [size] bytes, in pages that were free and are now mapped; the blocks of the
    arenas stay as they are. *)
Theorem sys_malloc_large_correct fuel s c V ar fl size r0 :
  heap_of s c V ar fl -> 1024 < size -> size < pool_size (pool_of (pool_for c) (mem s)) -> pages_for size < 3840 ->
  0 <= r0 -> r0 + pages_for size <= space_bits V -> free_run (ram (mach s)) (vaddr_bitmap V) r0 (pages_for size) ->
  enough_frames (mem s) (ram (mach s)) (pool_for c) (Z.to_nat (pages_for size)) ->
  exists r m' pg', sys_malloc kernel_arena_descs (S fuel) size s = Ret (vpage V r + 12, with_mem m' pg' s) /\
    heap_of (with_mem m' pg' s) c V ar fl /\ large_block (mem s) V (pool_for c) m' pg' ar r (pages_for size) /\
    size + 12 <= PAGE_SIZE * pages_for size /\
    (forall a, vpage V r + 12 <= a < vpage V r + PAGE_SIZE * pages_for size -> m' !! a = Some 0) /\
    (forall k y a, live V ar fl k y -> y <= a < y + bsize k -> m' !! a = ram (mach s) !! a).
Proof. apply sys_malloc_large_ok. Qed.

(** [sys_free] of a large block gives its pages back: they are free and unmapped, and the blocks of
    the arenas stay as they are. *)
Theorem sys_free_large_correct fuel s c V ar fl r n :
  heap_of s c V ar fl -> large_block (mem s) V (pool_for c) (ram (mach s)) (pg s) ar r n -> n < 2 ^ 31 ->
  (PDE_addr c = 0 -> KERNEL_HEAP_BASE <= vaddr_start V) ->
  exists m' pg', sys_free (S fuel) (vpage V r + 12) s = Ret (tt, with_mem m' pg' s) /\
    heap_of (with_mem m' pg' s) c V ar fl /\
    (forall j, 0 <= j < space_bits V -> bit m' (vaddr_bitmap V) j =
       if (r <=? j) && (j <? r + n) then false else bit (ram (mach s)) (vaddr_bitmap V) j) /\
    (forall j, r <= j < r + n -> translate pg' (vpage V j) = None) /\
    (forall k y a, live V ar fl k y -> y <= a < y + bsize k -> m' !! a = ram (mach s) !! a).
Proof.
  intros [Hc Hcur Hsp Hlock Hh] [(L1 & L2 & L3) L4 L5 L6 L7] Hn Hbase.
  destruct (vpage_facts _ _ _ _ r (ho_mem _ _ _ _ _ _ _ _ Hh) ltac:(lia)) as (V0 & V1 & V2 & V3).
  pose proof (block2arena_ok (mem s) V _ _ r (vpage V r + 12) (ho_mem _ _ _ _ _ _ _ _ Hh) ltac:(lia)
    ltac:(unfold in_page, PAGE_SIZE; lia)) as Hba.
  set (s1 := with_lock (pool_lock (pool_for c)) (held_lock (cur s) 1) s).
  destruct (pfree_held (descs_for s c) (mem s) V (pool_for c) s1 ar fl r (Z.to_nat n) eq_refl (space_of_locks _ _ _ _ Hsp) Hh)
    as (m' & pg' & Hpf & Hh' & Hk & rs & Hlen & (_ & P2 & _ & P4 & _) & _); [lia|lia|lia| |].
  { intros j Hj. apply L4. lia. }
  rewrite Z2Nat.id in Hpf by lia. exists m', pg'. split_and!.
  - unfold sys_free. replace (vpage V r + 12 =? 0) with false by lia. cbn [negb].
    rewrite (bind_Ret _ _ s (cur s) s) by done. rewrite (bind_Ret _ _ s c s) by by apply get_pcb_ok.
    rewrite (bind_Ret _ _ s (pool_for c) s).
    2:{ unfold pool_for. destruct (Z.eqb_spec (PDE_addr c) 0) as [E|E]; [|done].
        rewrite (bind_Ret _ _ s tt s); [done|]. apply ASSERT_true. specialize (Hbase E).
        unfold vpage, PAGE_SIZE in *. lia. }
    rewrite (bind_Ret _ _ _ _ _ (lock_free_ok fuel _ s Hlock Hcur)). fold s1. cbv zeta. rewrite Hba.
    unfold arena_large_of, arena_desc_of, arena_cnt_of. rewrite !(u32_id (vpage V r + _)) by lia.
    rewrite (bind_Ret _ _ s1 1 s1) by (by apply on_mach_get, ld32_ok).
    rewrite (bind_Ret _ _ s1 tt s1) by done.
    rewrite (bind_Ret _ _ s1 0 s1) by (by apply on_mach_get, ld32_ok).
    rewrite (bind_Ret _ _ s1 1 s1) by (by apply on_mach_get, ld32_ok).
    change ((0 =? 0) && (s32 1 =? 1)) with true. cbn iota.
    rewrite (bind_Ret _ _ s1 tt (with_mem m' pg' s1)).
    2:{ rewrite (bind_Ret _ _ s1 n s1) by (by apply on_mach_get, ld32_ok). exact Hpf. }
    rewrite unlock_last_ok by apply with_lock_lookup. do 2 f_equal. unfold s1.
    change (with_mem m' pg' (with_lock ?l ?k s)) with (with_lock l k (with_mem m' pg' s)).
    rewrite with_lock_twice. by apply with_lock_id.
  - constructor; try done. by apply space_of_mem.
  - intros j Hj. rewrite P2 by done. rewrite Hlen. by rewrite Z2Nat.id by lia.
  - intros j Hj. pose proof (P4 (Z.to_nat (j - r)) ltac:(lia)) as E.
    by replace (r + Z.of_nat (Z.to_nat (j - r))) with j in E by lia.
  - done.
Qed.

End malloc.
