(* ===== verification/MemInit.v ===== *)
(** * kernel/memory.c: what [VmemInit] establishes

    The layout of the pools and of their bitmaps for a memory size, and that [VmemInit] leaves the
    page allocator and the byte allocator in states that satisfy their invariants. *)
From stdpp Require Import base list gmap functions strings.
From S2P Require Import Prelude Machine CString Bitmap Print Interrupt KList Paging State Sched Sync Pool.
From S2P Require Import Palloc Arena Heap Malloc.

(** ** [ArenaInit] *)

Lemma bsize_next k : 0 <= k < 7 -> u32 (bsize k * 2) = bsize (k + 1).
Proof.
  intros Hk. destruct (class_facts k Hk) as (K & _). rewrite u32_id by lia.
  unfold bsize. rewrite Z.pow_add_r by lia. lia.
Qed.

(** The descriptors of the classes below [n] are initialised. *)
Definition classes_ready (D : Z) (m : gmap Z Z) (n : Z) : Prop := forall k, 0 <= k < n -> class_ok D m [] k.

Lemma ArenaInit_step D s k : 0 < D -> D + 7 * sizeof_arena_desc < 2 ^ 32 -> 0 <= k < 7 ->
  readable (ram s) D (7 * sizeof_arena_desc) -> classes_ready D (ram s) k ->
  exists m', ArenaInit_body D (k, bsize k) s = Ret (inl (k + 1, bsize (k + 1)), set_ram m' s) /\
    classes_ready D m' (k + 1) /\ stored (ram s) m' /\
    same_outside (fun a => D <= a < D + 7 * sizeof_arena_desc) (ram s) m'.
Proof.
  intros HD Hlim Hk Hr Hc. unfold sizeof_arena_desc in *. set (d := D + 24 * k).
  destruct (class_facts k Hk) as (K1 & K2 & K3).
  set (m1 := setw (ram s) d (bsize k)). set (m2 := setw m1 (d + 4) (bsum k)).
  assert (stored (ram s) m2) as Hst2 by (eapply stored_trans; apply stored_setw).
  destruct (list_init_ok (set_ram m2 s) (d + 8)) as (m3 & Hrun & Hd & Hs & Hst3); [unfold d; lia|unfold d; lia| |].
  { apply (stored_readable (ram s)); [done|]. eapply readable_le; [exact Hr|unfold d; lia|unfold d; lia]. }
  cbn [ram set_ram] in Hst3, Hs.
  assert (same_outside (fun a => d <= a < d + 24) (ram s) m3) as Hs'.
  { intros a Ha. rewrite Hs by lia. unfold m2, m1. rewrite !setw_lookup_out by lia. done. }
  exists m3. split_and!.
  - unfold ArenaInit_body, ARENA_SUM. replace (k <? 7) with true by lia.
    unfold desc_at, sizeof_arena_desc, block_size_of, blocks_sum_of, free_list_of. fold d.
    rewrite (u32_id d), !(u32_id (d + _)) by (unfold d; lia). cbv zeta.
    rewrite (bind_Ret _ _ s tt (set_ram m1 s)).
    2:{ apply st32_ok, word_readable. eapply readable_le; [exact Hr|unfold d; lia|unfold d; lia]. }
    rewrite (bind_Ret _ _ _ tt (set_ram m2 s)).
    2:{ rewrite st32_ok; [done|]. cbn [ram set_ram]. apply is_word_setw, word_readable.
        eapply readable_le; [exact Hr|unfold d; lia|unfold d; lia]. }
    rewrite (bind_Ret _ _ _ _ _ Hrun). unfold ret. by rewrite bsize_next.
  - intros k' Hk'. destruct (decide (k' = k)) as [->|Hne].
    + unfold sizeof_arena_desc. constructor; unfold flist, sizeof_arena_desc; fold d.
      * transitivity (word m2 d); [apply word_same; intros b Hb; apply Hs; lia|].
        unfold m2. rewrite word_setw_ne by lia. apply word_setw_eq. lia.
      * transitivity (word m2 (d + 4)); [apply word_same; intros b Hb; apply Hs; lia|].
        apply word_setw_eq. lia.
      * exact Hd.
    + pose (V := VirtualAddr (Bitmap 0 0) 0). apply (class_ok_same D V (ram s) m3 ∅ [] k'); [lia| | | |apply Hc; lia].
      * intros x Hx. by apply elem_of_nil in Hx.
      * intros a Ha. apply Hs'. unfold sizeof_arena_desc, d in *. lia.
      * intros i a Hi. by rewrite lookup_empty in Hi.
  - by eapply stored_trans.
  - intros a Ha. apply Hs'. unfold d. lia.
Qed.

Lemma ArenaInit_loop D n : forall s k, 0 < D -> D + 7 * sizeof_arena_desc < 2 ^ 32 -> 0 <= k -> k + Z.of_nat n = 7 ->
  readable (ram s) D (7 * sizeof_arena_desc) -> classes_ready D (ram s) k ->
  exists m', iter (S n) (ArenaInit_body D) (k, bsize k) s = Ret (tt, set_ram m' s) /\
    classes_ready D m' 7 /\ stored (ram s) m' /\
    same_outside (fun a => D <= a < D + 7 * sizeof_arena_desc) (ram s) m'.
Proof.
  induction n as [|n IH]; intros s k HD Hlim Hk Hn Hr Hc.
  - assert (k = 7) as -> by lia. exists (ram s). split_and!; try done. rewrite set_ram_id. done.
  - destruct (ArenaInit_step D s k HD Hlim ltac:(lia) Hr Hc) as (m1 & H1 & Hc1 & Hst1 & Hs1).
    destruct (IH (set_ram m1 s) (k + 1) HD Hlim ltac:(lia) ltac:(lia)) as (m2 & H2 & Hc2 & Hst2 & Hs2); [|done|].
    { by apply (stored_readable (ram s)). }
    exists m2. rewrite (iter_S _ _ _ _ _ _ H1). split_and!; try done.
    + by eapply stored_trans.
    + intros a Ha. rewrite Hs2 by done. by apply Hs1.
Qed.

(** ** [VmemPoolInit] *)

(** What the loader's memory size is turned into. *)
Definition frames_of (all_mem : Z) : Z := (all_mem - 0x200000) / PAGE_SIZE.
Definition kernel_frames (all_mem : Z) : Z := frames_of all_mem / 2.
Definition user_frames (all_mem : Z) : Z := frames_of all_mem - kernel_frames all_mem.
Definition bitmaps_len (all_mem : Z) : Z := 2 * (kernel_frames all_mem / 8) + user_frames all_mem / 8.

Definition pools_for (all_mem : Z) : pools :=
  let lk := kernel_frames all_mem / 8 in
  let lu := user_frames all_mem / 8 in
  Pools (MemoryPool (Bitmap lk MEM_BITMAP_BASE) 0x200000 (kernel_frames all_mem * PAGE_SIZE))
    (MemoryPool (Bitmap lu (MEM_BITMAP_BASE + lk)) (0x200000 + kernel_frames all_mem * PAGE_SIZE)
       (user_frames all_mem * PAGE_SIZE))
    (VirtualAddr (Bitmap lk (lk + lu + MEM_BITMAP_BASE)) KERNEL_HEAP_BASE).

(** The sizes for which the kernel heap ends below the page table window. *)
Definition mem_size_ok (all_mem : Z) : Prop := 0x200000 <= all_mem < 0x7F800000.

Lemma frames_facts all_mem : mem_size_ok all_mem ->
  let kf := kernel_frames all_mem in let uf := user_frames all_mem in
  0 <= kf /\ kf <= uf <= kf + 1 /\ 0x200000 + 4096 * (kf + uf) <= all_mem /\ kf + uf <= 521727 /\
  0 <= kf / 8 /\ 8 * (kf / 8) <= kf < 8 * (kf / 8) + 8 /\ 0 <= uf / 8 /\ 8 * (uf / 8) <= uf.
Proof.
  intros H. unfold mem_size_ok in H. unfold user_frames, kernel_frames, frames_of, PAGE_SIZE.
  set (n := (all_mem - 0x200000) / 4096).
  assert (0 <= n /\ 4096 * n <= all_mem - 0x200000 < 4096 * n + 4096) as Hn
    by (unfold n; Z.to_euclidean_division_equations; lia).
  assert (0 <= n / 2 /\ 2 * (n / 2) <= n < 2 * (n / 2) + 2) as Hh by (Z.to_euclidean_division_equations; lia).
  clearbody n. revert Hh. generalize (n / 2). intros h Hh. cbv zeta.
  assert (0 <= h / 8 /\ 8 * (h / 8) <= h < 8 * (h / 8) + 8) by (Z.to_euclidean_division_equations; lia).
  assert (0 <= (n - h) / 8 /\ 8 * ((n - h) / 8) <= n - h) by (Z.to_euclidean_division_equations; lia).
  lia.
Qed.

Section pool_init.
  Context (all_mem : Z) (Hsize : mem_size_ok all_mem).
  Abbreviation ps := (pools_for all_mem).
  Abbreviation V := (kernel_vaddr ps).

Lemma bitmap_layout i : let b := bitmap_at ps V i in
  MEM_BITMAP_BASE <= bits b /\ 0 <= bitmap_bytes_len b <= 65536 /\
  bits b + bitmap_bytes_len b <= MEM_BITMAP_BASE + bitmaps_len all_mem.
Proof.
  pose proof (frames_facts all_mem Hsize) as F. cbv zeta in F. unfold bitmaps_len.
  destruct i as [[]|]; cbn; lia.
Qed.

Lemma bitmaps_apart i j a : in_bitmap (bitmap_at ps V i) a -> in_bitmap (bitmap_at ps V j) a -> i = j.
Proof.
  pose proof (frames_facts all_mem Hsize) as F. cbv zeta in F. unfold in_bitmap.
  destruct i as [[]|], j as [[]|]; cbn; intros H1 H2; (done || lia).
Qed.

Lemma bitmap_ready m i : ram_ok m -> readable m MEM_BITMAP_BASE (bitmaps_len all_mem + 1) ->
  bitmap_ok m (bitmap_at ps V i).
Proof.
  intros Hm Hr. pose proof (bitmap_layout i) as (L1 & L2 & L3). cbv zeta in *.
  pose proof (frames_facts all_mem Hsize) as F. cbv zeta in F. unfold bitmaps_len, MEM_BITMAP_BASE in *.
  split_and!; try done; try lia. eapply readable_le; [exact Hr|lia|lia].
Qed.

End pool_init.

(** ** Output *)

(** The program only prints. *)
Definition says (prog : M machine Z) : Prop := forall s, exists a t, prog s = Ret (a, set_tty t s).

Definition printable (l : list Z) : bool := forallb (fun b => (0 <? b) && (b <? 256)) l.

Lemma putstr_says l : printable l = true -> Z.of_nat (length l) < 2 ^ 32 -> says (sys_putstr_bytes (l ++ [0])).
Proof.
  intros Hl Hlen s. eexists _, _. apply putstr_ok; [|done]. unfold printable in Hl. rewrite forallb_forall in Hl.
  apply Forall_forall. intros x Hx. specialize (Hl x (proj1 (list_elem_of_In _ _) Hx)). lia.
Qed.

Lemma puthex_says n : 0 <= n < 2 ^ 32 -> says (sys_puthex n).
Proof. intros Hn s. destruct (sys_puthex_ok n s Hn) as (out & H & _). eauto. Qed.

(** A literal is its characters and the final 0. *)
Ltac says_literal :=
  match goal with |- says (sys_putstr_bytes ?x) =>
    let l := eval vm_compute in (removelast x) in
    change (says (sys_putstr_bytes (l ++ [0]))); apply putstr_says; vm_compute; reflexivity end.

(** A kernel state with other bytes in memory and other output. *)
Definition with_out (m : gmap Z Z) (t : list Z) (s : kernel) : kernel :=
  set_mach (Machine m (eflags (mach s)) (outs (mach s)) t) s.

Lemma wp_says {B} prog (k : Z -> M kernel B) Q m t s : says prog ->
  (forall a t', wp (k a) Q (with_out m t' s)) -> wp (bind (on_mach prog) k) Q (with_out m t s).
Proof.
  intros Hs Hk. destruct (Hs (Machine m (eflags (mach s)) (outs (mach s)) t)) as (a & t' & H).
  apply wp_bind. eapply wp_intro; [exact (on_mach_ok prog (with_out m t s) a _ H)|]. apply Hk.
Qed.

Lemma wp_on_ram {A B} (prog : M machine A) (k : A -> M kernel B) Q m m' t s a :
  prog (mach (with_out m t s)) = Ret (a, set_ram m' (mach (with_out m t s))) ->
  wp (k a) Q (with_out m' t s) -> wp (bind (on_mach prog) k) Q (with_out m t s).
Proof.
  intros H Hk. apply wp_bind. eapply wp_intro; [exact (on_mach_ok prog (with_out m t s) a _ H)|]. exact Hk.
Qed.

Section pool_init_run.
  Context (all_mem : Z) (Hsize : mem_size_ok all_mem).
  Abbreviation ps := (pools_for all_mem).
  Abbreviation V := (kernel_vaddr ps).

(** The bitmaps that have been cleared, and the others as before. *)
Definition cleared (m m' : gmap Z Z) (done_ : option pool_flags -> Prop) : Prop :=
  ram_ok m' /\ readable m' MEM_BITMAP_BASE (bitmaps_len all_mem + 1) /\
  same_outside (fun a => MEM_BITMAP_BASE <= a < MEM_BITMAP_BASE + bitmaps_len all_mem) m m' /\
  forall i, done_ i -> forall j, 0 <= j < nbits (bitmap_at ps V i) -> bit m' (bitmap_at ps V i) j = false.

Lemma BitmapInit_cleared m m1 dn i s : cleared m m1 dn -> ram s = m1 ->
  exists m2, BitmapInit (bitmap_at ps V i) s = Ret (tt, set_ram m2 s) /\ cleared m m2 (fun k => dn k \/ k = i).
Proof.
  intros (H1 & H2 & H3 & H4) Hs. pose proof (bitmap_layout all_mem Hsize i) as (L1 & L2 & L3). cbv zeta in *.
  destruct (BitmapInit_ok s (bitmap_at ps V i)) as (m2 & Hrun & Hok & Hb & Hs2).
  { rewrite Hs. by apply bitmap_ready. }
  rewrite Hs in Hs2. exists m2. split; [done|]. split_and!.
  - apply Hok.
  - intros a Ha. destruct (decide (in_bitmap (bitmap_at ps V i) a)) as [Hin|Hout].
    + apply Hok. unfold in_bitmap in Hin. lia.
    + rewrite Hs2 by done. by apply H2.
  - intros a Ha. rewrite Hs2; [by apply H3|]. lia.
  - intros k Hk j Hj. destruct (decide (k = i)) as [->|Hne]; [by apply Hb|].
    destruct Hk as [Hk|Hk]; [|done]. rewrite (bit_keep _ _ _ _ _ Hs2); [by apply H4|].
    intros Hc. apply Hne. apply (bitmaps_apart all_mem Hsize k i (bits (bitmap_at ps V k) + j / 8)); [|done].
    by apply bit_in_bitmap.
Qed.

Lemma VmemPoolInit_ok s m t : ram_ok m -> readable m MEM_BITMAP_BASE (bitmaps_len all_mem + 1) ->
  exists m' t', VmemPoolInit all_mem (with_out m t s) = Ret (tt, with_out m' t' (set_mem ps s)) /\
    cleared m m' (fun _ => True).
Proof.
  intros Hm Hr. pose proof (frames_facts all_mem Hsize) as F. cbv zeta in F.
  pose proof (bitmap_layout all_mem Hsize) as L.
  assert (cleared m m (fun _ => False)) as Hc by by split_and!.
  assert (wp (VmemPoolInit all_mem) (fun _ s' => exists m' t', s' = with_out m' t' (set_mem ps s) /\
    cleared m m' (fun _ => True)) (with_out m t s)) as ([] & s' & Hrun & m' & t' & -> & Hcl)%wp_elim; [|by exists m', t'].
  unfold VmemPoolInit, sys_putstr, sys_putline.
  eapply (wp_says _ _ _ m t s); [says_literal|]. intros _ t1. cbv zeta.
  assert (u32 (all_mem - (PAGE_SIZE * 256 + 0x100000)) / PAGE_SIZE = frames_of all_mem) as ->.
  { unfold mem_size_ok in Hsize. unfold frames_of, PAGE_SIZE. rewrite u32_id by lia. done. }
  fold (kernel_frames all_mem) (user_frames all_mem).
  set (lk := kernel_frames all_mem / 8) in *. set (lu := user_frames all_mem / 8) in *.
  unfold mem_size_ok, PAGE_SIZE, MEM_BITMAP_BASE in *. rewrite !u32_id by lia.
  apply wp_bind. eapply wp_intro; [done|].
  change (set_mem _ (with_out m t1 s)) with (with_out m t1 (set_mem ps s)).
  destruct (BitmapInit_cleared m m _ None (mach (with_out m t1 (set_mem ps s))) Hc eq_refl) as (m1 & H1 & Hc1).
  eapply wp_on_ram; [exact H1|].
  repeat (apply wp_says; [first [says_literal|apply puthex_says; cbn; unfold KERNEL_HEAP_BASE; lia]|]; intros _ ?).
  clear H1. match goal with |- wp _ _ (with_out _ ?t' _) =>
    destruct (BitmapInit_cleared m m1 _ (Some KERNEL_POOL) (mach (with_out m1 t' (set_mem ps s))) Hc1 eq_refl) as (m2 & H2 & Hc2) end.
  eapply wp_on_ram; [exact H2|]. clear H2. match goal with |- wp _ _ (with_out _ ?t' _) =>
    destruct (BitmapInit_cleared m m2 _ (Some USER_POOL) (mach (with_out m2 t' (set_mem ps s))) Hc2 eq_refl) as (m3 & H3 & Hc3) end.
  eapply wp_on_ram; [exact H3|]. apply wp_says; [says_literal|]. intros _ t2. apply wp_ret.
  exists m3, t2. split; [done|]. destruct Hc3 as (C1 & C2 & C3 & C4). split_and!; try done.
  intros i _. apply C4. destruct i as [[]|]; tauto.
Qed.

(** ** The invariant of the page allocator *)

(** The page tables the loader leaves: the frames above 2 MB are plain memory, no page is mapped to
    them, and nothing is mapped in the kernel heap. *)
Record paging_ready (pg : paging) : Prop := PagingReady {
  pr_ok : pg_ok pg;
  pr_fresh : forall f, 0x200000 <= f -> f + 4096 <= all_mem -> f mod 4096 = 0 ->
    frame_fresh (phys pg) (frame_of (cr3 pg)) f;
  pr_low : forall va pa, 0 <= va < 1023 * 2 ^ 22 -> translate pg va = Some pa -> pa < 0x200000;
  pr_heap : forall va, KERNEL_HEAP_BASE <= va < 1023 * 2 ^ 22 -> translate pg va = None;
  pr_tables : forall va va' t, KERNEL_HEAP_BASE <= va < 1023 * 2 ^ 22 -> KERNEL_HEAP_BASE <= va' < 1023 * 2 ^ 22 ->
    table_of (phys pg) (frame_of (cr3 pg)) va = Some t ->
    table_of (phys pg) (frame_of (cr3 pg)) va' = Some t -> va / 2 ^ 22 = va' / 2 ^ 22
}.

Lemma pools_mem_ok m0 m pg : cleared m0 m (fun _ => True) -> paging_ready pg -> mem_ok ps V m pg.
Proof.
  intros (C1 & C2 & _ & C4) [P1 P2 P3 P4 P5]. pose proof (frames_facts all_mem Hsize) as F. cbv zeta in F.
  assert (forall va, in_space V va -> KERNEL_HEAP_BASE <= va < 1023 * 2 ^ 22) as Hsp.
  { intros va. unfold in_space, space_bits, nbits, KERNEL_HEAP_BASE, PAGE_SIZE. cbn. unfold KERNEL_HEAP_BASE. lia. }
  assert (forall pf r, 0 <= r < pool_bits (pool_of pf ps) -> let f := frame (pool_of pf ps) r in
    0x200000 <= f /\ f + 4096 <= all_mem /\ f mod 4096 = 0) as Hfr.
  { intros pf r. unfold frame, pool_bits, nbits, PAGE_SIZE. destruct pf; cbn; intros Hr; unfold PAGE_SIZE;
      (split_and!; [lia|lia|]).
    - by rewrite Z.add_mod, Z.mul_comm, Z.mod_mul by lia.
    - replace (0x200000 + kernel_frames all_mem * 4096 + 4096 * r) with ((512 + kernel_frames all_mem + r) * 4096) by lia.
      by rewrite Z.mod_mul. }
  assert (forall pf r va, maps_frame ps pg va pf r -> False) as Hno.
  { intros pf r va (H1 & H2 & H3). destruct (Hfr pf r H2) as (F1 & _). apply P3 in H3; [|done].
    pose proof (Z.mod_pos_bound va (2 ^ 12)). lia. }
  constructor.
  - done.
  - intros i. by apply bitmap_ready.
  - intros i j a. by apply bitmaps_apart.
  - intros i a Ha%Hsp Hb. pose proof (bitmap_layout all_mem Hsize i) as (L1 & L2 & L3). cbv zeta in *.
    unfold bitmaps_len, MEM_BITMAP_BASE, KERNEL_HEAP_BASE in *. lia.
  - intros pf. unfold pool_bits, nbits, PAGE_SIZE, mem_size_ok in *. destruct pf; cbn; unfold PAGE_SIZE;
      (split_and!; [lia| |lia]); [done|].
    replace (0x200000 + kernel_frames all_mem * 4096) with ((512 + kernel_frames all_mem) * 4096) by lia.
    by rewrite Z.mod_mul.
  - unfold pool_bits, nbits, PAGE_SIZE. cbn. unfold PAGE_SIZE. lia.
  - unfold space_bits, nbits, PAGE_SIZE. cbn. unfold KERNEL_HEAP_BASE. split_and!; [lia|done|lia].
  - intros pf r Hr _. destruct (Hfr pf r Hr) as (F1 & F2 & F3). by apply P2.
  - intros pf r va Hm. by destruct (Hno pf r va).
  - intros i Hi _. apply P4, Hsp. unfold in_space, vpage, PAGE_SIZE. lia.
  - intros va va' t Ha%Hsp Ha'%Hsp. by apply P5.
  - intros pf r va _ Hm. by destruct (Hno pf r va).
  - intros pf r va va' Hm. by destruct (Hno pf r va).
Qed.

End pool_init_run.

(** ** [VmemInit] *)

Definition no_blocks (_ : Z) : list Z := [].

(** The descriptors lie in the kernel's data, away from the bitmaps and below the heap. *)
Definition descs_placed (D all_mem : Z) (m : gmap Z Z) : Prop :=
  0 < D /\ D + 7 * sizeof_arena_desc <= KERNEL_HEAP_BASE /\ readable m D (7 * sizeof_arena_desc) /\
  (D + 7 * sizeof_arena_desc <= MEM_BITMAP_BASE \/ MEM_BITMAP_BASE + bitmaps_len all_mem < D).

Lemma fresh_heap_ok D all_mem m0 m1 m pg : mem_size_ok all_mem -> cleared all_mem m0 m1 (fun _ => True) ->
  paging_ready all_mem pg -> descs_placed D all_mem m1 ->
  classes_ready D m 7 -> stored m1 m -> same_outside (fun a => D <= a < D + 7 * sizeof_arena_desc) m1 m ->
  heap_ok D (pools_for all_mem) (kernel_vaddr (pools_for all_mem)) KERNEL_POOL m pg ∅ no_blocks /\
  forall i j, 0 <= j < nbits (bitmap_at (pools_for all_mem) (kernel_vaddr (pools_for all_mem)) i) ->
    bit m (bitmap_at (pools_for all_mem) (kernel_vaddr (pools_for all_mem)) i) j = false.
Proof.
  intros Hsize Hc Hp (D1 & D2 & D3 & D4) Hcl Hst Hs. set (ps := pools_for all_mem).
  pose proof (pools_mem_ok all_mem Hsize m0 m1 pg Hc Hp) as Hm. fold ps in Hm.
  assert (forall b a, bits (bitmap_at ps (kernel_vaddr ps) b) <= a <= bits (bitmap_at ps (kernel_vaddr ps) b) +
    bitmap_bytes_len (bitmap_at ps (kernel_vaddr ps) b) -> ~ D <= a < D + 7 * sizeof_arena_desc) as Haway.
  { intros b a Ha. pose proof (bitmap_layout all_mem Hsize b) as (L1 & L2 & L3). cbv zeta in *. fold ps in L1, L2, L3. lia. }
  destruct (mem_ok_bitmaps ps (kernel_vaddr ps) m1 m pg Hm) as [Hm' Hb'].
  { apply Hst, (mo_bitmap _ _ _ _ Hm None). }
  { intros b a Ha. apply Hs. by apply (Haway b). }
  split.
  - constructor; try done.
    + unfold KERNEL_HEAP_BASE in D2. split; [done|lia].
    + intros a Ha. split; [|intros b Hb; by apply (Haway b a)]. unfold in_space. cbn [ps pools_for kernel_vaddr vaddr_start]. lia.
    + intros k x _ Hx. by apply elem_of_nil in Hx.
  - intros i j Hj. rewrite Hb' by done. by apply Hc.
Qed.

Lemma VmemInit_ok D s all_mem : mem_size_ok all_mem -> word (ram (mach s)) 0x810 = Some all_mem ->
  ram_ok (ram (mach s)) -> readable (ram (mach s)) MEM_BITMAP_BASE (bitmaps_len all_mem + 1) ->
  descs_placed D all_mem (ram (mach s)) -> paging_ready all_mem (pg s) ->
  is_Some (locks s !! kernel_pool_lock) -> is_Some (locks s !! user_pool_lock) ->
  let ps := pools_for all_mem in
  exists m' t', VmemInit D s = Ret (tt, with_out m' t'
      (with_lock user_pool_lock free_lock (with_lock kernel_pool_lock free_lock (set_mem ps s)))) /\
    heap_ok D ps (kernel_vaddr ps) KERNEL_POOL m' (pg s) ∅ no_blocks /\
    (forall i j, 0 <= j < nbits (bitmap_at ps (kernel_vaddr ps) i) -> bit m' (bitmap_at ps (kernel_vaddr ps) i) j = false) /\
    same_outside (fun a => MEM_BITMAP_BASE <= a < MEM_BITMAP_BASE + bitmaps_len all_mem \/
      D <= a < D + 7 * sizeof_arena_desc) (ram (mach s)) m'.
Proof.
  intros Hsize Hw Hram Hr HD Hp Hk Hu ps. set (m := ram (mach s)) in *. pose proof HD as (D1 & D2 & D3 & D4).
  pose (Post := fun s' => exists m' t', s' = with_out m' t'
      (with_lock user_pool_lock free_lock (with_lock kernel_pool_lock free_lock (set_mem ps s))) /\
    heap_ok D ps (kernel_vaddr ps) KERNEL_POOL m' (pg s) ∅ no_blocks /\
    (forall i j, 0 <= j < nbits (bitmap_at ps (kernel_vaddr ps) i) -> bit m' (bitmap_at ps (kernel_vaddr ps) i) j = false) /\
    same_outside (fun a => MEM_BITMAP_BASE <= a < MEM_BITMAP_BASE + bitmaps_len all_mem \/
      D <= a < D + 7 * sizeof_arena_desc) (ram (mach s)) m').
  assert (wp (VmemInit D) (fun _ s' => Post s') s) as ([] & s' & Hrun & m' & t' & -> & Hok)%wp_elim; [|by exists m', t'].
  assert (s = with_out m (tty (mach s)) s) as Es by (destruct s as [ma]; by destruct ma).
  rewrite Es at 1. unfold VmemInit. apply wp_says; [unfold sys_putline; says_literal|]. intros _ t1.
  eapply wp_on_ram; [apply (ld32_ok (mach (with_out m t1 s))); exact Hw|].
  destruct (VmemPoolInit_ok all_mem Hsize s m t1 Hram Hr) as (m1 & t2 & Hv & Hc).
  apply wp_bind. eapply wp_intro; [exact Hv|]. fold ps.
  apply wp_bind. eapply wp_intro; [apply LockInit_ok; exact Hk|].
  apply wp_bind. eapply wp_intro; [apply LockInit_ok|].
  { cbn [with_lock locks set_locks with_out set_mach set_mem]. by rewrite lookup_insert_ne. }
  set (s2 := with_lock user_pool_lock free_lock (with_lock kernel_pool_lock free_lock (set_mem ps s))).
  change (wp (on_mach (ArenaInit D) ;;; (let* _ := on_mach (sys_putline "done") in ret tt))%kernel
    (fun _ s' => Post s') (with_out m1 t2 s2)).
  assert (descs_placed D all_mem m1) as HD1.
  { split_and!; try done. intros a Ha. destruct Hc as (_ & _ & C3 & _). rewrite C3; [by apply D3|]. lia. }
  destruct (ArenaInit_loop D 7 (mach (with_out m1 t2 s2)) 0) as (m3 & H3 & Hcl & Hst & Hs);
    [done|unfold KERNEL_HEAP_BASE in D2; lia|lia|lia|apply HD1|intros k Hk'; lia|].
  eapply wp_on_ram; [exact H3|].
  apply wp_says; [unfold sys_putline; says_literal|]. intros _ t4. apply wp_ret.
  exists m3, t4. split; [done|]. destruct (fresh_heap_ok D all_mem m m1 m3 (pg s)) as [Hh Hb]; try done.
  split; [exact Hh|]. split; [exact Hb|]. intros a Ha. destruct Hc as (_ & _ & C3 & _). rewrite Hs, C3 by tauto. done.
Qed.

(** C23: [VmemInit] on the state the loader leaves: the pools are laid out for the memory size at 0x810,
    their bitmaps are clear and their locks free, and the invariants of the page allocator and of the
    byte allocator hold, with no page and no block in use. *)
Theorem VmemInit_correct D s all_mem : mem_size_ok all_mem -> word (ram (mach s)) 0x810 = Some all_mem ->
  ram_ok (ram (mach s)) -> readable (ram (mach s)) MEM_BITMAP_BASE (bitmaps_len all_mem + 1) ->
  descs_placed D all_mem (ram (mach s)) -> paging_ready all_mem (pg s) ->
  is_Some (locks s !! kernel_pool_lock) -> is_Some (locks s !! user_pool_lock) ->
  let ps := pools_for all_mem in
  exists m' t', VmemInit D s = Ret (tt, with_out m' t'
      (with_lock user_pool_lock free_lock (with_lock kernel_pool_lock free_lock (set_mem ps s)))) /\
    heap_ok D ps (kernel_vaddr ps) KERNEL_POOL m' (pg s) ∅ no_blocks /\
    (forall i j, 0 <= j < nbits (bitmap_at ps (kernel_vaddr ps) i) -> bit m' (bitmap_at ps (kernel_vaddr ps) i) j = false).
Proof.
  intros H1 H2 H3 H4 H5 H6 H7 H8 ps. destruct (VmemInit_ok D s all_mem H1 H2 H3 H4 H5 H6 H7 H8) as (m' & t' & R1 & R2 & R3 & _).
  exists m', t'. auto.
Qed.

(** A layout of pools, bitmaps and heap that wastes nothing and overlaps nowhere. *)
Record layout_ok (all_mem : Z) (ps : pools) : Prop := LayoutOk {
  ly_kernel : physic_addr_start (kernel_memory_pool ps) = 0x200000;
  ly_user : physic_addr_start (user_memory_pool ps) =
    physic_addr_start (kernel_memory_pool ps) + pool_size (kernel_memory_pool ps);
  ly_end : physic_addr_start (user_memory_pool ps) + pool_size (user_memory_pool ps) <= all_mem <
    physic_addr_start (user_memory_pool ps) + pool_size (user_memory_pool ps) + PAGE_SIZE;
  ly_bits : forall pf, 0 <= PAGE_SIZE * pool_bits (pool_of pf ps) <= pool_size (pool_of pf ps) /\
    pool_size (pool_of pf ps) < PAGE_SIZE * (pool_bits (pool_of pf ps) + 8);
  ly_heap : vaddr_start (kernel_vaddr ps) = KERNEL_HEAP_BASE /\
    space_bits (kernel_vaddr ps) = pool_bits (kernel_memory_pool ps) /\
    KERNEL_HEAP_BASE + PAGE_SIZE * space_bits (kernel_vaddr ps) <= 1023 * 2 ^ 22;
  ly_bitmaps : let kb := pool_bitmap (kernel_memory_pool ps) in let ub := pool_bitmap (user_memory_pool ps) in
    bits kb = MEM_BITMAP_BASE /\ bits ub = bits kb + bitmap_bytes_len kb /\
    bits (vaddr_bitmap (kernel_vaddr ps)) = bits ub + bitmap_bytes_len ub
}.

Lemma layout_for all_mem : mem_size_ok all_mem -> layout_ok all_mem (pools_for all_mem).
Proof.
  intros Hsize. pose proof (frames_facts all_mem Hsize) as F. cbv zeta in F.
  assert (all_mem < 0x200000 + 4096 * (kernel_frames all_mem + user_frames all_mem) + 4096) as Hend.
  { clear F. unfold user_frames, frames_of, mem_size_ok, PAGE_SIZE in *.
    pose proof (Z.mod_pos_bound (all_mem - 0x200000) 4096 ltac:(lia)).
    pose proof (Z.div_mod (all_mem - 0x200000) 4096 ltac:(lia)). lia. }
  assert (user_frames all_mem < 8 * (user_frames all_mem / 8) + 8) as Hu by (Z.to_euclidean_division_equations; lia).
  constructor; unfold pool_bits, space_bits, nbits, PAGE_SIZE; cbn; unfold PAGE_SIZE, KERNEL_HEAP_BASE; try lia.
  intros []; cbn; unfold PAGE_SIZE; lia.
Qed.

(** C36: [VmemPoolInit], for every memory size up to 2040 MB: it returns, having laid out the memory above
    2 MB: the kernel's pool, the user pool right behind it, up to less than a page from the end of
    memory; at most 7 frames of a pool have no bit; the kernel's heap has a page for every frame of
    its pool and ends below the window of the page tables; the three bitmaps lie one behind the other
    from 0xC009A000 on, with all bits clear.  They stay below the main thread's PCB at 0xC009E000
    exactly as long as there is less than 0x15760000 (343.4 MB) of memory, which the code does not
    check: with more memory it clears bytes of that PCB. *)
Theorem VmemPoolInit_bounds all_mem s : mem_size_ok all_mem -> ram_ok (ram (mach s)) ->
  readable (ram (mach s)) MEM_BITMAP_BASE (bitmaps_len all_mem + 1) ->
  exists s', VmemPoolInit all_mem s = Ret (tt, s') /\ layout_ok all_mem (mem s') /\
    (forall i j, let b := bitmap_at (mem s') (kernel_vaddr (mem s')) i in
       0 <= j < nbits b -> bit (ram (mach s')) b j = false) /\
    let last := vaddr_bitmap (kernel_vaddr (mem s')) in
    (bits last + bitmap_bytes_len last <= 0xC009E000 <-> all_mem < 0x15760000).
Proof.
  intros Hsize Hram Hr.
  destruct (VmemPoolInit_ok all_mem Hsize s (ram (mach s)) (tty (mach s)) Hram Hr) as (m' & t' & Hv & _ & _ & _ & Hb).
  assert (s = with_out (ram (mach s)) (tty (mach s)) s) as Es by (destruct s as [ma]; by destruct ma).
  rewrite <- Es in Hv. exists (with_out m' t' (set_mem (pools_for all_mem) s)). split; [exact Hv|].
  split; [by apply layout_for|]. split; [intros i j; by apply Hb|].
  clear - Hsize. cbn [with_out set_mach set_mem mem pools_for kernel_vaddr vaddr_bitmap bits bitmap_bytes_len].
  unfold mem_size_ok, MEM_BITMAP_BASE, user_frames, kernel_frames, frames_of, PAGE_SIZE in *.
  Z.to_euclidean_division_equations. lia.
Qed.

(** ** Examples: a machine with 2 MB and 320 KB *)

Definition boot_descs : Z := 0xC0005000.
Definition boot_ram : gmap Z Z :=
  setw (write_bytes (write_bytes ∅ MEM_BITMAP_BASE (replicate 16 0)) boot_descs (replicate 168 0)) 0x810 0x250000.
Definition boot_locks : gmap lock_id lock := <[kernel_pool_lock := free_lock]> (<[user_pool_lock := free_lock]> ∅).
Definition boot_kernel : kernel :=
  set_locks boot_locks (set_pg pool_paging (set_mach (Machine boot_ram 2 [] []) demo_kernel)).

Lemma boot_paging_at all_mem : all_mem <= 0x270000 -> paging_ready all_mem pool_paging.
Proof.
  intros Hmem. constructor.
  - apply pool_pg_ok.
  - intros f H1 H2 H3. apply pool_frame_fresh; [lia|lia|done].
  - intros va pa Hva Ht. by rewrite pool_unmapped in Ht.
  - intros va Hva. apply pool_unmapped. unfold KERNEL_HEAP_BASE in Hva. lia.
  - intros va va' t Hva Hva' H1 H2. change (phys pool_paging) with pool_phys in *.
    change (frame_of (cr3 pool_paging)) with 0x100000 in *. unfold KERNEL_HEAP_BASE in *.
    apply (pool_table va t) in H1; [|clear -Hva; lia]. apply (pool_table va' t) in H2; [|clear -Hva'; lia].
    destruct H1 as [_ ->], H2 as [_ ->]. reflexivity.
Qed.

Lemma boot_paging : paging_ready 0x250000 pool_paging.
Proof. by apply boot_paging_at. Qed.

Lemma boot_readable : readable boot_ram MEM_BITMAP_BASE 16 /\ readable boot_ram boot_descs 168 /\ ram_ok boot_ram.
Proof.
  unfold boot_ram, boot_descs, MEM_BITMAP_BASE. split_and!.
  - intros a Ha. apply setw_is_Some. rewrite write_bytes_lookup_out by (cbn; lia). rewrite zeros_lookup by lia. eauto.
  - intros a Ha. apply setw_is_Some. rewrite zeros_lookup by lia. eauto.
  - apply ram_ok_setw. do 2 (apply write_bytes_ok; [|by apply Forall_replicate]). apply ram_ok_empty.
Qed.

Lemma boot_word : word boot_ram 0x810 = Some 0x250000.
Proof. apply word_setw_eq. lia. Qed.

#[global] Opaque boot_ram.

Lemma boot_descs_placed : descs_placed boot_descs 0x250000 boot_ram.
Proof. split_and!; [zdec|zdec|apply boot_readable|left; zdec]. Qed.

Lemma VmemInit_correct_witness :
  exists m' t', VmemInit boot_descs boot_kernel = Ret (tt, with_out m' t'
      (with_lock user_pool_lock free_lock (with_lock kernel_pool_lock free_lock (set_mem (pools_for 0x250000) boot_kernel)))) /\
    heap_ok boot_descs (pools_for 0x250000) (kernel_vaddr (pools_for 0x250000)) KERNEL_POOL m' pool_paging ∅ no_blocks.
Proof.
  destruct (VmemInit_correct boot_descs boot_kernel 0x250000) as (m' & t' & H1 & H2 & _).
  - zdec.
  - exact boot_word.
  - apply boot_readable.
  - apply boot_readable.
  - exact boot_descs_placed.
  - exact boot_paging.
  - by eexists.
  - by eexists.
  - exists m', t'. split; [exact H1|exact H2].
Defined.

(** Clear memory from [b] on. *)
Definition clear_ram (b n : Z) : gmap Z Z := write_bytes ∅ b (replicate (Z.to_nat n) 0).

Lemma clear_ram_ok b n k : 0 <= k <= n -> ram_ok (clear_ram b n) /\ readable (clear_ram b n) b k.
Proof.
  intros Hk. split.
  - apply write_bytes_ok; [apply ram_ok_empty|]. apply Forall_replicate. lia.
  - eapply readable_le; [apply write_bytes_region|lia|]. rewrite length_replicate. lia.
Qed.

(** 343.4 MB: the third bitmap has reached the PCB. *)
Lemma VmemPoolInit_bounds_witness : exists s s', VmemPoolInit 0x15760000 s = Ret (tt, s') /\
  let last := vaddr_bitmap (kernel_vaddr (mem s')) in ~ bits last + bitmap_bytes_len last <= 0xC009E000.
Proof.
  destruct (clear_ram_ok MEM_BITMAP_BASE 20000 (bitmaps_len 0x15760000 + 1) ltac:(zdec)) as [Hram Hr].
  set (s := set_mach (Machine (clear_ram MEM_BITMAP_BASE 20000) 2 [] []) demo_kernel).
  destruct (VmemPoolInit_bounds 0x15760000 s ltac:(zdec) Hram Hr) as (s' & H1 & _ & _ & H2).
  exists s, s'. split; [exact H1|]. intros last Hle. exact (Z.lt_irrefl _ (proj1 H2 Hle)).
Defined.

Lemma clear_has_free m b n : (forall j, 0 <= j < nbits b -> bit m b j = false) -> Z.of_nat n <= nbits b ->
  has_free m b n.
Proof.
  intros Hb Hn. exists (Z.of_nat <$> seq 0 n). split_and!.
  - apply NoDup_fmap_2; [intros x y; lia|apply NoDup_seq].
  - by rewrite length_fmap, length_seq.
  - apply Forall_forall. intros j (k & -> & Hk%elem_of_seq)%list_elem_of_fmap. split; [lia|]. apply Hb. lia.
Qed.

(** The machine after [VmemInit]. *)
Definition boot_space : virtual_addr := kernel_vaddr (pools_for 0x250000).
Definition boot_thread : PCB := demo_pcb 0xC0120000 TASK_RUNNING.

Lemma boot_state : exists s, heap_of boot_descs s boot_thread boot_space ∅ no_blocks /\
  mem s = pools_for 0x250000 /\ KERNEL_HEAP_BASE <= vaddr_start boot_space /\
  (forall j, 0 <= j < 40 -> bit (ram (mach s)) (vaddr_bitmap boot_space) j = false) /\
  forall k, (k <= 16)%nat -> enough_frames (mem s) (ram (mach s)) KERNEL_POOL k.
Proof.
  destruct (VmemInit_ok boot_descs boot_kernel 0x250000) as (m' & t' & _ & Hh & Hb & _);
    [zdec|exact boot_word|apply boot_readable|apply boot_readable|exact boot_descs_placed|exact boot_paging|by eexists|by eexists|].
  exists (with_out m' t' (with_lock user_pool_lock free_lock (with_lock kernel_pool_lock free_lock
    (set_mem (pools_for 0x250000) boot_kernel)))). split_and!.
  - constructor; [reflexivity|discriminate|reflexivity|reflexivity|exact Hh].
  - reflexivity.
  - done.
  - intros j Hj. apply (Hb None). exact Hj.
  - intros k Hk. split; (apply clear_has_free; [exact (Hb (Some KERNEL_POOL))|]).
    + change (Z.of_nat (2 * k) <= 40). lia.
    + change (Z.of_nat k <= 40). lia.
Qed.

Lemma sys_malloc_correct_witness :
  exists s x m' pg', sys_malloc (H := demo_env) boot_descs 256 100 s = Ret (x, with_mem m' pg' s) /\
    forall a, x <= a < x + 100 -> m' !! a = Some 0.
Proof.
  destruct boot_state as (s & Hh & Hps & _ & Hb & Hf).
  destruct (sys_malloc_correct (H := demo_env) boot_descs 256 s boot_thread boot_space ∅ no_blocks 100 Hh)
    as (k & x & m' & pg' & ar' & fl' & H1 & H2 & _ & H4).
  - lia.
  - rewrite Hps. zdec.
  - lia.
  - intros k _ _. split; [|apply (Hf 1%nat); lia]. exists 0. split; [zdec|]. apply Hb. lia.
  - exists s, x, m', pg'. split; [exact H1|]. intros a Ha. apply (tk_zero _ _ _ _ _ _ _ _ _ _ _ H4).
    destruct H2 as (_ & H2 & _). lia.
Defined.

Lemma sys_free_correct_witness :
  exists fuel s p m' pg', sys_free (H := demo_env) fuel p s = Ret (tt, with_mem m' pg' s) /\ 0 < p.
Proof.
  destruct boot_state as (s & Hh & Hps & Hbase & Hb & Hf).
  destruct (sys_malloc_ok (H := demo_env) boot_descs 256 s boot_thread boot_space ∅ no_blocks 100 Hh)
    as (k & x & m' & pg' & ar' & fl' & H1 & H2 & H3 & H4); [lia|rewrite Hps; zdec|lia| |].
  { intros k _ _. split; [|apply (Hf 1%nat); lia]. exists 0. split; [zdec|]. apply Hb. lia. }
  destruct (sys_free_correct (H := demo_env) boot_descs (length (fl' k) + 2) (with_mem m' pg' s) boot_thread boot_space ar' fl' k x H3)
    as (m2 & pg2 & ar2 & fl2 & F1 & _).
  - exact (tk_live _ _ _ _ _ _ _ _ _ _ _ H4).
  - lia.
  - intros _. exact Hbase.
  - exists (length (fl' k) + 2)%nat, (with_mem m' pg' s), x, m2, pg2. split; [exact F1|].
    destruct (block_facts _ _ _ _ _ _ _ _ _ _ (hf_heap _ _ _ _ _ _ H3) (proj1 (tk_live _ _ _ _ _ _ _ _ _ _ _ H4)))
      as (_ & i & _ & _ & B1 & _ & _ & B4 & _). clear -B1 B4. lia.
Defined.

Lemma sys_malloc_large_correct_witness :
  exists s r m' pg', sys_malloc (H := demo_env) boot_descs 1 5000 s = Ret (vpage boot_space r + 12, with_mem m' pg' s) /\
    m' !! (vpage boot_space r + 12) = Some 0.
Proof.
  destruct boot_state as (s & Hh & Hps & _ & Hb & Hf).
  destruct (sys_malloc_large_correct (H := demo_env) boot_descs 0 s boot_thread boot_space ∅ no_blocks 5000 0 Hh)
    as (r & m' & pg' & H1 & _ & _ & _ & H5 & _).
  - lia.
  - rewrite Hps. zdec.
  - zdec.
  - lia.
  - zdec.
  - intros j Hj. apply Hb. change (pages_for 5000) with 2 in Hj. lia.
  - apply Hf. change (pages_for 5000) with 2. lia.
  - exists s, r, m', pg'. split; [exact H1|]. apply H5. change (pages_for 5000) with 2. unfold PAGE_SIZE. lia.
Defined.

Lemma sys_free_large_correct_witness :
  exists s r m' pg', sys_free (H := demo_env) 1 (vpage boot_space r + 12) s = Ret (tt, with_mem m' pg' s) /\
    translate pg' (vpage boot_space r) = None.
Proof.
  destruct boot_state as (s & Hh & Hps & Hbase & Hb & Hf).
  destruct (sys_malloc_large_ok (H := demo_env) boot_descs 0 s boot_thread boot_space ∅ no_blocks 5000 0 Hh)
    as (r & m' & pg' & H1 & H2 & H3 & _);
    [lia|rewrite Hps; zdec|zdec|lia|zdec| |apply Hf; change (pages_for 5000) with 2; lia|].
  { intros j Hj. apply Hb. change (pages_for 5000) with 2 in Hj. lia. }
  destruct (sys_free_large_correct (H := demo_env) boot_descs 0 (with_mem m' pg' s) boot_thread boot_space ∅ no_blocks r 2 H2)
    as (m2 & pg2 & F1 & _ & _ & F4 & _).
  - exact H3.
  - lia.
  - intros _. exact Hbase.
  - exists (with_mem m' pg' s), r, m2, pg2. split; [exact F1|]. apply F4. lia.
Defined.
