(* ===== verification/Loader.v ===== *)
(** * boot/loader.S: the page tables the kernel starts with

    [SetupPage] runs before paging is on, so its addresses are physical: it is code on a [machine]
    whose memory is the physical one.  A register is a local of the loop that uses it; [loop] counts
    ecx down and goes on while it is not 0. *)
From stdpp Require Import base list gmap strings.
From S2P Require Import Prelude Machine Bitmap Print Interrupt KList Paging State Sched Sync Pool Palloc.
From S2P Require Import Arena Heap Malloc MemInit.

(** ** Code *)

(** Constants of boot/include/boot.inc; [10] and [100] are decimal there, too. *)
Definition PAGE_DIR_TABLE_POS : Z := 0x100000.
Definition BOOT_PG_P : Z := 1.
Definition BOOT_PG_RW_RW : Z := 10.
Definition BOOT_PG_US_U : Z := 100.
Definition BOOT_FLAGS : Z := Z.lor (Z.lor BOOT_PG_US_U BOOT_PG_RW_RW) BOOT_PG_P.

(** The instruction [loop]. *)
Definition loop_ {S A} (ecx : Z) (go_on : A) : M S (A + unit) :=
  if u32 (ecx - 1) =? 0 then ret (inr tt) else ret (inl go_on).

Definition clear_pde_body '((ecx, esi) : Z * Z) : M machine (Z * Z + unit) :=
  st8 (PAGE_DIR_TABLE_POS + esi) 0 ;;;
  let esi := u32 (esi + 1) in
  loop_ ecx (u32 (ecx - 1), esi).

Definition create_pte_body (ebx : Z) '((ecx, esi, edx) : Z * Z * Z) : M machine (Z * Z * Z + unit) :=
  st32 (ebx + esi * 4) edx ;;;
  let edx := u32 (edx + 0x1000) in
  let esi := u32 (esi + 1) in
  loop_ ecx (u32 (ecx - 1), esi, edx).

Definition create_pde_body (ebx : Z) '((ecx, esi, eax) : Z * Z * Z) : M machine (Z * Z * Z + unit) :=
  st32 (ebx + esi * 4) eax ;;;
  let esi := u32 (esi + 1) in
  let eax := u32 (eax + 0x1000) in
  loop_ ecx (u32 (ecx - 1), esi, eax).

Definition SetupPage : M machine unit :=
  iter (S 0x1000) clear_pde_body (0x1000, 0) ;;;
  let eax := PAGE_DIR_TABLE_POS in
  let eax := u32 (eax + 0x1000) in
  let ebx := eax in
  let eax := Z.lor eax BOOT_FLAGS in
  st32 (PAGE_DIR_TABLE_POS + 0x0) eax ;;;
  st32 (PAGE_DIR_TABLE_POS + 0xC00) eax ;;;
  let eax := u32 (eax - 0x1000) in
  st32 (PAGE_DIR_TABLE_POS + 0xFFC) eax ;;;
  iter (S 256) (create_pte_body ebx) (256, 0, BOOT_FLAGS) ;;;
  let eax := u32 (PAGE_DIR_TABLE_POS + 0x2000) in
  let eax := Z.lor eax BOOT_FLAGS in
  let ebx := PAGE_DIR_TABLE_POS in
  iter (S 254) (create_pde_body ebx) (254, 769, eax).

(** ** The loops *)

(** What a run of stores of 32 bits at consecutive addresses makes: entry [lo + k] is [e + 0x1000 * k]. *)
Definition entries (m m' : gmap Z Z) (p lo hi e : Z) : Prop :=
  stored m m' /\ same_outside (fun a => p + 4 * lo <= a < p + 4 * hi) m m' /\
  forall j, lo <= j < hi -> word m' (p + 4 * j) = Some (e + 0x1000 * (j - lo)).

Lemma entries_next m m' p lo hi e : entries m m' p lo hi e -> lo <= hi -> 0 <= e + 0x1000 * (hi - lo) < 2 ^ 32 ->
  entries m (setw m' (p + 4 * hi) (e + 0x1000 * (hi - lo))) p lo (hi + 1) e.
Proof.
  intros (Hst & Hs & Hw) Hle He. split; [|split].
  - eapply stored_trans; [exact Hst|]. split; [apply ram_ok_setw|]. intros a. apply setw_is_Some.
  - intros a Ha. rewrite setw_lookup_out by lia. apply Hs. lia.
  - intros j Hj. destruct (decide (j = hi)) as [->|]; [by apply word_setw_eq|].
    rewrite word_setw_ne by lia. apply Hw. lia.
Qed.

(** Both loops that make entries. *)
Lemma entries_loop (body : Z * Z * Z -> M machine (Z * Z * Z + unit)) p lo n e s :
  (forall ecx esi v s, body (ecx, esi, v) s =
     (st32 (p + esi * 4) v ;;; loop_ ecx (u32 (ecx - 1), u32 (esi + 1), u32 (v + 0x1000))) s) ->
  0 <= lo -> 0 < n -> lo + n <= 1024 -> 0 <= e -> e + 0x1000 * n < 2 ^ 32 -> readable (ram s) (p + 4 * lo) (4 * n) ->
  exists m, iter (S (Z.to_nat n)) body (n, lo, e) s = Ret (tt, set_ram m s) /\ entries (ram s) m p lo (lo + n) e.
Proof.
  intros Hbody Hlo Hn Hmax He He2 Hr.
  pose (Q := fun (_ : unit) s' => exists m, s' = set_ram m s /\ entries (ram s) m p lo (lo + n) e).
  assert (wp (iter (S (Z.to_nat n)) body (n, lo, e)) Q s) as ([] & s' & Hrun & m & -> & Hm)%wp_elim; [|by exists m].
  apply (wp_iter (fun '(ecx, esi, v) s' => 1 <= ecx /\ lo <= esi /\ ecx + esi = lo + n /\ v = e + 0x1000 * (esi - lo) /\
    exists m, s' = set_ram m s /\ entries (ram s) m p lo esi e) (fun '(ecx, _, _) => Z.to_nat ecx)); [| |lia].
  - intros [[ecx esi] v] s' (H1 & H2 & H3 & -> & m & -> & Hm). unfold wp. rewrite Hbody.
    rewrite (bind_Ret _ _ _ tt (set_ram (setw m (p + 4 * esi) (e + 0x1000 * (esi - lo))) s)).
    2:{ rewrite Z.mul_comm. rewrite st32_ok; [by rewrite set_ram_set_ram, ram_set_ram|]. rewrite ram_set_ram.
        apply word_readable. intros a Ha. apply Hm, Hr. lia. }
    pose proof (entries_next _ _ _ _ _ _ Hm H2 ltac:(lia)) as Hm'. unfold loop_. rewrite (u32_id (ecx - 1)) by lia.
    destruct (Z.eqb_spec (ecx - 1) 0) as [E|E]; cbn.
    + exists (setw m (p + 4 * esi) (e + 0x1000 * (esi - lo))). split; [done|]. by replace (lo + n) with (esi + 1) by lia.
    + rewrite !u32_id by lia. split; [|lia]. split_and!; [lia|lia|lia|lia|]. eauto.
  - split_and!; [lia|lia|lia|lia|]. exists (ram s). split; [by rewrite set_ram_id|]. split; [apply stored_refl|].
    split; [done|]. intros j Hj. lia.
Qed.

Lemma clear_loop s : readable (ram s) PAGE_DIR_TABLE_POS 4096 ->
  exists m, iter (S 0x1000) clear_pde_body (0x1000, 0) s = Ret (tt, set_ram m s) /\ stored (ram s) m /\
    same_outside (fun a => PAGE_DIR_TABLE_POS <= a < PAGE_DIR_TABLE_POS + 4096) (ram s) m /\
    forall a, PAGE_DIR_TABLE_POS <= a < PAGE_DIR_TABLE_POS + 4096 -> m !! a = Some 0.
Proof.
  intros Hr. pose (cleared_to := fun esi m => stored (ram s) m /\
    same_outside (fun a => PAGE_DIR_TABLE_POS <= a < PAGE_DIR_TABLE_POS + esi) (ram s) m /\
    forall a, PAGE_DIR_TABLE_POS <= a < PAGE_DIR_TABLE_POS + esi -> m !! a = Some 0).
  assert (wp (iter (S 0x1000) clear_pde_body (0x1000, 0)) (fun _ s' => exists m, s' = set_ram m s /\ cleared_to 4096 m) s)
    as ([] & s' & Hrun & m & -> & Hm)%wp_elim; [|by exists m].
  apply (wp_iter (fun '(ecx, esi) s' => 1 <= ecx /\ 0 <= esi /\ ecx + esi = 4096 /\
    exists m, s' = set_ram m s /\ cleared_to esi m) (fun '(ecx, _) => Z.to_nat ecx)); [| |lia].
  - intros [ecx esi] s' (H1 & H2 & H3 & m & -> & Hst & Hs & Hz). cbn [clear_pde_body]. apply wp_bind.
    assert (is_Some (m !! (PAGE_DIR_TABLE_POS + esi))) as Ha by (apply Hst, Hr; lia).
    eapply wp_intro; [by apply st8_ok|]. cbv zeta. change (u8 0) with 0. rewrite ram_set_ram, set_ram_set_ram.
    assert (cleared_to (esi + 1) (<[PAGE_DIR_TABLE_POS + esi := 0]> m)) as Hm'.
    { split; [|split].
      - eapply stored_trans; [exact Hst|]. split; [intros Hm; by apply ram_ok_insert|].
        intros a Ha'. rewrite lookup_insert. case_decide; eauto.
      - intros a Ha'. rewrite lookup_insert_ne by lia. apply Hs. lia.
      - intros a Ha'. rewrite lookup_insert. case_decide; [done|]. apply Hz. lia. }
    unfold loop_. rewrite !u32_id by lia. destruct (Z.eqb_spec (ecx - 1) 0) as [E|E]; cbn.
    + exists (<[PAGE_DIR_TABLE_POS + esi := 0]> m). split; [done|]. by replace 4096 with (esi + 1) by lia.
    + split; [|lia]. split_and!; [lia|lia|lia|]. eauto.
  - split_and!; [lia|lia|lia|]. exists (ram s). split; [by rewrite set_ram_id|]. split; [apply stored_refl|].
    split; [done|]. intros a Ha. lia.
Qed.

Lemma st32_set m a v s : is_Some (word m a) -> st32 a v (set_ram m s) = Ret (tt, set_ram (setw m a v) s).
Proof. intros Ha. rewrite st32_ok by done. by rewrite ram_set_ram, set_ram_set_ram. Qed.

(** The directory [SetupPage] makes, and the first page table, of which it writes 256 entries. *)
Definition boot_pde (i : Z) : Z :=
  if (i =? 0) || (i =? 768) then 0x10106F else if i =? 1023 then 0x10006F
  else if 768 <? i then 0x10206F + 0x1000 * (i - 769) else 0.

Record page_tables (m m' : gmap Z Z) : Prop := PageTables {
  pt_stored : stored m m';
  pt_same : same_outside (fun a => 0x100000 <= a < 0x101400) m m';
  pt_pde : forall i, 0 <= i < 1024 -> pde_at m' 0x100000 i = Some (boot_pde i);
  pt_pte : forall j, 0 <= j < 256 -> word m' (0x101000 + 4 * j) = Some (0x6F + 0x1000 * j)
}.

Lemma SetupPage_run s : readable (ram s) 0x100000 0x1400 ->
  exists m, SetupPage s = Ret (tt, set_ram m s) /\ page_tables (ram s) m.
Proof.
  intros Hr. assert (readable (ram s) PAGE_DIR_TABLE_POS 4096) as Hr0 by (eapply readable_le; [exact Hr|done|done]).
  destruct (clear_loop s Hr0) as (m0 & R0 & St0 & S0 & Z0).
  assert (forall i, 0 <= i < 1024 -> word m0 (0x100000 + 4 * i) = Some 0) as W0.
  { intros i Hi. unfold word. by rewrite !Z0 by (unfold PAGE_DIR_TABLE_POS; lia). }
  set (m1 := setw (setw (setw m0 0x100000 0x10106F) 0x100C00 0x10106F) 0x100FFC 0x10006F).
  assert (stored m0 m1) as St1.
  { split; [intros Hm; by repeat apply ram_ok_setw|]. intros a Ha. by repeat apply setw_is_Some. }
  assert (readable m1 0x100000 0x1400) as Hr1 by (intros a Ha; apply St1, St0, Hr; lia).
  destruct (entries_loop (create_pte_body 0x101000) 0x101000 0 256 0x6F (set_ram m1 s)) as (m2 & R2 & St2 & S2 & W2);
    [done|lia|lia|lia|lia|lia|eapply readable_le; [exact Hr1|done|done]|].
  destruct (entries_loop (create_pde_body 0x100000) 0x100000 769 254 0x10206F (set_ram m2 s)) as (m3 & R3 & St3 & S3 & W3);
    [intros; unfold create_pde_body; reflexivity|lia|lia|lia|lia|lia| |].
  { rewrite ram_set_ram. intros a Ha. apply St2. rewrite ram_set_ram. apply Hr1. lia. }
  rewrite ram_set_ram in St2, S2, St3, S3. rewrite set_ram_set_ram in R2, R3. exists m3. split; [|constructor].
  - unfold SetupPage. rewrite (bind_Ret _ _ _ _ _ R0). cbv zeta.
    rewrite (bind_Ret _ _ _ tt (set_ram (setw m0 0x100000 0x10106F) s)).
    2:{ apply st32_set. exists 0. apply (W0 0). lia. }
    rewrite (bind_Ret _ _ _ tt (set_ram (setw (setw m0 0x100000 0x10106F) 0x100C00 0x10106F) s)).
    2:{ apply st32_set. rewrite word_setw_ne by (unfold PAGE_DIR_TABLE_POS; lia). exists 0. apply (W0 768). lia. }
    rewrite (bind_Ret _ _ _ tt (set_ram m1 s)).
    2:{ apply st32_set. rewrite !word_setw_ne by (unfold PAGE_DIR_TABLE_POS; lia). exists 0. apply (W0 1023). lia. }
    rewrite (bind_Ret _ _ _ _ _ R2). exact R3.
  - eapply stored_trans; [exact St0|]. eapply stored_trans; [exact St1|]. by eapply stored_trans; [exact St2|].
  - intros a Ha. rewrite S3, S2 by lia. unfold m1. rewrite !setw_lookup_out by lia. apply S0. unfold PAGE_DIR_TABLE_POS. lia.
  - intros i Hi. unfold pde_at, boot_pde. destruct (decide (769 <= i < 1023)) as [Hin|Hout].
    + rewrite W3 by lia. replace (i =? 0) with false by lia. replace (i =? 768) with false by lia.
      replace (i =? 1023) with false by lia. by replace (768 <? i) with true by lia.
    + rewrite (word_same m1) by (intros b Hb; rewrite S3, S2 by lia; done). unfold m1.
      destruct (Z.eqb_spec i 0) as [->|]; [rewrite !word_setw_ne by lia; by apply word_setw_eq|].
      destruct (Z.eqb_spec i 768) as [->|]; [rewrite word_setw_ne by lia; by apply word_setw_eq|].
      destruct (Z.eqb_spec i 1023) as [->|]; [by apply word_setw_eq|].
      rewrite !word_setw_ne, W0 by lia. by replace (768 <? i) with false by lia.
  - intros j Hj. rewrite (word_same m2) by (intros b Hb; apply S3; lia). rewrite W2 by lia. f_equal. lia.
Qed.

(** ** The address space *)

Lemma boot_pde_entry i : 0 <= i < 1024 -> is_present (boot_pde i) = (i =? 0) || (767 <? i) /\
  frame_of (boot_pde i) = if (i =? 0) || (i =? 768) then 0x101000 else if i =? 1023 then 0x100000
    else if 768 <? i then 0x102000 + 0x1000 * (i - 769) else 0.
Proof.
  intros Hi. unfold boot_pde. destruct (Z.eqb_spec i 0) as [->|H0]; [done|]. cbn [orb].
  destruct (Z.eqb_spec i 768) as [->|H1]; [done|]. destruct (Z.eqb_spec i 1023) as [->|H2]; [done|].
  destruct (Z.ltb_spec 768 i) as [H3|H3].
  - replace (767 <? i) with true by lia. rewrite frame_of_eq by lia. split; [|lia].
    unfold is_present. rewrite Z.bit0_odd, Z.odd_add, Z.odd_mul. reflexivity.
  - replace (767 <? i) with false by lia. done.
Qed.

Lemma low_entry j : 0 <= j < 256 -> is_present (0x6F + 0x1000 * j) = true /\ frame_of (0x6F + 0x1000 * j) = 0x1000 * j.
Proof.
  intros Hj. rewrite frame_of_eq by lia. split; [|lia].
  unfold is_present. rewrite Z.bit0_odd, Z.odd_add, Z.odd_mul. reflexivity.
Qed.

Section address_space.
  Context (m0 m : gmap Z Z) (Ht : page_tables m0 m).

Lemma boot_table va t : 0 <= va < 1023 * 2 ^ 22 -> table_of m 0x100000 va = Some t ->
  let i := va / 2 ^ 22 in (i = 0 \/ i = 768) /\ t = 0x101000 \/ 768 < i /\ t = 0x102000 + 0x1000 * (i - 769).
Proof.
  intros Hva Htab i. pose proof (pde_idx_low va Hva) as Hi. fold i in Hi. unfold table_of in Htab.
  pose proof (pt_pde _ _ Ht i ltac:(lia)) as E. unfold pde_at in E. fold i in Htab. rewrite E in Htab. clearbody i.
  destruct (boot_pde_entry i ltac:(lia)) as [Ep Ef]. rewrite Ep, Ef in Htab.
  destruct (Z.eqb_spec i 0) as [E0|H0]; [injection Htab as <-; left; auto|]. cbn [orb] in Htab.
  destruct (Z.eqb_spec i 768) as [E1|H1]; [replace (767 <? i) with true in Htab by lia; injection Htab as <-; left; auto|].
  destruct (Z.ltb_spec 767 i) as [H2|]; [|done]. replace (i =? 1023) with false in Htab by lia.
  replace (768 <? i) with true in Htab by lia. injection Htab as <-. right. lia.
Qed.

Lemma boot_has_table va : 0 <= va < 1023 * 2 ^ 22 -> va / 2 ^ 22 = 0 \/ 768 <= va / 2 ^ 22 -> is_Some (table_of m 0x100000 va).
Proof.
  intros Hva Hi. pose proof (pde_idx_low va Hva) as Hr. unfold table_of.
  pose proof (pt_pde _ _ Ht (va / 2 ^ 22) ltac:(lia)) as E. unfold pde_at in E. rewrite E.
  destruct (boot_pde_entry (va / 2 ^ 22) ltac:(lia)) as [-> _].
  replace ((va / 2 ^ 22 =? 0) || (767 <? va / 2 ^ 22)) with true by lia. eauto.
Qed.

(** The pages of the first 256 entries. *)
Lemma boot_low va : 0 <= va < 2 ^ 32 -> va / 2 ^ 22 = 0 \/ va / 2 ^ 22 = 768 -> va mod 2 ^ 22 < 2 ^ 20 ->
  translate (Paging m 0x100000 []) va = Some (va mod 2 ^ 22).
Proof.
  intros Hva Hi Hlow. assert (0 <= va < 1023 * 2 ^ 22) as Hva' by lia.
  unfold translate, walk. cbn [phys cr3]. change (frame_of 0x100000) with 0x100000.
  destruct (boot_has_table va Hva' ltac:(lia)) as [t Et]. rewrite Et.
  apply boot_table in Et as [[_ ->]|[? _]]; [|lia|lia].
  set (j := va / 2 ^ 12 mod 2 ^ 10). assert (0 <= j < 256) as Hj by (unfold j; lia).
  rewrite (pt_pte _ _ Ht j Hj). destruct (low_entry j Hj) as [-> ->]. f_equal. unfold j. lia.
Qed.

(** What the other 768 entries of the first table map is what the memory held. *)
Lemma boot_leftover j e : 256 <= j < 1024 -> word m0 (0x101000 + 4 * j) = Some e -> is_present e = true ->
  translate (Paging m 0x100000 []) (0xC0000000 + 4096 * j) = Some (frame_of e).
Proof.
  intros Hj He Hp. unfold translate, walk. cbn [phys cr3]. change (frame_of 0x100000) with 0x100000.
  destruct (boot_has_table (0xC0000000 + 4096 * j) ltac:(lia) ltac:(lia)) as [t Et]. rewrite Et.
  apply boot_table in Et as [[_ ->]|[? _]]; [|lia|lia].
  replace ((0xC0000000 + 4096 * j) / 2 ^ 12 mod 2 ^ 10) with j by lia.
  rewrite (word_same m0) by (intros b Hb; apply (pt_same _ _ Ht); lia). rewrite He, Hp.
  f_equal. lia.
Qed.

(** The memory behind the 256 entries, up to 2 MB, is clear: the tables of the kernel's half. *)
Definition tables_clear : Prop := forall a, 0x101400 <= a < 0x200000 -> m0 !! a = Some 0.

Lemma clear_entry t j : tables_clear -> 0x101000 <= t < 0x200000 -> 0 <= j < 1024 -> (t = 0x101000 -> 256 <= j) ->
  t mod 4096 = 0 -> word m (t + 4 * j) = Some 0.
Proof.
  intros Hz Htr Hj H256 Hmod. assert (0x101400 <= t + 4 * j /\ t + 4 * j + 4 <= 0x200000) as Hb by lia.
  rewrite (word_same m0) by (intros b Hbb; apply (pt_same _ _ Ht); lia). unfold word. by rewrite !Hz by lia.
Qed.

(** Nothing else is mapped. *)
Lemma boot_only va pa : tables_clear -> 0 <= va < 1023 * 2 ^ 22 -> translate (Paging m 0x100000 []) va = Some pa ->
  (va / 2 ^ 22 = 0 \/ va / 2 ^ 22 = 768) /\ va mod 2 ^ 22 < 2 ^ 20 /\ pa = va mod 2 ^ 22.
Proof.
  intros Hz Hva Htr. assert ((va / 2 ^ 22 = 0 \/ va / 2 ^ 22 = 768) /\ va mod 2 ^ 22 < 2 ^ 20) as [Hi Hlow].
  - unfold translate, walk in Htr. cbn [phys cr3] in Htr. change (frame_of 0x100000) with 0x100000 in Htr.
    destruct (table_of m 0x100000 va) as [t|] eqn:Et; [|done]. apply boot_table in Et; [|exact Hva].
    pose proof (pde_idx_low va Hva) as Hi. pose proof (pte_idx_range va) as Hj. set (j := va / 2 ^ 12 mod 2 ^ 10) in *.
    destruct (decide (t = 0x101000 /\ j < 256)) as [[-> Hlow]|Hno]; [unfold j in Hlow; lia|].
    rewrite (clear_entry t j Hz) in Htr; [done|lia|lia|lia|]. destruct Et as [[_ ->]|[_ ->]]; lia.
  - split; [exact Hi|]. split; [exact Hlow|]. rewrite boot_low in Htr by lia. by injection Htr.
Qed.

End address_space.

Lemma boot_paging_ready all_mem m0 m : mem_size_ok all_mem -> page_tables m0 m -> ram_ok m0 ->
  readable m0 0x100000 (all_mem - 0x100000) -> tables_clear m0 -> paging_ready all_mem (Paging m 0x100000 []).
Proof.
  intros Hsize Ht Hram Hr Hz. unfold mem_size_ok in Hsize. destruct (pt_stored _ _ Ht) as [Hok Hdom].
  assert (readable m 0x100000 (all_mem - 0x100000)) as Hr' by (intros a Ha; by apply Hdom, Hr).
  assert (forall i e, 0 <= i < 1023 -> pde_at m 0x100000 i = Some e -> is_present e = true ->
    0x101000 <= frame_of e /\ frame_of e + 4096 <= 0x200000) as Hpde.
  { intros i e Hi. rewrite (pt_pde _ _ Ht) by lia. intros [= <-]. destruct (boot_pde_entry i ltac:(lia)) as [-> ->].
    intros Hp. destruct ((i =? 0) || (i =? 768)) eqn:E; [lia|]. replace (i =? 1023) with false by lia.
    replace (768 <? i) with true by lia. lia. }
  constructor; cbn [phys cr3]; change (frame_of 0x100000) with 0x100000.
  - unfold pg_ok. cbn [phys cr3]. change (frame_of 0x100000) with 0x100000.
    split; [by apply Hok|]. split; [done|]. split; [done|]. split; [done|].
    split; [eapply readable_le; [exact Hr'|lia|lia]|]. split.
    + exists 0x10006F. rewrite (pt_pde _ _ Ht) by lia. done.
    + intros i e Hi He Hp. destruct (Hpde i e Hi He Hp) as [P1 P2]. split; [lia|]. split; [lia|].
      eapply readable_le; [exact Hr'|lia|lia].
  - intros f H1 H2 H3. split; [exact H3|]. split; [lia|]. split; [lia|].
    split; [eapply readable_le; [exact Hr'|lia|lia]|]. split; [lia|].
    intros i e Hi He Hp E. destruct (Hpde i e Hi He Hp). lia.
  - intros va pa Hva Htr. destruct (boot_only _ _ Ht va pa Hz Hva Htr) as (_ & H1 & ->). lia.
  - intros va Hva. unfold KERNEL_HEAP_BASE in Hva. destruct (translate _ va) as [pa|] eqn:Htr; [|done].
    destruct (boot_only _ _ Ht va pa Hz ltac:(lia) Htr) as (H1 & H2 & _). lia.
  - intros va va' t Hva Hva' E1 E2. unfold KERNEL_HEAP_BASE in *.
    apply (boot_table _ _ Ht va t ltac:(lia)) in E1. apply (boot_table _ _ Ht va' t ltac:(lia)) in E2. lia.
Qed.

(** C26: [SetupPage] on clear memory makes the address space the kernel is started in: the first megabyte
    is mapped at 0 and again at 0xC0000000, there is a page table for every page of the kernel's half,
    the directory is its own last entry, nothing else is mapped, and the frames above 2 MB are unused:
    what [VmemInit_correct] and the page allocator assume.  Only the directory and 1 KB of the first
    page table are written; the clear memory of the other tables is an assumption. *)
Theorem SetupPage_correct s all_mem : mem_size_ok all_mem -> ram_ok (ram s) ->
  readable (ram s) 0x100000 (all_mem - 0x100000) -> tables_clear (ram s) ->
  exists m, SetupPage s = Ret (tt, set_ram m s) /\ let g := Paging m 0x100000 [] in paging_ready all_mem g /\
    (forall a, 0 <= a < 2 ^ 20 -> translate g a = Some a /\ translate g (0xC0000000 + a) = Some a) /\
    (forall va pa, 0 <= va < 1023 * 2 ^ 22 -> translate g va = Some pa -> va mod 2 ^ 22 < 2 ^ 20 /\ pa = va mod 2 ^ 22) /\
    (forall va, 768 * 2 ^ 22 <= va < 1023 * 2 ^ 22 -> is_Some (table_of m 0x100000 va)) /\
    same_outside (fun a => 0x100000 <= a < 0x101400) (ram s) m.
Proof.
  intros Hsize Hram Hr Hz. pose proof Hsize as Hs. unfold mem_size_ok in Hs.
  destruct (SetupPage_run s) as (m & Hrun & Ht); [eapply readable_le; [exact Hr|lia|lia]|].
  exists m. split; [exact Hrun|]. cbv zeta.
  split; [by apply (boot_paging_ready all_mem (ram s))|]. split; [|split; [|split; [|exact (pt_same _ _ Ht)]]].
  - intros a Ha. rewrite !(boot_low _ _ Ht) by lia. split; f_equal; lia.
  - intros va pa Hva Htr. destruct (boot_only _ _ Ht va pa Hz Hva Htr) as (_ & H1 & H2). auto.
  - intros va Hva. apply (boot_has_table _ _ Ht); lia.
Qed.

(** C28: [SetupPage] on any memory: an entry behind the 256 keeps its bytes, and when they say present, the page of the
    kernel's heap it stands for is mapped before the kernel has begun, to any frame. *)
Theorem SetupPage_leftover s j e : readable (ram s) 0x100000 0x1400 -> 256 <= j < 1024 ->
  word (ram s) (0x101000 + 4 * j) = Some e -> is_present e = true ->
  exists m, SetupPage s = Ret (tt, set_ram m s) /\
    translate (Paging m 0x100000 []) (KERNEL_HEAP_BASE + 4096 * (j - 256)) = Some (frame_of e).
Proof.
  intros Hr Hj He Hp. destruct (SetupPage_run s Hr) as (m & Hrun & Ht). exists m. split; [exact Hrun|].
  unfold KERNEL_HEAP_BASE. replace (0xC0100000 + 4096 * (j - 256)) with (0xC0000000 + 4096 * j) by lia.
  by apply (boot_leftover _ _ Ht).
Qed.

(** ** Examples *)

(** Physical memory of 2.8 MB, the part above 1 MB. *)
Definition clear_phys : gmap Z Z := write_bytes ∅ 0x100000 (replicate (464 * page_n) 0).

Lemma clear_phys_ok : ram_ok clear_phys /\ forall a, 0x100000 <= a < 0x2D0000 -> clear_phys !! a = Some 0.
Proof.
  pose proof page_n_Z. split; [apply zero_ram_ok|].
  intros a Ha. apply zeros_lookup. lia.
Qed.

#[global] Opaque clear_phys.

Lemma clear_machine_ok t : let s := Machine clear_phys 2 [] t in ram_ok (ram s) /\
  readable (ram s) 0x100000 (0x2D0000 - 0x100000) /\ tables_clear (ram s).
Proof.
  destruct clear_phys_ok as [H1 H2]. split; [exact H1|]. split.
  - intros a Ha. cbn [ram]. rewrite H2 by lia. eauto.
  - intros a Ha. cbn [ram]. apply H2. lia.
Qed.

Lemma SetupPage_correct_witness : exists m,
  SetupPage (Machine clear_phys 2 [] []) = Ret (tt, Machine m 2 [] []) /\ paging_ready 0x2D0000 (Paging m 0x100000 []) /\
  translate (Paging m 0x100000 []) 0xC0001500 = Some 0x1500.
Proof.
  destruct (clear_machine_ok []) as (H1 & H2 & H3).
  destruct (SetupPage_correct (Machine clear_phys 2 [] []) 0x2D0000) as (m & E1 & E2 & E3 & _); [zdec|exact H1|exact H2|exact H3|].
  exists m. split; [exact E1|]. split; [exact E2|].
  assert (0 <= 0x1500 < 2 ^ 20) as Ha by (clear; lia). exact (proj2 (E3 0x1500 Ha)).
Defined.

Lemma SetupPage_leftover_witness : exists m,
  SetupPage (Machine (setw clear_phys 0x101400 0x00ABC067) 2 [] []) = Ret (tt, Machine m 2 [] []) /\
  translate (Paging m 0x100000 []) KERNEL_HEAP_BASE = Some 0x00ABC000.
Proof.
  destruct clear_phys_ok as [H1 H2].
  destruct (SetupPage_leftover (Machine (setw clear_phys 0x101400 0x00ABC067) 2 [] []) 256 0x00ABC067) as (m & E1 & E2).
  - intros a Ha. cbn [ram]. apply setw_is_Some. rewrite H2 by lia. eauto.
  - lia.
  - apply word_setw_eq. lia.
  - reflexivity.
  - exists m. split; [exact E1|exact E2].
Defined.
