(* ===== verification/Console.v ===== *)
(** * device/console.c: printing under a lock

    The functions as one thread sees them; Messages.v has them in a system of threads.
    Also [sys_putstr] of lib/kernel/print_asm.S on the address of a string, which Print.v has for the
    literals of the kernel only. *)
From stdpp Require Import base list gmap strings.
From S2P Require Import Prelude Machine CString Bitmap Print Interrupt KList Paging State Sched Sync.

Definition putstr_body '((str, n) : Z * Z) : M machine (Z * Z + Z) :=
  let* c := ld8 str in
  if c =? 0 then ret (inr n)
  else sys_putchar c ;;; ret (inl (u32 (str + 1), u32 (n + 1))).
Definition sys_putstr_at (fuel : nat) (str : Z) : M machine Z := iter fuel putstr_body (str, 0).

Definition ConsoleInit : M kernel unit := LockInit console_lock.

Section console.
  Context `{Env}.

Definition ConsoleLockAcquire (fuel : nat) : M kernel unit := sys_lock_lock fuel console_lock.
Definition ConsoleLockRelease : M kernel unit := sys_lock_unlock console_lock.

(** The [fuel] of a string is the one of its loop, that of the lock [lfuel]. *)
Definition console_putstr (lfuel fuel : nat) (str : Z) : M kernel Z :=
  ConsoleLockAcquire lfuel ;;;
  let* output_num := on_mach (sys_putstr_at fuel str) in
  ConsoleLockRelease ;;;
  ret output_num.

Definition console_putchar (lfuel : nat) (char_asi : Z) : M kernel unit :=
  ConsoleLockAcquire lfuel ;;;
  on_mach (sys_putchar char_asi) ;;;
  ConsoleLockRelease.

Definition console_putint (lfuel : nat) (num : Z) : M kernel Z :=
  ConsoleLockAcquire lfuel ;;;
  let* output_num := on_mach (sys_putint num) in
  ConsoleLockRelease ;;;
  ret output_num.

Definition console_puthex (lfuel : nat) (num : Z) : M kernel Z :=
  ConsoleLockAcquire lfuel ;;;
  let* output_num := on_mach (sys_puthex num) in
  ConsoleLockRelease ;;;
  ret output_num.

(** The lock is the caller's to take: free, or its own already. *)
Definition lock_mine (l : lock_id) (s : kernel) : Prop :=
  cur s <> 0 /\
  (locks s !! l = Some free_lock \/ exists n, 1 <= n < 2 ^ 32 - 1 /\ locks s !! l = Some (held_lock (cur s) n)).

(** Code that touches the machine only, between the two calls of a lock. *)
Lemma bracket_ok {A B} l fuel (prog : M machine A) (k : A -> M kernel B) s : lock_mine l s ->
  bind (sys_lock_lock (S fuel) l) (fun _ => bind (on_mach prog) (fun a => bind (sys_lock_unlock l) (fun _ => k a))) s =
    bind (on_mach prog) k s.
Proof.
  intros [Hc [Hl|(n & Hn & Hl)]].
  - rewrite (bind_Ret _ _ _ _ _ (lock_free_ok fuel l s Hl Hc)).
    set (s1 := with_lock l (held_lock (cur s) 1) s).
    unfold bind at 1, on_mach, zoom. change (mach s1) with (mach s). unfold bind at 2.
    destruct (prog (mach s)) as [[a m]| | | |]; try done.
    pose proof (unlock_last_ok l (set_mach m s1) (with_lock_lookup _ _ _)) as Hu.
    rewrite (bind_Ret _ _ _ _ _ Hu). f_equal.
    change (set_mach m s1) with (with_lock l (held_lock (cur s) 1) (set_mach m s)).
    rewrite with_lock_twice. by apply with_lock_id.
  - rewrite (bind_Ret _ _ _ _ _ (lock_held_ok (S fuel) l s n Hl ltac:(lia) ltac:(lia))).
    set (s1 := with_lock l (held_lock (cur s) (n + 1)) s).
    unfold bind at 1, on_mach, zoom. change (mach s1) with (mach s). unfold bind at 2.
    destruct (prog (mach s)) as [[a m]| | | |]; try done.
    pose proof (unlock_nested_ok l (set_mach m s1) (n + 1) (with_lock_lookup _ _ _) ltac:(lia)) as Hu.
    rewrite (bind_Ret _ _ _ _ _ Hu). f_equal. replace (n + 1 - 1) with n by lia.
    change (set_mach m s1) with (with_lock l (held_lock (cur s) (n + 1)) (set_mach m s)).
    rewrite with_lock_twice. by apply with_lock_id.
Qed.

Lemma bind_ret_r {S A} (m : M S A) s : bind m ret s = m s.
Proof. unfold bind, ret. by destruct (m s) as [[a s']| | | |]. Qed.

(** What each of them comes to. *)
Lemma console_putstr_mine lfuel fuel s str : lock_mine console_lock s ->
  console_putstr (S lfuel) fuel str s = on_mach (sys_putstr_at fuel str) s.
Proof. intros Hl. etransitivity; [apply (bracket_ok _ _ _ ret s Hl)|apply bind_ret_r]. Qed.

Lemma console_putint_mine lfuel s num : lock_mine console_lock s ->
  console_putint (S lfuel) num s = on_mach (sys_putint num) s.
Proof. intros Hl. etransitivity; [apply (bracket_ok _ _ _ ret s Hl)|apply bind_ret_r]. Qed.

Lemma console_puthex_mine lfuel s num : lock_mine console_lock s ->
  console_puthex (S lfuel) num s = on_mach (sys_puthex num) s.
Proof. intros Hl. etransitivity; [apply (bracket_ok _ _ _ ret s Hl)|apply bind_ret_r]. Qed.

Lemma console_putchar_mine lfuel s c : lock_mine console_lock s ->
  console_putchar (S lfuel) c s = on_mach (sys_putchar c) s.
Proof.
  intros Hl. transitivity (bind (on_mach (sys_putchar c)) ret s); [|apply bind_ret_r].
  etransitivity; [|apply (bracket_ok console_lock lfuel _ ret s Hl)].
  apply bind_ext. intros _ s1. apply bind_ext. intros [] s2.
  transitivity (bind ConsoleLockRelease ret s2); [symmetry; apply bind_ret_r|]. by apply bind_ext; intros [].
Qed.

End console.

(** A string in memory is printed up to its end. *)
Lemma putstr_at_ok l : forall fuel p n s, cstring (ram s) p l -> 0 <= n -> n + Z.of_nat (length l) < 2 ^ 32 ->
  (length l < fuel)%nat ->
  iter fuel putstr_body (p, n) s = Ret (n + Z.of_nat (length l), set_tty (reverse l ++ tty s) s).
Proof.
  induction l as [|c l IH]; intros [|fuel] p n s (Hb & Hl & Hp & Hlim) Hn Hlen Hf; try (cbn in Hf; lia).
  - apply bytes_at_cons in Hb as [Hb _]. rewrite (iter_S _ _ _ s (inr n) s).
    + rewrite Z.add_0_r. by destruct s.
    + unfold putstr_body. by rewrite (bind_Ret _ _ _ _ _ (ld8_ok _ _ _ Hb)).
  - cbn [app] in Hb. apply bytes_at_cons in Hb as [Hb Hbl]. apply Forall_cons in Hl as [Hc Hl].
    cbn [length] in *. rewrite (iter_S _ _ _ s (inl (p + 1, n + 1)) (set_tty (c :: tty s) s)).
    + rewrite IH; [|split_and!; try done; lia|lia|lia|lia]. rewrite reverse_cons, <- app_assoc.
      do 2 f_equal. lia.
    + unfold putstr_body. rewrite (bind_Ret _ _ _ _ _ (ld8_ok _ _ _ Hb)). replace (c =? 0) with false by lia.
      unfold sys_putchar, bind, modify, ret. rewrite (u8_id c) by lia. by rewrite !u32_id by lia.
Qed.

Lemma sys_putstr_at_ok fuel p l s : cstring (ram s) p l -> (length l < fuel)%nat ->
  sys_putstr_at fuel p s = Ret (Z.of_nat (length l), set_tty (reverse l ++ tty s) s).
Proof. intros Hl Hf. apply (putstr_at_ok l fuel p 0 s Hl); [lia| |done]. destruct Hl as (_ & _ & ? & ?). lia. Qed.
