(* ===== verification/Messages.v ===== *)
(** * device/console.c: messages of several threads

    The system of LockSystem.v with threads that call the four functions of console.c.  A call is the
    script [message]: [ConsoleLockAcquire], the characters one by one, [ConsoleLockRelease]
    ([call_script_ok]: this is what the functions do); the clock, the other threads and the statements of
    sync.c come in between.  [world_inv] says where each thread is in its call and what the terminal
    shows; the theorem is that messages come out whole. *)
From stdpp Require Import base list gmap strings.
From S2P Require Import Prelude Machine CString Bitmap Print Interrupt KList Paging State Sched Timer Sync LockSystem.
From S2P Require Import Console.

(** ** The four functions as scripts *)

Inductive act := Acquire | Put (c : Z) | Release.

Inductive console_call :=
| Putstr (fuel : nat) (str : Z) | Putchar (char_asi : Z) | Putint (num : Z) | Puthex (num : Z).

Definition run_act `{Env} (lfuel : nat) (a : act) : M kernel unit :=
  match a with
  | Acquire => sys_lock_lock lfuel console_lock
  | Put c => on_mach (sys_putchar c)
  | Release => sys_lock_unlock console_lock
  end.
Fixpoint run_acts `{Env} (lfuel : nat) (l : list act) : M kernel unit :=
  match l with [] => ret tt | a :: r => run_act lfuel a ;;; run_acts lfuel r end.

Definition run_call `{Env} (lfuel : nat) (f : console_call) : M kernel unit :=
  match f with
  | Putstr fuel str => console_putstr lfuel fuel str ;;; ret tt
  | Putchar c => console_putchar lfuel c
  | Putint num => console_putint lfuel num ;;; ret tt
  | Puthex num => console_puthex lfuel num ;;; ret tt
  end.

(** The unlocked function of print_asm.S that it wraps, and the text that function prints. *)
Definition unlocked (f : console_call) : M machine unit :=
  match f with
  | Putstr fuel str => sys_putstr_at fuel str ;;; ret tt
  | Putchar c => sys_putchar c ;;; ret tt
  | Putint num => sys_putint num ;;; ret tt
  | Puthex num => sys_puthex num ;;; ret tt
  end.

Definition is_text (l : list Z) : Prop := Forall (fun c => 0 <= c < 256) l.
Definition shows (prog : M machine unit) (m : machine) (l : list Z) : Prop :=
  is_text l /\ prog m = Ret (tt, set_tty (reverse l ++ tty m) m).

Definition letters (l : list Z) : list act := (Put <$> l) ++ [Release].
Definition message (l : list Z) : list act := Acquire :: letters l.

Lemma bind_on {S A B} (m : M S A) (k k' : A -> M S B) s :
  (forall a s1, m s = Ret (a, s1) -> k a s1 = k' a s1) -> bind m k s = bind m k' s.
Proof. intros Hk. unfold bind. destruct (m s) as [[a s1]| | | |]; [by apply Hk|done..]. Qed.

Section scripts.
  Context `{Env} (lfuel : nat).

Lemma run_letters l : forall s, is_text l ->
  run_acts lfuel (letters l) s = sys_lock_unlock console_lock (set_mach (set_tty (reverse l ++ tty (mach s)) (mach s)) s).
Proof.
  induction l as [|c l IH]; intros s Hl.
  - cbn. replace (set_mach _ s) with s by (destruct s as [ma]; by destruct ma).
    unfold bind. by destruct (sys_lock_unlock _ _) as [[[] ?]| | | |].
  - apply Forall_cons in Hl as [Hc Hl]. unfold letters. cbn [fmap list_fmap app run_acts run_act].
    rewrite (bind_Ret _ _ s tt (set_mach (set_tty (c :: tty (mach s)) (mach s)) s)).
    2:{ apply on_mach_ok. unfold sys_putchar, modify. by rewrite u8_id. }
    fold (letters l). rewrite IH by done. rewrite reverse_cons, <- app_assoc. done.
Qed.

Lemma on_mach_shows {A} (prog : M machine A) l s : shows (prog ;;; ret tt) (mach s) l ->
  exists a, on_mach prog s = Ret (a, set_mach (set_tty (reverse l ++ tty (mach s)) (mach s)) s).
Proof.
  intros [_ Hp]. unfold bind in Hp. destruct (prog (mach s)) as [[a m]| | | |] eqn:E; try done.
  injection Hp as ->. exists a. by apply on_mach_ok.
Qed.

(** What a console function does, when the unlocked function shows [l] once the lock is taken. *)
Lemma call_script_ok f l s :
  (forall s1, sys_lock_lock lfuel console_lock s = Ret (tt, s1) -> shows (unlocked f) (mach s1) l) ->
  run_call lfuel f s = run_acts lfuel (message l) s.
Proof.
  intros Hl. unfold message. cbn [run_acts run_act].
  destruct f; cbn [run_call unlocked] in *;
    unfold console_putstr, console_putchar, console_putint, console_puthex, ConsoleLockAcquire, ConsoleLockRelease;
    rewrite ?bind_assoc; apply bind_on; intros [] s1 E; specialize (Hl s1 E);
    destruct (on_mach_shows _ l s1 Hl) as [a Ha]; rewrite ?bind_assoc; rewrite (bind_Ret _ _ _ _ _ Ha);
    rewrite run_letters by (by apply Hl); unfold bind, ret; by destruct (sys_lock_unlock _ _) as [[[] ?]| | | |].
Qed.

End scripts.

(** ** The unlocked functions only print *)

Definition prints {A} (m : M machine A) : Prop := forall s a s', m s = Ret (a, s') ->
  exists l, is_text l /\ s' = set_tty (reverse l ++ tty s) s.

Create HintDb prints.

Lemma prints_ret {A} (a : A) : prints (ret a).
Proof. intros s b s' [= _ <-]. exists []. split; [constructor|]. by destruct s. Qed.

Lemma prints_fault {A} n : prints (fault (A := A) n).
Proof. by intros s b s'. Qed.

Lemma prints_bind {A B} (m : M machine A) (k : A -> M machine B) :
  prints m -> (forall a, prints (k a)) -> prints (bind m k).
Proof.
  intros Hm Hk s b s'. unfold bind. destruct (m s) as [[a s1]| | | |] eqn:E; try done. intros E2.
  destruct (Hm _ _ _ E) as (l1 & T1 & ->). destruct (Hk _ _ _ _ E2) as (l2 & T2 & ->).
  exists (l1 ++ l2). split; [by apply Forall_app|]. cbn [set_tty tty]. by rewrite reverse_app, <- app_assoc.
Qed.

Lemma prints_putchar c : prints (sys_putchar c).
Proof. intros s b s' [= _ <-]. exists [u8 c]. split; [repeat constructor; apply u8_range|done]. Qed.

Lemma prints_ld8 a : prints (ld8 a).
Proof.
  intros s b s'. unfold ld8. destruct (ram s !! a); [|done]. intros [= _ <-]. exists []. split; [constructor|]. by destruct s.
Qed.

Lemma prints_get_at i b : prints (get_at i b).
Proof. unfold get_at. destruct (b !! _); [apply prints_ret|apply prints_fault]. Qed.

Lemma prints_set_at i v b : prints (Print.set_at i v b).
Proof. unfold Print.set_at. destruct (_ && _); [apply prints_ret|apply prints_fault]. Qed.

Lemma prints_iter {L R} fuel (body : L -> M machine (L + R)) : (forall l, prints (body l)) -> forall l, prints (iter fuel body l).
Proof.
  intros Hb. induction fuel as [|fuel IH]; intros l; [by intros s b s'|]. cbn [iter].
  apply prints_bind; [done|]. intros [l'|r]; [apply IH|apply prints_ret].
Qed.

#[export] Hint Resolve prints_ret prints_fault prints_putchar prints_ld8 prints_get_at prints_set_at : prints.

Ltac printing :=
  repeat first
    [ progress intros
    | solve [eauto 3 with prints]
    | apply prints_iter
    | apply prints_bind
    | match goal with |- prints (match ?x with _ => _ end) => destruct x end ].

Lemma prints_bytes l : prints (sys_putstr_bytes l).
Proof. induction l as [|c l IH]; cbn [sys_putstr_bytes]; printing. Qed.

#[export] Hint Resolve prints_bytes : prints.

Lemma unlocked_prints f : prints (unlocked f).
Proof.
  destruct f; cbn [unlocked]; unfold sys_putstr_at, putstr_body, sys_putint, putint_body, sys_puthex, puthex_body,
    reverse_buf, reverse_body; printing.
Qed.

Lemma unlocked_shows f m m' : unlocked f m = Ret (tt, m') -> exists l, shows (unlocked f) m l.
Proof. intros Hf. destruct (unlocked_prints f _ _ _ Hf) as (l & Hl & ->). by exists l. Qed.

(** ** What the kernel's steps leave alone *)

(** No thread and no lock comes or goes, nothing is shown. *)
Definition leaves_alone (s s' : kernel) : Prop :=
  (forall u, is_Some (pcbs s !! u) <-> is_Some (pcbs s' !! u)) /\
  (forall l, is_Some (locks s !! l) -> is_Some (locks s' !! l)) /\ tty (mach s') = tty (mach s).

#[export] Instance leaves_alone_preorder : PreOrder leaves_alone.
Proof.
  split; [by intros s|]. intros s1 s2 s3 (A1 & A2 & A3) (B1 & B2 & B3).
  split_and!; [intros u; by rewrite A1|auto|congruence].
Qed.

Definition silent {A} (m : M kernel A) : Prop := forall s a s', m s = Ret (a, s') -> leaves_alone s s'.
Definition silent_mach {A} (m : M machine A) : Prop := forall s a s', m s = Ret (a, s') -> tty s' = tty s.

Create HintDb silent.

Lemma silent_ret {A} (a : A) : silent (ret a).
Proof. intros s b s' [= _ <-]. reflexivity. Qed.

Lemma silent_get : silent get.
Proof. intros s b s' [= _ <-]. reflexivity. Qed.

Lemma silent_cur : silent GetCurrentThreadPCB.
Proof. intros s b s' [= _ <-]. reflexivity. Qed.

Lemma silent_panic {A} f n : silent (panic (A := A) f n).
Proof. by intros s b s'. Qed.

Lemma silent_fault {A} n : silent (fault (A := A) n).
Proof. by intros s b s'. Qed.

Lemma silent_bind {A B} (m : M kernel A) (k : A -> M kernel B) :
  silent m -> (forall a, silent (k a)) -> silent (bind m k).
Proof.
  intros Hm Hk s b s'. unfold bind. destruct (m s) as [[a s1]| | | |] eqn:E; try done.
  intros H. etransitivity; [by eapply Hm|by eapply Hk].
Qed.

Lemma silent_ASSERT c f n : silent (ASSERT c f n).
Proof. destruct c; [apply silent_ret|apply silent_panic]. Qed.

Lemma silent_modify f : (forall s, leaves_alone s (f s)) -> silent (modify f).
Proof. intros Hf s b s' [= _ <-]. apply Hf. Qed.

Lemma silent_get_pcb p : silent (get_pcb p).
Proof. intros s c s'. unfold get_pcb. destruct (pcbs s !! p); [|done]. intros [= _ <-]. reflexivity. Qed.

Lemma silent_upd_pcb p f : silent (upd_pcb p f).
Proof.
  intros s c s'. unfold upd_pcb. destruct (pcbs s !! p) as [d|] eqn:E; [|done]. intros [= _ <-].
  split_and!; [|done..]. intros u. cbn. rewrite lookup_insert. case_decide; [subst; rewrite E; by split; eauto|done].
Qed.

Lemma silent_get_lock l : silent (get_lock l).
Proof. intros s c s'. unfold get_lock. destruct (locks s !! l); [|done]. intros [= _ <-]. reflexivity. Qed.

Lemma silent_upd_lock l f : silent (upd_lock l f).
Proof.
  intros s c s'. unfold upd_lock. destruct (locks s !! l) as [d|] eqn:E; [|done]. intros [= _ <-].
  split_and!; [done| |done]. intros u. cbn. rewrite lookup_insert. case_decide; [eauto|done].
Qed.

Lemma silent_on_ready op : silent (on_ready op).
Proof.
  intros s c s'. unfold on_ready, on_list. destruct (seq_op _ _) as [[xs r]|]; [|done]. intros [= _ <-]. by split_and!.
Qed.

Lemma silent_on_pg {A} (m : M paging A) : silent (on_pg m).
Proof. intros s c s'. unfold on_pg, zoom. destruct (m _) as [[a t]| | | |]; try done. intros [= _ <-]. by split_and!. Qed.

Lemma silent_on_mach {A} (m : M machine A) : silent_mach m -> silent (on_mach m).
Proof.
  intros Hm s c s'. unfold on_mach, zoom. destruct (m _) as [[a t]| | | |] eqn:E; try done. intros [= _ <-].
  split_and!; [done..|]. by apply (Hm _ _ _ E).
Qed.

Lemma silent_SetIntStatus st : silent_mach (SetIntStatus st).
Proof.
  intros s c s'. unfold SetIntStatus, EnableInt, DisableInt, GetIntStatus, bind.
  destruct st, (if_flag (eflags s)); by intros [= _ <-].
Qed.

Lemma silent_DisableInt : silent_mach DisableInt.
Proof. exact (silent_SetIntStatus INT_OFF). Qed.

Lemma silent_EnableInt : silent_mach EnableInt.
Proof. exact (silent_SetIntStatus INT_ON). Qed.

Lemma silent_cli : silent_mach cli.
Proof. by intros s c s' [= _ <-]. Qed.

Lemma silent_GetIntStatus : silent_mach GetIntStatus.
Proof. by intros s c s' [= _ <-]. Qed.

Lemma silent_set_eflags e : silent_mach (modify (set_eflags e)).
Proof. by intros s c s' [= _ <-]. Qed.

#[export] Hint Resolve silent_ret silent_get silent_cur silent_panic silent_fault silent_ASSERT silent_get_pcb silent_upd_pcb
  silent_get_lock silent_upd_lock silent_on_ready silent_on_pg silent_on_mach silent_SetIntStatus silent_DisableInt
  silent_EnableInt silent_cli silent_GetIntStatus silent_set_eflags : silent.

(** Through a program, statement by statement. *)
Ltac silently :=
  repeat first
    [ progress intros
    | solve [eauto 3 with silent]
    | apply silent_bind
    | apply silent_modify; intros; by split_and!
    | match goal with |- silent (match ?x with _ => _ end) => destruct x end ].

Lemma silent_on_waiting l op : silent (on_waiting l op).
Proof. unfold on_waiting. silently. Qed.

Lemma silent_ScheduleThread : silent ScheduleThread.
Proof. unfold ScheduleThread, ActiveProcess, ActivePDE, UpdateTssEsp, switch_to. silently. Qed.

(** [UnblockThread] prints before it panics only. *)
Lemma silent_report (m m' : M kernel Z) f n : silent (m ;;; m' ;;; panic (A := unit) f n).
Proof.
  intros s b s'. unfold bind. destruct (m s) as [[? s1]| | | |]; try done. by destruct (m' s1) as [[? ?]| | | |].
Qed.

#[export] Hint Resolve silent_report : silent.

Lemma silent_UnblockThread p : silent (UnblockThread p).
Proof. unfold UnblockThread. silently. Qed.

#[export] Hint Resolve silent_on_waiting silent_ScheduleThread silent_UnblockThread : silent.

Lemma silent_clock : silent clock_interrupt.
Proof. unfold clock_interrupt, IntTimerHandler. silently. Qed.

Lemma silent_run_pc p : silent (run_pc p).
Proof.
  unfold run_pc, down_test, down_enqueue, down_take, BlockThread_switch, SemaphoreUp. destruct p; silently.
Qed.

Lemma silent_call_lock l : silent (call_lock l).
Proof. unfold call_lock. silently. Qed.

Lemma silent_call_unlock l : silent (call_unlock l).
Proof. unfold call_unlock. silently. Qed.

#[export] Hint Resolve silent_clock silent_run_pc silent_call_lock silent_call_unlock : silent.

(** ** The steps of the system, as the messages see them *)

(** The thread is in a call of [sys_lock_lock] on the lock. *)
Definition locking (p : pc) : option lock_id :=
  match p with Lock58 l | InDown l _ _ | Lock59 l | Lock60 l | Lock61 l | Lock65 l => Some l | _ => None end.

Definition gives {S A} (m : M S A) (P : A -> Prop) : Prop := forall s a s', m s = Ret (a, s') -> P a.

Lemma gives_ret {S A} (a : A) (P : A -> Prop) : P a -> gives (S := S) (ret a) P.
Proof. by intros Ha s b s' [= <- _]. Qed.

Lemma gives_bind {S A B} (m : M S A) (k : A -> M S B) P : (forall a, gives (k a) P) -> gives (bind m k) P.
Proof.
  intros Hk s b s'. unfold bind. destruct (m s) as [[a s1]| | | |]; try done. apply Hk.
Qed.

(** A statement stays in the call, but the last one, which enters the section and leaves the call. *)
Lemma run_pc_next p : gives (run_pc p) (fun p' =>
  locking p' = match entering p with Some _ => None | None => locking p end).
Proof.
  unfold run_pc, down_test. destruct p;
    repeat first [apply gives_bind; intros|apply gives_ret|match goal with |- gives (if ?c then _ else _) _ => destruct c end];
    (reflexivity || by destruct (_ >? _)).
Qed.

Lemma in_kernel_Ret {A} (m : M kernel A) y a y' : in_kernel m y = Ret (a, y') ->
  exists s', m (kern y) = Ret (a, s') /\ y' = System s' (ctl y) (inside y).
Proof.
  unfold in_kernel, zoom. destruct (m (kern y)) as [[b s']| | | |]; try done. intros [= <- <-]. by exists s'.
Qed.

Lemma bind_Ret_inv {S A B} (m : M S A) (k : A -> M S B) s b s' : bind m k s = Ret (b, s') ->
  exists a s1, m s = Ret (a, s1) /\ k a s1 = Ret (b, s').
Proof. unfold bind. destruct (m s) as [[a s1]| | | |]; try done. eauto. Qed.

(** What an event does to the program point and the sections of the current thread. *)
Definition thread_step (e : event) (p p' : pc) (i i' : lock_id -> Z) : Prop :=
  match e with
  | EvRun => (locking p' = locking p /\ forall l, i' l = i l) \/
      exists l, locking p = Some l /\ locking p' = None /\ forall m, i' m = if decide (m = l) then i m + 1 else i m
  | EvLock l => locking p' = Some l /\ forall m, i' m = i m
  | EvUnlock l => locking p' = None /\ forall m, i' m = if decide (m = l) then i m - 1 else i m
  | _ => locking p' = locking p /\ forall l, i' l = i l
  end.

Definition stepped (e : event) (y y' : system) : Prop :=
  let t := cur (kern y) in
  leaves_alone (kern y) (kern y') /\
  (forall u, u <> t -> ctl y' u = ctl y u /\ forall l, inside y' u l = inside y u l) /\
  thread_step e (at_pc (ctl y t)) (at_pc (ctl y' t)) (inside y t) (inside y' t).

Lemma stepped_intro e y s' c ins : let t := cur (kern y) in
  leaves_alone (kern y) s' -> (forall u, u <> t -> forall l, ins u l = inside y u l) ->
  thread_step e (at_pc (ctl y t)) (at_pc c) (inside y t) (ins t) ->
  stepped e y (System s' (fun u => if decide (u = t) then c else ctl y u) ins).
Proof.
  intros t H1 H2 H3. split; [done|]. cbn [ctl inside]. fold t. split; [|by rewrite decide_True].
  intros u Hu. rewrite decide_False by done. auto.
Qed.

Lemma exec_stepped e y y' : exec e y = Ret (tt, y') -> stepped e y y'.
Proof.
  intros He. unfold exec in He. rewrite (bind_Ret _ _ y y y) in He by done. set (t := cur (kern y)) in *.
  destruct e as [| |l|l| |].
  - destruct (irq (ctl y t)) as [fl|].
    + apply bind_Ret_inv in He as ([] & y1 & H1 & [= <-]). apply in_kernel_Ret in H1 as (s' & H1 & ->).
      apply (stepped_intro _ y s' (Ctl None (at_pc (ctl y t))) (inside y)); [|done|by left].
      apply (silent_on_mach _ (silent_set_eflags fl) _ _ _ H1).
    + apply bind_Ret_inv in He as (p & y1 & H1 & He). apply in_kernel_Ret in H1 as (s' & H1 & ->).
      apply bind_Ret_inv in He as ([] & y2 & [= <-] & He).
      pose proof (run_pc_next _ _ _ _ H1) as Hn. pose proof (silent_run_pc _ _ _ _ H1) as Hs. fold t in Hs.
      destruct (entering (at_pc (ctl y t))) as [l|] eqn:El; injection He as <-.
      * apply (stepped_intro _ y s' (Ctl None p) (fun u m => if decide (u = t /\ m = l) then inside y u m + 1 else inside y u m));
          [done| |right; exists l].
        { intros u Hu m. rewrite decide_False; [done|]. by intros [? _]. }
        split; [|split; [done|]]; [fold t; destruct (at_pc (ctl y t)); (discriminate El || exact El)|].
        intros m. fold t. destruct (decide (m = l)); [by rewrite decide_True|]. rewrite decide_False; [done|tauto].
      * apply (stepped_intro _ y s' (Ctl None p) (inside y)); [done|done|by left].
  - apply bind_Ret_inv in He as (fl & y1 & H1 & [= <-]). apply in_kernel_Ret in H1 as (s' & H1 & ->).
    apply (stepped_intro _ y s' (Ctl (Some fl) (at_pc (ctl y t))) (inside y)); [by apply (silent_clock _ _ _ H1)|done|done].
  - apply bind_Ret_inv in He as (p & y1 & H1 & [= <-]). apply in_kernel_Ret in H1 as (s' & H1 & ->).
    apply (stepped_intro _ y s' (Ctl None p) (inside y)); [by apply (silent_call_lock _ _ _ _ H1)|done|]. split; [|done].
    revert H1. unfold call_lock. intros (k & s1 & _ & H1)%bind_Ret_inv. apply bind_Ret_inv in H1 as (u & s2 & _ & [= <- _]).
    by destruct (negb _).
  - apply bind_Ret_inv in He as (p & y1 & H1 & He). apply in_kernel_Ret in H1 as (s' & H1 & ->). injection He as <-.
    apply (stepped_intro _ y s' (Ctl None p) (fun u m => if decide (u = t /\ m = l) then inside y u m + -1 else inside y u m));
      [by apply (silent_call_unlock _ _ _ _ H1)| |].
    { intros u Hu m. rewrite decide_False; [done|]. by intros [? _]. }
    split.
    + assert (gives (call_unlock l) (fun p => locking p = None)) as Hg
        by (unfold call_unlock; repeat (apply gives_bind; intros); by apply gives_ret).
      by apply (Hg _ _ _ H1).
    + intros m. fold t. destruct (decide (m = l)); [by rewrite decide_True|]. rewrite decide_False; [done|tauto].
  - apply bind_Ret_inv in He as (st & y1 & H1 & [= <-]). apply in_kernel_Ret in H1 as (s' & H1 & ->).
    split; [by apply (silent_on_mach _ silent_EnableInt _ _ _ H1)|]. by split.
  - apply bind_Ret_inv in He as (st & y1 & H1 & [= <-]). apply in_kernel_Ret in H1 as (s' & H1 & ->).
    split; [by apply (silent_on_mach _ silent_DisableInt _ _ _ H1)|]. by split.
Qed.

(** ** Threads that print *)

(** [todo t] is the rest of the console call thread [t] is in.  [text t] (the text of that call) and
    [finished] (the calls that have printed all and are about to unlock, with their texts) are no part
    of the program. *)
Record world := World {
  sys : system;
  todo : Z -> list act;
  text : Z -> list Z;
  finished : list (Z * list Z)
}.

Definition put_at {A} (t : Z) (x : A) (f : Z -> A) : Z -> A := fun u => if decide (u = t) then x else f u.

(** A call begins; the next act of the current thread's call; anything else. *)
Inductive wevent := WCall (l : list Z) | WAct | WEvent (e : event).

Definition in_sys {A} : M system A -> M world A := zoom sys (fun y w => World y (todo w) (text w) (finished w)).
Definition set_todo (t : Z) (r : list act) (w : world) : world :=
  World (sys w) (put_at t r (todo w)) (text w) (finished w).

Definition wexec (e : wevent) : M world unit :=
  let* w := get in
  let t := cur (kern (sys w)) in
  match e with
  | WCall l => modify (fun w => World (sys w) (put_at t (message l) (todo w)) (put_at t l (text w)) (finished w))
  | WAct =>
      match todo w t with
      | [] => ret tt
      | Acquire :: r => in_sys (exec (EvLock console_lock)) ;;; modify (set_todo t r)
      | Put c :: r => in_sys (in_kernel (on_mach (sys_putchar c))) ;;; modify (set_todo t r)
      | Release :: r =>
          in_sys (exec (EvUnlock console_lock)) ;;;
          modify (set_todo t r) ;;;
          modify (fun w => World (sys w) (todo w) (text w) (finished w ++ [(t, text w t)]))
      end
  | WEvent e => in_sys (exec e)
  end.

(** The current thread is outside sync.c and the clock handler. *)
Definition idle (y : system) : Prop :=
  irq (ctl y (cur (kern y))) = None /\ at_pc (ctl y (cur (kern y))) = Client.

(** Inside a console function a thread does nothing but the function's acts, and the static lock of
    console.c is used by nobody else; the clock comes at any time. *)
Definition wenabled (e : wevent) (w : world) : Prop :=
  let t := cur (kern (sys w)) in
  match e with
  | WCall l => idle (sys w) /\ todo w t = [] /\ is_text l
  | WAct => idle (sys w) /\ todo w t <> []
  | WEvent e => enabled e (sys w) /\
      match e with
      | EvRun | EvClock => True
      | EvLock l | EvUnlock l => todo w t = [] /\ l <> console_lock
      | EvEnable | EvDisable => todo w t = []
      end
  end.

Inductive wreaches (w : world) : world -> Prop :=
| wreaches_refl : wreaches w w
| wreaches_step w1 e w2 : wreaches w w1 -> wenabled e w1 -> wexec e w1 = Ret (tt, w2) -> wreaches w w2.

Section worlds.
  Context (dirs : Z -> Z).
  #[local] Abbreviation inside_console w t := (inside (sys w) t console_lock).
  #[local] Abbreviation pc_of w t := (at_pc (ctl (sys w) t)).
  #[local] Abbreviation is_thread w := (thread_of (kern (sys w))).

Record winitial (w : world) : Prop := WInitial {
  wn_sys : initial dirs (sys w);
  wn_lock : is_Some (locks (kern (sys w)) !! console_lock);
  wn_todo : forall t, todo w t = [];
  wn_text : forall t, text w t = [];
  wn_finished : finished w = []
}.

(** Where a thread is in its call; [shown] is what the message in progress has shown. *)
Inductive stage (shown : list Z) (w : world) (t : Z) : Prop :=
| stage_out : todo w t = [] \/ todo w t = message (text w t) -> inside_console w t = 0 ->
    locking (pc_of w t) <> Some console_lock -> stage shown w t
| stage_lock : todo w t = letters (text w t) -> inside_console w t = 0 ->
    locking (pc_of w t) = Some console_lock -> stage shown w t
| stage_in rest : todo w t = letters rest -> text w t = shown ++ rest -> inside_console w t = 1 ->
    locking (pc_of w t) = None -> stage shown w t.

(** [t0] is what the terminal showed at the beginning (newest first). *)
Record world_inv (t0 : list Z) (shown : list Z) (w : world) : Prop := WorldInv {
  wi_sys : sys_inv dirs (sys w);
  wi_lock : is_Some (locks (kern (sys w)) !! console_lock);
  wi_text : forall t, is_text (text w t);
  wi_stage : forall t, is_thread w t -> stage shown w t;
  wi_nobody : (forall t, is_thread w t -> inside_console w t = 0) -> shown = [];
  wi_tty : tty (mach (kern (sys w))) = reverse (concat (snd <$> finished w) ++ shown) ++ t0
}.

Lemma put_at_eq {A} t (x : A) f : put_at t x f t = x.
Proof. unfold put_at. by rewrite decide_True. Qed.

Lemma put_at_ne {A} t (x : A) f u : u <> t -> put_at t x f u = f u.
Proof. unfold put_at. intros. by rewrite decide_False. Qed.

Lemma winitial_inv w : winitial w -> world_inv (tty (mach (kern (sys w)))) [] w.
Proof.
  intros [H1 H2 H3 H4 H5]. constructor; try done.
  - by apply initial_inv.
  - intros t. rewrite H4. constructor.
  - intros t _. apply stage_out; [left; apply H3|apply H1|]. by rewrite (in_ctl _ _ H1).
  - by rewrite H5.
Qed.

Section steps.
  Context (t0 shown : list Z) (w : world) (Hw : world_inv t0 shown w).
  #[local] Abbreviation t := (cur (kern (sys w))).

Lemma here : is_thread w t.
Proof. apply (cur_thread dirs), Hw. Qed.

Lemma in_unique u v : is_thread w u -> is_thread w v -> 0 < inside_console w u -> 0 < inside_console w v -> u = v.
Proof. intros Hu Hv. apply (inside_unique dirs); [apply Hw|done|done|apply Hw]. Qed.

(** A thread that is not the current one. *)
Lemma stage_other u w' shown' : is_thread w u -> ctl (sys w') u = ctl (sys w) u ->
  inside_console w' u = inside_console w u -> todo w' u = todo w u -> text w' u = text w u ->
  shown' = shown \/ inside_console w u = 0 -> stage shown' w' u.
Proof.
  intros Hu E1 E2 E3 E4 Hs. destruct (wi_stage _ _ _ Hw u Hu) as [H1 H2 H3|H1 H2 H3|rest H1 H2 H3 H4].
  - apply stage_out; rewrite ?E1, ?E2, ?E3, ?E4; done.
  - apply stage_lock; rewrite ?E1, ?E2, ?E3, ?E4; done.
  - destruct Hs as [->|Hs]; [|lia]. by apply (stage_in _ _ _ rest); rewrite ?E1, ?E2, ?E3, ?E4.
Qed.

(** Nobody but the thread inside has shown anything. *)
Lemma nobody_else u : is_thread w u -> u <> t -> 0 < inside_console w t -> inside_console w u = 0.
Proof.
  intros Hu Hne Ht. destruct (wi_stage _ _ _ Hw u Hu) as [|? ?|rest ? ? E]; [done|done|].
  exfalso. apply Hne, in_unique; [done|apply here|lia|done].
Qed.

(** An event of the system; [todo'] and so on after it. *)
Lemma after_event e y' w' shown' : exec e (sys w) = Ret (tt, y') -> sys_inv dirs y' -> sys w' = y' ->
  (forall u, u <> t -> todo w' u = todo w u /\ text w' u = text w u) ->
  (forall u, is_thread w u -> u <> t -> shown' = shown \/ inside_console w u = 0) ->
  is_text (text w' t) -> stage shown' w' t -> ((forall u, is_thread w u -> inside_console w' u = 0) -> shown' = []) ->
  concat (snd <$> finished w') ++ shown' = concat (snd <$> finished w) ++ shown ->
  world_inv t0 shown' w'.
Proof.
  intros He Hy Ey Hu Hsh Htx Hst Hno Htty. destruct (exec_stepped _ _ _ He) as ((A1 & A2 & A3) & A4 & _).
  rewrite <- Ey in *. constructor; try done.
  - apply A2, Hw.
  - intros u. destruct (decide (u = t)) as [->|Hne]; [done|]. destruct (Hu u Hne) as [_ ->]. apply Hw.
  - intros u Hth. apply A1 in Hth. destruct (decide (u = t)) as [->|Hne]; [done|].
    destruct (Hu u Hne) as [E3 E4]. destruct (A4 u Hne) as [E1 E2].
    apply stage_other; try done. by apply Hsh.
  - intros Hn. apply Hno. intros u Hth. apply Hn. by apply A1.
  - rewrite A3, Htty. apply Hw.
Qed.

Lemma letters_not_nil (r : list act) l : r = [] -> r = letters l -> False.
Proof. intros ->. by destruct l. Qed.

(** The current thread enters the section: nobody else was inside, so nothing is half shown. *)
Lemma entered_alone y' : exec EvRun (sys w) = Ret (tt, y') -> sys_inv dirs y' ->
  inside_console w t = 0 -> inside y' t console_lock = 1 -> shown = [].
Proof.
  intros He Hy H0 H1. destruct (exec_stepped _ _ _ He) as ((A1 & A2 & _) & A4 & _).
  apply (wi_nobody _ _ _ Hw). intros u Hu.
  destruct (wi_stage _ _ _ Hw u Hu) as [|? ?|rest ? ? E]; [done|done|]. exfalso.
  assert (u <> t) as Hne by (intros ->; lia). destruct (A4 u Hne) as [_ E2].
  apply Hne, (inside_unique dirs y' u t console_lock Hy); [by apply A1|apply A1, here|apply A2, Hw| |lia].
  rewrite E2. lia.
Qed.

(** An event outside the console functions, or a statement of sync.c in one of them. *)
Lemma event_stage e y' : wenabled (WEvent e) w -> exec e (sys w) = Ret (tt, y') -> sys_inv dirs y' ->
  let w' := World y' (todo w) (text w) (finished w) in
  stage shown w' t /\ (inside y' t console_lock = inside_console w t \/ shown = []).
Proof.
  intros [_ He] Hex Hy w'. destruct (exec_stepped _ _ _ Hex) as (_ & _ & Hs).
  pose proof (wi_stage _ _ _ Hw t here) as Hst.
  assert (locking (at_pc (ctl y' t)) = locking (pc_of w t) -> (forall l, inside y' t l = inside (sys w) t l) ->
    stage shown w' t /\ (inside y' t console_lock = inside_console w t \/ shown = [])) as Hsame.
  { intros E1 E2. split; [|by left; apply E2]. destruct Hst as [H1 H2 H3|H1 H2 H3|rest H1 H2 H3 H4].
    - apply stage_out; cbn [sys todo text w']; rewrite ?E1, ?E2; done.
    - apply stage_lock; cbn [sys todo text w']; rewrite ?E1, ?E2; done.
    - by apply (stage_in _ _ _ rest); cbn [sys todo text w']; rewrite ?E1, ?E2. }
  destruct e as [| |l|l| |]; cbn [thread_step] in Hs.
  - destruct Hs as [[E1 E2]|(l & E1 & E2 & E3)]; [by apply Hsame|]. specialize (E3 console_lock).
    destruct Hst as [H1 H2 H3|H1 H2 H3|rest H1 H2 H3 H4]; [| |congruence].
    + rewrite decide_False in E3 by congruence. split; [|by left].
      apply stage_out; cbn [sys todo text w']; [done|by rewrite E3|by rewrite E2].
    + rewrite decide_True in E3 by congruence.
      assert (shown = []) as -> by (apply (entered_alone y' Hex Hy H2); lia). split; [|by right].
      apply (stage_in _ _ _ (text w t)); cbn [sys todo text w']; [done|done|lia|done].
  - destruct Hs as [E1 E2]. by apply Hsame.
  - destruct He as [Ht Hl], Hs as [E1 E2]. split; [|by left; apply E2].
    destruct Hst as [H1 H2 H3|H1 H2 H3|rest H1 H2 H3 H4]; try by destruct (letters_not_nil _ _ Ht H1).
    apply stage_out; cbn [sys todo text w']; [done|by rewrite E2|congruence].
  - destruct He as [Ht Hl], Hs as [E1 E2]. specialize (E2 console_lock). rewrite decide_False in E2 by done.
    split; [|by left]. destruct Hst as [H1 H2 H3|H1 H2 H3|rest H1 H2 H3 H4]; try by destruct (letters_not_nil _ _ Ht H1).
    apply stage_out; cbn [sys todo text w']; [done|by rewrite E2|by rewrite E1].
  - destruct Hs as [E1 E2]. by apply Hsame.
  - destruct Hs as [E1 E2]. by apply Hsame.
Qed.

Lemma step_event e y' : wenabled (WEvent e) w -> exec e (sys w) = Ret (tt, y') -> sys_inv dirs y' ->
  world_inv t0 shown (World y' (todo w) (text w) (finished w)).
Proof.
  intros He Hex Hy. destruct (event_stage e y' He Hex Hy) as [Hst Hin].
  destruct (exec_stepped _ _ _ Hex) as (_ & A4 & _).
  apply (after_event e y'); try done; [by left|apply Hw|].
  intros Hn. destruct Hin as [E|]; [|done]. apply (wi_nobody _ _ _ Hw). intros u Hu.
  specialize (Hn u Hu). cbn [sys] in Hn. destruct (decide (u = t)) as [->|Hne]; [congruence|].
  destruct (A4 u Hne) as [_ E2]. by rewrite E2 in Hn.
Qed.

(** The current thread calls a console function. *)
Lemma step_call l : todo w t = [] -> is_text l ->
  world_inv t0 shown (World (sys w) (put_at t (message l) (todo w)) (put_at t l (text w)) (finished w)).
Proof.
  intros Ht Hl. pose proof Hw as [H1 H2 H3 H4 H5 H6]. constructor; try done; cbn [sys todo text].
  - intros u. unfold put_at. by case_decide.
  - intros u Hu. destruct (decide (u = t)) as [->|Hne].
    + destruct (H4 t Hu) as [E1 E2 E3|E1 E2 E3|rest E1 E2 E3 E4]; try by destruct (letters_not_nil _ _ Ht E1).
      apply stage_out; cbn [sys todo text]; [|done..]. right. by rewrite !put_at_eq.
    + apply stage_other; cbn [sys todo text]; rewrite ?put_at_ne; auto.
Qed.

(** It calls [ConsoleLockAcquire]. *)
Lemma step_acquire r y' : todo w t = Acquire :: r -> exec (EvLock console_lock) (sys w) = Ret (tt, y') ->
  sys_inv dirs y' -> world_inv t0 shown (set_todo t r (World y' (todo w) (text w) (finished w))).
Proof.
  intros Ht Hex Hy. destruct (exec_stepped _ _ _ Hex) as (_ & A4 & E1 & E2).
  destruct (wi_stage _ _ _ Hw t here) as [[H1|H1] H2 H3|H1 H2 H3|rest H1 H2 H3 H4]; try congruence;
    try (exfalso; rewrite Ht in H1; destruct (text w t); done); try (exfalso; rewrite Ht in H1; destruct rest; done).
  apply (after_event (EvLock console_lock) y'); try done; cbn [set_todo sys todo text].
  - intros u Hu. by rewrite put_at_ne.
  - by left.
  - apply Hw.
  - apply stage_lock; cbn [set_todo sys todo text]; [|by rewrite E2|done]. rewrite put_at_eq.
    rewrite Ht in H1. by injection H1.
  - intros Hn. apply (wi_nobody _ _ _ Hw). intros u Hu. specialize (Hn u Hu).
    destruct (decide (u = t)) as [->|Hne]; [done|]. destruct (A4 u Hne) as [_ E]. by rewrite E in Hn.
Qed.

(** The stage of a thread that is outside sync.c with an act other than the first to come. *)
Lemma inside_idle a r : idle (sys w) -> todo w t = a :: r -> a <> Acquire ->
  exists rest, a :: r = letters rest /\ text w t = shown ++ rest /\ inside_console w t = 1.
Proof.
  intros [_ Hpc] Ht Ha. destruct (wi_stage _ _ _ Hw t here) as [[H1|H1] H2 H3|H1 H2 H3|rest H1 H2 H3 H4];
    [congruence|rewrite Ht in H1; by injection H1|by rewrite Hpc in H3|]. exists rest. by rewrite <- Ht.
Qed.

(** It shows a character. *)
Lemma step_put c r : idle (sys w) -> todo w t = Put c :: r -> exists w', 
  wexec WAct w = Ret (tt, w') /\ world_inv t0 (shown ++ [c]) w'.
Proof.
  intros Hi Ht. destruct (inside_idle _ _ Hi Ht) as (rest & E1 & E2 & E3); [done|].
  destruct rest as [|c' rest]; [done|]. injection E1 as <- Er. pose proof Hi as [Hirq Hpc].
  set (m := set_tty (u8 c :: tty (mach (kern (sys w)))) (mach (kern (sys w)))).
  set (y' := System (set_mach m (kern (sys w))) (ctl (sys w)) (inside (sys w))).
  exists (set_todo t r (World y' (todo w) (text w) (finished w))). split.
  { unfold wexec. rewrite (bind_Ret _ _ w w w) by done. cbv zeta. rewrite Ht. done. }
  assert (0 <= c < 256) as Hc.
  { pose proof (wi_text _ _ _ Hw t) as Hx. rewrite E2 in Hx. apply Forall_app in Hx as [_ Hx]. by apply Forall_cons in Hx as [? _]. }
  pose proof Hw as [H1 H2 H3 H4 H5 H6]. constructor; try done; cbn [sys todo text set_todo].
  - apply sys_inv_flags; try done. by rewrite Hpc.
  - intros u Hu. destruct (decide (u = t)) as [->|Hne].
    + apply (stage_in _ _ _ rest); cbn [sys todo text set_todo]; [by rewrite put_at_eq|by rewrite E2, <- app_assoc|done|].
      change (locking (pc_of w t) = None). by rewrite Hpc.
    + apply stage_other; cbn [sys todo text set_todo]; rewrite ?put_at_ne; try done. right. apply nobody_else; [done|done|lia].
  - intros Hn. specialize (Hn t here). change (inside_console w t = 0) in Hn. lia.
  - cbn [kern y' mach set_mach m tty set_tty finished]. rewrite H6, u8_id by done.
    by rewrite (app_assoc _ shown), reverse_snoc.
Qed.

(** It calls [ConsoleLockRelease]. *)
Lemma step_release r y' : idle (sys w) -> todo w t = Release :: r ->
  exec (EvUnlock console_lock) (sys w) = Ret (tt, y') -> sys_inv dirs y' ->
  world_inv t0 [] (World y' (put_at t r (todo w)) (text w) (finished w ++ [(t, text w t)])).
Proof.
  intros Hi Ht Hex Hy. destruct (inside_idle _ _ Hi Ht) as (rest & E1 & E2 & E3); [done|].
  destruct rest as [|c' rest]; [|done]. injection E1 as ->. rewrite app_nil_r in E2.
  destruct (exec_stepped _ _ _ Hex) as (_ & A4 & E4 & E5). specialize (E5 console_lock). rewrite decide_True in E5 by done.
  apply (after_event (EvUnlock console_lock) y'); try done; cbn [sys todo text finished].
  - intros u Hu. by rewrite put_at_ne.
  - intros u Hu Hne. right. apply nobody_else; [done|done|lia].
  - apply Hw.
  - apply stage_out; cbn [sys todo text]; [left; by rewrite put_at_eq|lia|by rewrite E4].
  - rewrite fmap_app, concat_app. cbn. by rewrite !app_nil_r, E2.
Qed.

(** The sections of a thread that is outside sync.c are the count of the lock it holds. *)
Lemma idle_sections k : idle (sys w) -> locks (kern (sys w)) !! console_lock = Some k ->
  inside_console w t = if holder k =? t then holder_repeat_request_sum k else 0.
Proof.
  intros [_ Hpc] Hk. rewrite (si_inside _ _ (wi_sys _ _ _ Hw) t console_lock k here Hk).
  unfold role_of. rewrite Hpc. by rewrite decide_False.
Qed.

(** Its calls of the lock functions return: it is never refused by line 71 of sync.c. *)
Lemma lock_progress r : idle (sys w) -> todo w t = Acquire :: r -> progress dirs (sys w) (EvLock console_lock).
Proof.
  intros Hi Ht. pose proof (wi_lock _ _ _ Hw) as [k Hk]. pose proof (idle_sections k Hi Hk) as Hs.
  apply progress_call_lock; [apply Hw|]. split; [apply Hi|]. split; [apply Hi|]. exists k. split; [done|].
  intros Eh. rewrite Eh, Z.eqb_refl in Hs.
  destruct (wi_stage _ _ _ Hw t here) as [_ H2 _|_ H2 _|rest H1 _ _ _]; [lia|lia|]. rewrite Ht in H1. by destruct rest.
Qed.

Lemma unlock_progress r : idle (sys w) -> todo w t = Release :: r -> progress dirs (sys w) (EvUnlock console_lock).
Proof.
  intros Hi Ht. destruct (inside_idle _ _ Hi Ht) as (rest & _ & _ & E3); [done|].
  pose proof (wi_lock _ _ _ Hw) as [k Hk]. pose proof (idle_sections k Hi Hk) as Hs.
  apply progress_call_unlock; [apply Hw|]. split; [apply Hi|]. split; [apply Hi|]. exists k. split; [done|].
  destruct (Z.eqb_spec (holder k) t); [done|lia].
Qed.

Lemma in_sys_ok {A} (m : M system A) a y' : m (sys w) = Ret (a, y') ->
  in_sys m w = Ret (a, World y' (todo w) (text w) (finished w)).
Proof. unfold in_sys, zoom. by intros ->. Qed.

Lemma act_progress : idle (sys w) -> todo w t <> [] ->
  exists w' shown', wexec WAct w = Ret (tt, w') /\ world_inv t0 shown' w'.
Proof.
  intros Hi Hne. destruct (todo w t) as [|a r] eqn:Ht; [done|]. destruct a as [|c|].
  - destruct (lock_progress r Hi Ht) as (y' & Hex & Hy). eexists _, shown.
    split; [|exact (step_acquire r y' Ht Hex Hy)]. unfold wexec. rewrite (bind_Ret _ _ w w w) by done.
    cbv zeta. rewrite Ht. by rewrite (bind_Ret _ _ _ _ _ (in_sys_ok _ _ _ Hex)).
  - destruct (step_put c r Hi Ht) as (w' & H1 & H2). eauto.
  - destruct (unlock_progress r Hi Ht) as (y' & Hex & Hy). eexists _, [].
    split; [|exact (step_release r y' Hi Ht Hex Hy)]. unfold wexec. rewrite (bind_Ret _ _ w w w) by done.
    cbv zeta. rewrite Ht. by rewrite (bind_Ret _ _ _ _ _ (in_sys_ok _ _ _ Hex)).
Qed.

Lemma world_progress e : wenabled e w ->
  (exists w' shown', wexec e w = Ret (tt, w') /\ world_inv t0 shown' w') \/
  (wexec e w = Panic "ScheduleThread" 65 /\ deadlock (sys w)).
Proof.
  intros He. destruct e as [l| |e].
  - destruct He as (_ & Ht & Hl). left.
    exists (World (sys w) (put_at t (message l) (todo w)) (put_at t l (text w)) (finished w)), shown.
    split; [reflexivity|]. by apply step_call.
  - destruct He as [Hi Ht]. left. by apply act_progress.
  - destruct (progress_all dirs (sys w) e (wi_sys _ _ _ Hw) (proj1 He)) as [(y' & Hex & Hy)|[Hp Hd]].
    + left. eexists _, shown. split; [|exact (step_event e y' He Hex Hy)].
      unfold wexec. rewrite (bind_Ret _ _ w w w) by done. by apply in_sys_ok.
    + right. split; [|done]. unfold wexec. rewrite (bind_Ret _ _ w w w) by done. unfold in_sys, zoom. by rewrite Hp.
Qed.

End steps.

Lemma wreaches_inv w0 w : winitial w0 -> wreaches w0 w ->
  exists shown, world_inv (tty (mach (kern (sys w0)))) shown w.
Proof.
  intros H0 Hr. induction Hr as [|w1 e w2 _ [shown IH] He Hex]; [by exists []; apply winitial_inv|].
  destruct (world_progress _ _ _ IH e He) as [(w' & shown' & H1 & H2)|[Hp _]]; [|congruence].
  exists shown'. congruence.
Qed.

(** C37: messages of the console functions come out whole.  Each of the four functions, in any state and
    whatever the lock has gone through, is the script of the text its unlocked function shows: take
    the lock, show the characters one by one, release the lock.  In a system of threads that run
    such scripts, and lock, unlock and change the interrupt flag outside them, with clock interrupts
    between any two statements of sync.c and any two characters, what has been shown is at every
    moment a sequence of whole messages, followed by the beginning of at most one more, that of the
    thread inside the lock: no two messages are ever mixed.  The next step never faults and never
    fails an assertion, but for the one of line 65 of thread.c when no thread is left to run. *)
Theorem console_messages w0 w : winitial w0 -> wreaches w0 w ->
  (forall `{Env} lfuel f s s1 m', sys_lock_lock lfuel console_lock s = Ret (tt, s1) ->
     unlocked f (mach s1) = Ret (tt, m') ->
     exists l, shows (unlocked f) (mach s1) l /\ run_call lfuel f s = run_acts lfuel (message l) s) /\
  (exists shown, tty (mach (kern (sys w))) =
       reverse (concat (snd <$> finished w) ++ shown) ++ tty (mach (kern (sys w0))) /\
     (shown = [] \/ exists t rest, is_thread w t /\ 0 < inside_console w t /\
        text w t = shown ++ rest /\ todo w t = letters rest)) /\
  (forall e, wenabled e w -> (exists w', wexec e w = Ret (tt, w')) \/
     (wexec e w = Panic "ScheduleThread" 65 /\ deadlock (sys w))).
Proof.
  intros H0 Hr. destruct (wreaches_inv w0 w H0 Hr) as [shown Hw]. split; [|split].
  - intros Henv lfuel f s s1 m' Hs Hf. destruct (unlocked_shows f _ _ Hf) as [l Hl]. exists l. split; [done|].
    apply call_script_ok. intros s2 Hs2. rewrite Hs in Hs2. by injection Hs2 as <-.
  - exists shown. split; [apply Hw|]. destruct shown as [|c shown]; [by left|right].
    destruct (decide (map_Exists (fun t _ => 0 < inside_console w t) (pcbs (kern (sys w))))) as [(t & p & Hp & Hin)|Hn].
    + assert (is_thread w t) as Ht by by exists p.
      destruct (wi_stage _ _ _ Hw t Ht) as [|? ?|rest H1 H2 H3 H4]; [lia|lia|]. exists t, rest. auto.
    + exfalso. assert (c :: shown = []) as E; [|done]. apply (wi_nobody _ _ _ Hw). intros t [p Hp].
      destruct (wi_stage _ _ _ Hw t ltac:(by exists p)) as [| |rest H1 H2 H3 H4]; [done|done|].
      exfalso. apply Hn. exists t, p. split; [done|lia].
  - intros e He. destruct (world_progress _ _ _ Hw e He) as [(w' & shown' & H1 & _)|]; eauto.
Qed.

End worlds.

(** ** Example: two threads, the second calls while the first is in the middle of its message *)

Definition two_world : world := World two_system (fun _ => []) (fun _ => []) [].

Lemma two_world_initial : winitial demo_dirs two_world.
Proof. constructor; try done. apply two_system_initial. Qed.

Definition wnext (w : world) (e : wevent) : world :=
  match wexec e w with Ret (_, w') => w' | _ => w end.

Definition idleb (y : system) : bool :=
  match irq (ctl y (cur (kern y))), at_pc (ctl y (cur (kern y))) with None, Client => true | _, _ => false end.

(** [wenabled] as a program. *)
Definition wenabledb (e : wevent) (w : world) : bool :=
  let free := match todo w (cur (kern (sys w))) with [] => true | _ => false end in
  match e with
  | WCall l => idleb (sys w) && free && forallb (fun c => (0 <=? c) && (c <? 256)) l
  | WAct => idleb (sys w) && negb free
  | WEvent e => enabledb e (sys w) &&
      match e with
      | EvRun | EvClock => true
      | EvLock l | EvUnlock l => free && bool_decide (l <> console_lock)
      | EvEnable | EvDisable => free
      end
  end.

Lemma wenabledb_ok e w : wenabledb e w = true -> wenabled e w.
Proof.
  assert (idleb (sys w) = true -> idle (sys w)) as Hi.
  { unfold idleb, idle. by destruct (ctl _ _) as [[] []]. }
  unfold wenabledb, wenabled. destruct (todo w (cur (kern (sys w)))) as [|a r], e as [l| |e]; cbn;
    rewrite ?andb_true_iff.
  - intros [[H1 _] H2]. split_and!; [by apply Hi|done|]. rewrite forallb_forall in H2. apply Forall_forall.
    intros x Hx. specialize (H2 x (proj1 (list_elem_of_In _ _) Hx)). lia.
  - by intros [_ ?].
  - intros [H1 H2]. split; [by apply enabledb_ok|]. destruct e; try done; (split; [done|by apply bool_decide_eq_true in H2]).
  - by intros [[_ ?] _].
  - intros [H1 _]. split; [by apply Hi|done].
  - intros [H1 H2]. split; [by apply enabledb_ok|]. by destruct e.
Qed.

Fixpoint wruns (w : world) (evs : list wevent) : bool :=
  match evs with
  | [] => true
  | e :: r => wenabledb e w && returns (wexec e w) && wruns (wnext w e) r
  end.

Lemma wreaches_events w0 evs : forall w, wreaches w0 w -> wruns w evs = true -> wreaches w0 (foldl wnext w evs).
Proof.
  induction evs as [|e r IH]; intros w Hr H; [done|]. cbn [wruns] in H. rewrite !andb_true_iff in H.
  destruct H as [[H1 H2] H3]. cbn [foldl]. apply IH; [|done].
  apply (wreaches_step w0 w e); [done|by apply wenabledb_ok|].
  unfold wnext. destruct (wexec e w) as [[[] w']| | | |]; done.
Qed.

(** The first thread begins to print "ab", the clock comes after the a, the second thread wants to print
    "c" and has to wait; the first goes on with the b. *)
Definition mixed_events : list wevent :=
  [WEvent EvEnable; WCall [97; 98]; WAct; WEvent EvRun; WEvent EvRun; WEvent EvRun; WEvent EvRun; WAct;
   WEvent EvClock; WCall [99]; WAct; WEvent EvRun; WEvent EvRun; WAct].
Definition mixed_world : world := foldl wnext two_world mixed_events.

Lemma mixed_reached : wreaches two_world mixed_world.
Proof. apply wreaches_events; [constructor|]. vm_compute. reflexivity. Qed.

Lemma console_messages_witness : exists shown,
  tty (mach (kern (sys mixed_world))) = reverse (concat (snd <$> finished mixed_world) ++ shown) ++ [] /\
  tty (mach (kern (sys mixed_world))) = [98; 97] /\ todo mixed_world 0xC0130000 = letters [99].
Proof.
  destruct (console_messages demo_dirs two_world mixed_world two_world_initial mixed_reached) as (_ & (shown & H & _) & _).
  exists shown. split; [exact H|]. split; vm_compute; reflexivity.
Defined.
