(* ===== verification/PageDir.v ===== *)
(** * userprog/process.c: page directories of processes

    [CreatPDE] fills a page of the kernel heap through its linear address and then hands it to the
    processor as a page directory.  The bytes of ordinary pages are in [ram]; [page_to_phys] moves
    those of this page to the frame in [phys], where page tables live: both are the same memory.
    The file also has what a new page directory leaves alone. *)
From stdpp Require Import base list gmap strings.
From S2P Require Import Prelude Machine CString Bitmap Print Interrupt KList Paging State Sched Sync Pool.
From S2P Require Import Palloc Arena Heap Malloc MemInit Console.

(** ** Code *)

(** [memcpy] (lib/string.c) on memory behind the MMU. *)
Definition vld8 (va : Z) : M paging Z := fun pg =>
  match translate pg va with
  | Some pa => match phys pg !! pa with Some b => Ret (b, pg) | None => Fault va end
  | None => Fault va
  end.

Definition vmemcpy_body '((dst_, src_, size) : Z * Z * Z) : M paging (Z * Z * Z + unit) :=
  if size =? 0 then ret (inr tt)
  else
    let* b := vld8 src_ in
    vst8 dst_ b ;;;
    ret (inl (u32 (dst_ + 1), u32 (src_ + 1), u32 (size - 1))).

Definition vmemcpy (dst src size : Z) : M paging unit :=
  ASSERT (negb (dst =? 0) && negb (src =? 0)) "memcpy" 19 ;;;
  iter (S (Z.to_nat size)) vmemcpy_body (dst, src, size).

Definition bytes_of (m : gmap Z Z) (p : Z) (n : nat) : list Z :=
  (fun k => default 0 (m !! (p + Z.of_nat k))) <$> seq 0 n.

Definition page_to_phys (v : Z) : M kernel unit := fun s =>
  match translate (pg s) v with
  | Some pa => Ret (tt, set_pg (set_phys (write_bytes (phys (pg s)) pa (bytes_of (ram (mach s)) v page_n)) (pg s)) s)
  | None => Fault v
  end.

(** The flags of kernel/global.h, decimal numbers. *)
Definition PG_P_1 : Z := 1.
Definition PG_RW_RW : Z := 10.
Definition PG_US_U : Z := 100.

Definition CreatPDE `{Env} (fuel : nat) : M kernel Z :=
  let* PDE_vaddr := kpalloc fuel 1 in
  if PDE_vaddr =? 0 then
    ConsoleLockAcquire fuel ;;;
    let* _ := on_mach (sys_putstr "CreatePDE failed: kpalloc failed") in
    ConsoleLockRelease ;;;
    ret 0
  else
    page_to_phys PDE_vaddr ;;;
    on_pg (vmemcpy (u32 (PDE_vaddr + 0x300 * 4)) (0xFFFFF000 + 0x300 * 4) 1024) ;;;
    on_pg (vmemcpy PDE_vaddr 0xFFFFF000 4) ;;;
    let* new_PDE_physic_addr := on_pg (VirtualAddrToPhysicAddr PDE_vaddr) in
    on_pg (vst32 (u32 (PDE_vaddr + 4 * 1023))
      (Z.lor (Z.lor (Z.lor new_PDE_physic_addr PG_US_U) PG_RW_RW) PG_P_1)) ;;;
    ret PDE_vaddr.

(** ** Bytes *)

Lemma length_bytes_of m p n : length (bytes_of m p n) = n.
Proof. unfold bytes_of. by rewrite length_fmap, length_seq. Qed.

Lemma bytes_of_lookup m p n k : (k < n)%nat -> bytes_of m p n !! k = Some (default 0 (m !! (p + Z.of_nat k))).
Proof. intros Hk. unfold bytes_of. rewrite list_lookup_fmap, lookup_seq_lt by done. done. Qed.

Lemma bytes_of_at m p n : readable m p (Z.of_nat n) -> bytes_at m p (bytes_of m p n).
Proof.
  intros Hr k b Hb. pose proof (lookup_lt_Some _ _ _ Hb) as Hk. rewrite length_bytes_of in Hk.
  rewrite bytes_of_lookup in Hb by done. destruct (Hr (p + Z.of_nat k)) as [x Hx]; [lia|].
  rewrite Hx in *. by injection Hb as <-.
Qed.

Lemma bytes_of_ok m p n : ram_ok m -> Forall (fun b => 0 <= b < 256) (bytes_of m p n).
Proof.
  intros Hm. apply Forall_fmap, Forall_forall. intros k _. cbn.
  destruct (m !! (p + Z.of_nat k)) as [b|] eqn:E; cbn; [by apply Hm in E|lia].
Qed.

(** The bytes written by a copy. *)
Lemma write_bytes_of m m' p q n a : (a < q \/ q + Z.of_nat n <= a \/ is_Some (m !! (p + (a - q)))) ->
  write_bytes m' q (bytes_of m p n) !! a = if bool_decide (q <= a < q + Z.of_nat n) then m !! (p + (a - q)) else m' !! a.
Proof.
  intros Ha. case_bool_decide as Hc.
  - replace a with (q + Z.of_nat (Z.to_nat (a - q))) at 1 by lia.
    destruct Ha as [Ha|[Ha|[x Hx]]]; [lia|lia|]. rewrite Hx. apply write_bytes_lookup_in.
    rewrite bytes_of_lookup by lia. replace (p + Z.of_nat (Z.to_nat (a - q))) with (p + (a - q)) by lia. by rewrite Hx.
  - apply write_bytes_lookup_out. rewrite length_bytes_of. lia.
Qed.

Lemma word_shift (m m' : gmap Z Z) a b : (forall i, 0 <= i < 4 -> m' !! (a + i) = m !! (b + i)) -> word m' a = word m b.
Proof.
  intros H. unfold word. pose proof (H 0 ltac:(lia)) as H0. rewrite !Z.add_0_r in H0.
  by rewrite H0, (H 1), (H 2), (H 3) by lia.
Qed.

(** ** The copy loop *)

Section copy.
  Context (m0 : gmap Z Z) (P : Z -> Prop) (c dst src pd pc : Z) (N : nat) (iv : list Z).
  Hypothesis Hwalk : forall m, same_outside P m0 m -> forall k, 0 <= k < Z.of_nat N ->
    walk m (frame_of c) (dst + k) = Some (pd + k) /\ walk m (frame_of c) (src + k) = Some (pc + k).
  Hypothesis Hdst : forall k, 0 <= k < Z.of_nat N -> P (pd + k) /\ is_Some (m0 !! (pd + k)).
  Hypothesis Hsrc : forall k, 0 <= k < Z.of_nat N -> ~ P (pc + k) /\ exists b, m0 !! (pc + k) = Some b /\ 0 <= b < 256.
  Hypothesis Hlim : 0 <= dst /\ dst + Z.of_nat N <= 2 ^ 32 /\ 0 <= src /\ src + Z.of_nat N <= 2 ^ 32.

Lemma vmemcpy_loop n : forall m j, (n + j = N)%nat -> same_outside P m0 m ->
  (forall a, is_Some (m0 !! a) -> is_Some (m !! a)) ->
  iter (S n) vmemcpy_body (u32 (dst + Z.of_nat j), u32 (src + Z.of_nat j), Z.of_nat n) (Paging m c iv) =
    Ret (tt, Paging (write_bytes m (pd + Z.of_nat j) (bytes_of m0 (pc + Z.of_nat j) n)) c iv).
Proof.
  induction n as [|n IH]; intros m j Hj Hs Hr; [done|].
  destruct (Hwalk m Hs (Z.of_nat j) ltac:(lia)) as [W1 W2].
  destruct (Hsrc (Z.of_nat j) ltac:(lia)) as [Hn (b & Hb & Hb2)].
  destruct (Hdst (Z.of_nat j) ltac:(lia)) as [HP [x0 Hx0]].
  destruct (Hr (pd + Z.of_nat j)) as [x Hx]; [eauto|].
  assert (bytes_of m0 (pc + Z.of_nat j) (S n) = b :: bytes_of m0 (pc + Z.of_nat (S j)) n) as ->.
  { unfold bytes_of. cbn [seq fmap list_fmap]. f_equal.
    - rewrite Z.add_0_r, Hb. done.
    - rewrite <- fmap_S_seq, <- list_fmap_compose. apply list_fmap_ext. intros i k _. unfold compose. do 2 f_equal. lia. }
  erewrite iter_S with (x := inl (u32 (dst + Z.of_nat (S j)), u32 (src + Z.of_nat (S j)), Z.of_nat n)).
  - cbn [write_bytes]. rewrite IH; [by replace (pd + Z.of_nat (S j)) with (pd + Z.of_nat j + 1) by lia|lia| |].
    + intros a Ha. rewrite lookup_insert_ne; [by apply Hs|]. intros <-. done.
    + intros a Ha. rewrite lookup_insert_is_Some'. auto.
  - unfold vmemcpy_body. replace (Z.of_nat (S n) =? 0) with false by lia.
    rewrite (u32_id (dst + Z.of_nat j)), (u32_id (src + Z.of_nat j)) by lia.
    unfold bind, vld8, vst8, translate. cbn [phys cr3]. rewrite W2.
    rewrite (Hs _ Hn), Hb. cbn [phys cr3]. rewrite W1, Hx. unfold ret. rewrite (u8_id b) by done.
    rewrite (u32_id (Z.of_nat (S n) - 1)) by lia.
    unfold set_phys. cbn [cr3 invlpgs]. do 4 f_equal; [f_equal; f_equal; lia|lia].
Qed.

Lemma vmemcpy_ok : 0 < dst < 2 ^ 32 -> 0 < src < 2 ^ 32 -> vmemcpy dst src (Z.of_nat N) (Paging m0 c iv) =
  Ret (tt, Paging (write_bytes m0 pd (bytes_of m0 pc N)) c iv).
Proof.
  intros H1 H2. unfold vmemcpy. rewrite (bind_Ret _ _ _ tt (Paging m0 c iv)) by (apply ASSERT_true; lia).
  rewrite Nat2Z.id. pose proof (vmemcpy_loop N m0 0 ltac:(lia) ltac:(done) ltac:(done)) as H.
  cbn [Z.of_nat] in H. rewrite !Z.add_0_r, !u32_id in H by lia. exact H.
Qed.

End copy.

(** ** Writing to a page that is no page table *)

Section data_frame.
  Context (m m' : gmap Z Z) (dir f : Z).
  Hypothesis Hok : dir_ok m dir.
  Hypothesis Hf : frame_fresh m dir f.
  Hypothesis Hs : same_outside (fun a => f <= a < f + 4096) m m'.

Lemma df_word q j : q mod 4096 = 0 -> q <> f -> 0 <= j < 1024 -> word m' (q + 4 * j) = word m (q + 4 * j).
Proof.
  intros Hq Hne Hj. destruct Hf as (Fp & _). apply word_eq. intros i Hi. apply Hs.
  destruct (pages_apart q f Hq Fp Hne); lia.
Qed.

Lemma df_pde j : 0 <= j < 1024 -> pde_at m' dir j = pde_at m dir j.
Proof. intros Hj. apply df_word; [apply Hok|by apply not_eq_sym, Hf|done]. Qed.

Lemma df_table va : 0 <= va < 2 ^ 32 -> table_of m' dir va = table_of m dir va.
Proof. intros Hva. apply table_of_pdes; [done|]. apply df_pde. Qed.

Lemma df_walk va : 0 <= va < 1023 * 2 ^ 22 -> walk m' dir va = walk m dir va.
Proof.
  intros Hva. unfold walk. rewrite df_table by lia. destruct (table_of m dir va) as [t|] eqn:Ht; [|done].
  destruct (table_of_ok _ _ _ _ Hok Hva Ht) as (_ & _ & Htp & _). rewrite df_word; [done|done| |apply pte_idx_range].
  intros ->. unfold table_of in Ht. destruct (word m _) as [e|] eqn:He; [|done].
  destruct (is_present e) eqn:Pe; [|done]. injection Ht as Ht.
  by apply (proj2 (proj2 (proj2 (proj2 (proj2 Hf)))) (va / 2 ^ 22) e); [apply pde_idx_low|..].
Qed.

(** The directory itself, through the last page of the window. *)
Lemma df_window c : 0 <= c < 4096 -> walk m' dir (0xFFFFF000 + c) = Some (dir + c).
Proof.
  intros Hc. pose proof Hok as (_ & _ & _ & _ & _ & (e0 & H0 & P0 & F0) & _).
  assert (pde_at m' dir 1023 = Some e0) as H1 by by rewrite df_pde.
  change 0xFFFFF000 with (1023 * 2 ^ 22 + 1023 * 2 ^ 12).
  by rewrite (window_walk m' dir 1023 e0 e0), F0 by (done || lia).
Qed.

Lemma df_dir : ram_ok m' -> (forall a, is_Some (m !! a) -> is_Some (m' !! a)) -> dir_ok m' dir.
Proof.
  intros Hram Hr. destruct Hok as (_ & H0 & Hl & Hp & Hd & (e0 & He0 & P0 & F0) & Ht).
  split_and!; try done.
  - intros a Ha. by apply Hr, Hd.
  - exists e0. by rewrite df_pde.
  - intros i e Hi. rewrite df_pde by lia. intros He Pe. destruct (Ht i e Hi He Pe) as (? & ? & Hx).
    split_and!; try done. intros a Ha. by apply Hr, Hx.
Qed.

Lemma df_fresh x : (forall a, is_Some (m !! a) -> is_Some (m' !! a)) -> frame_fresh m dir x -> frame_fresh m' dir x.
Proof.
  intros Hr (F1 & F2 & F3 & F4 & F5 & F6). split_and!; try done.
  - intros a Ha. by apply Hr, F4.
  - intros i e Hi. rewrite df_pde by lia. by apply F6.
Qed.

End data_frame.

(** The allocator's invariant does not depend on the contents of a mapped frame. *)
Lemma mem_ok_frame ps V m pg va pf r ph' : mem_ok ps V m pg -> in_space V va -> maps_frame ps pg va pf r ->
  let f := frame (pool_of pf ps) r in
  same_outside (fun a => f <= a < f + 4096) (phys pg) ph' -> stored (phys pg) ph' ->
  mem_ok ps V m (set_phys ph' pg) /\
  forall x, 0 <= x < 1023 * 2 ^ 22 -> translate (set_phys ph' pg) x = translate pg x.
Proof.
  intros Hm Hva Hmp f Hs [Hst1 Hst2]. pose proof (mo_data _ _ _ _ Hm _ _ _ Hva Hmp) as Hfr. fold f in Hfr.
  pose proof (mo_dir _ _ _ _ Hm) as Hd. set (dir := frame_of (cr3 pg)) in *.
  assert (forall x, 0 <= x < 1023 * 2 ^ 22 -> translate (set_phys ph' pg) x = translate pg x) as Htr.
  { intros x Hx. by apply (df_walk (phys pg) ph' dir f). }
  assert (forall x pf' r', maps_frame ps (set_phys ph' pg) x pf' r' -> maps_frame ps pg x pf' r') as Hmf.
  { intros x pf' r' (Hx & Hr & Ht). split_and!; try done; [apply Hx..|apply Hr|apply Hr|]. by rewrite <- Htr. }
  destruct (mo_space _ _ _ _ Hm) as (S1 & S2 & S3).
  assert (forall x, in_space V x -> 0 <= x < 1023 * 2 ^ 22) as Hlow by (unfold in_space; lia).
  assert (forall x, 0 <= x < 1023 * 2 ^ 22 -> table_of ph' dir x = table_of (phys pg) dir x) as Htab.
  { intros x Hx. apply (df_table (phys pg) ph' dir f); try done. lia. }
  split; [|done]. constructor; try apply Hm; cbn [phys cr3 set_phys].
  - unfold pg_ok. cbn [phys cr3 set_phys]. apply (df_dir (phys pg) ph' dir f); try done. apply Hst1, Hd.
  - intros pf' r' Hr Hb. apply (df_fresh (phys pg) ph' dir f); try done. by apply (mo_free _ _ _ _ Hm).
  - intros pf' r' x Hx. by eapply (mo_used _ _ _ _ Hm), Hmf.
  - intros i Hi Hb. destruct (vpage_facts _ _ _ _ i Hm Hi) as (Hin & _). rewrite Htr by by apply Hlow.
    by apply (mo_unmapped _ _ _ _ Hm).
  - intros x x' t Hx Hx'. fold dir. rewrite !Htab by by apply Hlow. by apply (mo_tables _ _ _ _ Hm).
  - intros pf' r' x Hin Hx. apply (df_fresh (phys pg) ph' dir f); try done. by eapply (mo_data _ _ _ _ Hm _ _ _ Hin), Hmf.
  - intros pf' r' x x' Hx Hx'. pose proof (Hmf _ _ _ Hx) as Hy. pose proof (Hmf _ _ _ Hx') as Hy'.
    destruct (mo_entry _ _ _ _ Hm _ _ _ _ Hy Hy') as [E1 E2]. split; [|done].
    cbn [phys cr3 set_phys]. fold dir. rewrite !Htab; [done|apply Hy'|apply Hy].
Qed.

(** ** The new directory *)

Lemma walk_page m dir v f c : v mod 4096 = 0 -> 0 <= v -> walk m dir v = Some f -> 0 <= c < 4096 ->
  walk m dir (v + c) = Some (f + c).
Proof.
  intros Hv Hv0 Hw Hc.
  assert (v = v / 2 ^ 22 * 2 ^ 22 + v / 2 ^ 12 mod 2 ^ 10 * 2 ^ 12 + 0) as Ev.
  { change (2 ^ 22) with (2 ^ 12 * 2 ^ 10). rewrite <- Z.div_div by lia. change 4096 with (2 ^ 12) in Hv.
    pose proof (Z.div_mod v (2 ^ 12)). pose proof (Z.div_mod (v / 2 ^ 12) (2 ^ 10)). lia. }
  pose proof (pte_idx_range v) as Hj.
  destruct (linear_parts (v / 2 ^ 22) (v / 2 ^ 12 mod 2 ^ 10) c) as (E1 & E2 & E3); [lia|lia|].
  assert (v + c = v / 2 ^ 22 * 2 ^ 22 + v / 2 ^ 12 mod 2 ^ 10 * 2 ^ 12 + c) as Ec by lia.
  unfold walk in *. unfold table_of in *. rewrite Ec, E1, E2, E3.
  destruct (word m (dir + 4 * (v / 2 ^ 22))) as [e|]; [|done]. destruct (is_present e); [|done].
  destruct (word m _) as [x|]; [|done]. destruct (is_present x); [|done]. injection Hw as <-.
  change (2 ^ 12) with 4096. by rewrite Hv, Z.add_0_r.
Qed.

Section directory.
  Context (pg0 : paging) (v f : Z) (zeros : list Z).
  #[local] Abbreviation m := (phys pg0).
  #[local] Abbreviation dir := (frame_of (cr3 pg0)).
  Hypothesis Hok : pg_ok pg0.
  Hypothesis Hf : frame_fresh m dir f.
  Hypothesis Hv : 0 < v /\ v + 4096 <= 1023 * 2 ^ 22 /\ v mod 4096 = 0.
  Hypothesis Htr : translate pg0 v = Some f.
  Hypothesis Hlen : length zeros = page_n.
  Hypothesis Hz : forall k, (k < page_n)%nat -> zeros !! k = Some 0.

Definition dir1 : gmap Z Z := write_bytes m f zeros.
Definition dir2 : gmap Z Z := write_bytes dir1 (f + 0x300 * 4) (bytes_of dir1 (dir + 0x300 * 4) 1024).
Definition dir3 : gmap Z Z := write_bytes dir2 f (bytes_of dir2 dir 4).
Definition dir4 : gmap Z Z := setw dir3 (f + 4 * 1023) (Z.lor f 0x6F).

Lemma dir_page : dir mod 4096 = 0 /\ 0 < dir /\ dir + 4096 <= 2 ^ 32 /\ readable m dir 4096 /\ ram_ok m.
Proof. destruct Hok as (? & ? & ? & ? & ? & _). done. Qed.

Lemma page_zeros_ok : Forall (fun b => 0 <= b < 256) zeros.
Proof.
  apply Forall_lookup_2. intros k b Hb. pose proof (lookup_lt_Some _ _ _ Hb) as Hk. rewrite Hlen in Hk.
  rewrite Hz in Hb by done. injection Hb as <-. lia.
Qed.

(** Every stage is [m] but for the page [f]. *)
Lemma stages : same_outside (fun a => f <= a < f + 4096) m dir1 /\ same_outside (fun a => f <= a < f + 4096) m dir2 /\
  same_outside (fun a => f <= a < f + 4096) m dir3 /\ same_outside (fun a => f <= a < f + 4096) m dir4 /\
  stored m dir1 /\ stored m dir2 /\ stored m dir3 /\ stored m dir4.
Proof.
  pose proof page_n_Z as Hpn.
  assert (same_outside (fun a => f <= a < f + 4096) m dir1) as S1.
  { intros a Ha. apply write_bytes_lookup_out. rewrite Hlen. lia. }
  assert (stored m dir1) as T1 by (apply write_bytes_stored, page_zeros_ok).
  assert (ram_ok dir1) as R1 by (apply T1, dir_page).
  assert (same_outside (fun a => f <= a < f + 4096) m dir2) as S2.
  { intros a Ha. unfold dir2. rewrite write_bytes_lookup_out; [by apply S1|]. rewrite length_bytes_of. lia. }
  assert (stored m dir2) as T2.
  { eapply stored_trans; [exact T1|]. apply write_bytes_stored. by apply bytes_of_ok. }
  assert (ram_ok dir2) as R2 by (apply T2, dir_page).
  assert (same_outside (fun a => f <= a < f + 4096) m dir3) as S3.
  { intros a Ha. unfold dir3. rewrite write_bytes_lookup_out; [by apply S2|]. rewrite length_bytes_of. lia. }
  assert (stored m dir3) as T3.
  { eapply stored_trans; [exact T2|]. apply write_bytes_stored. by apply bytes_of_ok. }
  assert (same_outside (fun a => f <= a < f + 4096) m dir4) as S4.
  { intros a Ha. unfold dir4. rewrite setw_lookup_out by lia. by apply S3. }
  assert (stored m dir4) as T4 by (eapply stored_trans; [exact T3|apply stored_setw]).
  exact (conj S1 (conj S2 (conj S3 (conj S4 (conj T1 (conj T2 (conj T3 T4))))))).
Qed.

Lemma self_entry : frame_of (Z.lor f 0x6F) = f /\ is_present (Z.lor f 0x6F) = true /\ 0 <= Z.lor f 0x6F < 2 ^ 32.
Proof.
  destruct Hf as (Fp & F0 & Fl & _). split_and!.
  - apply frame_of_or; [lia|done|lia].
  - by apply is_present_or.
  - rewrite page_lor by (done || lia). lia.
  - rewrite page_lor by (done || lia). lia.
Qed.

(** The entries of the directory that is copied from, at every stage. *)
Lemma dir_byte m' k : same_outside (fun a => f <= a < f + 4096) m m' -> 0 <= k < 4096 ->
  exists b, m' !! (dir + k) = Some b /\ m !! (dir + k) = Some b /\ 0 <= b < 256.
Proof.
  intros Hs Hk. destruct dir_page as (Dp & D0 & Dl & Dr & Dm). destruct Hf as (Fp & _ & _ & _ & Fne & _).
  destruct (Dr (dir + k)) as [b Hb]; [lia|]. exists b. split_and!; [|done|by eapply Dm|by eapply Dm].
  rewrite Hs; [done|]. destruct (pages_apart f dir Fp Dp Fne); lia.
Qed.

(** The entries of the new directory: the kernel's first entry and its upper quarter, nothing between. *)
Lemma new_entries i : 0 <= i < 1024 -> pde_at dir4 f i =
  if i =? 1023 then Some (Z.lor f 0x6F)
  else if (i =? 0) || (768 <=? i) then pde_at m dir i else Some 0.
Proof.
  intros Hi. pose proof page_n_Z as Hpn. destruct stages as (S1 & S2 & S3 & S4 & T1 & T2 & T3 & T4).
  destruct Hf as (Fp & F0 & Fl & Fr & Fne & _). destruct dir_page as (Dp & D0 & Dl & Dr & Dm).
  unfold pde_at, dir4. destruct (Z.eqb_spec i 1023) as [->|Hne]; [apply word_setw_eq, self_entry|].
  rewrite word_setw_ne by lia.
  assert (forall a, f <= a < f + 4096 -> dir1 !! a = Some 0) as Hz1.
  { intros a Ha. unfold dir1. replace a with (f + Z.of_nat (Z.to_nat (a - f))) by lia.
    apply write_bytes_lookup_in, Hz. lia. }
  destruct (Z.eqb_spec i 0) as [->|Hi0]; [|destruct (Z.leb_spec 768 i) as [Hq|Hq]]; cbn [orb].
  - apply word_shift. intros k Hk. unfold dir3. destruct (dir_byte dir2 k S2 ltac:(lia)) as (b & B1 & B2 & _).
    rewrite (write_bytes_of dir2 dir2 dir f 4); [|right; right].
    + rewrite bool_decide_true by lia. replace (dir + (f + 4 * 0 + k - f)) with (dir + k) by lia.
      replace (dir + 4 * 0 + k) with (dir + k) by lia. congruence.
    + replace (dir + (f + 4 * 0 + k - f)) with (dir + k) by lia. eauto.
  - apply word_shift. intros k Hk. unfold dir3. rewrite write_bytes_lookup_out by (rewrite length_bytes_of; lia).
    unfold dir2. destruct (dir_byte dir1 (4 * i + k) S1 ltac:(lia)) as (b & B1 & B2 & _).
    rewrite (write_bytes_of dir1 dir1 (dir + 0x300 * 4) (f + 0x300 * 4) 1024); [|right; right].
    + rewrite bool_decide_true by lia.
      replace (dir + 0x300 * 4 + (f + 4 * i + k - (f + 0x300 * 4))) with (dir + (4 * i + k)) by lia.
      replace (dir + 4 * i + k) with (dir + (4 * i + k)) by lia. congruence.
    + replace (dir + 0x300 * 4 + (f + 4 * i + k - (f + 0x300 * 4))) with (dir + (4 * i + k)) by lia. eauto.
  - unfold word, dir3, dir2. rewrite !write_bytes_lookup_out by (rewrite length_bytes_of; lia).
    by rewrite !Hz1 by lia.
Qed.

(** Copying [n] bytes at [off] from the running directory, through the window. *)
Lemma copy_stage m1 off n : same_outside (fun a => f <= a < f + 4096) m m1 -> stored m m1 ->
  0 <= off -> off + Z.of_nat n <= 4096 -> (0 < n)%nat ->
  vmemcpy (v + off) (0xFFFFF000 + off) (Z.of_nat n) (set_phys m1 pg0) =
    Ret (tt, set_phys (write_bytes m1 (f + off) (bytes_of m1 (dir + off) n)) pg0).
Proof.
  intros S1 T1 Ho Hn Hn0. destruct dir_page as (Dp & D0 & Dl & Dr & Dm). pose proof Hf as (Fp & F0 & Fl & Fr & Fne & _).
  destruct Hv as (V0 & V1 & V2). unfold set_phys.
  assert (walk m dir v = Some f) as Hw by exact Htr.
  apply (vmemcpy_ok m1 (fun a => f <= a < f + 4096)); [|intros k Hk..|lia|lia|lia].
  - intros m2 S2 k Hk. assert (same_outside (fun a => f <= a < f + 4096) m m2) as S.
    { intros a Ha. by rewrite S2, S1. }
    replace (v + off + k) with (v + (off + k)) by lia. rewrite (df_walk m m2 dir f Hok Hf S (v + (off + k))) by lia.
    replace (0xFFFFF000 + off + k) with (0xFFFFF000 + (off + k)) by lia.
    rewrite (walk_page m dir v f (off + k) V2 ltac:(lia) Hw) by lia.
    rewrite (df_window m m2 dir f Hok Hf S) by lia. split; f_equal; lia.
  - split; [lia|]. apply T1, Fr. lia.
  - split; [destruct (pages_apart f dir Fp Dp Fne); lia|].
    destruct (dir_byte m1 (off + k) S1 ltac:(lia)) as (b & B1 & _ & B2). exists b. by rewrite <- Z.add_assoc.
Qed.

Lemma copies_run :
  vmemcpy (u32 (v + 0x300 * 4)) (0xFFFFF000 + 0x300 * 4) 1024 (set_phys dir1 pg0) = Ret (tt, set_phys dir2 pg0) /\
  vmemcpy v 0xFFFFF000 4 (set_phys dir2 pg0) = Ret (tt, set_phys dir3 pg0) /\
  VirtualAddrToPhysicAddr v (set_phys dir3 pg0) = Ret (f, set_phys dir3 pg0) /\
  vst32 (u32 (v + 4 * 1023)) (Z.lor (Z.lor (Z.lor f PG_US_U) PG_RW_RW) PG_P_1) (set_phys dir3 pg0) =
    Ret (tt, set_phys dir4 pg0).
Proof.
  destruct stages as (S1 & S2 & S3 & _ & T1 & T2 & T3 & _). destruct Hv as (V0 & V1 & V2).
  pose proof Hf as (Fp & F0 & Fl & Fr & _). assert (walk m dir v = Some f) as Hw by exact Htr. split_and!.
  - rewrite u32_id by lia. exact (copy_stage dir1 (0x300 * 4) 1024 S1 T1 ltac:(lia) ltac:(lia) ltac:(lia)).
  - pose proof (copy_stage dir2 0 4 S2 T2 ltac:(lia) ltac:(lia) ltac:(lia)) as E. rewrite !Z.add_0_r in E. exact E.
  - apply VirtualAddrToPhysicAddr_ok.
    + apply (df_dir m dir3 dir f Hok Hf S3); [apply T3, dir_page|apply T3].
    + lia.
    + unfold translate. cbn [phys cr3 set_phys]. rewrite (df_walk m dir3 dir f Hok Hf S3) by lia. exact Hw.
  - unfold vst32, translate. cbn [phys cr3 set_phys]. rewrite u32_id by lia.
    rewrite (df_walk m dir3 dir f Hok Hf S3) by lia. rewrite (walk_page m dir v f _ V2 ltac:(lia) Hw) by lia.
    assert (is_Some (word dir3 (f + 4 * 1023))) as [x Hx].
    { apply word_readable. intros a Ha. apply T3, Fr. lia. }
    rewrite Hx. unfold PG_US_U, PG_RW_RW, PG_P_1. rewrite <- !Z.lor_assoc. reflexivity.
Qed.

#[local] Opaque dir1 dir2 dir3 dir4.

(** It is a directory of this kernel. *)
Lemma new_dir_ok : dir_ok dir4 f.
Proof.
  destruct stages as (S1 & S2 & S3 & S4 & T1 & T2 & T3 & T4). destruct Hf as (Fp & F0 & Fl & Fr & Fne & Fe).
  destruct self_entry as (E1 & E2 & _). destruct Hok as (Dm & D0 & Dl & Dp & Dr & _ & Dt).
  split_and!.
  - exact (proj1 T4 Dm).
  - exact F0.
  - exact Fl.
  - exact Fp.
  - exact (stored_readable m _ _ _ T4 Fr).
  - exists (Z.lor f 0x6F). rewrite new_entries by lia. exact (conj eq_refl (conj E2 E1)).
  - intros i e Hi. rewrite new_entries by lia. replace (i =? 1023) with false by lia.
    destruct ((i =? 0) || (768 <=? i)); [|by intros [= <-]]. intros He Pe.
    destruct (Dt i e Hi He Pe) as (H1 & H2 & H3). split_and!; [by apply (Fe i)|done|by apply (stored_readable m)].
Qed.

End directory.

(** ** [CreatPDE] *)

(** [d] is a page directory with the kernel's half of the directory [dir]: its first entry and those
    from 768 on are the ones of [dir], the last one refers to itself, and the user's part is empty. *)
Record process_dir (m : gmap Z Z) (dir d : Z) : Prop := ProcessDir {
  pd_ok : dir_ok m d;
  pd_entries : forall i, 0 <= i < 1023 ->
    pde_at m d i = if (i =? 0) || (768 <=? i) then pde_at m dir i else Some 0
}.

(** The kernel's half is translated alike, the user's part is not mapped. *)
Lemma process_dir_walk m dir d va : process_dir m dir d -> 768 * 2 ^ 22 <= va < 1023 * 2 ^ 22 ->
  walk m d va = walk m dir va.
Proof.
  intros [_ He] Hva. assert (768 <= va / 2 ^ 22 < 1023) as Hi.
  { split; [apply Z.div_le_lower_bound; lia|apply Z.div_lt_upper_bound; lia]. }
  unfold walk, table_of. unfold pde_at in He. rewrite He by lia.
  by replace ((va / 2 ^ 22 =? 0) || (768 <=? va / 2 ^ 22)) with true by lia.
Qed.

Lemma process_dir_empty m dir d va : process_dir m dir d -> 2 ^ 22 <= va < 768 * 2 ^ 22 ->
  table_of m d va = None /\ walk m d va = None.
Proof.
  intros [_ He] Hva. assert (1 <= va / 2 ^ 22 < 768) as Hi.
  { split; [apply Z.div_le_lower_bound; lia|apply Z.div_lt_upper_bound; lia]. }
  assert (table_of m d va = None) as E.
  { unfold table_of. unfold pde_at in He. rewrite He by lia.
    by replace ((va / 2 ^ 22 =? 0) || (768 <=? va / 2 ^ 22)) with false by lia. }
  split; [done|]. unfold walk. by rewrite E.
Qed.

Lemma process_dir_low m dir d va : process_dir m dir d -> 0 <= va < 2 ^ 22 -> walk m d va = walk m dir va.
Proof.
  intros [_ He] Hva. unfold walk, table_of. unfold pde_at in He. rewrite (Z.div_small va (2 ^ 22)) by lia.
  by rewrite He by lia.
Qed.

(** Filling a frame that was free before some pages were allocated. *)
Lemma grown_data ps V m pg0 pg1 pf q ph' : mem_ok ps V m pg0 -> 0 <= q < pool_bits (pool_of pf ps) ->
  bit m (pool_bitmap (pool_of pf ps)) q = false -> grown ps V pg0 pg1 ->
  let f := frame (pool_of pf ps) q in
  same_outside (fun a => f <= a < f + 4096) (phys pg1) ph' -> stored (phys pg1) ph' -> cr3 pg1 = cr3 pg0 ->
  (forall x, 0 <= x < 1023 * 2 ^ 22 -> translate (set_phys ph' pg1) x = translate pg1 x) ->
  (forall j, 0 <= j < 1024 -> pde_at ph' (frame_of (cr3 pg1)) j = pde_at (phys pg1) (frame_of (cr3 pg1)) j) ->
  grown ps V pg0 (set_phys ph' pg1).
Proof.
  intros Hm Hq Hb [G1 G2 G3 G4] f Hs Ht Hcr Htr Hp. constructor.
  - intros va pa Hva Hpa. rewrite Htr by done. by apply G1.
  - intros pf' r va a Hin Hmp Ha. cbn [phys set_phys]. rewrite <- (G2 pf' r va a Hin Hmp Ha). apply Hs. intros Ha'.
    pose proof (mo_used _ _ _ _ Hm _ _ _ Hmp) as Hused. destruct Hmp as (_ & Hr & _).
    destruct (frame_facts _ _ _ _ pf q Hm Hq) as [_ A1]. destruct (frame_facts _ _ _ _ pf' r Hm Hr) as [_ A2].
    destruct (decide (f = frame (pool_of pf' ps) r)) as [E|Hne].
    + destruct (frames_apart _ _ _ _ _ _ _ _ Hm Hq Hr E) as [<- <-]. congruence.
    + fold f in A1. destruct (pages_apart _ _ A1 A2 Hne); lia.
  - intros p n Hr x Hx. by apply Ht, (G3 p n Hr).
  - intros Htab j Hj. cbn [phys set_phys]. rewrite <- Hcr, Hp by done. rewrite Hcr. by apply G4.
Qed.

Section creat.
  Context `{Env}.

Lemma CreatPDE_ok fuel s r0 : let V := kernel_vaddr (mem s) in
  mem_ok (mem s) V (ram (mach s)) (pg s) -> locks s !! kernel_pool_lock = Some free_lock -> cur s <> 0 ->
  0 <= r0 < space_bits V -> bit (ram (mach s)) (vaddr_bitmap V) r0 = false ->
  enough_frames (mem s) (ram (mach s)) KERNEL_POOL 1 ->
  exists r q m' g, CreatPDE (S fuel) s = Ret (vpage V r, with_mem m' g s) /\
    mem_ok (mem s) V m' g /\ cr3 g = cr3 (pg s) /\
    0 <= r <= r0 /\ bit (ram (mach s)) (vaddr_bitmap V) r = false /\
    maps_frame (mem s) g (vpage V r) KERNEL_POOL q /\
    process_dir (phys g) (frame_of (cr3 (pg s))) (frame (kernel_memory_pool (mem s)) q) /\
    (forall j, 0 <= j < space_bits V -> bit m' (vaddr_bitmap V) j =
       if j =? r then true else bit (ram (mach s)) (vaddr_bitmap V) j) /\
    (forall va, in_space V va -> page_of va <> vpage V r -> translate g va = translate (pg s) va) /\
    same_outside (fun a => in_bitmaps KERNEL_POOL (mem s) V a \/
      vpage V r <= a < vpage V r + PAGE_SIZE) (ram (mach s)) m' /\
    grown (mem s) V (pg s) g /\
    (forall j, enough_frames (mem s) (ram (mach s)) KERNEL_POOL (S j) -> enough_frames (mem s) m' KERNEL_POOL j).
Proof.
  intros V Hm Hl Hcur Hr0 Hb0 Hen. pose proof page_n_Z as Hpn.
  destruct (pool_alloc_ok fuel s KERNEL_POOL V 1 r0)
    as (r & m1 & pg1 & Hrun & Hm1 & Hr & Hfree & Hbits & Hmap & Hz & Hkeep & Hcr & Hs & Hg & Hj);
    [done|done|done|done|lia|lia|lia| |done|].
  { intros j Hj. by replace j with r0 by lia. }
  destruct (Hmap r ltac:(lia)) as (q & Hmp & Hq). set (v := vpage V r) in *.
  destruct (vpage_facts _ _ _ _ r Hm ltac:(fold V; lia)) as (V0 & V1 & V2 & V3). fold V v in V0, V1, V2, V3.
  set (f := frame (pool_of KERNEL_POOL (mem s)) q) in *.
  pose proof Hmp as (_ & Hqr & Htr). change (2 ^ 12) with 4096 in Htr. rewrite V3, Z.add_0_r in Htr. fold f in Htr.
  pose proof (mo_data _ _ _ _ Hm1 _ _ _ V0 Hmp) as Hfr. fold f in Hfr.
  pose proof (mo_dir _ _ _ _ Hm1) as Hdir.
  set (zeros := bytes_of m1 v page_n).
  assert (forall k, (k < page_n)%nat -> zeros !! k = Some 0) as Hzeros.
  { intros k Hk. unfold zeros. rewrite bytes_of_lookup by done. rewrite Hz; [done|unfold PAGE_SIZE; lia]. }
  assert (length zeros = page_n) as Hlen by apply length_bytes_of.
  destruct (copies_run pg1 v f zeros Hdir Hfr ltac:(lia) Htr Hlen Hzeros) as (C1 & C2 & C3 & C4).
  destruct (stages pg1 v f zeros Hdir ltac:(lia) Hlen Hzeros) as (_ & _ & _ & S4 & _ & _ & _ & T4).
  pose proof (new_dir_ok pg1 v f zeros Hdir Hfr ltac:(lia) Hlen Hzeros) as Hok4.
  pose proof (new_entries pg1 v f zeros Hdir Hfr ltac:(lia) Hlen Hzeros) as He4.
  set (ph := dir4 pg1 f zeros) in *.
  destruct (mem_ok_frame _ _ _ _ _ _ _ ph Hm1 V0 Hmp S4 T4) as [Hm2 Htr2].
  exists r, q, m1, (set_phys ph pg1). fold v. split; [|split; [exact Hm2|split; [exact Hcr|split; [lia|]]]].
  { unfold CreatPDE, kpalloc. rewrite (bind_Ret _ _ _ _ _ Hrun). fold v. replace (v =? 0) with false by lia.
    rewrite (bind_Ret _ _ _ tt (with_mem m1 (set_phys (dir1 pg1 f zeros) pg1) s)).
    2:{ unfold page_to_phys. change (pg (with_mem m1 pg1 s)) with pg1. rewrite Htr. reflexivity. }
    erewrite bind_Ret by (apply on_pg_ok; exact C1). erewrite bind_Ret by (apply on_pg_ok; exact C2).
    erewrite bind_Ret by (apply on_pg_ok; exact C3). erewrite bind_Ret by (apply on_pg_ok; exact C4). reflexivity. }
  split; [apply Hfree; lia|]. split; [split; [lia|split; [exact Hqr|]]|].
  { rewrite Htr2 by lia. rewrite Htr. change (2 ^ 12) with 4096. by rewrite V3, Z.add_0_r. }
  split_and!.
  - split; [exact Hok4|]. intros i Hi. cbn [phys set_phys]. rewrite <- Hcr.
    rewrite (df_pde (phys pg1) ph _ f Hdir Hfr S4 i) by lia. fold f. rewrite He4 by lia.
    by replace (i =? 1023) with false by lia.
  - intros j Hjr. rewrite Hbits by done. by replace ((r <=? j) && (j <? r + 1)) with (j =? r) by lia.
  - intros va Hva Hne. destruct (mo_space _ _ _ _ Hm) as (Sp1 & Sp2 & Sp3).
    rewrite Htr2 by (unfold in_space in Hva; fold V in Sp1, Sp3; lia). apply Hkeep; [done|]. intros Hin. apply Hne.
    unfold page_of, PAGE_SIZE in *. pose proof (Z.mod_pos_bound va 4096).
    pose proof (Z.div_mod va 4096). pose proof (Z.div_mod v 4096). nia.
  - intros a Ha. apply Hs. intros [Hc|Hc]; apply Ha; [by left|right]. unfold PAGE_SIZE in *. lia.
  - apply (grown_data (mem s) V (ram (mach s)) (pg s) pg1 KERNEL_POOL q ph Hm Hqr Hq Hg S4 T4); [exact Hcr|exact Htr2|].
    intros j Hj0. exact (df_pde (phys pg1) ph _ f Hdir Hfr S4 j Hj0).
  - intros j Hen'. apply Hj. exact Hen'.
Qed.

(** C29: [CreatPDE], called while the lock of the kernel's pool is free and a page of the heap and its
    frame are: it returns the linear address of a new page whose frame is a well-formed page
    directory; its first entry and its upper quarter are those of the running directory, so that the
    kernel's half of memory is translated alike; its last entry refers to itself; every other entry
    is empty, so that a process starts without user memory; nothing else is mapped or unmapped, and
    the allocator's invariant holds. *)
Theorem CreatPDE_correct fuel s r0 : let V := kernel_vaddr (mem s) in
  mem_ok (mem s) V (ram (mach s)) (pg s) -> locks s !! kernel_pool_lock = Some free_lock -> cur s <> 0 ->
  0 <= r0 < space_bits V -> bit (ram (mach s)) (vaddr_bitmap V) r0 = false ->
  enough_frames (mem s) (ram (mach s)) KERNEL_POOL 1 ->
  exists r d m' g, CreatPDE (S fuel) s = Ret (vpage V r, with_mem m' g s) /\ mem_ok (mem s) V m' g /\
    translate g (vpage V r) = Some d /\ dir_ok (phys g) d /\
    (forall va, 768 * 2 ^ 22 <= va < 1023 * 2 ^ 22 ->
       walk (phys g) d va = walk (phys g) (frame_of (cr3 g)) va) /\
    (forall va, 0 <= va < 2 ^ 22 -> walk (phys g) d va = walk (phys g) (frame_of (cr3 g)) va) /\
    (forall va, 2 ^ 22 <= va < 768 * 2 ^ 22 -> walk (phys g) d va = None) /\
    (forall va pa, 0 <= va < 1023 * 2 ^ 22 -> translate (pg s) va = Some pa -> translate g va = Some pa).
Proof.
  intros V Hm Hl Hcur Hr0 Hb0 Hen.
  destruct (CreatPDE_ok fuel s r0 Hm Hl Hcur Hr0 Hb0 Hen)
    as (r & q & m' & g & Hrun & Hm' & Hcr & Hr & _ & (_ & Hq & Htr) & Hd & _ & _ & _ & Hg & _). fold V in Hrun, Hm', Htr.
  destruct (vpage_facts _ _ _ _ r Hm ltac:(fold V; lia)) as (_ & _ & _ & V3). fold V in V3.
  exists r, (frame (kernel_memory_pool (mem s)) q), m', g. rewrite <- Hcr in Hd. split_and!; try assumption.
  - rewrite Htr. change (2 ^ 12) with 4096. by rewrite V3, Z.add_0_r.
  - apply Hd.
  - intros va Hva. by apply (process_dir_walk _ _ _ _ Hd).
  - intros va Hva. by apply (process_dir_low _ _ _ _ Hd).
  - intros va Hva. by apply (process_dir_empty _ _ _ _ Hd).
  - apply Hg.
Qed.

End creat.

(** ** Example: the small memory of Palloc.v *)

Lemma CreatPDE_correct_witness : exists v d s',
  CreatPDE (H := demo_env) 1 locked_kernel = Ret (v, s') /\ dir_ok (phys (pg s')) d /\
  walk (phys (pg s')) d 0x8048000 = None.
Proof.
  destruct (CreatPDE_correct (H := demo_env) 0 locked_kernel 0)
    as (r & d & m' & g & H1 & _ & _ & H2 & _ & _ & H3 & _);
    [exact pool_mem_ok|reflexivity|discriminate|zdec|apply (pool_bit 0x1004); lia|apply (pool_enough KERNEL_POOL); cbn; lia|].
  exists (vpage pool_space r), d, (with_mem m' g locked_kernel). split; [exact H1|]. split; [exact H2|].
  apply H3. clear. split; [discriminate|reflexivity].
Defined.
