(* ===== verification/Elf.v ===== *)
(** * boot/loader.S: loading the kernel's segments

    [KernelInit] runs after [Loader.SetupPage] and with paging on: the first megabyte of physical memory
    is at 0 and at 0xC0000000 ([Loader.SetupPage_correct]).  It is code on a [machine] whose memory is
    the physical one, addressed through [low].  Arguments that the code passes on its stack are
    arguments here. *)
From stdpp Require Import base list gmap strings.
From S2P Require Import Prelude Machine Bitmap Print Interrupt KList Paging State Sched Sync Pool Palloc.
From S2P Require Import Arena Heap Malloc MemInit Loader Console PageDir.

(** ** Code *)

(** Constants of boot/include/boot.inc. *)
Definition KERNEL_BIN_BASE_ADDR : Z := 0x60000.
Definition PT_NULL : Z := 0.

Definition low (a : Z) : Z := if (0xC0000000 <=? a) && (a <? 0xC0100000) then a - 0xC0000000 else a.
Definition lld8 (a : Z) : M machine Z := if low a <? 0x100000 then ld8 (low a) else fault a.
Definition lst8 (a v : Z) : M machine unit := if low a <? 0x100000 then st8 (low a) v else fault a.
Definition lld32 (a : Z) : M machine Z := if low (a + 3) <? 0x100000 then ld32 (low a) else fault a.
Definition lld16 (a : Z) : M machine Z :=
  let* l := lld8 a in
  let* h := lld8 (a + 1) in
  ret (l + 2 ^ 8 * h).

(** [rep movsb] *)
Definition movsb_body '((ecx, esi, edi) : Z * Z * Z) : M machine (Z * Z * Z + unit) :=
  if ecx =? 0 then ret (inr tt)
  else
    let* b := lld8 esi in
    lst8 edi b ;;;
    ret (inl (u32 (ecx - 1), u32 (esi + 1), u32 (edi + 1))).

Definition mem_cpy (dst src nbytes : Z) : M machine unit :=
  iter (S (Z.to_nat nbytes)) movsb_body (nbytes, src, dst).

(** The message at the top of the screen: "FATAL:" in green and red, the rest in the colours that are there. *)
Definition fatal_bytes : list (Z * Z) :=
  [(0, 70); (1, 0xA4); (2, 65); (3, 0xA4); (4, 84); (5, 0xA4); (6, 65); (7, 0xA4); (8, 76); (9, 0xA4); (10, 58);
   (11, 0xA4); (12, 32); (14, 75); (16, 69); (18, 82); (20, 78); (22, 69); (24, 76); (26, 32); (28, 66); (30, 82);
   (32, 79); (34, 75); (36, 69); (38, 78)].

Definition FatalKernelBroken : M machine unit :=
  foldr (fun '(off, b) k => lst8 (0xC00B8000 + off) b ;;; k) (ret tt) fatal_bytes ;;;
  (fun _ => Halt).

(** A round of [.LoadKernelEachSegment]; edx is the size of a program header. *)
Definition segment_body (edx : Z) '((ecx, ebx) : Z * Z) : M machine (Z * Z + unit) :=
  let* p_type := lld8 ebx in
  (if p_type =? PT_NULL then ret tt
   else
     let* nbytes := lld32 (ebx + 16) in
     let* eax := lld32 (ebx + 4) in
     let src := u32 (eax + KERNEL_BIN_BASE_ADDR) in
     let* dst := lld32 (ebx + 8) in
     mem_cpy dst src nbytes) ;;;
  let ebx := u32 (ebx + edx) in
  loop_ ecx (u32 (ecx - 1), ebx).

(** [ecx] is the register at the call: only its low half is loaded. *)
Definition KernelInit (fuel : nat) (ecx : Z) : M machine unit :=
  let* eax := lld32 KERNEL_BIN_BASE_ADDR in
  if negb (eax =? 0x464c457f) then FatalKernelBroken
  else
    let* al := lld8 (KERNEL_BIN_BASE_ADDR + 4) in
    if negb (al =? 1) then FatalKernelBroken
    else
      let* al := lld8 (KERNEL_BIN_BASE_ADDR + 5) in
      if negb (al =? 1) then FatalKernelBroken
      else
        let* ebx := lld32 (KERNEL_BIN_BASE_ADDR + 28) in
        let ebx := u32 (ebx + KERNEL_BIN_BASE_ADDR) in
        let* dx := lld16 (KERNEL_BIN_BASE_ADDR + 42) in
        let edx := dx in
        let* cx := lld16 (KERNEL_BIN_BASE_ADDR + 44) in
        let ecx := Z.lor (Z.land ecx 0xFFFF0000) cx in
        iter fuel (segment_body edx) (ecx, ebx).

(** ** Specification *)

Record segment := Segment { p_type : Z; p_offset : Z; p_vaddr : Z; p_filesz : Z }.

(** The segment's bytes in the image, and the memory they are for. *)
Definition src_of (g : segment) : Z := KERNEL_BIN_BASE_ADDR + p_offset g.
Definition dst_of (g : segment) : Z := low (p_vaddr g).
Definition loaded_at (g : segment) (a : Z) : Prop :=
  u8 (p_type g) <> PT_NULL /\ dst_of g <= a < dst_of g + p_filesz g.

(** The program header at [a]. *)
Record header_at (m : gmap Z Z) (a : Z) (g : segment) : Prop := HeaderAt {
  ph_type : m !! a = Some (u8 (p_type g));
  ph_offset : word m (a + 4) = Some (p_offset g);
  ph_vaddr : word m (a + 8) = Some (p_vaddr g);
  ph_filesz : word m (a + 16) = Some (p_filesz g)
}.

(** An ELF file of [len] bytes at the base address, with its headers [e] bytes apart from [phoff] on,
    whose segments lie inside the file and go to the first megabyte outside of it. *)
Record elf_file (m : gmap Z Z) (len phoff e : Z) (segs : list segment) : Prop := ElfFile {
  ef_len : 52 <= len /\ KERNEL_BIN_BASE_ADDR + len <= 0x100000;
  ef_bytes : readable m KERNEL_BIN_BASE_ADDR len;
  ef_magic : word m KERNEL_BIN_BASE_ADDR = Some 0x464c457f;
  ef_class : m !! (KERNEL_BIN_BASE_ADDR + 4) = Some 1 /\ m !! (KERNEL_BIN_BASE_ADDR + 5) = Some 1;
  ef_phoff : word m (KERNEL_BIN_BASE_ADDR + 28) = Some phoff /\ 0 <= phoff;
  ef_size : m !! (KERNEL_BIN_BASE_ADDR + 42) = Some (e mod 256) /\ m !! (KERNEL_BIN_BASE_ADDR + 43) = Some (e / 256) /\
    32 <= e;
  ef_count : let n := Z.of_nat (length segs) in m !! (KERNEL_BIN_BASE_ADDR + 44) = Some (n mod 256) /\
    m !! (KERNEL_BIN_BASE_ADDR + 45) = Some (n / 256) /\ 0 < n < 2 ^ 16;
  ef_table : phoff + e * Z.of_nat (length segs) <= len;
  ef_headers : forall i g, segs !! i = Some g -> header_at m (KERNEL_BIN_BASE_ADDR + phoff + e * Z.of_nat i) g;
  ef_inside : forall g, g ∈ segs -> u8 (p_type g) <> PT_NULL ->
    0 <= p_offset g /\ 0 <= p_filesz g /\ p_offset g + p_filesz g <= len;
  ef_target : forall g, g ∈ segs -> u8 (p_type g) <> PT_NULL ->
    0xC0000000 <= p_vaddr g /\ p_vaddr g + p_filesz g <= 0xC0100000 /\ readable m (dst_of g) (p_filesz g) /\
    (dst_of g + p_filesz g <= KERNEL_BIN_BASE_ADDR \/ KERNEL_BIN_BASE_ADDR + len <= dst_of g)
}.

(** What the code makes of memory. *)
Definition load (m : gmap Z Z) (g : segment) : gmap Z Z :=
  if u8 (p_type g) =? PT_NULL then m else write_bytes m (dst_of g) (bytes_of m (src_of g) (Z.to_nat (p_filesz g))).

(** ** Lemmas *)

Lemma low_id a : a < 0xC0000000 -> low a = a.
Proof. intros H. unfold low. by replace (0xC0000000 <=? a) with false by lia. Qed.

Lemma low_high a : 0xC0000000 <= a < 0xC0100000 -> low a = a - 0xC0000000.
Proof. intros H. unfold low. by replace ((0xC0000000 <=? a) && (a <? 0xC0100000)) with true by lia. Qed.

Lemma lld8_ok s a b : a < 0x100000 -> ram s !! a = Some b -> lld8 a s = Ret (b, s).
Proof. intros Ha Hb. unfold lld8. rewrite low_id by lia. replace (a <? 0x100000) with true by lia. by apply ld8_ok. Qed.

Lemma lld32_ok s a v : a + 3 < 0x100000 -> word (ram s) a = Some v -> lld32 a s = Ret (v, s).
Proof. intros Ha Hv. unfold lld32. rewrite !low_id by lia. replace (a + 3 <? 0x100000) with true by lia. by apply ld32_ok. Qed.

Lemma lld16_ok s a l h : a + 1 < 0x100000 -> ram s !! a = Some l -> ram s !! (a + 1) = Some h ->
  lld16 a s = Ret (l + 2 ^ 8 * h, s).
Proof.
  intros Ha Hl Hh. unfold lld16. rewrite (bind_Ret _ _ _ _ _ (lld8_ok s a l ltac:(lia) Hl)).
  by rewrite (bind_Ret _ _ _ _ _ (lld8_ok s (a + 1) h ltac:(lia) Hh)).
Qed.

Lemma mem_cpy_loop n : forall s dst src, ram_ok (ram s) -> 0 <= src -> src + Z.of_nat n <= 0x100000 ->
  0xC0000000 <= dst -> dst + Z.of_nat n <= 0xC0100000 ->
  readable (ram s) src (Z.of_nat n) -> readable (ram s) (dst - 0xC0000000) (Z.of_nat n) ->
  (src + Z.of_nat n <= dst - 0xC0000000 \/ dst - 0xC0000000 + Z.of_nat n <= src) ->
  iter (S n) movsb_body (Z.of_nat n, src, dst) s =
    Ret (tt, set_ram (write_bytes (ram s) (dst - 0xC0000000) (bytes_of (ram s) src n)) s).
Proof.
  induction n as [|n IH]; intros s dst src Hok H1 H2 H3 H4 Hsrc Hdst Hap.
  - cbn [iter bytes_of seq fmap list_fmap write_bytes]. unfold movsb_body. cbn. by rewrite set_ram_id.
  - destruct (Hsrc src ltac:(lia)) as [b Hb]. pose proof (Hok _ _ Hb) as Hbr. cbv beta in Hbr.
    set (m1 := <[dst - 0xC0000000 := b]> (ram s)).
    rewrite (iter_S _ _ _ _ (inl (Z.of_nat n, src + 1, dst + 1)) (set_ram m1 s)).
    + rewrite IH; cbn [ram set_ram].
      * do 2 f_equal. rewrite set_ram_set_ram. f_equal. replace (dst + 1 - 0xC0000000) with (dst - 0xC0000000 + 1) by lia.
        unfold bytes_of. cbn [seq]. rewrite <- fmap_S_seq. cbn [fmap list_fmap write_bytes]. rewrite Z.add_0_r, Hb.
        f_equal. rewrite <- list_fmap_compose. apply list_fmap_ext. intros i k Hk. apply lookup_seq in Hk as [-> Hk].
        cbn. unfold m1. rewrite lookup_insert_ne by lia. do 2 f_equal. lia.
      * by apply ram_ok_insert.
      * lia.
      * lia.
      * lia.
      * lia.
      * intros a Ha. unfold m1. rewrite lookup_insert_ne by lia. apply Hsrc. lia.
      * intros a Ha. unfold m1. rewrite lookup_insert_ne by lia. apply Hdst. lia.
      * lia.
    + unfold movsb_body. replace (Z.of_nat (S n) =? 0) with false by lia.
      rewrite (bind_Ret _ _ _ _ _ (lld8_ok s src b ltac:(lia) Hb)). unfold lst8. rewrite low_high by lia.
      replace (dst - 0xC0000000 <? 0x100000) with true by lia.
      rewrite (bind_Ret _ _ _ _ _ (st8_ok s (dst - 0xC0000000) b (Hdst (dst - 0xC0000000) ltac:(lia)))), u8_id by done. unfold ret.
      rewrite !u32_id by lia. by replace (Z.of_nat (S n) - 1) with (Z.of_nat n) by lia.
Qed.

(** ** The result of loading *)

Lemma load_out m g a : ~ loaded_at g a -> 0 <= p_filesz g -> load m g !! a = m !! a.
Proof.
  intros Ha Hn. unfold load. destruct (Z.eqb_spec (u8 (p_type g)) PT_NULL) as [|Hne]; [done|].
  apply write_bytes_lookup_out. rewrite length_bytes_of. unfold loaded_at in Ha. lia.
Qed.

Lemma load_in m g a : loaded_at g a -> is_Some (m !! (src_of g + (a - dst_of g))) ->
  load m g !! a = m !! (src_of g + (a - dst_of g)).
Proof.
  intros [Ht Ha] Hs. unfold load. destruct (Z.eqb_spec (u8 (p_type g)) PT_NULL) as [|Hne]; [done|].
  rewrite write_bytes_of by (by right; right). by rewrite bool_decide_true by lia.
Qed.

Lemma load_stored m g : ram_ok m -> stored m (load m g).
Proof.
  intros Hm. unfold load. case_match; [apply stored_refl|]. apply write_bytes_stored, bytes_of_ok, Hm.
Qed.

Section loading.
  Context (m0 : gmap Z Z) (len phoff e : Z) (segs : list segment).
  Context (Hok : ram_ok m0) (Hfile : elf_file m0 len phoff e segs).
  #[local] Abbreviation image a := (KERNEL_BIN_BASE_ADDR <= a < KERNEL_BIN_BASE_ADDR + len).
  #[local] Abbreviation header_addr i := (KERNEL_BIN_BASE_ADDR + phoff + e * Z.of_nat i).

(** Memory after some of the segments: the file is still there. *)
Definition loading (m : gmap Z Z) : Prop := ram_ok m /\ stored m0 m /\ forall a, image a -> m !! a = m0 !! a.

Lemma not_image g a : g ∈ segs -> loaded_at g a -> ~ image a.
Proof. intros Hg [Ht Ha]. pose proof (ef_target _ _ _ _ _ Hfile g Hg Ht) as (_ & _ & _ & Hap). lia. Qed.

Lemma size_pos g : g ∈ segs -> u8 (p_type g) <> PT_NULL -> 0 <= p_filesz g.
Proof. intros Hg Ht. apply (ef_inside _ _ _ _ _ Hfile g Hg Ht). Qed.

Lemma load_same m g a : g ∈ segs -> ~ loaded_at g a -> load m g !! a = m !! a.
Proof.
  intros Hg Ha. destruct (decide (u8 (p_type g) = PT_NULL)) as [E|E].
  - unfold load. by replace (u8 (p_type g) =? PT_NULL) with true by lia.
  - apply load_out; [done|by apply size_pos].
Qed.

Lemma loading_step m g : loading m -> g ∈ segs -> loading (load m g).
Proof.
  intros (H1 & H2 & H3) Hg. pose proof (load_stored m g H1) as Hst. split; [by apply Hst|].
  split; [by eapply stored_trans|]. intros a Ha. rewrite load_same; [by apply H3|done|].
  intros Hl. exact (not_image g a Hg Hl Ha).
Qed.

Lemma loading_list l m : loading m -> (forall g, g ∈ l -> g ∈ segs) -> loading (foldl load m l).
Proof.
  revert m. induction l as [|g l IH]; intros m Hm Hl; cbn [foldl]; [done|].
  apply IH; [apply loading_step; [done|]|]; intros; apply Hl; set_solver.
Qed.

Lemma loading_word m a v : loading m -> image a -> image (a + 3) -> word m0 a = Some v -> word m a = Some v.
Proof. intros (_ & _ & Hm) H1 H3 <-. apply word_eq. intros i Hi. apply Hm. lia. Qed.

Lemma header_range i : (i < length segs)%nat ->
  KERNEL_BIN_BASE_ADDR <= header_addr i /\ header_addr i + e <= KERNEL_BIN_BASE_ADDR + len.
Proof.
  intros Hi. pose proof (ef_table _ _ _ _ _ Hfile). pose proof (ef_size _ _ _ _ _ Hfile) as (_ & _ & He).
  pose proof (ef_phoff _ _ _ _ _ Hfile) as [_ Hp]. nia.
Qed.

Lemma segment_ok i g s : segs !! i = Some g -> loading (ram s) ->
  segment_body e (Z.of_nat (length segs - i), header_addr i) s =
    Ret (if (S i =? length segs)%nat then inr tt else inl (Z.of_nat (length segs - S i), header_addr (S i)),
         set_ram (load (ram s) g) s).
Proof.
  intros Hg Hm. pose proof (lookup_lt_Some _ _ _ Hg) as Hi. pose proof (header_range i Hi) as [R1 R2].
  destruct (ef_headers _ _ _ _ _ Hfile i g Hg) as [P1 P2 P3 P4]. apply list_elem_of_lookup_2 in Hg.
  pose proof (ef_len _ _ _ _ _ Hfile) as [_ L2]. pose proof (ef_size _ _ _ _ _ Hfile) as (_ & _ & He).
  pose proof (ef_count _ _ _ _ _ Hfile) as (_ & _ & _ & Hn). cbv zeta in Hn.
  unfold KERNEL_BIN_BASE_ADDR in L2.
  assert (ram s !! header_addr i = Some (u8 (p_type g))) as Q1.
  { destruct Hm as (_ & _ & Hm). rewrite Hm by lia. exact P1. }
  unfold segment_body. rewrite (bind_Ret _ _ _ _ _ (lld8_ok s (header_addr i) _ ltac:(unfold KERNEL_BIN_BASE_ADDR in *; lia) Q1)).
  rewrite (bind_Ret _ _ _ tt (set_ram (load (ram s) g) s)).
  - unfold loop_. rewrite !u32_id by (unfold KERNEL_BIN_BASE_ADDR in *; lia).
    destruct (Nat.eqb_spec (S i) (length segs)) as [E|E].
    + by replace (Z.of_nat (length segs - i) - 1 =? 0) with true by lia.
    + replace (Z.of_nat (length segs - i) - 1 =? 0) with false by lia. unfold ret. do 4 f_equal; lia.
  - unfold load. destruct (Z.eqb_spec (u8 (p_type g)) PT_NULL) as [Ht|Ht]; [by rewrite set_ram_id|].
    pose proof (ef_inside _ _ _ _ _ Hfile g Hg Ht) as (I1 & I2 & I3).
    pose proof (ef_target _ _ _ _ _ Hfile g Hg Ht) as (T1 & T2 & T3 & T4).
    assert (forall k v, 0 <= k <= 28 -> word m0 (header_addr i + k) = Some v ->
      lld32 (header_addr i + k) s = Ret (v, s)) as Hw.
    { intros k v Hk Hv. apply lld32_ok; [unfold KERNEL_BIN_BASE_ADDR in *; lia|]. apply loading_word; [done|lia|lia|done]. }
    rewrite (bind_Ret _ _ _ _ _ (Hw 16 _ ltac:(lia) P4)), (bind_Ret _ _ _ _ _ (Hw 4 _ ltac:(lia) P2)).
    rewrite (bind_Ret _ _ _ _ _ (Hw 8 _ ltac:(lia) P3)). rewrite u32_id by (unfold KERNEL_BIN_BASE_ADDR in *; lia).
    unfold mem_cpy, dst_of, src_of in *. destruct (decide (p_filesz g = 0)) as [E|E].
    { rewrite E. transitivity (Ret (tt, set_ram (ram s) s)); [by rewrite set_ram_id|done]. }
    rewrite low_high in * by lia. destruct Hm as (Hr1 & Hr2 & Hr3).
    replace (p_filesz g) with (Z.of_nat (Z.to_nat (p_filesz g))) at 2 by lia.
    rewrite Z.add_comm. apply mem_cpy_loop; rewrite ?Z2Nat.id by lia; unfold KERNEL_BIN_BASE_ADDR in *; try lia; [done| |].
    + intros a Ha. destruct (ef_bytes _ _ _ _ _ Hfile a) as [b Hb]; [unfold KERNEL_BIN_BASE_ADDR; lia|].
      apply Hr2. eauto.
    + apply (stored_readable m0); [exact Hr2|exact T3].
Qed.

Lemma segments_loop rest : forall k s fuel, segs = take k segs ++ rest -> rest <> [] -> k = length (take k segs) ->
  ram s = foldl load m0 (take k segs) -> (length rest <= fuel)%nat ->
  iter fuel (segment_body e) (Z.of_nat (length segs - k), header_addr k) s = Ret (tt, set_ram (foldl load m0 segs) s).
Proof.
  induction rest as [|g rest IH]; intros k s fuel Hsp Hne Hk Hs Hf; [done|]. destruct fuel as [|fuel]; [cbn in Hf; lia|].
  assert (segs !! k = Some g) as Hg by (rewrite Hsp; by apply list_lookup_middle).
  assert (take (S k) segs = take k segs ++ [g]) as Htk by (by apply take_S_r).
  assert (loading (ram s)) as Hm.
  { rewrite Hs. apply loading_list; [split; [done|]; split; [apply stored_refl|done]|].
    intros x Hx. rewrite Hsp. set_solver. }
  rewrite (iter_S _ _ _ _ _ _ (segment_ok k g s Hg Hm)).
  assert (load (ram s) g = foldl load m0 (take (S k) segs)) as Hload by (by rewrite Htk, foldl_app, Hs).
  destruct (Nat.eqb_spec (S k) (length segs)) as [E|E].
  - rewrite Hload, E. rewrite firstn_all. done.
  - rewrite (IH (S k) (set_ram (load (ram s) g) s) fuel).
    + by rewrite set_ram_set_ram.
    + rewrite Htk, <- app_assoc. exact Hsp.
    + intros ->. apply E. rewrite Hsp, length_app, <- Hk. cbn. lia.
    + rewrite Htk, length_app, <- Hk. cbn. lia.
    + exact Hload.
    + cbn in Hf. lia.
Qed.

Lemma KernelInit_run s fuel ecx : ram s = m0 -> 0 <= ecx < 2 ^ 16 -> (length segs <= fuel)%nat ->
  KernelInit fuel ecx s = Ret (tt, set_ram (foldl load m0 segs) s).
Proof.
  intros Hs Hecx Hf. pose proof Hfile as [[L1 L2] _ F3 [F4 F5] [F6 F7] (F8 & F9 & F10) (F11 & F12 & F13) F14 _ _ _].
  unfold KernelInit. unfold KERNEL_BIN_BASE_ADDR in L2. rewrite <- Hs in F3, F4, F5, F6, F8, F11, F12.
  assert (e / 256 < 256) as He.
  { pose proof (Hok _ _ F9). cbv beta in *. lia. }
  cbv zeta in *. rewrite <- Hs in F9.
  rewrite (bind_Ret _ _ _ _ _ (lld32_ok s KERNEL_BIN_BASE_ADDR _ ltac:(done) F3)). cbn [Z.eqb Pos.eqb negb].
  rewrite (bind_Ret _ _ _ _ _ (lld8_ok s (KERNEL_BIN_BASE_ADDR + 4) _ ltac:(done) F4)). cbn [Z.eqb Pos.eqb negb].
  rewrite (bind_Ret _ _ _ _ _ (lld8_ok s (KERNEL_BIN_BASE_ADDR + 5) _ ltac:(done) F5)). cbn [Z.eqb Pos.eqb negb].
  rewrite (bind_Ret _ _ _ _ _ (lld32_ok s (KERNEL_BIN_BASE_ADDR + 28) _ ltac:(done) F6)).
  rewrite (bind_Ret _ _ _ _ _ (lld16_ok s (KERNEL_BIN_BASE_ADDR + 42) _ _ ltac:(done) F8 F9)).
  rewrite (bind_Ret _ _ _ _ _ (lld16_ok s (KERNEL_BIN_BASE_ADDR + 44) _ _ ltac:(done) F11 F12)).
  assert (Z.land ecx 0xFFFF0000 = 0) as ->.
  { change 0xFFFF0000 with (Z.shiftl 0xFFFF 16). apply Z.bits_inj'. intros k Hk. rewrite Z.land_spec, Z.bits_0, Z.shiftl_spec by done.
    destruct (decide (k < 16)); [rewrite (Z.testbit_neg_r _ (k - 16)) by lia; by rewrite andb_false_r|].
    replace ecx with (ecx mod 2 ^ 16) by (apply Z.mod_small; lia). by rewrite Z.mod_pow2_bits_high by lia. }
  cbn [Z.lor]. assert (0 < length segs)%nat as Hpos by lia.
  pose proof (segments_loop segs 0 s fuel eq_refl) as Hloop. cbn [take length foldl] in Hloop.
  rewrite u32_id by (pose proof (header_range 0 ltac:(lia)); unfold KERNEL_BIN_BASE_ADDR in *; lia).
  replace (Z.of_nat (length segs) mod 256 + 2 ^ 8 * (Z.of_nat (length segs) / 256)) with (Z.of_nat (length segs - 0))
    by (Z.to_euclidean_division_equations; lia).
  replace (phoff + KERNEL_BIN_BASE_ADDR) with (header_addr 0) by lia.
  replace (e mod 256 + 2 ^ 8 * (e / 256)) with e by (Z.to_euclidean_division_equations; lia).
  apply Hloop; [|done|done|done]. clear -Hpos. destruct segs; [cbn in Hpos; lia|done].
Qed.

(** Memory after all segments, byte by byte. *)
Lemma loaded_out l a : (forall g, g ∈ l -> g ∈ segs /\ ~ loaded_at g a) -> forall m, foldl load m l !! a = m !! a.
Proof.
  induction l as [|g l IH]; intros Hl m; cbn [foldl]; [done|].
  rewrite IH by (intros x Hx; apply Hl; set_solver). destruct (Hl g ltac:(set_solver)) as [H1 H2]. by apply load_same.
Qed.

Lemma loaded_in i g a : segs !! i = Some g -> loaded_at g a ->
  (forall j g', segs !! j = Some g' -> loaded_at g' a -> j = i) ->
  foldl load m0 segs !! a = m0 !! (src_of g + (a - dst_of g)).
Proof.
  intros Hg Ha Hone. pose proof (list_elem_of_split_length segs i g Hg) as (l1 & l2 & Hsp & Hi).
  assert (loading (foldl load m0 l1)) as (Hm1 & Hm2 & Hm3).
  { apply loading_list; [split; [done|]; split; [apply stored_refl|done]|]. intros x Hx. rewrite Hsp. set_solver. }
  pose proof (list_elem_of_lookup_2 _ _ _ Hg) as Hin. destruct Ha as [Ht Ha].
  pose proof (ef_inside _ _ _ _ _ Hfile g Hin Ht) as (I1 & I2 & I3). unfold src_of in *.
  rewrite Hsp, foldl_app. cbn [foldl]. rewrite loaded_out.
  - rewrite load_in; [apply Hm3; lia|by split|]. apply Hm2, (ef_bytes _ _ _ _ _ Hfile). unfold src_of. lia.
  - intros x Hx. split; [rewrite Hsp; set_solver|]. intros Hl. apply list_elem_of_lookup in Hx as [k Hk].
    assert (segs !! (S (i + k)) = Some x) as Hx.
    { rewrite Hsp, Hi. rewrite lookup_app_r by lia. by replace (S (length l1 + k) - length l1)%nat with (S k) by lia. }
    specialize (Hone _ _ Hx Hl). lia.
Qed.

End loading.

(** C27: [KernelInit] on an ELF file at 0x60000 whose segments go to the first megabyte, outside of the
    file and apart from each other: it returns, every byte of every segment (of every type but the null
    one) is at its address, and all other memory is as before, the .bss behind a segment's bytes in the
    file included: it is not cleared. *)
Theorem KernelInit_loads s len phoff e segs fuel ecx : ram_ok (ram s) -> elf_file (ram s) len phoff e segs ->
  (forall i j g g' a, segs !! i = Some g -> segs !! j = Some g' -> loaded_at g a -> loaded_at g' a -> j = i) ->
  0 <= ecx < 2 ^ 16 -> (length segs <= fuel)%nat ->
  exists m, KernelInit fuel ecx s = Ret (tt, set_ram m s) /\
    (forall g, g ∈ segs -> u8 (p_type g) <> PT_NULL -> forall k, 0 <= k < p_filesz g ->
       m !! (dst_of g + k) = ram s !! (KERNEL_BIN_BASE_ADDR + p_offset g + k)) /\
    (forall a, (forall g, g ∈ segs -> ~ loaded_at g a) -> m !! a = ram s !! a).
Proof.
  intros Hok Hfile Hone Hecx Hf. exists (foldl load (ram s) segs).
  pose proof (KernelInit_run _ _ _ _ _ Hok Hfile s fuel ecx eq_refl Hecx Hf) as Hrun. split; [exact Hrun|].
  assert (forall a, (forall g, g ∈ segs -> ~ loaded_at g a) -> foldl load (ram s) segs !! a = ram s !! a) as Hout.
  { intros a Ha. apply (loaded_out _ _ _ _ _ Hok Hfile). intros g Hg. split; [done|by apply Ha]. }
  split; [|exact Hout].
  intros g Hg Ht k Hk. apply list_elem_of_lookup in Hg as [i Hg].
  assert (loaded_at g (dst_of g + k)) as Ha by (split; [done|lia]).
  rewrite (loaded_in _ _ _ _ _ Hok Hfile i g _ Hg Ha).
  - f_equal. unfold src_of. lia.
  - intros j g' Hj Ha'. by apply (Hone i j g g' (dst_of g + k)).
Qed.

(** A file without the magic number is refused with the message. *)
Lemma KernelInit_rejects s fuel ecx v : word (ram s) KERNEL_BIN_BASE_ADDR = Some v -> v <> 0x464c457f ->
  readable (ram s) 0xB8000 40 -> KernelInit fuel ecx s = Halt.
Proof.
  intros Hv Hne Hr. unfold KernelInit. rewrite (bind_Ret _ _ _ _ _ (lld32_ok s KERNEL_BIN_BASE_ADDR _ ltac:(done) Hv)).
  replace (v =? 0x464c457f) with false by lia. cbn [negb]. unfold FatalKernelBroken.
  assert (forall l s', readable (ram s') 0xB8000 40 -> Forall (fun p => 0 <= p.1 < 40) l ->
    exists s2, foldr (fun '(off, b) k => lst8 (0xC00B8000 + off) b ;;; k) (ret tt) l s' = Ret (tt, s2)) as Hl.
  { clear. induction l as [|[off b] l IH]; intros s' Hr Hl; [by exists s'|]. apply Forall_cons in Hl as [Hoff Hl]. cbn in Hoff.
    cbn [foldr]. unfold lst8. rewrite low_high by lia. replace (_ <? 0x100000) with true by lia.
    rewrite (bind_Ret _ _ _ _ _ (st8_ok s' (0xC00B8000 + off - 0xC0000000) b (Hr (0xC00B8000 + off - 0xC0000000) ltac:(lia)))).
    apply IH; [|done]. intros a Ha. cbn [ram set_ram]. rewrite lookup_insert. case_decide; [eauto|by apply Hr]. }
  destruct (Hl fatal_bytes s Hr) as [s2 Hs2]; [unfold fatal_bytes; repeat constructor; cbn; lia|].
  by rewrite (bind_Ret _ _ _ _ _ Hs2).
Qed.

(** ** Example: a null header and a segment of 8 bytes for 0xC0001500 *)
Definition demo_elf : list Z :=
  [127; 69; 76; 70; 1; 1] ++ replicate 22 0 ++ [52; 0; 0; 0] ++ replicate 10 0 ++ [32; 0; 2; 0] ++ replicate 6 0 ++
  replicate 32 0 ++
  [1; 0; 0; 0; 116; 0; 0; 0; 0; 0x15; 0; 0xC0; 0; 0; 0; 0; 8; 0; 0; 0; 16; 0; 0; 0] ++ replicate 8 0 ++
  [11; 12; 13; 14; 15; 16; 17; 18].
Definition demo_segments : list segment := [Segment 0 0 0 0; Segment 1 116 0xC0001500 8].
Definition demo_memory : gmap Z Z := write_bytes (write_bytes ∅ 0x1500 (replicate 16 255)) KERNEL_BIN_BASE_ADDR demo_elf.

Lemma demo_elf_file : elf_file demo_memory 124 52 32 demo_segments.
Proof.
  constructor.
  - split; [lia|zdec].
  - apply (bytes_at_readable _ _ demo_elf), write_bytes_at.
  - vm_compute. reflexivity.
  - split; vm_compute; reflexivity.
  - split; [vm_compute; reflexivity|lia].
  - split_and!; [vm_compute; reflexivity|vm_compute; reflexivity|lia].
  - cbv zeta. split_and!; [vm_compute; reflexivity|vm_compute; reflexivity|cbn; lia|cbn; lia].
  - cbn. lia.
  - intros [|[|i]] g Hg; cbn in Hg; [| |done]; injection Hg as <-; constructor; vm_compute; reflexivity.
  - intros g Hg Ht. apply elem_of_cons in Hg as [->|[->|[]%elem_of_nil]%elem_of_cons]; [done|cbn; lia].
  - intros g Hg Ht. apply elem_of_cons in Hg as [->|[->|[]%elem_of_nil]%elem_of_cons]; [done|].
    split; [zdec|]. split; [zdec|]. split; [|left; zdec].
    unfold demo_memory. apply write_bytes_readable. change (dst_of _) with 0x1500. cbn [p_filesz].
    apply (readable_le _ 0x1500 16); [|lia|lia]. apply (write_bytes_region ∅ 0x1500 (replicate 16 255)).
Qed.

Lemma KernelInit_loads_witness : exists m, KernelInit 2 0 (Machine demo_memory 2 [] []) = Ret (tt, Machine m 2 [] []) /\
  m !! 0x1507 = Some 18 /\ m !! 0x1508 = Some 255.
Proof.
  destruct (KernelInit_loads (Machine demo_memory 2 [] []) 124 52 32 demo_segments 2 0) as (m & H1 & H2 & H3).
  - apply write_bytes_ok; [apply write_bytes_ok; [apply ram_ok_empty|apply Forall_replicate; lia]|].
    unfold demo_elf. repeat (apply Forall_app; split); try (apply Forall_replicate; lia); repeat constructor; lia.
  - exact demo_elf_file.
  - assert (forall i g a, demo_segments !! i = Some g -> loaded_at g a -> i = 1%nat) as Hall.
    { intros [|[|i]] g a Hg [Ht _]; cbn in Hg; [|done|done]. injection Hg as <-. by destruct Ht. }
    intros i j g g' a Hg Hg' Ha Ha'. by rewrite (Hall i g a Hg Ha), (Hall j g' a Hg' Ha').
  - lia.
  - cbn. lia.
  - exists m. split; [exact H1|]. split.
    + pose proof (H2 (Segment 1 116 0xC0001500 8) ltac:(right; left) ltac:(done) 7 ltac:(cbn; lia)) as E.
      change (dst_of _ + 7) with 0x1507 in E. rewrite E. vm_compute. reflexivity.
    + rewrite H3; [vm_compute; reflexivity|]. intros g Hg [Ht Ha].
      apply elem_of_cons in Hg as [->|[->|[]%elem_of_nil]%elem_of_cons]; [by destruct Ht|].
      change (dst_of _) with 0x1500 in Ha. cbn in Ha. lia.
Defined.
