(* ===== verification/Syscall.v ===== *)
(** * lib/user/syscall.c, lib/user/syscall-init.c and the handler of interrupt 0x80 (kernel/kernel.S)

    A system call is an [int $0x80] with the number in eax and the arguments in ebx, ecx and edx.  The
    gate is an interrupt gate, so the handler runs with interrupts off; [iretd] restores the flags.
    The registers a call does not set hold what they hold: the parameters [ebx0], [ecx0], [edx0]. *)
From stdpp Require Import base list gmap strings.
From S2P Require Import Prelude Machine CString Bitmap Print Interrupt KList Paging State Sched Sync Pool.
From S2P Require Import Palloc Arena Heap Malloc MemInit Console.

Definition syscall_nr : Z := 32.
Definition SYS_WRITE : Z := 0.
Definition SYS_GETPID : Z := 1.
Definition SYS_MALLOC : Z := 2.
Definition SYS_FREE : Z := 3.

(** What an entry of [syscall_table] can point to; an entry not set is NULL. *)
Inductive syscall := Sys_write | Sys_getpid | Sys_malloc | Sys_free.
Definition table := list (option syscall).
Definition empty_table : table := replicate (Z.to_nat syscall_nr) None.

Definition SyscallInit (syscall_table : table) : M machine table :=
  let* _ := sys_putstr "syscall init start.." in
  let syscall_table := <[Z.to_nat SYS_GETPID := Some Sys_getpid]> syscall_table in
  let syscall_table := <[Z.to_nat SYS_WRITE := Some Sys_write]> syscall_table in
  let syscall_table := <[Z.to_nat SYS_MALLOC := Some Sys_malloc]> syscall_table in
  let syscall_table := <[Z.to_nat SYS_FREE := Some Sys_free]> syscall_table in
  let* _ := sys_putline " done" in
  ret syscall_table.

Definition sys_getpid : M kernel Z :=
  let* p := GetCurrentThreadPCB in
  let* c := get_pcb p in
  ret (pid c).

Section syscalls.
  Context `{Env}.
  Variable kernel_arena_descs : Z.
  (* the loop bounds of locks, strings and free lists *)
  Context (fuel : nat).

Definition sys_write (str : Z) : M kernel Z := console_putstr fuel fuel str.

(** The call through the table; [sys_free] leaves no result in eax. *)
Definition call_entry (e : syscall) (ebx : Z) : M kernel (option Z) :=
  match e with
  | Sys_write => let* r := sys_write ebx in ret (Some r)
  | Sys_getpid => let* r := sys_getpid in ret (Some r)
  | Sys_malloc => let* r := sys_malloc kernel_arena_descs fuel ebx in ret (Some r)
  | Sys_free => sys_free fuel ebx ;;; ret None
  end.

(** The number is not compared with [syscall_nr]: a NULL entry, or the memory behind the table, is
    called all the same; the model stops there. *)
Definition syscall_handler (syscall_table : table) (eax ebx ecx edx : Z) : M kernel (option Z) :=
  match syscall_table !! Z.to_nat eax with
  | Some (Some e) => call_entry e ebx
  | _ => fault (4 * eax)
  end.

Definition int_0x80 (syscall_table : table) (eax ebx ecx edx : Z) : M kernel (option Z) :=
  let* s := get in
  modify (fun s => set_mach (masked (mach s)) s) ;;;
  let* r := syscall_handler syscall_table eax ebx ecx edx in
  modify (fun s' => set_mach (set_eflags (eflags (mach s)) (mach s')) s') ;;;
  ret r.

Context (syscall_table : table) (ebx0 ecx0 edx0 : Z).

Definition getpid : M kernel (option Z) := int_0x80 syscall_table SYS_GETPID ebx0 ecx0 edx0.
Definition write (str : Z) : M kernel (option Z) := int_0x80 syscall_table SYS_WRITE str ecx0 edx0.
Definition malloc (bytes : Z) : M kernel (option Z) := int_0x80 syscall_table SYS_MALLOC bytes ecx0 edx0.
Definition free (p : Z) : M kernel unit :=
  let* _ := int_0x80 syscall_table SYS_FREE p ecx0 edx0 in
  ret tt.

End syscalls.

(** ** The calls *)

(** The table [SyscallInit] makes. *)
Definition full_table : table :=
  [Some Sys_write; Some Sys_getpid; Some Sys_malloc; Some Sys_free] ++ replicate 28 None.

Lemma SyscallInit_ok c : exists t, SyscallInit empty_table c = Ret (full_table, set_tty t c).
Proof.
  assert (says (sys_putstr "syscall init start..")) as H1 by (unfold sys_putstr; says_literal).
  assert (says (sys_putline " done")) as H2 by (unfold sys_putline; says_literal).
  destruct (H1 c) as (a & t1 & E1). destruct (H2 (set_tty t1 c)) as (b & t2 & E2).
  exists t2. unfold SyscallInit. rewrite (bind_Ret _ _ _ _ _ E1), (bind_Ret _ _ _ _ _ E2). done.
Qed.

Definition quiet (s : kernel) : kernel := set_mach (masked (mach s)) s.

Section calls.
  Context `{Env}.
  Variable kernel_arena_descs : Z.
  Context (fuel : nat) (ebx0 ecx0 edx0 : Z).

(** A call whose function returns. *)
Lemma int_0x80_ok eax ebx ecx edx e s r s' : full_table !! Z.to_nat eax = Some (Some e) ->
  call_entry kernel_arena_descs fuel e ebx (quiet s) = Ret (r, s') ->
  int_0x80 kernel_arena_descs fuel full_table eax ebx ecx edx s =
    Ret (r, set_mach (set_eflags (eflags (mach s)) (mach s')) s').
Proof.
  intros He Hrun. unfold int_0x80. rewrite (bind_Ret get _ _ _ _ eq_refl).
  rewrite (bind_Ret _ _ s tt (quiet s)) by done. unfold syscall_handler. rewrite He.
  by rewrite (bind_Ret _ _ _ _ _ Hrun).
Qed.

Lemma unquiet_mem m g s : let s' := with_mem m g (quiet s) in
  set_mach (set_eflags (eflags (mach s)) (mach s')) s' = with_mem m g s.
Proof. destruct s as [ma]. by destruct ma. Qed.

Lemma heap_of_quiet s c V ar fl : heap_of kernel_arena_descs s c V ar fl ->
  heap_of kernel_arena_descs (quiet s) c V ar fl.
Proof.
  intros [H1 H2 H3 H4 H5]. constructor; try done. unfold pool_for in *. destruct (PDE_addr c =? 0).
  - unfold space_of in *. cbn in *. injection H3 as <-. done.
  - unfold space_of, bind, GetCurrentThreadPCB, get_pcb in *. cbn [quiet pcbs set_mach esp] in *.
    destruct (pcbs s !! _); [|done]. by injection H3 as <-.
Qed.

(** And back: the flags are no part of the heap. *)
Lemma heap_of_loud s c V ar fl m g : heap_of kernel_arena_descs (with_mem m g (quiet s)) c V ar fl ->
  heap_of kernel_arena_descs (with_mem m g s) c V ar fl.
Proof.
  intros [H1 H2 H3 H4 H5]. constructor; try done. unfold pool_for in *. destruct (PDE_addr c =? 0).
  - unfold space_of in *. cbn in *. injection H3 as <-. done.
  - unfold space_of, bind, GetCurrentThreadPCB, get_pcb in *.
    cbn [quiet with_mem pcbs set_mach set_pg esp] in *. destruct (pcbs s !! _); [|done]. by injection H3 as <-.
Qed.

Lemma malloc_ok s c V ar fl size : heap_of kernel_arena_descs s c V ar fl ->
  0 < size <= 1024 -> size < pool_size (pool_of (pool_for c) (mem s)) -> (255 < fuel)%nat ->
  (forall k, class_of size k -> fl k = [] ->
     (exists r0, 0 <= r0 < space_bits V /\ bit (ram (mach s)) (vaddr_bitmap V) r0 = false) /\
     enough_frames (mem s) (ram (mach s)) (pool_for c) 1) ->
  exists i x m' pg' ar' fl', malloc kernel_arena_descs fuel full_table ecx0 edx0 size s = Ret (Some x, with_mem m' pg' s) /\
    class_of size i /\ heap_of kernel_arena_descs (with_mem m' pg' s) c V ar' fl' /\
    taken (mem s) V (pool_for c) (ram (mach s)) m' ar ar' fl fl' i x.
Proof.
  intros Hh Hs1 Hs2 Hf2 Hroom.
  destruct (sys_malloc_ok kernel_arena_descs fuel (quiet s) c V ar fl size (heap_of_quiet _ _ _ _ _ Hh) Hs1 Hs2 Hf2 Hroom)
    as (i & x & m' & pg' & ar' & fl' & Hrun & R1 & R2 & R3).
  exists i, x, m', pg', ar', fl'. split_and!; [|done|by apply heap_of_loud|done].
  unfold malloc. rewrite (int_0x80_ok _ _ _ _ Sys_malloc s (Some x) (with_mem m' pg' (quiet s)));
    [by rewrite unquiet_mem|done|]. cbn [call_entry]. by rewrite (bind_Ret _ _ _ _ _ Hrun).
Qed.

Lemma free_ok s c V ar fl k p : heap_of kernel_arena_descs s c V ar fl ->
  (PDE_addr c = 0 -> KERNEL_HEAP_BASE <= vaddr_start V) -> live V ar fl k p -> (length (fl k) + 1 < fuel)%nat ->
  exists m' pg' ar' fl', free kernel_arena_descs fuel full_table ecx0 edx0 p s = Ret (tt, with_mem m' pg' s) /\
    heap_of kernel_arena_descs (with_mem m' pg' s) c V ar' fl' /\
    freed (mem s) V (pool_for c) (ram (mach s)) m' ar ar' fl fl' k p.
Proof.
  intros Hh Hbase Hlive Hf3.
  destruct (sys_free_ok kernel_arena_descs fuel (quiet s) c V ar fl k p (heap_of_quiet _ _ _ _ _ Hh) Hlive Hf3 Hbase)
    as (m' & pg' & ar' & fl' & Hrun & R1 & R2).
  exists m', pg', ar', fl'. split_and!; [|by apply heap_of_loud|done].
  unfold free. rewrite (bind_Ret _ _ s None (with_mem m' pg' s)); [done|].
  rewrite (int_0x80_ok _ _ _ _ Sys_free s None (with_mem m' pg' (quiet s))); [by rewrite unquiet_mem|done|].
  cbn [call_entry]. by rewrite (bind_Ret _ _ _ _ _ Hrun).
Qed.

Lemma getpid_ok s c : pcbs s !! cur s = Some c ->
  getpid kernel_arena_descs fuel full_table ebx0 ecx0 edx0 s = Ret (Some (pid c), s).
Proof.
  intros Hc. unfold getpid. rewrite (int_0x80_ok _ _ _ _ Sys_getpid s (Some (pid c)) (quiet s)).
  - do 2 f_equal. destruct s as [ma]. by destruct ma.
  - done.
  - cbn [call_entry]. unfold sys_getpid, bind, GetCurrentThreadPCB, get_pcb. cbn [quiet pcbs set_mach esp].
    fold (cur s). by rewrite Hc.
Qed.

(** C25: the stubs of lib/user/syscall.c, through [int $0x80] and the table that [SyscallInit] makes:
    [getpid] returns the identifier of the running thread; [write] prints the string, whoever calls
    it, and returns its length; [malloc] returns a block of the smallest class large enough, zeroed
    and not in use before, from the heap of the caller; [free] takes a block out of use; each gives
    the interrupt flag back as it was. *)
Theorem syscalls_correct s c str l V ar fl size t0 :
  pcbs s !! cur s = Some c -> lock_mine console_lock s -> cstring (ram (mach s)) str l -> (length l < fuel)%nat ->
  heap_of kernel_arena_descs s c V ar fl ->
  0 < size <= 1024 -> size < pool_size (pool_of (pool_for c) (mem s)) -> (255 < fuel)%nat ->
  (forall k, class_of size k -> fl k = [] ->
     (exists r0, 0 <= r0 < space_bits V /\ bit (ram (mach s)) (vaddr_bitmap V) r0 = false) /\
     enough_frames (mem s) (ram (mach s)) (pool_for c) 1) ->
  (PDE_addr c = 0 -> KERNEL_HEAP_BASE <= vaddr_start V) ->
  exists t m1, SyscallInit empty_table t0 = Ret (t, m1) /\
    getpid kernel_arena_descs fuel t ebx0 ecx0 edx0 s = Ret (Some (pid c), s) /\
    write kernel_arena_descs fuel t ecx0 edx0 str s =
      Ret (Some (Z.of_nat (length l)), set_mach (set_tty (reverse l ++ tty (mach s)) (mach s)) s) /\
    (exists i x m' pg' ar' fl', malloc kernel_arena_descs fuel t ecx0 edx0 size s = Ret (Some x, with_mem m' pg' s) /\
       class_of size i /\ heap_of kernel_arena_descs (with_mem m' pg' s) c V ar' fl' /\
       taken (mem s) V (pool_for c) (ram (mach s)) m' ar ar' fl fl' i x) /\
    (forall k p, live V ar fl k p -> (length (fl k) + 1 < fuel)%nat ->
       exists m' pg' ar' fl', free kernel_arena_descs fuel t ecx0 edx0 p s = Ret (tt, with_mem m' pg' s) /\
       heap_of kernel_arena_descs (with_mem m' pg' s) c V ar' fl' /\ freed (mem s) V (pool_for c) (ram (mach s)) m' ar ar' fl fl' k p).
Proof.
  intros Hc Hl Hstr Hf Hh Hs1 Hs2 Hf2 Hroom Hbase.
  destruct (SyscallInit_ok t0) as (t & Hi). exists full_table, (set_tty t t0). split; [exact Hi|].
  split_and!.
  - by apply getpid_ok.
  - unfold write. erewrite (int_0x80_ok _ _ _ _ Sys_write); [|done|].
    2:{ cbn [call_entry]. unfold sys_write. destruct fuel as [|f]; [lia|].
        erewrite bind_Ret; [reflexivity|]. unfold console_putstr, ConsoleLockAcquire, ConsoleLockRelease.
        rewrite (bracket_ok _ _ _ ret (quiet s) Hl), bind_ret_r.
        apply on_mach_ok, sys_putstr_at_ok; [exact Hstr|lia]. }
    destruct s as [ma]. destruct ma. reflexivity.
  - by apply malloc_ok.
  - intros k p. by apply free_ok.
Qed.

End calls.

(** The small machine of MemInit.v, with a console and an empty string in memory. *)
Lemma heap_of_console D s c V ar fl : heap_of D s c V ar fl ->
  heap_of D (with_lock console_lock free_lock s) c V ar fl.
Proof.
  intros [H1 H2 H3 H4 H5]. constructor; try done; [by apply space_of_locks|].
  unfold with_lock. cbn [locks set_locks]. rewrite lookup_insert_ne; [done|]. by destruct (pool_for c).
Qed.

(** The size of the first class, 16, read as a string of one character. *)
Lemma class_size_string D ps V m pg : heap_ok D ps V KERNEL_POOL m pg ∅ no_blocks -> cstring m D [16].
Proof.
  intros Hh. pose proof (co_size _ _ _ _ (ho_classes _ _ _ _ _ _ _ _ Hh 0 ltac:(lia))) as Hw.
  destruct (ho_range _ _ _ _ _ _ _ _ Hh) as [Hd1 Hd2].
  pose proof (proj1 (mo_bitmap _ _ _ _ (ho_mem _ _ _ _ _ _ _ _ Hh) None)) as Hram.
  rewrite Z.mul_0_r, Z.add_0_r in Hw. change (bsize 0) with 16 in Hw. unfold word in Hw.
  destruct (m !! D) as [b0|] eqn:E0, (m !! (D + 1)) as [b1|] eqn:E1, (m !! (D + 2)) as [b2|] eqn:E2,
    (m !! (D + 3)) as [b3|] eqn:E3; try done. injection Hw as Hw.
  apply Hram in E0 as R0, E1 as R1, E2 as R2, E3 as R3.
  assert (b0 = 16 /\ b1 = 0) as [-> ->] by lia.
  split_and!; [|by constructor|done|cbn; unfold sizeof_arena_desc in Hd2; lia].
  apply bytes_at_cons. split; [done|]. apply bytes_at_cons. split; [done|]. by intros i b.
Qed.

Lemma syscalls_correct_witness : exists s t x m' pg',
  getpid (H := demo_env) boot_descs 256 t 0 0 0 s = Ret (Some 1, s) /\
  malloc (H := demo_env) boot_descs 256 t 0 0 100 s = Ret (Some x, with_mem m' pg' s).
Proof.
  destruct boot_state as (s0 & Hh0 & Hps & Hbase & Hb & Hf).
  set (s := with_lock console_lock free_lock s0).
  pose proof (heap_of_console _ _ _ _ _ _ Hh0) as Hh. fold s in Hh.
  pose proof (class_size_string _ _ _ _ _ (hf_heap _ _ _ _ _ _ Hh)) as Hstr.
  destruct (syscalls_correct (H := demo_env) boot_descs 256 0 0 0 s boot_thread boot_descs [16] boot_space ∅ no_blocks 100 (mach s))
    as (t & m1 & _ & H1 & _ & (i & x & m' & pg' & ar' & fl' & H2 & _) & _).
  - exact (hf_pcb _ _ _ _ _ _ Hh).
  - split; [exact (hf_cur _ _ _ _ _ _ Hh)|left; apply with_lock_lookup].
  - exact Hstr.
  - cbn. lia.
  - exact Hh.
  - lia.
  - change (mem s) with (mem s0). rewrite Hps. zdec.
  - lia.
  - intros k _ _. split; [|apply (Hf 1%nat); lia]. exists 0. split; [zdec|]. apply Hb. lia.
  - intros _. exact Hbase.
  - exists s, t, x, m', pg'. split; [exact H1|exact H2].
Defined.
