(* ===== verification/Tss.v ===== *)
(** * userprog/tss.c: the task state segment and the descriptors of user code and data

    The segment and the descriptor table are byte memory; [esp0] of the segment is the field of the
    kernel's state that [UpdateTssEsp] writes.  [TssInit] returns what [lgdt] and [ltr] load. *)
From stdpp Require Import base list gmap strings.
From S2P Require Import Prelude Machine CString Bitmap Print Interrupt KList Paging State Sched Sync Pool.
From S2P Require Import Palloc Arena Heap Malloc MemInit.

(** ** Constants of kernel/global.h *)
Definition DESC_G_4K : Z := 1.
Definition DESC_D_32 : Z := 1.
Definition DESC_L : Z := 0.
Definition DESC_AVL : Z := 0.
Definition DESC_P : Z := 1.
Definition DESC_DPL_0 : Z := 0.
Definition DESC_DPL_3 : Z := 3.
Definition DESC_S_CODE : Z := 1.
Definition DESC_S_DATA : Z := DESC_S_CODE.
Definition DESC_S_SYS : Z := 0.
Definition DESC_TYPE_CODE : Z := 8.
Definition DESC_TYPE_DATA : Z := 2.
Definition DESC_TYPE_TSS : Z := 9.
Definition RPL0 : Z := 0.
Definition RPL3 : Z := 3.
Definition TI_GDT : Z := 0.
Definition SELECTOR_K_DATA : Z := Z.shiftl 2 3 + Z.shiftl TI_GDT 2 + RPL0.
Definition SELECTOR_K_STACK : Z := SELECTOR_K_DATA.
Definition SELECTOR_U_CODE : Z := Z.shiftl 5 3 + Z.shiftl TI_GDT 2 + RPL3.
Definition SELECTOR_U_DATA : Z := Z.shiftl 6 3 + Z.shiftl TI_GDT 2 + RPL3.
Definition SELECTOR_U_STACK : Z := SELECTOR_U_DATA.
Definition SELECTOR_TSS : Z := Z.shiftl 4 3 + Z.shiftl TI_GDT 2 + RPL0.
Definition GDT_ATTR_HIGH : Z :=
  Z.shiftl DESC_G_4K 7 + Z.shiftl DESC_D_32 6 + Z.shiftl DESC_L 5 + Z.shiftl DESC_AVL 4.
Definition GDT_CODE_ATTR_LOW_DPL3 : Z :=
  Z.shiftl DESC_P 7 + Z.shiftl DESC_DPL_3 5 + Z.shiftl DESC_S_CODE 4 + DESC_TYPE_CODE.
Definition GDT_DATA_ATTR_LOW_DPL3 : Z :=
  Z.shiftl DESC_P 7 + Z.shiftl DESC_DPL_3 5 + Z.shiftl DESC_S_DATA 4 + DESC_TYPE_DATA.
Definition TSS_ATTR_LOW : Z :=
  Z.shiftl DESC_P 7 + Z.shiftl DESC_DPL_0 5 + Z.shiftl DESC_S_SYS 4 + DESC_TYPE_TSS.

(** ** Code *)

(** A store of 16 bits. *)
Definition st16 (a v : Z) : M machine unit := st8 a v ;;; st8 (a + 1) (v / 2 ^ 8).

(** [struct gdt_desc] at [desc_ptr]: the assignment to [base_mid_byte] cuts the masked, unshifted base
    to a byte. *)
Definition SetUpGDTDesc (desc_ptr desc_base_addr limit attr_low attr_high : Z) : M machine unit :=
  st16 desc_ptr (Z.land limit 0x0000FFFF) ;;;
  st8 (desc_ptr + 6) (Z.shiftr (Z.land limit 0x000F0000) 16 + u8 attr_high) ;;;
  st16 (desc_ptr + 2) (Z.land desc_base_addr 0x0000FFFF) ;;;
  st8 (desc_ptr + 4) (Z.land desc_base_addr 0x00FF0000) ;;;
  st8 (desc_ptr + 7) (Z.shiftr desc_base_addr 24) ;;;
  st8 (desc_ptr + 5) (u8 attr_low).

Definition sizeof_tss : Z := 108.
Definition gdt_operand : Z := table_operand (8 * 7 - 1) 0xC0000610.

(** [tss] is the address of the segment. *)
Definition TssInit (tss : Z) : M kernel (Z * Z) :=
  let* _ := on_mach (sys_putstr "tss and ltr init..") in
  let tss_size := sizeof_tss in
  on_mach (memset tss 0 tss_size) ;;;
  modify (set_esp0 0) ;;;
  on_mach (st32 (tss + 8) SELECTOR_K_STACK) ;;;
  on_mach (st32 (tss + 104) tss_size) ;;;
  on_mach (SetUpGDTDesc 0xC0000630 tss (tss_size - 1) TSS_ATTR_LOW GDT_ATTR_HIGH) ;;;
  on_mach (SetUpGDTDesc 0xC0000638 0 0xFFFFF GDT_CODE_ATTR_LOW_DPL3 GDT_ATTR_HIGH) ;;;
  on_mach (SetUpGDTDesc 0xC0000640 0 0xFFFFF GDT_DATA_ATTR_LOW_DPL3 GDT_ATTR_HIGH) ;;;
  let gdtr := gdt_operand in
  let tr := SELECTOR_TSS in
  let* _ := on_mach (sys_putline " done") in
  ret (gdtr, tr).

(** ** What the processor reads *)

(** The eight bytes of a descriptor, as the processor takes them apart. *)
Record descriptor := Descriptor {
  d_base : Z; d_limit : Z; d_type : Z; d_s : Z; d_dpl : Z; d_p : Z; d_g : Z
}.

Definition decode (b : list Z) : option descriptor :=
  match b with
  | [l0; l1; b0; b1; b2; a; h; b3] => Some (Descriptor (b0 + 2 ^ 8 * b1 + 2 ^ 16 * b2 + 2 ^ 24 * b3)
      (l0 + 2 ^ 8 * l1 + 2 ^ 16 * (h mod 16)) (a mod 16) (a / 16 mod 2) (a / 32 mod 4) (a / 128) (h / 128))
  | _ => None
  end.

(** The last address of a segment, relative to its base. *)
Definition last_offset (d : descriptor) : Z := if d_g d =? 0 then d_limit d else d_limit d * 4096 + 4095.

(** The index of a selector in the table. *)
Definition sel_index (sel : Z) : Z := sel / 8.

(** ** Lemmas *)

(** The bytes [SetUpGDTDesc] writes. *)
Definition gdt_bytes (base limit attr_low attr_high : Z) : list Z :=
  [u8 (Z.land limit 0xFFFF); u8 (Z.land limit 0xFFFF / 2 ^ 8); u8 (Z.land base 0xFFFF);
   u8 (Z.land base 0xFFFF / 2 ^ 8); u8 (Z.land base 0xFF0000); u8 (u8 attr_low);
   u8 (Z.shiftr (Z.land limit 0xF0000) 16 + u8 attr_high); u8 (Z.shiftr base 24)].

Lemma gdt_bytes_ok base limit al ah : Forall (fun b => 0 <= b < 256) (gdt_bytes base limit al ah).
Proof. repeat constructor; apply u8_range. Qed.

Lemma st8_last a v m s : is_Some (m !! a) -> st8 a v (set_ram m s) = Ret (tt, set_ram (<[a := u8 v]> m) s).
Proof. intros Ha. by rewrite st8_ok. Qed.

Lemma st8_next {B} a v (k : unit -> M machine B) m s : is_Some (m !! a) ->
  bind (st8 a v) k (set_ram m s) = k tt (set_ram (<[a := u8 v]> m) s).
Proof. intros Ha. by apply bind_Ret, st8_last. Qed.

Lemma SetUpGDTDesc_ok s p base limit al ah : readable (ram s) p 8 ->
  exists m, SetUpGDTDesc p base limit al ah s = Ret (tt, set_ram m s) /\
    bytes_at m p (gdt_bytes base limit al ah) /\ same_outside (fun a => p <= a < p + 8) (ram s) m /\
    stored (ram s) m.
Proof.
  intros Hr. assert (forall i, 0 <= i < 8 -> is_Some (ram s !! (p + i))) as Hi by (intros i Hi; apply Hr; lia).
  pose proof (Hi 0 ltac:(lia)) as H0. rewrite Z.add_0_r in H0.
  eexists. split_and!.
  - unfold SetUpGDTDesc, st16. rewrite <- (set_ram_id s) at 1.
    repeat first [rewrite bind_assoc | rewrite st8_next by (rewrite ?lookup_insert_is_Some'; auto 10 with lia)].
    apply st8_last. rewrite !lookup_insert_is_Some'. auto 10 with lia.
  - intros i b Hb. do 8 (destruct i as [|i]; [cbn in Hb; injection Hb as <-;
      repeat (rewrite lookup_insert; case_decide; [first [exfalso; lia|reflexivity]|]); exfalso; lia|]).
    done.
  - intros a Ha. by rewrite !lookup_insert_ne by lia.
  - split; [intros Hm; repeat (apply ram_ok_insert; [|apply u8_range]); done|].
    intros a Ha. rewrite !lookup_insert_is_Some'. auto 10.
Qed.

(** The descriptor at index [i] of the table at 0xC0000610. *)
Definition gdt_at (i : Z) : Z := 0xC0000610 + 8 * i.
Definition gdt_entry (m : gmap Z Z) (i : Z) : option descriptor :=
  mapM (fun k => m !! (gdt_at i + Z.of_nat k)) (seq 0 8) ≫= decode.

Lemma gdt_entry_bytes m i l : bytes_at m (gdt_at i) l -> length l = 8%nat -> gdt_entry m i = decode l.
Proof.
  intros Hb Hl. unfold gdt_entry. replace (mapM _ _) with (Some l); [done|]. symmetry. apply mapM_Some.
  apply Forall2_same_length_lookup. rewrite length_seq. split; [done|].
  intros k j x Hj Hx. apply lookup_seq in Hj as [-> _]. by apply Hb.
Qed.

Lemma tss_bytes base limit al ah : 0 <= base < 2 ^ 32 ->
  gdt_bytes base limit al ah =
    [u8 (Z.land limit 0xFFFF); u8 (Z.land limit 0xFFFF / 2 ^ 8); base mod 256; base / 256 mod 256; 0;
     u8 (u8 al); u8 (Z.shiftr (Z.land limit 0xF0000) 16 + u8 ah); base / 2 ^ 24].
Proof.
  intros Hb. unfold gdt_bytes, u8. change 0xFFFF with (Z.ones 16). rewrite !(Z.land_ones base) by lia.
  assert (Z.land base 0xFF0000 mod 2 ^ 8 = 0) as ->.
  { rewrite <- Z.land_ones, <- Z.land_assoc by lia. apply Z.land_0_r. }
  assert ((base mod 2 ^ 16) mod 2 ^ 8 = base mod 256) as -> by lia.
  assert (base mod 2 ^ 16 / 2 ^ 8 mod 2 ^ 8 = base / 256 mod 256) as -> by lia.
  rewrite (Z.shiftr_div_pow2 base), (Z.mod_small (base / 2 ^ 24)) by lia. done.
Qed.

(** The segment in memory, away from the descriptor table. *)
Definition tss_placed (tss : Z) (m : gmap Z Z) : Prop :=
  0 < tss /\ tss + sizeof_tss < 2 ^ 32 /\ readable m tss sizeof_tss /\ readable m (gdt_at 4) 24 /\
  (tss + sizeof_tss <= gdt_at 4 \/ gdt_at 7 <= tss).

Definition tss_mem (m : gmap Z Z) (tss : Z) : gmap Z Z :=
  setw (setw (write_bytes m tss (replicate 108 (u8 0))) (tss + 8) SELECTOR_K_STACK) (tss + 104) sizeof_tss.

Lemma TssInit_run tss s : tss_placed tss (ram (mach s)) ->
  exists m t, TssInit tss s = Ret ((gdt_operand, SELECTOR_TSS), with_out m t (set_esp0 0 s)) /\
    bytes_at m (gdt_at 4) (gdt_bytes tss 107 TSS_ATTR_LOW GDT_ATTR_HIGH) /\
    bytes_at m (gdt_at 5) (gdt_bytes 0 0xFFFFF GDT_CODE_ATTR_LOW_DPL3 GDT_ATTR_HIGH) /\
    bytes_at m (gdt_at 6) (gdt_bytes 0 0xFFFFF GDT_DATA_ATTR_LOW_DPL3 GDT_ATTR_HIGH) /\
    same_outside (fun a => gdt_at 4 <= a < gdt_at 7) (tss_mem (ram (mach s)) tss) m /\
    stored (ram (mach s)) m.
Proof.
  intros (T1 & T2 & T3 & T4 & T5). set (m := ram (mach s)) in *. set (m0 := tss_mem m tss).
  pose (Post := fun (r : Z * Z) s' => exists m' t, r = (gdt_operand, SELECTOR_TSS) /\ s' = with_out m' t (set_esp0 0 s) /\
    bytes_at m' (gdt_at 4) (gdt_bytes tss 107 TSS_ATTR_LOW GDT_ATTR_HIGH) /\
    bytes_at m' (gdt_at 5) (gdt_bytes 0 0xFFFFF GDT_CODE_ATTR_LOW_DPL3 GDT_ATTR_HIGH) /\
    bytes_at m' (gdt_at 6) (gdt_bytes 0 0xFFFFF GDT_DATA_ATTR_LOW_DPL3 GDT_ATTR_HIGH) /\
    same_outside (fun a => gdt_at 4 <= a < gdt_at 7) m0 m' /\ stored m m').
  assert (wp (TssInit tss) Post s) as (r & s' & Hrun & m' & t & -> & -> & Hrest)%wp_elim; [|by exists m', t].
  assert (s = with_out m (tty (mach s)) s) as Es by (unfold m; destruct s as [ma]; by destruct ma).
  rewrite Es at 1. unfold TssInit. apply wp_says; [unfold sys_putstr; says_literal|]. intros _ t1. cbv zeta.
  eapply wp_on_ram.
  { unfold memset. rewrite (bind_Ret _ _ _ tt (mach (with_out m t1 s))) by (apply ASSERT_true, negb_eqb_true; lia).
    apply (memset_loop 0 108); [lia|unfold sizeof_tss in T2; lia|exact T3|lia]. }
  apply wp_bind. eapply wp_intro; [done|]. change (set_esp0 0 (with_out ?m ?t s)) with (with_out m t (set_esp0 0 s)).
  assert (readable (write_bytes m tss (replicate 108 (u8 0))) tss sizeof_tss) as R0 by by apply write_bytes_readable.
  eapply wp_on_ram.
  { apply st32_ok, word_readable. eapply readable_le; [exact R0|lia|unfold sizeof_tss; lia]. }
  eapply wp_on_ram.
  { apply st32_ok, is_word_setw, word_readable. eapply readable_le; [exact R0|lia|unfold sizeof_tss; lia]. }
  change (setw (ram (mach (with_out _ _ _))) _ _) with m0.
  assert (readable m0 (gdt_at 4) 24) as Rg by (do 2 apply setw_readable; by apply write_bytes_readable).
  destruct (SetUpGDTDesc_ok (mach (with_out m0 t1 (set_esp0 0 s))) 0xC0000630 tss (sizeof_tss - 1) TSS_ATTR_LOW GDT_ATTR_HIGH)
    as (m1 & H1 & B1 & S1 & W1); [eapply readable_le; [exact Rg|done|done]|].
  eapply wp_on_ram; [exact H1|]. pose proof (stored_readable _ _ _ _ W1 Rg) as Rg1.
  destruct (SetUpGDTDesc_ok (mach (with_out m1 t1 (set_esp0 0 s))) 0xC0000638 0 0xFFFFF GDT_CODE_ATTR_LOW_DPL3 GDT_ATTR_HIGH)
    as (m2 & H2 & B2 & S2 & W2); [eapply readable_le; [exact Rg1|done|done]|].
  eapply wp_on_ram; [exact H2|]. pose proof (stored_readable _ _ _ _ W2 Rg1) as Rg2.
  destruct (SetUpGDTDesc_ok (mach (with_out m2 t1 (set_esp0 0 s))) 0xC0000640 0 0xFFFFF GDT_DATA_ATTR_LOW_DPL3 GDT_ATTR_HIGH)
    as (m3 & H3 & B3 & S3 & W3); [eapply readable_le; [exact Rg2|done|done]|].
  eapply wp_on_ram; [exact H3|]. apply wp_says; [unfold sys_putline; says_literal|]. intros _ t2. apply wp_ret.
  exists m3, t2. split; [reflexivity|]. split; [reflexivity|]. split_and!; [| |exact B3| |].
  - intros i b Hb. pose proof (lookup_lt_Some _ _ _ Hb) as Hi. cbn in Hi. cbn [mach with_out set_mach ram] in S2, S3.
    unfold gdt_at in *. rewrite S3, S2 by lia. by apply B1.
  - intros i b Hb. pose proof (lookup_lt_Some _ _ _ Hb) as Hi. cbn in Hi. cbn [mach with_out set_mach ram] in S3.
    unfold gdt_at in *. rewrite S3 by lia. by apply B2.
  - intros a Ha. cbn [mach with_out set_mach ram] in S1, S2, S3. unfold gdt_at in Ha. by rewrite S3, S2, S1 by lia.
  - cbn [mach with_out set_mach ram] in W1, W2, W3. eapply stored_trans; [|exact W3]. eapply stored_trans; [|exact W2].
    eapply stored_trans; [|exact W1]. split.
    + intros Hm. do 2 apply ram_ok_setw. apply write_bytes_ok; [done|]. apply Forall_replicate, u8_range.
    + intros a Ha. do 2 apply setw_is_Some. destruct (decide (tss <= a < tss + 108)) as [Hin|Hout].
      * replace a with (tss + Z.of_nat (Z.to_nat (a - tss))) by lia.
        rewrite (write_bytes_lookup_in _ _ _ _ 0); [eauto|]. apply lookup_replicate_2. lia.
      * by rewrite write_bytes_lookup_out by (rewrite length_replicate; lia).
Qed.

(** C35: [TssInit]: user code and data get flat segments of 4 GB at privilege level 3; the stack segment
    for entries from user code is the kernel's.  Two things come out other than meant: bits 16 to 23
    of the segment's address are lost in its descriptor, which is right only for addresses where
    they are 0; and the length of the segment is stored behind it, at offset 104, so that the I/O map
    base the processor reads at offset 102 is 0, inside the segment (whose limit, counted in pages,
    reaches far behind it).  The table register gets the low 16 bits of the table's address. *)
Theorem TssInit_correct tss s : tss_placed tss (ram (mach s)) ->
  exists m t d, TssInit tss s = Ret ((gdt_operand, SELECTOR_TSS), with_out m t (set_esp0 0 s)) /\
    gdt_entry m (sel_index SELECTOR_U_CODE) = Some (Descriptor 0 0xFFFFF DESC_TYPE_CODE 1 3 1 1) /\
    gdt_entry m (sel_index SELECTOR_U_DATA) = Some (Descriptor 0 0xFFFFF DESC_TYPE_DATA 1 3 1 1) /\
    gdt_entry m (sel_index SELECTOR_TSS) = Some d /\
    d_base d = tss mod 2 ^ 16 + 2 ^ 24 * (tss / 2 ^ 24) /\ (d_base d = tss <-> tss / 2 ^ 16 mod 256 = 0) /\
    d_type d = DESC_TYPE_TSS /\ d_s d = 0 /\ d_dpl d = 0 /\ d_p d = 1 /\ last_offset d = 108 * 4096 - 1 /\
    word m (tss + 8) = Some SELECTOR_K_STACK /\
    m !! (tss + 102) = Some 0 /\ m !! (tss + 103) = Some 0 /\ word m (tss + 104) = Some sizeof_tss /\
    operand_base gdt_operand = 0x610 /\ operand_limit gdt_operand = 55.
Proof.
  intros Hp. destruct (TssInit_run tss s Hp) as (m & t & Hrun & B4 & B5 & B6 & Hs & _).
  destruct Hp as (T1 & T2 & T3 & T4 & T5). unfold sizeof_tss in T2, T5.
  assert (forall a, tss <= a < tss + 108 -> m !! a = tss_mem (ram (mach s)) tss !! a) as Hm by (intros a Ha; apply Hs; lia).
  assert (forall k, 0 <= k < 108 -> write_bytes (ram (mach s)) tss (replicate 108 (u8 0)) !! (tss + k) = Some 0) as Hz.
  { intros k Hk. replace (tss + k) with (tss + Z.of_nat (Z.to_nat k)) by lia. apply write_bytes_lookup_in, lookup_replicate_2. lia. }
  assert (0 <= tss < 2 ^ 32) as Hr by lia. rewrite (tss_bytes tss) in B4 by done.
  exists m, t. eexists. split_and!; [exact Hrun| | | |..].
  - change (sel_index SELECTOR_U_CODE) with 5. by rewrite (gdt_entry_bytes _ _ _ B5).
  - change (sel_index SELECTOR_U_DATA) with 6. by rewrite (gdt_entry_bytes _ _ _ B6).
  - change (sel_index SELECTOR_TSS) with 4. rewrite (gdt_entry_bytes _ _ _ B4) by done. reflexivity.
  - cbn [d_base]. lia.
  - cbn [d_base]. lia.
  - reflexivity.
  - reflexivity.
  - reflexivity.
  - reflexivity.
  - reflexivity.
  - rewrite (word_eq (tss_mem (ram (mach s)) tss)) by (intros i Hi; apply Hm; lia). unfold tss_mem.
    rewrite word_setw_ne by lia. by apply word_setw_eq.
  - rewrite Hm by lia. unfold tss_mem. rewrite !setw_lookup_out by lia. apply Hz. lia.
  - rewrite Hm by lia. unfold tss_mem. rewrite !setw_lookup_out by lia. apply Hz. lia.
  - rewrite (word_eq (tss_mem (ram (mach s)) tss)) by (intros i Hi; apply Hm; lia). by apply word_setw_eq.
  - reflexivity.
  - reflexivity.
Qed.

(** ** Example: a segment at 0xC0008AC0 *)
Definition tss_ram : gmap Z Z :=
  write_bytes (write_bytes ∅ 0xC0008AC0 (replicate 108 255)) 0xC0000630 (replicate 24 255).
Definition tss_kernel : kernel := set_mach (Machine tss_ram 2 [] []) demo_kernel.

Lemma TssInit_correct_witness : exists m t d,
  TssInit 0xC0008AC0 tss_kernel = Ret ((gdt_operand, 0x20), with_out m t (set_esp0 0 tss_kernel)) /\
  gdt_entry m 4 = Some d /\ d_base d = 0xC0008AC0.
Proof.
  destruct (TssInit_correct 0xC0008AC0 tss_kernel) as (m & t & d & H1 & _ & _ & H2 & _ & H3 & _).
  - split_and!; [done|done| | |right; done].
    + unfold sizeof_tss. apply write_bytes_readable. apply (write_bytes_region ∅ 0xC0008AC0 (replicate 108 255)).
    + apply (write_bytes_region _ 0xC0000630 (replicate 24 255)).
  - exists m, t, d. split_and!; [exact H1|exact H2|]. apply H3. reflexivity.
Defined.
