(* ===== verification/Entry.v ===== *)
(** * kernel/kernel.S: the interrupt entries, [IntExit] and the entry of the system calls

    The registers of the interrupted code are a [context]; the stack is byte memory.  [INTR] is one
    of the entries the macro VECTOR makes, around the C function of its vector, from the moment the
    processor takes the interrupt to the registers it goes on with after [iretd]; [syscall_stub] is
    the same for interrupt 0x80.  The theorems say that the interrupted code cannot tell, except after
    the exceptions with an error code: their entries push a 0 of their own on top of it, and
    [interrupt_misframed] is where the code then goes on. *)
From stdpp Require Import base list gmap strings.
From S2P Require Import Prelude Machine CString Bitmap Print Interrupt KList Paging State Sched Timer Sync Pool.
From S2P Require Import Palloc Arena Heap Malloc MemInit Console Syscall Tss.

(** The registers of the processor. *)
Record context := Context {
  r_edi : Z; r_esi : Z; r_ebp : Z; r_ebx : Z; r_edx : Z; r_ecx : Z; r_eax : Z;
  r_gs : Z; r_fs : Z; r_es : Z; r_ds : Z; r_eip : Z; r_cs : Z; r_eflags : Z; r_esp : Z; r_ss : Z
}.

Definition set_eax (v : Z) (c : context) : context :=
  Context (r_edi c) (r_esi c) (r_ebp c) (r_ebx c) (r_edx c) (r_ecx c) v (r_gs c) (r_fs c) (r_es c) (r_ds c)
    (r_eip c) (r_cs c) (r_eflags c) (r_esp c) (r_ss c).

(** The code segment of the kernel has privilege 0. *)
Definition in_kernel_mode (cs : Z) : bool := Z.land cs 3 =? 0.

Definition push (v esp : Z) : M machine Z :=
  let esp := u32 (esp - 4) in
  st32 esp v ;;;
  ret esp.

(** Several pushes, in order.  Segment registers are pushed with zeros above. *)
Fixpoint pushes (l : list Z) (esp : Z) : M machine Z :=
  match l with
  | [] => ret esp
  | v :: l' => let* esp := push v esp in pushes l' esp
  end.

(** A [pop] of 32 bits; one into a segment register takes the lower half. *)
Definition pop (esp : Z) : M machine (Z * Z) :=
  let* v := ld32 esp in ret (v, u32 (esp + 4)).

(** The exceptions that come with an error code.  (0x1E is AMD's security exception; 0x15 and 0x1D, of
    later processors, belong to features that the kernel does not turn on.) *)
Definition has_error_code (n : Z) : bool :=
  existsb (Z.eqb n) [0x08; 0x0A; 0x0B; 0x0C; 0x0D; 0x0E; 0x11; 0x1E].
Definition error_code (n e : Z) : option Z := if has_error_code n then Some e else None.

(** The processor takes an interrupt through an interrupt gate: from user mode on the stack the TSS
    names, from the kernel on the current one; the error code [err] is pushed last. *)
Definition cpu_interrupt (esp0 : Z) (err : option Z) (c : context) : M machine Z :=
  let* esp :=
    (if in_kernel_mode (r_cs c) then ret (r_esp c) else pushes [r_ss c; r_esp c] esp0) in
  let* esp := pushes [r_eflags c; r_cs c; r_eip c] esp in
  let* esp := (match err with Some e => push e esp | None => ret esp end) in
  modify (set_eflags (Z.ldiff (r_eflags c) EFLAGS_IF)) ;;;
  ret esp.

Definition save_segments (c : context) (esp : Z) : M machine Z :=
  pushes [r_ds c; r_es c; r_fs c; r_gs c] esp.
Definition pushad (c : context) (esp : Z) : M machine Z :=
  pushes [r_eax c; r_ecx c; r_edx c; r_ebx c; esp; r_ebp c; r_esi c; r_edi c] esp.

(** The entry of vector [n], up to the call; 0x1E is the only one that pushes no 0 in place of an error
    code: the only one that counts on the processor's. *)
Definition INTR_entry (n : Z) (c : context) (esp : Z) : M machine Z :=
  let* esp := (if n =? 0x1E then ret esp else push 0 esp) in
  let* esp := save_segments c esp in
  let* esp := pushad c esp in
  outb 0xa0 0x20 ;;;
  outb 0x20 0x20 ;;;
  push n esp.

(** [iretd] to user mode takes its stack from the frame, to the kernel it stays on this one. *)
Definition IntExit (esp : Z) : M machine context :=
  let esp := u32 (esp + 4) in
  let* (edi, esp) := pop esp in
  let* (esi, esp) := pop esp in
  let* (ebp, esp) := pop esp in
  let* (_, esp) := pop esp in
  let* (ebx, esp) := pop esp in
  let* (edx, esp) := pop esp in
  let* (ecx, esp) := pop esp in
  let* (eax, esp) := pop esp in
  let* (gs, esp) := pop esp in
  let* (fs, esp) := pop esp in
  let* (es, esp) := pop esp in
  let* (ds, esp) := pop esp in
  let esp := u32 (esp + 4) in
  let* (eip, esp) := pop esp in
  let* (cs, esp) := pop esp in
  let* (eflags, esp) := pop esp in
  let* (old_esp, ss) :=
    (if in_kernel_mode (u16 cs) then ret (esp, SELECTOR_K_STACK)
     else let* (old_esp, esp) := pop esp in let* (ss, esp) := pop esp in ret (old_esp, u16 ss)) in
  ret (Context edi esi ebp ebx edx ecx eax (u16 gs) (u16 fs) (u16 es) (u16 ds) eip (u16 cs) eflags old_esp ss).

(** Back in the interrupted code.  The model's [esp] of a thread in user mode is where its kernel stack
    was left. *)
Definition resume (esp0 : Z) (c : context) : M kernel unit :=
  modify (fun s => set_esp (if in_kernel_mode (r_cs c) then r_esp c else esp0)
    (set_mach (set_eflags (r_eflags c) (mach s)) s)).

(** Interrupt [n]; [e] is the error code if the interrupt has one. *)
Definition INTR (n e : Z) (handler : M kernel unit) (c : context) : M kernel context :=
  let* s := get in
  let* sp := on_mach (cpu_interrupt (esp0 s) (error_code n e) c) in
  let* sp := on_mach (INTR_entry n c sp) in
  modify (set_esp sp) ;;;
  handler ;;;
  let* s' := get in
  let* c' := on_mach (IntExit (esp s')) in
  resume (esp s) c' ;;;
  ret c'.

(** The entry of the system calls, up to the call, with the arguments. *)
Definition syscall_entry (c : context) (esp : Z) : M machine Z :=
  let* esp := push 0 esp in
  let* esp := save_segments c esp in
  let* esp := pushad c esp in
  let* esp := push 0x80 esp in
  pushes [r_edx c; r_ecx c; r_ebx c] esp.

(** [call] is the call through the table with the arguments pushed, [eax_left] what a function without
    a result leaves in eax. *)
Definition syscall_stub (call : Z -> Z -> Z -> Z -> M kernel (option Z)) (eax_left : Z) (c : context) : M kernel context :=
  let* s := get in
  let* sp := on_mach (cpu_interrupt (esp0 s) None c) in
  let* sp := on_mach (syscall_entry c sp) in
  modify (set_esp sp) ;;;
  let* r := call (r_eax c) (r_ebx c) (r_ecx c) (r_edx c) in
  let* s' := get in
  let sp := u32 (esp s' + 12) in
  on_mach (st32 (u32 (sp + 8 * 4)) (default eax_left r)) ;;;
  let* c' := on_mach (IntExit sp) in
  resume (esp s) c' ;;;
  ret c'.

(** ** The stack *)

(** The words [l] pushed below [top]. *)
Fixpoint pushed (m : gmap Z Z) (top : Z) (l : list Z) : gmap Z Z :=
  match l with
  | [] => m
  | v :: l' => pushed (setw m (top - 4) v) (top - 4) l'
  end.

Lemma pushed_app m top l k : pushed m top (l ++ k) = pushed (pushed m top l) (top - 4 * Z.of_nat (length l)) k.
Proof.
  revert m top. induction l as [|v l IH]; intros m top; [cbn; f_equal; lia|]. cbn [app pushed length].
  rewrite IH. f_equal. lia.
Qed.

Lemma pushed_out m top l a : (a < top - 4 * Z.of_nat (length l) \/ top <= a) -> pushed m top l !! a = m !! a.
Proof.
  revert m top. induction l as [|v l IH]; intros m top Ha; [done|]. cbn [pushed length] in *.
  rewrite IH by lia. apply setw_lookup_out. lia.
Qed.

Lemma pushed_stored m top l : stored m (pushed m top l).
Proof.
  revert m top. induction l as [|v l IH]; intros m top; [apply stored_refl|].
  cbn [pushed]. eapply stored_trans; [apply stored_setw|apply IH].
Qed.

Lemma pushed_word m top l i v : l !! i = Some v -> 0 <= v < 2 ^ 32 ->
  word (pushed m top l) (top - 4 * Z.of_nat (S i)) = Some v.
Proof.
  revert m top i. induction l as [|w l IH]; intros m top i Hi Hv; [done|]. cbn [pushed].
  destruct i as [|i]; cbn in Hi.
  - injection Hi as ->. rewrite (word_eq (setw m (top - 4) v)).
    + replace (top - 4 * Z.of_nat 1) with (top - 4) by lia. by apply word_setw_eq.
    + intros j Hj. apply pushed_out. lia.
  - replace (top - 4 * Z.of_nat (S (S i))) with (top - 4 - 4 * Z.of_nat (S i)) by lia. by apply IH.
Qed.

Lemma push_ok m s v esp : 4 <= esp < 2 ^ 32 -> readable m (esp - 4) 4 ->
  push v esp (set_ram m s) = Ret (esp - 4, set_ram (setw m (esp - 4) v) s).
Proof.
  intros He Hr. unfold push. rewrite u32_id by lia.
  rewrite (bind_Ret _ _ _ tt (set_ram (setw m (esp - 4) v) s)); [done|].
  rewrite st32_ok by by apply word_readable. done.
Qed.

Lemma pushes_ok l : forall m s esp, 4 * Z.of_nat (length l) <= esp < 2 ^ 32 ->
  readable m (esp - 4 * Z.of_nat (length l)) (4 * Z.of_nat (length l)) ->
  pushes l esp (set_ram m s) = Ret (esp - 4 * Z.of_nat (length l), set_ram (pushed m esp l) s).
Proof.
  induction l as [|v l IH]; intros m s esp He Hr; [cbn; unfold ret; do 2 f_equal; lia|]. cbn [pushes length pushed] in *.
  rewrite (bind_Ret _ _ _ _ _ (push_ok m s v esp ltac:(lia) ltac:(eapply readable_le; [exact Hr|lia|lia]))).
  rewrite IH; [do 2 f_equal; lia|lia|]. apply setw_readable. eapply readable_le; [exact Hr|lia|lia].
Qed.

(** ** [IntExit] *)

Lemma pop_ok {B} m s k w (f : Z * Z -> M machine B) : word m k = Some w -> 0 <= k -> k + 4 < 2 ^ 32 ->
  bind (pop k) f (set_ram m s) = f (w, k + 4) (set_ram m s).
Proof.
  intros Hw H0 Hk. apply bind_Ret. unfold pop. rewrite (bind_Ret _ _ _ _ _ (ld32_ok (set_ram m s) _ _ Hw)).
  unfold ret. by rewrite u32_id by lia.
Qed.

(** The context that a frame at [k] stands for. *)
Definition frame_context (m : gmap Z Z) (k : Z) : option context :=
  let w i := word m (k + i) in
  match w 4, w 8, w 12, w 16, w 20, w 24, w 28, w 32 with
  | Some edi, Some esi, Some ebp, Some _, Some ebx, Some edx, Some ecx, Some eax =>
      match w 36, w 40, w 44, w 48, w 56, w 60, w 64 with
      | Some gs, Some fs, Some es, Some ds, Some eip, Some cs, Some eflags =>
          let c esp ss := Context edi esi ebp ebx edx ecx eax (u16 gs) (u16 fs) (u16 es) (u16 ds) eip (u16 cs) eflags esp ss in
          if in_kernel_mode (u16 cs) then Some (c (k + 68) SELECTOR_K_STACK)
          else match w 68, w 72 with Some esp, Some ss => Some (c esp (u16 ss)) | _, _ => None end
      | _, _, _, _, _, _, _ => None
      end
  | _, _, _, _, _, _, _, _ => None
  end.

Lemma IntExit_ok m s k c : 0 <= k -> k + 76 < 2 ^ 32 -> frame_context m k = Some c ->
  IntExit k (set_ram m s) = Ret (c, set_ram m s).
Proof.
  intros H0 Hk. unfold frame_context. cbv zeta.
  destruct (word m (k + 4)) eqn:E1; [|done]. destruct (word m (k + 8)) eqn:E2; [|done].
  destruct (word m (k + 12)) eqn:E3; [|done]. destruct (word m (k + 16)) eqn:E4; [|done].
  destruct (word m (k + 20)) eqn:E5; [|done]. destruct (word m (k + 24)) eqn:E6; [|done].
  destruct (word m (k + 28)) eqn:E7; [|done]. destruct (word m (k + 32)) eqn:E8; [|done].
  destruct (word m (k + 36)) eqn:E9; [|done]. destruct (word m (k + 40)) eqn:E10; [|done].
  destruct (word m (k + 44)) eqn:E11; [|done]. destruct (word m (k + 48)) eqn:E12; [|done].
  destruct (word m (k + 56)) eqn:E13; [|done]. destruct (word m (k + 60)) as [cs|] eqn:E14; [|done].
  destruct (word m (k + 64)) eqn:E15; [|done]. intros Hc.
  unfold IntExit. rewrite u32_id by lia.
  assert (forall i j, k + i + j = k + (i + j)) as Hadd by (intros; lia).
  do 12 (erewrite pop_ok by (first [eassumption|lia]); cbv beta iota; rewrite ?Hadd).
  rewrite u32_id by lia.
  do 3 (erewrite pop_ok by (first [eassumption|lia]); cbv beta iota; rewrite ?Hadd).
  destruct (in_kernel_mode (u16 cs)); [by injection Hc as <-|].
  destruct (word m (k + 68)) eqn:E16; [|done]. destruct (word m (k + 72)) eqn:E17; [|done]. injection Hc as <-.
  rewrite bind_assoc. erewrite pop_ok by (first [eassumption|lia]); cbv beta iota; rewrite ?Hadd.
  rewrite bind_assoc. erewrite pop_ok by (first [eassumption|lia]); cbv beta iota; rewrite ?Hadd.
  reflexivity.
Qed.

(** ** The frame of an interrupt *)

Definition selector (v : Z) : Prop := 0 <= v < 2 ^ 16.
Record context_ok (c : context) : Prop := ContextOk {
  cx_general : Forall (fun v => 0 <= v < 2 ^ 32)
    [r_edi c; r_esi c; r_ebp c; r_ebx c; r_edx c; r_ecx c; r_eax c; r_eip c; r_eflags c; r_esp c];
  cx_segments : Forall selector [r_gs c; r_fs c; r_es c; r_ds c; r_cs c; r_ss c];
  cx_stack : in_kernel_mode (r_cs c) = true -> r_ss c = SELECTOR_K_STACK
}.

(** Where the frame starts, the words the processor pushes, those the entry pushes when [esp] is [sp],
    and the whole frame with number [n] and error code [e]. *)
Definition frame_top (c : context) (esp0 : Z) : Z := if in_kernel_mode (r_cs c) then r_esp c else esp0.
Definition cpu_words (c : context) : list Z :=
  (if in_kernel_mode (r_cs c) then [] else [r_ss c; r_esp c]) ++ [r_eflags c; r_cs c; r_eip c].
Definition frame_len (c : context) : Z := if in_kernel_mode (r_cs c) then 68 else 76.
Definition saved_words (n : Z) (c : context) (sp : Z) : list Z :=
  [r_ds c; r_es c; r_fs c; r_gs c; r_eax c; r_ecx c; r_edx c; r_ebx c; sp - 16; r_ebp c; r_esi c; r_edi c; n].
Definition int_frame (n e : Z) (c : context) (top : Z) : list Z :=
  cpu_words c ++ e :: saved_words n c (top - frame_len c + 52).

Lemma length_frame n e c top : 4 * Z.of_nat (length (int_frame n e c top)) = frame_len c.
Proof. unfold int_frame, cpu_words, frame_len. by destruct (in_kernel_mode (r_cs c)). Qed.

Lemma frame_len_range c : 68 <= frame_len c <= 76.
Proof. unfold frame_len. destruct (in_kernel_mode _); lia. Qed.

Lemma context_range n c : 0 <= n < 256 -> context_ok c ->
  Forall (fun v => 0 <= v < 2 ^ 32) (cpu_words c) /\
  forall sp, 16 <= sp < 2 ^ 32 -> Forall (fun v => 0 <= v < 2 ^ 32) (saved_words n c sp).
Proof.
  intros Hn [Hg Hs _]. unfold selector in Hs.
  repeat (apply Forall_cons in Hg as [? Hg]). repeat (apply Forall_cons in Hs as [? Hs]).
  split; [apply Forall_app; split; [destruct (in_kernel_mode _)|]; repeat constructor; lia|].
  intros sp Hsp. repeat constructor; lia.
Qed.

(** The words of a stack that kept its bytes, from the lowest on. *)
Lemma stack_word m m' top l i v :
  Forall (fun v => 0 <= v < 2 ^ 32) l ->
  (forall a, top - 4 * Z.of_nat (length l) <= a < top -> m' !! a = pushed m top l !! a) ->
  reverse l !! i = Some v -> word m' (top - 4 * Z.of_nat (length l) + 4 * Z.of_nat i) = Some v.
Proof.
  intros Hr Hm Hi. pose proof (lookup_lt_Some _ _ _ Hi) as Hl. rewrite length_reverse in Hl.
  rewrite reverse_lookup in Hi by done.
  rewrite (word_eq (pushed m top l)) by (intros j Hj; apply Hm; lia).
  replace (top - 4 * Z.of_nat (length l) + 4 * Z.of_nat i) with (top - 4 * Z.of_nat (S (length l - S i))) by lia.
  apply pushed_word; [done|]. by apply (proj1 (Forall_lookup _ _) Hr (length l - S i)%nat).
Qed.

Section frame.
  Context (n e : Z) (c : context) (Hn : 0 <= n < 256) (He : 0 <= e < 2 ^ 32) (Hc : context_ok c).
  Context (top : Z) (Htop : 76 <= top < 2 ^ 32 - 8) (Hesp : in_kernel_mode (r_cs c) = true -> top = r_esp c).
  #[local] Abbreviation k := (top - frame_len c).

Lemma frame_range : Forall (fun v => 0 <= v < 2 ^ 32) (int_frame n e c top).
Proof.
  pose proof (frame_len_range c). destruct (context_range n c Hn Hc) as [H1 H2].
  apply Forall_app. split; [done|]. constructor; [done|]. apply H2. lia.
Qed.

(** The frame from its lowest word on. *)
Lemma reverse_frame : reverse (int_frame n e c top) =
  [n; r_edi c; r_esi c; r_ebp c; k + 52 - 16; r_ebx c; r_edx c; r_ecx c; r_eax c; r_gs c; r_fs c; r_es c; r_ds c; e;
   r_eip c; r_cs c; r_eflags c] ++ (if in_kernel_mode (r_cs c) then [] else [r_esp c; r_ss c]).
Proof. unfold int_frame, cpu_words. by destruct (in_kernel_mode (r_cs c)). Qed.

Lemma frame_word m m' i v : (forall a, k <= a < top -> m' !! a = pushed m top (int_frame n e c top) !! a) ->
  reverse (int_frame n e c top) !! i = Some v -> word m' (k + 4 * Z.of_nat i) = Some v.
Proof.
  intros Hm Hi. pose proof (stack_word m m' top (int_frame n e c top) i v frame_range) as H.
  rewrite length_frame in H. by apply H.
Qed.

(** As long as the frame keeps its bytes, it stands for the registers that were pushed. *)
Lemma frame_ok m m' : (forall a, k <= a < top -> m' !! a = pushed m top (int_frame n e c top) !! a) ->
  frame_context m' k = Some c.
Proof.
  intros Hm.
  assert (forall i v d, d = 4 * Z.of_nat i -> reverse (int_frame n e c top) !! i = Some v -> word m' (k + d) = Some v) as Hw'
    by (intros i v d -> Hi; by apply (frame_word m)).
  rewrite reverse_frame in Hw'.
  destruct Hc as [_ Hs Hss]. unfold selector in Hs. repeat (apply Forall_cons in Hs as [? Hs]).
  unfold frame_context. cbv zeta.
  rewrite (Hw' 1%nat _ 4 eq_refl eq_refl), (Hw' 2%nat _ 8 eq_refl eq_refl), (Hw' 3%nat _ 12 eq_refl eq_refl),
    (Hw' 4%nat _ 16 eq_refl eq_refl), (Hw' 5%nat _ 20 eq_refl eq_refl), (Hw' 6%nat _ 24 eq_refl eq_refl),
    (Hw' 7%nat _ 28 eq_refl eq_refl), (Hw' 8%nat _ 32 eq_refl eq_refl), (Hw' 9%nat _ 36 eq_refl eq_refl),
    (Hw' 10%nat _ 40 eq_refl eq_refl), (Hw' 11%nat _ 44 eq_refl eq_refl), (Hw' 12%nat _ 48 eq_refl eq_refl),
    (Hw' 14%nat _ 56 eq_refl eq_refl), (Hw' 15%nat _ 60 eq_refl eq_refl), (Hw' 16%nat _ 64 eq_refl eq_refl).
  rewrite !u16_id by done. destruct (in_kernel_mode (r_cs c)) eqn:Em.
  - rewrite <- (Hss eq_refl). replace (k + 68) with (r_esp c); [by destruct c|].
    rewrite <- (Hesp eq_refl). unfold frame_len. rewrite Em. lia.
  - rewrite (Hw' 17%nat _ 68 eq_refl eq_refl), (Hw' 18%nat _ 72 eq_refl eq_refl), u16_id by done. by destruct c.
Qed.

End frame.

(** ** Taking an interrupt *)

(** [eoi] are the two acknowledgements to the interrupt controllers. *)
Definition eoi : list (Z * Z) := [(0x20, 0x20); (0xa0, 0x20)].
Definition interrupted (c : context) (m : gmap Z Z) (s : machine) : machine :=
  set_eflags (Z.ldiff (r_eflags c) EFLAGS_IF) (set_ram m s).
Definition with_outs (l : list (Z * Z)) (s : machine) : machine := set_outs (l ++ outs s) s.

Lemma push_single v esp s : push v esp s = pushes [v] esp s.
Proof. cbn [pushes]. symmetry. unfold bind, ret. by destruct (push v esp s) as [[a s']| | | |]. Qed.

(** Pushing on behind the words [l0]. *)
Lemma bind_pushes {B} m top l0 l s (f : Z -> M machine B) : 4 * Z.of_nat (length (l0 ++ l)) <= top < 2 ^ 32 ->
  readable m (top - 4 * Z.of_nat (length (l0 ++ l))) (4 * Z.of_nat (length (l0 ++ l))) ->
  bind (pushes l (top - 4 * Z.of_nat (length l0))) f (set_ram (pushed m top l0) s) =
    f (top - 4 * Z.of_nat (length (l0 ++ l))) (set_ram (pushed m top (l0 ++ l)) s).
Proof.
  rewrite length_app. intros H1 H2. apply bind_Ret. rewrite pushes_ok; [|lia|].
  - rewrite pushed_app. do 2 f_equal. lia.
  - eapply stored_readable; [apply pushed_stored|]. eapply readable_le; [exact H2|lia|lia].
Qed.

Section taking.
  Context (n : Z) (c : context) (top : Z) (m : gmap Z Z).
  #[local] Abbreviation at_ l := (top - 4 * Z.of_nat (length (l : list Z))).
  #[local] Abbreviation room l := (4 * Z.of_nat (length (l : list Z)) <= top < 2 ^ 32 /\
    readable m (at_ l) (4 * Z.of_nat (length (l : list Z)))).

Lemma push_behind {B} l0 l s' (f : Z -> M machine B) : room (l0 ++ l) ->
  bind (pushes l (at_ l0)) f (set_ram (pushed m top l0) s') = f (at_ (l0 ++ l)) (set_ram (pushed m top (l0 ++ l)) s').
Proof. intros [H1 H2]. by apply bind_pushes. Qed.

Lemma push_behind1 {B} l0 v s' (f : Z -> M machine B) : room (l0 ++ [v]) ->
  bind (push v (at_ l0)) f (set_ram (pushed m top l0) s') = f (at_ (l0 ++ [v])) (set_ram (pushed m top (l0 ++ [v])) s').
Proof. intros H. rewrite <- (push_behind l0 [v] s' f H). unfold bind at 1 2. by rewrite push_single. Qed.

Lemma room_prefix l l' : room (l ++ l') -> room l.
Proof.
  rewrite length_app. intros [H1 H2]. split; [lia|]. eapply readable_le; [exact H2|lia|lia].
Qed.

(** The registers of the entry behind the words [l0], with anything in between that does not look at
    memory. *)
Lemma saved_ok {B} l0 s (f : Z -> M machine B) (mid : M machine unit) (g : machine -> machine) :
  room (l0 ++ saved_words n c (at_ l0)) ->
  (forall m' s', mid (set_ram m' s') = Ret (tt, set_ram m' (g s'))) ->
  (let* esp := save_segments c (at_ l0) in
   let* esp := pushad c esp in
   mid ;;;
   let* esp := push n esp in
   f esp) (set_ram (pushed m top l0) s) =
    f (at_ (l0 ++ saved_words n c (at_ l0))) (set_ram (pushed m top (l0 ++ saved_words n c (at_ l0))) (g s)).
Proof.
  intros Hr Hmid. unfold save_segments, pushad. set (l := l0 ++ saved_words n c (at_ l0)) in *.
  set (l1 := l0 ++ [r_ds c; r_es c; r_fs c; r_gs c]).
  assert (at_ l1 = at_ l0 - 16) as E1 by (unfold l1; rewrite length_app; cbn [length]; lia).
  set (l2 := l1 ++ [r_eax c; r_ecx c; r_edx c; r_ebx c; at_ l1; r_ebp c; r_esi c; r_edi c]).
  assert (l = l2 ++ [n]) as E by (unfold l, l2; rewrite E1; unfold l1; by rewrite <- !app_assoc).
  rewrite E in *. pose proof (room_prefix l2 [n] Hr) as Hr2.
  pose proof (room_prefix l1 _ Hr2) as Hr1.
  rewrite (push_behind l0 [r_ds c; r_es c; r_fs c; r_gs c] s _ Hr1). fold l1.
  rewrite (push_behind l1 _ s _ Hr2). rewrite (bind_Ret _ _ _ _ _ (Hmid _ _)).
  by rewrite (push_behind1 l2 n _ _ Hr).
Qed.

End taking.

(** The words on the stack before the registers: the processor's and, but for vector 0x1E, a 0. *)
Definition taken_words (n : Z) (err : option Z) (c : context) : list Z :=
  cpu_words c ++ match err with Some e => [e] | None => [] end ++ (if n =? 0x1E then [] else [0]).
Definition stack_frame (n : Z) (err : option Z) (c : context) (top : Z) : list Z :=
  taken_words n err c ++ saved_words n c (top - 4 * Z.of_nat (length (taken_words n err c))).

(** The entry counts on the error code exactly when there is one. *)
Definition entry_agrees (n : Z) (err : option Z) : Prop := is_Some err <-> n = 0x1E.

Lemma error_code_agrees n e : (has_error_code n = true -> n = 0x1E) -> entry_agrees n (error_code n e).
Proof.
  unfold entry_agrees, error_code. intros Hn. split.
  - destruct (has_error_code n); [auto|by intros []].
  - intros ->. by eexists.
Qed.

Lemma stack_frame_agrees n err c top : entry_agrees n err ->
  stack_frame n err c top = int_frame n (default 0 err) c top.
Proof.
  intros H. assert (taken_words n err c = cpu_words c ++ [default 0 err]) as E.
  { unfold taken_words, entry_agrees in *. destruct err, (Z.eqb_spec n 0x1E); try done.
    - destruct n0. by apply H.
    - destruct (proj2 H e) as [? [=]]. }
  unfold stack_frame, int_frame. rewrite E, <- app_assoc. do 2 f_equal. cbn [app]. f_equal. f_equal.
  rewrite length_app. unfold cpu_words, frame_len. destruct (in_kernel_mode _); cbn [length app]; lia.
Qed.

Lemma no_code_80 : entry_agrees 0x80 None.
Proof. split; [by intros []|done]. Qed.

Section taking_steps.
  Context (n : Z) (err : option Z) (c : context) (esp0 : Z) (m : gmap Z Z) (s : machine).
  #[local] Abbreviation top := (frame_top c esp0).
  #[local] Abbreviation at_ l := (top - 4 * Z.of_nat (length (l : list Z))).
  #[local] Abbreviation cpu_pushes := (cpu_words c ++ match err with Some e => [e] | None => [] end).
  #[local] Abbreviation frame := (stack_frame n err c top).
  Context (Htop : 4 * Z.of_nat (length frame) <= top < 2 ^ 32).
  Context (Hr : readable m (at_ frame) (4 * Z.of_nat (length frame))).

Lemma frame_split : frame = cpu_pushes ++ (if n =? 0x1E then [] else [0]) ++ saved_words n c (at_ (taken_words n err c)).
Proof. unfold stack_frame, taken_words. by rewrite <- !app_assoc. Qed.

Lemma cpu_interrupt_ok : cpu_interrupt esp0 err c (set_ram m s) =
  Ret (at_ cpu_pushes, interrupted c (pushed m top cpu_pushes) s).
Proof.
  pose proof (conj Htop Hr) as Hroom. rewrite frame_split in Hroom.
  apply (room_prefix top m cpu_pushes) in Hroom.
  assert (cpu_interrupt esp0 err c (set_ram m s) =
    (let* esp := pushes (cpu_words c) (at_ []) in
     let* esp := (match err with Some e => push e esp | None => ret esp end) in
     modify (set_eflags (Z.ldiff (r_eflags c) EFLAGS_IF)) ;;; ret esp) (set_ram (pushed m top []) s)) as ->.
  { cbn [length]. rewrite Z.mul_0_r, Z.sub_0_r. cbn [pushed].
    unfold cpu_interrupt, cpu_words, frame_top. destruct (in_kernel_mode (r_cs c)); [done|].
    unfold bind. cbn [pushes app]. unfold bind, ret.
    destruct (push (r_ss c) esp0 (set_ram m s)) as [[e1 s1]| | | |]; [|done..].
    by destruct (push (r_esp c) e1 s1) as [[e2 s2]| | | |]. }
  rewrite (push_behind top m [] (cpu_words c) s _ (room_prefix top m _ _ Hroom)). cbn [app].
  destruct err as [e|]; [|by rewrite app_nil_r].
  by rewrite (push_behind1 top m (cpu_words c) e s _ Hroom).
Qed.

Lemma INTR_entry_ok :
  INTR_entry n c (at_ cpu_pushes) (set_ram (pushed m top cpu_pushes) s) =
    Ret (at_ frame, set_ram (pushed m top frame) (with_outs eoi s)).
Proof.
  pose proof (conj Htop Hr) as Hroom. unfold stack_frame in *.
  pose proof (saved_ok n c top m (taken_words n err c) s ret (outb 0xa0 0x20 ;;; outb 0x20 0x20) (with_outs eoi)
    Hroom (fun _ _ => eq_refl)) as E.
  unfold ret in E. rewrite <- E. unfold INTR_entry.
  assert (taken_words n err c = cpu_pushes ++ (if n =? 0x1E then [] else [0])) as Et
    by (unfold taken_words; by rewrite app_assoc).
  rewrite Et. apply (room_prefix top m) in Hroom. rewrite Et in Hroom.
  transitivity ((let* esp := save_segments c (at_ (taken_words n err c)) in
    let* esp := pushad c esp in outb 0xa0 0x20 ;;; outb 0x20 0x20 ;;; push n esp) (set_ram (pushed m top (taken_words n err c)) s)).
  - rewrite Et. destruct (n =? 0x1E); [by rewrite app_nil_r|].
    by rewrite (push_behind1 top m cpu_pushes 0 s _ Hroom).
  - rewrite Et. do 2 (apply bind_ext; intros). rewrite bind_assoc.
    do 2 (apply bind_ext; intros). unfold bind. by destruct (push n _ _) as [[? ?]| | | |].
Qed.

End taking_steps.

(** A result stored into the frame's eax. *)
Lemma frame_set_eax m k v c : 0 <= v < 2 ^ 32 -> frame_context m k = Some c ->
  frame_context (setw m (k + 32) v) k = Some (set_eax v c).
Proof.
  intros Hv. assert (forall d, d + 4 <= 32 \/ 36 <= d -> word (setw m (k + 32) v) (k + d) = word m (k + d)) as H
    by (intros d Hd; apply word_setw_ne; lia).
  unfold frame_context. cbv zeta. rewrite word_setw_eq, !H by (done || lia).
  repeat (match goal with |- context [match word m ?a with _ => _ end] => destruct (word m a); [|done] end).
  destruct (in_kernel_mode _); [by intros [= <-]|].
  repeat (match goal with |- context [match word m ?a with _ => _ end] => destruct (word m a); [|done] end).
  by intros [= <-].
Qed.

(** ** The theorems *)

Definition resumed (c : context) (s s2 : kernel) : kernel :=
  set_esp (if in_kernel_mode (r_cs c) then r_esp c else esp s) (set_mach (set_eflags (r_eflags c) (mach s2)) s2).

Section entries.
  Context (c : context) (Hc : context_ok c) (s : kernel).
  #[local] Abbreviation top := (frame_top c (esp0 s)).
  #[local] Abbreviation m := (ram (mach s)).
  #[local] Abbreviation in_frame := (fun a => top - frame_len c <= a < top).

(** The state in which the function of vector [n] is called. *)
Definition entered (n : Z) (err : option Z) : kernel :=
  let frame := stack_frame n err c top in
  set_esp (top - 4 * Z.of_nat (length frame))
    (set_mach (with_outs eoi (interrupted c (pushed m top frame) (mach s))) s).

(** The state in which the function of a system call is called: its arguments lie below the frame. *)
Definition args_ram : gmap Z Z :=
  pushed (pushed m top (int_frame 0x80 0 c top)) (top - frame_len c) [r_edx c; r_ecx c; r_ebx c].
Definition called : kernel :=
  set_esp (top - frame_len c - 12) (set_mach (interrupted c args_ram (mach s)) s).

(** A function that has returned: its caller's stack is as it was. *)
Definition frame_kept (s1 s2 : kernel) : Prop :=
  esp s2 = esp s1 /\ forall a, in_frame a -> ram (mach s2) !! a = ram (mach s1) !! a.

Context (Htop : 88 <= top < 2 ^ 32 - 8).

Lemma top_in_kernel : in_kernel_mode (r_cs c) = true -> top = r_esp c.
Proof. unfold frame_top. by intros ->. Qed.

(** The way through an entry: the registers the interrupted code goes on with are those that the stack
    the function leaves stands for. *)
Lemma INTR_runs n e handler s2 c' : let err := error_code n e in
  let l := stack_frame n err c top in let k := top - 4 * Z.of_nat (length l) in
  68 <= 4 * Z.of_nat (length l) <= top -> readable m k (4 * Z.of_nat (length l)) ->
  handler (entered n err) = Ret (tt, s2) -> esp s2 = k -> frame_context (ram (mach s2)) k = Some c' ->
  INTR n e handler c s = Ret (c', resumed c' s s2).
Proof.
  cbv zeta. set (err := error_code n e). intros Hl Hr Hh Hsp Hf. unfold INTR. rewrite (bind_Ret get _ s s s eq_refl).
  pose proof (cpu_interrupt_ok n err c (esp0 s) m (mach s) ltac:(lia) Hr) as E1. rewrite set_ram_id in E1.
  rewrite (bind_Ret _ _ _ _ _ (on_mach_ok _ _ _ _ E1)).
  pose proof (INTR_entry_ok n err c (esp0 s) m (set_eflags (Z.ldiff (r_eflags c) EFLAGS_IF) (mach s)) ltac:(lia) Hr) as E2.
  rewrite (bind_Ret _ _ _ _ _ (on_mach_ok _ (set_mach (interrupted c _ (mach s)) s) _ _ E2)).
  rewrite (bind_Ret _ _ _ tt (entered n err)) by done. rewrite (bind_Ret _ _ _ _ _ Hh).
  rewrite (bind_Ret get _ s2 s2 s2 eq_refl). rewrite Hsp.
  pose proof (IntExit_ok _ (mach s2) (top - 4 * Z.of_nat (length (stack_frame n err c top))) c' ltac:(lia) ltac:(lia) Hf) as E3.
  rewrite set_ram_id in E3. rewrite (bind_Ret _ _ _ _ _ (on_mach_ok _ _ _ _ E3)). by rewrite set_mach_id.
Qed.

(** C13: an interrupt is invisible to the code it interrupts, in user mode or in the kernel, if it has no
    error code, or its vector is 0x1E, the one whose entry counts on it (VECTOR makes the entries 0 to
    0x2F).  Its function is called with interrupts off, the interrupt controllers acknowledged and nothing of memory changed
    but the 17 or 19 words below the stack pointer the processor chose; and when the function
    returns, with those words as they were, [IntExit] gives back every register, the stack pointer
    and the flags, and whatever else the function did stays.  (For the exceptions that have an error
    code and another vector this is false: [interrupt_misframed].) *)
Theorem interrupt_transparent n e handler s2 : 0 <= n < 0x30 -> 0 <= e < 2 ^ 32 ->
  (has_error_code n = true -> n = 0x1E) -> readable m (top - frame_len c) (frame_len c) ->
  let s1 := entered n (error_code n e) in
  handler s1 = Ret (tt, s2) -> frame_kept s1 s2 ->
  if_flag (eflags (mach s1)) = INT_OFF /\ outs (mach s1) = eoi ++ outs (mach s) /\
  same_outside in_frame m (ram (mach s1)) /\
  INTR n e handler c s = Ret (c, resumed c s s2).
Proof.
  intros Hn30 He Ha Hr s1 Hh [Hsp Hk]. assert (0 <= n < 256) as Hn by lia. pose proof (frame_len_range c) as Hl.
  set (err := error_code n e) in *.
  assert (0 <= default 0 err < 2 ^ 32) as Herr by (unfold err, error_code; destruct (has_error_code n); cbn; lia).
  pose proof (stack_frame_agrees n err c top (error_code_agrees n e Ha)) as Ef.
  pose proof (length_frame n (default 0 err) c top) as El.
  split; [apply if_flag_cli|]. split; [done|]. split.
  { intros a Hin. apply pushed_out. rewrite Ef, El. lia. }
  apply INTR_runs; fold err; rewrite ?Ef, ?El; try done; try lia.
  - rewrite Hsp. cbn [s1 entered esp set_esp]. by rewrite Ef, El.
  - apply (frame_ok n (default 0 err) c Hn Herr Hc top ltac:(lia) top_in_kernel m).
    intros a Hin. rewrite Hk by done. cbn [s1 entered mach set_esp set_mach]. by rewrite Ef.
Qed.

(** An exception with an error code [e] goes through an entry that pushes a 0 on top of it (every vector
    but 0x1E): the word [IntExit] skips is that 0, so [iretd] is given the error code as the address
    to go on at, the interrupted address as its code segment and the code segment as flags.  (What
    the processor makes of such a code segment, a fault of its own most likely, is not modelled.) *)
Theorem interrupt_misframed n e handler s2 : let k := esp (entered n (Some e)) in
  0 <= n < 0x30 -> has_error_code n = true -> n <> 0x1E -> 0 <= e < 2 ^ 32 ->
  readable m (top - frame_len c - 4) (frame_len c + 4) ->
  handler (entered n (Some e)) = Ret (tt, s2) -> esp s2 = k ->
  (forall a, k <= a < top -> ram (mach s2) !! a = ram (mach (entered n (Some e))) !! a) ->
  readable (ram (mach s2)) top 4 ->
  exists c' : context, INTR n e handler c s = Ret (c', resumed c' s s2) /\
    r_eip c' = e /\ r_cs c' = u16 (r_eip c) /\ r_eflags c' = r_cs c.
Proof.
  cbn [entered esp set_esp]. intros Hn30 Hcode Hne He Hr Hh Hsp Hk Hrt. pose proof (frame_len_range c) as Hl.
  assert (0 <= n < 256) as Hn by lia.
  set (l := stack_frame n (Some e) c top) in *.
  assert (l = cpu_words c ++ e :: 0 :: saved_words n c (top - frame_len c + 48)) as Ef.
  { unfold l, stack_frame, taken_words. replace (n =? 0x1E) with false by lia. rewrite <- app_assoc. cbn [app].
    repeat f_equal. unfold cpu_words, frame_len. destruct (in_kernel_mode _); cbn [length app]; lia. }
  assert (4 * Z.of_nat (length l) = frame_len c + 4) as El.
  { rewrite Ef. unfold cpu_words, frame_len. by destruct (in_kernel_mode _). }
  assert (Forall (fun v => 0 <= v < 2 ^ 32) l) as Hrange.
  { destruct (context_range n c Hn Hc) as [H1 H2]. rewrite Ef. apply Forall_app. split; [done|].
    do 2 (constructor; [lia|]). apply H2. lia. }
  assert (forall d i v, d = 4 * Z.of_nat i -> reverse l !! i = Some v ->
    word (ram (mach s2)) (top - 4 * Z.of_nat (length l) + d) = Some v) as Hw
    by (intros d i v -> Hi; by apply (stack_word m)).
  assert (exists c', frame_context (ram (mach s2)) (top - 4 * Z.of_nat (length l)) = Some c' /\
    r_eip c' = e /\ r_cs c' = u16 (r_eip c) /\ r_eflags c' = r_cs c) as (c' & Hf & Hc').
  2:{ exists c'. split; [|done]. apply INTR_runs; unfold error_code; rewrite Hcode; fold l; try done; [lia|]. rewrite El.
      by replace (top - (frame_len c + 4)) with (top - frame_len c - 4) by lia. }
  assert (reverse l = [n; r_edi c; r_esi c; r_ebp c; top - frame_len c + 48 - 16; r_ebx c; r_edx c; r_ecx c; r_eax c;
    r_gs c; r_fs c; r_es c; r_ds c; 0; e; r_eip c; r_cs c; r_eflags c] ++
    (if in_kernel_mode (r_cs c) then [] else [r_esp c; r_ss c])) as Erev
    by (rewrite Ef; unfold cpu_words; by destruct (in_kernel_mode (r_cs c))).
  set (k := top - 4 * Z.of_nat (length l)) in *.
  assert (exists w, word (ram (mach s2)) (k + 72) = Some w) as [w Hw72].
  { unfold frame_len in El. destruct (in_kernel_mode (r_cs c)).
    - replace (k + 72) with top by (unfold k; lia). by apply word_readable.
    - exists (r_esp c). apply (Hw 72 18%nat _ eq_refl). by rewrite Erev. }
  rewrite Erev in Hw. clearbody k. unfold frame_context. cbv zeta.
  rewrite (Hw 4 1%nat _ eq_refl eq_refl), (Hw 8 2%nat _ eq_refl eq_refl), (Hw 12 3%nat _ eq_refl eq_refl),
    (Hw 16 4%nat _ eq_refl eq_refl), (Hw 20 5%nat _ eq_refl eq_refl), (Hw 24 6%nat _ eq_refl eq_refl),
    (Hw 28 7%nat _ eq_refl eq_refl), (Hw 32 8%nat _ eq_refl eq_refl), (Hw 36 9%nat _ eq_refl eq_refl),
    (Hw 40 10%nat _ eq_refl eq_refl), (Hw 44 11%nat _ eq_refl eq_refl), (Hw 48 12%nat _ eq_refl eq_refl),
    (Hw 56 14%nat _ eq_refl eq_refl), (Hw 60 15%nat _ eq_refl eq_refl), (Hw 64 16%nat _ eq_refl eq_refl),
    (Hw 68 17%nat _ eq_refl eq_refl), Hw72.
  destruct (in_kernel_mode (u16 (r_eip c))); eexists; split_and!; reflexivity.
Qed.

(** The entry of the system calls is that of a vector without error code with the arguments behind it. *)
Lemma syscall_entry_ok i : readable m (top - frame_len c) (frame_len c) ->
  readable (pushed m top (int_frame 0x80 0 c top)) (top - frame_len c - 12) 12 ->
  syscall_entry c (top - 4 * Z.of_nat (length (cpu_words c))) (set_ram (pushed m top (cpu_words c)) i) =
    Ret (top - frame_len c - 12, set_ram args_ram i).
Proof.
  intros Hr1 Hr2. pose proof (frame_len_range c) as Hl.
  pose proof (stack_frame_agrees 0x80 None c top no_code_80) as Ef. cbn [default] in Ef.
  pose proof (length_frame 0x80 0 c top) as El.
  assert (taken_words 0x80 None c = cpu_words c ++ [0]) as Et by done.
  pose proof (saved_ok 0x80 c top m (taken_words 0x80 None c) i (pushes [r_edx c; r_ecx c; r_ebx c]) (ret tt)
    (fun x => x)) as E. fold (stack_frame 0x80 None c top) in E. rewrite Ef, El in E.
  specialize (E ltac:(split; [lia|done]) ltac:(done)).
  unfold syscall_entry. rewrite (push_behind1 top m (cpu_words c) 0), <- Et.
  - etransitivity; [exact E|]. rewrite pushes_ok; [reflexivity|cbn; lia|exact Hr2].
  - apply (room_prefix top m _ (saved_words 0x80 c (top - frame_len c + 52))).
    replace ((cpu_words c ++ [0]) ++ _) with (int_frame 0x80 0 c top) by (unfold int_frame; by rewrite <- app_assoc).
    rewrite El. split; [lia|done].
Qed.

(** C24: a system call: the function gets ebx, ecx and edx of the caller as its arguments, with interrupts
    off, and when it returns, the caller goes on with its result in eax and every other register, the
    stack pointer and the flags as they were. *)
Theorem syscall_transparent call eax_left r s2 : 0 <= default eax_left r < 2 ^ 32 ->
  readable m (top - frame_len c - 12) (frame_len c + 12) ->
  call (r_eax c) (r_ebx c) (r_ecx c) (r_edx c) called = Ret (r, s2) -> frame_kept called s2 ->
  if_flag (eflags (mach called)) = INT_OFF /\
  word (ram (mach called)) (esp called) = Some (r_ebx c) /\ word (ram (mach called)) (esp called + 4) = Some (r_ecx c) /\
  word (ram (mach called)) (esp called + 8) = Some (r_edx c) /\
  exists m', syscall_stub call eax_left c s = Ret (set_eax (default eax_left r) c, resumed c s (set_mach (set_ram m' (mach s2)) s2)) /\
    same_outside in_frame (ram (mach s2)) m'.
Proof.
  intros Hv Hr Hcall Hk. pose proof (frame_len_range c) as Hl.
  set (k := top - frame_len c) in *. set (m1 := pushed m top (int_frame 0x80 0 c top)).
  assert (readable m k (frame_len c)) as Hr1 by (eapply readable_le; [exact Hr|lia|lia]).
  assert (readable m1 (k - 12) 12) as Hr2.
  { eapply stored_readable; [apply pushed_stored|]. eapply readable_le; [exact Hr|lia|lia]. }
  pose proof Hc as [Hg _ _]. repeat (apply Forall_cons in Hg as [? Hg]).
  split; [apply if_flag_cli|].
  assert (forall i v, [r_edx c; r_ecx c; r_ebx c] !! i = Some v -> 0 <= v < 2 ^ 32 ->
    word args_ram (k - 4 * Z.of_nat (S i)) = Some v) as Ha by (intros i v; apply pushed_word).
  change (ram (mach called)) with args_ram. change (esp called) with (k - 12).
  split; [by apply (Ha 2%nat)|]. split; [by replace (k - 12 + 4) with (k - 4 * Z.of_nat 2) by lia; apply (Ha 1%nat)|].
  split; [by replace (k - 12 + 8) with (k - 4 * Z.of_nat 1) by lia; apply (Ha 0%nat)|].
  set (v := default eax_left r) in *. destruct Hk as [He Hk]. change (esp called) with (k - 12) in He.
  assert (forall a, k <= a < top -> ram (mach s2) !! a = m1 !! a) as Hk1.
  { intros a Hin. rewrite Hk by done. apply pushed_out. right. apply Hin. }
  assert (frame_context (ram (mach s2)) k = Some c) as Hf
    by exact (frame_ok 0x80 0 c ltac:(lia) ltac:(lia) Hc top ltac:(lia) top_in_kernel m _ Hk1).
  exists (setw (ram (mach s2)) (k + 32) v). split.
  2:{ intros a Hin. apply setw_lookup_out. unfold k in *. lia. }
  unfold syscall_stub. rewrite (bind_Ret get _ s s s eq_refl).
  pose proof (stack_frame_agrees 0x80 None c top no_code_80) as Ef. cbn [default] in Ef.
  pose proof (length_frame 0x80 0 c top) as El.
  pose proof (cpu_interrupt_ok 0x80 None c (esp0 s) m (mach s)) as E1. rewrite set_ram_id, Ef, El in E1.
  specialize (E1 ltac:(lia) Hr1). rewrite app_nil_r in E1. rewrite (bind_Ret _ _ _ _ _ (on_mach_ok _ _ _ _ E1)).
  set (i1 := set_eflags (Z.ldiff (r_eflags c) EFLAGS_IF) (mach s)).
  pose proof (syscall_entry_ok i1 Hr1 Hr2) as E2.
  rewrite (bind_Ret _ _ _ _ _ (on_mach_ok _ (set_mach (interrupted c (pushed m top (cpu_words c)) (mach s)) s) _ _ E2)).
  rewrite (bind_Ret _ _ _ tt called) by done. rewrite (bind_Ret _ _ _ _ _ Hcall).
  rewrite (bind_Ret get _ s2 s2 s2 eq_refl). rewrite He. cbv zeta.
  replace (k - 12 + 12) with k by lia. rewrite (u32_id k), u32_id by (unfold k; lia).
  assert (readable (ram (mach s2)) (k + 8 * 4) 4) as Hr3.
  { intros a Hin. rewrite Hk1 by (unfold k in *; lia). apply (pushed_stored m top). apply Hr1. unfold k in *. lia. }
  rewrite (bind_Ret _ _ _ _ _ (on_mach_ok _ s2 _ _ (st32_ok (mach s2) (k + 8 * 4) v ltac:(by apply word_readable)))).
  set (m2 := setw (ram (mach s2)) (k + 8 * 4) v).
  pose proof (IntExit_ok m2 (mach s2) k (set_eax v c) ltac:(unfold k; lia) ltac:(unfold k; lia) (frame_set_eax _ k v c Hv Hf)) as E3.
  rewrite (bind_Ret _ _ _ _ _ (on_mach_ok _ (set_mach (set_ram m2 (mach s2)) s2) _ _ E3)). done.
Qed.

End entries.

(** ** Examples: the clock interrupts the main thread; a process asks for its identifier *)

Definition stack_ram : gmap Z Z := write_bytes ∅ 0xC0120E00 (replicate 512 0).
Definition entry_kernel : kernel :=
  set_esp0 0xC0121000 (set_mach (Machine stack_ram 0x202 [] []) (set_esp 0xC0120F00 demo_kernel)).
Definition kernel_context : context :=
  Context 1 2 3 4 5 6 7 0x18 0x10 0x10 0x10 0xC0001500 8 0x202 0xC0120F00 SELECTOR_K_STACK.
Definition getpid_context : context :=
  Context 1 2 3 4 5 6 SYS_GETPID 0x33 0x33 0x33 0x33 0x8048000 0x2B 0x202 0x7FFFDFF0 0x33.

Lemma entry_stack : readable stack_ram 0xC0120E00 512.
Proof. apply (write_bytes_region ∅ 0xC0120E00 (replicate 512 0)). Qed.

Lemma kernel_context_ok : context_ok kernel_context.
Proof. by constructor; [repeat constructor..|]. Qed.

Lemma getpid_context_ok : context_ok getpid_context.
Proof. by constructor; [repeat constructor..|]. Qed.

(** Neither function looks at the stack. *)
Lemma tick_runs r : let s := set_esp 0xC0120EBC (set_mach (Machine r 2 eoi []) entry_kernel) in
  exists s2, IntTimerHandler s = Ret (tt, s2) /\ ticks s2 = 1 /\ esp s2 = esp s /\ ram (mach s2) = r.
Proof. eexists. split; [vm_compute; reflexivity|]. split_and!; reflexivity. Qed.

Lemma getpid_runs r : let s := set_esp 0xC0120FA8 (set_mach (Machine r 2 [] []) entry_kernel) in
  syscall_handler (H := demo_env) 0 0 full_table SYS_GETPID 4 6 5 s = Ret (Some 1, s).
Proof. vm_compute. reflexivity. Qed.

Lemma interrupt_transparent_witness : exists s2,
  IntTimerHandler (entered kernel_context entry_kernel 0x20 None) = Ret (tt, s2) /\ ticks s2 = 1 /\
  INTR 0x20 0 IntTimerHandler kernel_context entry_kernel = Ret (kernel_context, resumed kernel_context entry_kernel s2).
Proof.
  destruct (tick_runs (pushed stack_ram 0xC0120F00 (int_frame 0x20 0 kernel_context 0xC0120F00))) as (s2 & H1 & H2 & H3 & H4).
  exists s2. split; [exact H1|]. split; [exact H2|].
  apply (interrupt_transparent kernel_context kernel_context_ok entry_kernel).
  - split; [discriminate|reflexivity].
  - split; [discriminate|reflexivity].
  - split; [discriminate|reflexivity].
  - discriminate.
  - eapply readable_le; [apply entry_stack|discriminate|discriminate].
  - exact H1.
  - split; [exact H3|]. intros a _. rewrite H4. reflexivity.
Defined.

Lemma syscall_transparent_witness : exists m',
  syscall_stub (syscall_handler (H := demo_env) 0 0 full_table) 0 getpid_context entry_kernel =
    Ret (set_eax 1 getpid_context, resumed getpid_context entry_kernel
      (set_mach (set_ram m' (mach (called getpid_context entry_kernel))) (called getpid_context entry_kernel))).
Proof.
  destruct (syscall_transparent getpid_context getpid_context_ok entry_kernel ltac:(done)
    (syscall_handler (H := demo_env) 0 0 full_table) 0 (Some 1) (called getpid_context entry_kernel)) as (_ & _ & _ & _ & m' & H & _).
  - done.
  - eapply readable_le; [apply entry_stack|done|done].
  - exact (getpid_runs (args_ram getpid_context entry_kernel)).
  - split; [done|]. by intros a _.
  - exists m'. exact H.
Defined.
