(* ===== verification/Thread.v ===== *)
(** * thread/thread.c: process identifiers, creation of threads, set-up of the scheduler

    A PCB lies in byte memory and is at the same time a record of [pcbs]: [InitThread] clears the
    bytes (the bytes of [user_arena_descs] are used as memory later) and makes the record.  The
    frame that [ThreadCreate] lays out for the first switch to a thread is byte memory. *)
From stdpp Require Import base list gmap strings.
From S2P Require Import Prelude Machine CString Bitmap Print Interrupt KList Paging State Sched Timer Sync.
From S2P Require Import Pool Palloc Arena Heap Malloc MemInit PageDir.

(** ** Layout *)
Definition sizeof_PCB : Z := 236.
Definition sizeof_INT_stack : Z := 76.
Definition sizeof_thread_stack : Z := 32.

(** A PCB filled with zero bytes. *)
Definition zero_PCB : PCB :=
  Pcb 0 0 TASK_RUNNING 0 (replicate 16 0) 0 0 0 (VirtualAddr (Bitmap 0 0) 0) 0.

(** [strcpy] into [name], an array of 16 bytes.  The code does not limit the length: a longer string
    runs into [cpu_ticks_left], the list elements and [PDE_addr], which [InitThread] and its callers
    write afterwards, so that the record sees the first 16 bytes only; one of more than 38
    characters reaches [userprog_vaddr], which the model does not follow. *)
Fixpoint c_chars (l : list Z) : list Z :=
  match l with
  | [] => []
  | b :: l' => if u8 b =? 0 then [] else u8 b :: c_chars l'
  end.
Definition copy_name (p : Z) (name : list Z) : M kernel unit :=
  if (length (c_chars name) <=? 38)%nat then
    upd_pcb p (set_name (take 16 (c_chars name ++ replicate 16 0)))
  else fault (p + 52).

(** The body of a kernel thread: interrupts go on, then its function runs. *)
Definition KernelThread {A} (function : Z -> M kernel A) (func_arg : Z) : M kernel A :=
  let* _ := on_mach EnableInt in
  function func_arg.

Section threads.
  Context `{Env}.
  (* the address of the code of [KernelThread] *)
  Context (KernelThread_addr : Z).

Definition AllocatePid (fuel : nat) : M kernel Z :=
  sys_lock_lock fuel pid_lock ;;;
  modify (fun s => set_next_pid (u16 (next_pid s + 1)) s) ;;;
  sys_lock_unlock pid_lock ;;;
  let* s := get in
  ret (next_pid s).

Definition InitThread (fuel : nat) (pthread : Z) (name : list Z) (priority : Z) : M kernel unit :=
  on_mach (memset pthread 0 sizeof_PCB) ;;;
  modify (fun s => set_pcbs (<[pthread := zero_PCB]> (pcbs s)) s) ;;;
  let* pid := AllocatePid fuel in
  upd_pcb pthread (set_pid pid) ;;;
  copy_name pthread name ;;;
  let* s := get in
  (if pthread =? main_thread s then upd_pcb pthread (set_status TASK_RUNNING)
   else upd_pcb pthread (set_status TASK_READY)) ;;;
  upd_pcb pthread (set_priority (u8 priority)) ;;;
  upd_pcb pthread (set_ticks_left (u8 priority)) ;;;
  upd_pcb pthread (set_ticks_elapsed 0) ;;;
  upd_pcb pthread (set_PDE 0) ;;;
  upd_pcb pthread (set_stack (u32 (pthread + PAGE_SIZE))) ;;;
  upd_pcb pthread (set_canary STACK_CANARY).

(** [self_kernel_stack] is a [uint32_t *]: subtracting [n] from it takes [4 * n] bytes. *)
Definition ThreadCreate (pthread function func_arg : Z) : M kernel unit :=
  upd_pcb pthread (fun c => set_stack (u32 (self_kernel_stack c - 4 * sizeof_INT_stack)) c) ;;;
  upd_pcb pthread (fun c => set_stack (u32 (self_kernel_stack c - 4 * sizeof_thread_stack)) c) ;;;
  let* c := get_pcb pthread in
  let kernel_thread := self_kernel_stack c in
  on_mach (st32 (kernel_thread + 16) KernelThread_addr) ;;;
  on_mach (st32 (kernel_thread + 24) function) ;;;
  on_mach (st32 (kernel_thread + 28) func_arg) ;;;
  on_mach (st32 (kernel_thread + 8) 0) ;;;
  on_mach (st32 (kernel_thread + 12) 0) ;;;
  on_mach (st32 kernel_thread 0) ;;;
  on_mach (st32 kernel_thread 0).

(** Linking a thread into the list of all threads, from line [line] of function [f]. *)
Definition link_all (f : string) (line : Z) (pthread : Z) : M kernel unit :=
  let* found := on_all (Find (all_list_tag pthread)) in
  ASSERT (negb (is_true_c found)) f line ;;;
  let* _ := on_all (Append (all_list_tag pthread)) in
  ret tt.
Definition link_ready (f : string) (line : Z) (pthread : Z) : M kernel unit :=
  let* found := on_ready (Find (general_tag pthread)) in
  ASSERT (negb (is_true_c found)) f line ;;;
  let* _ := on_ready (Append (general_tag pthread)) in
  ret tt.

Definition ThreadStart (fuel : nat) (name : list Z) (priority function func_arg : Z) : M kernel Z :=
  let* thread_PCB := kpalloc fuel 1 in
  InitThread fuel thread_PCB name priority ;;;
  ThreadCreate thread_PCB function func_arg ;;;
  link_ready "ThreadStart" 126 thread_PCB ;;;
  link_all "ThreadStart" 129 thread_PCB ;;;
  ret thread_PCB.

Definition CreateMainThread (fuel : nat) : M kernel unit :=
  let* p := GetCurrentThreadPCB in
  modify (set_main p) ;;;
  let* s := get in
  InitThread fuel (main_thread s) (literal "main") 31 ;;;
  link_all "CreateMainThread" 140 (main_thread s).

(** [list_init] makes the empty list (KList). *)
Definition ThreadInit (fuel : nat) : M kernel unit :=
  let* _ := on_mach (sys_putstr "thread_init..") in
  modify (set_ready []) ;;;
  modify (set_all []) ;;;
  LockInit pid_lock ;;;
  CreateMainThread fuel ;;;
  let* _ := on_mach (sys_putline " done") in
  ret tt.

End threads.

(** ** One function at a time *)

Definition with_pcb (p : Z) (c : PCB) (s : kernel) : kernel := set_pcbs (<[p := c]> (pcbs s)) s.

Lemma upd_with_pcb p f c s : upd_pcb p f (with_pcb p c s) = Ret (tt, with_pcb p (f c) s).
Proof.
  rewrite (upd_pcb_ok _ _ _ c) by apply lookup_insert_eq. unfold with_pcb. cbn [pcbs set_pcbs].
  by rewrite insert_insert_eq.
Qed.

Lemma get_with_pcb p c s : get_pcb p (with_pcb p c s) = Ret (c, with_pcb p c s).
Proof. apply get_pcb_ok, lookup_insert_eq. Qed.

Lemma bind_upd {B} p f c s (k : unit -> M kernel B) :
  bind (upd_pcb p f) k (with_pcb p c s) = k tt (with_pcb p (f c) s).
Proof. by rewrite (bind_Ret _ _ _ _ _ (upd_with_pcb p f c s)). Qed.

(** The PCB [InitThread] makes, and the one with room for the first frame. *)
Definition fresh_PCB (p n : Z) (name : list Z) (st : task_status) (priority : Z) : PCB :=
  Pcb (u32 (p + PAGE_SIZE)) n st (u8 priority) (take 16 (c_chars name ++ replicate 16 0)) (u8 priority) 0 0
    (VirtualAddr (Bitmap 0 0) 0) STACK_CANARY.

Definition next (n : Z) : Z := u16 (n + 1).

(** The memory with a cleared PCB at [p]. *)
Definition clear_PCB (p : Z) (m : gmap Z Z) : gmap Z Z := write_bytes m p (replicate 236 (u8 0)).

Section steps.
  Context `{Env}.
  Context (KernelThread_addr : Z).

Lemma AllocatePid_ok fuel s : locks s !! pid_lock = Some free_lock -> cur s <> 0 ->
  AllocatePid (S fuel) s = Ret (next (next_pid s), set_next_pid (next (next_pid s)) s).
Proof.
  intros Hl Hc. unfold AllocatePid. rewrite (bind_Ret _ _ _ _ _ (lock_free_ok fuel _ s Hl Hc)).
  set (s1 := set_next_pid (next (next_pid s)) (with_lock pid_lock (held_lock (cur s) 1) s)).
  rewrite (bind_Ret _ _ _ tt s1) by done.
  rewrite (bind_Ret _ _ _ tt (set_next_pid (next (next_pid s)) s)); [done|].
  rewrite (unlock_last_ok pid_lock s1) by apply with_lock_lookup. do 2 f_equal.
  change (with_lock pid_lock free_lock s1) with (set_next_pid (next (next_pid s))
    (with_lock pid_lock free_lock (with_lock pid_lock (held_lock (cur s) 1) s))).
  by rewrite with_lock_twice, with_lock_id.
Qed.

Lemma InitThread_ok fuel p name priority s :
  locks s !! pid_lock = Some free_lock -> cur s <> 0 -> 0 < p -> p + 4096 < 2 ^ 32 ->
  readable (ram (mach s)) p sizeof_PCB -> (length (c_chars name) <= 38)%nat ->
  InitThread (S fuel) p name priority s =
    Ret (tt, with_pcb p (fresh_PCB p (next (next_pid s)) name
          (if p =? main_thread s then TASK_RUNNING else TASK_READY) priority)
        (set_next_pid (next (next_pid s)) (with_mem (clear_PCB p (ram (mach s))) (pg s) s))).
Proof.
  intros Hl Hc Hp Hp2 Hr Hname. unfold InitThread.
  set (s1 := with_mem (clear_PCB p (ram (mach s))) (pg s) s).
  rewrite (bind_Ret _ _ s tt s1).
  2:{ rewrite (on_mach_ok _ s tt (set_ram (clear_PCB p (ram (mach s))) (mach s))).
      - unfold s1, with_mem. by destruct s.
      - unfold memset. rewrite (bind_Ret _ _ _ tt (mach s)) by (apply ASSERT_true, negb_eqb_true; lia).
        apply (memset_loop 0 236); [lia|lia|exact Hr|lia]. }
  rewrite (bind_Ret _ _ s1 tt (with_pcb p zero_PCB s1)) by done.
  rewrite (bind_Ret _ _ _ _ _ (AllocatePid_ok fuel (with_pcb p zero_PCB s1) Hl Hc)).
  change (set_next_pid _ (with_pcb p zero_PCB s1)) with (with_pcb p zero_PCB (set_next_pid (next (next_pid s)) s1)).
  change (next_pid (with_pcb p zero_PCB s1)) with (next_pid s).
  rewrite bind_upd. unfold copy_name. rewrite (proj2 (Nat.leb_le _ _) Hname).
  rewrite bind_upd. rewrite (bind_Ret get _ _ _ _ eq_refl).
  change (main_thread (with_pcb _ _ _)) with (main_thread s).
  destruct (p =? main_thread s); rewrite !bind_upd, upd_with_pcb; done.
Qed.

(** The frame of a new thread, at [k]. *)
Definition first_frame (m : gmap Z Z) (k function func_arg : Z) : gmap Z Z :=
  setw (setw (setw (setw (setw (setw (setw m (k + 16) KernelThread_addr) (k + 24) function) (k + 28) func_arg)
    (k + 8) 0) (k + 12) 0) k 0) k 0.

Lemma store_ok a v m p s : is_Some (word m a) ->
  on_mach (st32 a v) (with_mem m p s) = Ret (tt, with_mem (setw m a v) p s).
Proof. intros Hw. apply (on_mach_ok _ (with_mem m p s)). by rewrite st32_ok. Qed.

Lemma bind_store {B} a v (k : unit -> M kernel B) m p s : is_Some (word m a) ->
  bind (on_mach (st32 a v)) k (with_mem m p s) = k tt (with_mem (setw m a v) p s).
Proof. intros Hw. by apply bind_Ret, store_ok. Qed.

Lemma ThreadCreate_ok p c s function func_arg m g : 0 < p -> p + 4096 < 2 ^ 32 ->
  self_kernel_stack c = u32 (p + PAGE_SIZE) -> readable m (p + 3664) 32 ->
  ThreadCreate KernelThread_addr p function func_arg (with_pcb p c (with_mem m g s)) =
    Ret (tt, with_pcb p (set_stack (p + 3664) c) (with_mem (first_frame m (p + 3664) function func_arg) g s)).
Proof.
  intros Hp Hp2 Hst Hr. unfold ThreadCreate. rewrite !bind_upd.
  match goal with |- bind _ _ (with_pcb p ?c' _) = _ => replace c' with (set_stack (p + 3664) c) end.
  2:{ unfold set_stack. cbn [self_kernel_stack pid status priority name cpu_ticks_left cpu_ticks_elapsed PDE_addr
        userprog_vaddr canary]. rewrite Hst. unfold sizeof_INT_stack, sizeof_thread_stack, PAGE_SIZE.
      f_equal. rewrite (u32_id (p + 4096)) by lia. rewrite (u32_id (p + 4096 - _)) by lia. rewrite u32_id; lia. }
  rewrite (bind_Ret _ _ _ _ _ (get_with_pcb p (set_stack (p + 3664) c) (with_mem m g s))).
  cbn [self_kernel_stack set_stack].
  change (with_pcb p ?c' (with_mem m g s)) with (with_mem m g (with_pcb p c' s)).
  set (s' := with_pcb p (set_stack (p + 3664) c) s).
  assert (forall m' a, readable m' (p + 3664) 32 -> p + 3664 <= a <= p + 3664 + 28 -> is_Some (word m' a)) as Hw.
  { intros m' a Hm' Ha. apply word_readable. eapply readable_le; [exact Hm'|lia|lia]. }
  rewrite !bind_store by (apply Hw; [auto 10 using setw_readable|lia]).
  rewrite store_ok; [done|]. apply Hw; [auto 10 using setw_readable|lia].
Qed.

End steps.

(** ** The invariant of the threads *)

(** The page directory of a process, at [v] in the kernel's heap, in the frame [d]. *)
Definition proc_dir (ps : pools) (g : paging) (v d : Z) : Prop :=
  in_space (kernel_vaddr ps) v /\ v mod 4096 = 0 /\ process_dir (phys g) 0x100000 d /\
  exists q, maps_frame ps g v KERNEL_POOL q /\ d = frame (kernel_memory_pool ps) q.

(** The directory of the thread with PCB [c] is [d]; kernel threads have the one of the loader. *)
Definition dir_of (ps : pools) (g : paging) (c : PCB) (d : Z) : Prop :=
  (PDE_addr c = 0 /\ d = 0x100000) \/ (PDE_addr c <> 0 /\ proc_dir ps g (PDE_addr c) d).

(** The addresses that all directories translate alike. *)
Definition shared (a : Z) : Prop := 0 <= a < 2 ^ 22 \/ 768 * 2 ^ 22 <= a < 2 ^ 32.

(** The address spaces, while the kernel's own is in use: the heap is in the half that all directories
    share, and the loader has made tables for all of it; the bitmaps are in shared memory. *)
Record dirs_ok (dirs : Z -> Z) (s : kernel) : Prop := DirsOk {
  do_cr3 : cr3 (pg s) = 0x100000;
  do_half : 768 * 2 ^ 22 <= vaddr_start (kernel_vaddr (mem s));
  do_bitmaps : forall i a, let b := bitmap_at (mem s) (kernel_vaddr (mem s)) i in
    bits b <= a <= bits b + bitmap_bytes_len b -> shared a;
  do_tables : forall va, in_space (kernel_vaddr (mem s)) va -> is_Some (table_of (phys (pg s)) 0x100000 va);
  do_dirs : forall p c, pcbs s !! p = Some c -> dir_of (mem s) (pg s) c (dirs p)
}.

(** No processes. *)
Definition kernel_dirs (_ : Z) : Z := 0x100000.

(** Between two calls of a running kernel thread: the scheduler's and the page allocator's invariants;
    the address spaces; every PCB inside the kernel's heap is a mapped page; the list of all threads
    is the list of the PCBs; nobody holds the locks for new threads. *)
Record threads_ok (dirs : Z -> Z) (s : kernel) : Prop := ThreadsOk {
  to_sched : sched_ok dirs TASK_RUNNING s;
  to_mem : mem_ok (mem s) (kernel_vaddr (mem s)) (ram (mach s)) (pg s);
  to_mapped : forall p, is_Some (pcbs s !! p) -> in_space (kernel_vaddr (mem s)) p -> translate (pg s) p <> None;
  to_dirs : dirs_ok dirs s;
  to_all : forall tag, tag ∈ all_thread_list s <-> exists p, is_Some (pcbs s !! p) /\ tag = all_list_tag p;
  to_nodup : NoDup (all_thread_list s);
  to_main : is_Some (pcbs s !! main_thread s);
  to_pid_lock : locks s !! pid_lock = Some free_lock;
  to_pool_lock : locks s !! kernel_pool_lock = Some free_lock
}.

(** *** Address spaces *)

Lemma page_frame_of d : 0 <= d < 2 ^ 32 -> d mod 4096 = 0 -> frame_of d = d.
Proof. intros H1 H2. rewrite frame_of_eq by done. lia. Qed.

Lemma proc_dir_grown ps V m m' g g' v d : V = kernel_vaddr ps -> mem_ok ps V m g -> mem_ok ps V m' g' ->
  cr3 g = 0x100000 -> grown ps V g g' ->
  (forall va, in_space V va -> is_Some (table_of (phys g) 0x100000 va)) ->
  proc_dir ps g v d -> proc_dir ps g' v d.
Proof.
  intros -> Hm Hm' Hcr [G1 G2 G3 G4] Htab (V1 & V2 & [P1 P2] & q & (Q1 & Q2 & Q3) & ->).
  rewrite Hcr in G4. change (frame_of 0x100000) with 0x100000 in G4.
  set (d := frame (kernel_memory_pool ps) q) in *.
  assert (forall a, d <= a < d + 4096 -> phys g' !! a = phys g !! a) as Hd.
  { intros a Ha. by apply (G2 KERNEL_POOL q v a V1). }
  assert (forall i, 0 <= i < 1024 -> pde_at (phys g') d i = pde_at (phys g) d i) as Hi.
  { intros i Hi. apply word_eq. intros k Hk. apply Hd. lia. }
  split; [done|]. split; [done|]. split; [|exists q; split; [split; [exact Q1|split; [exact Q2|by apply G1]]|done]]. split.
  - destruct P1 as (_ & D1 & D2 & D3 & D4 & (e & E1 & E2) & D5).
    split; [apply (mo_dir _ _ _ _ Hm')|]. split; [exact D1|]. split; [exact D2|]. split; [exact D3|].
    split; [by apply G3|]. split; [exists e; by rewrite Hi|].
    intros i x Hx. rewrite Hi by lia. intros X1 X2. destruct (D5 i x Hx X1 X2) as (Y1 & Y2 & Y3). auto.
  - intros i Hx. rewrite Hi, P2 by lia. by rewrite (G4 Htab) by lia.
Qed.

(** All directories translate the directories alike, so that a switch can load any of them. *)
Lemma dirs_spaces dirs s : mem_ok (mem s) (kernel_vaddr (mem s)) (ram (mach s)) (pg s) -> dirs_ok dirs s ->
  spaces_ok dirs s.
Proof.
  intros Hm [C1 C2 _ C3 C4] p c Hp. destruct (C4 p c Hp) as [[E1 E2]|[E1 E2]]; (split; [done|]); [done|].
  intros _ q [cq Hq]. destruct E2 as (V1 & V2 & _ & r & (V3 & V4 & V5) & ->).
  destruct (mo_space _ _ _ _ Hm) as (_ & _ & Hlim).
  assert (768 * 2 ^ 22 <= PDE_addr c < 1023 * 2 ^ 22) as Hva by (unfold in_space in V1; lia).
  change (2 ^ 12) with 4096 in V5. rewrite V2, Z.add_0_r in V5.
  unfold translate in V5. rewrite C1 in V5. change (frame_of 0x100000) with 0x100000 in V5.
  destruct (C4 q cq Hq) as [[_ ->]|[_ (_ & _ & Hd & rq & (_ & Hrq & _) & E)]].
  - apply VirtualAddrToPhysicAddr_ok; [pose proof (mo_dir _ _ _ _ Hm) as Hok; unfold pg_ok in Hok; by rewrite C1 in Hok|lia|exact V5].
  - destruct (frame_facts _ _ _ _ KERNEL_POOL rq Hm Hrq) as [F1 F2]. cbn [pool_of] in F1, F2. rewrite <- E in F1, F2.
    assert (frame_of (dirs q) = dirs q) as Ef by (apply page_frame_of; [lia|done]).
    apply VirtualAddrToPhysicAddr_ok; [|lia|].
    + unfold pg_ok. cbn [phys cr3 set_cr3]. rewrite Ef. apply Hd.
    + unfold translate. cbn [phys cr3 set_cr3]. rewrite Ef. by rewrite (process_dir_walk _ _ _ _ Hd).
Qed.

Lemma all_list_tag_eq p : thread_page p -> all_list_tag p = p + 40.
Proof. intros (? & ? & ?). apply u32_id. lia. Qed.

(** The directories with that of a new thread. *)
Definition new_dirs (dirs : Z -> Z) (p d : Z) : Z -> Z := fun q => if q =? p then d else dirs q.

(** A new ready thread at the end of the queue. *)
Lemma sched_ok_new dirs dir st s s' p c : sched_ok dirs st s -> st <> TASK_READY -> pcbs s !! p = None ->
  thread_page p -> canary c = STACK_CANARY -> status c = TASK_READY ->
  Z.land (u32 (self_kernel_stack c + 20)) 0xFFFFF000 = p -> spaces_ok (new_dirs dirs p dir) s' ->
  pcbs s' = <[p := c]> (pcbs s) -> ready_thread_list s' = ready_thread_list s ++ [general_tag p] ->
  esp s' = esp s -> esp0 s' = esp0 s -> cr3 (pg s') = cr3 (pg s) ->
  sched_ok (new_dirs dirs p dir) st s'.
Proof.
  intros [[cc [Hc Hst]] Hp Hnd Hr Hrun Hesp Hstk Hsp Hcr Hes0] Hne Hnone Htp Hcan Hrdy Hland Hspaces Epcbs Erl Eesp Eesp0 Ecr.
  assert (cur s' = cur s) as Ecur by (unfold cur; by rewrite Eesp).
  assert (p <> cur s) as Hpc by (intros ->; congruence).
  assert (forall q d, pcbs s' !! q = Some d -> (q = p /\ d = c) \/ (q <> p /\ pcbs s !! q = Some d)) as Hinv.
  { intros q d. rewrite Epcbs, lookup_insert. case_decide; [intros [= <-]; by left|by right]. }
  assert (forall q d, pcbs s !! q = Some d -> pcbs s' !! q = Some d) as Hinv'.
  { intros q d Hq. rewrite Epcbs, lookup_insert_ne; [done|]. intros ->. congruence. }
  constructor; rewrite ?Ecur.
  - exists cc. split; [by apply Hinv'|done].
  - intros q d [[-> ->]|[_ Hq]]%Hinv; [done|by eapply Hp].
  - rewrite Erl. apply NoDup_app. split_and!; [done| |apply NoDup_singleton].
    intros x Hx ->%list_elem_of_singleton. apply Hr in Hx as (q & d & Hq & E & _).
    apply general_tag_inj in E; [congruence|done|by eapply Hp].
  - intros tag. rewrite Erl, elem_of_app, list_elem_of_singleton, Hr. split.
    + intros [(q & d & Hq & -> & E)| ->]; [exists q, d; split_and!; auto|].
      exists p, c. split_and!; try done. rewrite Epcbs. apply lookup_insert_eq.
    + intros (q & d & [[-> ->]|[_ Hq]]%Hinv & -> & E); [by right|]. left. eauto.
  - intros q d [[-> ->]|[_ Hq]]%Hinv E; [congruence|by eapply Hrun].
  - by rewrite Eesp.
  - intros q e [[-> ->]|[_ Hq]]%Hinv Hqc; [done|by eapply Hstk].
  - exact Hspaces.
  - rewrite Ecr, Hcr. unfold new_dirs. by replace (cur s =? p) with false by lia.
  - intros e [[E _]|[_ Hq]]%Hinv; [by destruct Hpc|]. rewrite Eesp0. by apply Hes0.
Qed.

(** ** [ThreadStart] *)

(** The state with a new thread at [p]. *)
Definition started (s : kernel) (p : Z) (c : PCB) (m : gmap Z Z) (g : paging) : kernel :=
  set_all (all_thread_list s ++ [all_list_tag p])
    (set_ready (ready_thread_list s ++ [general_tag p])
      (with_pcb p c (set_next_pid (next (next_pid s)) (with_mem m g s)))).

(** The PCB of a new kernel thread, ready to run. *)
Definition thread_PCB (p n : Z) (name : list Z) (priority : Z) : PCB :=
  set_stack (p + 3664) (fresh_PCB p n name TASK_READY priority).

Lemma link_ready_ok f line p s : general_tag p ∉ ready_thread_list s ->
  link_ready f line p s = Ret (tt, set_ready (ready_thread_list s ++ [general_tag p]) s).
Proof.
  intros Hn. unfold link_ready. rewrite (bind_Ret _ _ _ _ _ (find_ready s _)).
  rewrite (bind_Ret _ _ s tt s) by (apply ASSERT_true; by rewrite bool_decide_eq_false_2).
  by rewrite (bind_Ret _ _ s 0 (set_ready (ready_thread_list s ++ [general_tag p]) s)) by (by apply on_ready_ok).
Qed.

Lemma link_all_ok f line p s : all_list_tag p ∉ all_thread_list s ->
  link_all f line p s = Ret (tt, set_all (all_thread_list s ++ [all_list_tag p]) s).
Proof.
  intros Hn. unfold link_all, on_all, on_list, bind. cbn [seq_op]. rewrite bool_decide_eq_false_2 by done.
  cbn. by destruct s.
Qed.

Section thread_start.
  Context `{Env}.
  Context (KernelThread_addr : Z).

(** What lies at [k] for the first switch to a thread: four registers that are 0 (ebp, ebx, edi,
    esi), the code [switch_to] returns to, and above it the two arguments of that code. *)
Definition frame_at (m : gmap Z Z) (k function func_arg : Z) : Prop :=
  (forall i, 0 <= i < 4 -> word m (k + 4 * i) = Some 0) /\ word m (k + 16) = Some KernelThread_addr /\
  word m (k + 24) = Some function /\ word m (k + 28) = Some func_arg.

Lemma first_frame_at m k function func_arg : (forall a, k <= a < k + 32 -> m !! a = Some 0) ->
  0 <= KernelThread_addr < 2 ^ 32 -> 0 <= function < 2 ^ 32 -> 0 <= func_arg < 2 ^ 32 ->
  frame_at (first_frame KernelThread_addr m k function func_arg) k function func_arg.
Proof.
  intros Hz H1 H2 H3. unfold first_frame. split_and!.
  - intros i Hi. assert (i = 0 \/ i = 1 \/ i = 2 \/ i = 3) as [->|[->|[->| ->]]] by lia.
    + rewrite Z.add_0_r. by apply word_setw_eq.
    + rewrite !word_setw_ne by lia. unfold word. by rewrite !Hz by lia.
    + rewrite !(word_setw_ne _ k), (word_setw_ne _ (k + 12)) by lia. by apply word_setw_eq.
    + rewrite !(word_setw_ne _ k) by lia. by apply word_setw_eq.
  - rewrite !(word_setw_ne _ k), (word_setw_ne _ (k + 12)), (word_setw_ne _ (k + 8)), !word_setw_ne by lia.
    by apply word_setw_eq.
  - rewrite !(word_setw_ne _ k), (word_setw_ne _ (k + 12)), (word_setw_ne _ (k + 8)), (word_setw_ne _ (k + 28)) by lia.
    by apply word_setw_eq.
  - rewrite !(word_setw_ne _ k), (word_setw_ne _ (k + 12)), (word_setw_ne _ (k + 8)) by lia. by apply word_setw_eq.
Qed.

Lemma first_frame_out m k function func_arg a : (a < k \/ k + 32 <= a) ->
  first_frame KernelThread_addr m k function func_arg !! a = m !! a.
Proof. intros Ha. unfold first_frame. by rewrite !setw_lookup_out by lia. Qed.

(** The stack pointer after a first switch lies in the page of the thread. *)
Lemma first_stack_page p : thread_page p -> Z.land (u32 (p + 3664 + 20)) 0xFFFFF000 = p.
Proof.
  intros (P1 & P2 & P3). rewrite u32_id by lia. change 0xFFFFF000 with (2 ^ (12 + 20) - 2 ^ 12).
  rewrite land_high by lia. change (2 ^ 12) with 4096. rewrite <- Z.add_assoc, Z.add_mod, P3 by done.
  change ((0 + (3664 + 20) mod 4096) mod 4096) with 3684. lia.
Qed.

(** The state with a new ready thread is good again. *)
Lemma started_ok dirs d s p c m g i : threads_ok dirs s -> let V := kernel_vaddr (mem s) in
  0 <= i < space_bits V -> p = vpage V i -> pcbs s !! p = None -> mem_ok (mem s) V m g ->
  canary c = STACK_CANARY -> status c = TASK_READY -> self_kernel_stack c = p + 3664 ->
  dir_of (mem s) g c d -> translate g p <> None -> cr3 g = cr3 (pg s) -> grown (mem s) V (pg s) g ->
  threads_ok (new_dirs dirs p d) (started s p c m g).
Proof.
  intros [T1 T2 T3 T4 T5 T6 T7 T8 T9] V Hi Ep Hnone Hm Hcan Hst Hstk Hdir Htr Hcr Hg.
  destruct (vpage_facts _ _ _ _ i T2 Hi) as (_ & P1 & P2 & P3). fold V in P1, P2, P3. rewrite <- Ep in P1, P2, P3.
  assert (thread_page p) as Htp by (split_and!; lia).
  assert (forall q, is_Some (pcbs s !! q) -> thread_page q) as Hpage by (intros q [e He]; by eapply (so_page _ _ _ T1)).
  set (s' := started s p c m g).
  assert (forall q, is_Some (pcbs s' !! q) <-> q = p \/ is_Some (pcbs s !! q)) as Hdom.
  { intros q. change (pcbs s') with (<[p := c]> (pcbs s)). rewrite lookup_insert_is_Some. split.
    - intros [->|[_ ?]]; auto.
    - intros [->|?]; [by left|]. destruct (decide (p = q)); auto. }
  assert (dirs_ok (new_dirs dirs p d) s') as Hds.
  { destruct T4 as [C1 C2 Cb C3 C4]. pose proof (gr_pdes _ _ _ _ Hg) as Hp. rewrite C1 in Hp. specialize (Hp C3).
    destruct (mo_space _ _ _ _ T2) as (_ & _ & Hlim). constructor; [by rewrite <- C1|exact C2|exact Cb| |].
    - intros va Hva. change (pg s') with g. change (mem s') with (mem s) in Hva.
      rewrite (table_of_pdes (phys (pg s))); [by apply C3|unfold in_space in Hva; lia|exact Hp].
    - intros q e. change (pcbs s') with (<[p := c]> (pcbs s)). rewrite lookup_insert. unfold new_dirs.
      case_decide as Hq; [subst q; intros [= <-]; by rewrite Z.eqb_refl|]. intros He.
      replace (q =? p) with false by lia. destruct (C4 q e He) as [?|[E1 E2]]; [by left|right]. split; [done|].
      by eapply (proc_dir_grown _ V _ m (pg s)). }
  constructor.
  - apply (sched_ok_new _ _ _ s _ p c T1); try done; [rewrite Hstk; by apply first_stack_page|by apply dirs_spaces].
  - exact Hm.
  - intros q [->|Hq]%Hdom Hin; [done|]. change (pg s') with g.
    destruct (mo_space _ _ _ _ T2) as (_ & _ & Hlim). change (mem s') with (mem s) in Hin. fold V in Hin, Hlim.
    destruct (translate (pg s) q) as [pa|] eqn:E; [|by apply T3 in E].
    rewrite (gr_walk _ _ _ _ Hg q pa); [done| |done]. destruct (Hpage q Hq) as (? & _). unfold in_space in Hin. lia.
  - exact Hds.
  - intros tag. change (all_thread_list s') with (all_thread_list s ++ [all_list_tag p]).
    rewrite elem_of_app, list_elem_of_singleton, T5. split.
    + intros [(q & Hq & ->)| ->]; [exists q|exists p]; (split; [apply Hdom; auto|done]).
    + intros (q & [->|Hq]%Hdom & ->); [by right|left; eauto].
  - change (all_thread_list s') with (all_thread_list s ++ [all_list_tag p]).
    apply NoDup_app. split_and!; [done| |apply NoDup_singleton]. intros x Hx ->%list_elem_of_singleton.
    apply T5 in Hx as (q & Hq & E). rewrite !all_list_tag_eq in E by auto. assert (q = p) as -> by lia.
    rewrite Hnone in Hq. by destruct Hq.
  - apply Hdom. by right.
  - exact T8.
  - exact T9.
Qed.

(** The memory of a new thread whose page was zero. *)
Definition thread_mem (p function func_arg : Z) (m : gmap Z Z) : gmap Z Z :=
  first_frame KernelThread_addr (clear_PCB p m) (p + 3664) function func_arg.

Lemma clear_zero p m a : (forall a, p <= a < p + 4096 -> m !! a = Some 0) -> p <= a < p + 4096 ->
  clear_PCB p m !! a = Some 0.
Proof.
  intros Hz Ha. unfold clear_PCB. destruct (decide (a < p + 236)).
  - replace a with (p + Z.of_nat (Z.to_nat (a - p))) by lia. apply write_bytes_lookup_in, lookup_replicate_2. lia.
  - rewrite write_bytes_lookup_out by (rewrite length_replicate; lia). by apply Hz.
Qed.

Lemma thread_mem_same p function func_arg m : same_outside (fun a => p <= a < p + 4096) m (thread_mem p function func_arg m).
Proof.
  intros a Ha. unfold thread_mem. rewrite first_frame_out by lia. apply write_bytes_lookup_out.
  rewrite length_replicate. lia.
Qed.

Lemma thread_mem_ram p function func_arg m : ram_ok m -> ram_ok (thread_mem p function func_arg m).
Proof.
  intros Hm. unfold thread_mem, first_frame. repeat apply ram_ok_setw. apply write_bytes_ok; [done|].
  apply Forall_replicate, u8_range.
Qed.

(** The elements of a new PCB are in no list. *)
Lemma new_tags dirs s p : threads_ok dirs s -> thread_page p -> pcbs s !! p = None ->
  general_tag p ∉ ready_thread_list s /\ all_list_tag p ∉ all_thread_list s.
Proof.
  intros Ht Htp Hnone. pose proof (so_page _ _ _ (to_sched _ _ Ht)) as Hpage. split; intros Hin.
  - apply (so_ready _ _ _ (to_sched _ _ Ht)) in Hin as (q & d & Hq & E & _).
    apply general_tag_inj in E; [congruence|done|by eapply Hpage].
  - apply (to_all _ _ Ht) in Hin as (q & [d Hq] & E).
    rewrite (all_list_tag_eq p), (all_list_tag_eq q) in E; [|by eapply Hpage|done].
    assert (q = p) as -> by lia. congruence.
Qed.

(** [ThreadStart] after its page has come. *)
Lemma thread_built fuel dirs s p m g name prio function func_arg : threads_ok dirs s ->
  thread_page p -> pcbs s !! p = None -> (forall a, p <= a < p + 4096 -> m !! a = Some 0) ->
  (length (c_chars name) <= 38)%nat ->
  (InitThread (S fuel) p name prio ;;;
   ThreadCreate KernelThread_addr p function func_arg ;;;
   link_ready "ThreadStart" 126 p ;;;
   link_all "ThreadStart" 129 p ;;;
   ret p) (with_mem m g s) =
    Ret (p, started s p (thread_PCB p (next (next_pid s)) name prio) (thread_mem p function func_arg m) g).
Proof.
  intros Ht Htp Hnone Hz Hname. pose proof Ht as [T1 T2 T3 T4 T5 T6 T7 T8 T9]. pose proof Htp as (P1 & P2 & P3).
  assert (readable m p 4096) as Hr by (intros a Ha; rewrite Hz by lia; eauto).
  assert (readable (clear_PCB p m) p 4096) as Hr2 by (intros a Ha; rewrite clear_zero by done; eauto).
  assert (cur s <> 0) as Hcur.
  { destruct (so_cur _ _ _ T1) as (c & Hc & _). destruct (so_page _ _ _ T1 _ _ Hc) as [(Hpos & _) _]. lia. }
  assert ((p =? main_thread s) = false) as Hpm by (apply Z.eqb_neq; intros E; destruct T7 as [d Hd]; congruence).
  destruct (new_tags dirs s p) as [Hnr Hna]; [done..|].
  pose proof (InitThread_ok fuel p name prio (with_mem m g s) T8 Hcur P1 P2
    (readable_le m p 4096 p 236 Hr ltac:(lia) ltac:(lia)) Hname) as HI.
  change (main_thread (with_mem m g s)) with (main_thread s) in HI. rewrite Hpm in HI.
  rewrite (bind_Ret _ _ _ _ _ HI). clear HI.
  set (c := fresh_PCB _ _ _ _ _). set (s1 := set_next_pid (next (next_pid s)) s).
  change (set_next_pid _ _) with (with_mem (clear_PCB p m) g s1).
  rewrite (bind_Ret _ _ _ _ _ (ThreadCreate_ok KernelThread_addr p c s1 function func_arg (clear_PCB p m) g P1 P2 eq_refl
    (readable_le _ p 4096 (p + 3664) 32 Hr2 ltac:(lia) ltac:(lia)))).
  rewrite (bind_Ret _ _ _ _ _ (link_ready_ok "ThreadStart" 126 p (with_pcb p _ (with_mem _ g s1)) Hnr)).
  by rewrite (bind_Ret _ _ _ _ _ (link_all_ok "ThreadStart" 129 p (set_ready _ (with_pcb p _ (with_mem _ g s1))) Hna)).
Qed.

Lemma ThreadStart_ok fuel dirs s name prio function func_arg r0 : threads_ok dirs s ->
  let V := kernel_vaddr (mem s) in
  0 <= r0 < space_bits V -> bit (ram (mach s)) (vaddr_bitmap V) r0 = false ->
  enough_frames (mem s) (ram (mach s)) KERNEL_POOL 1 -> (length (c_chars name) <= 38)%nat ->
  0 <= KernelThread_addr < 2 ^ 32 -> 0 <= function < 2 ^ 32 -> 0 <= func_arg < 2 ^ 32 ->
  exists i p m g, ThreadStart KernelThread_addr (S fuel) name prio function func_arg s =
      Ret (p, started s p (thread_PCB p (next (next_pid s)) name prio) m g) /\
    0 <= i <= r0 /\ p = vpage V i /\ bit (ram (mach s)) (vaddr_bitmap V) i = false /\ pcbs s !! p = None /\
    threads_ok (new_dirs dirs p 0x100000) (started s p (thread_PCB p (next (next_pid s)) name prio) m g) /\
    frame_at m (p + 3664) function func_arg /\
    same_outside (fun a => in_bitmaps KERNEL_POOL (mem s) V a \/ p <= a < p + PAGE_SIZE) (ram (mach s)) m.
Proof.
  intros Ht V Hr0 Hb Hf Hname A1 A2 A3. pose proof Ht as [T1 T2 T3 T4 T5 T6 T7 T8 T9].
  assert (cur s <> 0) as Hcur.
  { destruct (so_cur _ _ _ T1) as (c & Hc & _). destruct (so_page _ _ _ T1 _ _ Hc) as [(Hpos & _) _]. lia. }
  destruct (pool_alloc_ok fuel s KERNEL_POOL V 1 r0) as (i & m1 & g & Hrun & Hm1 & Hi & Hfree & _ & Hmap & Hz & Hkeep & Hcr & Hs & Hg & Hen);
    [done|done|done|done|lia|lia|lia| |done|].
  { intros j Hj. by replace j with r0 by lia. }
  set (p := vpage V i) in *. assert (bit (ram (mach s)) (vaddr_bitmap V) i = false) as Hbi by (apply Hfree; lia).
  destruct (vpage_facts _ _ _ _ i T2 ltac:(fold V; lia)) as (P0 & P1 & P2 & P3). fold V in P0, P1, P2, P3. fold p in P0, P1, P2, P3.
  assert (pcbs s !! p = None) as Hnone.
  { apply eq_None_not_Some. intros Hc. apply (T3 p Hc P0). apply (mo_unmapped _ _ _ _ T2); [fold V; lia|done]. }
  assert (forall a, p <= a < p + 4096 -> m1 !! a = Some 0) as Hz1 by (intros a Ha; apply Hz; unfold PAGE_SIZE; lia).
  pose proof (thread_mem_same p function func_arg m1) as Hsm.
  assert (mem_ok (mem s) V (thread_mem p function func_arg m1) g) as Hm.
  { apply (mem_ok_ram _ V m1 _ g Hm1); [apply thread_mem_ram, (mo_bitmap _ _ _ _ Hm1 None)|].
    intros a Ha. apply Hsm. intros Hc. apply Ha. unfold in_space, p, vpage, PAGE_SIZE in *. lia. }
  exists i, p, (thread_mem p function func_arg m1), g. split_and!; try done; try lia.
  - unfold ThreadStart, kpalloc. rewrite (bind_Ret _ _ _ _ _ Hrun).
    apply (thread_built _ dirs); [done|split_and!; lia|done|done|done].
  - apply (started_ok dirs 0x100000 s p _ _ g i); try done; [fold V; lia|by left|].
    destruct (Hmap i ltac:(lia)) as (q & (_ & _ & E) & _). fold p in E. by rewrite E.
  - apply first_frame_at; [|done..]. intros a Ha. apply clear_zero; [done|lia].
  - intros a Ha. rewrite Hsm; [apply Hs|]; intros Hc; apply Ha; [|right; unfold PAGE_SIZE; lia].
    destruct Hc as [Hc|Hc]; [by left|right]. unfold PAGE_SIZE in *. lia.
Qed.

(** C15: [ThreadStart] of a running kernel thread: when a page and its frame are free, the new PCB is put
    on the first free page of the heap with the name, priority and the next process identifier, ready
    to run; its stack holds the frame from which the first switch to it calls [KernelThread] with the
    function and its argument; it is linked last into both lists; no byte outside its page and the
    bitmaps changes; and the invariant of scheduler, lists and allocator holds again, so that the
    next call, or a clock tick, can follow. *)
Theorem ThreadStart_correct fuel dirs s name prio function func_arg r0 : threads_ok dirs s ->
  let V := kernel_vaddr (mem s) in
  0 <= r0 < space_bits V -> bit (ram (mach s)) (vaddr_bitmap V) r0 = false ->
  enough_frames (mem s) (ram (mach s)) KERNEL_POOL 1 -> (length (c_chars name) <= 38)%nat ->
  0 <= KernelThread_addr < 2 ^ 32 -> 0 <= function < 2 ^ 32 -> 0 <= func_arg < 2 ^ 32 ->
  exists i p m g, ThreadStart KernelThread_addr (S fuel) name prio function func_arg s =
      Ret (p, started s p (thread_PCB p (next (next_pid s)) name prio) m g) /\
    0 <= i <= r0 /\ p = vpage V i /\ bit (ram (mach s)) (vaddr_bitmap V) i = false /\ pcbs s !! p = None /\
    threads_ok (new_dirs dirs p 0x100000) (started s p (thread_PCB p (next (next_pid s)) name prio) m g) /\
    frame_at m (p + 3664) function func_arg /\
    same_outside (fun a => in_bitmaps KERNEL_POOL (mem s) V a \/ p <= a < p + PAGE_SIZE) (ram (mach s)) m.
Proof. apply ThreadStart_ok. Qed.

End thread_start.

(** ** [ThreadInit] *)

(** The PCB of the code that runs already. *)
Definition main_PCB (s : kernel) : PCB :=
  fresh_PCB (cur s) (next (next_pid s)) (literal "main") TASK_RUNNING 31.

Definition thread_inited (s : kernel) (m : gmap Z Z) (t : list Z) : kernel :=
  with_out m t (set_all [all_list_tag (cur s)] (set_ready [] (set_main (cur s)
    (with_pcb (cur s) (main_PCB s) (set_next_pid (next (next_pid s)) (with_lock pid_lock free_lock s)))))).

(** The running code, before it has a PCB: its stack is the top of a page that holds no bitmap and is
    not a free page of the heap. *)
Record boot_thread_ok (s : kernel) : Prop := BootThreadOk {
  bt_page : thread_page (cur s);
  bt_esp : 0 <= esp s < 2 ^ 32;
  bt_pcbs : pcbs s = ∅;
  bt_cr3 : cr3 (pg s) = 0x100000;
  bt_half : 768 * 2 ^ 22 <= vaddr_start (kernel_vaddr (mem s));
  bt_bitmaps : forall i a, let b := bitmap_at (mem s) (kernel_vaddr (mem s)) i in
    bits b <= a <= bits b + bitmap_bytes_len b -> shared a;
  bt_tables : forall va, in_space (kernel_vaddr (mem s)) va -> is_Some (table_of (phys (pg s)) 0x100000 va);
  bt_ram : readable (ram (mach s)) (cur s) sizeof_PCB;
  bt_mem : mem_ok (mem s) (kernel_vaddr (mem s)) (ram (mach s)) (pg s);
  bt_apart : forall i a, cur s <= a < cur s + sizeof_PCB -> let b := bitmap_at (mem s) (kernel_vaddr (mem s)) i in
    ~ bits b <= a <= bits b + bitmap_bytes_len b;
  bt_mapped : in_space (kernel_vaddr (mem s)) (cur s) -> translate (pg s) (cur s) <> None;
  bt_pid_lock : is_Some (locks s !! pid_lock);
  bt_pool_lock : locks s !! kernel_pool_lock = Some free_lock
}.

Lemma thread_inited_ok s m t : boot_thread_ok s -> ram_ok m ->
  (forall i a, let b := bitmap_at (mem s) (kernel_vaddr (mem s)) i in
     bits b <= a <= bits b + bitmap_bytes_len b -> m !! a = ram (mach s) !! a) ->
  threads_ok kernel_dirs (thread_inited s m t).
Proof.
  intros [B1 B2 B3 B4 C1 Cb C2 B5 B6 B7 B8 B9 B10] Hram Hs. set (s' := thread_inited s m t).
  assert (pcbs s' = {[cur s := main_PCB s]}) as Hpcbs.
  { unfold s', thread_inited, with_pcb. cbn [with_out pcbs set_mach set_all set_ready set_main set_pcbs set_next_pid with_lock set_locks].
    rewrite B3. apply insert_empty. }
  assert (forall p c, pcbs s' !! p = Some c -> p = cur s /\ c = main_PCB s) as Hinv.
  { intros p c. rewrite Hpcbs. by intros [<- <-]%lookup_singleton_Some. }
  assert (pcbs s' !! cur s = Some (main_PCB s)) as Hmain by (rewrite Hpcbs; apply lookup_singleton_eq).
  constructor.
  - constructor; change (cur s') with (cur s).
    + by exists (main_PCB s).
    + by intros p c [-> ->]%Hinv.
    + apply NoDup_nil_2.
    + intros tag. split; [by intros ?%elem_of_nil|]. by intros (p & c & [-> ->]%Hinv & _ & E).
    + by intros p c [-> ->]%Hinv.
    + exact B2.
    + by intros p c [-> ->]%Hinv Hne.
    + intros p c [-> ->]%Hinv. done.
    + exact B4.
    + intros c [_ ->]%Hinv. done.
  - apply (mem_ok_bitmaps _ _ (ram (mach s)) m _ B6 Hram). exact Hs.
  - intros p [c [-> _]%Hinv]. exact B8.
  - constructor; [exact B4|exact C1|exact Cb|exact C2|]. intros p c [-> ->]%Hinv. by left.
  - intros tag. change (all_thread_list s') with [all_list_tag (cur s)]. rewrite list_elem_of_singleton. split.
    + intros ->. exists (cur s). rewrite Hmain. eauto.
    + by intros (p & [c [-> _]%Hinv] & ->).
  - apply NoDup_singleton.
  - change (main_thread s') with (cur s). rewrite Hmain. eauto.
  - apply lookup_insert_eq.
  - change (locks s') with (locks (with_lock pid_lock free_lock s)). unfold with_lock. cbn [locks set_locks].
    by rewrite lookup_insert_ne.
Qed.

(** The PCB is not in a bitmap. *)
Lemma boot_pcb_apart s m : boot_thread_ok s -> same_outside (fun a => cur s <= a < cur s + sizeof_PCB) (ram (mach s)) m ->
  forall i a, let b := bitmap_at (mem s) (kernel_vaddr (mem s)) i in
    bits b <= a <= bits b + bitmap_bytes_len b -> m !! a = ram (mach s) !! a.
Proof. intros Hb Hs i a b Ha. apply Hs. intros Hc. by apply (bt_apart _ Hb i a). Qed.

Section thread_init.
  Context `{Env}.

Lemma ThreadInit_ok fuel s : boot_thread_ok s -> exists t,
  ThreadInit (S fuel) s = Ret (tt, thread_inited s (clear_PCB (cur s) (ram (mach s))) t).
Proof.
  intros [B1 B2 B3 B4 C1 Cb C2 B5 B6 B7 B8 B9 B10]. set (m := ram (mach s)). pose proof B1 as (P1 & P2 & _).
  assert (wp (ThreadInit (S fuel)) (fun _ s' => exists t, s' = thread_inited s (clear_PCB (cur s) m) t) s)
    as ([] & s' & Hrun & t & ->)%wp_elim; [|by exists t].
  assert (s = with_out m (tty (mach s)) s) as Es by (unfold m; destruct s as [ma]; by destruct ma).
  rewrite Es at 1. unfold ThreadInit. apply wp_says; [unfold sys_putstr; says_literal|]. intros _ t1.
  apply wp_bind. eapply wp_intro; [done|]. apply wp_bind. eapply wp_intro; [done|].
  apply wp_bind. eapply wp_intro; [apply LockInit_ok; exact B9|].
  set (s1 := set_main (cur s) (with_lock pid_lock free_lock (set_all [] (set_ready [] (with_out m t1 s))))).
  apply wp_bind. unfold CreateMainThread. apply wp_bind. eapply wp_intro; [done|]. cbv beta.
  apply wp_bind. eapply wp_intro; [reflexivity|]. cbv beta. apply wp_bind. eapply wp_intro; [reflexivity|]. cbv beta.
  change (set_main (cur (with_lock pid_lock free_lock (set_all [] (set_ready [] (with_out m t1 s)))))
    (with_lock pid_lock free_lock (set_all [] (set_ready [] (with_out m t1 s))))) with s1.
  change (main_thread s1) with (cur s).
  apply wp_bind. eapply wp_intro.
  { apply (InitThread_ok fuel (cur s) (literal "main") 31 s1); [apply lookup_insert_eq|change (cur s <> 0); lia|done|done|exact B5|by apply Nat.leb_le]. }
  change (main_thread s1) with (cur s). rewrite Z.eqb_refl. cbv beta.
  eapply wp_intro; [apply link_all_ok; by intros ?%elem_of_nil|].
  match goal with |- wp _ _ ?x => change x with (thread_inited s (clear_PCB (cur s) m) t1) end.
  unfold thread_inited at 2. apply wp_says; [unfold sys_putline; says_literal|]. intros _ t2. apply wp_ret. by exists t2.
Qed.

(** [ThreadInit]: the code that has run since the boot becomes the thread "main": its PCB is at the
    bottom of the page of its stack, with the next process identifier, running, priority 31; it is in
    the list of all threads and in no other; the lock for identifiers is free; and with that the
    invariant of scheduler, lists and allocator holds. *)
Theorem ThreadInit_correct fuel s : boot_thread_ok s -> exists m t,
  ThreadInit (S fuel) s = Ret (tt, thread_inited s m t) /\ threads_ok kernel_dirs (thread_inited s m t) /\
  same_outside (fun a => cur s <= a < cur s + sizeof_PCB) (ram (mach s)) m.
Proof.
  intros Hb. destruct (ThreadInit_ok fuel s Hb) as (t & Hrun). eexists _, t. split; [exact Hrun|].
  assert (same_outside (fun a => cur s <= a < cur s + sizeof_PCB) (ram (mach s)) (clear_PCB (cur s) (ram (mach s)))) as Hs.
  { intros a Ha. apply write_bytes_lookup_out. rewrite length_replicate. unfold sizeof_PCB in Ha. lia. }
  split; [|exact Hs]. apply thread_inited_ok; [done| |exact (boot_pcb_apart _ _ Hb Hs)].
  apply write_bytes_ok; [|apply Forall_replicate, u8_range]. apply (mo_bitmap _ _ _ _ (bt_mem _ Hb) None).
Qed.

End thread_init.

(** ** Examples: the small memory of Palloc.v with one thread of control *)

Definition main_ram : gmap Z Z := write_bytes pool_ram 0xC0120000 (replicate 236 0).
Definition start_kernel : kernel :=
  set_locks (<[pid_lock := free_lock]> (<[kernel_pool_lock := free_lock]> ∅))
    (set_pcbs ∅ (set_mach (Machine main_ram 2 [] []) pool_kernel)).

Lemma main_ram_out a : a < 0xC0120000 -> main_ram !! a = pool_ram !! a.
Proof. intros Ha. apply write_bytes_lookup_out. lia. Qed.

Lemma main_ram_ok : ram_ok main_ram.
Proof. apply write_bytes_ok; [apply (mo_bitmap _ _ _ _ pool_mem_ok None)|by apply Forall_replicate]. Qed.

Lemma main_ram_page : readable main_ram 0xC0120000 236.
Proof. apply (write_bytes_region pool_ram 0xC0120000 (replicate 236 0)). Qed.

#[global] Opaque main_ram.

Lemma start_mem : mem_ok pool_pools pool_space main_ram pool_paging.
Proof.
  apply (mem_ok_bitmaps pool_pools pool_space pool_ram main_ram pool_paging pool_mem_ok).
  - exact main_ram_ok.
  - intros i a Ha. apply main_ram_out. destruct i as [[]|]; cbn in Ha; lia.
Qed.

Lemma start_ok : boot_thread_ok start_kernel.
Proof.
  constructor; try reflexivity.
  - split_and!; done.
  - done.
  - zdec.
  - intros i a b Ha. subst b. left. destruct i as [[]|]; cbn in Ha; lia.
  - intros va Hva. change (0xC0100000 <= va < 0xC0100000 + 4096 * 8) in Hva. apply pool_has_table. clear -Hva.
    Z.to_euclidean_division_equations. lia.
  - exact main_ram_page.
  - exact start_mem.
  - intros i a Ha b Hb. change (cur start_kernel) with 0xC0120000 in Ha. subst b. destruct i as [[]|]; cbn in Hb; lia.
  - intros Hin. exfalso. by destruct Hin as [_ Hin].
  - by eexists.
Qed.

Lemma ThreadInit_correct_witness : exists m t,
  ThreadInit (H := demo_env) 1 start_kernel = Ret (tt, thread_inited start_kernel m t) /\
  ready_thread_list (thread_inited start_kernel m t) = [].
Proof.
  destruct (ThreadInit_correct (H := demo_env) 0 start_kernel start_ok) as (m & t & H1 & _).
  exists m, t. split; [exact H1|reflexivity].
Defined.

Lemma ThreadStart_correct_witness : exists s p s',
  ThreadStart (H := demo_env) 0xC0001500 1 (literal "keyboard_output") 5 0xC0001800 0 s = Ret (p, s') /\
  ready_thread_list s' = [general_tag p] /\ threads_ok (new_dirs kernel_dirs p 0x100000) s'.
Proof.
  destruct (ThreadInit_ok (H := demo_env) 0 start_kernel start_ok) as (t & _).
  set (m := clear_PCB (cur start_kernel) (ram (mach start_kernel))).
  assert (same_outside (fun a => cur start_kernel <= a < cur start_kernel + sizeof_PCB) (ram (mach start_kernel)) m) as Hs.
  { intros a Ha. apply write_bytes_lookup_out. rewrite length_replicate. unfold sizeof_PCB in Ha. lia. }
  assert (threads_ok kernel_dirs (thread_inited start_kernel m t)) as Ht.
  { apply thread_inited_ok; [exact start_ok| |exact (boot_pcb_apart _ _ start_ok Hs)].
    apply write_bytes_ok; [apply (mo_bitmap _ _ _ _ start_mem None)|by apply Forall_replicate]. }
  assert (forall a, a < 0xC0120000 -> m !! a = pool_ram !! a) as Hm.
  { intros a Ha. rewrite Hs; [by apply main_ram_out|]. change (cur start_kernel) with 0xC0120000. lia. }
  assert (forall b j, 0x1000 <= b -> b + 1 <= 0x1008 -> 0 <= j < 8 -> bit m (Bitmap 1 b) j = false) as Hb.
  { intros b j H1 H2 Hj. unfold bit. cbn [bits]. rewrite Hm by lia. by apply (pool_bit b). }
  destruct (ThreadStart_correct (H := demo_env) 0xC0001500 0 kernel_dirs _ (literal "keyboard_output") 5 0xC0001800 0 0 Ht)
    as (i & p & m' & g & H1 & _ & _ & _ & _ & H2 & _); [zdec|by apply (Hb 0x1004)| | |lia|lia|lia|].
  - split; (eapply has_free_same; [|apply (pool_has_free 0x1000); cbn; lia]); intros j Hj;
      change (0 <= j < 8) in Hj; (transitivity false; [apply (Hb 0x1000); lia|symmetry; apply (pool_bit 0x1000); lia]).
  - by apply Nat.leb_le.
  - eexists _, p, _. split; [exact H1|]. split; [reflexivity|exact H2].
Defined.
