(* ===== verification/Process.v ===== *)
(** * userprog/process.c: user processes

    [ExecProcess] makes a thread with an address space of its own; its first switch runs
    [StartProcess], which builds the frame from which [IntExit] (kernel/kernel.S, in Entry.v) goes on
    in user mode. *)
From stdpp Require Import base list gmap strings.
From S2P Require Import Prelude Machine CString Bitmap Print Interrupt KList Paging State Sched Timer Sync.
From S2P Require Import Pool Palloc Vmap Arena Heap Malloc MemInit PageDir Tss Entry Thread.

(** ** Code *)
Definition DEFAULT_PRIORITY : Z := 31.
Definition USER_STACK3_VADDR : Z := 0x7FFFE000 - 0x1000.
Definition USER_VADDR_START : Z := 0x8048000.

Definition EFLAGS_MBS : Z := Z.shiftl 1 1.
Definition EFLAGS_IF_1 : Z := Z.shiftl 1 9.
Definition EFLAGS_IOPL_0 : Z := 0.

Section process.
  Context `{Env}.
  (* the addresses of the code of [KernelThread] and [StartProcess] *)
  Context (KernelThread_addr StartProcess_addr : Z).

(** [self_kernel_stack] is a [uint32_t *] again: 4 bytes for each byte of the frame. *)
Definition StartProcess (fuel : nat) (filename : Z) : M kernel context :=
  let function := filename in
  let* current_thread := GetCurrentThreadPCB in
  upd_pcb current_thread (fun c => set_stack (u32 (self_kernel_stack c + 4 * sizeof_thread_stack)) c) ;;;
  let* c := get_pcb current_thread in
  let process_stack := self_kernel_stack c in
  on_mach (st16 (process_stack + 36) 0) ;;;
  on_mach (st32 (process_stack + 24) 0) ;;;
  on_mach (st32 (process_stack + 28) 0) ;;;
  on_mach (st32 (process_stack + 20) 0) ;;;
  on_mach (st32 (process_stack + 32) 0) ;;;
  on_mach (st32 (process_stack + 16) 0) ;;;
  on_mach (st32 (process_stack + 12) 0) ;;;
  on_mach (st32 (process_stack + 8) 0) ;;;
  on_mach (st32 (process_stack + 4) 0) ;;;
  on_mach (st16 (process_stack + 40) SELECTOR_U_DATA) ;;;
  on_mach (st16 (process_stack + 44) SELECTOR_U_DATA) ;;;
  on_mach (st16 (process_stack + 48) SELECTOR_U_DATA) ;;;
  on_mach (st32 (process_stack + 56) function) ;;;
  on_mach (st32 (process_stack + 60) SELECTOR_U_CODE) ;;;
  on_mach (st32 (process_stack + 64) (Z.lor (Z.lor EFLAGS_IF_1 EFLAGS_IOPL_0) EFLAGS_MBS)) ;;;
  let* stack := VirtualAddrMapping USER_POOL fuel USER_STACK3_VADDR in
  on_mach (st32 (process_stack + 68) (u32 (stack + PAGE_SIZE))) ;;;
  on_mach (st32 (process_stack + 72) SELECTOR_U_STACK) ;;;
  on_mach (IntExit process_stack).

Definition CreatUserVaddrBitmap (fuel : nat) (user_process : Z) : M kernel unit :=
  upd_pcb user_process (fun c => set_uservaddr (VirtualAddr (vaddr_bitmap (userprog_vaddr c)) USER_VADDR_START) c) ;;;
  let bitmap_page_cnt := DIV_ROUND_UP ((0xC0000000 - USER_VADDR_START) / PAGE_SIZE / 8) PAGE_SIZE in
  let* bits_ := kpalloc fuel bitmap_page_cnt in
  upd_pcb user_process (fun c => let v := userprog_vaddr c in
    set_uservaddr (VirtualAddr (Bitmap (bitmap_bytes_len (vaddr_bitmap v)) bits_) (vaddr_start v)) c) ;;;
  let* c := get_pcb user_process in
  ASSERT (negb (bits (vaddr_bitmap (userprog_vaddr c)) =? 0)) "CreatUserVaddrBitmap" 68 ;;;
  upd_pcb user_process (fun c => let v := userprog_vaddr c in
    set_uservaddr (VirtualAddr (Bitmap ((0xC0000000 - USER_VADDR_START) / PAGE_SIZE / 8) (bits (vaddr_bitmap v)))
      (vaddr_start v)) c) ;;;
  let* c := get_pcb user_process in
  ASSERT (bitmap_bytes_len (vaddr_bitmap (userprog_vaddr c)) <? 4096 * bitmap_page_cnt) "CreatUserVaddrBitmap" 71 ;;;
  on_mach (BitmapInit (vaddr_bitmap (userprog_vaddr c))).

Definition ExecProcess (fuel : nat) (filename : Z) (name : list Z) : M kernel unit :=
  let* thread := kpalloc fuel 1 in
  InitThread fuel thread name DEFAULT_PRIORITY ;;;
  CreatUserVaddrBitmap fuel thread ;;;
  ThreadCreate KernelThread_addr thread StartProcess_addr filename ;;;
  let* pde := CreatPDE fuel in
  upd_pcb thread (set_PDE pde) ;;;
  on_mach (ArenaInit (user_arena_descs thread)) ;;;
  let* c := get_pcb thread in
  ASSERT (negb (PDE_addr c =? 0)) "ExecProcess" 84 ;;;
  let* old_status := on_mach GetIntStatus in
  link_ready "ExecProcess" 88 thread ;;;
  link_all "ExecProcess" 90 thread ;;;
  let* _ := on_mach (SetIntStatus old_status) in
  ret tt.

End process.

(** ** Stores of 16 bits *)

Definition set16 (m : gmap Z Z) (a v : Z) : gmap Z Z := <[a + 1 := u8 (v / 2 ^ 8)]> (<[a := u8 v]> m).

Lemma set16_out m a v b : (b < a \/ a + 2 <= b) -> set16 m a v !! b = m !! b.
Proof. intros Hb. unfold set16. by rewrite !lookup_insert_ne by lia. Qed.

Lemma set16_stored m a v : stored m (set16 m a v).
Proof.
  split.
  - intros Hm. do 2 (apply ram_ok_insert; [|apply u8_range]). exact Hm.
  - intros b Hb. unfold set16. by rewrite !lookup_insert_is_Some'; auto.
Qed.

Lemma word_set16_ne m a v b : (b + 4 <= a \/ a + 2 <= b) -> word (set16 m a v) b = word m b.
Proof. intros Hb. apply word_eq. intros i Hi. apply set16_out. lia. Qed.

(** The lower half of a word. *)
Lemma word_set16_eq m a v : is_Some (word m a) -> 0 <= v < 2 ^ 16 ->
  exists w, word (set16 m a v) a = Some w /\ u16 w = v.
Proof.
  intros Hw Hv. apply word_readable in Hw.
  destruct (Hw (a + 2)) as [b2 H2]; [lia|]. destruct (Hw (a + 3)) as [b3 H3]; [lia|].
  exists (u8 v + 2 ^ 8 * u8 (v / 2 ^ 8) + 2 ^ 16 * b2 + 2 ^ 24 * b3). split.
  - unfold word. rewrite !(set16_out m a v (a + 2)), !(set16_out m a v (a + 3)), H2, H3 by lia.
    unfold set16. by rewrite lookup_insert_ne, lookup_insert_eq, lookup_insert_eq by lia.
  - unfold u16, u8. change (2 ^ 24) with (2 ^ 16 * 2 ^ 8). change (2 ^ 16) with (2 ^ 8 * 2 ^ 8) in *.
    rewrite (Z.mod_small (v / 2 ^ 8)) by (split; [apply Z.div_pos|apply Z.div_lt_upper_bound]; lia).
    replace (_ + _ + _ + _) with (v + (b2 + 2 ^ 8 * b3) * (2 ^ 8 * 2 ^ 8)).
    + rewrite Z.mod_add by lia. apply Z.mod_small. lia.
    + pose proof (Z.div_mod v (2 ^ 8)). lia.
Qed.

Lemma st16_ok a v m s : readable m a 2 -> st16 a v (set_ram m s) = Ret (tt, set_ram (set16 m a v) s).
Proof.
  intros Hr. unfold st16. rewrite st8_next by (apply Hr; lia). apply st8_last.
  rewrite lookup_insert_is_Some'. right. apply Hr. lia.
Qed.

Lemma bind_store16 {B} a v (k : unit -> M kernel B) m p s : readable m a 2 ->
  bind (on_mach (st16 a v)) k (with_mem m p s) = k tt (with_mem (set16 m a v) p s).
Proof.
  intros Hr. apply bind_Ret, (on_mach_ok _ (with_mem m p s)).
  change (mach (with_mem m p s)) with (set_ram m (mach s)). by rewrite st16_ok.
Qed.

(** ** [StartProcess] *)

(** The context a process starts with: the selectors of user code and data, interrupts on, all other
    registers 0. *)
Definition user_context (function sp : Z) : context :=
  Context 0 0 0 0 0 0 0 0 SELECTOR_U_DATA SELECTOR_U_DATA SELECTOR_U_DATA function SELECTOR_U_CODE 0x202 sp
    SELECTOR_U_STACK.

(** The frame before the stack has come. *)
Definition start_frame (m : gmap Z Z) (k function : Z) : gmap Z Z :=
  setw (setw (setw (set16 (set16 (set16 (setw (setw (setw (setw (setw (setw (setw (setw (set16 m (k + 36) 0)
    (k + 24) 0) (k + 28) 0) (k + 20) 0) (k + 32) 0) (k + 16) 0) (k + 12) 0) (k + 8) 0) (k + 4) 0)
    (k + 40) SELECTOR_U_DATA) (k + 44) SELECTOR_U_DATA) (k + 48) SELECTOR_U_DATA)
    (k + 56) function) (k + 60) SELECTOR_U_CODE) (k + 64) (Z.lor (Z.lor EFLAGS_IF_1 EFLAGS_IOPL_0) EFLAGS_MBS).

#[local] Ltac peel := repeat (first [rewrite word_setw_ne by lia|rewrite word_set16_ne by lia]).

Lemma is_word_stored m m' a : stored m m' -> is_Some (word m a) -> is_Some (word m' a).
Proof. intros Hs. rewrite !word_readable. by apply stored_readable. Qed.

Lemma start_frame_out m k function a : (a < k \/ k + 76 <= a) -> start_frame m k function !! a = m !! a.
Proof.
  intros Ha. unfold start_frame. repeat (first [rewrite setw_lookup_out by lia|rewrite set16_out by lia]). done.
Qed.

Lemma start_frame_stored m k function : stored m (start_frame m k function).
Proof.
  unfold start_frame. repeat (eapply stored_trans; [|first [apply stored_setw|apply set16_stored]]). apply stored_refl.
Qed.

Lemma start_frame_words m k function : readable m k 76 -> 0 <= function < 2 ^ 32 ->
  let w i := word (start_frame m k function) (k + i) in
  (forall i, In i [4; 8; 12; 16; 20; 24; 28; 32] -> w i = Some 0) /\
  (exists gs, w 36 = Some gs /\ u16 gs = 0) /\
  (forall i, In i [40; 44; 48] -> exists s, w i = Some s /\ u16 s = SELECTOR_U_DATA) /\
  w 56 = Some function /\ w 60 = Some SELECTOR_U_CODE /\ w 64 = Some 0x202.
Proof.
  intros Hr Hf w. unfold w, start_frame.
  assert (forall i, 0 <= i <= 72 -> is_Some (word m (k + i))) as Hw.
  { intros i Hi. apply word_readable. eapply readable_le; [exact Hr|lia|lia]. }
  split_and!.
  - intros i Hi. repeat (destruct Hi as [<-|Hi]; [peel; by apply word_setw_eq|]). done.
  - destruct (word_set16_eq m (k + 36) 0) as (x & H1 & H2); [apply Hw; lia|lia|]. exists x. split; [peel; exact H1|exact H2].
  - intros i Hi. repeat (destruct Hi as [<-|Hi]; [peel; apply word_set16_eq; [|done]; peel; apply Hw; lia|]). done.
  - peel. by apply word_setw_eq.
  - peel. by apply word_setw_eq.
  - by apply word_setw_eq.
Qed.

Lemma start_frame_context m m' k function sp : readable m k 76 -> 0 <= function < 2 ^ 32 -> 0 <= sp < 2 ^ 32 ->
  (forall a, k <= a < k + 68 -> m' !! a = start_frame m k function !! a) ->
  frame_context (setw (setw m' (k + 68) sp) (k + 72) SELECTOR_U_STACK) k = Some (user_context function sp).
Proof.
  intros Hr Hf Hsp Hm'. destruct (start_frame_words m k function Hr Hf) as (W0 & (gs & Wg & Eg) & Ws & W1 & W2 & W3).
  destruct (Ws 40 ltac:(cbn; tauto)) as (fs & Wfs & Efs). destruct (Ws 44 ltac:(cbn; tauto)) as (es & Wes & Ees).
  destruct (Ws 48 ltac:(cbn; tauto)) as (ds & Wds & Eds). clear Ws.
  set (fin := setw (setw m' (k + 68) sp) (k + 72) SELECTOR_U_STACK).
  assert (forall i, 0 <= i <= 64 -> word fin (k + i) = word (start_frame m k function) (k + i)) as Hw.
  { intros i Hi. unfold fin. rewrite !word_setw_ne by lia. apply word_eq. intros j Hj. apply Hm'. lia. }
  unfold frame_context. rewrite !Hw by lia. rewrite !W0 by (cbn; tauto).
  rewrite Wg, Wfs, Wes, Wds, W1, W2, W3. unfold fin at 1. rewrite (word_setw_ne _ (k + 72)), word_setw_eq by lia.
  unfold fin. rewrite word_setw_eq by done. by rewrite Eg, Efs, Ees, Eds.
Qed.

(** What [ExecProcess] leaves for the first switch to the process at [p]: its own address space, in
    the directory [d], with nothing marked, its frames apart from those in use; a page for PCB and
    kernel stack, away from all bitmaps. *)
Record user_ready (s : kernel) (p : Z) (c : PCB) (d : Z) : Prop := UserReady {
  ur_process : PDE_addr c <> 0;
  ur_stack : self_kernel_stack c = p + 3664;
  ur_start : vaddr_start (userprog_vaddr c) = USER_VADDR_START;
  ur_bits : space_bits (userprog_vaddr c) = 753592;
  ur_empty : forall j, 0 <= j < 753592 -> bit (ram (mach s)) (vaddr_bitmap (userprog_vaddr c)) j = false;
  ur_mem : mem_ok (mem s) (userprog_vaddr c) (ram (mach s)) (set_cr3 d (pg s));
  ur_page : thread_page p;
  ur_half : 768 * 2 ^ 22 <= p;
  ur_read : readable (ram (mach s)) p 4096;
  ur_classes : classes_ready (p + 64) (ram (mach s)) 7;
  ur_apart : forall i a, p <= a < p + 4096 -> let b := bitmap_at (mem s) (userprog_vaddr c) i in
    ~ bits b <= a <= bits b + bitmap_bytes_len b
}.

Section start.
  Context `{Env}.

Lemma start_stores {B} k function m g s (f : unit -> M kernel B) : readable m k 76 ->
  (on_mach (st16 (k + 36) 0) ;;; on_mach (st32 (k + 24) 0) ;;; on_mach (st32 (k + 28) 0) ;;;
   on_mach (st32 (k + 20) 0) ;;; on_mach (st32 (k + 32) 0) ;;; on_mach (st32 (k + 16) 0) ;;;
   on_mach (st32 (k + 12) 0) ;;; on_mach (st32 (k + 8) 0) ;;; on_mach (st32 (k + 4) 0) ;;;
   on_mach (st16 (k + 40) SELECTOR_U_DATA) ;;; on_mach (st16 (k + 44) SELECTOR_U_DATA) ;;;
   on_mach (st16 (k + 48) SELECTOR_U_DATA) ;;; on_mach (st32 (k + 56) function) ;;;
   on_mach (st32 (k + 60) SELECTOR_U_CODE) ;;;
   bind (on_mach (st32 (k + 64) (Z.lor (Z.lor EFLAGS_IF_1 EFLAGS_IOPL_0) EFLAGS_MBS))) f) (with_mem m g s) =
    f tt (with_mem (start_frame m k function) g s).
Proof.
  intros Hr.
  assert (forall m' a v, stored m m' -> stored m (setw m' a v)) as S32.
  { intros m' a v Hm. eapply stored_trans; [exact Hm|apply stored_setw]. }
  assert (forall m' a v, stored m m' -> stored m (set16 m' a v)) as S16.
  { intros m' a v Hm. eapply stored_trans; [exact Hm|apply set16_stored]. }
  assert (forall m' i n, stored m m' -> 0 <= i -> i + n <= 76 -> readable m' (k + i) n) as Hi.
  { intros m' i n Hm H0 Hn. apply (stored_readable m); [exact Hm|]. eapply readable_le; [exact Hr|lia|lia]. }
  rewrite bind_store16 by (apply Hi; [apply stored_refl|lia|lia]).
  do 8 (rewrite bind_store by (apply word_readable, Hi; [auto 20 using stored_refl|lia|lia])).
  do 3 (rewrite bind_store16 by (apply Hi; [auto 20 using stored_refl|lia|lia])).
  do 3 (rewrite bind_store by (apply word_readable, Hi; [auto 20 using stored_refl|lia|lia])).
  reflexivity.
Qed.

(** The page of the user's stack. *)
Definition stack_page : Z := (USER_STACK3_VADDR - USER_VADDR_START) / PAGE_SIZE.

Lemma stack_vpage c : vaddr_start (userprog_vaddr c) = USER_VADDR_START ->
  vpage (userprog_vaddr c) stack_page = USER_STACK3_VADDR.
Proof. intros E. unfold vpage. by rewrite E. Qed.

Lemma StartProcess_ok fuel s c d function : let p := cur s in let V := userprog_vaddr c in
  user_ready s p c d -> pcbs s !! p = Some c -> cr3 (pg s) = d ->
  locks s !! user_pool_lock = Some free_lock -> enough_frames (mem s) (ram (mach s)) USER_POOL 1 ->
  0 <= function < 2 ^ 32 ->
  exists q m g, StartProcess (S fuel) function s =
      Ret (user_context function 0x7FFFE000, with_pcb p (set_stack (p + 3792) c) (with_mem m g s)) /\
    mem_ok (mem s) V m g /\ maps_frame (mem s) g USER_STACK3_VADDR USER_POOL q /\
    readable m USER_STACK3_VADDR PAGE_SIZE /\ cr3 g = d /\
    (forall j, 0 <= j < space_bits V -> bit m (vaddr_bitmap V) j = (j =? stack_page)) /\
    bit m (pool_bitmap (user_memory_pool (mem s))) 0 = true /\ classes_ready (p + 64) m 7.
Proof.
  intros p V [U1 U2 U3 U4 U5 U6 U7 U8 U9 Uc U10] Hc Hcr Hl Hen Hf. pose proof U7 as (P1 & P2 & P3).
  set (m0 := ram (mach s)) in *. fold V in U3, U4, U5, U6, U10.
  assert (set_cr3 d (pg s) = pg s) as Epg by (rewrite <- Hcr; by destruct (pg s)).
  rewrite Epg in U6. set (k := p + 3792). set (c1 := set_stack k c). set (s1 := with_pcb p c1 s).
  assert (readable m0 k 76) as Hk by (eapply readable_le; [exact U9|unfold k; lia|unfold k; lia]).
  set (m1 := start_frame m0 k function).
  destruct (mem_ok_bitmaps (mem s) V m0 m1 (pg s) U6) as [Hm1 Hb1].
  { apply start_frame_stored, (mo_bitmap _ _ _ _ U6 None). }
  { intros i a Ha. apply start_frame_out. destruct (decide (k <= a < k + 76)) as [Hin|]; [|lia].
    exfalso. apply (U10 i a); [unfold k in Hin; lia|exact Ha]. }
  set (s2 := with_mem m1 (pg s) s1).
  destruct (VirtualAddrMapping_ok USER_POOL fuel s2 V stack_page) as
    (q & m2 & g & Hrun & Hm2 & Hmp & _ & Hb2 & _ & Hcr2 & Hrd & Hs2 & _ & Hlow).
  - rewrite (space_of_pcb s2 c1); [done|]. apply lookup_insert_eq.
  - exists c1. split; [apply lookup_insert_eq|exact U1].
  - exact Hm1.
  - rewrite U4. split; [reflexivity|reflexivity].
  - change (ram (mach s2)) with m1. pose proof (Hb1 None stack_page) as E. cbn [bitmap_at] in E.
    unfold space_bits in U4. rewrite E by (rewrite U4; split; [discriminate|reflexivity]). apply U5.
    split; [discriminate|reflexivity].
  - exact Hl.
  - change (p <> 0). lia.
  - destruct Hen as [HK HU]. split; (eapply has_free_same; [|eassumption]); [exact (Hb1 (Some KERNEL_POOL))|exact (Hb1 (Some USER_POOL))].
  - unfold V in Hrun, Hmp, Hrd. rewrite (stack_vpage c U3) in Hrun, Hmp, Hrd. fold V in Hrun, Hmp, Hrd.
    rewrite (stack_vpage c U3 : vpage V stack_page = _) in Hs2.
    change (ram (mach s2)) with m1 in *. change (mem s2) with (mem s) in *.
    assert (forall a, k <= a < k + 76 -> m2 !! a = m1 !! a) as Hk2.
    { intros a Ha. apply Hs2. intros [(i & _ & Hi)|Hi].
      - apply (U10 i a); [unfold k in Ha; lia|]. unfold in_bitmap in Hi. lia.
      - unfold USER_STACK3_VADDR, PAGE_SIZE in Hi. unfold k in Ha. lia. }
    assert (readable m2 k 76) as Hr2.
    { intros a Ha. rewrite Hk2 by done. by apply (start_frame_stored m0 k function), Hk. }
    set (m3 := setw (setw m2 (k + 68) 0x7FFFE000) (k + 72) SELECTOR_U_STACK).
    destruct (mem_ok_bitmaps (mem s) V m2 m3 g Hm2) as [Hm3 Hb3].
    { do 2 apply ram_ok_setw. apply (mo_bitmap _ _ _ _ Hm2 None). }
    { intros i a Ha. unfold m3. destruct (decide (k <= a < k + 76)) as [Hin|]; [|rewrite !setw_lookup_out by lia; done].
      exfalso. apply (U10 i a); [unfold k in Hin; lia|exact Ha]. }
    exists q, m3, g. split; [|split; [exact Hm3|split; [exact Hmp|split; [|split; [by rewrite Hcr2|split; [|split]]]]]].
    + unfold StartProcess. rewrite (bind_Ret _ _ s p s) by done.
      rewrite (bind_Ret _ _ s tt s1).
      2:{ rewrite (upd_pcb_ok s p _ c Hc). unfold s1, with_pcb, c1. do 4 f_equal. unfold k. rewrite U2.
          unfold sizeof_thread_stack. rewrite u32_id by lia. f_equal. lia. }
      rewrite (bind_Ret _ _ _ _ _ (get_with_pcb p c1 s)). cbv zeta. change (self_kernel_stack c1) with k.
      pose proof (with_mem_id s1) as Es1. change (with_mem m0 (pg s) s1 = s1) in Es1. fold s1. rewrite <- Es1.
      rewrite start_stores by exact Hk. fold m1 s2. rewrite (bind_Ret _ _ _ _ _ Hrun).
      change (u32 (USER_STACK3_VADDR + PAGE_SIZE)) with 0x7FFFE000.
      change (with_mem m2 g s2) with (with_mem m2 g s1).
      rewrite bind_store by (apply word_readable; eapply readable_le; [exact Hr2|lia|lia]).
      rewrite bind_store by (apply is_word_setw, word_readable; eapply readable_le; [exact Hr2|lia|lia]).
      fold m3. rewrite (on_mach_ok _ (with_mem m3 g s1) (user_context function 0x7FFFE000) (mach (with_mem m3 g s1))).
      * by rewrite set_mach_id.
      * change (mach (with_mem m3 g s1)) with (set_ram m3 (mach s)). apply IntExit_ok; [unfold k; lia|unfold k; lia|].
        apply (start_frame_context m0); [exact Hk|exact Hf|done|]. intros a Ha. apply Hk2. lia.
    + intros a Ha. unfold m3. do 2 apply setw_is_Some. by apply Hrd.
    + intros j Hj. pose proof (Hb3 None j Hj) as E3. pose proof (Hb1 None j Hj) as E1. cbn [bitmap_at] in E1, E3.
      rewrite E3, Hb2, E1 by done. rewrite U5 by lia. by destruct (j =? stack_page).
    + destruct Hmp as (_ & Hq & _). cbn [pool_of] in Hq. unfold pool_bits in Hq.
      pose proof (Hb3 (Some USER_POOL) 0 ltac:(cbn [bitmap_at pool_of]; lia)) as E. cbn [bitmap_at pool_of] in E. rewrite E.
      apply (Hlow 0). lia.
    + intros j Hj. apply (class_ok_same _ V m0 m3 ∅ [] j Hj); [by intros x ?%elem_of_nil| |by intros i a|by apply Uc].
      intros a Ha. unfold sizeof_arena_desc in Ha. unfold m3. rewrite !setw_lookup_out by (unfold k; lia).
      rewrite Hs2; [apply start_frame_out; unfold k; lia|]. intros [(i & _ & Hi)|Hi].
      * apply (U10 i a); [lia|]. unfold in_bitmap in Hi. lia.
      * unfold USER_STACK3_VADDR, PAGE_SIZE in Hi. lia.
Qed.

End start.

(** ** [CreatUserVaddrBitmap] *)

Definition user_bitmap (b : Z) : bitmap := Bitmap 94199 b.

(** What the allocation of [cnt] pages from [r] does to the kernel's space, and the bytes it may change. *)
Definition kpages_bytes (ps : pools) (r cnt a : Z) : Prop :=
  in_bitmaps KERNEL_POOL ps (kernel_vaddr ps) a \/
  vpage (kernel_vaddr ps) r <= a < vpage (kernel_vaddr ps) r + PAGE_SIZE * cnt.
Record kpages (ps : pools) (m m' : gmap Z Z) (g g' : paging) (r cnt : Z) : Prop := KPages {
  kp_mem : mem_ok ps (kernel_vaddr ps) m' g';
  kp_cr3 : cr3 g' = cr3 g;
  kp_range : 0 <= r /\ r + cnt <= space_bits (kernel_vaddr ps);
  kp_free : free_run m (vaddr_bitmap (kernel_vaddr ps)) r cnt;
  kp_bits : forall j, 0 <= j < space_bits (kernel_vaddr ps) -> bit m' (vaddr_bitmap (kernel_vaddr ps)) j =
    if (r <=? j) && (j <? r + cnt) then true else bit m (vaddr_bitmap (kernel_vaddr ps)) j;
  kp_grown : grown ps (kernel_vaddr ps) g g';
  kp_enough : forall j, enough_frames ps m KERNEL_POOL (Z.to_nat cnt + j) -> enough_frames ps m' KERNEL_POOL j
}.

Section bitmap.
  Context `{Env}.

Lemma kpalloc_pages fuel s cnt r0 : let V := kernel_vaddr (mem s) in
  mem_ok (mem s) V (ram (mach s)) (pg s) -> locks s !! kernel_pool_lock = Some free_lock -> cur s <> 0 ->
  1 <= cnt < 3840 -> 0 <= r0 -> r0 + cnt <= space_bits V -> free_run (ram (mach s)) (vaddr_bitmap V) r0 cnt ->
  enough_frames (mem s) (ram (mach s)) KERNEL_POOL (Z.to_nat cnt) ->
  exists r m g, kpalloc (S fuel) cnt s = Ret (vpage V r, with_mem m g s) /\ r <= r0 /\
    kpages (mem s) (ram (mach s)) m (pg s) g r cnt /\ same_outside (kpages_bytes (mem s) r cnt) (ram (mach s)) m /\
    readable m (vpage V r) (PAGE_SIZE * cnt) /\
    (forall a, vpage V r <= a < vpage V r + PAGE_SIZE * cnt -> m !! a = Some 0) /\
    (forall j, r <= j < r + cnt -> translate g (vpage V j) <> None).
Proof.
  intros V Hm Hl Hcur Hc Hr0 Hle Hrun Hen.
  destruct (pool_alloc_ok fuel s KERNEL_POOL V cnt r0)
    as (r & m & g & Hp & Hm1 & Hr & Hfree & Hbits & Hmap & Hz & _ & Hcr & Hs & Hg & Hj); try done.
  exists r, m, g. split; [exact Hp|]. split; [lia|]. split; [|split; [exact Hs|split; [|split; [exact Hz|]]]].
  - constructor; try assumption. fold V. lia.
  - intros a Ha. rewrite Hz by exact Ha. eauto.
  - intros j Hjr. destruct (Hmap j Hjr) as (q & (_ & _ & E) & _). by rewrite E.
Qed.

(** Writing to the heap. *)
Lemma kpages_write ps m m1 m2 g g' r cnt : kpages ps m m1 g g' r cnt -> ram_ok m2 ->
  same_outside (in_space (kernel_vaddr ps)) m1 m2 -> kpages ps m m2 g g' r cnt.
Proof.
  intros [K1 K2 K3 K4 K5 K7 K8] Hram Hs.
  destruct (mem_ok_ram ps (kernel_vaddr ps) m1 m2 g' K1 Hram Hs) as [Hm2 Hb].
  constructor; try assumption.
  - intros j Hj. pose proof (Hb None j Hj) as E. cbn [bitmap_at] in E. rewrite E. by apply K5.
  - intros j Hen. destruct (K8 j Hen) as [HK HK2].
    split; (eapply has_free_same; [|eassumption]); intros b Hbr; exact (Hb (Some KERNEL_POOL) b Hbr).
Qed.

Lemma CreatUserVaddrBitmap_ok fuel s p c r0 : let V := kernel_vaddr (mem s) in
  mem_ok (mem s) V (ram (mach s)) (pg s) -> locks s !! kernel_pool_lock = Some free_lock -> cur s <> 0 ->
  0 <= r0 -> r0 + 23 <= space_bits V -> free_run (ram (mach s)) (vaddr_bitmap V) r0 23 ->
  enough_frames (mem s) (ram (mach s)) KERNEL_POOL 23 ->
  exists r m g, let b := user_bitmap (vpage V r) in
    CreatUserVaddrBitmap (S fuel) p (with_pcb p c s) =
      Ret (tt, with_pcb p (set_uservaddr (VirtualAddr b USER_VADDR_START) c) (with_mem m g s)) /\ r <= r0 /\
    kpages (mem s) (ram (mach s)) m (pg s) g r 23 /\ same_outside (kpages_bytes (mem s) r 23) (ram (mach s)) m /\
    bitmap_ok m b /\
    (forall j, 0 <= j < nbits b -> bit m b j = false).
Proof.
  intros V Hm Hl Hcur Hr0 Hle Hrun Hen. set (v0 := VirtualAddr (vaddr_bitmap (userprog_vaddr c)) USER_VADDR_START).
  set (s0 := with_pcb p (set_uservaddr v0 c) s).
  destruct (kpalloc_pages fuel s0 23 r0) as (r & m1 & g & Hp & Hr & Hk & Hs & Hrd & _ & _); try done.
  set (b := user_bitmap (vpage V r)). pose proof (kp_range _ _ _ _ _ _ _ Hk) as [Hr1 Hr2].
  change (mem s0) with (mem s) in *. change (ram (mach s0)) with (ram (mach s)) in *. change (pg s0) with (pg s) in *.
  fold V in Hp, Hr2, Hrd.
  destruct (vpage_facts _ _ _ _ r Hm ltac:(fold V; lia)) as (_ & V1 & V2 & V3). fold V in V1, V2, V3.
  assert (bitmap_ok m1 b) as Hok1.
  { split; [apply (mo_bitmap _ _ _ _ (kp_mem _ _ _ _ _ _ _ Hk) None)|]. unfold PAGE_SIZE in Hrd.
    split_and!; cbn [b user_bitmap bits bitmap_bytes_len]; [lia|lia|lia|lia|].
    eapply readable_le; [exact Hrd|lia|lia]. }
  destruct (BitmapInit_ok (set_ram m1 (mach s)) b Hok1) as (m2 & Hinit & Hok2 & Hb2 & Hs2).
  exists r, m2, g. fold b. split; [|split; [exact Hr|split; [|split; [|split; [exact Hok2|exact Hb2]]]]].
  - unfold CreatUserVaddrBitmap. rewrite bind_upd. fold v0 s0.
    change (DIV_ROUND_UP _ PAGE_SIZE) with 23. cbv zeta. rewrite (bind_Ret _ _ _ _ _ Hp).
    change (with_mem m1 g s0) with (with_pcb p (set_uservaddr v0 c) (with_mem m1 g s)). rewrite bind_upd.
    cbn [userprog_vaddr set_uservaddr v0 vaddr_bitmap vaddr_start].
    set (c2 := set_uservaddr _ (set_uservaddr v0 c)).
    rewrite (bind_Ret _ _ _ _ _ (get_with_pcb p c2 (with_mem m1 g s))).
    rewrite (bind_Ret _ _ _ tt (with_pcb p c2 (with_mem m1 g s))) by (apply ASSERT_true, negb_eqb_true; cbn; lia).
    rewrite bind_upd. cbv beta zeta.
    match goal with |- bind _ _ (with_pcb p ?x _) = _ => change x with (set_uservaddr (VirtualAddr b USER_VADDR_START) c) end.
    set (c3 := set_uservaddr (VirtualAddr b USER_VADDR_START) c).
    rewrite (bind_Ret _ _ _ _ _ (get_with_pcb p c3 (with_mem m1 g s))).
    rewrite (bind_Ret _ _ _ tt (with_pcb p c3 (with_mem m1 g s))) by (by apply ASSERT_true).
    change (vaddr_bitmap (userprog_vaddr c3)) with b.
    rewrite (on_mach_ok _ (with_pcb p c3 (with_mem m1 g s)) _ _ Hinit). reflexivity.
  - apply (kpages_write _ _ _ _ _ _ _ _ Hk); [apply Hok2|]. intros a Ha. apply Hs2. intros Hin. apply Ha.
    fold V. cbn [b user_bitmap bits bitmap_bytes_len] in Hin. unfold in_space, vpage, PAGE_SIZE in *. lia.
  - intros a Ha. rewrite Hs2; [by apply Hs|]. intros Hin. apply Ha. right. fold V.
    cbn [b user_bitmap bits bitmap_bytes_len] in Hin. unfold PAGE_SIZE. lia.
Qed.

End bitmap.

(** ** The address space of a new process *)

Section user_space.
  Context (ps : pools) (m : gmap Z Z) (g : paging) (d q b : Z).
  #[local] Abbreviation K := (kernel_vaddr ps).
  #[local] Abbreviation V := (VirtualAddr (user_bitmap b) USER_VADDR_START).
  Hypothesis Hm : mem_ok ps K m g.
  Hypothesis Hcr : cr3 g = 0x100000.
  Hypothesis Hd : process_dir (phys g) 0x100000 d.
  Hypothesis Hq : 0 <= q < pool_bits (kernel_memory_pool ps) /\ d = frame (kernel_memory_pool ps) q.
  Hypothesis Hused : bit m (pool_bitmap (kernel_memory_pool ps)) q = true.
  Hypothesis Hhalf : 768 * 2 ^ 22 <= vaddr_start K.
  Hypothesis Hshared : forall i a, let b := bitmap_at ps K i in bits b <= a <= bits b + bitmap_bytes_len b -> shared a.
  Hypothesis Hb : bitmap_ok m (user_bitmap b).
  Hypothesis Hin : forall a, b <= a < b + PAGE_SIZE * 23 -> in_space K a.

Lemma dir_frame : frame_of d = d /\ 0 <= d < 2 ^ 32.
Proof.
  destruct Hq as [Hq1 ->]. destruct (frame_facts _ _ _ _ KERNEL_POOL q Hm Hq1) as [F1 F2]. cbn [pool_of] in F1, F2.
  split; [by apply page_frame_of; [lia|]|lia].
Qed.

Lemma user_space_bits : space_bits V = 753592.
Proof. reflexivity. Qed.

Lemma user_in_space a : in_space V a -> 2 ^ 22 <= a < 768 * 2 ^ 22.
Proof. unfold in_space. rewrite user_space_bits. cbn [vaddr_start]. unfold USER_VADDR_START, PAGE_SIZE. lia. Qed.

(** What is mapped in the new space is mapped in the kernel's, by the same tables. *)
Lemma user_maps va pf r : maps_frame ps (set_cr3 d g) va pf r ->
  maps_frame ps g va pf r /\ table_of (phys g) d va = table_of (phys g) 0x100000 va.
Proof.
  intros (Hva & Hr & Ht). destruct dir_frame as [Ef _]. unfold translate in Ht. cbn [phys cr3 set_cr3] in Ht.
  rewrite Ef in Ht.
  destruct (decide (2 ^ 22 <= va < 768 * 2 ^ 22)) as [Hmid|Hout].
  { by rewrite (proj2 (process_dir_empty _ _ _ _ Hd Hmid)) in Ht. }
  assert (walk (phys g) d va = walk (phys g) 0x100000 va /\ table_of (phys g) d va = table_of (phys g) 0x100000 va) as [Ew Et].
  { destruct Hd as [_ He]. unfold walk, table_of. unfold pde_at in He.
    pose proof (pde_idx_low va Hva) as Hi. rewrite He by lia.
    replace ((va / 2 ^ 22 =? 0) || (768 <=? va / 2 ^ 22)) with true; [done|].
    symmetry. apply orb_true_iff. destruct (decide (va < 2 ^ 22)) as [Hl|Hl].
    - left. rewrite Z.div_small; [done|lia].
    - right. apply Z.leb_le, Z.div_le_lower_bound; lia. }
  rewrite Ew in Ht. split; [|done]. split; [done|]. split; [done|].
  unfold translate. rewrite Hcr. exact Ht.
Qed.

(** A frame that is no table in the kernel's space and not the new directory. *)
Lemma user_fresh f : frame_fresh (phys g) 0x100000 f -> f <> d -> frame_fresh (phys g) d f.
Proof.
  intros (F1 & F2 & F3 & F4 & _ & F6) Hne. destruct Hd as [_ He]. split_and!; try done.
  intros i e Hi. rewrite He by done. destruct ((i =? 0) || (768 <=? i)); [by apply F6|]. by intros [= <-].
Qed.

Lemma user_mem_ok : (forall j, 0 <= j < 753592 -> bit m (user_bitmap b) j = false) -> mem_ok ps V m (set_cr3 d g).
Proof.
  intros Hz. destruct dir_frame as [Ef Hdr]. pose proof Hm as [H1 H2 H3 H4 H5 H6 H7 H8 H9 H10 H11 H12 H13].
  rewrite Hcr in H8. change (frame_of 0x100000) with 0x100000 in H8.
  assert (forall a, in_bitmap (user_bitmap b) a \/ a = b + 94199 -> in_space K a) as Hbin.
  { intros a [Ha|Ha]; apply Hin; unfold in_bitmap, user_bitmap, PAGE_SIZE in *; cbn in *; lia. }
  constructor; try done.
  - unfold pg_ok. cbn [phys cr3 set_cr3]. rewrite Ef. apply Hd.
  - intros [pf|]; [apply (H2 (Some pf))|exact Hb].
  - intros [pf|] [pf'|] a Ha Ha'; [by apply (H3 (Some pf) (Some pf') a)| | |done].
    + exfalso. apply (H4 (Some pf) a); [apply Hbin; by left|]. unfold in_bitmap in Ha. cbn [bitmap_at] in *. lia.
    + exfalso. apply (H4 (Some pf') a); [apply Hbin; by left|]. unfold in_bitmap in Ha'. cbn [bitmap_at] in *. lia.
  - intros [pf|] a Ha%user_in_space Hc.
    + destruct (Hshared (Some pf) a Hc); lia.
    + assert (in_space K a) as Hk by (apply Hin; cbn in Hc; unfold PAGE_SIZE; lia). unfold in_space in Hk. lia.
  - intros pf r Hr Hbit. cbn [phys cr3 set_cr3]. rewrite Ef. apply user_fresh; [by apply H8|]. intros E.
    destruct Hq as [Hq1 Hq2]. rewrite Hq2 in E.
    destruct (frames_apart _ _ _ _ pf KERNEL_POOL r q Hm Hr Hq1 E) as [-> ->]. cbn [pool_of] in Hbit. congruence.
  - intros pf r va [Hmp _]%user_maps. by eapply H9.
  - intros i Hi _. destruct (translate (set_cr3 d g) (vpage V i)) as [pa|] eqn:E; [|done]. exfalso.
    unfold translate in E. cbn [phys cr3 set_cr3] in E. rewrite Ef in E. rewrite user_space_bits in Hi.
    assert (2 ^ 22 <= vpage V i < 768 * 2 ^ 22) as Hr by (unfold vpage, PAGE_SIZE; cbn [vaddr_start]; unfold USER_VADDR_START; lia).
    by rewrite (proj2 (process_dir_empty _ _ _ _ Hd Hr)) in E.
  - intros va va' t Ha%user_in_space _. cbn [phys cr3 set_cr3]. rewrite Ef.
    by rewrite (proj1 (process_dir_empty _ _ _ _ Hd Ha)).
  - intros pf r va Ha%user_in_space (_ & _ & Ht). exfalso. unfold translate in Ht. cbn [phys cr3 set_cr3] in Ht.
    rewrite Ef in Ht. by rewrite (proj2 (process_dir_empty _ _ _ _ Hd Ha)) in Ht.
  - intros pf r va va' [Hmp E1]%user_maps [Hmp' E2]%user_maps. destruct (H13 _ _ _ _ Hmp Hmp') as [E3 E4].
    rewrite Hcr in E3. change (frame_of 0x100000) with 0x100000 in E3.
    split; [|done]. cbn [phys cr3 set_cr3]. rewrite Ef. congruence.
Qed.

End user_space.

(** ** [ExecProcess] *)

(** The PCB of a new process. *)
Definition process_PCB (p n : Z) (name : list Z) (b v : Z) : PCB :=
  set_PDE v (set_stack (p + 3664) (set_uservaddr (VirtualAddr (user_bitmap b) USER_VADDR_START)
    (fresh_PCB p n name TASK_READY DEFAULT_PRIORITY))).

(** The memory of a new process, made in three steps: the page at [i1] with PCB and stack, the bitmap
    in 23 pages from [i2], the directory in page [i3], whose frame has number [q]; for [n] of the pages
    the frames are taken from the kernel's pool of [m0], none from the user's, and the pages from [e] on
    are as before. *)
Record process_made (ps : pools) (KT SP filename : Z) (m0 m : gmap Z Z) (g0 g : paging) (n : nat) (e i1 i2 i3 q : Z) : Prop :=
    ProcessMade {
  pc_mem : mem_ok ps (kernel_vaddr ps) m g;
  pc_cr : cr3 g = cr3 g0;
  pc_grow : grown ps (kernel_vaddr ps) g0 g;
  pc_pages : 0 <= i1 < space_bits (kernel_vaddr ps) /\ 0 <= i2 /\ i2 + 23 <= space_bits (kernel_vaddr ps) /\
    ~ i2 <= i1 < i2 + 23;
  pc_stack_page : translate g (vpage (kernel_vaddr ps) i1) <> None;
  pc_stack_read : readable m (vpage (kernel_vaddr ps) i1) 4096;
  pc_stack : frame_at KT m (vpage (kernel_vaddr ps) i1 + 3664) SP filename;
  pc_arenas : classes_ready (vpage (kernel_vaddr ps) i1 + 64) m 7;
  pc_bitmap : bitmap_ok m (user_bitmap (vpage (kernel_vaddr ps) i2));
  pc_clear : forall j, 0 <= j < 753592 -> bit m (user_bitmap (vpage (kernel_vaddr ps) i2)) j = false;
  pc_pde : 0 <= i3 < space_bits (kernel_vaddr ps) /\ maps_frame ps g (vpage (kernel_vaddr ps) i3) KERNEL_POOL q;
  pc_dir : process_dir (phys g) (frame_of (cr3 g0)) (frame (kernel_memory_pool ps) q);
  pc_enough : forall j, enough_frames ps m0 KERNEL_POOL (n + j) -> enough_frames ps m KERNEL_POOL j;
  pc_user : forall j, 0 <= j < pool_bits (user_memory_pool ps) ->
    bit m (pool_bitmap (user_memory_pool ps)) j = bit m0 (pool_bitmap (user_memory_pool ps)) j;
  pc_later : forall j, e <= j < space_bits (kernel_vaddr ps) ->
    bit m (vaddr_bitmap (kernel_vaddr ps)) j = bit m0 (vaddr_bitmap (kernel_vaddr ps)) j;
  pc_kept : forall j a, 0 <= j < space_bits (kernel_vaddr ps) -> bit m0 (vaddr_bitmap (kernel_vaddr ps)) j = true ->
    j <> i1 -> vpage (kernel_vaddr ps) j <= a < vpage (kernel_vaddr ps) j + 4096 -> m !! a = m0 !! a
}.

Lemma SetIntStatus_same s : exists old, SetIntStatus (if_flag (eflags s)) s = Ret (old, s).
Proof.
  unfold SetIntStatus, EnableInt, DisableInt, GetIntStatus, bind. destruct (if_flag (eflags s)) eqn:E; rewrite ?E; eauto.
Qed.

Section exec.
  Context `{Env}.
  Context (KernelThread_addr StartProcess_addr : Z).

(** Linking the finished PCB. *)
Lemma exec_link p c s : pcbs s !! p = Some c -> PDE_addr c <> 0 ->
  general_tag p ∉ ready_thread_list s -> all_list_tag p ∉ all_thread_list s ->
  (let* c := get_pcb p in
   ASSERT (negb (PDE_addr c =? 0)) "ExecProcess" 84 ;;;
   let* old_status := on_mach GetIntStatus in
   link_ready "ExecProcess" 88 p ;;;
   link_all "ExecProcess" 90 p ;;;
   let* _ := on_mach (SetIntStatus old_status) in
   ret tt) s =
  Ret (tt, set_all (all_thread_list s ++ [all_list_tag p]) (set_ready (ready_thread_list s ++ [general_tag p]) s)).
Proof.
  intros Hc Hp Hr Ha. rewrite (bind_Ret _ _ _ _ _ (get_pcb_ok _ _ _ Hc)).
  rewrite (bind_Ret _ _ s tt s) by (apply ASSERT_true, negb_eqb_true; done).
  rewrite (bind_Ret _ _ s (if_flag (eflags (mach s))) s) by (by apply on_mach_get).
  rewrite (bind_Ret _ _ _ _ _ (link_ready_ok "ExecProcess" 88 p s Hr)).
  rewrite (bind_Ret _ _ _ _ _ (link_all_ok "ExecProcess" 90 p (set_ready _ s) Ha)).
  set (s' := set_all _ _). destruct (SetIntStatus_same (mach s')) as [old Hold].
  by rewrite (bind_Ret _ _ s' old s') by (by apply on_mach_get).
Qed.

(** The arenas of the new PCB. *)
Lemma exec_arenas p m s : 0 < p -> p + 4096 < 2 ^ 32 -> readable m p 4096 ->
  exists m', ArenaInit (user_arena_descs p) (set_ram m s) = Ret (tt, set_ram m' s) /\
    classes_ready (p + 64) m' 7 /\ stored m m' /\ same_outside (fun a => p + 64 <= a < p + 232) m m'.
Proof.
  intros H0 H1 Hr. unfold user_arena_descs. rewrite u32_id by lia.
  destruct (ArenaInit_loop (p + 64) 7 (set_ram m s) 0) as (m' & Hrun & Hc & Hst & Hs);
    [lia|unfold sizeof_arena_desc; lia|lia|lia| |intros k Hk; lia|].
  - eapply readable_le; [exact Hr|lia|unfold sizeof_arena_desc; lia].
  - exists m'. split; [exact Hrun|]. split; [exact Hc|]. split; [exact Hst|]. intros a Ha. apply Hs.
    unfold sizeof_arena_desc. lia.
Qed.

Lemma frame_at_same KT m m' k function func_arg : (forall a, k <= a < k + 32 -> m' !! a = m !! a) ->
  frame_at KT m k function func_arg -> frame_at KT m' k function func_arg.
Proof.
  intros Hs. assert (forall i, 0 <= i <= 28 -> word m' (k + i) = word m (k + i)) as Hw.
  { intros i Hi. apply word_eq. intros j Hj. apply Hs. lia. }
  intros (F1 & F2 & F3 & F4). split_and!; try by rewrite Hw.
  intros i Hi. rewrite Hw by lia. by apply F1.
Qed.

(** Bytes of a page of the heap that is not among the new ones. *)
Lemma page_outside ps m g i r cnt a : mem_ok ps (kernel_vaddr ps) m g -> 0 <= i < space_bits (kernel_vaddr ps) ->
  ~ r <= i < r + cnt -> vpage (kernel_vaddr ps) i <= a < vpage (kernel_vaddr ps) i + 4096 -> ~ kpages_bytes ps r cnt a.
Proof.
  intros Hm Hi Hout Ha [(k & _ & Hk)|Hk]; [|unfold vpage, PAGE_SIZE in *; nia].
  apply (mo_away _ _ _ _ Hm k a); [unfold in_space, vpage, PAGE_SIZE in *; lia|]. unfold in_bitmap in Hk. lia.
Qed.

(** The user's pool is not touched. *)
Lemma kpages_user ps m0 m m' g r cnt : mem_ok ps (kernel_vaddr ps) m0 g -> 0 <= r -> r + cnt <= space_bits (kernel_vaddr ps) ->
  same_outside (kpages_bytes ps r cnt) m m' -> forall j, 0 <= j < pool_bits (user_memory_pool ps) ->
  bit m' (pool_bitmap (user_memory_pool ps)) j = bit m (pool_bitmap (user_memory_pool ps)) j.
Proof.
  intros Hm Hr Hc Hs j Hj. apply (bit_keep _ _ _ _ _ Hs). pose proof (bit_in_bitmap (pool_bitmap (user_memory_pool ps)) j Hj) as Hin.
  intros [(k & Hk & Hb)|Hb].
  - pose proof (mo_apart _ _ _ _ Hm (Some USER_POOL) k _ Hin Hb) as <-. by specialize (Hk eq_refl).
  - apply (mo_away _ _ _ _ Hm (Some USER_POOL) (bits (pool_bitmap (user_memory_pool ps)) + j / 8)).
    + unfold in_space, vpage, PAGE_SIZE in *. lia.
    + unfold in_bitmap in Hin. cbn [bitmap_at pool_of]. lia.
Qed.

(** The page of an address in a run of pages. *)
Lemma page_in_run V r cnt a : vpage V r <= a < vpage V r + PAGE_SIZE * cnt ->
  exists j, r <= j < r + cnt /\ vpage V j <= a < vpage V j + 4096.
Proof.
  unfold vpage, PAGE_SIZE. intros Ha. exists (r + (a - vaddr_start V - 4096 * r) / 4096).
  pose proof (Z.div_mod (a - vaddr_start V - 4096 * r) 4096). pose proof (Z.mod_pos_bound (a - vaddr_start V - 4096 * r) 4096).
  assert (0 <= (a - vaddr_start V - 4096 * r) / 4096 < cnt) by (split; [apply Z.div_pos|apply Z.div_lt_upper_bound]; lia).
  lia.
Qed.

(** The page of the PCB. *)
Lemma exec_page fuel s name r0 : let V := kernel_vaddr (mem s) in let n := next (next_pid s) in
  mem_ok (mem s) V (ram (mach s)) (pg s) -> locks s !! kernel_pool_lock = Some free_lock ->
  locks s !! pid_lock = Some free_lock -> cur s <> 0 ->
  0 <= r0 < space_bits V -> bit (ram (mach s)) (vaddr_bitmap V) r0 = false ->
  enough_frames (mem s) (ram (mach s)) KERNEL_POOL 1 -> (length (c_chars name) <= 38)%nat ->
  (forall i, 0 <= i < space_bits V -> bit (ram (mach s)) (vaddr_bitmap V) i = false -> vpage V i <> main_thread s) ->
  exists i s1 m g, let p := vpage V i in
    kpalloc (S fuel) 1 s = Ret (p, s1) /\
    InitThread (S fuel) p name DEFAULT_PRIORITY s1 =
      Ret (tt, with_pcb p (fresh_PCB p n name TASK_READY DEFAULT_PRIORITY) (set_next_pid n (with_mem m g s))) /\
    i <= r0 /\ kpages (mem s) (ram (mach s)) m (pg s) g i 1 /\
    (forall a, p <= a < p + 4096 -> m !! a = Some 0) /\ translate g p <> None /\
    same_outside (kpages_bytes (mem s) i 1) (ram (mach s)) m.
Proof.
  intros V n Hm Hl Hpid Hcur Hr0 Hb0 Hen Hname Hmain.
  destruct (kpalloc_pages fuel s 1 r0) as (i & m1 & g & Hp & Hi & Hk & Hs & Hrd & Hz & Ht);
    [done|done|done|lia|lia|fold V; lia|fold V; intros j Hj; by replace j with r0 by lia|done|].
  fold V in Hp, Hrd, Hz, Ht. pose proof (kp_range _ _ _ _ _ _ _ Hk) as [Hi0 Hi1]. fold V in Hi1.
  destruct (vpage_facts _ _ _ _ i Hm ltac:(fold V; lia)) as (P0 & P1 & P2 & P3). fold V in P0, P1, P2, P3.
  set (p := vpage V i) in *. unfold PAGE_SIZE in Hrd, Hz.
  assert ((p =? main_thread s) = false) as Hpm.
  { apply Z.eqb_neq. apply (Hmain i); [lia|]. apply (kp_free _ _ _ _ _ _ _ Hk). lia. }
  assert (forall a, p <= a < p + 4096 -> m1 !! a = Some 0) as Hz1 by (intros a Ha; apply Hz; lia).
  exists i, (with_mem m1 g s), (clear_PCB p m1), g. fold p.
  split; [exact Hp|]. split; [|split; [exact Hi|split; [|split; [|split; [apply Ht; lia|]]]]].
  - assert (readable m1 p sizeof_PCB) as Hrp by (eapply readable_le; [exact Hrd|lia|unfold sizeof_PCB; lia]).
    pose proof (InitThread_ok fuel p name DEFAULT_PRIORITY (with_mem m1 g s) Hpid Hcur P1 ltac:(lia) Hrp Hname) as HI.
    change (main_thread (with_mem m1 g s)) with (main_thread s) in HI. rewrite Hpm in HI. exact HI.
  - apply (kpages_write _ _ _ _ _ _ _ _ Hk).
    + apply write_bytes_ok; [|apply Forall_replicate, u8_range]. apply (mo_bitmap _ _ _ _ (kp_mem _ _ _ _ _ _ _ Hk) None).
    + intros a Ha. apply write_bytes_lookup_out. rewrite length_replicate. fold V in Ha.
      unfold in_space, p, vpage, PAGE_SIZE in *. lia.
  - intros a Ha. by apply clear_zero.
  - intros a Ha. rewrite <- (Hs a Ha). apply write_bytes_lookup_out. rewrite length_replicate.
    destruct (decide (p <= a < p + 4096)) as [Hin|]; [|lia]. exfalso. apply Ha. right. fold V p. unfold PAGE_SIZE. lia.
Qed.

(** The rest of the process, in a state [s] without its PCB [c]. *)
Lemma exec_space {B} fuel s c filename i1 r0 (f : unit -> M kernel B) : let V := kernel_vaddr (mem s) in let p := vpage V i1 in
  mem_ok (mem s) V (ram (mach s)) (pg s) -> locks s !! kernel_pool_lock = Some free_lock -> cur s <> 0 ->
  0 <= i1 < space_bits V -> bit (ram (mach s)) (vaddr_bitmap V) i1 = true -> translate (pg s) p <> None ->
  (forall a, p <= a < p + 4096 -> ram (mach s) !! a = Some 0) -> self_kernel_stack c = u32 (p + PAGE_SIZE) ->
  0 <= r0 -> r0 + 24 <= space_bits V -> free_run (ram (mach s)) (vaddr_bitmap V) r0 24 ->
  enough_frames (mem s) (ram (mach s)) KERNEL_POOL 24 ->
  0 <= KernelThread_addr < 2 ^ 32 -> 0 <= StartProcess_addr < 2 ^ 32 -> 0 <= filename < 2 ^ 32 ->
  exists i2 i3 q m g,
    (CreatUserVaddrBitmap (S fuel) p ;;;
     ThreadCreate KernelThread_addr p StartProcess_addr filename ;;;
     let* pde := CreatPDE (S fuel) in
     upd_pcb p (set_PDE pde) ;;;
     bind (on_mach (ArenaInit (user_arena_descs p))) f) (with_pcb p c s) =
      f tt (with_pcb p (set_PDE (vpage V i3) (set_stack (p + 3664)
        (set_uservaddr (VirtualAddr (user_bitmap (vpage V i2)) USER_VADDR_START) c))) (with_mem m g s)) /\
    process_made (mem s) KernelThread_addr StartProcess_addr filename (ram (mach s)) m (pg s) g 24 (r0 + 24) i1 i2 i3 q.
Proof.
  intros V p Hm Hl Hcur Hi1 Hb1 Htr Hz Hstk Hr0 Hle Hrun Hen A1 A2 A3.
  destruct (vpage_facts _ _ _ _ i1 Hm Hi1) as (P0 & P1 & P2 & P3). fold V p in P0, P1, P2, P3.
  destruct (CreatUserVaddrBitmap_ok fuel s p c r0) as (i2 & m2 & g2 & R2 & Hi2 & K2 & S2 & B2 & Z2);
    [done|done|done|lia|fold V; lia| |exact (enough_le _ _ _ _ 23 Hen ltac:(lia))|].
  { fold V. intros j Hj. apply Hrun. lia. }
  fold V in R2, B2, Z2. set (b := vpage V i2) in *. set (c1 := set_uservaddr _ c) in R2.
  pose proof (kp_range _ _ _ _ _ _ _ K2) as [K20 K21]. fold V in K21.
  pose proof (kp_mem _ _ _ _ _ _ _ K2) as Hm2. fold V in Hm2.
  assert (~ i2 <= i1 < i2 + 23) as Hap.
  { intros Hc. pose proof (kp_free _ _ _ _ _ _ _ K2 i1 Hc) as E. fold V in E. congruence. }
  assert (forall a, p <= a < p + 4096 -> m2 !! a = Some 0) as Hz2.
  { intros a Ha. rewrite S2; [by apply Hz|]. by apply (page_outside _ _ _ i1 _ _ _ Hm). }
  assert (readable m2 (p + 3664) 32) as Hr2 by (intros a Ha; rewrite Hz2 by lia; eauto).
  pose proof (ThreadCreate_ok KernelThread_addr p c1 s StartProcess_addr filename m2 g2 P1 ltac:(lia) Hstk Hr2) as R3.
  set (m3 := first_frame KernelThread_addr m2 (p + 3664) StartProcess_addr filename) in *. set (c2 := set_stack _ c1) in *.
  assert (kpages (mem s) (ram (mach s)) m3 (pg s) g2 i2 23) as K3.
  { apply (kpages_write _ _ _ _ _ _ _ _ K2).
    - unfold m3, first_frame. repeat apply ram_ok_setw. apply B2.
    - intros a Ha. apply first_frame_out. fold V in Ha. unfold in_space, p, vpage, PAGE_SIZE in *. lia. }
  pose proof (kp_mem _ _ _ _ _ _ _ K3) as Hm3. fold V in Hm3.
  set (s3 := with_pcb p c2 (with_mem m3 g2 s)).
  destruct (CreatPDE_ok fuel s3 (r0 + 23)) as
    (i3 & q & m4 & g4 & R4 & Hm4 & Hcr4 & Hi3 & Hb3 & Hmp & Hd & Hbits4 & _ & S4 & G4 & E4);
    [exact Hm3|exact Hl|exact Hcur|change (mem s3) with (mem s); fold V; lia| | |].
  { change (ram (mach s3)) with m3. change (mem s3) with (mem s). pose proof (kp_bits _ _ _ _ _ _ _ K3 (r0 + 23)) as E.
    fold V in E |- *. rewrite E by lia. replace ((i2 <=? r0 + 23) && (r0 + 23 <? i2 + 23)) with false by lia. apply Hrun. lia. }
  { apply (kp_enough _ _ _ _ _ _ _ K3). exact Hen. }
  change (mem s3) with (mem s) in *. change (ram (mach s3)) with m3 in *. change (pg s3) with g2 in *. fold V in Hm4, R4, Hi3, Hb3, Hmp.
  assert (forall j, 0 <= j < space_bits V -> bit m3 (vaddr_bitmap V) j = true -> ~ i3 <= j < i3 + 1) as Hi3'.
  { intros j Hj Hbj Hc. assert (j = i3) as -> by lia. congruence. }
  assert (forall j a, 0 <= j < space_bits V -> bit m3 (vaddr_bitmap V) j = true ->
    vpage V j <= a < vpage V j + 4096 -> m4 !! a = m3 !! a) as Hkeep.
  { intros j a Hj Hbj Ha. apply S4. intros Hc. apply (page_outside _ _ _ j i3 1 a Hm Hj (Hi3' j Hj Hbj) Ha).
    destruct Hc as [Hc|Hc]; [by left|right]. fold V in Hc |- *. unfold PAGE_SIZE in *. lia. }
  assert (forall j, 0 <= j < space_bits V -> j = i1 \/ i2 <= j < i2 + 23 -> bit m3 (vaddr_bitmap V) j = true) as Hused.
  { intros j Hj Hc. pose proof (kp_bits _ _ _ _ _ _ _ K3 j) as E. fold V in E. rewrite E by lia.
    destruct ((i2 <=? j) && (j <? i2 + 23)) eqn:E2; [done|]. destruct Hc as [->|Hc]; [exact Hb1|]. lia. }
  assert (forall a, p <= a < p + 4096 -> m4 !! a = m3 !! a) as Hp4.
  { intros a Ha. apply (Hkeep i1); [lia|apply Hused; [lia|by left]|exact Ha]. }
  assert (forall a, b <= a < b + 94208 -> m4 !! a = m2 !! a) as Hbm4.
  { intros a Ha. destruct (page_in_run V i2 23 a) as (j & Hj & Haj); [fold b; unfold PAGE_SIZE; lia|].
    rewrite (Hkeep j a); [|lia|apply Hused; [lia|by right]|exact Haj]. apply first_frame_out.
    assert (j <> i1) as Hji by (intros ->; lia). unfold p, vpage, PAGE_SIZE in *. nia. }
  assert (readable m4 p 4096) as Hr4.
  { intros a Ha. rewrite Hp4 by done. unfold m3, first_frame. repeat apply setw_is_Some. rewrite Hz2 by done. eauto. }
  destruct (exec_arenas p m4 (mach s) P1 ltac:(lia) Hr4) as (m5 & R5 & Hcl & Hst5 & S5).
  assert (same_outside (fun a => ~ b <= a < b + 94208) m2 m5) as S25.
  { intros a Ha. apply Decidable.not_not in Ha; [|unfold Decidable.decidable; lia].
    rewrite S5; [by apply Hbm4|]. destruct (page_in_run V i2 23 a) as (j & Hj & Haj); [fold b; unfold PAGE_SIZE; lia|].
    assert (j <> i1) as Hji by (intros ->; lia). unfold p, vpage, PAGE_SIZE in *. nia. }
  exists i2, i3, q, m5, g4. split.
  { rewrite (bind_Ret _ _ _ _ _ R2), (bind_Ret _ _ _ _ _ R3). fold s3. rewrite (bind_Ret _ _ _ _ _ R4).
    change (with_mem m4 g4 s3) with (with_pcb p c2 (with_mem m4 g4 s)). rewrite bind_upd.
    pose proof (on_mach_ok (ArenaInit _) (with_pcb p (set_PDE (vpage V i3) c2) (with_mem m4 g4 s)) tt _ R5) as R5'.
    by rewrite (bind_Ret _ _ _ _ _ R5'). }
  destruct (mo_space _ _ _ _ Hm) as (Sp1 & _ & Sp2). fold V in Sp1, Sp2.
  pose proof (kp_cr3 _ _ _ _ _ _ _ K3) as Ecr.
  assert (grown (mem s) V (pg s) g4) as Hgr.
  { apply (grown_trans _ _ _ g2); [exact Ecr|lia|lia|exact (kp_grown _ _ _ _ _ _ _ K3)|exact G4]. }
  assert (same_outside (in_space V) m4 m5) as S45.
  { intros a Ha. apply S5. unfold in_space, p, vpage, PAGE_SIZE in *. lia. }
  pose proof (mem_ok_ram _ V m4 m5 g4 Hm4 (proj1 Hst5 (proj1 (mo_bitmap _ _ _ _ Hm4 None))) S45) as Hm5.
  assert (same_outside (in_space V) m2 m3) as S23.
  { intros a Ha. apply first_frame_out. unfold in_space, p, vpage, PAGE_SIZE in *. lia. }
  pose proof (mem_ok_ram _ V m2 m3 g2 Hm2 (proj1 (mo_bitmap _ _ _ _ Hm3 None)) S23) as Hm3'.
  constructor; fold V p b.
  - apply Hm5.
  - congruence.
  - exact Hgr.
  - lia.
  - destruct (translate (pg s) p) as [pa|] eqn:E; [|done]. by rewrite (gr_walk _ _ _ _ Hgr p pa) by (done || lia).
  - by apply (stored_readable m4).
  - apply (frame_at_same _ m3); [intros a Ha; rewrite S5, Hp4 by lia; done|].
    apply first_frame_at; [|done..]. intros a Ha. apply Hz2. lia.
  - exact Hcl.
  - destruct B2 as (Bm & B0 & B1 & Bl & Bl2 & Br). split; [apply Hst5, (mo_bitmap _ _ _ _ Hm4 None)|]. split_and!; try done.
    cbn [bits bitmap_bytes_len user_bitmap] in *. intros a Ha. rewrite S25 by lia. by apply Br.
  - intros j Hj. rewrite (bit_keep _ _ _ _ _ S25); [by apply Z2|]. cbn [bits user_bitmap].
    assert (0 <= j / 8 < 94199) by (split; [apply Z.div_pos|apply Z.div_lt_upper_bound]; lia). lia.
  - split; [lia|exact Hmp].
  - by rewrite <- Ecr.
  - intros j Hj. destruct (E4 j (kp_enough _ _ _ _ _ _ _ K3 (S j) Hj)) as [HK HP].
    split; (eapply has_free_same; [|eassumption]); intros x Hx; exact (proj2 Hm5 (Some KERNEL_POOL) x Hx).
  - intros j Hj. rewrite (proj2 Hm5 (Some USER_POOL) j Hj : bit m5 (pool_bitmap (user_memory_pool (mem s))) j = _).
    rewrite (kpages_user _ _ m3 m4 (pg s) i3 1 Hm ltac:(lia) ltac:(fold V; lia)); [| |exact Hj].
    2:{ intros a Ha. apply S4. intros Hc. apply Ha. destruct Hc as [Hc|Hc]; [by left|right]. fold V in Hc |- *.
        unfold PAGE_SIZE in *. lia. }
    rewrite (proj2 Hm3' (Some USER_POOL) j Hj : bit m3 (pool_bitmap (user_memory_pool (mem s))) j = _).
    exact (kpages_user _ _ _ m2 (pg s) i2 23 Hm ltac:(lia) ltac:(fold V; lia) S2 j Hj).
  - intros j Hj. pose proof (proj2 Hm5 None j ltac:(unfold space_bits in Hj; cbn [bitmap_at]; lia)) as E5.
    cbn [bitmap_at] in E5. fold V in Hbits4. rewrite E5, Hbits4 by lia. replace (j =? i3) with false by lia.
    pose proof (kp_bits _ _ _ _ _ _ _ K3 j) as E3. fold V in E3. rewrite E3 by lia.
    by replace ((i2 <=? j) && (j <? i2 + 23)) with false by lia.
  - intros j a Hj Hbj Hne Ha.
    assert (~ i2 <= j < i2 + 23) as Hj2.
    { intros Hc. pose proof (kp_free _ _ _ _ _ _ _ K2 j Hc) as E. fold V in E. congruence. }
    assert (~ p <= a < p + 4096) as Hap1 by (unfold p, vpage, PAGE_SIZE in *; nia).
    rewrite S5 by lia. rewrite (Hkeep j a Hj); [| |exact Ha].
    + unfold m3. rewrite first_frame_out by lia. apply S2. exact (page_outside _ _ _ j _ _ _ Hm Hj Hj2 Ha).
    + pose proof (kp_bits _ _ _ _ _ _ _ K3 j) as E. fold V in E. rewrite E by lia.
      by replace ((i2 <=? j) && (j <? i2 + 23)) with false by lia.
Qed.

Lemma exec_run fuel dirs s filename name r0 : threads_ok dirs s ->
  let V := kernel_vaddr (mem s) in let n := next (next_pid s) in
  0 <= r0 -> r0 + 25 <= space_bits V -> free_run (ram (mach s)) (vaddr_bitmap V) r0 25 ->
  enough_frames (mem s) (ram (mach s)) KERNEL_POOL 25 -> (length (c_chars name) <= 38)%nat ->
  0 <= KernelThread_addr < 2 ^ 32 -> 0 <= StartProcess_addr < 2 ^ 32 -> 0 <= filename < 2 ^ 32 ->
  exists i1 i2 i3 q m g, let p := vpage V i1 in
    ExecProcess KernelThread_addr StartProcess_addr (S fuel) filename name s =
      Ret (tt, started s p (process_PCB p n name (vpage V i2) (vpage V i3)) m g) /\
    process_made (mem s) KernelThread_addr StartProcess_addr filename (ram (mach s)) m (pg s) g 25 (r0 + 25) i1 i2 i3 q /\
    i1 <= r0 /\ bit (ram (mach s)) (vaddr_bitmap V) i1 = false /\ pcbs s !! p = None.
Proof.
  intros Ht V n Hr0 Hle Hrun Hen Hname A1 A2 A3. pose proof Ht as [T1 T2 T3 T4 T5 T6 T7 T8 T9]. fold V in T2.
  assert (cur s <> 0) as Hcur.
  { destruct (so_cur _ _ _ T1) as (c & Hc & _). destruct (so_page _ _ _ T1 _ _ Hc) as [(Hpos & _) _]. lia. }
  assert (forall i, 0 <= i < space_bits V -> bit (ram (mach s)) (vaddr_bitmap V) i = false -> pcbs s !! vpage V i = None) as Hnone.
  { intros i Hi Hb. apply eq_None_not_Some. intros Hc. destruct (vpage_facts _ _ _ _ i T2 Hi) as (P0 & _).
    apply (T3 _ Hc P0). by apply (mo_unmapped _ _ _ _ T2). }
  destruct (exec_page fuel s name r0) as (i1 & s1 & m1 & g1 & R1 & R2 & Hi1 & K1 & Z1 & Tr1 & S1); fold V;
    [done|done|done|done|lia|apply Hrun; lia|exact (enough_le _ _ _ _ 1 Hen ltac:(lia))|done| |].
  { intros i Hi Hb E. destruct T7 as [c Hc]. rewrite <- E, (Hnone i Hi Hb) in Hc. done. }
  fold V n in R1, R2, Z1, Tr1. set (p := vpage V i1) in *.
  pose proof (kp_range _ _ _ _ _ _ _ K1) as [Hi10 Hi11]. fold V in Hi11.
  assert (bit (ram (mach s)) (vaddr_bitmap V) i1 = false) as Hb1 by (apply (kp_free _ _ _ _ _ _ _ K1); lia).
  pose proof (kp_bits _ _ _ _ _ _ _ K1) as Kb. fold V in Kb.
  destruct (vpage_facts _ _ _ _ i1 T2 ltac:(lia)) as (P0 & P1 & P2 & P3). fold p in P0, P1, P2, P3.
  set (sB := set_next_pid n (with_mem m1 g1 s)) in *. set (c := fresh_PCB p n name TASK_READY DEFAULT_PRIORITY) in *.
  assert (pcbs s !! p = None) as Hp by (apply Hnone; [lia|exact Hb1]).
  destruct (new_tags dirs s p Ht ltac:(split_and!; lia) Hp) as [Hnr Hna].
  destruct (exec_space fuel sB c filename i1 (r0 + 1) (fun _ =>
      let* c := get_pcb p in
      ASSERT (negb (PDE_addr c =? 0)) "ExecProcess" 84 ;;;
      let* old_status := on_mach GetIntStatus in
      link_ready "ExecProcess" 88 p ;;;
      link_all "ExecProcess" 90 p ;;;
      let* _ := on_mach (SetIntStatus old_status) in
      ret tt)) as (i2 & i3 & q & m & g & R3 & Hmade); change (mem sB) with (mem s); fold V;
    [exact (kp_mem _ _ _ _ _ _ _ K1)|done|done|lia| |done|done|done|lia|lia| | |done|done|done|].
  { change (ram (mach sB)) with m1. rewrite Kb by lia. by replace ((i1 <=? i1) && (i1 <? i1 + 1)) with true by lia. }
  { intros j Hj. change (ram (mach sB)) with m1. rewrite Kb by lia.
    replace ((i1 <=? j) && (j <? i1 + 1)) with false by lia. apply Hrun. lia. }
  { apply (kp_enough _ _ _ _ _ _ _ K1). exact Hen. }
  change (mem sB) with (mem s) in R3, Hmade. fold V p in R3.
  exists i1, i2, i3, q, m, g. fold p. split; [|split; [|split; [lia|split; [exact Hb1|exact Hp]]]].
  - unfold ExecProcess. rewrite (bind_Ret _ _ _ _ _ R1), (bind_Ret _ _ _ _ _ R2). fold sB. rewrite R3.
    match goal with |- _ (with_pcb p ?c' _) = _ => rewrite (exec_link p c') end;
      [reflexivity|apply lookup_insert_eq| |exact Hnr|exact Hna].
    destruct (pc_pde _ _ _ _ _ _ _ _ _ _ _ _ _ _ Hmade) as [Hi3 _]. fold V in Hi3.
    destruct (vpage_facts _ _ _ _ i3 T2 Hi3) as (_ & Q1 & _). cbn [PDE_addr set_PDE]. lia.
  - destruct Hmade. constructor; try assumption.
    + rewrite <- (kp_cr3 _ _ _ _ _ _ _ K1). assumption.
    + destruct (mo_space _ _ _ _ T2) as (Sp1 & _ & Sp2).
      apply (grown_trans _ _ _ g1); [exact (kp_cr3 _ _ _ _ _ _ _ K1)|fold V; lia|fold V; lia|exact (kp_grown _ _ _ _ _ _ _ K1)|assumption].
    + change (pg sB) with g1 in pc_dir0. by rewrite <- (kp_cr3 _ _ _ _ _ _ _ K1).
    + intros j Hj. apply pc_enough0. exact (kp_enough _ _ _ _ _ _ _ K1 (24 + j) Hj).
    + intros j Hj. rewrite pc_user0 by exact Hj. exact (kpages_user _ _ _ m1 (pg s) i1 1 T2 ltac:(lia) ltac:(fold V; lia) S1 j Hj).
    + intros j Hj. fold V in Hj |- *. rewrite pc_later0 by (fold V; lia). change (ram (mach sB)) with m1. rewrite Kb by lia.
      by replace ((i1 <=? j) && (j <? i1 + 1)) with false by lia.
    + intros j a Hj Hbj Hne Ha. fold V in Hj, Hbj, Ha. change (ram (mach sB)) with m1 in pc_kept0. fold V in pc_kept0.
      rewrite (pc_kept0 j a Hj); [|rewrite Kb by lia; by replace ((i1 <=? j) && (j <? i1 + 1)) with false by lia|exact Hne|exact Ha].
      apply S1. apply (page_outside _ _ _ j i1 1 a T2 Hj); [lia|exact Ha].
Qed.

(** The new process is ready for its first switch. *)
Lemma made_ready s dirs m g p e i1 i2 i3 q filename n name : threads_ok dirs s ->
  let V := kernel_vaddr (mem s) in p = vpage V i1 ->
  let c := process_PCB p n name (vpage V i2) (vpage V i3) in
  process_made (mem s) KernelThread_addr StartProcess_addr filename (ram (mach s)) m (pg s) g 25 e i1 i2 i3 q ->
  user_ready (started s p c m g) p c (frame (kernel_memory_pool (mem s)) q).
Proof.
  intros Ht V Ep c [M1 M2 M3 (M4 & M5 & M6 & M7) M8 M9 M10 M11 M12 M13 [M14 M15] M16 M17 M18 M19 M20]. fold V in M1, M3, M4, M6.
  pose proof Ht as [T1 T2 T3 [C1 C2 C3 C4 C5] T5 T6 T7 T8 T9]. fold V in C2, C3.
  rewrite C1 in M16. change (frame_of 0x100000) with 0x100000 in M16.
  destruct (vpage_facts _ _ _ _ i1 M1 M4) as (P0 & P1 & P2 & P3).
  destruct (vpage_facts _ _ _ _ i3 M1 M14) as (_ & Q1 & _).
  fold V in M8, M9, M10, M11, M12, M13, M15. rewrite <- Ep in *.
  assert (forall a, vpage V i2 <= a < vpage V i2 + PAGE_SIZE * 23 -> in_space V a) as Hb.
  { intros a Ha. unfold in_space, vpage, PAGE_SIZE in *. lia. }
  constructor.
  - cbn. lia.
  - reflexivity.
  - reflexivity.
  - reflexivity.
  - exact M13.
  - apply (user_mem_ok (mem s) m g _ q); try assumption.
    + congruence.
    + split; [apply M15|reflexivity].
    + exact (mo_used _ _ _ _ M1 _ _ _ M15).
  - split_and!; lia.
  - unfold in_space in P0. lia.
  - exact M9.
  - exact M11.
  - intros [pf|] a Ha b; subst b.
    + apply (mo_away _ _ _ _ M1 (Some pf) a). rewrite Ep in Ha. unfold in_space, vpage, PAGE_SIZE in *. lia.
    + cbn [bitmap_at c process_PCB userprog_vaddr set_PDE set_stack set_uservaddr vaddr_bitmap user_bitmap bits bitmap_bytes_len].
      assert (i1 < i2 \/ i2 + 23 <= i1) by lia. rewrite Ep in Ha. unfold vpage, PAGE_SIZE in *. lia.
Qed.

Lemma ExecProcess_ok fuel dirs s filename name r0 : threads_ok dirs s ->
  let V := kernel_vaddr (mem s) in
  0 <= r0 -> r0 + 25 <= space_bits V -> free_run (ram (mach s)) (vaddr_bitmap V) r0 25 ->
  enough_frames (mem s) (ram (mach s)) KERNEL_POOL 25 -> (length (c_chars name) <= 38)%nat ->
  0 <= KernelThread_addr < 2 ^ 32 -> 0 <= StartProcess_addr < 2 ^ 32 -> 0 <= filename < 2 ^ 32 ->
  exists i p b v d m g, let c := process_PCB p (next (next_pid s)) name b v in let s' := started s p c m g in
    ExecProcess KernelThread_addr StartProcess_addr (S fuel) filename name s = Ret (tt, s') /\
    (0 <= i <= r0 /\ p = vpage V i /\ bit (ram (mach s)) (vaddr_bitmap V) i = false /\ pcbs s !! p = None) /\ frame_at KernelThread_addr m (p + 3664) StartProcess_addr filename /\
    threads_ok (new_dirs dirs p d) s' /\ user_ready s' p c d /\
    (forall j, enough_frames (mem s) (ram (mach s)) KERNEL_POOL (25 + j) -> enough_frames (mem s) m KERNEL_POOL j) /\
    (forall j, 0 <= j < pool_bits (user_memory_pool (mem s)) -> bit m (pool_bitmap (user_memory_pool (mem s))) j =
       bit (ram (mach s)) (pool_bitmap (user_memory_pool (mem s))) j) /\
    (forall j, r0 + 25 <= j < space_bits V -> bit m (vaddr_bitmap V) j = bit (ram (mach s)) (vaddr_bitmap V) j) /\
    (forall j a, 0 <= j < space_bits V -> bit (ram (mach s)) (vaddr_bitmap V) j = true ->
       vpage V j <= a < vpage V j + PAGE_SIZE -> m !! a = ram (mach s) !! a).
Proof.
  intros Ht V Hr0 Hle Hrun Hen Hname A1 A2 A3.
  destruct (exec_run fuel dirs s filename name r0 Ht Hr0 Hle Hrun Hen Hname A1 A2 A3)
    as (i1 & i2 & i3 & q & m & g & R & M & Hi1 & Hb1 & Hp). fold V in R, Hp.
  set (p := vpage V i1) in *. set (c := process_PCB _ _ _ _ _) in R.
  exists i1, p, (vpage V i2), (vpage V i3), (frame (kernel_memory_pool (mem s)) q), m, g. fold c.
  split; [exact R|]. split; [exact (conj (conj (proj1 (proj1 (pc_pages _ _ _ _ _ _ _ _ _ _ _ _ _ _ M))) Hi1) (conj eq_refl (conj Hb1 Hp)))|]. split; [exact (pc_stack _ _ _ _ _ _ _ _ _ _ _ _ _ _ M)|].
  split; [|split; [exact (made_ready s dirs m g p _ i1 i2 i3 q filename _ name Ht eq_refl M)|refine (conj (pc_enough _ _ _ _ _ _ _ _ _ _ _ _ _ _ M) (conj (pc_user _ _ _ _ _ _ _ _ _ _ _ _ _ _ M) (conj (pc_later _ _ _ _ _ _ _ _ _ _ _ _ _ _ M) _)))]].
  2:{ intros j a Hj Hbj Ha. apply (pc_kept _ _ _ _ _ _ _ _ _ _ _ _ _ _ M j a Hj Hbj); [|exact Ha].
      intros ->. exact (eq_true_false_abs _ Hbj Hb1). }
  pose proof M as [M1 M2 M3 (M4 & _) M8 M9 M10 M11 M12 M13 [M14 M15] M16 M17 M18 M19 M20]. fold V in M1, M3, M4, M14, M15.
  pose proof (do_cr3 _ _ (to_dirs _ _ Ht)) as C1. rewrite C1 in M16. change (frame_of 0x100000) with 0x100000 in M16.
  destruct (vpage_facts _ _ _ _ i3 M1 M14) as (Q0 & Q1 & _ & Q3).
  apply (started_ok dirs _ s p c m g i1); try done.
  right. split; [cbn; lia|]. split; [exact Q0|]. split; [exact Q3|]. split; [exact M16|]. exists q. split; [exact M15|reflexivity].
Qed.

(** C16: [ExecProcess] of a running kernel thread: with 25 free pages in a row and frames for them, it
    makes a new thread with the name, priority 31, the next process identifier and a page directory
    of its own, ready to run and linked last into both lists; its stack holds the frame from which
    the first switch to it calls [StartProcess] with the program; in its directory the kernel's half
    is the kernel's, the user's part is empty, and the page allocator's invariant holds for its own
    address space (0x8048000 to 0xC0000000); its seven arenas are ready; the user's pool and the kernel's
    pages in use are as before; and the invariant of scheduler, address spaces and kernel heap holds again. *)
Theorem ExecProcess_correct fuel dirs s filename name r0 : threads_ok dirs s ->
  let V := kernel_vaddr (mem s) in
  0 <= r0 -> r0 + 25 <= space_bits V -> free_run (ram (mach s)) (vaddr_bitmap V) r0 25 ->
  enough_frames (mem s) (ram (mach s)) KERNEL_POOL 25 -> (length (c_chars name) <= 38)%nat ->
  0 <= KernelThread_addr < 2 ^ 32 -> 0 <= StartProcess_addr < 2 ^ 32 -> 0 <= filename < 2 ^ 32 ->
  exists i p b v d m g, let c := process_PCB p (next (next_pid s)) name b v in let s' := started s p c m g in
    ExecProcess KernelThread_addr StartProcess_addr (S fuel) filename name s = Ret (tt, s') /\
    (0 <= i <= r0 /\ p = vpage V i /\ bit (ram (mach s)) (vaddr_bitmap V) i = false /\ pcbs s !! p = None) /\ frame_at KernelThread_addr m (p + 3664) StartProcess_addr filename /\
    threads_ok (new_dirs dirs p d) s' /\ user_ready s' p c d /\
    (forall j, enough_frames (mem s) (ram (mach s)) KERNEL_POOL (25 + j) -> enough_frames (mem s) m KERNEL_POOL j) /\
    (forall j, 0 <= j < pool_bits (user_memory_pool (mem s)) -> bit m (pool_bitmap (user_memory_pool (mem s))) j =
       bit (ram (mach s)) (pool_bitmap (user_memory_pool (mem s))) j) /\
    (forall j, r0 + 25 <= j < space_bits V -> bit m (vaddr_bitmap V) j = bit (ram (mach s)) (vaddr_bitmap V) j) /\
    (forall j a, 0 <= j < space_bits V -> bit (ram (mach s)) (vaddr_bitmap V) j = true ->
       vpage V j <= a < vpage V j + PAGE_SIZE -> m !! a = ram (mach s) !! a).
Proof. apply ExecProcess_ok. Qed.

End exec.

(** ** The first run of a process *)

(** The invariant does not depend on the log of invalidated pages. *)
Lemma mem_ok_regs ps V m g g' : mem_ok ps V m g -> phys g' = phys g -> cr3 g' = cr3 g -> mem_ok ps V m g'.
Proof.
  intros [H1 H2 H3 H4 H5 H6 H7 H8 H9 H10 H11 H12 H13] E1 E2.
  constructor; unfold pg_ok, maps_frame, same_entry, translate in *; rewrite ?E1, ?E2; assumption.
Qed.

Lemma user_ready_same s s' p c c' d : user_ready s p c d -> mem s' = mem s -> ram (mach s') = ram (mach s) ->
  phys (pg s') = phys (pg s) -> PDE_addr c' = PDE_addr c -> userprog_vaddr c' = userprog_vaddr c ->
  self_kernel_stack c' = self_kernel_stack c -> user_ready s' p c' d.
Proof.
  intros [U1 U2 U3 U4 U5 U6 U7 U8 U9 U10 U11] Em Er Ep E1 E2 E3.
  constructor; rewrite ?Em, ?Er, ?E1, ?E2, ?E3; try assumption. by apply (mem_ok_regs _ _ _ _ _ U6).
Qed.

Section first_run.
  Context `{Env} (kernel_arena_descs : Z).

(** The heap of a process that has just started. *)
Lemma started_heap s p c d m g q k : cur s = p -> user_ready s p c d -> mem_ok (mem s) (userprog_vaddr c) m g ->
  maps_frame (mem s) g USER_STACK3_VADDR USER_POOL q -> bit m (pool_bitmap (user_memory_pool (mem s))) 0 = true ->
  classes_ready (p + 64) m 7 -> locks s !! user_pool_lock = Some free_lock ->
  0x102000 < physic_addr_start (user_memory_pool (mem s)) ->
  heap_of kernel_arena_descs (with_pcb p (set_stack k c) (with_mem m g s)) (set_stack k c) (userprog_vaddr c) ∅ no_blocks.
Proof.
  intros Ep [U1 U2 U3 U4 U5 U6 U7 U8 U9 Uc U10] Hm (_ & Hq & _) Hb Hcl Hl Hlow. pose proof U7 as (P1 & P2 & P3).
  set (s' := with_pcb p (set_stack k c) (with_mem m g s)). assert (cur s' = p) as Ecur by exact Ep.
  assert (pcbs s' !! cur s' = Some (set_stack k c)) as Hp by (rewrite Ecur; apply lookup_insert_eq).
  assert (pool_for (set_stack k c) = USER_POOL) as Epf.
  { unfold pool_for. cbn [PDE_addr set_stack]. by replace (PDE_addr c =? 0) with false by lia. }
  assert (descs_for kernel_arena_descs s' (set_stack k c) = p + 64) as Eds.
  { unfold descs_for. cbn [PDE_addr set_stack]. replace (PDE_addr c =? 0) with false by lia. rewrite Ecur.
    unfold user_arena_descs. apply u32_id. lia. }
  constructor; [exact Hp|rewrite Ecur; lia|rewrite Epf; exact (space_of_pcb s' _ Hp)|rewrite Epf; exact Hl|].
  rewrite Eds, Epf. change (mem s') with (mem s). change (ram (mach s')) with m. change (pg s') with g.
  constructor; try done.
  - unfold sizeof_arena_desc. lia.
  - unfold sizeof_arena_desc. intros a Ha. split; [|intros b; apply (U10 b a); lia].
    unfold in_space. rewrite U3, U4. unfold USER_VADDR_START, PAGE_SIZE. lia.
  - intros _. split; [cbn [pool_of] in Hq; lia|exact Hb].
  - by intros j x _ ?%elem_of_nil.
Qed.

Lemma EnableInt_run s : exists old e, EnableInt s = Ret (old, set_eflags e s) /\ if_flag e = INT_ON.
Proof.
  unfold EnableInt, GetIntStatus, bind. destruct (if_flag (eflags s)) eqn:E.
  - exists INT_OFF, (Z.lor (eflags s) EFLAGS_IF). split; [done|]. unfold if_flag. rewrite Z.land_comm, Z.land_lor_distr_r.
    destruct (Z.eqb_spec (Z.lor (Z.land EFLAGS_IF (eflags s)) (Z.land EFLAGS_IF EFLAGS_IF)) 0) as [Hz|]; [|done].
    by apply Z.lor_eq_0_iff in Hz as [_ Hz].
  - exists INT_ON, (eflags s). split; [|done]. by destruct s.
Qed.

(** C17: the first run of a process: when it is first in the queue, [ScheduleThread] switches to it, loads
    its page directory and the top of its kernel stack into the task state segment; [KernelThread]
    turns interrupts on and calls [StartProcess], which maps the page of the user's stack and leaves
    for user mode at the start of the program: user selectors, interrupts on, the stack pointer at
    0x7FFFE000, all other registers 0.  [sys_malloc]'s invariant holds for the heap of the process,
    with no block in use. *)
Theorem process_first_run fuel dirs s p c d rest function :
  threads_ok dirs s -> if_flag (eflags (mach s)) = INT_OFF -> pcbs s !! p = Some c -> dirs p = d ->
  user_ready s p c d -> ready_thread_list s = general_tag p :: rest ->
  locks s !! user_pool_lock = Some free_lock -> enough_frames (mem s) (ram (mach s)) USER_POOL 1 ->
  0x102000 < physic_addr_start (user_memory_pool (mem s)) -> 0 <= function < 2 ^ 32 ->
  exists s' c' q, (ScheduleThread ;;; KernelThread (StartProcess (S fuel)) function) s =
      Ret (user_context function 0x7FFFE000, s') /\
    cur s' = p /\ cr3 (pg s') = d /\ esp0 s' = p + 4096 /\ if_flag (eflags (mach s')) = INT_ON /\
    maps_frame (mem s') (pg s') USER_STACK3_VADDR USER_POOL q /\
    readable (ram (mach s')) USER_STACK3_VADDR PAGE_SIZE /\
    heap_of kernel_arena_descs s' c' (userprog_vaddr c) ∅ no_blocks.
Proof.
  intros Ht Hif Hc Hd Hu Hq Hl Hen Hlow Hf. pose proof (to_sched _ _ Ht) as Hs.
  destruct (schedule_ok dirs TASK_RUNNING s (general_tag p) (rest ++ [general_tag (cur s)])) as
    (s1 & R1 & Hs1 & Etag & _ & Fr & Hpcb); [exact Hs|done|exact Hif|unfold run_queue; by rewrite Hq|].
  destruct (so_page _ _ _ Hs p c Hc) as [Hpage _].
  assert (cur s1 = p) as Ecur.
  { destruct (so_cur _ _ _ Hs1) as (c1 & Hc1 & _). destruct (so_page _ _ _ Hs1 _ _ Hc1) as [Hpg1 _].
    by apply general_tag_inj in Etag. }
  rewrite Ecur in Hpcb. destruct (so_ready _ _ _ Hs (general_tag p)) as [Hrdy _].
  destruct Hrdy as (p0 & c0 & Hp0 & Et0 & Est); [rewrite Hq; left|].
  assert (p0 = p) as -> by (apply general_tag_inj in Et0; [done|done|exact (proj1 (so_page _ _ _ Hs _ _ Hp0))]).
  assert (c0 = c) as -> by congruence.
  assert (p <> cur s) as Hne.
  { intros ->. destruct (so_cur _ _ _ Hs) as (c1 & Hc1 & E). congruence. }
  set (c1 := set_status TASK_RUNNING c).
  assert (pcbs s1 !! p = Some c1) as Hc1.
  { rewrite Hpcb, Hc. cbn [fmap option_fmap option_map]. unfold scheduled, switched.
    repeat case_decide; (done || tauto). }
  destruct Fr as [F1 F2 F3 F4 F5 F6 F7 F8 F9].
  assert (cr3 (pg s1) = d) as Hcr by (rewrite (so_cr3 _ _ _ Hs1), Ecur; exact Hd).
  destruct (EnableInt_run (mach s1)) as (old & e & R2 & Hon). set (s2 := set_mach (set_eflags e (mach s1)) s1).
  assert (cur s2 = p) as Ecur2 by exact Ecur.
  assert (user_ready s2 p c1 d) as Hu2.
  { apply (user_ready_same s s2 p c c1 d Hu); try done. change (ram (mach s2)) with (ram (mach s1)). by rewrite F1. }
  destruct (StartProcess_ok fuel s2 c1 d function) as (q & m & g & R3 & Hm & Hmp & Hrd & Hcr3 & _ & Hb0 & Hcl);
    rewrite ?Ecur2; try done.
  { change (locks s2) with (locks s1). by rewrite F7. }
  { change (mem s2) with (mem s1). change (ram (mach s2)) with (ram (mach s1)). by rewrite F8, F1. }
  rewrite Ecur2 in R3, Hcl. change (mem s2) with (mem s1) in *.
  assert (heap_of kernel_arena_descs (with_pcb p (set_stack (p + 3792) c1) (with_mem m g s2)) (set_stack (p + 3792) c1)
    (userprog_vaddr c1) ∅ no_blocks) as Hheap.
  { apply (started_heap s2 p c1 d m g q (p + 3792) Ecur2 Hu2); try done;
      [change (locks s2) with (locks s1); by rewrite F7|change (mem s2) with (mem s1); by rewrite F8]. }
  exists (with_pcb p (set_stack (p + 3792) c1) (with_mem m g s2)), (set_stack (p + 3792) c1), q.
  split; [|split; [exact Ecur2|split; [exact Hcr3|split; [|split; [exact Hon|split; [exact Hmp|split; [exact Hrd|exact Hheap]]]]]]].
  - rewrite (bind_Ret _ _ _ _ _ R1). unfold KernelThread. rewrite (bind_Ret _ _ _ _ _ (on_mach_ok _ s1 _ _ R2)). exact R3.
  - change (esp0 s1 = p + 4096). rewrite <- Ecur. apply (so_esp0 _ _ _ Hs1 c1); [by rewrite Ecur|apply Hu].
Qed.

End first_run.

(** ** Examples: a machine with 2 MB and 448 KB, after [ThreadInit] *)

Definition exec_ram : gmap Z Z :=
  write_bytes (write_bytes ∅ MEM_BITMAP_BASE (replicate 64 0)) 0xC009E000 (replicate 236 0).
Definition exec_pools : pools := pools_for 0x270000.
Definition exec_start : kernel :=
  set_esp 0xC009EF00 (set_locks (<[pid_lock := free_lock]> (<[user_pool_lock := free_lock]> boot_locks))
    (set_pcbs ∅ (set_mem exec_pools (set_pg pool_paging (set_mach (Machine exec_ram 2 [] []) demo_kernel))))).

Lemma exec_ram_bitmaps a : MEM_BITMAP_BASE <= a < MEM_BITMAP_BASE + 64 -> exec_ram !! a = Some 0.
Proof.
  unfold MEM_BITMAP_BASE. intros Ha. unfold exec_ram. rewrite write_bytes_lookup_out by lia.
  rewrite zeros_lookup by (unfold MEM_BITMAP_BASE; lia). done.
Qed.

Lemma exec_ram_ok : ram_ok exec_ram.
Proof. do 2 (apply write_bytes_ok; [|by apply Forall_replicate]). apply ram_ok_empty. Qed.

Lemma exec_ram_page : readable exec_ram 0xC009E000 236.
Proof. apply (write_bytes_region _ 0xC009E000 (replicate 236 0)). Qed.

#[global] Opaque exec_ram.

Lemma exec_layout i : let b := bitmap_at exec_pools (kernel_vaddr exec_pools) i in
  MEM_BITMAP_BASE <= bits b /\ bits b + bitmap_bytes_len b <= MEM_BITMAP_BASE + 21.
Proof. destruct i as [[]|]; split; zdec. Qed.

Lemma exec_mem : mem_ok exec_pools (kernel_vaddr exec_pools) exec_ram pool_paging.
Proof.
  apply (pools_mem_ok 0x270000 ltac:(zdec) exec_ram); [|by apply boot_paging_at].
  split; [apply exec_ram_ok|]. split; [|split; [done|]].
  - intros a Ha. rewrite exec_ram_bitmaps; [eauto|]. change (bitmaps_len 0x270000) with 21 in Ha. lia.
  - intros i _ j Hj. pose proof (exec_layout i) as [L1 L2]. cbv zeta in L1, L2. unfold nbits in Hj.
    fold exec_pools in Hj |- *. unfold bit. rewrite exec_ram_bitmaps; [by apply Z.bits_0|].
    assert (0 <= j / 8 < bitmap_bytes_len (bitmap_at exec_pools (kernel_vaddr exec_pools) i))
      by (split; [apply Z.div_pos|apply Z.div_lt_upper_bound]; lia). lia.
Qed.

Lemma exec_boot : boot_thread_ok exec_start.
Proof.
  assert (cur exec_start = 0xC009E000) as Ec by reflexivity.
  constructor; try reflexivity; rewrite ?Ec.
  - split_and!; done.
  - done.
  - zdec.
  - intros i a b Hb. right. pose proof (exec_layout i) as [L1 L2]. cbv zeta in L1, L2.
    unfold b in Hb. change (mem exec_start) with exec_pools in Hb. unfold MEM_BITMAP_BASE in *. lia.
  - intros va Hva. change (0xC0100000 <= va < 0xC0100000 + 4096 * 56) in Hva. apply pool_has_table. clear -Hva.
    Z.to_euclidean_division_equations. lia.
  - exact exec_ram_page.
  - exact exec_mem.
  - intros i a Ha b Hb. pose proof (exec_layout i) as [L1 L2]. cbv zeta in L1, L2.
    unfold b in Hb. change (mem exec_start) with exec_pools in Hb. unfold MEM_BITMAP_BASE, sizeof_PCB in *. lia.
  - intros [Hin _]. exfalso. by apply Hin.
  - by eexists.
Qed.

(** The state in which the first process is made. *)
Definition exec_kernel (t : list Z) : kernel := thread_inited exec_start (clear_PCB (cur exec_start) exec_ram) t.

Lemma exec_kernel_ok t : threads_ok kernel_dirs (exec_kernel t) /\
  (forall i j, 0 <= j < nbits (bitmap_at exec_pools (kernel_vaddr exec_pools) i) ->
     bit (ram (mach (exec_kernel t))) (bitmap_at exec_pools (kernel_vaddr exec_pools) i) j = false) /\
  forall n, (n <= 28)%nat -> enough_frames (mem (exec_kernel t)) (ram (mach (exec_kernel t))) KERNEL_POOL n.
Proof.
  set (m := clear_PCB (cur exec_start) exec_ram).
  assert (same_outside (fun a => cur exec_start <= a < cur exec_start + sizeof_PCB) exec_ram m) as Hs.
  { intros a Ha. apply write_bytes_lookup_out. rewrite length_replicate. unfold sizeof_PCB in Ha. lia. }
  assert (forall i j, 0 <= j < nbits (bitmap_at exec_pools (kernel_vaddr exec_pools) i) ->
    bit m (bitmap_at exec_pools (kernel_vaddr exec_pools) i) j = false) as Hb.
  { intros i j Hj. pose proof (exec_layout i) as [L1 L2]. cbv zeta in L1, L2. unfold nbits in Hj.
    assert (0 <= j / 8 < bitmap_bytes_len (bitmap_at exec_pools (kernel_vaddr exec_pools) i))
      by (split; [apply Z.div_pos|apply Z.div_lt_upper_bound]; lia).
    unfold bit. rewrite Hs, exec_ram_bitmaps; [by apply Z.bits_0|lia|].
    change (cur exec_start) with 0xC009E000. unfold MEM_BITMAP_BASE, sizeof_PCB in *. lia. }
  split; [|split; [exact Hb|]].
  - apply thread_inited_ok; [exact exec_boot| |exact (boot_pcb_apart _ _ exec_boot Hs)].
    apply write_bytes_ok; [apply exec_ram_ok|by apply Forall_replicate].
  - intros n Hn. split; (apply clear_has_free; [exact (Hb (Some KERNEL_POOL))|]).
    + change (Z.of_nat (2 * n) <= 56). lia.
    + change (Z.of_nat n <= 56). lia.
Qed.

Lemma ExecProcess_correct_witness : exists p d s',
  ExecProcess (H := demo_env) 0xC0001500 0xC0002200 1 0xC0001900 (literal "userthreada") (exec_kernel []) = Ret (tt, s') /\
  ready_thread_list s' = [general_tag p] /\ threads_ok (new_dirs kernel_dirs p d) s'.
Proof.
  destruct (exec_kernel_ok []) as (Ht & Hb & Hen).
  destruct (ExecProcess_correct (H := demo_env) 0xC0001500 0xC0002200 0 kernel_dirs (exec_kernel []) 0xC0001900
      (literal "userthreada") 0 Ht) as (i & p & b & v & d & m & g & H1 & _ & _ & H2 & _);
    [lia|zdec| |apply Hen; lia|by apply Nat.leb_le|lia|lia|lia|].
  - intros j Hj. apply (Hb None). change (0 <= j < 56). lia.
  - exists p, d. eexists. split; [exact H1|]. split; [reflexivity|exact H2].
Defined.

Lemma process_first_run_witness : exists p s s' c' V,
  (ScheduleThread ;;; KernelThread (StartProcess (H := demo_env) 1) 0xC0001900) s =
    Ret (user_context 0xC0001900 0x7FFFE000, s') /\ cur s' = p /\
  heap_of boot_descs s' c' V ∅ no_blocks.
Proof.
  destruct (exec_kernel_ok []) as (Ht & Hb & Hen).
  destruct (ExecProcess_ok (H := demo_env) 0xC0001500 0xC0002200 0 kernel_dirs (exec_kernel []) 0xC0001900
      (literal "userthreada") 0 Ht) as (i & p & b & v & d & m & g & _ & _ & _ & H2 & H3 & H4 & H5 & _);
    [lia|zdec| |apply Hen; lia|by apply Nat.leb_le|lia|lia|lia|].
  { intros j Hj. apply (Hb None). change (0 <= j < 56). lia. }
  set (c := process_PCB p (next (next_pid (exec_kernel []))) (literal "userthreada") b v) in *.
  set (s := started (exec_kernel []) p c m g) in *.
  destruct (process_first_run (H := demo_env) boot_descs 0 (new_dirs kernel_dirs p d) s p c d [] 0xC0001900)
    as (s' & c' & q & E1 & E2 & _ & _ & _ & _ & _ & E3);
    [exact H2|reflexivity|apply lookup_insert_eq|unfold new_dirs; by rewrite Z.eqb_refl|exact H3|reflexivity|reflexivity| |zdec|lia|].
  - split; [apply (proj1 (H4 1%nat (Hen 26%nat ltac:(lia))))|]. apply clear_has_free; [|zdec]. intros j Hj.
    change (mem s) with exec_pools. change (ram (mach s)) with m. cbn [pool_of].
    change (mem (exec_kernel [])) with exec_pools in H5. rewrite (H5 j Hj). exact (Hb (Some USER_POOL) j Hj).
  - exists p, s, s', c', (userprog_vaddr c). split; [exact E1|]. split; [exact E2|exact E3].
Defined.
