(* ===== verification/Ioqueue.v ===== *)
(** * device/ioqueue.c: the ring buffer between the keyboard and its readers

    The program has one queue, [keyboard_IO_buf]; its lock is [keyboard_lock].  The buffer holds 64
    characters, one of which stays unused.  [ioqueue_getchar] and [ioqueue_putchar] are modelled
    with their waiting loops; [fuel] bounds the rounds of those loops, and when the queue has a
    character (room for one) one round is enough. *)
From stdpp Require Import base list gmap strings.
From S2P Require Import Prelude Machine Print Interrupt KList Paging State Sched Sync.

Definition bufsize : Z := 64.

Definition get_q : M kernel ioqueue := fun s => Ret (keyboard_IO_buf s, s).
Definition upd_q (f : ioqueue -> ioqueue) : M kernel unit := modify (fun s => set_ioq (f (keyboard_IO_buf s)) s).

Definition set_producer (v : Z) (q : ioqueue) : ioqueue := Ioqueue v (sleeping_consumer q) (buf q) (head q) (tail q).
Definition set_consumer (v : Z) (q : ioqueue) : ioqueue := Ioqueue (sleeping_producer q) v (buf q) (head q) (tail q).
Definition set_buf (v : list Z) (q : ioqueue) : ioqueue :=
  Ioqueue (sleeping_producer q) (sleeping_consumer q) v (head q) (tail q).
Definition set_head (v : Z) (q : ioqueue) : ioqueue :=
  Ioqueue (sleeping_producer q) (sleeping_consumer q) (buf q) v (tail q).
Definition set_tail (v : Z) (q : ioqueue) : ioqueue :=
  Ioqueue (sleeping_producer q) (sleeping_consumer q) (buf q) (head q) v.

(** The two members [PCB** waiter] can point to. *)
Inductive waiter := producer | consumer.

Definition waiting (w : waiter) (q : ioqueue) : Z :=
  match w with producer => sleeping_producer q | consumer => sleeping_consumer q end.
Definition set_waiter (w : waiter) : Z -> ioqueue -> ioqueue :=
  match w with producer => set_producer | consumer => set_consumer end.

Definition ioqueueInit : M kernel unit :=
  LockInit keyboard_lock ;;;
  upd_q (set_consumer 0) ;;;
  upd_q (set_producer 0) ;;;
  upd_q (fun q => set_head 0 (set_tail 0 q)).

Definition ptr_next_pos (idx : Z) : Z := u32 (idx + 1) mod bufsize.

Definition ioqueueFull : M kernel bool :=
  let* st := on_mach GetIntStatus in
  ASSERT (bool_decide (st = INT_OFF)) "ioqueueFull" 21 ;;;
  let* q := get_q in
  ret (ptr_next_pos (head q) =? tail q).

Definition ioqueueEmpty : M kernel bool :=
  let* st := on_mach GetIntStatus in
  ASSERT (bool_decide (st = INT_OFF)) "ioqueueEmpty" 27 ;;;
  let* q := get_q in
  ret (head q =? tail q).

(** [queue->buf[idx]]; an index past the array reaches the members behind it, which no index of a
    well-formed queue does. *)
Definition load_buf (idx : Z) : M kernel Z := fun s =>
  match buf (keyboard_IO_buf s) !! Z.to_nat idx with Some b => Ret (b, s) | None => Fault idx end.
Definition store_buf (idx byte : Z) : M kernel unit := fun s =>
  match buf (keyboard_IO_buf s) !! Z.to_nat idx with
  | Some _ => Ret (tt, set_ioq (set_buf (<[Z.to_nat idx := byte]> (buf (keyboard_IO_buf s))) (keyboard_IO_buf s)) s)
  | None => Fault idx
  end.

Definition ioqueueWakeup (w : waiter) : M kernel unit :=
  let* q := get_q in
  ASSERT (negb (waiting w q =? 0)) "ioqueueWakeup" 42 ;;;
  UnblockThread (waiting w q) ;;;
  upd_q (set_waiter w 0).

(** [ioqueueBlock] up to its call of [BlockThread]. *)
Definition ioqueueBlock_record (w : waiter) : M kernel unit :=
  let* q := get_q in
  ASSERT (waiting w q =? 0) "ioqueueBlock" 34 ;;;
  let* current_thread := GetCurrentThreadPCB in
  upd_q (set_waiter w current_thread).

(** The ends of [ioqueue_getchar] and [ioqueue_putchar], after their loops. *)
Definition take_char : M kernel Z :=
  let* q := get_q in
  let* byte := load_buf (tail q) in
  upd_q (fun q => set_tail (ptr_next_pos (tail q)) q) ;;;
  let* q := get_q in
  (if negb (sleeping_producer q =? 0) then ioqueueWakeup producer else ret tt) ;;;
  ret byte.

Definition add_char (byte : Z) : M kernel unit :=
  let* q := get_q in
  store_buf (head q) byte ;;;
  upd_q (fun q => set_head (ptr_next_pos (head q)) q) ;;;
  let* q := get_q in
  if negb (sleeping_consumer q =? 0) then ioqueueWakeup producer else ret tt.

Section blocking.
  Context `{Env}.

Definition ioqueueBlock (w : waiter) : M kernel unit :=
  ioqueueBlock_record w ;;;
  BlockThread TASK_BLOCKD.

Definition wait_body (fuel : nat) (test : M kernel bool) (w : waiter) (_ : unit) : M kernel (unit + unit) :=
  let* b := test in
  if b then
    sys_lock_lock fuel keyboard_lock ;;;
    ioqueueBlock w ;;;
    sys_lock_unlock keyboard_lock ;;;
    ret (inl tt)
  else ret (inr tt).

Definition ioqueue_getchar (fuel : nat) : M kernel Z :=
  let* st := on_mach GetIntStatus in
  ASSERT (bool_decide (st = INT_OFF)) "ioqueue_getchar" 49 ;;;
  iter fuel (wait_body fuel ioqueueEmpty consumer) tt ;;;
  take_char.

Definition ioqueue_putchar (fuel : nat) (byte : Z) : M kernel unit :=
  let* st := on_mach GetIntStatus in
  ASSERT (bool_decide (st = INT_OFF)) "ioqueue_putchar" 72 ;;;
  iter fuel (wait_body fuel ioqueueFull producer) tt ;;;
  add_char byte.

End blocking.

(** ** The sequence of characters in the buffer *)

Record ioq_ok (q : ioqueue) : Prop := IoqOk {
  ioq_len : length (buf q) = 64%nat;
  ioq_head : 0 <= head q < 64;
  ioq_tail : 0 <= tail q < 64
}.

(** The number of characters, and the characters, oldest first. *)
Definition count (q : ioqueue) : nat := Z.to_nat ((head q - tail q) mod 64).
Definition slot (q : ioqueue) (i : nat) : nat := Z.to_nat ((tail q + Z.of_nat i) mod 64).
Definition chars (q : ioqueue) : list Z := (fun i => buf q !!! slot q i) <$> seq 0 (count q).

Lemma ptr_next_pos_eq i : 0 <= i < 64 -> ptr_next_pos i = (i + 1) mod 64.
Proof. intros. unfold ptr_next_pos. by rewrite u32_id by lia. Qed.

(** Positions on the ring: [i] steps after [a]. *)
Lemma ring_cases a : a mod 64 = a - 64 * (a / 64).
Proof. rewrite Z.mod_eq by lia. lia. Qed.

Ltac ring_lia :=
  repeat match goal with
  | |- context[?a mod 64] => pose proof (ring_cases a); pose proof (Z.mod_pos_bound a 64); generalize dependent (a mod 64); intros
  | H : context[?a mod 64] |- _ => pose proof (ring_cases a); pose proof (Z.mod_pos_bound a 64); generalize dependent (a mod 64); intros
  end; lia.

Lemma count_full q : ioq_ok q -> (ptr_next_pos (head q) =? tail q) = (count q =? 63)%nat.
Proof.
  intros [_ Hh Ht]. rewrite ptr_next_pos_eq by done. unfold count.
  apply eq_bool_prop_intro. rewrite !Is_true_true. split; intros E.
  - apply Nat.eqb_eq. apply Z.eqb_eq in E. ring_lia.
  - apply Z.eqb_eq. apply Nat.eqb_eq in E. ring_lia.
Qed.

Lemma count_empty q : ioq_ok q -> (head q =? tail q) = (count q =? 0)%nat.
Proof.
  intros [_ Hh Ht]. unfold count. apply eq_bool_prop_intro. rewrite !Is_true_true. split; intros E.
  - apply Nat.eqb_eq. apply Z.eqb_eq in E. ring_lia.
  - apply Z.eqb_eq. apply Nat.eqb_eq in E. ring_lia.
Qed.

Lemma count_le q : (count q <= 63)%nat.
Proof. unfold count. pose proof (Z.mod_pos_bound (head q - tail q) 64). lia. Qed.

Lemma length_chars q : length (chars q) = count q.
Proof. unfold chars. by rewrite length_fmap, length_seq. Qed.

Lemma slot_lt q i : (slot q i < 64)%nat.
Proof. unfold slot. pose proof (Z.mod_pos_bound (tail q + Z.of_nat i) 64). lia. Qed.

(** Adding and taking a character. *)
Definition put (b : Z) (q : ioqueue) : ioqueue :=
  set_head (ptr_next_pos (head q)) (set_buf (<[Z.to_nat (head q) := b]> (buf q)) q).
Definition drop_first (q : ioqueue) : ioqueue := set_tail (ptr_next_pos (tail q)) q.

Lemma put_ok b q : ioq_ok q -> ioq_ok (put b q).
Proof.
  intros [Hl Hh Ht]. constructor; cbn.
  - by rewrite length_insert.
  - apply Z.mod_pos_bound. lia.
  - done.
Qed.

Lemma drop_first_ok q : ioq_ok q -> ioq_ok (drop_first q).
Proof. intros [Hl Hh Ht]. constructor; cbn; [done|done|]. apply Z.mod_pos_bound. lia. Qed.

Lemma put_chars b q : ioq_ok q -> (count q < 63)%nat -> chars (put b q) = chars q ++ [b].
Proof.
  intros Hok Hc. pose proof Hok as [Hl Hh Ht].
  assert (count (put b q) = S (count q)) as E.
  { unfold count in *. cbn [put set_head set_buf head tail]. rewrite ptr_next_pos_eq by done. ring_lia. }
  unfold chars. rewrite E, seq_S, fmap_app. cbn [fmap list_fmap Nat.add]. f_equal.
  - apply list_fmap_ext. intros k i Hk. apply lookup_seq in Hk as [-> Hk].
    cbn [put set_head set_buf buf]. change (slot (put b q) (0 + k)) with (slot q (0 + k)).
    apply list_lookup_total_insert_ne. unfold slot, count in *. ring_lia.
  - f_equal. change (slot (put b q) (count q)) with (slot q (count q)).
    replace (slot q (count q)) with (Z.to_nat (head q)).
    + cbn [put set_head set_buf buf]. apply list_lookup_total_insert_eq. lia.
    + unfold slot, count. ring_lia.
Qed.

Lemma take_chars q : ioq_ok q -> (0 < count q)%nat ->
  exists b, buf q !! Z.to_nat (tail q) = Some b /\ chars q = b :: chars (drop_first q).
Proof.
  intros Hok Hc. pose proof Hok as [Hl Hh Ht].
  destruct (lookup_lt_is_Some_2 (buf q) (Z.to_nat (tail q))) as [b Hb]; [lia|].
  exists b. split; [done|].
  assert (count q = S (count (drop_first q))) as E.
  { unfold count in *. cbn [drop_first set_tail head tail]. rewrite ptr_next_pos_eq by done. ring_lia. }
  unfold chars. rewrite E. cbn [seq fmap list_fmap]. f_equal.
  - replace (slot q 0) with (Z.to_nat (tail q)); [by apply list_lookup_total_correct|].
    unfold slot. ring_lia.
  - rewrite <- fmap_S_seq, <- list_fmap_compose. apply list_fmap_ext. intros k i Hk. cbn.
    f_equal. unfold slot. cbn. rewrite ptr_next_pos_eq by done. ring_lia.
Qed.

(** ** One operation on a queue with a character, or with room *)

Definition with_q (q : ioqueue) (s : kernel) : kernel := set_ioq q s.

Lemma set_ioq_id s : set_ioq (keyboard_IO_buf s) s = s.
Proof. by destruct s. Qed.

Lemma sched_ok_ioq dirs st s q : sched_ok dirs st s -> sched_ok dirs st (set_ioq q s).
Proof. by intros []. Qed.

Lemma sched_ok_locks dirs st s l : sched_ok dirs st s -> sched_ok dirs st (set_locks l s).
Proof. by intros []. Qed.

Lemma masked_off s : if_flag (eflags (mach s)) = INT_OFF -> masked (mach s) = mach s.
Proof.
  intros H. unfold masked. destruct s as [m]. destruct m as [r e o t]. cbn in *. unfold set_eflags. cbn. f_equal.
  by apply cli_off.
Qed.

Section tests.
  Context (s : kernel) (Hif : if_flag (eflags (mach s)) = INT_OFF) (Hq : ioq_ok (keyboard_IO_buf s)).
  #[local] Abbreviation q := (keyboard_IO_buf s).

Lemma int_off_assert {A} f l (k : M kernel A) :
  (let* st := on_mach GetIntStatus in ASSERT (bool_decide (st = INT_OFF)) f l ;;; k) s = k s.
Proof.
  rewrite (bind_Ret _ _ _ _ _ (GetIntStatus_kernel s)), Hif.
  by rewrite (bind_Ret _ _ s tt s) by by apply ASSERT_true, bool_decide_true.
Qed.

Lemma ioqueueFull_ok : ioqueueFull s = Ret ((count q =? 63)%nat, s).
Proof. unfold ioqueueFull. rewrite int_off_assert. unfold get_q, bind, ret. by rewrite count_full. Qed.

Lemma ioqueueEmpty_ok : ioqueueEmpty s = Ret ((count q =? 0)%nat, s).
Proof. unfold ioqueueEmpty. rewrite int_off_assert. unfold get_q, bind, ret. by rewrite count_empty. Qed.

Lemma take_char_ok b : buf q !! Z.to_nat (tail q) = Some b ->
  take_char s = (let* _ := (if negb (sleeping_producer q =? 0) then ioqueueWakeup producer else ret tt) in ret b)
    (set_ioq (drop_first q) s).
Proof.
  intros Hb. unfold take_char. rewrite (bind_Ret _ _ s q s) by done.
  rewrite (bind_Ret _ _ s b s) by (unfold load_buf; by rewrite Hb).
  rewrite (bind_Ret _ _ s tt (set_ioq (drop_first q) s)) by done.
  by rewrite (bind_Ret _ _ _ (drop_first q) (set_ioq (drop_first q) s)).
Qed.

Lemma add_char_ok b :
  add_char b s = (if negb (sleeping_consumer q =? 0) then ioqueueWakeup producer else ret tt)
    (set_ioq (put b q) s).
Proof.
  destruct Hq as [Hl Hh Ht]. destruct (lookup_lt_is_Some_2 (buf q) (Z.to_nat (head q))) as [c Hc]; [lia|].
  unfold add_char. rewrite (bind_Ret _ _ s q s) by done.
  rewrite (bind_Ret _ _ s tt (set_ioq (set_buf (<[Z.to_nat (head q) := b]> (buf q)) q) s)) by (unfold store_buf; by rewrite Hc).
  rewrite (bind_Ret _ _ _ tt (set_ioq (put b q) s)) by done.
  by rewrite (bind_Ret _ _ _ (put b q) (set_ioq (put b q) s)).
Qed.

Context `{Env} (fuel : nat).

Lemma getchar_ready : (0 < count q)%nat -> ioqueue_getchar (S fuel) s = take_char s.
Proof.
  intros Hc. unfold ioqueue_getchar. rewrite int_off_assert. rewrite (bind_Ret _ _ s tt s); [done|].
  erewrite iter_S with (x := inr tt); [done|]. unfold wait_body.
  rewrite (bind_Ret _ _ _ _ _ ioqueueEmpty_ok). by replace (count q =? 0)%nat with false by lia.
Qed.

Lemma putchar_ready b : (count q < 63)%nat -> ioqueue_putchar (S fuel) b s = add_char b s.
Proof.
  intros Hc. unfold ioqueue_putchar. rewrite int_off_assert. rewrite (bind_Ret _ _ s tt s); [done|].
  erewrite iter_S with (x := inr tt); [done|]. unfold wait_body.
  rewrite (bind_Ret _ _ _ _ _ ioqueueFull_ok). by replace (count q =? 63)%nat with false by lia.
Qed.

End tests.

(** ** The queue as a sequence *)

Inductive qop := Put (b : Z) | Get.

Definition no_waiters (q : ioqueue) : Prop := sleeping_producer q = 0 /\ sleeping_consumer q = 0.

(** The operation on the sequence of characters, where it does not have to wait. *)
Definition spec_qop (l : list Z) (op : qop) : option (list Z * list Z) :=
  match op with
  | Put b => if (length l <? 63)%nat then Some (l ++ [b], []) else None
  | Get => match l with [] => None | b :: l' => Some (l', [b]) end
  end.

Fixpoint spec_qops (l : list Z) (ops : list qop) : option (list Z * list Z) :=
  match ops with
  | [] => Some (l, [])
  | op :: ops' =>
      match spec_qop l op with
      | Some (l', o) =>
          match spec_qops l' ops' with Some (l'', o') => Some (l'', o ++ o') | None => None end
      | None => None
      end
  end.

Section fifo.
  Context `{Env} (fuel : nat).

Definition run_qop (op : qop) : M kernel (list Z) :=
  match op with
  | Put b => ioqueue_putchar fuel b ;;; ret []
  | Get => let* b := ioqueue_getchar fuel in ret [b]
  end.

Fixpoint run_qops (ops : list qop) : M kernel (list Z) :=
  match ops with
  | [] => ret []
  | op :: ops' => let* o := run_qop op in let* o' := run_qops ops' in ret (o ++ o')
  end.

End fifo.

Lemma run_qop_ok `{Env} fuel s op l' o :
  if_flag (eflags (mach s)) = INT_OFF -> ioq_ok (keyboard_IO_buf s) -> no_waiters (keyboard_IO_buf s) ->
  spec_qop (chars (keyboard_IO_buf s)) op = Some (l', o) ->
  exists q', run_qop (S fuel) op s = Ret (o, set_ioq q' s) /\ ioq_ok q' /\ no_waiters q' /\ chars q' = l'.
Proof.
  intros Hif Hq [Hp Hc] Hspec. destruct op as [b|]; cbn [spec_qop] in Hspec.
  - rewrite length_chars in Hspec. destruct (Nat.ltb_spec (count (keyboard_IO_buf s)) 63); [|done].
    injection Hspec as <- <-. exists (put b (keyboard_IO_buf s)).
    split_and!; [|by apply put_ok|done|by apply put_chars].
    unfold run_qop. erewrite bind_Ret; [reflexivity|]. rewrite putchar_ready, add_char_ok by done.
    by rewrite Hc.
  - pose proof (length_chars (keyboard_IO_buf s)) as Hl.
    destruct (chars (keyboard_IO_buf s)) as [|b l] eqn:E; [done|]. injection Hspec as <- <-. cbn in Hl.
    destruct (take_chars _ Hq ltac:(lia)) as (b' & Hb & E'). rewrite E in E'. injection E' as <- El.
    exists (drop_first (keyboard_IO_buf s)). split_and!; [|by apply drop_first_ok|done|done].
    unfold run_qop. erewrite bind_Ret; [reflexivity|].
    rewrite getchar_ready, (take_char_ok _ _ Hb) by (done || lia). by rewrite Hp.
Qed.

(** C9: while nobody sleeps on it, the ring buffer is a queue of at most 63 characters: any sequence of
    [ioqueue_putchar] and [ioqueue_getchar] that never has to wait delivers the characters in the
    order they were put, leaves the rest in the buffer, and changes nothing else of the kernel. *)
Theorem ioqueue_fifo `{Env} fuel ops : forall s l outs,
  if_flag (eflags (mach s)) = INT_OFF -> ioq_ok (keyboard_IO_buf s) -> no_waiters (keyboard_IO_buf s) ->
  spec_qops (chars (keyboard_IO_buf s)) ops = Some (l, outs) ->
  exists q', run_qops (S fuel) ops s = Ret (outs, set_ioq q' s) /\ ioq_ok q' /\ no_waiters q' /\
    chars q' = l.
Proof.
  induction ops as [|op ops IH]; intros s l outs Hif Hq Hw Hspec; cbn [spec_qops] in Hspec.
  - injection Hspec as <- <-. exists (keyboard_IO_buf s). by rewrite set_ioq_id.
  - destruct (spec_qop _ op) as [[l1 o1]|] eqn:E1; [|done].
    destruct (spec_qops l1 ops) as [[l2 o2]|] eqn:E2; [|done]. injection Hspec as <- <-.
    destruct (run_qop_ok fuel s op l1 o1 Hif Hq Hw E1) as (q1 & H1 & Hq1 & Hw1 & <-).
    destruct (IH (set_ioq q1 s) l2 o2 Hif Hq1 Hw1 E2) as (q2 & H2 & Hq2 & Hw2 & Hl2).
    exists q2. split_and!; try done. cbn [run_qops].
    by rewrite (bind_Ret _ _ _ _ _ H1), (bind_Ret _ _ _ _ _ H2).
Qed.

(** [ioqueue_getchar] on a queue with a character returns the oldest one and, when a producer
    sleeps, makes it ready and forgets it. *)
Theorem ioqueue_getchar_wakes `{Env} fuel dirs s c b l :
  sched_ok dirs TASK_RUNNING s -> if_flag (eflags (mach s)) = INT_OFF ->
  ioq_ok (keyboard_IO_buf s) -> chars (keyboard_IO_buf s) = b :: l ->
  let p := sleeping_producer (keyboard_IO_buf s) in
  p <> 0 -> pcbs s !! p = Some c -> blocked (status c) ->
  exists s', ioqueue_getchar (S fuel) s = Ret (b, s') /\
    s' = unblocked p c (set_ioq (keyboard_IO_buf s') s) /\ sched_ok dirs TASK_RUNNING s' /\
    chars (keyboard_IO_buf s') = l /\ sleeping_producer (keyboard_IO_buf s') = 0 /\
    ioq_ok (keyboard_IO_buf s').
Proof.
  intros Hs Hif Hq Hch p Hp Hc Hb. pose proof (length_chars (keyboard_IO_buf s)) as Hl.
  rewrite Hch in Hl. cbn in Hl.
  destruct (take_chars _ Hq ltac:(lia)) as (b' & Hbuf & E'). rewrite Hch in E'. injection E' as <- El.
  set (q' := drop_first (keyboard_IO_buf s)). pose proof (drop_first_ok _ Hq) as Hq'. fold q' in Hq'.
  set (s1 := set_ioq q' s). pose proof (sched_ok_ioq _ _ _ q' Hs) as Hs1. fold s1 in Hs1.
  exists (set_ioq (set_producer 0 q') (unblocked p c s1)).
  assert (p <> cur s) as Hne.
  { intros ->. destruct (so_cur _ _ _ Hs) as (c1 & Hc1 & E). assert (c1 = c) as -> by congruence.
    rewrite E in Hb. by destruct Hb as [|[|]]. }
  split_and!; [|done|apply sched_ok_ioq; by apply unblocked_ok|done|done|by destruct Hq'].
  rewrite getchar_ready, (take_char_ok _ _ Hbuf) by (done || lia). fold q' s1. fold p.
  replace (p =? 0) with false by lia. cbn [negb].
  erewrite bind_Ret; [reflexivity|]. unfold ioqueueWakeup.
  rewrite (bind_Ret _ _ s1 q' s1) by done. change (waiting producer q') with p.
  rewrite (bind_Ret _ _ s1 tt s1) by (apply ASSERT_true, negb_true_iff, Z.eqb_neq; done).
  rewrite (bind_Ret _ _ s1 _ _ (UnblockThread_eq _ _ _ _ _ Hs1 Hc Hb)). done.
Qed.

(** ** A sleeping reader *)

Lemma putchar_sleeper_panics `{Env} fuel b s :
  if_flag (eflags (mach s)) = INT_OFF -> ioq_ok (keyboard_IO_buf s) ->
  (count (keyboard_IO_buf s) < 63)%nat ->
  sleeping_consumer (keyboard_IO_buf s) <> 0 -> sleeping_producer (keyboard_IO_buf s) = 0 ->
  ioqueue_putchar (S fuel) b s = Panic "ioqueueWakeup" 42.
Proof.
  intros Hif Hq Hc Hs Hp. rewrite putchar_ready, add_char_ok by done.
  replace (sleeping_consumer (keyboard_IO_buf s) =? 0) with false by lia. cbn [negb].
  unfold ioqueueWakeup. set (s1 := set_ioq _ s).
  rewrite (bind_Ret _ _ s1 (put b (keyboard_IO_buf s)) s1) by done.
  apply bind_Panic, ASSERT_false. cbn [waiting put set_head set_buf sleeping_producer]. by rewrite Hp.
Qed.

(** The part of [ioqueue_getchar] on an empty queue before another thread runs. *)
Definition getchar_sleep `{Env} (fuel : nat) : M kernel int_status :=
  sys_lock_lock fuel keyboard_lock ;;;
  ioqueueBlock_record consumer ;;;
  BlockThread_switch TASK_BLOCKD.

Lemma getchar_empty `{Env} fuel s s' old :
  if_flag (eflags (mach s)) = INT_OFF -> ioq_ok (keyboard_IO_buf s) ->
  count (keyboard_IO_buf s) = 0%nat -> getchar_sleep (S fuel) s = Ret (old, s') ->
  ioqueue_getchar (S fuel) s =
    (on_mach (SetIntStatus old) ;;;
     sys_lock_unlock keyboard_lock ;;;
     iter fuel (wait_body (S fuel) ioqueueEmpty consumer) tt ;;;
     take_char) (others s').
Proof.
  intros Hif Hq Hc Hs. unfold ioqueue_getchar. rewrite int_off_assert by done. cbn [iter].
  rewrite bind_assoc. unfold wait_body at 1.
  rewrite bind_assoc, (bind_Ret _ _ _ _ _ (ioqueueEmpty_ok s Hif Hq)), Hc. cbn [Nat.eqb].
  unfold getchar_sleep in Hs. unfold ioqueueBlock, BlockThread. unfold bind in Hs |- *. 
  destruct (sys_lock_lock _ _ s) as [[[] s1]| | | |]; try done.
  destruct (ioqueueBlock_record consumer s1) as [[[] s2]| | | |]; try done.
  rewrite Hs. unfold modify.
  destruct (on_mach (SetIntStatus old) (others s')) as [[o s3]| | | |]; [|done..]. cbn.
  destruct (sys_lock_unlock keyboard_lock s3) as [[[] s4]| | | |]; done.
Qed.

(** C11: a thread that calls [ioqueue_getchar] on an empty queue goes to sleep: it is recorded as the
    sleeping consumer, keeps the queue's lock, and the next ready thread runs ([others] takes over
    there).  From then on every [ioqueue_putchar] fails the assertion of [ioqueueWakeup]: line 87
    wakes [sleeping_producer] instead of the consumer it has found. *)
Theorem ioqueue_sleeping_reader `{Env} fuel dirs s tag rest :
  sched_ok dirs TASK_RUNNING s -> if_flag (eflags (mach s)) = INT_OFF -> cur s <> 0 ->
  ioq_ok (keyboard_IO_buf s) -> no_waiters (keyboard_IO_buf s) -> chars (keyboard_IO_buf s) = [] ->
  locks s !! keyboard_lock = Some free_lock -> ready_thread_list s = tag :: rest ->
  exists s', getchar_sleep (S fuel) s = Ret (INT_OFF, s') /\
    sched_ok dirs TASK_RUNNING s' /\ tag = general_tag (cur s') /\ ready_thread_list s' = rest /\
    sleeping_consumer (keyboard_IO_buf s') = cur s /\
    (status <$> pcbs s' !! cur s) = Some TASK_BLOCKD /\
    locks s' !! keyboard_lock = Some (held_lock (cur s) 1) /\
    ioqueue_getchar (S fuel) s =
      (on_mach (SetIntStatus INT_OFF) ;;;
       sys_lock_unlock keyboard_lock ;;;
       iter fuel (wait_body (S fuel) ioqueueEmpty consumer) tt ;;;
       take_char) (others s') /\
    forall fuel b, ioqueue_putchar (S fuel) b s' = Panic "ioqueueWakeup" 42.
Proof.
  intros Hs Hif Hcur Hq [Hp Hcons] Hch Hl Hr.
  assert (count (keyboard_IO_buf s) = 0%nat) as Hc by by rewrite <- length_chars, Hch.
  destruct (so_cur _ _ _ Hs) as (c & Hcc & Hst).
  set (q := keyboard_IO_buf s) in *.
  set (s1 := with_lock keyboard_lock (held_lock (cur s) 1) s).
  set (s2 := set_ioq (set_consumer (cur s) q) s1).
  assert (sched_ok dirs TASK_RUNNING s2) as Hs2 by by apply sched_ok_ioq, sched_ok_locks.
  destruct (BlockThread_switch_ok dirs s2 TASK_BLOCKD c tag rest Hs2 Hcc ltac:(by left) Hr)
    as (s' & Hb & Hs' & Htag & Hr' & Hfr & Hpcb).
  assert (getchar_sleep (S fuel) s = Ret (INT_OFF, s')) as Hsleep.
  { unfold getchar_sleep. rewrite (bind_Ret _ _ _ _ _ (lock_free_ok fuel _ s Hl Hcur)). fold s1.
    rewrite (bind_Ret _ _ s1 tt s2).
    2:{ unfold ioqueueBlock_record. rewrite (bind_Ret _ _ s1 q s1) by done.
        rewrite (bind_Ret _ _ s1 tt s1) by (apply ASSERT_true; cbn [waiting]; by rewrite Hcons). done. }
    rewrite Hb. do 2 f_equal. exact Hif. }
  exists s'. pose proof (sf_ioq _ _ Hfr) as Eq. change (keyboard_IO_buf s' = set_consumer (cur s) q) in Eq.
  pose proof (sf_mach _ _ Hfr) as Em. change (mach s' = masked (mach s)) in Em.
  split_and!; try done.
  - by rewrite Eq.
  - rewrite Hpcb. rewrite decide_True by done. cbn [fmap option_fmap option_map].
    change (cur s2) with (cur s). rewrite switched_status.
    rewrite decide_False; [done|]. intros E.
    assert (tag ∈ ready_thread_list s) as Hin by (rewrite Hr; left).
    apply (so_ready _ _ _ Hs) in Hin as (p & cp & Hpp & E1 & E2).
    destruct (so_cur _ _ _ Hs') as (c' & Hc' & _).
    assert (p = cur s') as ->.
    { apply general_tag_inj; [by eapply (so_page _ _ _ Hs)|by eapply (so_page _ _ _ Hs')|congruence]. }
    rewrite <- E in Hpp. assert (cp = c) as -> by congruence. congruence.
  - rewrite (sf_locks _ _ Hfr). apply lookup_insert_eq.
  - by apply getchar_empty.
  - intros fuel' b. apply putchar_sleeper_panics; rewrite ?Eq, ?Em.
    + rewrite masked_off by done. done.
    + by destruct Hq.
    + change (count (set_consumer (cur s) q)) with (count q). lia.
    + done.
    + done.
Qed.

(** ** Examples *)

Definition demo_queue (p : Z) (n : nat) : ioqueue := Ioqueue p 0 (replicate 64 65) (Z.of_nat n) 0.

Lemma demo_queue_ok p n : (n < 64)%nat -> ioq_ok (demo_queue p n).
Proof. intros. constructor; cbn; [done|lia|lia]. Qed.

(** The example kernel with interrupts off and a queue. *)
Definition demo_io (q : ioqueue) : kernel :=
  set_ioq q (set_locks (<[keyboard_lock := free_lock]> ∅) (set_mach (Machine ∅ 2 [] []) demo_kernel)).

Lemma demo_io_ok q : sched_ok demo_dirs TASK_RUNNING (demo_io q).
Proof. apply sched_ok_ioq, sched_ok_locks. exact demo_kernel_ok. Qed.

Lemma ioqueue_fifo_witness :
  exists q', run_qops (H := demo_env) 1 [Put 97; Put 98; Get; Put 99; Get] (demo_io (demo_queue 0 0)) =
    Ret ([97; 98], set_ioq q' (demo_io (demo_queue 0 0))) /\ chars q' = [99].
Proof.
  destruct (ioqueue_fifo (H := demo_env) 0 [Put 97; Put 98; Get; Put 99; Get] (demo_io (demo_queue 0 0))
    [99] [97; 98]) as (q' & H1 & _ & _ & H2); [reflexivity|apply demo_queue_ok; lia|done|reflexivity|].
  exists q'. split; [exact H1|exact H2].
Defined.

Lemma ioqueue_getchar_wakes_witness :
  exists s', ioqueue_getchar (H := demo_env) 1 (demo_io (demo_queue 0xC0140000 2)) = Ret (65, s') /\
    ready_thread_list s' = [0xC0140020; 0xC0130020].
Proof.
  destruct (ioqueue_getchar_wakes (H := demo_env) 0 demo_dirs (demo_io (demo_queue 0xC0140000 2))
    (demo_pcb 0xC0140000 TASK_BLOCKD) 65 [65]) as (s' & H1 & H2 & _);
    [apply demo_io_ok|reflexivity|apply demo_queue_ok; lia|reflexivity|discriminate|reflexivity|by left|].
  exists s'. split; [exact H1|]. by rewrite H2.
Defined.

Lemma ioqueue_sleeping_reader_witness :
  exists s', getchar_sleep (H := demo_env) 1 (demo_io (demo_queue 0 0)) = Ret (INT_OFF, s') /\
    ioqueue_putchar (H := demo_env) 1 97 s' = Panic "ioqueueWakeup" 42.
Proof.
  destruct (ioqueue_sleeping_reader (H := demo_env) 0 demo_dirs (demo_io (demo_queue 0 0)) 0xC0130020 [])
    as (s' & H1 & _ & _ & _ & _ & _ & _ & _ & H2);
    [apply demo_io_ok|reflexivity|discriminate|apply demo_queue_ok; lia|done|reflexivity|reflexivity|reflexivity|].
  exists s'. split; [exact H1|apply H2].
Defined.
