(* ===== verification/Keyboard.v ===== *)
(** * device/keyboard.c: scan codes to characters

    The state of the driver ([keyboard]: which modifier keys are down, and whether the last byte was
    the 0xE0 prefix) next to the kernel and the interrupt tables.  [IntKeyboardHandler] is given the
    byte it reads from port 0x60; like every handler it runs with interrupts off. *)
From stdpp Require Import base list gmap strings.
From S2P Require Import Prelude Machine Print Interrupt KList Paging State Sched Sync Ioqueue.

Record keyboard := Keyboard {
  ctrl_status : Z;
  shift_status : Z;
  alt_status : Z;
  caps_lock_status : Z;
  ext_scancode : Z
}.

Definition set_ctrl (v : Z) (k : keyboard) : keyboard :=
  Keyboard v (shift_status k) (alt_status k) (caps_lock_status k) (ext_scancode k).
Definition set_shift (v : Z) (k : keyboard) : keyboard :=
  Keyboard (ctrl_status k) v (alt_status k) (caps_lock_status k) (ext_scancode k).
Definition set_alt (v : Z) (k : keyboard) : keyboard :=
  Keyboard (ctrl_status k) (shift_status k) v (caps_lock_status k) (ext_scancode k).
Definition set_caps (v : Z) (k : keyboard) : keyboard :=
  Keyboard (ctrl_status k) (shift_status k) (alt_status k) v (ext_scancode k).
Definition set_ext (v : Z) (k : keyboard) : keyboard :=
  Keyboard (ctrl_status k) (shift_status k) (alt_status k) (caps_lock_status k) v.

Definition shift_l_make : Z := 0x2a.
Definition shift_r_make : Z := 0x36.
Definition alt_l_make : Z := 0x38.
Definition alt_r_make : Z := 0xe038.
Definition ctrl_l_make : Z := 0x1d.
Definition ctrl_r_make : Z := 0xe01d.
Definition caps_lock_make : Z := 0x3a.

(** Control characters, and the keys without a character. *)
Definition esc : Z := 27.
Definition backspace : Z := 8.
Definition tab : Z := 9.
Definition enter : Z := 13.
Definition char_invisible : Z := 0.
Definition ctrl_l_char : Z := char_invisible.
Definition shift_l_char : Z := char_invisible.
Definition shift_r_char : Z := char_invisible.
Definition alt_l_char : Z := char_invisible.
Definition caps_lock_char : Z := char_invisible.

(** The character of a key alone and with shift, by make code. *)
Definition keymap : list (Z * Z) := [
  (0, 0); (esc, esc); (49, 33); (50, 64); (51, 35); (52, 36); (53, 37); (54, 94);
  (55, 38); (56, 42); (57, 40); (48, 41); (45, 95); (61, 43); (backspace, backspace); (tab, tab);
  (113, 81); (119, 87); (101, 69); (114, 82); (116, 84); (121, 89); (117, 85); (105, 73);
  (111, 79); (112, 80); (91, 123); (93, 125); (enter, enter); (ctrl_l_char, ctrl_l_char); (97, 65); (115, 83);
  (100, 68); (102, 70); (103, 71); (104, 72); (106, 74); (107, 75); (108, 76); (59, 58);
  (39, 34); (96, 126); (shift_l_char, shift_l_char); (92, 124); (122, 90); (120, 88); (99, 67); (118, 86);
  (98, 66); (110, 78); (109, 77); (44, 60); (46, 62); (47, 63); (shift_r_char, shift_r_char); (42, 42);
  (alt_l_char, alt_l_char); (32, 32); (caps_lock_char, caps_lock_char)].

(** The driver's state, the kernel's, and the interrupt tables [KeyboardInit] registers in. *)
Record kb := Kb { keys : keyboard; krn : kernel; vectors : int_tables }.

Definition set_krn (k : kernel) (s : kb) : kb := Kb (keys s) k (vectors s).
Definition on_krn {A} : M kernel A -> M kb A := zoom krn set_krn.
Definition on_intr {A} : M intr A -> M kb A :=
  zoom (fun s => Intr (mach (krn s)) (vectors s))
    (fun i s => Kb (keys s) (set_mach (cpu i) (krn s)) (tables i)).
Definition upd_keys (f : keyboard -> keyboard) : M kb unit :=
  modify (fun s => Kb (f (keys s)) (krn s) (vectors s)).

Definition load_keymap (idx shift_mode : Z) : M kb Z := fun s =>
  match keymap !! Z.to_nat idx with
  | Some (a, b) => Ret (if shift_mode =? 0 then a else b, s)
  | None => Fault idx
  end.

(** The keys with two printed characters that only shift selects between. *)
Definition two_char_key (scan_code : Z) : bool :=
  (scan_code <? 0x0e) || (scan_code =? 0x29) || (scan_code =? 0x1a) || (scan_code =? 0x1b) ||
  (scan_code =? 0x2b) || (scan_code =? 0x27) || (scan_code =? 0x28) || (scan_code =? 0x33) ||
  (scan_code =? 0x34) || (scan_code =? 0x35).

Definition shift_mode_of (scan_code shift_down_last caps_lock_down_last : Z) : Z :=
  if two_char_key scan_code then (if negb (shift_down_last =? 0) then 1 else 0)
  else if negb (Z.lxor shift_down_last caps_lock_down_last =? 0) then 1 else 0.

(** A break code: [scan_code] with bit 7. *)
Definition key_released (scan_code : Z) : M kb unit :=
  let make_code := Z.land scan_code 0xFF7F in
  (if (make_code =? ctrl_l_make) || (make_code =? ctrl_r_make) then upd_keys (set_ctrl 0) else ret tt) ;;;
  (if (make_code =? shift_l_make) || (make_code =? shift_r_make) then upd_keys (set_shift 0) else ret tt) ;;;
  (if (make_code =? alt_l_make) || (make_code =? alt_r_make) then upd_keys (set_alt 0) else ret tt).

(** The bookkeeping of the modifier keys at the end of a make code. *)
Definition key_down (scan_code : Z) : M kb unit :=
  if (scan_code =? ctrl_l_make) || (scan_code =? ctrl_r_make) then upd_keys (set_ctrl 1)
  else if (scan_code =? shift_l_make) || (scan_code =? shift_r_make) then upd_keys (set_shift 1)
  else if (scan_code =? alt_l_make) || (scan_code =? alt_r_make) then upd_keys (set_alt 1)
  else if scan_code =? caps_lock_make then
    upd_keys (fun k => set_caps (if caps_lock_status k =? 0 then 1 else 0) k)
  else ret tt.

Section handler.
  Context `{Env}.

Definition key_pressed (fuel : nat) (scan_code shift_down_last caps_lock_down_last : Z) : M kb unit :=
  let shift_mode := shift_mode_of scan_code shift_down_last caps_lock_down_last in
  let scan_code := Z.land scan_code 0x00FF in
  let* current_char := load_keymap scan_code shift_mode in
  (if negb (current_char =? 0) then
     let* full := on_krn ioqueueFull in
     if negb full then on_krn (ioqueue_putchar fuel current_char) else ret tt
   else ret tt) ;;;
  key_down scan_code.

Definition IntKeyboardHandler (fuel : nat) (port_0x60 : Z) : M kb unit :=
  let* s := get in
  let shift_down_last := shift_status (keys s) in
  let caps_lock_down_last := caps_lock_status (keys s) in
  let scan_code := u8 port_0x60 in
  if scan_code =? 0xE0 then upd_keys (set_ext 1)
  else
    let ext := negb (ext_scancode (keys s) =? 0) in
    (if ext then upd_keys (set_ext 0) else ret tt) ;;;
    let scan_code := if ext then Z.lor 0xE000 scan_code else scan_code in
    let is_break_code := negb (Z.land scan_code 0x0080 =? 0) in
    if is_break_code then key_released scan_code
    else if ((0x00 <? scan_code) && (scan_code <? 0x3B)) || (scan_code =? alt_r_make) ||
            (scan_code =? ctrl_r_make) then
      key_pressed fuel scan_code shift_down_last caps_lock_down_last
    else
      let* _ := on_krn (on_mach (sys_putline "unknown key!")) in ret tt.

End handler.

Definition KeyboardInit (handler : Z) : M kb unit :=
  let* _ := on_krn (on_mach (sys_putstr "keyboard_init..")) in
  on_krn ioqueueInit ;;;
  on_intr (RegisterHandler 0x21 handler) ;;;
  let* _ := on_krn (on_mach (sys_putline " done")) in
  ret tt.

(** ** The character a key stands for *)

Definition is_lower (c : Z) : bool := (97 <=? c) && (c <=? 122).

(** The keyboard's meaning: a letter is capital when exactly one of shift and caps lock is on; every
    other key looks at shift alone. *)
Definition key_char (shift caps : bool) (code : Z) : Z :=
  match keymap !! Z.to_nat code with
  | Some (a, b) => if is_lower a then (if xorb shift caps then a - 32 else a) else if shift then b else a
  | None => 0
  end.

Definition flag (z : Z) : Prop := z = 0 \/ z = 1.
Definition on (z : Z) : bool := negb (z =? 0).

Record keys_ok (k : keyboard) : Prop := KeysOk {
  ko_shift : flag (shift_status k);
  ko_caps : flag (caps_lock_status k)
}.

(** The modifiers after the make code [code]. *)
Definition pressed (code : Z) (k : keyboard) : keyboard :=
  if code =? 0x1d then set_ctrl 1 k
  else if (code =? 0x2a) || (code =? 0x36) then set_shift 1 k
  else if code =? 0x38 then set_alt 1 k
  else if code =? 0x3a then set_caps (1 - caps_lock_status k) k
  else k.

Lemma keymap_char code shift caps : 0 <= code < 59 -> flag shift -> flag caps ->
  exists a b, keymap !! Z.to_nat code = Some (a, b) /\
    (if shift_mode_of code shift caps =? 0 then a else b) = key_char (on shift) (on caps) code.
Proof.
  intros Hc Hs Hk.
  pose (P := fun sh ca code => match keymap !! Z.to_nat code with
    | Some (a, b) => (if shift_mode_of code sh ca =? 0 then a else b) =? key_char (on sh) (on ca) code
    | None => false end).
  assert (P shift caps code = true) as HP.
  { destruct Hs as [-> | ->], Hk as [-> | ->]; (apply (forall_below 59); [vm_compute; reflexivity|done]). }
  unfold P in HP. destruct (keymap !! Z.to_nat code) as [[a b]|]; [|done].
  exists a, b. split; [done|]. by apply Z.eqb_eq.
Qed.

Lemma code_facts code : 0 < code < 59 ->
  (code =? 0xE0) = false /\ Z.land code 0x80 = 0 /\ Z.land code 0xFF = code /\
  (code =? alt_r_make) = false /\ (code =? ctrl_r_make) = false.
Proof.
  intros Hc.
  pose proof (forall_below 59 (fun c => negb (c =? 0xE0) && (Z.land c 0x80 =? 0) && (Z.land c 0xFF =? c) &&
    negb (c =? alt_r_make) && negb (c =? ctrl_r_make)) eq_refl code ltac:(lia)) as HP.
  cbv beta in HP. apply andb_prop in HP as [HP H5]. apply andb_prop in HP as [HP H4].
  apply andb_prop in HP as [HP H3]. apply andb_prop in HP as [H1 H2].
  apply negb_true_iff in H1, H4, H5. apply Z.eqb_eq in H2, H3. done.
Qed.

Lemma key_down_ok code k s v : 0 < code < 59 -> keys_ok k ->
  key_down code (Kb k s v) = Ret (tt, Kb (pressed code k) s v).
Proof.
  intros Hc [_ Hk]. unfold key_down, pressed, ctrl_l_make, ctrl_r_make, shift_l_make, shift_r_make,
    alt_l_make, alt_r_make, caps_lock_make.
  replace (code =? 0xe01d) with false by lia. replace (code =? 0xe038) with false by lia.
  rewrite !orb_false_r.
  destruct (code =? 0x1d); [done|]. destruct ((code =? 0x2a) || (code =? 0x36)); [done|].
  destruct (code =? 0x38); [done|]. destruct (code =? 0x3a); [|done].
  unfold upd_keys, modify. cbn [keys]. by destruct Hk as [-> | ->].
Qed.

Lemma on_krn_ok {A} (m : M kernel A) s a k : m (krn s) = Ret (a, k) -> on_krn m s = Ret (a, set_krn k s).
Proof. intros H. unfold on_krn, zoom. by rewrite H. Qed.

(** The empty queue, whatever bytes are in its buffer. *)
Definition empty_queue (q : ioqueue) : ioqueue := State.Ioqueue 0 0 (buf q) 0 0.

Lemma print_krn (prog : M machine Z) s : wp prog (fun _ c => tty_only (mach (krn s)) c) (mach (krn s)) ->
  exists n t, on_krn (on_mach prog) s = Ret (n, set_krn (set_mach (set_tty t (mach (krn s))) (krn s)) s).
Proof.
  intros (n & c & Hrun & R & F & O)%wp_elim. exists n, (tty c).
  rewrite (on_krn_ok _ _ _ _ (on_mach_ok _ _ _ _ Hrun)). do 3 f_equal. f_equal.
  destruct c, (mach (krn s)). cbn in *. by subst.
Qed.

Lemma KeyboardInit_ok handler ks k T : is_Some (locks k !! keyboard_lock) ->
  exists t, KeyboardInit handler (Kb ks k T) =
    Ret (tt, Kb ks (set_mach (set_tty t (mach k)) (set_ioq (empty_queue (keyboard_IO_buf k)) (with_lock keyboard_lock free_lock k)))
      (tables (set_handler 0x21 handler (Intr (mach k) T)))).
Proof.
  intros Hl. set (k1 := fun t => set_mach (set_tty t (mach k)) k).
  destruct (print_krn (sys_putstr "keyboard_init..") (Kb ks k T) (putstr_tty _ _)) as (n1 & t1 & E1).
  unfold KeyboardInit. rewrite (bind_Ret _ _ _ _ _ E1). change (set_krn _ (Kb ks k T)) with (Kb ks (k1 t1) T).
  rewrite (bind_Ret _ _ _ tt (Kb ks (set_ioq (empty_queue (keyboard_IO_buf k)) (with_lock keyboard_lock free_lock (k1 t1))) T)).
  2:{ apply (on_krn_ok ioqueueInit (Kb ks (k1 t1) T)). unfold ioqueueInit.
      by rewrite (bind_Ret _ _ _ _ _ (LockInit_ok keyboard_lock (k1 t1) Hl)). }
  set (k2 := set_ioq _ _). set (T' := tables (set_handler 0x21 handler (Intr (mach k) T))).
  rewrite (bind_Ret _ _ _ tt (Kb ks k2 T')) by reflexivity.
  destruct (print_krn (sys_putline " done") (Kb ks k2 T') (putline_tty _ _)) as (n2 & t2 & E2).
  rewrite (bind_Ret _ _ _ _ _ E2). exists t2. reflexivity.
Qed.

(** The queue after a character was offered to it: a full queue drops it. *)
Definition offered (b : Z) (q : ioqueue) : ioqueue :=
  if (b =? 0) || (count q =? 63)%nat then q else put b q.

Section keys.
  Context `{Env} (fuel : nat).

(** A make code on a queue nobody sleeps on. *)
Lemma press_ok code k s v :
  0 < code < 59 -> keys_ok k -> ext_scancode k = 0 -> if_flag (eflags (mach s)) = INT_OFF ->
  ioq_ok (keyboard_IO_buf s) -> no_waiters (keyboard_IO_buf s) ->
  IntKeyboardHandler (S fuel) code (Kb k s v) =
    Ret (tt, Kb (pressed code k)
      (set_ioq (offered (key_char (on (shift_status k)) (on (caps_lock_status k)) code) (keyboard_IO_buf s)) s) v).
Proof.
  intros Hc Hk He Hif Hq [Hwp Hwc]. destruct (code_facts code Hc) as (E1 & E2 & E3 & E4 & E5).
  unfold IntKeyboardHandler. rewrite (bind_Ret _ _ (Kb k s v) (Kb k s v) (Kb k s v)) by done.
  cbn [keys]. rewrite u8_id, E1, He by lia. cbn [Z.eqb negb].
  rewrite (bind_Ret _ _ _ tt (Kb k s v)) by done. rewrite E2. cbn [Z.eqb negb].
  replace ((0 <? code) && (code <? 59)) with true by lia. cbn [orb].
  unfold key_pressed. change 0x00FF with 0xFF. rewrite E3.
  destruct (keymap_char code (shift_status k) (caps_lock_status k) ltac:(lia) (ko_shift k Hk) (ko_caps k Hk))
    as (a & b & Hm & Hch).
  set (c := key_char _ _ code) in *.
  rewrite (bind_Ret _ _ _ c (Kb k s v)) by (unfold load_keymap; by rewrite Hm, Hch).
  rewrite (bind_Ret _ _ _ tt (Kb k (set_ioq (offered c (keyboard_IO_buf s)) s) v)); [by apply key_down_ok|].
  unfold offered. destruct (Z.eqb_spec c 0) as [->|Hne]; cbn [negb orb]; [by rewrite set_ioq_id|].
  rewrite (bind_Ret _ _ _ (count (keyboard_IO_buf s) =? 63)%nat (Kb k s v)).
  2:{ rewrite (on_krn_ok _ (Kb k s v) _ _ (ioqueueFull_ok s Hif Hq)). done. }
  destruct (Nat.eqb_spec (count (keyboard_IO_buf s)) 63) as [E|E]; cbn [negb]; [by rewrite set_ioq_id|].
  rewrite (on_krn_ok _ (Kb k s v) tt (set_ioq (put c (keyboard_IO_buf s)) s)); [done|]. cbn [krn].
  pose proof (count_le (keyboard_IO_buf s)).
  rewrite putchar_ready, add_char_ok by (done || lia). by rewrite Hwc.
Qed.

(** The modifiers after the key with make code [code] is released. *)
Definition released (code : Z) (k : keyboard) : keyboard :=
  if code =? 0x1d then set_ctrl 0 k
  else if (code =? 0x2a) || (code =? 0x36) then set_shift 0 k
  else if code =? 0x38 then set_alt 0 k
  else k.

Lemma break_facts code : 0 <= code < 59 ->
  (code + 128 =? 0xE0) = false /\ (Z.land (code + 128) 0x80 =? 0) = false /\
  Z.land (code + 128) 0xFF7F = code.
Proof.
  intros Hc.
  pose proof (forall_below 59 (fun c => negb (c + 128 =? 0xE0) && negb (Z.land (c + 128) 0x80 =? 0) &&
    (Z.land (c + 128) 0xFF7F =? c)) eq_refl code ltac:(lia)) as HP.
  cbv beta in HP. apply andb_prop in HP as [HP H3]. apply andb_prop in HP as [H1 H2].
  apply negb_true_iff in H1, H2. apply Z.eqb_eq in H3. done.
Qed.

Lemma release_ok code k s v :
  0 < code < 59 -> ext_scancode k = 0 ->
  IntKeyboardHandler (S fuel) (code + 128) (Kb k s v) = Ret (tt, Kb (released code k) s v).
Proof.
  intros Hc He. destruct (break_facts code ltac:(lia)) as (E1 & E2 & E3).
  unfold IntKeyboardHandler. rewrite (bind_Ret _ _ (Kb k s v) (Kb k s v) (Kb k s v)) by done.
  cbn [keys]. rewrite u8_id, E1, He by lia. cbn [Z.eqb negb].
  rewrite (bind_Ret _ _ _ tt (Kb k s v)) by done. rewrite E2. cbn [negb].
  unfold key_released. rewrite E3. unfold released, ctrl_l_make, ctrl_r_make, shift_l_make, shift_r_make,
    alt_l_make, alt_r_make.
  replace (code =? 0xe01d) with false by lia. replace (code =? 0xe038) with false by lia.
  rewrite !orb_false_r.
  destruct (Z.eqb_spec code 0x1d) as [->|]; [done|].
  destruct (Z.eqb_spec code 0x2a) as [->|]; [done|]. destruct (Z.eqb_spec code 0x36) as [->|]; [done|].
  destruct (Z.eqb_spec code 0x38) as [->|]; done.
Qed.

(** ** Typing *)

(** The keystrokes that produce a character: without shift, or with the left shift key held. *)
Definition codes : list Z := Z.of_nat <$> seq 1 58.
Definition key_for (shift caps : bool) (c : Z) : option Z :=
  snd <$> list_find (fun code => key_char shift caps code = c) codes.

Definition strokes (caps : bool) (c : Z) : list Z :=
  match key_for false caps c with
  | Some code => [code; code + 128]
  | None =>
      match key_for true caps c with
      | Some code => [shift_l_make; code; code + 128; shift_l_make + 128]
      | None => []
      end
  end.

Definition printable (c : Z) : Prop := 32 <= c < 127.

Fixpoint handle_bytes (bytes : list Z) : M kb unit :=
  match bytes with
  | [] => ret tt
  | b :: bytes' => IntKeyboardHandler (S fuel) b ;;; handle_bytes bytes'
  end.

Lemma handle_app l1 l2 s : handle_bytes (l1 ++ l2) s = (handle_bytes l1 ;;; handle_bytes l2) s.
Proof.
  revert s. induction l1 as [|b l1 IH]; intros s; [done|]. cbn [app handle_bytes]. rewrite bind_assoc.
  apply bind_ext. intros [] s'. apply IH.
Qed.

Lemma key_for_spec shift caps c code : key_for shift caps c = Some code ->
  key_char shift caps code = c /\ 0 < code < 59.
Proof.
  unfold key_for. destruct (list_find _ codes) as [[i x]|] eqn:E; [|done]. intros [= ->].
  apply list_find_Some in E as (H1 & H2 & _). split; [done|].
  unfold codes in H1. apply list_lookup_fmap_Some in H1 as (n & -> & Hn).
  apply lookup_seq in Hn. lia.
Qed.

Lemma key_for_total caps c : printable c ->
  is_Some (key_for false caps c) \/ is_Some (key_for true caps c).
Proof.
  intros Hc.
  pose proof (forall_below 127 (fun c => (c <? 32) ||
    bool_decide (is_Some (key_for false caps c) \/ is_Some (key_for true caps c)))) as HP.
  unfold printable in Hc. specialize (HP ltac:(destruct caps; vm_compute; reflexivity) c ltac:(lia)).
  apply orb_true_iff in HP as [HP|HP]; [lia|]. by apply bool_decide_eq_true in HP.
Qed.

(** The keys with a character are not modifiers. *)
Lemma char_key_stays shift caps code k : 0 < code < 59 -> key_char shift caps code <> 0 ->
  pressed code k = k /\ released code k = k.
Proof.
  intros Hc Hne. unfold pressed, released.
  destruct (Z.eqb_spec code 0x1d) as [->|]; [by destruct shift, caps|].
  destruct (Z.eqb_spec code 0x2a) as [->|]; [by destruct shift, caps|].
  destruct (Z.eqb_spec code 0x36) as [->|]; [by destruct shift, caps|].
  destruct (Z.eqb_spec code 0x38) as [->|]; [by destruct shift, caps|].
  destruct (Z.eqb_spec code 0x3a) as [->|]; [by destruct shift, caps|]. done.
Qed.

(** Neither shift nor a prefix is pending. *)
Definition idle (k : keyboard) : Prop := shift_status k = 0 /\ flag (caps_lock_status k) /\ ext_scancode k = 0.

(** Pressing and releasing one key with a character, when shift is as [k] says. *)
Lemma stroke_ok code c k s v :
  key_char (on (shift_status k)) (on (caps_lock_status k)) code = c -> 0 < code < 59 -> c <> 0 ->
  keys_ok k -> ext_scancode k = 0 -> if_flag (eflags (mach s)) = INT_OFF ->
  ioq_ok (keyboard_IO_buf s) -> no_waiters (keyboard_IO_buf s) -> (count (keyboard_IO_buf s) < 63)%nat ->
  handle_bytes [code; code + 128] (Kb k s v) = Ret (tt, Kb k (set_ioq (put c (keyboard_IO_buf s)) s) v).
Proof.
  intros E Hc Hne Hk He Hif Hq Hw Hroom. cbn [handle_bytes].
  rewrite (bind_Ret _ _ _ _ _ (press_ok code k s v Hc Hk He Hif Hq Hw)), E.
  destruct (char_key_stays (on (shift_status k)) (on (caps_lock_status k)) code k Hc) as [-> Hr]; [congruence|].
  unfold offered. replace (c =? 0) with false by lia.
  replace (count (keyboard_IO_buf s) =? 63)%nat with false by lia. cbn [orb].
  pose proof (release_ok code k (set_ioq (put c (keyboard_IO_buf s)) s) v Hc He) as H1.
  by rewrite (bind_Ret _ _ _ _ _ H1), Hr.
Qed.

Lemma strokes_ok c k s v :
  printable c -> idle k -> if_flag (eflags (mach s)) = INT_OFF ->
  ioq_ok (keyboard_IO_buf s) -> no_waiters (keyboard_IO_buf s) -> (count (keyboard_IO_buf s) < 63)%nat ->
  handle_bytes (strokes (on (caps_lock_status k)) c) (Kb k s v) =
    Ret (tt, Kb k (set_ioq (put c (keyboard_IO_buf s)) s) v).
Proof.
  intros Hc (Hs & Hcaps & He) Hif Hq Hw Hroom. unfold strokes.
  destruct (key_for_total (on (caps_lock_status k)) c Hc) as [Hf|Ht].
  - destruct Hf as [code Hf]. rewrite Hf. apply key_for_spec in Hf as [Hch Hcode].
    apply stroke_ok; try done; [by rewrite Hs|unfold printable in Hc; lia|].
    constructor; [by left|done].
  - destruct (key_for false _ c) as [code|] eqn:Hf.
    { apply key_for_spec in Hf as [Hch Hcode]. apply stroke_ok; try done; [by rewrite Hs|unfold printable in Hc; lia|].
      constructor; [by left|done]. }
    destruct Ht as [code Ht]. rewrite Ht. apply key_for_spec in Ht as [Hch Hcode].
    set (k1 := set_shift 1 k). assert (keys_ok k) as Hk by (constructor; [by left|done]).
    assert (keys_ok k1) as Hk1 by (constructor; [by right|done]).
    change [shift_l_make; code; code + 128; shift_l_make + 128] with
      ([shift_l_make] ++ [code; code + 128] ++ [shift_l_make + 128]).
    rewrite handle_app. rewrite (bind_Ret _ _ _ tt (Kb k1 s v)).
    2:{ cbn [handle_bytes]. pose proof (press_ok shift_l_make k s v ltac:(done) Hk He Hif Hq Hw) as H1.
        rewrite (bind_Ret _ _ _ _ _ H1). unfold ret. do 3 f_equal.
        replace (key_char _ _ shift_l_make) with 0 by by destruct (on _), (on _).
        unfold offered. cbn [Z.eqb orb]. by rewrite set_ioq_id. }
    rewrite handle_app. rewrite (bind_Ret _ _ _ tt (Kb k1 (set_ioq (put c (keyboard_IO_buf s)) s) v)).
    2:{ apply stroke_ok; try done. unfold printable in Hc. lia. }
    cbn [handle_bytes].
    pose proof (release_ok shift_l_make k1 (set_ioq (put c (keyboard_IO_buf s)) s) v ltac:(done) He) as H1.
    rewrite (bind_Ret _ _ _ _ _ H1). unfold ret. do 3 f_equal.
    destruct k as [kc ks ka kl ke]. cbn in Hs |- *. by rewrite Hs.
Qed.

End keys.

(** a make code of the table, on a queue nobody sleeps on: the handler offers the queue the
    character of the key - a letter is capital when exactly one of shift and caps lock is on, any
    other key looks at shift alone - and then updates the modifiers; a full queue loses the
    character, and nothing else of the kernel changes.  The break code only updates the
    modifiers. *)
Theorem keyboard_key `{Env} fuel code k s v :
  0 < code < 59 -> keys_ok k -> ext_scancode k = 0 -> if_flag (eflags (mach s)) = INT_OFF ->
  ioq_ok (keyboard_IO_buf s) -> no_waiters (keyboard_IO_buf s) ->
  let c := key_char (on (shift_status k)) (on (caps_lock_status k)) code in
  exists q', IntKeyboardHandler (S fuel) code (Kb k s v) = Ret (tt, Kb (pressed code k) (set_ioq q' s) v) /\
    ioq_ok q' /\ no_waiters q' /\
    chars q' = (if (c =? 0) || (length (chars (keyboard_IO_buf s)) =? 63)%nat
                then chars (keyboard_IO_buf s) else chars (keyboard_IO_buf s) ++ [c]) /\
    IntKeyboardHandler (S fuel) (code + 128) (Kb k s v) = Ret (tt, Kb (released code k) s v).
Proof.
  intros Hc Hk He Hif Hq Hw c. exists (offered c (keyboard_IO_buf s)).
  split; [by apply press_ok|]. rewrite length_chars. unfold offered.
  pose proof (count_le (keyboard_IO_buf s)).
  destruct ((c =? 0) || _) eqn:E; split_and!; try done; try by apply release_ok.
  - by apply put_ok.
  - apply orb_false_iff in E as [_ E]. apply put_chars; [done|]. apply Nat.eqb_neq in E. lia.
Qed.

Lemma typing_ok `{Env} fuel text : forall k s v,
  Forall printable text -> idle k -> if_flag (eflags (mach s)) = INT_OFF ->
  ioq_ok (keyboard_IO_buf s) -> no_waiters (keyboard_IO_buf s) ->
  (count (keyboard_IO_buf s) + length text <= 63)%nat ->
  exists q', handle_bytes fuel (text ≫= strokes (on (caps_lock_status k))) (Kb k s v) =
      Ret (tt, Kb k (set_ioq q' s) v) /\
    ioq_ok q' /\ no_waiters q' /\ chars q' = chars (keyboard_IO_buf s) ++ text.
Proof.
  induction text as [|c text IH]; intros k s v Ht Hk Hif Hq Hw Hroom.
  - exists (keyboard_IO_buf s). rewrite set_ioq_id, app_nil_r. done.
  - apply Forall_cons in Ht as [Hc Ht]. cbn [length] in Hroom.
    pose proof (strokes_ok fuel c k s v Hc Hk Hif Hq Hw ltac:(lia)) as H1.
    pose proof (put_chars c _ Hq ltac:(lia)) as Hch.
    destruct (IH k (set_ioq (put c (keyboard_IO_buf s)) s) v Ht Hk Hif (put_ok _ _ Hq) Hw) as (q' & H2 & H3 & H4 & H5).
    { cbn [keyboard_IO_buf set_ioq]. rewrite <- length_chars, Hch, length_app, length_chars. cbn. lia. }
    exists q'. split_and!; try done.
    + cbn [mbind list_bind]. rewrite handle_app, (bind_Ret _ _ _ _ _ H1). exact H2.
    + rewrite H5. cbn [keyboard_IO_buf set_ioq]. by rewrite Hch, <- app_assoc.
Qed.

Lemma reading_ok `{Env} fuel text : forall s,
  if_flag (eflags (mach s)) = INT_OFF -> ioq_ok (keyboard_IO_buf s) -> no_waiters (keyboard_IO_buf s) ->
  chars (keyboard_IO_buf s) = text ->
  exists q', run_qops (S fuel) (replicate (length text) Get) s = Ret (text, set_ioq q' s) /\ chars q' = [].
Proof.
  induction text as [|c text IH]; intros s Hif Hq Hw Hch.
  - exists (keyboard_IO_buf s). rewrite set_ioq_id. done.
  - destruct (run_qop_ok fuel s Get text [c] Hif Hq Hw) as (q1 & H1 & Hq1 & Hw1 & Hc1).
    { by rewrite Hch. }
    destruct (IH (set_ioq q1 s) Hif Hq1 Hw1 Hc1) as (q2 & H2 & Hc2).
    exists q2. split; [|done]. cbn [length replicate run_qops].
    by rewrite (bind_Ret _ _ _ _ _ H1), (bind_Ret _ _ _ _ _ H2).
Qed.

(** C10: typing a text and reading it back: the keystrokes of any text of at most 63 printable ASCII
    characters, with caps lock on or off, leave exactly that text in an empty queue and the
    modifiers as they were, and as many calls of [ioqueue_getchar] return it. *)
Theorem keyboard_roundtrip `{Env} fuel text k s v :
  Forall printable text -> (length text <= 63)%nat -> idle k -> if_flag (eflags (mach s)) = INT_OFF ->
  ioq_ok (keyboard_IO_buf s) -> no_waiters (keyboard_IO_buf s) -> chars (keyboard_IO_buf s) = [] ->
  exists q1 q2,
    handle_bytes fuel (text ≫= strokes (on (caps_lock_status k))) (Kb k s v) =
      Ret (tt, Kb k (set_ioq q1 s) v) /\ chars q1 = text /\
    run_qops (S fuel) (replicate (length text) Get) (set_ioq q1 s) = Ret (text, set_ioq q2 s) /\
    chars q2 = [].
Proof.
  intros Ht Hlen Hk Hif Hq Hw He.
  assert (count (keyboard_IO_buf s) = 0%nat) as Hc0 by by rewrite <- length_chars, He.
  destruct (typing_ok fuel text k s v Ht Hk Hif Hq Hw ltac:(lia)) as (q1 & H1 & Hq1 & Hw1 & Hc1).
  rewrite He in Hc1. destruct (reading_ok fuel text (set_ioq q1 s) Hif Hq1 Hw1 Hc1) as (q2 & H2 & Hc2).
  exists q1, q2. split_and!; done.
Qed.

(** ** Examples *)

Definition demo_keys : keyboard := Keyboard 0 0 0 1 0.
Definition no_vectors : int_tables := IntTables [] [] [].

Lemma keyboard_key_witness :
  exists q', IntKeyboardHandler (H := demo_env) 1 0x1e (Kb demo_keys (demo_io (demo_queue 0 0)) no_vectors) =
      Ret (tt, Kb demo_keys (set_ioq q' (demo_io (demo_queue 0 0))) no_vectors) /\ chars q' = [65].
Proof.
  destruct (keyboard_key (H := demo_env) 0 0x1e demo_keys (demo_io (demo_queue 0 0)) no_vectors)
    as (q' & H1 & _ & _ & H2 & _);
    [lia|constructor; [by left|by right]|reflexivity|reflexivity|apply demo_queue_ok; lia|done|].
  exists q'. split; [exact H1|exact H2].
Defined.

(** "Hi, 2!" *)
Definition demo_text : list Z := [72; 105; 44; 32; 50; 33].

Lemma keyboard_roundtrip_witness :
  exists q1 q2, handle_bytes (H := demo_env) 0 (demo_text ≫= strokes true)
      (Kb demo_keys (demo_io (demo_queue 0 0)) no_vectors) =
        Ret (tt, Kb demo_keys (set_ioq q1 (demo_io (demo_queue 0 0))) no_vectors) /\ chars q1 = demo_text /\
    run_qops (H := demo_env) 1 (replicate 6 Get) (set_ioq q1 (demo_io (demo_queue 0 0))) =
      Ret (demo_text, set_ioq q2 (demo_io (demo_queue 0 0))) /\ chars q2 = [].
Proof.
  apply (keyboard_roundtrip (H := demo_env) 0 demo_text demo_keys (demo_io (demo_queue 0 0)) no_vectors);
    [|cbn; lia|by split_and!; [..|right|]|reflexivity|apply demo_queue_ok; lia|done|reflexivity].
  unfold demo_text, printable. repeat (constructor; [lia|]). constructor.
Defined.
