(* ===== verification/Ide.v ===== *)
(** * device/ide.c and device/ide.h: the set-up of the disk channels

    The file is not part of the build and refers to names that the repository does not have: the types
    of list elements, lists, locks and semaphores, and [printk], [sprintf], [lock_init] and [sema_init].
    They are parameters here.  [sprintf] gives the bytes it stores, the final 0
    included. *)
From stdpp Require Import base list gmap strings.
From S2P Require Import Prelude Machine CString Bitmap Print.

(** ** Data *)

Section types.
  Context (list_elem element_list lock semaphore : Type).

Record partition := Partition {
  start_lba : Z;
  sec_cnt : Z;
  my_disk : Z;
  part_tag : list_elem;
  partition_name : list Z;
  sb : Z;
  block_bitmap : bitmap;
  inode_bitmap : bitmap;
  open_inodes : element_list
}.

Record disk := Disk {
  disk_name : list Z;
  my_channel : Z;
  dev_no : Z;
  prim_parts : list partition;
  logic_parts : list partition
}.

Record ide_channel := IdeChannel {
  name : list Z;
  port_base : Z;
  irq_no : Z;
  lock_of : lock;
  expecting_intr : bool;
  disk_done : semaphore;
  devices : list disk
}.

End types.

Arguments IdeChannel {list_elem element_list lock semaphore}.
Arguments name {list_elem element_list lock semaphore}.
Arguments port_base {list_elem element_list lock semaphore}.
Arguments irq_no {list_elem element_list lock semaphore}.
Arguments lock_of {list_elem element_list lock semaphore}.
Arguments expecting_intr {list_elem element_list lock semaphore}.
Arguments disk_done {list_elem element_list lock semaphore}.
Arguments devices {list_elem element_list lock semaphore}.

Section ide.
  Context {list_elem element_list lock semaphore : Type}.
  Context (printk : list Z -> M machine unit) (sprintf : list Z -> Z -> list Z).
  Context (lock_init : lock -> lock) (sema_init : semaphore -> Z -> semaphore).
  #[local] Abbreviation channel := (ide_channel list_elem element_list lock semaphore).

Definition set_name (v : list Z) (c : channel) : channel :=
  IdeChannel v (port_base c) (irq_no c) (lock_of c) (expecting_intr c) (disk_done c) (devices c).
Definition set_port_base (v : Z) (c : channel) : channel :=
  IdeChannel (name c) v (irq_no c) (lock_of c) (expecting_intr c) (disk_done c) (devices c).
Definition set_irq_no (v : Z) (c : channel) : channel :=
  IdeChannel (name c) (port_base c) v (lock_of c) (expecting_intr c) (disk_done c) (devices c).
Definition set_lock_of (v : lock) (c : channel) : channel :=
  IdeChannel (name c) (port_base c) (irq_no c) v (expecting_intr c) (disk_done c) (devices c).
Definition set_expecting_intr (v : bool) (c : channel) : channel :=
  IdeChannel (name c) (port_base c) (irq_no c) (lock_of c) v (disk_done c) (devices c).
Definition set_disk_done (v : semaphore) (c : channel) : channel :=
  IdeChannel (name c) (port_base c) (irq_no c) (lock_of c) (expecting_intr c) v (devices c).

(** The ports of a channel's registers. *)
Definition reg_data (c : channel) : Z := port_base c + 0.
Definition reg_error (c : channel) : Z := port_base c + 1.
Definition reg_sect_cnt (c : channel) : Z := port_base c + 2.
Definition reg_lba_l (c : channel) : Z := port_base c + 3.
Definition reg_lba_m (c : channel) : Z := port_base c + 4.
Definition reg_lba_h (c : channel) : Z := port_base c + 5.
Definition reg_dev (c : channel) : Z := port_base c + 6.
Definition reg_status (c : channel) : Z := port_base c + 7.
Definition reg_cmd (c : channel) : Z := reg_status c.
Definition reg_alt_status (c : channel) : Z := port_base c + 0x206.
Definition reg_ctl (c : channel) : Z := reg_alt_status c.

(** The file's variables, next to the machine. *)
Record ide := Ide { host : machine; channel_cnt : Z; channels : list channel }.
Definition set_host (h : machine) (s : ide) : ide := Ide h (channel_cnt s) (channels s).
Definition set_channel_cnt (v : Z) (s : ide) : ide := Ide (host s) v (channels s).
Definition set_channels (l : list channel) (s : ide) : ide := Ide (host s) (channel_cnt s) l.
Definition on_host {A} : M machine A -> M ide A := zoom host set_host.

(** ** [ide_init] *)

(** [channel->field = ...] for [channel = &channels[i]]; [channels] has two elements, a store through a
    larger index hits what lies behind it. *)
Definition upd_channel (i : Z) (f : channel -> channel) : M ide unit := fun s =>
  match channels s !! Z.to_nat i with
  | Some c => Ret (tt, set_channels (<[Z.to_nat i := f c]> (channels s)) s)
  | None => Fault i
  end.

(** [sprintf] into the 8 bytes of the name. *)
Definition sprintf_name (i : Z) (l : list Z) : M ide unit :=
  if (length l <=? 8)%nat then upd_channel i (fun c => set_name (l ++ drop (length l) (name c)) c)
  else fault i.

(** A round of the loop. *)
Definition ide_init_body (channel_no : Z) : M ide (Z + unit) :=
  let* s := get in
  if channel_no <? channel_cnt s then
    sprintf_name channel_no (sprintf (literal "ide%d") channel_no) ;;;
    (if channel_no =? 0 then
       upd_channel channel_no (set_port_base 0x1f0) ;;;
       upd_channel channel_no (set_irq_no (0x20 + 14))
     else if channel_no =? 1 then
       upd_channel channel_no (set_port_base 0x170) ;;;
       upd_channel channel_no (set_irq_no (0x20 + 15))
     else ret tt) ;;;
    upd_channel channel_no (set_expecting_intr false) ;;;
    upd_channel channel_no (fun c => set_lock_of (lock_init (lock_of c)) c) ;;;
    upd_channel channel_no (fun c => set_disk_done (sema_init (disk_done c) 0) c) ;;;
    ret (inl (u8 (channel_no + 1)))
  else ret (inr tt).

(** [DIV_ROUND_UP] is in [int] arithmetic here. *)
Definition ide_init : M ide unit :=
  on_host (printk (literal_nl "ide_init start")) ;;;
  let* hd_cnt := on_host (ld8 0x475) in
  ASSERT (hd_cnt >? 0) "ide_init" 48 ;;;
  modify (set_channel_cnt (u8 ((hd_cnt + 2 - 1) / 2))) ;;;
  let channel_no := 0 in
  iter 256 ide_init_body channel_no ;;;
  on_host (printk (literal_nl "ide_init done")).

(** ** Correctness *)

(** "ide0", "ide1". *)
Definition ide_name (d : Z) : list Z := [105; 100; 101; 48 + d; 0].

(** A channel after its set-up: the ports of the two ATA channels of a PC and their vectors. *)
Definition ready_channel (i : nat) (c : channel) : channel :=
  IdeChannel (ide_name (Z.of_nat i) ++ drop 5 (name c)) (if (i =? 0)%nat then 0x1f0 else 0x170)
    (46 + Z.of_nat i) (lock_init (lock_of c)) false (sema_init (disk_done c) 0) (devices c).

Context (Hprintk : forall l s, l = literal_nl "ide_init start" \/ l = literal_nl "ide_init done" ->
    exists s', printk l s = Ret (tt, s') /\ ram s' = ram s).
Context (Hsprintf : forall d, 0 <= d < 10 -> sprintf (literal "ide%d") d = ide_name d).

Lemma on_printk l s : l = literal_nl "ide_init start" \/ l = literal_nl "ide_init done" ->
  exists h, on_host (printk l) s = Ret (tt, set_host h s) /\ ram h = ram (host s).
Proof. intros Hl. destruct (Hprintk l (host s) Hl) as (h & H1 & H2). exists h. unfold on_host, zoom. by rewrite H1. Qed.

Lemma ide_round (i : nat) s c : Z.of_nat i < channel_cnt s -> channels s !! i = Some c -> (i < 2)%nat ->
  ide_init_body (Z.of_nat i) s = Ret (inl (Z.of_nat i + 1), set_channels (<[i := ready_channel i c]> (channels s)) s).
Proof.
  intros Hi Hc H2. unfold ide_init_body. rewrite (bind_Ret get _ s s s) by done.
  replace (Z.of_nat i <? channel_cnt s) with true by lia. rewrite Hsprintf by lia. destruct s as [h n l]. cbn [channels] in Hc.
  destruct l as [|c0 [|c1 l]]; [done| |]; destruct i as [|[|i]]; try (exfalso; lia); try done;
    cbn in Hc; injection Hc as <-; reflexivity.
Qed.

Lemma ide_round_behind (i : nat) s : Z.of_nat i < channel_cnt s -> channels s !! i = None -> (i < 10)%nat ->
  ide_init_body (Z.of_nat i) s = Fault (Z.of_nat i).
Proof.
  intros Hi Hc H2. unfold ide_init_body. rewrite (bind_Ret get _ s s s) by done.
  replace (Z.of_nat i <? channel_cnt s) with true by lia. rewrite Hsprintf by lia. unfold sprintf_name, bind, upd_channel, ide_name.
  cbn [length Nat.leb app]. cbv beta. by rewrite Nat2Z.id, Hc.
Qed.

Lemma ide_round_last i s : channel_cnt s <= i -> ide_init_body i s = Ret (inr tt, s).
Proof.
  intros Hi. unfold ide_init_body. rewrite (bind_Ret get _ s s s) by done. by replace (i <? channel_cnt s) with false by lia.
Qed.

(** The loop, by the number of channels. *)
Lemma ide_loop h c0 c1 :
  iter 256 ide_init_body 0 (Ide h 1 [c0; c1]) = Ret (tt, Ide h 1 [ready_channel 0 c0; c1]) /\
  iter 256 ide_init_body 0 (Ide h 2 [c0; c1]) = Ret (tt, Ide h 2 [ready_channel 0 c0; ready_channel 1 c1]) /\
  forall k, 2 < k -> iter 256 ide_init_body 0 (Ide h k [c0; c1]) = Fault 2.
Proof.
  assert (forall k, 0 < k -> iter 256 ide_init_body 0 (Ide h k [c0; c1]) =
    iter 255 ide_init_body 1 (Ide h k [ready_channel 0 c0; c1])) as H0.
  { intros k Hk. exact (iter_S _ _ _ _ _ _ (ide_round 0 (Ide h k [c0; c1]) c0 Hk eq_refl ltac:(lia))). }
  assert (forall k, 1 < k -> iter 255 ide_init_body 1 (Ide h k [ready_channel 0 c0; c1]) =
    iter 254 ide_init_body 2 (Ide h k [ready_channel 0 c0; ready_channel 1 c1])) as H1.
  { intros k Hk. exact (iter_S _ _ _ _ _ _ (ide_round 1 (Ide h k [ready_channel 0 c0; c1]) c1 Hk eq_refl ltac:(lia))). }
  split_and!.
  - rewrite H0 by lia. exact (iter_S _ _ _ _ _ _ (ide_round_last 1 (Ide h 1 _) ltac:(done))).
  - rewrite H0, H1 by lia. exact (iter_S _ _ _ _ _ _ (ide_round_last 2 (Ide h 2 _) ltac:(done))).
  - intros k Hk. rewrite H0, H1 by lia. cbn [iter]. unfold bind.
    pose proof (ide_round_behind 2 (Ide h k [ready_channel 0 c0; ready_channel 1 c1]) Hk eq_refl ltac:(lia)) as E.
    change (Z.of_nat 2) with 2 in E. by rewrite E.
Qed.

(** C34: [ide_init], by the number of disks [n] the BIOS left at 0x475: it panics at its assertion for
    none; for up to four it sets up one channel for one or two disks and both for more, with the ports
    and vectors of the two ATA channels, a free lock and a semaphore at 0, keeps the other fields and
    returns; for more than four it goes on behind the end of [channels]. *)
Theorem ide_init_correct s n c0 c1 : ram (host s) !! 0x475 = Some n -> 0 <= n < 256 -> channels s = [c0; c1] ->
  (n = 0 -> ide_init s = Panic "ide_init" 48) /\
  (1 <= n <= 2 -> exists h, ide_init s = Ret (tt, Ide h 1 [ready_channel 0 c0; c1]) /\ ram h = ram (host s)) /\
  (3 <= n <= 4 -> exists h, ide_init s = Ret (tt, Ide h 2 [ready_channel 0 c0; ready_channel 1 c1]) /\
     ram h = ram (host s)) /\
  (5 <= n -> ide_init s = Fault 2).
Proof.
  intros Hn Hr Hc. destruct (on_printk (literal_nl "ide_init start") s (or_introl eq_refl)) as (h & H1 & Hh).
  assert (on_host (ld8 0x475) (set_host h s) = Ret (n, set_host h s)) as H2.
  { unfold on_host, zoom. rewrite (ld8_ok _ _ n); [done|]. cbn [set_host host]. by rewrite Hh. }
  assert (0 < n -> ide_init s = bind (iter 256 ide_init_body 0) (fun _ => on_host (printk (literal_nl "ide_init done")))
    (Ide h (u8 ((n + 2 - 1) / 2)) [c0; c1])) as Hloop.
  { intros Hpos. unfold ide_init. rewrite (bind_Ret _ _ _ _ _ H1), (bind_Ret _ _ _ _ _ H2).
    rewrite (bind_Ret _ _ _ tt (set_host h s)) by (apply ASSERT_true; lia). unfold set_host. by rewrite Hc. }
  destruct (ide_loop h c0 c1) as (L1 & L2 & L3). split_and!; intros Hcase.
  - unfold ide_init. rewrite (bind_Ret _ _ _ _ _ H1), (bind_Ret _ _ _ _ _ H2). subst n. reflexivity.
  - rewrite Hloop by lia. replace (u8 ((n + 2 - 1) / 2)) with 1 by (rewrite u8_id; Z.to_euclidean_division_equations; lia).
    rewrite (bind_Ret _ _ _ _ _ L1). destruct (on_printk _ (Ide h 1 [ready_channel 0 c0; c1]) (or_intror eq_refl)) as (h' & H3 & Hh').
    exists h'. split; [exact H3|]. by rewrite Hh', <- Hh.
  - rewrite Hloop by lia. replace (u8 ((n + 2 - 1) / 2)) with 2 by (rewrite u8_id; Z.to_euclidean_division_equations; lia).
    rewrite (bind_Ret _ _ _ _ _ L2).
    destruct (on_printk _ (Ide h 2 [ready_channel 0 c0; ready_channel 1 c1]) (or_intror eq_refl)) as (h' & H3 & Hh').
    exists h'. split; [exact H3|]. by rewrite Hh', <- Hh.
  - rewrite Hloop by lia. unfold bind. rewrite L3; [done|]. rewrite u8_id; Z.to_euclidean_division_equations; lia.
Qed.

(** The two channels do not share a port. *)
Lemma channel_ports c0 c1 : let r0 := ready_channel 0 c0 in let r1 := ready_channel 1 c1 in
  reg_data r0 = 0x1F0 /\ reg_cmd r0 = 0x1F7 /\ reg_ctl r0 = 0x3F6 /\
  reg_data r1 = 0x170 /\ reg_cmd r1 = 0x177 /\ reg_ctl r1 = 0x376.
Proof. done. Qed.

End ide.

(** ** Example: three disks *)
Definition demo_channel : ide_channel unit unit bool Z := IdeChannel (replicate 8 0) 0 0 true true 7 [].

Lemma ide_init_correct_witness : exists h,
  ide_init (fun l => sys_putstr_bytes l ;;; ret tt) (fun _ d => ide_name d) (fun _ => false) (fun _ v => v)
    (Ide (Machine (<[0x475 := 3]> ∅) 2 [] []) 0 [demo_channel; demo_channel]) =
  Ret (tt, Ide h 2 [IdeChannel (ide_name 0 ++ [0; 0; 0]) 0x1f0 46 false false 0 [];
                    IdeChannel (ide_name 1 ++ [0; 0; 0]) 0x170 47 false false 0 []]).
Proof.
  destruct (ide_init_correct (fun l => sys_putstr_bytes l ;;; ret tt) (fun _ d => ide_name d) (fun _ => false) (fun _ v => v)
    ltac:(intros l s [->| ->]; eexists; split; reflexivity) (fun _ _ => eq_refl)
    (Ide (Machine (<[0x475 := 3]> ∅) 2 [] []) 0 [demo_channel; demo_channel]) 3 demo_channel demo_channel) as (_ & _ & H & _).
  - reflexivity.
  - lia.
  - reflexivity.
  - destruct H as (h & H & _); [lia|]. exists h. exact H.
Defined.
