(* ===== verification/Client.v ===== *)
(** * Programs that use the byte allocator

    What a program holds: [holding held b j] says which blocks the program has on top of those in use
    when it started, how long the free lists can be, and how many pages are left.  Two rules, proved
    against the interface [Allocator], step over an allocation and a release; its instances are
    [sys_malloc] and [sys_free] for the kernel's threads, and the system calls for user programs. *)
From stdpp Require Import base list gmap strings.
From S2P Require Import Prelude Machine CString Bitmap Print Interrupt KList Paging State Sched Sync Pool.
From S2P Require Import Palloc Arena Heap Malloc MemInit Console Syscall.

(** ** The interface *)

(** [result] is what an allocation returns and [addr] the pointer in it; [D] are the descriptors of the
    kernel's heap and [fuel] bounds the loops of the allocator. *)
Class Allocator (D : Z) (fuel : nat) := {
  result : Type;
  addr : result -> Z;
  alloc : Z -> M kernel result;
  release : Z -> M kernel unit;
  alloc_ok : forall s c V ar fl size, heap_of D s c V ar fl ->
    0 < size <= 1024 -> size < pool_size (pool_of (pool_for c) (mem s)) -> (255 < fuel)%nat ->
    (forall k, class_of size k -> fl k = [] ->
       (exists r0, 0 <= r0 < space_bits V /\ bit (ram (mach s)) (vaddr_bitmap V) r0 = false) /\
       enough_frames (mem s) (ram (mach s)) (pool_for c) 1) ->
    exists k r m' pg' ar' fl', alloc size s = Ret (r, with_mem m' pg' s) /\
      class_of size k /\ heap_of D (with_mem m' pg' s) c V ar' fl' /\
      taken (mem s) V (pool_for c) (ram (mach s)) m' ar ar' fl fl' k (addr r);
  release_ok : forall s c V ar fl k p, heap_of D s c V ar fl ->
    (PDE_addr c = 0 -> KERNEL_HEAP_BASE <= vaddr_start V) -> live V ar fl k p -> (length (fl k) + 1 < fuel)%nat ->
    exists m' pg' ar' fl', release p s = Ret (tt, with_mem m' pg' s) /\
      heap_of D (with_mem m' pg' s) c V ar' fl' /\
      freed (mem s) V (pool_for c) (ram (mach s)) m' ar ar' fl fl' k p
}.

#[export] Instance kernel_allocator `{Env} D fuel : Allocator D fuel := {
  result := Z; addr := fun x => x; alloc := sys_malloc D fuel; release := sys_free fuel;
  alloc_ok := fun s c V ar fl size => sys_malloc_ok D fuel s c V ar fl size;
  release_ok := fun s c V ar fl k p Hh Hb Hl Hf => sys_free_ok D fuel s c V ar fl k p Hh Hl Hf Hb
}.

(** The system calls; eax holds [eax_left] when a call returns nothing. *)
Definition syscall_allocator `{Env} D fuel (ecx0 edx0 eax_left : Z) : Allocator D fuel.
Proof.
  refine {| result := option Z; addr := default eax_left; alloc := malloc D fuel full_table ecx0 edx0;
            release := free D fuel full_table ecx0 edx0 |}.
  - intros s c V ar fl size Hh H1 H2 H3 H4.
    destruct (malloc_ok D fuel ecx0 edx0 s c V ar fl size Hh H1 H2 H3 H4) as (k & x & m' & pg' & ar' & fl' & R).
    exists k, (Some x), m', pg', ar', fl'. exact R.
  - intros s c V ar fl k p. apply free_ok.
Defined.

(** ** What a program holds *)

Section client.
  Context (D : Z) (fuel : nat) `{Allocator D fuel}.
  (* the state the program starts in, its thread, and the blocks in use then *)
  Context (s0 : kernel) (c : PCB) (V : virtual_addr) (ar0 : gmap Z Z) (fl0 : Z -> list Z).
  Context (Hbase : PDE_addr c = 0 -> KERNEL_HEAP_BASE <= vaddr_start V).
  #[local] Abbreviation started := (live V ar0 fl0).

Record holding_in (held : list (Z * Z)) (b j : nat) (s : kernel) (ar : gmap Z Z) (fl : Z -> list Z) : Prop := HoldingIn {
  hl_state : exists m g, s = with_mem m g s0;
  hl_heap : heap_of D s c V ar fl;
  hl_live : forall k y, live V ar fl k y <-> started k y \/ (k, y) ∈ held;
  hl_new : forall k y, (k, y) ∈ held -> ~ started k y;
  hl_nodup : NoDup held;
  hl_lists : forall k, (length (fl k) <= b)%nat;
  hl_room : room (mem s0) V (pool_for c) (ram (mach s)) j;
  hl_keep : forall k y a, started k y -> y <= a < y + bsize k -> ram (mach s) !! a = ram (mach s0) !! a
}.
Definition holding (held : list (Z * Z)) (b j : nat) (s : kernel) : Prop :=
  exists ar fl, holding_in held b j s ar fl.

(** The blocks a program holds do not overlap, and are no NULL pointers. *)
Lemma held_apart held b j s k1 x1 k2 x2 : holding held b j s -> (k1, x1) ∈ held -> (k2, x2) ∈ held -> (k1, x1) <> (k2, x2) ->
  0 < x1 /\ (x1 + bsize k1 <= x2 \/ x2 + bsize k2 <= x1).
Proof.
  intros (ar & fl & Hh) H1 H2 Hne. destruct (proj2 (hl_live _ _ _ _ _ _ Hh k1 x1) (or_intror H1)) as [B1 _].
  destruct (proj2 (hl_live _ _ _ _ _ _ Hh k2 x2) (or_intror H2)) as [B2 _].
  pose proof (hf_heap _ _ _ _ _ _ (hl_heap _ _ _ _ _ _ Hh)) as Hok.
  destruct (block_facts _ _ _ _ _ _ _ _ _ _ Hok B1) as (_ & i & _ & _ & F1 & _ & _ & F4 & _).
  split; [lia|]. apply (blocks_disjoint _ _ _ _ _ _ _ _ _ _ _ _ Hok B1 B2). intros ->. apply Hne.
  f_equal. by apply (block_class _ _ _ _ _ _ _ _ _ _ _ Hok B1 B2).
Qed.

Lemma wp_alloc {B} size (K : result -> M kernel B) Q held b j s : holding held b (S j) s ->
  0 < size <= 1024 -> size < pool_size (pool_of (pool_for c) (mem s0)) -> (255 < fuel)%nat ->
  (forall k r s', class_of size k -> holding ((k, addr r) :: held) (b + 255) j s' ->
     (forall a, addr r <= a < addr r + bsize k -> ram (mach s') !! a = Some 0) ->
     (forall k' y a, (k', y) ∈ held -> y <= a < y + bsize k' -> ram (mach s') !! a = ram (mach s) !! a) ->
     wp (K r) Q s') ->
  wp (bind (alloc size) K) Q s.
Proof.
  intros (ar & fl & [(m & g & ->) Hh Hlive Hnew Hnd Hlists Hroom Hkeep]) Hs1 Hs2 Hf HK.
  destruct (alloc_ok (with_mem m g s0) c V ar fl size Hh Hs1 Hs2 Hf) as (k & r & m' & pg' & ar' & fl' & Hrun & Hcl & Hh' & Ht).
  { intros k _ _. destruct Hroom as [Hr1 Hr2]. split; [exact (has_free_ex _ _ _ Hr2)|].
    eapply enough_le; [exact Hr1|lia]. }
  destruct Ht as [T1 T2 T3 T4 T5 T6 T7]. rewrite with_mem_twice in Hrun, Hh'.
  apply wp_bind. eapply wp_intro; [exact Hrun|]. apply (HK k); [exact Hcl| |exact T4|].
  - exists ar', fl'. constructor; [by exists m', pg'|exact Hh'| | | | | |].
    + intros k' y. rewrite elem_of_cons. destruct (decide ((k', y) = (k, addr r))) as [E|E].
      * injection E as -> ->. split; [by right; left|by intros _].
      * rewrite T3, Hlive by done. naive_solver.
    + intros k' y [E|Hin]%elem_of_cons; [|by apply Hnew]. injection E as -> ->. intros Hs.
      apply T1, Hlive. by left.
    + apply NoDup_cons. split; [|done]. intros Hin. apply T1, Hlive. by right.
    + intros k'. specialize (T7 k'). specialize (Hlists k'). lia.
    + by apply T6.
    + intros k' y a Hs Ha. change (ram (mach (with_mem m' pg' s0))) with m'.
      rewrite (T5 k' y a); [by apply (Hkeep k' y)|apply Hlive; by left|done].
  - intros k' y a Hin Ha. apply (T5 k' y); [apply Hlive; by right|done].
Qed.

Lemma wp_release {B} k x (K : unit -> M kernel B) Q l1 l2 b j s : holding (l1 ++ (k, x) :: l2) b j s -> (b + 1 < fuel)%nat ->
  (forall s', holding (l1 ++ l2) (b + 1) j s' ->
     (forall k' y a, (k', y) ∈ l1 ++ l2 -> y <= a < y + bsize k' -> ram (mach s') !! a = ram (mach s) !! a) ->
     wp (K tt) Q s') ->
  wp (bind (release x) K) Q s.
Proof.
  intros (ar & fl & [(m & g & ->) Hh Hlive Hnew Hnd Hlists Hroom Hkeep]) Hf HK.
  assert (live V ar fl k x) as Hx by (apply Hlive; right; set_solver).
  rewrite <- Permutation_middle in Hnd. apply NoDup_cons in Hnd as [Hnin Hnd].
  destruct (release_ok (with_mem m g s0) c V ar fl k x Hh Hbase Hx) as (m' & pg' & ar' & fl' & Hrun & Hh' & [F1 F2 F3 F4 F5]).
  { specialize (Hlists k). lia. }
  rewrite with_mem_twice in Hrun, Hh'. apply wp_bind. eapply wp_intro; [exact Hrun|].
  assert (forall k' y, live V ar fl k' y -> (k', y) <> (k, x) -> y <> x) as Hne.
  { intros k' y Hy Hd ->. apply Hd. f_equal.
    by apply (block_class _ _ _ _ _ _ _ _ _ _ _ (hf_heap _ _ _ _ _ _ Hh) (proj1 Hy) (proj1 Hx)). }
  apply HK.
  - exists ar', fl'. constructor; [by exists m', pg'|exact Hh'| | |exact Hnd| | |].
    + intros k' y. destruct (decide ((k', y) = (k, x))) as [E|E].
      * injection E as -> ->. split; [by intros ?%F1|]. intros [Hs|Hs]; [|done].
        exfalso. apply (Hnew k x); [set_solver|done].
      * rewrite F2, Hlive by done. rewrite !elem_of_app, elem_of_cons. naive_solver.
    + intros k' y Hin. apply Hnew. set_solver.
    + intros k'. specialize (F5 k'). specialize (Hlists k'). lia.
    + by apply F4.
    + intros k' y a Hs Ha. change (ram (mach (with_mem m' pg' s0))) with m'.
      assert (live V ar fl k' y) as Hl by (apply Hlive; by left).
      rewrite (F3 k' y a); [by apply (Hkeep k' y)|done| |done]. apply (Hne k' y Hl). intros E. injection E as -> ->.
      apply (Hnew k x); [set_solver|done].
  - intros k' y a Hin Ha. assert (live V ar fl k' y) as Hl by (apply Hlive; right; set_solver).
    apply (F3 k' y); [done| |done]. apply (Hne k' y Hl). intros E. injection E as -> ->. done.
Qed.

Lemma wp_release_at {B} n k x (K : unit -> M kernel B) Q held b j s : holding held b j s -> held !! n = Some (k, x) ->
  (b + 1 < fuel)%nat -> (forall s', holding (delete n held) (b + 1) j s' -> wp (K tt) Q s') ->
  wp (bind (release x) K) Q s.
Proof.
  intros Hh Hn Hf HK. apply list_elem_of_split_length in Hn as (l1 & l2 & -> & ->).
  apply (wp_release k x K Q l1 l2 b j s Hh Hf). intros s' Hh' _. apply HK. by rewrite delete_middle.
Qed.

(** A program that has not allocated anything holds nothing. *)
Lemma holding_start b j : heap_of D s0 c V ar0 fl0 -> (forall k, (length (fl0 k) <= b)%nat) ->
  room (mem s0) V (pool_for c) (ram (mach s0)) j -> holding [] b j s0.
Proof.
  intros Hh Hl Hr. exists ar0, fl0. constructor; try done.
  - exists (ram (mach s0)), (pg s0). by rewrite with_mem_id.
  - intros k y. rewrite elem_of_nil. tauto.
  - by intros k y ?%elem_of_nil.
  - constructor.
Qed.

(** One that has given everything back leaves the heap with the same blocks in use, with the same
    contents. *)
Record as_found (s : kernel) : Prop := AsFound {
  af_state : exists m g, s = with_mem m g s0;
  af_heap : exists ar fl, heap_of D s c V ar fl /\ forall k y, live V ar fl k y <-> started k y;
  af_keep : forall k y a, started k y -> y <= a < y + bsize k -> ram (mach s) !! a = ram (mach s0) !! a
}.

Lemma holding_nothing b j s : holding [] b j s -> as_found s.
Proof.
  intros (ar & fl & [H1 H2 H3 _ _ _ _ H8]). constructor; [done| |done]. exists ar, fl. split; [done|].
  intros k y. rewrite H3, elem_of_nil. tauto.
Qed.

End client.

Lemma wp_last {S A} (m : M S A) Q s : wp (bind m ret) Q s -> wp m Q s.
Proof. unfold wp, bind, ret. by destruct (m s) as [[a s']| | | |]. Qed.

(** Step over the next allocation of the allocator [A], or over the release of a block that is held. *)
Ltac closed_size := first [zdec|eapply Z.le_lt_trans; [|eassumption]; zdec].
Ltac step_alloc A :=
  match goal with Hh : holding _ _ _ _ _ _ _ _ _ _ |- wp (bind _ _) _ _ =>
    eapply (wp_alloc _ _ (H := A) _ _ _ _ _ _ _ _ _ _ _ _ Hh); [closed_size|closed_size|lia|];
    clear Hh; intros ? ? ? _ Hh _ _
  end.
Ltac step_release_at A n :=
  match goal with Hh : holding _ _ _ _ _ _ _ _ _ _, Hb : _ = 0 -> KERNEL_HEAP_BASE <= _ |- wp (bind _ _) _ _ =>
    eapply (wp_release_at _ _ (H := A) _ _ _ _ _ Hb n _ _ _ _ _ _ _ _ Hh); [reflexivity|lia|];
    clear Hh; intros ? Hh; cbn [delete list_delete] in Hh
  end.
Ltac step_release A := first [step_release_at A 0%nat|step_release_at A 1%nat|step_release_at A 2%nat|
  step_release_at A 3%nat|step_release_at A 4%nat|step_release_at A 5%nat|step_release_at A 6%nat|
  step_release_at A 7%nat|step_release_at A 8%nat].
