(* ===== verification/Main.v ===== *)
(** * kernel/main.c: the threads and programs the kernel starts

    [_start] itself is in Start.v.  A thread that ends in [while(1)] is given up to that loop, or, when
    the loop does something, by its body; [rounds n] are its first [n] rounds.  The strings a thread
    prints are at the addresses of a [texts]. *)
From stdpp Require Import base list gmap strings.
From S2P Require Import Prelude Machine CString Bitmap Print Interrupt KList Paging State Sched Sync Pool.
From S2P Require Import Palloc Arena Heap Malloc MemInit Console Syscall Client Ioqueue Keyboard.

Fixpoint rounds {S} (n : nat) (body : M S unit) : M S unit :=
  match n with
  | O => ret tt
  | Datatypes.S n' => body ;;; rounds n' body
  end.

(** The two variables of main.c next to the kernel. *)
Record demo := Demo { system : kernel; test_var_a : Z; test_var_b : Z }.
Definition set_system (k : kernel) (s : demo) : demo := Demo k (test_var_a s) (test_var_b s).
Definition set_test_var_a (v : Z) (s : demo) : demo := Demo (system s) v (test_var_b s).
Definition set_test_var_b (v : Z) (s : demo) : demo := Demo (system s) (test_var_a s) v.
Definition on_system {A} : M kernel A -> M demo A := zoom system set_system.

(** String literals. *)
Record texts := Texts {
  thread_a_start : Z; thread_a_end : Z; thread_b_start : Z; thread_b_end : Z;
  malloc_0x : Z; bytes_address_0x : Z
}.

Section threads.
  Context `{Env}.
  (* the descriptors of the kernel's heap, the system call table, and the registers a stub leaves alone *)
  Context (kernel_arena_descs : Z) (syscall_table : table) (ebx0 ecx0 edx0 : Z).
  (* eax after a call that returns nothing *)
  Context (eax_left : Z).
  Context (strings : texts) (fuel : nat).

(** Line 49: the body of the loop of [user_thread_a], and line 57. *)
Definition user_thread_a : M demo unit :=
  let* r := on_system (getpid kernel_arena_descs fuel syscall_table ebx0 ecx0 edx0) in
  modify (set_test_var_a (s32 (default eax_left r))).
Definition user_thread_b : M demo unit :=
  let* r := on_system (getpid kernel_arena_descs fuel syscall_table ebx0 ecx0 edx0) in
  modify (set_test_var_b (s32 (default eax_left r))).

#[local] Abbreviation sys_malloc := (sys_malloc kernel_arena_descs fuel).
#[local] Abbreviation sys_free := (sys_free fuel).

(** One round of the loop of [k_thread_a]; [size] is an [int]. *)
Definition k_thread_a_round : M kernel unit :=
  let size := 128 in
  let* addr1 := sys_malloc (u32 size) in
  let size := s32 (size * 2) in
  let* addr2 := sys_malloc (u32 size) in
  let size := s32 (size * 2) in
  let* addr3 := sys_malloc (u32 size) in
  sys_free addr1 ;;;
  let* addr4 := sys_malloc (u32 size) in
  let size := s32 (size * 2) in
  let size := s32 (size * 2) in
  let size := s32 (size * 2) in
  let size := s32 (size * 2) in
  let size := s32 (size * 2) in
  let size := s32 (size * 2) in
  let size := s32 (size * 2) in
  let* addr5 := sys_malloc (u32 size) in
  let* addr6 := sys_malloc (u32 size) in
  sys_free addr5 ;;;
  let size := s32 (size * 2) in
  let* addr7 := sys_malloc (u32 size) in
  sys_free addr6 ;;;
  sys_free addr7 ;;;
  sys_free addr2 ;;;
  sys_free addr3 ;;;
  sys_free addr4.

(** [while (max-- > 0)] *)
Definition countdown (round : M kernel unit) (max : Z) : M kernel (Z + unit) :=
  let test := max >? 0 in
  let max := s32 (max - 1) in
  if test then round ;;; ret (inl max) else ret (inr tt).

Definition k_thread_a (arg : Z) : M kernel unit :=
  let* _ := console_putstr fuel fuel (thread_a_start strings) in
  iter 101 (countdown k_thread_a_round) 100 ;;;
  let* _ := console_putstr fuel fuel (thread_a_end strings) in
  ret tt.

Definition k_thread_b_round : M kernel unit :=
  let size := 9 in
  let* addr1 := sys_malloc (u32 size) in
  let size := s32 (size * 2) in
  let* addr2 := sys_malloc (u32 size) in
  let size := s32 (size * 2) in
  sys_free addr2 ;;;
  let* addr3 := sys_malloc (u32 size) in
  sys_free addr1 ;;;
  let* addr4 := sys_malloc (u32 size) in
  let* addr5 := sys_malloc (u32 size) in
  let* addr6 := sys_malloc (u32 size) in
  sys_free addr5 ;;;
  let size := s32 (size * 2) in
  let* addr7 := sys_malloc (u32 size) in
  sys_free addr6 ;;;
  sys_free addr7 ;;;
  sys_free addr3 ;;;
  sys_free addr4 ;;;
  let size := s32 (size * 2) in
  let size := s32 (size * 2) in
  let size := s32 (size * 2) in
  let* addr1 := sys_malloc (u32 size) in
  let* addr2 := sys_malloc (u32 size) in
  let* addr3 := sys_malloc (u32 size) in
  let* addr4 := sys_malloc (u32 size) in
  let* addr5 := sys_malloc (u32 size) in
  let* addr6 := sys_malloc (u32 size) in
  let* addr7 := sys_malloc (u32 size) in
  let* addr8 := sys_malloc (u32 size) in
  let* addr9 := sys_malloc (u32 size) in
  sys_free addr1 ;;;
  sys_free addr2 ;;;
  sys_free addr3 ;;;
  sys_free addr4 ;;;
  sys_free addr5 ;;;
  sys_free addr6 ;;;
  sys_free addr7 ;;;
  sys_free addr8 ;;;
  sys_free addr9.

Definition k_thread_b (arg : Z) : M kernel unit :=
  let* _ := console_putstr fuel fuel (thread_b_start strings) in
  iter 101 (countdown k_thread_b_round) 100 ;;;
  let* _ := console_putstr fuel fuel (thread_b_end strings) in
  ret tt.

Definition k_thread (nbytes : Z) : M kernel unit :=
  let* _ := console_putstr fuel fuel (malloc_0x strings) in
  let* _ := console_puthex fuel nbytes in
  let* _ := console_putstr fuel fuel (bytes_address_0x strings) in
  let* p := sys_malloc nbytes in
  let* _ := console_puthex fuel p in
  console_putchar fuel 10.

(** [while (cpu_delay-- > 0);] *)
Definition delay_body (cpu_delay : Z) : M kernel (Z + unit) :=
  let test := cpu_delay >? 0 in
  let cpu_delay := s32 (cpu_delay - 1) in
  ret (if test then inl cpu_delay else inr tt).

#[local] Abbreviation malloc := (malloc kernel_arena_descs fuel syscall_table ecx0 edx0).
#[local] Abbreviation free := (free kernel_arena_descs fuel syscall_table ecx0 edx0).

Definition u_prog_a : M kernel unit :=
  let* addr1 := malloc 256 in
  let* addr2 := malloc 255 in
  let* addr3 := malloc 254 in
  let cpu_delay := 100000 in
  iter (Z.to_nat 100001) delay_body cpu_delay ;;;
  free (default eax_left addr1) ;;;
  free (default eax_left addr2) ;;;
  free (default eax_left addr3).

Definition u_prog_b : M kernel unit :=
  let* addr1 := malloc 256 in
  let* addr2 := malloc 255 in
  let* addr3 := malloc 254 in
  let cpu_delay := 100000 in
  iter (Z.to_nat 100001) delay_body cpu_delay ;;;
  free (default eax_left addr1) ;;;
  free (default eax_left addr2) ;;;
  free (default eax_left addr3).

(** The body of the loop of [KeyboardOutput]. *)
Definition KeyboardOutput : M kernel unit :=
  let* old_statu := on_mach DisableInt in
  let* empty := ioqueueEmpty in
  (if negb empty then
     let* c := ioqueue_getchar fuel in
     console_putchar fuel c
   else ret tt) ;;;
  let* _ := on_mach (SetIntStatus old_statu) in
  ret tt.

End threads.

(** ** From the keys to the screen

    The keyboard's interrupts come between two rounds of [KeyboardOutput], which runs with interrupts
    off.  The stack frame of the interrupt is left out here ([Entry.interrupt_transparent]). *)

Definition quietly {A} (m : M kb A) : M kb A :=
  let* s := get in
  on_krn (modify quiet) ;;;
  let* r := m in
  on_krn (modify (fun k => set_mach (set_eflags (eflags (mach (krn s))) (mach k)) k)) ;;;
  ret r.

Inductive event := Key (byte : Z) | Round.

Section events.
  Context `{Env} (fuel : nat).

Definition run_event (e : event) : M kb unit :=
  match e with
  | Key byte => quietly (IntKeyboardHandler fuel byte)
  | Round => on_krn (KeyboardOutput fuel)
  end.

Fixpoint run_events (es : list event) : M kb unit :=
  match es with
  | [] => ret tt
  | e :: es' => run_event e ;;; run_events es'
  end.

End events.

(** The specification: the modifier keys, the characters typed and not shown, and those shown. *)
Record echo := Echo { modifiers : keyboard; pending : list Z; shown : list Z }.

Definition key_step (byte : Z) (k : keyboard) : keyboard :=
  if byte <? 128 then pressed byte k else released (byte - 128) k.
Definition key_text (byte : Z) (k : keyboard) : list Z :=
  let c := key_char (on (shift_status k)) (on (caps_lock_status k)) byte in
  if (byte <? 128) && negb (c =? 0) then [c] else [].

Definition spec_event (e : event) (x : echo) : echo :=
  match e with
  | Key byte => Echo (key_step byte (modifiers x))
      (if (length (pending x) =? 63)%nat then pending x else pending x ++ key_text byte (modifiers x)) (shown x)
  | Round => match pending x with [] => x | c :: l => Echo (modifiers x) l (shown x ++ [c]) end
  end.

Fixpoint spec_events (es : list event) (x : echo) : echo :=
  match es with
  | [] => x
  | e :: es' => spec_events es' (spec_event e x)
  end.

(** No key finds the queue full. *)
Fixpoint fits (es : list event) (x : echo) : bool :=
  match es with
  | [] => true
  | e :: es' => (match e with Key _ => (length (pending x) <? 63)%nat | Round => true end) && fits es' (spec_event e x)
  end.

(** The bytes of keys with a make code below 0x3B. *)
Definition known_key (byte : Z) : Prop := 0 < byte < 59 \/ 128 < byte < 187.
Definition known_event (e : event) : Prop := match e with Key byte => known_key byte | Round => True end.

(** The kernel after some characters have been shown, with another queue. *)
Definition screen (l : list Z) (q : ioqueue) (s : kernel) : kernel :=
  set_ioq q (set_mach (set_tty (reverse l ++ tty (mach s)) (mach s)) s).

Lemma screen_screen l1 q1 l2 q2 s : screen l2 q2 (screen l1 q1 s) = screen (l1 ++ l2) q2 s.
Proof. unfold screen. cbn. by rewrite reverse_app, app_assoc. Qed.

Lemma screen_id s : screen [] (keyboard_IO_buf s) s = s.
Proof. destruct s as [ma]. by destruct ma. Qed.

Section echo.
  Context `{Env} (fuel : nat).

Lemma press_keys_ok byte k : known_key byte -> keys_ok k -> ext_scancode k = 0 ->
  keys_ok (key_step byte k) /\ ext_scancode (key_step byte k) = 0.
Proof.
  intros Hb [H1 H2] He. unfold key_step, pressed, released. split.
  - constructor; repeat case_match; cbn; unfold flag in *; lia.
  - by repeat case_match.
Qed.

Lemma quietly_ok (m : M kb unit) k k' s q v :
  m (Kb k (quiet s) v) = Ret (tt, Kb k' (set_ioq q (quiet s)) v) ->
  quietly m (Kb k s v) = Ret (tt, Kb k' (set_ioq q s) v).
Proof.
  intros Hm. unfold quietly. rewrite (bind_Ret get _ (Kb k s v) _ _ eq_refl).
  rewrite (bind_Ret _ _ _ tt (Kb k (quiet s) v)) by done. rewrite (bind_Ret _ _ _ _ _ Hm).
  destruct s as [ma]. by destruct ma.
Qed.

(** A key between two rounds. *)
Lemma key_event_ok byte k s v out : known_key byte -> keys_ok k -> ext_scancode k = 0 ->
  ioq_ok (keyboard_IO_buf s) -> no_waiters (keyboard_IO_buf s) ->
  exists q, run_event (S fuel) (Key byte) (Kb k s v) = Ret (tt, Kb (key_step byte k) (set_ioq q s) v) /\
    ioq_ok q /\ no_waiters q /\
    spec_event (Key byte) (Echo k (chars (keyboard_IO_buf s)) out) = Echo (key_step byte k) (chars q) out.
Proof.
  intros Hb Hk He Hq Hw. assert (if_flag (eflags (mach (quiet s))) = INT_OFF) as Hif by apply if_flag_cli.
  cbn [run_event spec_event modifiers pending shown]. unfold key_step, key_text. rewrite length_chars.
  destruct Hb as [Hb|Hb].
  - replace (byte <? 128) with true by lia. cbn [andb].
    pose proof (press_ok fuel byte k (quiet s) v Hb Hk He Hif Hq Hw) as Hp.
    set (c := key_char _ _ byte) in *. exists (offered c (keyboard_IO_buf s)). split; [apply quietly_ok; exact Hp|].
    unfold offered. destruct (Z.eqb_spec c 0); cbn [orb negb].
    + rewrite app_nil_r. by destruct (_ =? 63)%nat.
    + destruct (Nat.eqb_spec (count (keyboard_IO_buf s)) 63); [done|]. pose proof (count_le (keyboard_IO_buf s)).
      rewrite put_chars by (done || lia). split_and!; [by apply put_ok|done..].
  - replace (byte <? 128) with false by lia. cbn [andb]. rewrite app_nil_r.
    exists (keyboard_IO_buf s). split; [|by destruct (_ =? 63)%nat].
    apply quietly_ok. pose proof (release_ok fuel (byte - 128) k (quiet s) v ltac:(lia) He) as Hr.
    replace (byte - 128 + 128) with byte in Hr by lia. rewrite Hr. do 3 f_equal.
Qed.

(** A round of [KeyboardOutput] with a character, and one without. *)
Lemma round_ok s c l : ioq_ok (keyboard_IO_buf s) -> no_waiters (keyboard_IO_buf s) -> lock_mine console_lock s ->
  chars (keyboard_IO_buf s) = c :: l -> 0 <= c < 256 ->
  exists q, KeyboardOutput (S fuel) s = Ret (tt, screen [c] q s) /\ ioq_ok q /\ no_waiters q /\ chars q = l.
Proof.
  intros Hq Hw Hlock Hch Hc. set (s1 := quiet s).
  assert (if_flag (eflags (mach s1)) = INT_OFF) as Hif by apply if_flag_cli.
  destruct (run_qop_ok fuel s1 Get l [c] Hif Hq Hw) as (q & Hrun & Hq' & Hw' & Hc').
  { change (keyboard_IO_buf s1) with (keyboard_IO_buf s). by rewrite Hch. }
  exists q. split; [|done]. unfold KeyboardOutput.
  rewrite (bind_Ret _ _ _ _ _ (on_mach_ok _ _ _ _ (DisableInt_ok (mach s)))). fold (quiet s). fold s1.
  rewrite (bind_Ret _ _ _ _ _ (ioqueueEmpty_ok s1 Hif Hq)).
  change (keyboard_IO_buf s1) with (keyboard_IO_buf s). rewrite <- length_chars, Hch. cbn [length Nat.eqb negb].
  assert (ioqueue_getchar (S fuel) s1 = Ret (c, set_ioq q s1)) as Hget.
  { cbn [run_qop] in Hrun. unfold bind, ret in Hrun. destruct (ioqueue_getchar _ s1) as [[b s']| | | |]; [|done..].
    by injection Hrun as -> ->. }
  set (s2 := set_mach (set_tty (c :: tty (mach s)) (mach s1)) (set_ioq q s1)).
  rewrite (bind_Ret _ _ s1 tt s2).
  2:{ rewrite (bind_Ret _ _ _ _ _ Hget). rewrite (console_putchar_mine _ (set_ioq q s1) c Hlock).
      unfold on_mach, zoom, sys_putchar, modify. by rewrite u8_id by done. }
  destruct (SetIntStatus_ok (eflags (mach s)) (mach s2) eq_refl) as (old & Hset).
  rewrite (bind_Ret _ _ _ _ _ (on_mach_ok _ _ _ _ Hset)). destruct s as [ma]. by destruct ma.
Qed.

Lemma round_idle s : ioq_ok (keyboard_IO_buf s) -> chars (keyboard_IO_buf s) = [] ->
  KeyboardOutput (S fuel) s = Ret (tt, s).
Proof.
  intros Hq Hch. set (s1 := quiet s). assert (if_flag (eflags (mach s1)) = INT_OFF) as Hif by apply if_flag_cli.
  unfold KeyboardOutput. rewrite (bind_Ret _ _ _ _ _ (on_mach_ok _ _ _ _ (DisableInt_ok (mach s)))). fold (quiet s). fold s1.
  rewrite (bind_Ret _ _ _ _ _ (ioqueueEmpty_ok s1 Hif Hq)).
  change (keyboard_IO_buf s1) with (keyboard_IO_buf s). rewrite <- length_chars, Hch. cbn [length Nat.eqb negb].
  rewrite (bind_Ret _ _ s1 tt s1) by done.
  destruct (SetIntStatus_ok (eflags (mach s)) (mach s1) eq_refl) as (old & Hset).
  rewrite (bind_Ret _ _ _ _ _ (on_mach_ok _ _ _ _ Hset)). destruct s as [ma]. by destruct ma.
Qed.

(** ** The queue between keyboard and screen *)

Definition is_byte (c : Z) : Prop := 0 <= c < 256.

Lemma keymap_bytes i x y : keymap !! i = Some (x, y) -> 0 <= x < 224 /\ is_byte y.
Proof.
  intros Hm. assert (forallb (fun p => (0 <=? fst p) && (fst p <? 224) && (0 <=? snd p) && (snd p <? 256)) keymap = true)
    as Hall by reflexivity.
  rewrite forallb_forall in Hall. specialize (Hall (x, y)). cbn [fst snd] in Hall. unfold is_byte.
  apply list_elem_of_lookup_2, list_elem_of_In in Hm. specialize (Hall Hm). lia.
Qed.

Lemma key_text_bytes b k : Forall is_byte (key_text b k).
Proof.
  unfold key_text. destruct (_ && _); [|constructor]. repeat constructor; unfold key_char;
    (destruct (keymap !! Z.to_nat b) as [[x y]|] eqn:Hm; [|done]; apply keymap_bytes in Hm; unfold is_byte, is_lower in *;
     repeat case_match; lia).
Qed.

Record echo_ok (x : echo) : Prop := EchoOk {
  eo_keys : keys_ok (modifiers x);
  eo_ext : ext_scancode (modifiers x) = 0;
  eo_bytes : Forall is_byte (pending x)
}.

Lemma spec_event_ok e x : known_event e -> echo_ok x -> echo_ok (spec_event e x).
Proof.
  intros He [H1 H2 H3]. destruct e as [b|]; cbn [spec_event].
  - destruct (press_keys_ok b (modifiers x) He H1 H2). constructor; [done..|]. cbn [pending].
    destruct (_ =? 63)%nat; [done|]. apply Forall_app. split; [done|apply key_text_bytes].
  - destruct (pending x) as [|c l] eqn:E; [by constructor; rewrite ?E|]. inversion H3; subst. by constructor.
Qed.

(** The code does what the specification says. *)
Lemma run_events_ok es : forall k s v x, Forall known_event es -> echo_ok x -> modifiers x = k ->
  pending x = chars (keyboard_IO_buf s) -> ioq_ok (keyboard_IO_buf s) -> no_waiters (keyboard_IO_buf s) ->
  lock_mine console_lock s ->
  exists q l, run_events (S fuel) es (Kb k s v) = Ret (tt, Kb (modifiers (spec_events es x)) (screen l q s) v) /\
    shown (spec_events es x) = shown x ++ l /\ ioq_ok q /\ no_waiters q /\ chars q = pending (spec_events es x).
Proof.
  induction es as [|e es IH]; intros k s v x Hes Hx Hk Hp Hq Hw Hl.
  - exists (keyboard_IO_buf s), []. rewrite screen_id, app_nil_r. cbn [run_events spec_events]. by rewrite Hk.
  - apply Forall_cons in Hes as [He Hes]. pose proof (spec_event_ok e x He Hx) as Hx'. destruct Hx as [X1 X2 X3].
    cbn [run_events spec_events]. destruct x as [kx lx ox]. cbn [modifiers pending shown] in *. subst kx lx.
    destruct e as [b|].
    + destruct (key_event_ok b k s v ox He X1 X2 Hq Hw) as (q & Hrun & Hq' & Hw' & E). rewrite E in *.
      destruct (IH (key_step b k) (set_ioq q s) v _ Hes Hx' eq_refl eq_refl Hq' Hw' Hl) as (q2 & l & R1 & R2).
      exists q2, l. split; [|exact R2]. by rewrite (bind_Ret _ _ _ _ _ Hrun).
    + cbn [run_event spec_event pending modifiers shown] in *. destruct (chars (keyboard_IO_buf s)) as [|c l] eqn:Hch.
      * pose proof (round_idle s Hq Hch) as Hr.
        rewrite (bind_Ret _ _ _ _ _ (on_krn_ok _ (Kb k s v) _ _ Hr)).
        destruct (IH k s v (Echo k [] ox) Hes Hx' eq_refl ltac:(by rewrite Hch) Hq Hw Hl) as (q2 & l & R1 & R2).
        exists q2, l. split; [exact R1|exact R2].
      * inversion X3; subst. destruct (round_ok s c l Hq Hw Hl Hch ltac:(done)) as (q & Hr & Hq' & Hw' & Hc').
        rewrite (bind_Ret _ _ _ _ _ (on_krn_ok _ (Kb k s v) _ _ Hr)).
        destruct (IH k (screen [c] q s) v (Echo k l (ox ++ [c])) Hes Hx' eq_refl ltac:(by rewrite <- Hc') Hq' Hw' Hl)
          as (q2 & l2 & R1 & R2 & R3).
        exists q2, (c :: l2). cbn [set_krn]. change (set_krn _ (Kb k s v)) with (Kb k (screen [c] q s) v).
        split; [|split; [|exact R3]].
        -- rewrite R1. by rewrite screen_screen.
        -- rewrite R2. cbn [shown]. by rewrite <- app_assoc.
Qed.

End echo.

(** The bytes of the keys, and what they mean without the queue in between. *)
Fixpoint key_bytes (es : list event) : list Z :=
  match es with
  | [] => []
  | Key b :: es' => b :: key_bytes es'
  | Round :: es' => key_bytes es'
  end.

Fixpoint typed (bytes : list Z) (k : keyboard) : list Z :=
  match bytes with
  | [] => []
  | b :: bytes' => key_text b k ++ typed bytes' (key_step b k)
  end.
Fixpoint keys_after (bytes : list Z) (k : keyboard) : keyboard :=
  match bytes with
  | [] => k
  | b :: bytes' => keys_after bytes' (key_step b k)
  end.

Lemma typed_app l1 l2 k : typed (l1 ++ l2) k = typed l1 k ++ typed l2 (keys_after l1 k).
Proof. revert k. induction l1 as [|b l1 IH]; intros k; [done|]. cbn [app typed keys_after]. by rewrite IH, app_assoc. Qed.

Lemma keys_after_app l1 l2 k : keys_after (l1 ++ l2) k = keys_after l2 (keys_after l1 k).
Proof. revert k. induction l1 as [|b l1 IH]; intros k; [done|]. apply IH. Qed.

(** Nothing is lost, doubled or reordered. *)
Lemma spec_events_typed es : forall x, fits es x = true ->
  modifiers (spec_events es x) = keys_after (key_bytes es) (modifiers x) /\
  shown (spec_events es x) ++ pending (spec_events es x) = shown x ++ pending x ++ typed (key_bytes es) (modifiers x).
Proof.
  induction es as [|e es IH]; intros x Hf; [cbn; by rewrite app_nil_r|].
  cbn [fits] in Hf. apply andb_prop in Hf as [H1 Hf]. destruct (IH _ Hf) as [E1 E2]. cbn [spec_events].
  rewrite E1, E2. destruct e as [b|]; cbn [spec_event modifiers pending shown key_bytes typed keys_after].
  - replace (length (pending x) =? 63)%nat with false by lia. by rewrite <- !app_assoc.
  - destruct x as [k [|c l] o]; [done|]. cbn. by rewrite <- !app_assoc.
Qed.

(** Rounds alone show what is pending. *)
Lemma spec_rounds n : forall x, (length (pending x) <= n)%nat ->
  spec_events (replicate n Round) x = Echo (modifiers x) [] (shown x ++ pending x).
Proof.
  induction n as [|n IH]; intros [k [|c l] o] Hn; cbn [length pending] in Hn; try lia.
  - cbn. by rewrite app_nil_r.
  - cbn [replicate spec_events spec_event pending]. rewrite IH by (cbn; lia). done.
  - cbn [replicate spec_events spec_event pending modifiers shown]. rewrite IH by (cbn; lia). cbn. by rewrite <- app_assoc.
Qed.

Lemma spec_events_app es1 es2 x : spec_events (es1 ++ es2) x = spec_events es2 (spec_events es1 x).
Proof. revert x. induction es1 as [|e es1 IH]; intros x; [done|]. apply IH. Qed.

Lemma key_bytes_app es1 es2 : key_bytes (es1 ++ es2) = key_bytes es1 ++ key_bytes es2.
Proof. induction es1 as [|[b|] es1 IH]; cbn; [done|by rewrite IH|done]. Qed.

Lemma key_bytes_rounds n : key_bytes (replicate n Round) = [].
Proof. by induction n. Qed.

(** The strokes of a character type it and leave the modifiers alone. *)
Lemma stroke_typed shift code c k : key_char shift (on (caps_lock_status k)) code = c -> 0 < code < 59 -> c <> 0 ->
  shift = on (shift_status k) -> typed [code; code + 128] k = [c] /\ keys_after [code; code + 128] k = k.
Proof.
  intros E Hc Hne ->. cbn [typed keys_after]. unfold key_text, key_step.
  replace (code <? 128) with true by lia. replace (code + 128 <? 128) with false by lia.
  replace (code + 128 - 128) with code by lia. rewrite E. replace (c =? 0) with false by lia. cbn [andb negb app].
  destruct (char_key_stays (on (shift_status k)) (on (caps_lock_status k)) code k Hc) as [H1 H2]; [congruence|].
  by rewrite H1, H2.
Qed.

Lemma strokes_typed c k : printable c -> idle k ->
  typed (strokes (on (caps_lock_status k)) c) k = [c] /\ keys_after (strokes (on (caps_lock_status k)) c) k = k.
Proof.
  intros Hc (Hs & Hcaps & He). unfold strokes. assert (c <> 0) as Hne by (unfold printable in Hc; lia).
  destruct (key_for false _ c) as [code|] eqn:Hf.
  { apply key_for_spec in Hf as [Hch Hcode]. apply (stroke_typed false); try done. by rewrite Hs. }
  destruct (key_for_total (on (caps_lock_status k)) c Hc) as [[code Hf']|[code Ht]]; [congruence|]. rewrite Ht.
  apply key_for_spec in Ht as [Hch Hcode].
  destruct (stroke_typed true code c (set_shift 1 k) Hch Hcode Hne eq_refl) as [T1 T2].
  change [shift_l_make; code; code + 128; shift_l_make + 128] with
    ([shift_l_make] ++ [code; code + 128] ++ [shift_l_make + 128]).
  rewrite !typed_app, !keys_after_app. change (keys_after [shift_l_make] k) with (set_shift 1 k).
  rewrite T1, T2. split.
  - replace (typed [shift_l_make] k) with (@nil Z); [done|]. cbn [typed]. unfold key_text.
    replace (key_char _ _ shift_l_make) with 0; [done|]. by destruct (on _), (on _).
  - change (keys_after [shift_l_make + 128] (set_shift 1 k)) with (set_shift 0 k).
    destruct k. cbn in Hs |- *. by rewrite Hs.
Qed.

Lemma text_typed text k : Forall printable text -> idle k ->
  typed (text ≫= strokes (on (caps_lock_status k))) k = text /\
  keys_after (text ≫= strokes (on (caps_lock_status k))) k = k.
Proof.
  intros Ht Hk. induction Ht as [|c text Hc _ [IH1 IH2]]; [done|]. destruct (strokes_typed c k Hc Hk) as [S1 S2].
  cbn [mbind list_bind]. by rewrite typed_app, keys_after_app, S1, S2, IH1, IH2.
Qed.

Lemma strokes_known caps c : Forall known_key (strokes caps c).
Proof.
  unfold strokes. destruct (key_for false caps c) as [code|] eqn:E1.
  - apply key_for_spec in E1 as [_ ?]. unfold known_key. repeat constructor; lia.
  - destruct (key_for true caps c) as [code|] eqn:E2; [|constructor].
    apply key_for_spec in E2 as [_ ?]. unfold known_key, shift_l_make. repeat constructor; lia.
Qed.

Lemma known_events es : Forall known_key (key_bytes es) -> Forall known_event es.
Proof.
  induction es as [|[b|] es IH]; intros Hk; constructor; try done; [by inversion Hk|apply IH; by inversion Hk|by apply IH].
Qed.

Lemma text_known caps text : Forall known_key (text ≫= strokes caps).
Proof. induction text as [|c text IH]; [constructor|]. cbn [mbind list_bind]. apply Forall_app. split; [apply strokes_known|done]. Qed.

(** C12: the keyboard, its interrupt handler, the queue and the thread [KeyboardOutput] together: when the
    keystrokes of a text of printable characters arrive in any way between the rounds of the thread,
    and no key finds the queue full, then at every moment the characters shown on the screen followed
    by those in the queue are the text typed so far, in order; once the keys stop, as many rounds as
    there are characters left show all of it.  The modifiers, the locks and the interrupt flag are
    then as before, and nothing else of the kernel changes. *)
Theorem KeyboardOutput_echo `{Env} fuel es n text k s v : Forall printable text -> idle k ->
  ioq_ok (keyboard_IO_buf s) -> no_waiters (keyboard_IO_buf s) -> chars (keyboard_IO_buf s) = [] ->
  lock_mine console_lock s ->
  key_bytes es = text ≫= strokes (on (caps_lock_status k)) -> fits es (Echo k [] []) = true ->
  exists q l, run_events (S fuel) es (Kb k s v) = Ret (tt, Kb k (screen l q s) v) /\ l ++ chars q = text /\
    ((length (chars q) <= n)%nat -> exists q',
      run_events (S fuel) (es ++ replicate n Round) (Kb k s v) = Ret (tt, Kb k (screen text q' s) v) /\ chars q' = []).
Proof.
  intros Ht Hk Hq Hw He Hl Hb Hf. pose proof Hk as (Hs & Hcaps & Hext).
  assert (echo_ok (Echo k [] [])) as Hx by (constructor; [constructor; [by left|done]|done|constructor]).
  pose proof (known_events es ltac:(rewrite Hb; apply text_known)) as Hes.
  destruct (text_typed text k Ht Hk) as [T1 T2].
  destruct (spec_events_typed es _ Hf) as [E1 E2]. rewrite Hb in E1, E2. cbn [modifiers shown pending app] in E1, E2.
  rewrite T2 in E1. rewrite T1 in E2.
  destruct (run_events_ok fuel es k s v (Echo k [] []) Hes Hx eq_refl ltac:(by rewrite He) Hq Hw Hl)
    as (q & l & R1 & R2 & R3 & R4 & R5). rewrite E1 in R1. cbn [shown app] in R2.
  exists q, l. split; [exact R1|]. rewrite <- R2, R5. split; [exact E2|]. intros Hn.
  assert (Forall known_event (es ++ replicate n Round)) as Hes2.
  { apply Forall_app. split; [done|]. by apply Forall_replicate. }
  destruct (run_events_ok fuel (es ++ replicate n Round) k s v (Echo k [] []) Hes2 Hx eq_refl ltac:(by rewrite He) Hq Hw Hl)
    as (q' & l' & Q1 & Q2 & _ & _ & Q5).
  rewrite spec_events_app, spec_rounds in Q1, Q2, Q5 by done. cbn [modifiers shown pending app] in Q1, Q2, Q5.
  rewrite E2 in Q2. subst l'. rewrite E1 in Q1. exists q'. by split.
Qed.

(** ** The programs that use the heap *)

Section programs.
  Context `{Env} (D : Z) (fuel : nat) (s0 : kernel) (c : PCB) (V : virtual_addr) (ar0 : gmap Z Z) (fl0 : Z -> list Z).
  Context (Hbase : PDE_addr c = 0 -> KERNEL_HEAP_BASE <= vaddr_start V).
  Context (Hpool : 1024 < pool_size (pool_of (pool_for c) (mem s0))).
  #[local] Abbreviation holding := (holding D s0 c V ar0 fl0).

Lemma holding_le held b b' j s : holding held b j s -> (b <= b')%nat -> holding held b' j s.
Proof.
  intros (ar & fl & [H1 H2 H3 H4 H5 H6 H7 H8]) Hb. exists ar, fl. constructor; try done.
  intros k. specialize (H6 k). lia.
Qed.

(** A round of [k_thread_b] gives back all it takes. *)
Lemma k_thread_b_round_ok b j s : holding [] b (16 + j) s -> (b + 5000 < fuel)%nat ->
  wp (k_thread_b_round D fuel) (fun _ s' => holding [] (b + 5000) j s') s.
Proof.
  intros Hh Hf. unfold k_thread_b_round. cbv zeta.
  change (16 + j)%nat with (S (S (S (S (S (S (S (S (S (S (S (S (S (S (S (S j)))))))))))))))) in Hh.
  do 2 step_alloc (kernel_allocator D fuel). step_release (kernel_allocator D fuel).
  step_alloc (kernel_allocator D fuel). step_release (kernel_allocator D fuel).
  do 3 step_alloc (kernel_allocator D fuel). step_release (kernel_allocator D fuel).
  step_alloc (kernel_allocator D fuel). do 4 step_release (kernel_allocator D fuel).
  do 9 step_alloc (kernel_allocator D fuel). do 8 step_release (kernel_allocator D fuel).
  apply wp_last. step_release (kernel_allocator D fuel). apply wp_ret.
  eapply holding_le; [exact Hh|lia].
Qed.

(** [while (max-- > 0) round] runs the round [max] times. *)
Lemma countdown_ok (round : M kernel unit) (P : nat -> kernel -> Prop) n : forall s, Z.of_nat n < 2 ^ 31 ->
  (forall i s, P (S i) s -> wp round (fun _ s' => P i s') s) -> P n s ->
  wp (iter (S n) (countdown round) (Z.of_nat n)) (fun _ s' => P 0%nat s') s.
Proof.
  induction n as [|n IH]; intros s Hn Hround HP; cbn [iter]; apply wp_bind; unfold countdown; [by cbn|].
  replace (Z.of_nat (S n) >? 0) with true by lia. apply wp_bind. eapply wp_mono; [by apply Hround|].
  intros [] s' HP'. apply wp_ret. rewrite s32_id by lia. replace (Z.of_nat (S n) - 1) with (Z.of_nat n) by lia.
  apply IH; [lia|done|done].
Qed.

(** The waiting loop of the user programs. *)
Lemma delay_ok n s : Z.of_nat n < 2 ^ 31 -> iter (S n) delay_body (Z.of_nat n) s = Ret (tt, s).
Proof.
  induction n as [|n IH]; intros Hn; [done|]. erewrite iter_S; [|reflexivity]. cbv beta zeta.
  replace (Z.of_nat (S n) >? 0) with true by lia. rewrite s32_id by lia.
  replace (Z.of_nat (S n) - 1) with (Z.of_nat n) by lia. apply IH. lia.
Qed.

Lemma delay_100000 s : iter (Z.to_nat 100001) delay_body 100000 s = Ret (tt, s).
Proof.
  replace (Z.to_nat 100001) with (S (Z.to_nat 100000)) by lia.
  pose proof (delay_ok (Z.to_nat 100000) s ltac:(lia)) as E. by rewrite Z2Nat.id in E by lia.
Qed.

Lemma u_prog_ok ecx0 edx0 eax_left b j s : holding [] b (3 + j) s -> (b + 800 < fuel)%nat ->
  wp (u_prog_a D full_table ecx0 edx0 eax_left fuel) (fun _ s' => holding [] (b + 800) j s') s.
Proof.
  intros Hh Hf. unfold u_prog_a. change (3 + j)%nat with (S (S (S j))) in Hh.
  do 3 step_alloc (syscall_allocator D fuel ecx0 edx0 eax_left). cbv zeta.
  apply wp_bind. eapply wp_intro; [apply delay_100000|].
  do 2 step_release (syscall_allocator D fuel ecx0 edx0 eax_left).
  apply wp_last. step_release (syscall_allocator D fuel ecx0 edx0 eax_left). apply wp_ret.
  eapply holding_le; [exact Hh|lia].
Qed.

(** C21: the user programs [u_prog_a] and [u_prog_b], run by any thread with a heap: when there is room for
    three pages at most, their three allocations succeed, the waiting loop ends, and at their final
    [while(1)] the heap has the same blocks in use as before, with the same contents, and nothing but
    memory and page tables has changed. *)
Theorem u_prog_correct ecx0 edx0 eax_left b : heap_of D s0 c V ar0 fl0 -> (forall k, (length (fl0 k) <= b)%nat) ->
  room (mem s0) V (pool_for c) (ram (mach s0)) 3 -> (b + 800 < fuel)%nat ->
  exists s', u_prog_a D full_table ecx0 edx0 eax_left fuel s0 = Ret (tt, s') /\
    u_prog_b D full_table ecx0 edx0 eax_left fuel s0 = Ret (tt, s') /\ as_found D s0 c V ar0 fl0 s'.
Proof.
  intros Hh Hl Hr Hf.
  destruct (wp_exists _ _ _ (u_prog_ok ecx0 edx0 eax_left b 0 s0 (holding_start D s0 c V ar0 fl0 b 3 Hh Hl Hr) Hf)) as (s' & Hrun & Hs').
  exists s'. split; [exact Hrun|]. split; [exact Hrun|]. by apply holding_nothing in Hs'.
Qed.

(** C20: a round of [k_thread_b], 16 allocations of 16 to 1024 bytes and 16 releases in another order, in
    any thread with a heap and room for 16 pages: all succeed, and afterwards the heap has the same
    blocks in use as before, with the same contents.  So do as many rounds as there is room for, up
    to the 100 of the thread. *)
Theorem k_thread_b_correct n b : heap_of D s0 c V ar0 fl0 -> (forall k, (length (fl0 k) <= b)%nat) ->
  (0 < n <= 100)%nat -> room (mem s0) V (pool_for c) (ram (mach s0)) (16 * n) -> (b + 5000 * n < fuel)%nat ->
  exists s', iter (S n) (countdown (k_thread_b_round D fuel)) (Z.of_nat n) s0 = Ret (tt, s') /\
    as_found D s0 c V ar0 fl0 s'.
Proof.
  intros Hh Hl Hn Hr Hf.
  assert (wp (iter (S n) (countdown (k_thread_b_round D fuel)) (Z.of_nat n))
    (fun _ s' => holding [] (b + 5000 * n) 0 s') s0) as Hwp.
  { eapply wp_mono; [apply (countdown_ok _ (fun i s => (i <= n)%nat /\ holding [] (b + 5000 * (n - i)) (16 * i) s))|].
    - lia.
    - intros i s [Hi Hs]. replace (16 * S i)%nat with (16 + 16 * i)%nat in Hs by lia.
      eapply wp_mono; [apply (k_thread_b_round_ok _ _ _ Hs); lia|].
      intros u s' Hs'. split; [lia|]. by replace (b + 5000 * (n - i))%nat with (b + 5000 * (n - S i) + 5000)%nat by lia.
    - split; [lia|]. apply holding_start; [exact Hh| |exact Hr]. intros k. specialize (Hl k). lia.
    - intros u s' [_ Hs']. eapply holding_le; [exact Hs'|lia]. }
  destruct (wp_exists _ _ _ Hwp) as (s' & Hrun & Hs'). exists s'. split; [exact Hrun|]. by apply holding_nothing in Hs'.
Qed.

End programs.

Lemma rounds_steady {S} (body : M S unit) n s s' : body s = Ret (tt, s') -> body s' = Ret (tt, s') ->
  rounds (Datatypes.S n) body s = Ret (tt, s').
Proof.
  revert s. induction n as [|n IH]; intros s H1 H2; cbn [rounds]; rewrite (bind_Ret _ _ _ _ _ H1); [done|by apply IH].
Qed.

(** [user_thread_a] and [user_thread_b] keep their thread's identifier in their variables. *)
Lemma user_threads_ok `{Env} D fuel ebx0 ecx0 edx0 eax_left n s c : pcbs (system s) !! cur (system s) = Some c ->
  rounds (S n) (user_thread_a D full_table ebx0 ecx0 edx0 eax_left fuel) s = Ret (tt, set_test_var_a (s32 (pid c)) s) /\
  rounds (S n) (user_thread_b D full_table ebx0 ecx0 edx0 eax_left fuel) s = Ret (tt, set_test_var_b (s32 (pid c)) s).
Proof.
  intros Hc. pose proof (getpid_ok D fuel ebx0 ecx0 edx0 (system s) c Hc) as Hg.
  assert (forall v w, on_system (getpid D fuel full_table ebx0 ecx0 edx0) (Demo (system s) v w) =
    Ret (Some (pid c), Demo (system s) v w)) as Hrun by (intros v w; unfold on_system, zoom; cbn [system]; by rewrite Hg).
  destruct s as [k va vb]. cbn [system] in *.
  split; apply rounds_steady; unfold user_thread_a, user_thread_b; erewrite bind_Ret by apply Hrun; reflexivity.
Qed.

(** ** Examples *)

(** The text of [demo_text], one round of the thread after each key and one more in the middle. *)
Definition demo_events : list event :=
  demo_text ≫= (fun c => (Key <$> strokes true c) ++ [Round]).

Lemma KeyboardOutput_echo_witness : exists q l,
  run_events (H := demo_env) 1 demo_events (Kb demo_keys (with_lock console_lock free_lock (demo_io (demo_queue 0 0))) no_vectors) =
    Ret (tt, Kb demo_keys (screen l q (with_lock console_lock free_lock (demo_io (demo_queue 0 0)))) no_vectors) /\
  l ++ chars q = demo_text.
Proof.
  destruct (KeyboardOutput_echo (H := demo_env) 0 demo_events 0 demo_text demo_keys
    (with_lock console_lock free_lock (demo_io (demo_queue 0 0))) no_vectors) as (q & l & H1 & H2 & _).
  - unfold demo_text, printable. repeat (constructor; [lia|]). constructor.
  - split; [done|]. split; [by right|done].
  - apply demo_queue_ok. lia.
  - done.
  - reflexivity.
  - split; [done|]. left. apply with_lock_lookup.
  - vm_compute. reflexivity.
  - vm_compute. reflexivity.
  - exists q, l. split; [exact H1|exact H2].
Defined.

(** The main thread of [boot_state] has room for 16 pages. *)
Lemma boot_room : exists s, heap_of boot_descs s boot_thread boot_space ∅ no_blocks /\
  (PDE_addr boot_thread = 0 -> KERNEL_HEAP_BASE <= vaddr_start boot_space) /\
  1024 < pool_size (pool_of (pool_for boot_thread) (mem s)) /\
  room (mem s) boot_space (pool_for boot_thread) (ram (mach s)) 16.
Proof.
  destruct boot_state as (s & Hh & Hps & Hbase & Hb & Hf). exists s. split; [exact Hh|]. split; [by intros _|].
  rewrite Hps. split; [zdec|]. split; [rewrite <- Hps; by apply Hf|]. apply clear_has_free; [exact Hb|zdec].
Qed.

Lemma u_prog_correct_witness : exists s s', u_prog_a (H := demo_env) boot_descs full_table 0 0 0 801 s = Ret (tt, s') /\
  as_found boot_descs s boot_thread boot_space ∅ no_blocks s'.
Proof.
  destruct boot_room as (s & Hh & Hbase & Hp & Hr).
  destruct (u_prog_correct (H := demo_env) boot_descs 801 s boot_thread boot_space ∅ no_blocks Hbase Hp 0 0 0 0 Hh)
    as (s' & H1 & _ & H2).
  - intros k. apply Nat.le_refl.
  - eapply room_le; [exact Hr|lia].
  - lia.
  - exists s, s'. split; [exact H1|exact H2].
Defined.

Lemma k_thread_b_correct_witness : exists s s',
  iter 2 (countdown (k_thread_b_round (H := demo_env) boot_descs (Z.to_nat 5001))) 1 s = Ret (tt, s') /\
  as_found boot_descs s boot_thread boot_space ∅ no_blocks s'.
Proof.
  destruct boot_room as (s & Hh & Hbase & Hp & Hr).
  destruct (k_thread_b_correct (H := demo_env) boot_descs (Z.to_nat 5001) s boot_thread boot_space ∅ no_blocks Hbase Hp 1 0 Hh)
    as (s' & H1 & H2).
  - intros k. apply Nat.le_refl.
  - lia.
  - exact Hr.
  - lia.
  - exists s, s'. split; [exact H1|exact H2].
Defined.
