(* ===== verification/Start.v ===== *)
(** * kernel/init.c, kernel/debug.c and _start (kernel/main.c): the start of the kernel

    The state of the whole system is the keyboard driver's ([Keyboard.kb]: its keys, the kernel, the
    interrupt tables) with the system call table and the processor's three table registers.
    [InitAll] calls the set-up function of every component; [_start] goes on with the two user
    programs and the thread that prints the keys.  The addresses the linker assigns are an [image]. *)
From stdpp Require Import base list gmap strings.
From S2P Require Import Prelude Machine CString Bitmap Print Interrupt KList Paging State Sched Timer Sync.
From S2P Require Import Pool Palloc Vmap Arena Heap Malloc MemInit Loader Console PageDir Syscall Tss Thread Process.
From S2P Require Import Ioqueue Keyboard.

(** ** [PanicSpin] *)

(** What [PanicSpin] does before it spins; the four arguments but the line are strings in memory. *)
Definition panic_message (fuel : nat) (filename line func condition : Z) : M machine unit :=
  let* _ := DisableInt in
  let* _ := sys_putstr_bytes (10 :: 10 :: 10 :: literal_nl "***** error! *****") in
  let* _ := sys_putstr "filename: " in
  let* _ := sys_putstr_at fuel filename in
  sys_putchar 10 ;;;
  let* _ := sys_putstr "line: " in
  let* _ := sys_putint line in
  sys_putchar 10 ;;;
  let* _ := sys_putstr "function: " in
  let* _ := sys_putstr_at fuel func in
  sys_putchar 10 ;;;
  let* _ := sys_putstr "condition: " in
  let* _ := sys_putstr_at fuel condition in
  sys_putchar 10.

Definition PanicSpin (fuel : nat) (filename line func condition : Z) : M machine unit :=
  panic_message fuel filename line func condition ;;;
  (fun _ => Halt).

(** ** The system *)

Record os := Os { dev : kb; syscall_table : table; idtr : Z; gdtr : Z; tr : Z }.

Definition set_dev (d : kb) (s : os) : os := Os d (syscall_table s) (idtr s) (gdtr s) (tr s).
Definition set_table (t : table) (s : os) : os := Os (dev s) t (idtr s) (gdtr s) (tr s).
Definition set_idtr (v : Z) (s : os) : os := Os (dev s) (syscall_table s) v (gdtr s) (tr s).
Definition set_gdtr (v : Z) (s : os) : os := Os (dev s) (syscall_table s) (idtr s) v (tr s).
Definition set_tr (v : Z) (s : os) : os := Os (dev s) (syscall_table s) (idtr s) (gdtr s) v.

Definition on_dev {A} : M kb A -> M os A := zoom dev set_dev.
Definition on_kernel {A} (m : M kernel A) : M os A := on_dev (on_krn m).
Definition on_tables {A} (m : M intr A) : M os A := on_dev (on_intr m).
Definition print {A} (m : M machine A) : M os A := on_kernel (on_mach m).

(** Addresses of code and data. *)
Record image := Image {
  interrupt_entry_table : Z; IDT_addr : Z; kernel_arena_descs : Z; tss : Z;
  syscall_handler_addr : Z; GeneralIntHandler_addr : Z; IntTimerHandler_addr : Z; IntKeyboardHandler_addr : Z;
  KernelThread_addr : Z; StartProcess_addr : Z; u_prog_a_addr : Z; u_prog_b_addr : Z;
  KeyboardOutput_addr : Z; empty_string_addr : Z
}.

Section start.
  Context `{Env} (I : image).

Definition InitAll (fuel : nat) : M os unit :=
  let* _ := print (sys_putline "init_all..") in
  let* idtr := on_tables (IdtInit (interrupt_entry_table I) (syscall_handler_addr I) (GeneralIntHandler_addr I) (IDT_addr I)) in
  modify (set_idtr idtr) ;;;
  on_tables (TimerInit (IntTimerHandler_addr I)) ;;;
  on_kernel (VmemInit (kernel_arena_descs I)) ;;;
  on_kernel (ThreadInit fuel) ;;;
  on_kernel ConsoleInit ;;;
  on_dev (KeyboardInit (IntKeyboardHandler_addr I)) ;;;
  let* (gdtr, tr) := on_kernel (TssInit (tss I)) in
  modify (set_gdtr gdtr) ;;;
  modify (set_tr tr) ;;;
  let* s := get in
  let* t := print (SyscallInit (syscall_table s)) in
  modify (set_table t) ;;;
  let* _ := print (sys_putline "all done!") in
  ret tt.

(** Up to the endless loop at its end, in which the main thread waits for the clock. *)
Definition _start (fuel : nat) : M os unit :=
  let* _ := print (sys_putline "this is kernel!") in
  InitAll fuel ;;;
  on_kernel (ExecProcess (KernelThread_addr I) (StartProcess_addr I) fuel (u_prog_a_addr I) (literal "userthreada")) ;;;
  on_kernel (ExecProcess (KernelThread_addr I) (StartProcess_addr I) fuel (u_prog_b_addr I) (literal "userthreadb")) ;;;
  let* _ := print EnableInt in
  let* _ := on_kernel (ThreadStart (KernelThread_addr I) fuel (literal "keyboard_output") 5 (KeyboardOutput_addr I) (empty_string_addr I)) in
  ret tt.

End start.

(** ** The panic message *)

(** The characters of a literal. *)
Definition chars (str : string) : list Z := removelast (literal str).

(** On the memory [m], the program prints the text [l] and does nothing else. *)
Definition writes {A} (m : gmap Z Z) (prog : M machine A) (l : list Z) : Prop :=
  forall s, ram s = m -> exists a, prog s = Ret (a, set_tty (reverse l ++ tty s) s).

Lemma writes_bytes m (n l : list Z) : n = l ++ [0] -> MemInit.printable l = true ->
  Z.of_nat (length l) < 2 ^ 32 -> writes m (sys_putstr_bytes n) l.
Proof.
  intros -> Hp Hl s _. eexists. apply putstr_ok; [|exact Hl].
  unfold MemInit.printable in Hp. rewrite forallb_forall in Hp. apply Forall_forall.
  intros x Hx. specialize (Hp x (proj1 (list_elem_of_In _ _) Hx)). lia.
Qed.

Lemma writes_bind {A B} m (prog : M machine A) (k : A -> M machine B) l t s Q : ram s = m -> writes m prog l ->
  (forall a, wp (k a) Q (set_tty (reverse l ++ t) s)) -> wp (bind prog k) Q (set_tty t s).
Proof.
  intros Hs Hm Hk. apply wp_bind. destruct (Hm (set_tty t s) Hs) as (a & Hrun). eapply wp_intro; [exact Hrun|]. apply Hk.
Qed.

(** What a panic shows; [digits] is the line number. *)
Definition panic_text (filename digits func condition : list Z) : list Z :=
  [10; 10; 10] ++ chars "***** error! *****" ++ [10] ++ chars "filename: " ++ filename ++ [10] ++
  chars "line: " ++ digits ++ [10] ++ chars "function: " ++ func ++ [10] ++ chars "condition: " ++ condition ++ [10].

Ltac text_of_literal :=
  unfold sys_putstr; match goal with |- writes _ (sys_putstr_bytes ?x) _ =>
    let l := eval vm_compute in (removelast x) in apply (writes_bytes _ x l); vm_compute; reflexivity end.
Ltac print_next := eapply writes_bind; [done|first [eassumption|text_of_literal]|]; intros _.

(** [PanicSpin] turns interrupts off, shows file, line, function and condition, and spins: the outcome
    [Panic f n] of the model stands for this. *)
Theorem PanicSpin_shows fuel s f line fn c lf lfn lc : - 2 ^ 31 < line < 2 ^ 31 ->
  cstring (ram s) f lf -> cstring (ram s) fn lfn -> cstring (ram s) c lc ->
  (length lf < fuel)%nat -> (length lfn < fuel)%nat -> (length lc < fuel)%nat ->
  exists digits, parse_int digits = line /\
    panic_message fuel f line fn c s = Ret (tt, set_tty (reverse (panic_text lf digits lfn lc) ++ tty s) (masked s)) /\
    if_flag (eflags (masked s)) = INT_OFF /\ PanicSpin fuel f line fn c s = Halt.
Proof.
  intros Hline Hf Hfn Hc L1 L2 L3.
  assert (forall p l, cstring (ram s) p l -> (length l < fuel)%nat -> writes (ram s) (sys_putstr_at fuel p) l) as Hstr.
  { intros p l Hp Hl s' Hs'. rewrite <- Hs' in Hp. eexists. by apply sys_putstr_at_ok. }
  pose proof (Hstr f lf Hf L1) as W1. pose proof (Hstr fn lfn Hfn L2) as W2. pose proof (Hstr c lc Hc L3) as W3.
  destruct (sys_putint_ok line Hline) as (digits & Hrun & Hp).
  assert (writes (ram s) (sys_putint line) digits) as W4 by (intros s' _; eexists; apply Hrun).
  assert (writes (ram s) (sys_putchar 10) [10]) as W5 by (intros s' _; eexists; reflexivity).
  assert (panic_message fuel f line fn c s = Ret (tt, set_tty (reverse (panic_text lf digits lfn lc) ++ tty s) (masked s))) as Hmsg.
  { assert (wp (panic_message fuel f line fn c) (fun _ s' => s' = set_tty (reverse (panic_text lf digits lfn lc) ++ tty s) (masked s)) s)
      as ([] & s' & E & ->)%wp_elim; [|exact E].
    unfold panic_message. apply wp_bind. eapply wp_intro; [apply DisableInt_ok|].
    cbv beta. match goal with |- wp ?p ?q _ => change (wp p q (set_tty (tty s) (masked s))) end.
    do 12 print_next. eapply wp_intro; [reflexivity|]. unfold panic_text.
    match goal with |- _ (set_tty ?x _) = _ => transitivity (set_tty (10 :: x) (masked s)); [reflexivity|] end.
    f_equal. rewrite !reverse_app, <- !app_assoc. reflexivity. }
  exists digits. split; [exact Hp|]. split; [exact Hmsg|]. split; [apply if_flag_cli|].
  unfold PanicSpin. by rewrite (bind_Ret _ _ _ _ _ Hmsg).
Qed.

(** ** Running the set-up *)

(** A system that differs from [s] in its kernel and its interrupt tables. *)
Definition sys (K : kernel) (T : int_tables) (s : os) : os := set_dev (Kb (keys (dev s)) K T) s.

Lemma wp_kernel {A} (m : M kernel A) Q K T s :
  wp m (fun a K' => Q a (sys K' T s)) K -> wp (on_kernel m) Q (sys K T s).
Proof. intros Hm. apply wp_zoom, wp_zoom. exact Hm. Qed.

Lemma wp_tables {A} (m : M intr A) Q K T s :
  wp m (fun a i => Q a (sys (set_mach (cpu i) K) (tables i) s)) (Intr (mach K) T) -> wp (on_tables m) Q (sys K T s).
Proof. intros Hm. apply wp_zoom, wp_zoom. exact Hm. Qed.

Lemma wp_say {B} prog (k : Z -> M os B) Q K T s : says prog ->
  (forall a t, wp (k a) Q (sys (set_mach (set_tty t (mach K)) K) T s)) -> wp (bind (print prog) k) Q (sys K T s).
Proof.
  intros Hs Hk. apply wp_bind, wp_kernel. destruct (Hs (mach K)) as (a & t & Hrun).
  eapply wp_intro; [exact (on_mach_ok _ _ _ _ Hrun)|]. apply Hk.
Qed.

(** ** What the loader leaves *)

(** The [n] bytes at [a] hold neither a bitmap nor the descriptors of the kernel's arenas. *)
Definition apart (D all_mem a n : Z) : Prop :=
  (a + n <= MEM_BITMAP_BASE \/ MEM_BITMAP_BASE + bitmaps_len all_mem < a) /\
  (a + n <= D \/ D + 7 * sizeof_arena_desc <= a).

Section init.
  Context `{Env} (I : image).
  Abbreviation D := (kernel_arena_descs I).

(** The kernel before its first instruction: the memory size is at 0x810, page tables for the whole
    kernel half are in place and nothing is mapped in the heap; the image with its tables is loaded;
    [cur] is the page of the boot stack. *)
Record loaded (all_mem : Z) (e : Z -> Z) (k : kernel) (T : int_tables) : Prop := Loaded {
  ld_size : mem_size_ok all_mem;
  ld_word : word (ram (mach k)) 0x810 = Some all_mem;
  ld_ram : ram_ok (ram (mach k));
  ld_bitmaps : readable (ram (mach k)) MEM_BITMAP_BASE (bitmaps_len all_mem + 1) /\
    MEM_BITMAP_BASE + bitmaps_len all_mem < KERNEL_HEAP_BASE;
  ld_descs : descs_placed D all_mem (ram (mach k));
  ld_paging : paging_ready all_mem (pg k);
  ld_cr3 : cr3 (pg k) = 0x100000;
  ld_tables : forall va, KERNEL_HEAP_BASE <= va < 1023 * 2 ^ 22 -> is_Some (table_of (phys (pg k)) 0x100000 va);
  ld_locks : forall l, is_Some (locks k !! l);
  ld_pcbs : pcbs k = ∅;
  ld_page : thread_page (cur k) /\ 0 <= esp k < 2 ^ 32 /\ cur k + sizeof_PCB <= KERNEL_HEAP_BASE;
  ld_pcb : readable (ram (mach k)) (cur k) sizeof_PCB /\ apart D all_mem (cur k) sizeof_PCB;
  ld_tss : tss_placed (tss I) (ram (mach k)) /\ apart D all_mem (tss I) sizeof_tss /\ apart D all_mem (gdt_at 4) 24;
  ld_idt : length (IDT T) = Z.to_nat IDT_DESC_SUM /\ length (idt_table T) = Z.to_nat IDT_DESC_SUM;
  ld_entries : entry_stubs (ram (mach k)) (interrupt_entry_table I) e;
  ld_handler : 0 <= syscall_handler_addr I < 2 ^ 32
}.

(** The kernel after [VmemInit] has the running code's page in order. *)
Lemma boot_ready all_mem e k0 T k : loaded all_mem e k0 T -> mem k = pools_for all_mem -> pg k = pg k0 ->
  esp k = esp k0 -> pcbs k = pcbs k0 -> locks k !! kernel_pool_lock = Some free_lock -> is_Some (locks k !! pid_lock) ->
  mem_ok (mem k) (kernel_vaddr (mem k)) (ram (mach k)) (pg k) ->
  same_outside (fun a => MEM_BITMAP_BASE <= a < MEM_BITMAP_BASE + bitmaps_len all_mem \/
    D <= a < D + 7 * sizeof_arena_desc) (ram (mach k0)) (ram (mach k)) ->
  boot_thread_ok k.
Proof.
  intros [L1 L2 L3 [L4 L4'] L5 L6 L7 L8 L9 L10 (L11 & L12 & L13) [L14 L15] L16 L17 L18 L19] Em Ep Ee Ec Hk Hpid Hmem Hs.
  assert (cur k = cur k0) as Ecur by (unfold cur; by rewrite Ee).
  assert (forall i a, let b := bitmap_at (mem k) (kernel_vaddr (mem k)) i in
    bits b <= a <= bits b + bitmap_bytes_len b -> MEM_BITMAP_BASE <= a <= MEM_BITMAP_BASE + bitmaps_len all_mem) as Hbm.
  { intros i a b Ha. subst b. rewrite Em in Ha. pose proof (bitmap_layout all_mem L1 i) as (B1 & B2 & B3). cbv zeta in *. lia. }
  assert (forall va, in_space (kernel_vaddr (mem k)) va -> KERNEL_HEAP_BASE <= va < 1023 * 2 ^ 22) as Hsp.
  { intros va Hva. rewrite Em in Hva. pose proof (frames_facts all_mem L1) as F. cbv zeta in F.
    unfold in_space, space_bits, nbits, KERNEL_HEAP_BASE, PAGE_SIZE in *. cbn in Hva. unfold KERNEL_HEAP_BASE in Hva. lia. }
  constructor; rewrite ?Ecur, ?Ep, ?Ec; try assumption; try (rewrite Ee; assumption).
  - rewrite Em. unfold KERNEL_HEAP_BASE in *. cbn. unfold KERNEL_HEAP_BASE. lia.
  - intros i a b Ha. apply Hbm in Ha. right. unfold MEM_BITMAP_BASE, KERNEL_HEAP_BASE in *. lia.
  - intros va Hva. by apply L8, Hsp.
  - intros a Ha. rewrite Hs; [by apply L14|]. destruct L15 as [A1 A2]. lia.
  - by rewrite <- Ep.
  - intros i a Ha b Hb. apply Hbm in Hb. destruct L15 as [A1 A2]. lia.
  - intros Hin%Hsp. unfold sizeof_PCB in L13. lia.
Qed.

(** The kernel [InitAll] makes from [k]: memory [m] and output, devices programmed, pools laid out, all
    locks free, the queue empty, and the running code made the thread "main". *)
Definition booted_base (all_mem : Z) (k : kernel) (c : machine) (m1 : gmap Z Z) (t : list Z) : kernel :=
  set_esp0 0 (set_ioq (empty_queue (keyboard_IO_buf k)) (with_lock keyboard_lock free_lock (with_lock console_lock free_lock
    (with_out m1 t (with_lock user_pool_lock free_lock (with_lock kernel_pool_lock free_lock
      (set_mem (pools_for all_mem) (set_mach c k)))))))).
Definition booted (all_mem : Z) (k : kernel) (c : machine) (m1 : gmap Z Z) (t1 : list Z) (m : gmap Z Z) (t : list Z) : kernel :=
  thread_inited (booted_base all_mem k c m1 t1) m t.

Definition handlers (T : int_tables) : Prop := forall i, 0 <= i < IDT_DESC_SUM -> idt_table T !! Z.to_nat i =
  Some (if i =? 0x20 then IntTimerHandler_addr I else if i =? 0x21 then IntKeyboardHandler_addr I else GeneralIntHandler_addr I).
Definition gates (e : Z -> Z) (T : int_tables) : Prop := forall i, 0 <= i < IDT_DESC_SUM ->
  gate_to T i (if i =? 0x80 then syscall_handler_addr I else e i) (if i =? 0x80 then 3 else 0).

Lemma set_handlers general l : idt_table l = replicate (Z.to_nat IDT_DESC_SUM) general ->
  general = GeneralIntHandler_addr I -> forall c c',
  let T := tables (set_handler 0x21 (IntKeyboardHandler_addr I) (Intr c (tables (set_handler 0x20 (IntTimerHandler_addr I) (Intr c' l))))) in
  handlers T /\ IDT T = IDT l.
Proof.
  intros El -> c c' T. split; [|reflexivity]. intros i Hi. unfold T. cbn [tables idt_table set_handler]. rewrite El.
  unfold IDT_DESC_SUM in *. destruct (Z.eqb_spec i 0x20) as [->|H1]; [|destruct (Z.eqb_spec i 0x21) as [->|H2]].
  - rewrite list_lookup_insert_ne by lia. by rewrite list_lookup_insert_eq by (rewrite length_replicate; lia).
  - by rewrite list_lookup_insert_eq by (rewrite length_insert, length_replicate; lia).
  - rewrite !list_lookup_insert_ne by lia. apply lookup_replicate_2. lia.
Qed.

(** The first half, up to the interrupts and the timer. *)
Lemma init_tables all_mem e k T s {B} (rest : Z -> M os B) Q : loaded all_mem e k T ->
  (forall c T', ram c = ram (mach k) -> eflags c = eflags (mach k) -> outs c = timer_trace ++ pic_trace ++ outs (mach k) ->
     (exists c' T0, T' = tables (set_handler 0x20 (IntTimerHandler_addr I) (Intr c' T0)) /\
        idt_table T0 = replicate (Z.to_nat IDT_DESC_SUM) (GeneralIntHandler_addr I) /\ gates e T0) ->
     wp (rest (table_operand (IDT_DESC_SUM * 8 - 1) (IDT_addr I))) Q
       (set_idtr (table_operand (IDT_DESC_SUM * 8 - 1) (IDT_addr I)) (sys (set_mach c k) T' s))) ->
  wp (let* idtr := on_tables (IdtInit (interrupt_entry_table I) (syscall_handler_addr I) (GeneralIntHandler_addr I) (IDT_addr I)) in
      modify (set_idtr idtr) ;;; on_tables (TimerInit (IntTimerHandler_addr I)) ;;; rest idtr) Q (sys k T s).
Proof.
  intros L Hrest. destruct (ld_idt _ _ _ _ L) as [L1 L2].
  apply wp_bind, wp_tables. eapply wp_mono; [apply (IdtInit_ok _ _ _ _ _ e); [exact L1|exact L2|apply L|apply L]|].
  intros r i1 (-> & R1 & F1 & O1 & H1 & G1). apply wp_bind. cbn [wp modify].
  set (op := table_operand _ _). apply wp_bind.
  change (set_idtr op (sys ?K ?T s)) with (sys K T (set_idtr op s)). apply wp_tables.
  eapply wp_mono; [apply TimerInit_ok|]. intros _ i2 (R2 & F2 & O2 & T2). cbn [cpu mach set_mach] in *.
  rewrite T2. apply Hrest; [congruence|congruence|congruence|].
  exists (cpu i1), (tables i1). split_and!; [reflexivity|exact H1|exact G1].
Qed.

(** The memory and the threads. *)
Definition mem_inited (all_mem : Z) (k : kernel) (c : machine) (m1 : gmap Z Z) (t : list Z) : kernel :=
  with_out m1 t (with_lock user_pool_lock free_lock (with_lock kernel_pool_lock free_lock
    (set_mem (pools_for all_mem) (set_mach c k)))).

(** The heap of the kernel is empty, and every bitmap clear. *)
Record fresh_memory (all_mem : Z) (k : kernel) (m : gmap Z Z) : Prop := FreshMemory {
  fm_heap : heap_ok D (pools_for all_mem) (kernel_vaddr (pools_for all_mem)) KERNEL_POOL m (pg k) ∅ no_blocks;
  fm_clear : forall i j, let b := bitmap_at (pools_for all_mem) (kernel_vaddr (pools_for all_mem)) i in
    0 <= j < nbits b -> bit m b j = false
}.

Lemma init_threads all_mem e k T c fuel : loaded all_mem e k T -> ram c = ram (mach k) ->
  exists m1 t1 t2, let K2 := mem_inited all_mem k c m1 t1 in
    let K3 := thread_inited K2 (clear_PCB (cur k) m1) t2 in
    VmemInit D (set_mach c k) = Ret (tt, K2) /\ ThreadInit (S fuel) K2 = Ret (tt, K3) /\
    ConsoleInit K3 = Ret (tt, with_lock console_lock free_lock K3) /\
    fresh_memory all_mem k m1 /\ boot_thread_ok K2 /\
    same_outside (fun a => MEM_BITMAP_BASE <= a < MEM_BITMAP_BASE + bitmaps_len all_mem \/
      D <= a < D + 7 * sizeof_arena_desc) (ram (mach k)) m1.
Proof.
  intros L Ec. pose proof L as [L1 L2 L3 [L4 L4'] L5 L6 L7 L8 L9 L10 _ _ _ _ _ _].
  destruct (VmemInit_ok D (set_mach c k) all_mem L1) as (m1 & t1 & R1 & Hh & Hb & Hs); cbn [set_mach mach locks pg] in *;
    rewrite ?Ec; try assumption; [apply L9|apply L9|]. rewrite Ec in Hs.
  change (with_out m1 t1 _) with (mem_inited all_mem k c m1 t1) in R1.
  assert (boot_thread_ok (mem_inited all_mem k c m1 t1)) as Hboot.
  { apply (boot_ready all_mem e k T _ L); try reflexivity; [| |apply (ho_mem _ _ _ _ _ _ _ _ Hh)|exact Hs].
    - cbn. rewrite lookup_insert_ne by done. apply lookup_insert_eq.
    - cbn. rewrite !lookup_insert_ne by done. apply L9. }
  destruct (ThreadInit_ok fuel (mem_inited all_mem k c m1 t1) Hboot) as (t2 & R2).
  exists m1, t1, t2. split; [exact R1|]. split; [exact R2|]. split; [|split; [by split|split; [exact Hboot|exact Hs]]].
  apply LockInit_ok.
  cbn. rewrite !lookup_insert_ne by done. apply L9.
Qed.

Lemma kernel_eq (s s' : kernel) : mach s = mach s' -> pg s = pg s' -> pcbs s = pcbs s' ->
  ready_thread_list s = ready_thread_list s' -> all_thread_list s = all_thread_list s' -> esp s = esp s' ->
  esp0 s = esp0 s' -> main_thread s = main_thread s' -> next_pid s = next_pid s' -> ticks s = ticks s' ->
  locks s = locks s' -> mem s = mem s' -> keyboard_IO_buf s = keyboard_IO_buf s' -> s = s'.
Proof. destruct s, s'; cbn; congruence. Qed.

(** The final kernel, built in the order of the code. *)
Lemma booted_eq all_mem k c m1 t1 m2 t2 t3 m t : eflags t3 = eflags c -> outs t3 = outs c ->
  with_out m t (set_esp0 0 (set_mach t3 (set_ioq (empty_queue (keyboard_IO_buf k)) (with_lock keyboard_lock free_lock
    (with_lock console_lock free_lock (thread_inited (mem_inited all_mem k c m1 t1) m2 t2)))))) =
  booted all_mem k c m1 t1 m t.
Proof.
  intros E1 E2. apply kernel_eq; [|reflexivity| |reflexivity| |reflexivity|reflexivity| |reflexivity|reflexivity| |reflexivity|reflexivity].
  { transitivity (Machine m (eflags t3) (outs t3) t); [reflexivity|]. rewrite E1, E2. reflexivity. }
  { transitivity (<[cur k := main_PCB k]> (pcbs k)); reflexivity. }
  { transitivity [all_list_tag (cur k)]; reflexivity. }
  { transitivity (cur k); reflexivity. }
  pose (X := <[user_pool_lock := free_lock]> (<[kernel_pool_lock := free_lock]> (locks k))).
  transitivity (<[keyboard_lock := free_lock]> (<[console_lock := free_lock]> (<[pid_lock := free_lock]> X))); [reflexivity|].
  transitivity (<[pid_lock := free_lock]> (<[keyboard_lock := free_lock]> (<[console_lock := free_lock]> X))); [|reflexivity].
  rewrite (insert_insert_ne _ console_lock pid_lock) by done. by rewrite (insert_insert_ne _ keyboard_lock pid_lock).
Qed.

(** The kernel after [InitAll] is good. *)
Lemma booted_ok all_mem e k T c m1 t1 m t : loaded all_mem e k T -> ram c = ram (mach k) ->
  fresh_memory all_mem k m1 -> ram_ok m ->
  same_outside (fun a => MEM_BITMAP_BASE <= a < MEM_BITMAP_BASE + bitmaps_len all_mem \/
    D <= a < D + 7 * sizeof_arena_desc) (ram (mach k)) m1 ->
  same_outside (fun a => cur k <= a < cur k + sizeof_PCB \/ tss I <= a < tss I + sizeof_tss \/ gdt_at 4 <= a < gdt_at 7) m1 m ->
  threads_ok kernel_dirs (booted all_mem k c m1 t1 m t) /\ fresh_memory all_mem k m /\
  forall l, locks (booted all_mem k c m1 t1 m t) !! l = Some free_lock.
Proof.
  intros L Ec [Hh Hb] Hm Hs1 Hs2. set (ps := pools_for all_mem) in *.
  pose proof (ld_size _ _ _ _ L) as L1. destruct (ld_pcb _ _ _ _ L) as [_ [A1 A2]].
  destruct (ld_tss _ _ _ _ L) as (_ & [A3 A4] & [A5 A6]).
  assert (forall a, MEM_BITMAP_BASE <= a <= MEM_BITMAP_BASE + bitmaps_len all_mem \/ D <= a < D + 7 * sizeof_arena_desc ->
    m !! a = m1 !! a) as Hkeep.
  { intros a Ha. apply Hs2. unfold gdt_at in *. lia. }
  assert (forall i a, let b := bitmap_at ps (kernel_vaddr ps) i in
    bits b <= a <= bits b + bitmap_bytes_len b -> m !! a = m1 !! a) as Hbm.
  { intros i a b Ha. apply Hkeep. subst b. pose proof (bitmap_layout all_mem L1 i) as (B1 & B2 & B3). cbv zeta in *.
    fold ps in B1, B2, B3. left. lia. }
  destruct (mem_ok_bitmaps ps (kernel_vaddr ps) m1 m (pg k) (ho_mem _ _ _ _ _ _ _ _ Hh) Hm Hbm) as [Hmem Hbits].
  split; [|split].
  - apply thread_inited_ok; [|exact Hm|exact Hbm].
    apply (boot_ready all_mem e k T _ L); try reflexivity; [| |apply (ho_mem _ _ _ _ _ _ _ _ Hh)|exact Hs1].
    + cbn. rewrite !lookup_insert_ne by done. apply lookup_insert_eq.
    + cbn. rewrite !lookup_insert_ne by done. apply L.
  - split.
    + apply (heap_keep _ _ _ _ m1 m (pg k) (pg k)); [exact Hh|exact Hmem|intros a Ha; apply Hkeep; by right|done|done|done].
    + intros i j b Hj. subst b. rewrite Hbits by exact Hj. by apply Hb.
  - intros []; cbn; rewrite ?lookup_insert_eq, ?lookup_insert_ne by done; rewrite ?lookup_insert_eq; try reflexivity.
    all: rewrite ?lookup_insert_ne by done; rewrite ?lookup_insert_eq; reflexivity.
Qed.

(** What [InitAll] makes of the system [s]: a running kernel thread "main" in an empty ready queue,
    free locks, an empty heap, an empty key queue, every vector handled, the system calls in their
    table, and interrupts as they were. *)
Record initialised (all_mem : Z) (e : Z -> Z) (s s' : os) (K : kernel) (T : int_tables) : Prop := Initialised {
  in_dev : dev s' = Kb (keys (dev s)) K T;
  in_threads : threads_ok kernel_dirs K;
  in_memory : mem K = pools_for all_mem /\ fresh_memory all_mem K (ram (mach K));
  in_main : main_thread K = cur K /\ cur K = cur (krn (dev s)) /\
    pcbs K = {[cur K := main_PCB (krn (dev s))]} /\ ready_thread_list K = [];
  in_locks : forall l, locks K !! l = Some free_lock;
  in_queue : keyboard_IO_buf K = empty_queue (keyboard_IO_buf (krn (dev s)));
  in_tables : handlers T /\ gates e T;
  in_syscalls : syscall_table s' = full_table;
  in_segments : gdt_entry (ram (mach K)) (sel_index SELECTOR_U_CODE) = Some (Descriptor 0 0xFFFFF DESC_TYPE_CODE 1 3 1 1) /\
    gdt_entry (ram (mach K)) (sel_index SELECTOR_U_DATA) = Some (Descriptor 0 0xFFFFF DESC_TYPE_DATA 1 3 1 1) /\ esp0 K = 0;
  in_regs : idtr s' = table_operand (IDT_DESC_SUM * 8 - 1) (IDT_addr I) /\ gdtr s' = gdt_operand /\ tr s' = SELECTOR_TSS;
  in_flags : eflags (mach K) = eflags (mach (krn (dev s)));
  in_outs : outs (mach K) = timer_trace ++ pic_trace ++ outs (mach (krn (dev s)))
}.

Lemma loaded_tty all_mem e k T t : loaded all_mem e k T -> loaded all_mem e (set_mach (set_tty t (mach k)) k) T.
Proof. intros []. by constructor. Qed.

Lemma wp_dev {A} (m : M kb A) Q K T s d a : m (Kb (keys (dev s)) K T) = Ret (a, d) -> Q a (set_dev d s) ->
  wp (on_dev m) Q (sys K T s).
Proof. intros Hm HQ. apply wp_zoom. eapply wp_intro; [exact Hm|exact HQ]. Qed.

(** The kernel after the set-up of its components, with the registers and devices of [c]. *)
Record set_up (all_mem : Z) (k : kernel) (c : machine) (K : kernel) : Prop := SetUp {
  su_threads : threads_ok kernel_dirs K;
  su_memory : mem K = pools_for all_mem /\ pg K = pg k /\ fresh_memory all_mem k (ram (mach K));
  su_main : main_thread K = cur K /\ cur K = cur k /\ pcbs K = {[cur K := main_PCB k]} /\ ready_thread_list K = [];
  su_locks : forall l, locks K !! l = Some free_lock;
  su_queue : keyboard_IO_buf K = empty_queue (keyboard_IO_buf k);
  su_segments : gdt_entry (ram (mach K)) (sel_index SELECTOR_U_CODE) = Some (Descriptor 0 0xFFFFF DESC_TYPE_CODE 1 3 1 1) /\
    gdt_entry (ram (mach K)) (sel_index SELECTOR_U_DATA) = Some (Descriptor 0 0xFFFFF DESC_TYPE_DATA 1 3 1 1) /\ esp0 K = 0;
  su_flags : eflags (mach K) = eflags c;
  su_outs : outs (mach K) = outs c
}.

(** The components after the tables. *)
Lemma init_components all_mem e k c T s fuel (rest : Z * Z -> M os unit) (Q : unit -> os -> Prop) :
  loaded all_mem e k T -> ram c = ram (mach k) -> forall T0,
  (forall K, set_up all_mem k c K ->
     wp (rest (gdt_operand, SELECTOR_TSS)) Q
       (sys K (tables (set_handler 0x21 (IntKeyboardHandler_addr I) (Intr c T0))) s)) ->
  wp (on_kernel (VmemInit D) ;;; on_kernel (ThreadInit (S fuel)) ;;; on_kernel ConsoleInit ;;;
      on_dev (KeyboardInit (IntKeyboardHandler_addr I)) ;;; let* x := on_kernel (TssInit (tss I)) in rest x) Q
    (sys (set_mach c k) T0 s).
Proof.
  intros L Ec T0 Hrest. destruct (init_threads all_mem e k T c fuel L Ec) as (m1 & t1 & t2 & R1 & R2 & R3 & Hf & Hboot & Hs1).
  set (K2 := mem_inited all_mem k c m1 t1) in *. set (m2 := clear_PCB (cur k) m1) in *. set (K3 := thread_inited K2 m2 t2) in *.
  apply wp_bind, wp_kernel. eapply wp_intro; [exact R1|]. apply wp_bind, wp_kernel. eapply wp_intro; [exact R2|].
  apply wp_bind, wp_kernel. eapply wp_intro; [exact R3|]. apply wp_bind.
  destruct (KeyboardInit_ok (IntKeyboardHandler_addr I) (keys (dev s)) (with_lock console_lock free_lock K3) T0) as (t3 & R4).
  { unfold K3, K2. cbn. rewrite !lookup_insert_ne by done. apply L. }
  eapply wp_dev; [exact R4|]. clear R4. set (K5 := set_mach (set_tty t3 _) _). set (T1 := tables _).
  change (set_dev (Kb (keys (dev s)) K5 T1) s) with (sys K5 T1 s).
  assert (same_outside (fun a => cur k <= a < cur k + sizeof_PCB) m1 m2) as Hs2.
  { intros a Ha. apply write_bytes_lookup_out. rewrite length_replicate. unfold sizeof_PCB in Ha. lia. }
  destruct (ld_tss _ _ _ _ L) as ((P1 & P2 & P3 & P4 & P5) & (A3 & A4) & (A5 & A6)).
  assert (forall a n, readable (ram (mach k)) a n -> apart D all_mem a n -> readable m2 a n) as Hrd.
  { intros a n Hr [B1 B2]. apply write_bytes_readable. intros x Hx. rewrite Hs1 by lia. by apply Hr. }
  destruct (TssInit_run (tss I) K5) as (m & t & R5 & _ & B5 & B6 & Hs3 & Hst).
  { exact (conj P1 (conj P2 (conj (Hrd _ _ P3 (conj A3 A4)) (conj (Hrd _ _ P4 (conj A5 A6)) P5)))). }
  change (ram (mach K5)) with m2 in *.
  apply wp_bind, wp_kernel. eapply wp_intro; [exact R5|].
  assert (ram_ok m2) as Hm2.
  { apply write_bytes_ok; [apply (mo_bitmap _ _ _ _ (ho_mem _ _ _ _ _ _ _ _ (fm_heap _ _ _ Hf)) None)|].
    apply Forall_replicate, u8_range. }
  assert (with_out m t (set_esp0 0 K5) = booted all_mem k c m1 t1 m t) as EK.
  { exact (booted_eq all_mem k c m1 t1 m2 t2 (set_tty t3 (mach K3)) m t eq_refl eq_refl). }
  rewrite EK. destruct (booted_ok all_mem e k T c m1 t1 m t L Ec Hf) as (Ht & Hf' & Hl); [by apply Hst|exact Hs1| |].
  { intros a Ha. rewrite Hs3 by tauto. unfold tss_mem. unfold sizeof_tss in Ha. rewrite !setw_lookup_out by lia.
    rewrite write_bytes_lookup_out by (rewrite length_replicate; lia). apply Hs2. tauto. }
  apply Hrest. constructor; [exact Ht| | |exact Hl|reflexivity| |reflexivity|reflexivity].
  - split; [reflexivity|]. split; [reflexivity|exact Hf'].
  - split; [reflexivity|]. split; [reflexivity|]. split; [|reflexivity].
    transitivity (<[cur k := main_PCB k]> (pcbs k)); [reflexivity|]. rewrite (ld_pcbs _ _ _ _ L). reflexivity.
  - change (ram (mach (booted all_mem k c m1 t1 m t))) with m. split; [|split; [|reflexivity]].
    + change (sel_index SELECTOR_U_CODE) with 5. by rewrite (gdt_entry_bytes _ _ _ B5).
    + change (sel_index SELECTOR_U_DATA) with 6. by rewrite (gdt_entry_bytes _ _ _ B6).
Qed.

(** The invariant of the threads is not about the registers and the output. *)
Lemma threads_ok_mach dirs c K : ram c = ram (mach K) -> threads_ok dirs K -> threads_ok dirs (set_mach c K).
Proof.
  intros Ec [[S1 S2 S3 S4 S5 S6 S7 S8 S9 S10] T2 T3 [D1 D2 D3 D4 D5] T5 T6 T7 T8 T9].
  constructor; try assumption; [by constructor| |by constructor]. cbn [set_mach mem mach pg]. by rewrite Ec.
Qed.

Lemma InitAll_ok all_mem e fuel s : loaded all_mem e (krn (dev s)) (vectors (dev s)) -> syscall_table s = empty_table ->
  wp (InitAll I (S fuel)) (fun _ s' => exists K T, initialised all_mem e s s' K T) s.
Proof.
  intros L Htab. assert (s = sys (krn (dev s)) (vectors (dev s)) s) as Es by (by destruct s as [[]]).
  rewrite Es at 1. unfold InitAll. apply wp_say; [unfold sys_putline; says_literal|]. intros _ t0.
  apply (loaded_tty all_mem e _ _ t0) in L. set (k := set_mach (set_tty t0 _) _) in *.
  apply (init_tables all_mem e k); [exact L|]. intros c T' Rc Fc Oc (c' & T0 & -> & H0 & G0).
  set (op := table_operand _ _). set (T1 := tables _).
  change (set_idtr op (sys ?K ?T s)) with (sys K T (set_idtr op s)).
  apply (init_components all_mem e k c (vectors (dev s))); [exact L|exact Rc|].
  intros K [U1 (U2 & U3 & U4) U5 U6 U7 U8 U9 U10]. set (T2 := tables _).
  apply wp_bind. cbn [wp modify]. apply wp_bind. cbn [wp modify]. apply wp_bind. cbn [wp get].
  set (s1 := set_tr SELECTOR_TSS (set_gdtr gdt_operand (set_idtr op s))).
  change (set_tr _ (set_gdtr _ (sys K T2 _))) with (sys K T2 s1).
  change (syscall_table (sys K T2 s1)) with (syscall_table s). rewrite Htab.
  destruct (SyscallInit_ok (mach K)) as (t3 & Hsys).
  apply wp_bind, wp_kernel. eapply wp_intro; [exact (on_mach_ok _ _ _ _ Hsys)|].
  set (K3 := set_mach _ K). apply wp_bind. cbn [wp modify].
  change (set_table full_table (sys K3 T2 s1)) with (sys K3 T2 (set_table full_table s1)).
  apply wp_say; [unfold sys_putline; says_literal|]. intros _ t4. apply wp_ret.
  set (K4 := set_mach (set_tty t4 (mach K3)) K3). exists K4, T2.
  destruct (set_handlers _ T0 H0 eq_refl c c') as [Hh Hi].
  constructor; [reflexivity| | |exact U5|exact U6|exact U7| |reflexivity|exact U8| | |].
  - apply threads_ok_mach; [reflexivity|]. by apply threads_ok_mach.
  - split; [exact U2|]. destruct U4 as [F1 F2]. split; [|exact F2]. change (pg K4) with (pg K). by rewrite U3.
  - split; [exact Hh|]. intros i Hb. destruct (G0 i Hb) as (g & Hg & Hrest). exists g. split; [rewrite <- Hg; f_equal; exact Hi|exact Hrest].
  - split; [reflexivity|]. split; reflexivity.
  - transitivity (eflags c); [exact U9|exact Fc].
  - transitivity (outs c); [exact U10|exact Oc].
Qed.

(** C22: [InitAll] on the state the loader leaves returns, with every component set up: the code that has
    run since boot is the running thread "main" and the scheduler's invariant holds with an empty
    ready queue; the pools are laid out, the page allocator's and the byte allocator's invariants
    hold with every page free; all locks are free and the key queue is empty; every vector has its
    gate, the clock and the keyboard their handlers; the system call table has its four entries; the
    user segments are in the descriptor table; interrupts are still off, or on, as they were. *)
Theorem InitAll_correct all_mem e fuel s : loaded all_mem e (krn (dev s)) (vectors (dev s)) -> syscall_table s = empty_table ->
  exists s' K T, InitAll I (S fuel) s = Ret (tt, s') /\ initialised all_mem e s s' K T.
Proof.
  intros L Ht. destruct (wp_elim _ _ _ (InitAll_ok all_mem e fuel s L Ht)) as ([] & s' & Hrun & K & T & Hi).
  exists s', K, T. split; [exact Hrun|exact Hi].
Qed.

End init.

(** ** [_start] *)

Section start_threads.
  Context `{Env} (I : image).
  Abbreviation KT := (KernelThread_addr I).
  Abbreviation SP := (StartProcess_addr I).

(** The page of a PCB in the heap is in use. *)
Lemma pcb_page_used dirs K i p : threads_ok dirs K -> is_Some (pcbs K !! p) -> p = vpage (kernel_vaddr (mem K)) i ->
  0 <= i < space_bits (kernel_vaddr (mem K)) -> bit (ram (mach K)) (vaddr_bitmap (kernel_vaddr (mem K))) i = true.
Proof.
  intros Ht Hp -> Hi. destruct (bit _ _ i) eqn:E; [done|]. exfalso.
  destruct (vpage_facts _ _ _ _ i (to_mem _ _ Ht) Hi) as (P0 & _).
  exact (to_mapped _ _ Ht _ Hp P0 (mo_unmapped _ _ _ _ (to_mem _ _ Ht) i Hi E)).
Qed.

(** Bytes of a used page stay when another thread is started. *)
Lemma page_kept ps m0 m g i p a : let V := kernel_vaddr ps in mem_ok ps V m0 g ->
  0 <= i < space_bits V -> (exists j, p = vpage V j /\ j <> i) ->
  same_outside (fun a => in_bitmaps KERNEL_POOL ps V a \/ p <= a < p + PAGE_SIZE) m0 m ->
  vpage V i <= a < vpage V i + PAGE_SIZE -> m !! a = m0 !! a.
Proof.
  intros V Hm Hi (j & -> & Hj) Hs Ha. apply Hs. intros [(b & _ & Hb)|Hb].
  - apply (mo_away _ _ _ _ Hm b a); [unfold in_space, vpage, PAGE_SIZE in *; fold V; lia|]. unfold in_bitmap in Hb. fold V. lia.
  - unfold vpage, PAGE_SIZE in *. nia.
Qed.

Record addresses_ok : Prop := AddressesOk {
  ao_thread : 0 <= KT < 2 ^ 32;
  ao_process : 0 <= SP < 2 ^ 32;
  ao_a : 0 <= u_prog_a_addr I < 2 ^ 32;
  ao_b : 0 <= u_prog_b_addr I < 2 ^ 32;
  ao_keys : 0 <= KeyboardOutput_addr I < 2 ^ 32;
  ao_arg : 0 <= empty_string_addr I < 2 ^ 32
}.

(** The three threads [_start] adds to those of [K]: two processes and a kernel thread, with successive
    identifiers, in the order of their creation behind the ready threads, each with the frame of
    its first switch on its stack. *)
Record running (K K' : kernel) (dirs : Z -> Z) (p1 p2 p3 : Z) : Prop := Running {
  rn_threads : threads_ok dirs K';
  rn_int : if_flag (eflags (mach K')) = INT_ON;
  rn_pcbs : exists b1 v1 b2 v2, let n1 := next (next_pid K) in let n2 := next n1 in
    pcbs K' = <[p3 := thread_PCB p3 (next n2) (literal "keyboard_output") 5]>
      (<[p2 := process_PCB p2 n2 (literal "userthreadb") b2 v2]>
        (<[p1 := process_PCB p1 n1 (literal "userthreada") b1 v1]> (pcbs K)));
  rn_new : NoDup [p1; p2; p3] /\ pcbs K !! p1 = None /\ pcbs K !! p2 = None /\ pcbs K !! p3 = None;
  rn_ready : ready_thread_list K' = ready_thread_list K ++ [general_tag p1; general_tag p2; general_tag p3];
  rn_all : all_thread_list K' = all_thread_list K ++ [all_list_tag p1; all_list_tag p2; all_list_tag p3];
  rn_current : cur K' = cur K /\ main_thread K' = main_thread K;
  rn_frames : frame_at KT (ram (mach K')) (p1 + 3664) SP (u_prog_a_addr I) /\
    frame_at KT (ram (mach K')) (p2 + 3664) SP (u_prog_b_addr I) /\
    frame_at KT (ram (mach K')) (p3 + 3664) (KeyboardOutput_addr I) (empty_string_addr I)
}.

Lemma start_threads fuel K : let V := kernel_vaddr (mem K) in threads_ok kernel_dirs K -> addresses_ok ->
  51 <= space_bits V -> (forall j, 0 <= j < 51 -> bit (ram (mach K)) (vaddr_bitmap V) j = false) ->
  enough_frames (mem K) (ram (mach K)) KERNEL_POOL 51 ->
  exists K1 K2 old e K3 dirs p1 p2 p3,
    ExecProcess KT SP (S fuel) (u_prog_a_addr I) (literal "userthreada") K = Ret (tt, K1) /\
    ExecProcess KT SP (S fuel) (u_prog_b_addr I) (literal "userthreadb") K1 = Ret (tt, K2) /\
    EnableInt (mach K2) = Ret (old, set_eflags e (mach K2)) /\
    ThreadStart KT (S fuel) (literal "keyboard_output") 5 (KeyboardOutput_addr I) (empty_string_addr I)
      (set_mach (set_eflags e (mach K2)) K2) = Ret (p3, K3) /\
    running K K3 dirs p1 p2 p3.
Proof.
  intros V Ht [A1 A2 A3 A4 A5 A6] Hsp Hb Hen.
  destruct (ExecProcess_ok KT SP fuel kernel_dirs K (u_prog_a_addr I) (literal "userthreada") 0 Ht)
    as (i1 & p1 & b1 & v1 & d1 & m1 & g1 & R1 & (I1 & P1 & F1 & N1) & S1 & T1 & _ & E1 & _ & L1 & _);
    [lia|fold V; lia|intros j Hj; apply Hb; lia|exact (enough_le _ _ _ _ 25 Hen ltac:(lia))|by apply Nat.leb_le|done|done|done|].
  fold V in P1, L1. set (c1 := process_PCB p1 _ _ b1 v1) in *. set (K1 := started K p1 c1 m1 g1) in *.
  assert (enough_frames (mem K1) m1 KERNEL_POOL 26) as En1 by (apply (E1 26%nat); exact Hen).
  assert (forall j, 25 <= j < 51 -> bit m1 (vaddr_bitmap V) j = false) as Hb1 by (intros j Hj; rewrite L1 by lia; apply Hb; lia).
  destruct (ExecProcess_ok KT SP fuel _ K1 (u_prog_b_addr I) (literal "userthreadb") 25 T1)
    as (i2 & p2 & b2 & v2 & d2 & m2 & g2 & R2 & (I2 & P2 & F2 & N2) & S2 & T2 & _ & E2 & _ & L2 & C2);
    [lia|change (mem K1) with (mem K); fold V; lia|intros j Hj; apply Hb1; lia|exact (enough_le _ _ _ _ 25 En1 ltac:(lia))
    |by apply Nat.leb_le|done|done|done|].
  change (mem K1) with (mem K) in P2, E2, L2, C2, En1, F2. change (ram (mach K1)) with m1 in L2, C2, E2, F2. fold V in P2, L2, C2, F2.
  set (c2 := process_PCB p2 _ _ b2 v2) in *. set (K2 := started K1 p2 c2 m2 g2) in *.
  assert (bit m1 (vaddr_bitmap V) i1 = true) as U1.
  { apply (pcb_page_used _ K1 i1 p1 T1); [|exact P1|change (mem K1) with (mem K); fold V; lia].
    change (pcbs K1) with (<[p1 := c1]> (pcbs K)). rewrite lookup_insert_eq. eauto. }
  assert (i1 <> i2) as Hi12 by (intros E; rewrite E in U1; exact (eq_true_false_abs _ U1 F2)).
  destruct (EnableInt_run (mach K2)) as (old & e & R3 & Hon). set (K2' := set_mach (set_eflags e (mach K2)) K2).
  assert (threads_ok (new_dirs (new_dirs kernel_dirs p1 d1) p2 d2) K2') as T2' by (apply threads_ok_mach; [reflexivity|exact T2]).
  assert (bit m2 (vaddr_bitmap V) 50 = false) as B50 by (rewrite L2 by lia; apply Hb1; lia).
  destruct (ThreadStart_ok KT fuel _ K2' (literal "keyboard_output") 5 (KeyboardOutput_addr I) (empty_string_addr I) 50 T2')
    as (i3 & p3 & m3 & g3 & R4 & I3 & P3 & F3 & N3 & T3 & S3 & C3);
    [change (mem K2') with (mem K); fold V; lia|exact B50|exact (E2 1%nat En1)|by apply Nat.leb_le|done|done|done|].
  change (mem K2') with (mem K) in P3, F3, C3. change (ram (mach K2')) with m2 in F3, C3. fold V in P3, F3, C3.
  assert (forall i p, p = vpage V i -> 0 <= i < space_bits V -> is_Some (pcbs K2' !! p) -> bit m2 (vaddr_bitmap V) i = true) as Hused.
  { intros i p Ep Hi Hp. exact (pcb_page_used _ K2' i p T2' Hp Ep Hi). }
  assert (is_Some (pcbs K2' !! p2)) as Hp2.
  { change (pcbs K2') with (<[p2 := c2]> (pcbs K1)). rewrite lookup_insert_eq. eauto. }
  assert (is_Some (pcbs K2' !! p1)) as Hp1.
  { change (pcbs K2') with (<[p2 := c2]> (<[p1 := c1]> (pcbs K))). rewrite lookup_insert_is_Some, lookup_insert_eq.
    destruct (decide (p2 = p1)); [by left|right]. eauto. }
  pose proof (Hused i1 p1 P1 ltac:(lia) Hp1) as U1'. pose proof (Hused i2 p2 P2 ltac:(lia) Hp2) as U2.
  assert (i1 <> i3) as Hi13 by (intros E; rewrite E in U1'; exact (eq_true_false_abs _ U1' F3)).
  assert (i2 <> i3) as Hi23 by (intros E; rewrite E in U2; exact (eq_true_false_abs _ U2 F3)).
  assert (forall i j, i <> j -> vpage V i <> vpage V j) as Hvp by (unfold vpage, PAGE_SIZE; lia).
  assert (p1 <> p2 /\ p1 <> p3 /\ p2 <> p3) as (D12 & D13 & D23) by (rewrite P1, P2, P3; auto).
  assert (forall a, p1 <= a < p1 + PAGE_SIZE -> m3 !! a = m1 !! a) as Q1.
  { intros a Ha. rewrite P1 in Ha. rewrite <- (C2 i1 a ltac:(lia) U1 Ha).
    apply (page_kept (mem K) m2 m3 g2 i1 p3); [apply (to_mem _ _ T2)|fold V; lia|exists i3; fold V; auto|exact C3|exact Ha]. }
  assert (forall a, p2 <= a < p2 + PAGE_SIZE -> m3 !! a = m2 !! a) as Q2.
  { intros a Ha. rewrite P2 in Ha.
    apply (page_kept (mem K) m2 m3 g2 i2 p3); [apply (to_mem _ _ T2)|fold V; lia|exists i3; fold V; auto|exact C3|exact Ha]. }
  exists K1, K2, old, e. eexists. exists (new_dirs (new_dirs (new_dirs kernel_dirs p1 d1) p2 d2) p3 0x100000), p1, p2, p3.
  split; [exact R1|]. split; [exact R2|]. split; [exact R3|]. split; [exact R4|].
  unfold PAGE_SIZE in Q1, Q2. constructor.
  - exact T3.
  - exact Hon.
  - exists b1, v1, b2, v2. reflexivity.
  - split; [repeat constructor; rewrite ?elem_of_cons, ?elem_of_nil; intuition congruence|].
    split; [exact N1|]. split.
    + change (pcbs K1) with (<[p1 := c1]> (pcbs K)) in N2. by apply lookup_insert_None in N2 as [? _].
    + change (pcbs K2') with (<[p2 := c2]> (<[p1 := c1]> (pcbs K))) in N3. apply lookup_insert_None in N3 as [N3 _].
      by apply lookup_insert_None in N3 as [? _].
  - transitivity (((ready_thread_list K ++ [general_tag p1]) ++ [general_tag p2]) ++ [general_tag p3]); [reflexivity|].
    by rewrite <- !app_assoc.
  - transitivity (((all_thread_list K ++ [all_list_tag p1]) ++ [all_list_tag p2]) ++ [all_list_tag p3]); [reflexivity|].
    by rewrite <- !app_assoc.
  - split; reflexivity.
  - split; [|split; [|exact S3]].
    + apply (frame_at_same _ m1); [intros a Ha; apply Q1; lia|exact S1].
    + apply (frame_at_same _ m2); [intros a Ha; apply Q2; lia|exact S2].
Qed.

Lemma pools_room all_mem : mem_size_ok all_mem -> 0x2D0000 <= all_mem ->
  102 <= nbits (pool_bitmap (kernel_memory_pool (pools_for all_mem))) /\ 102 <= space_bits (kernel_vaddr (pools_for all_mem)).
Proof.
  unfold mem_size_ok. intros H1 H2. unfold space_bits, nbits. cbn. unfold kernel_frames, frames_of, PAGE_SIZE.
  Z.to_euclidean_division_equations. lia.
Qed.

Lemma start_ok' all_mem e fuel s : loaded I all_mem e (krn (dev s)) (vectors (dev s)) -> syscall_table s = empty_table ->
  addresses_ok -> 0x2D0000 <= all_mem ->
  wp (_start I (S fuel)) (fun _ s' => exists s1 K T K' dirs p1 p2 p3, initialised I all_mem e s s1 K T /\
    s' = set_dev (Kb (keys (dev s)) K' T) s1 /\ running K K' dirs p1 p2 p3) s.
Proof.
  intros L Htab Ha Hsize. assert (s = sys (krn (dev s)) (vectors (dev s)) s) as Es by (by destruct s as [[]]).
  rewrite Es at 1. unfold _start. apply wp_say; [unfold sys_putline; says_literal|]. intros _ t0.
  set (s0 := sys _ _ s). apply (loaded_tty I all_mem e _ _ t0) in L.
  apply wp_bind. eapply wp_mono; [apply (InitAll_ok I all_mem e fuel s0 L Htab)|].
  intros _ s1 (K & T & [U1 U2 (U3 & U4) U5 U6 U7 U8 U9 U10 U11 U12 U13]).
  destruct (pools_room all_mem (ld_size _ _ _ _ _ L) Hsize) as [R1 R2].
  destruct (start_threads fuel K U2 Ha) as (K1 & K2 & old & e' & K3 & dirs & p1 & p2 & p3 & E1 & E2 & E3 & E4 & Hrun); rewrite ?U3.
  - lia.
  - intros j Hj. apply (fm_clear _ _ _ _ U4 None). cbn [bitmap_at]. unfold space_bits in R2. lia.
  - split; (apply clear_has_free; [exact (fm_clear _ _ _ _ U4 (Some KERNEL_POOL))|]); cbn [bitmap_at pool_of]; lia.
  - assert (s1 = sys K T s1) as Es1 by (unfold sys, set_dev; destruct s1 as [d]; cbn in U1 |- *; rewrite U1; reflexivity).
    rewrite Es1. apply wp_bind, wp_kernel. eapply wp_intro; [exact E1|].
    apply wp_bind, wp_kernel. eapply wp_intro; [exact E2|].
    apply wp_bind, wp_kernel. eapply wp_intro; [exact (on_mach_ok _ _ _ _ E3)|].
    apply wp_bind, wp_kernel. eapply wp_intro; [exact E4|]. apply wp_ret.
    exists s1, K, T, K3, dirs, p1, p2, p3. split; [by constructor|]. split; [|exact Hrun].
    unfold sys. rewrite U1. reflexivity.
Qed.

(** C1: the start of the system, [_start] of main.c on the state the loader leaves with at least 2.8 MB of
    memory: the set-up of [InitAll], then the two user programs and the thread that prints the keys
    are there, in this order behind each other in the ready queue, with successive identifiers and
    page directories, and stacks from which their first switch starts [StartProcess] or
    [KeyboardOutput]; interrupts are on; and the invariants of the scheduler, of the address spaces
    and of the page allocator hold, so that from the first tick on the scheduler's theorems apply. *)
Theorem start_correct all_mem e fuel s : loaded I all_mem e (krn (dev s)) (vectors (dev s)) -> syscall_table s = empty_table ->
  addresses_ok -> 0x2D0000 <= all_mem ->
  exists s1 K T K' dirs p1 p2 p3, initialised I all_mem e s s1 K T /\
    _start I (S fuel) s = Ret (tt, set_dev (Kb (keys (dev s)) K' T) s1) /\ running K K' dirs p1 p2 p3.
Proof.
  intros L Ht Ha Hs. destruct (wp_elim _ _ _ (start_ok' all_mem e fuel s L Ht Ha Hs))
    as ([] & s' & Hrun & s1 & K & T & K' & dirs & p1 & p2 & p3 & Hi & -> & Hr).
  exists s1, K, T, K', dirs, p1, p2, p3. split; [exact Hi|]. split; [exact Hrun|exact Hr].
Qed.

End start_threads.

(** ** Example: a machine with 2.8 MB of memory after the loader *)

Definition start_image : image := Image 0xC0003000 0xC0004000 0xC0005000 0xC0008AC0
  0xC0001700 0xC0001800 0xC0001900 0xC0001A00 0xC0002000 0xC0002200 0xC0002400 0xC0002500 0xC0002600 0xC0002700.

(** The first 640 KB, clear but for the memory size the loader has stored. *)
Definition start_ram : gmap Z Z := setw (write_bytes ∅ 0xC0000000 (replicate (160 * page_n) 0)) 0x810 0x2D0000.

Lemma start_ram_zero a : 0xC0000000 <= a < 0xC00A0000 -> start_ram !! a = Some 0.
Proof.
  intros Ha. pose proof page_n_Z. unfold start_ram. rewrite setw_lookup_out by lia. apply zeros_lookup. lia.
Qed.

Lemma start_ram_facts : ram_ok start_ram /\ word start_ram 0x810 = Some 0x2D0000.
Proof. split; [apply ram_ok_setw, zero_ram_ok|by apply word_setw_eq]. Qed.

#[global] Opaque start_ram.

Lemma start_readable a n : 0xC0000000 <= a -> a + n <= 0xC00A0000 -> readable start_ram a n.
Proof. intros H1 H2 x Hx. rewrite start_ram_zero by lia. eauto. Qed.

Definition start_locks : gmap lock_id lock :=
  <[pid_lock := free_lock]> (<[console_lock := free_lock]> (<[keyboard_lock := free_lock]>
    (<[kernel_pool_lock := free_lock]> {[user_pool_lock := free_lock]}))).
Definition loaded_kernel (m : gmap Z Z) : kernel :=
  Kernel (Machine start_ram 2 [] []) (Paging m 0x100000 []) ∅ [] [] 0xC009EFFC 0 0 0 0 start_locks
    (pools_for 0) (State.Ioqueue 0 0 (replicate 64 0) 0 0).
Definition loaded_os (m : gmap Z Z) : os :=
  Os (Kb (Keyboard 0 0 0 0 0) (loaded_kernel m) demo_tables) empty_table 0 0 0.

Lemma loaded_ok m : page_tables clear_phys m ->
  loaded start_image 0x2D0000 (fun _ => 0) (loaded_kernel m) demo_tables.
Proof.
  intros Ht. destruct start_ram_facts as [F1 F2]. destruct (clear_machine_ok []) as (G1 & G2 & G3). cbn [ram] in G1, G2, G3.
  assert (forall va, KERNEL_HEAP_BASE <= va < 1023 * 2 ^ 22 -> is_Some (table_of m 0x100000 va)) as Htab.
  { intros va Hva. unfold KERNEL_HEAP_BASE in Hva. apply (boot_has_table _ _ Ht); [clear -Hva; lia|].
    right. clear -Hva. Z.to_euclidean_division_equations. lia. }
  constructor; cbn [loaded_kernel mach ram pg phys cr3 locks pcbs].
  - zdec.
  - exact F2.
  - exact F1.
  - split; [|zdec]. change (bitmaps_len 0x2D0000) with 39. apply start_readable; zdec.
  - split; [zdec|]. split; [zdec|]. split; [|left; zdec]. apply start_readable; zdec.
  - apply (boot_paging_ready _ clear_phys); [zdec|exact Ht|exact G1|exact G2|exact G3].
  - reflexivity.
  - exact Htab.
  - intros []; eexists; reflexivity.
  - reflexivity.
  - split; [split; [zdec|split; zdec]|]. split; [zdec|zdec].
  - change (cur _) with 0xC009E000. split; [apply start_readable; zdec|].
    change (bitmaps_len 0x2D0000) with 39. split; [right; zdec|right; zdec].
  - split; [split; [zdec|split; [zdec|split; [|split; [|right; zdec]]]]|split]; try (apply start_readable; zdec).
    + split; [left; zdec|right; zdec].
    + split; [left; zdec|left; zdec].
  - split; reflexivity.
  - intros i Hi. unfold IDT_DESC_SUM in Hi. change (interrupt_entry_table start_image) with 0xC0003000.
    rewrite u32_id by (clear -Hi; lia). split; [|zdec].
    unfold word. by rewrite !start_ram_zero by (clear -Hi; lia).
  - zdec.
Qed.

(** The page tables are those [SetupPage] makes. *)
Lemma loader_tables : exists m, SetupPage (Machine clear_phys 2 [] []) = Ret (tt, Machine m 2 [] []) /\ page_tables clear_phys m.
Proof.
  destruct (clear_machine_ok []) as (_ & H2 & _).
  destruct (SetupPage_run (Machine clear_phys 2 [] [])) as (m & E1 & E2).
  { eapply readable_le; [exact H2|clear; lia|clear; lia]. }
  exists m. split; [exact E1|exact E2].
Qed.

Lemma InitAll_correct_witness : exists m s' K T,
  SetupPage (Machine clear_phys 2 [] []) = Ret (tt, Machine m 2 [] []) /\
  InitAll (H := demo_env) start_image 1 (loaded_os m) = Ret (tt, s') /\
  initialised start_image 0x2D0000 (fun _ => 0) (loaded_os m) s' K T.
Proof.
  destruct loader_tables as (m & Hrun & Ht).
  destruct (InitAll_correct (H := demo_env) start_image 0x2D0000 (fun _ => 0) 0 (loaded_os m) (loaded_ok m Ht) eq_refl)
    as (s' & K & T & H1 & H2).
  exists m, s', K, T. split; [exact Hrun|]. split; [exact H1|exact H2].
Defined.

Lemma start_correct_witness : exists m s1 K T K' dirs p1 p2 p3,
  _start (H := demo_env) start_image 1 (loaded_os m) = Ret (tt, set_dev (Kb (keys (dev (loaded_os m))) K' T) s1) /\
  running start_image K K' dirs p1 p2 p3.
Proof.
  destruct loader_tables as (m & _ & Ht).
  assert (addresses_ok start_image) as Ha by (constructor; zdec).
  assert (0x2D0000 <= 0x2D0000) as Hs by (clear; lia).
  destruct (start_correct (H := demo_env) start_image 0x2D0000 (fun _ => 0) 0 (loaded_os m) (loaded_ok m Ht) eq_refl Ha Hs)
    as (s1 & K & T & K' & dirs & p1 & p2 & p3 & _ & H1 & H2).
  exists m, s1, K, T, K', dirs, p1, p2, p3. split; [exact H1|exact H2].
Defined.
